(* ===== verification/_CoqProject ===== *)
-Q . S2P
Prelude.v
Error.v
BTreeMap.v
Memory.v
GuestMemory.v
VirtDev.v
IoApic.v
Vmcs.v
VmExit.v
Clock.v
Apic.v
Timers.v
Vm.v
VmMemory.v
Isolation.v
Lapic.v
Platform.v
Uart.v
Pit.v
Devices.v
Pci.v
FwCfg.v
Core.v
Emulate.v
MemIo.v
VCpu.v
Acpi.v
Rsdt.v
Madt.v
Fadt.v
UnitTests.v
Channels.v
Logger.v
Linux.v
AcpiBuild.v
AcpiGuest.v
Machine.v
GuestImage.v
PhysDev.v
PerCore.v
Calibrate.v
Boot.v
Start.v
Idt.v
Registers.v
Vmx.v
Typing.v
Secure.v
NonInterference.v
CoreTyping.v
GuestConsole.v
Console.v
Format.v
Kmain.v
