(* ===== verification/Prelude.v ===== *)
(** * Mythril: a verification development of the hypervisor

    Mythril ([src/mythril/src]) is an x86 type-1 hypervisor that gives every virtual
    machine a fixed set of cores.  At start-up it reads the ACPI tables, builds each
    machine's memory in extended page tables (EPT), prepares one VMCS per core and
    enters the guests.  After that everything happens in VM exits: the exit is
    decoded, an instruction is emulated against a virtual device or the virtual local
    APIC, messages and timer interrupts are collected, and at most one pending
    interrupt is handed back to the guest.  Cores share only bounded message queues
    and the devices of their machine.

    ** Parts and files

    - [Prelude] (this file): fixed-width words, bit flags, byte encodings, slices, and
      the hints and tactics the other files use.
    - [Error] ([error.rs]): the error type; [res] has a result, an error or a panic; [st]
      is state passing with [res].  [BTreeMap]: the ordered maps the source uses.
    - [Memory], [GuestMemory] ([memory.rs]): EPT entries and tables over an explicit host
      memory, mapping, translation and byte access.  [VmMemory] ([vm.rs]): loading
      images, BIOS and RAM.  [Isolation]: the memory operations of all guests as steps on
      the one host memory.
    - [VirtDev] ([virtdev/mod.rs]): requests, events, the [EmulatedDevice] interface and the
      device map.  [Uart], [Pit], [Pci], [FwCfg], [Devices] ([virtdev/*.rs]): the devices.
    - [IoApic], [Apic] ([ioapic.rs], [apic.rs]): the drivers of the physical APICs.
      [Clock], [Timers] ([time.rs], [tsc.rs]): instants, timers and the timer wheel.
    - [Vmcs], [VmExit] ([vmcs.rs], [vmexit.rs]): fields, control words, exit decoding.
    - [Vm] ([vm.rs]): the set of machines, queues between cores, dispatch of events.
      [Channels]: all interleavings of the queue operations.
    - [Lapic] ([virtdev/lapic.rs]): the virtual local APIC.
    - [Platform]: what device handlers reach besides their own state (hardware, wheel,
      queues).  [Core]: everything an exit handler of a core can change.
    - [Emulate], [MemIo] ([emulate/*.rs]): port I/O, control registers, CPUID, memory
      mapped I/O.  [VCpu] ([vcpu.rs]): initialisation and the whole exit handler.
    - [Acpi], [Madt], [Fadt], [AcpiBuild] ([acpi/*.rs]): tables read and tables built.
      [AcpiGuest]: the tables as the guest finds them once its firmware has placed them.
    - [Linux] ([linux.rs]): loading a Linux guest through the firmware configuration.
    - [Logger] ([logger.rs]): the text console.
    - [Machine] ([vm.rs], [virtdev/mod.rs], [kmain.rs], [config.rs]): all devices behind one
      interface, and the machines built from the user's configuration.
    - [Boot] ([multiboot.rs], [multiboot2.rs], [boot_info.rs], [global_alloc.rs]): the heap
      region, the boot modules and the ACPI root pointer.  [PerCore] ([percore.rs],
      [lock/ro_after_init.rs], [ap.rs]): per-core variables.  [Start] ([kmain.rs],
      [ap_startup.S], [vcpu.rs]): starting the processors, as step relations over the
      interleavings of the cores.
    - [PhysDev] ([physdev/com.rs], [physdev/keyboard.rs]): the drivers of the host's serial
      port and keyboard controller.  [Calibrate] ([tsc.rs], [apic.rs], [physdev/pit.rs]):
      calibration of the clock and of the APIC timer.
    - [Idt] ([interrupt/*.rs]): the interrupt table.  [Vmx] ([vmx.rs], [vmcs.rs], [vmexit.rs],
      [vcpu.rs]): VMX operation, active and temporarily active VMCSs, entry points.
    - [Typing], [CoreTyping]: checks of the encoding of machine integers: values stay in
      the ranges of their Rust types, in memory and devices and in the whole exit handler.
    - [Secure], [NonInterference]: two runs of the same code from states that differ only
      inside other machines, first for memory and devices, then for the whole exit
      handler; and the system of all machines, whose steps are creating a core, arriving
      at the start barrier, one poll of a waiting core, one exit, and one store of a
      running guest.
    - [GuestConsole]: a guest's string output followed through page tables, dispatch, UART
      and console.  [Console] ([logger.rs]): the console as all cores share it, with its
      lock.  [Kmain] ([kmain.rs], [config.rs]): the whole initialisation on the boot processor.
    - [GuestImage] ([vm.rs]): what a guest's memory holds when it starts, as a function of
      the BIOS, the images and the size.
    - [Rsdt] ([acpi/rsdt.rs]): the iterator over the root table.  [Registers]
      ([registers.rs], [interrupt/idt.rs]): the descriptor-table registers.  [Format]: the
      hand-written text output of requests, tables and the VMCS, and the panic handler.
    - [UnitTests]: the unit tests of the sources, run on the model's functions;
      [test_vm_creation], which builds 32 MB, is a lemma of [GuestImage].

    ** Conventions

    A [u8] to [u64] is a [Z] kept in range; arithmetic that can leave the range wraps,
    as in the release profile.  Explicit panics, failed unwraps and out-of-range
    indices are [Panic].  Format strings of errors are kept with their numeric
    arguments.  State is threaded explicitly and is kept on errors, so theorems say
    what an error leaves behind.  Hardware and crates are class parameters: the host
    allocator ([HostAlloc]), address extraction of guest page-table entries
    ([GuestPaging]), I/O APIC registers ([IoApicHw]), the capability MSRs and the
    acceptance of VMCS writes ([VmxCpu]), CPUID and serial input ([CoreCpu]), the clock
    ([TimeSource]), the instruction decoder ([Decoder]), port I/O ([PortBus]), the time stamp
    counter ([HostTsc]), the local APIC's registers ([ApicCpu]), the VMX instructions ([VmxHw]), the
    heap crate ([LockedHeap]), the linker's section ([PerCoreLayout]), the fault handlers'
    addresses ([FaultHandlers]), the guest's firmware ([TableLoader]).  [Kmain] takes the parser of the configuration and the clock's
    readings as arguments.  Where a theorem needs a law of one of them the law is in a
    separate class ([Ps2Hw], [TscPit], [ApicCpuLaws], [VmxLaws], [PerCoreLayoutLaws],
    [CpuLaws], [TableLoaderLaws], ...), with an instance that satisfies it.  The laws are the
    documented behaviour: the interval timer's output rises [N] to [N + 1] periods after a
    count of [N] was written with the gate on; the APIC's timer counts down from what was
    loaded; VMXON needs the firmware's permission and the fixed bits of the control
    registers; the keyboard controller takes a byte only when its input buffer is empty; the
    firmware executes the table loader's commands as their records are documented.

    Two things are left out of the domain: allocations that fail for their size (a
    string input of more bytes than the heap, a read of nearly [2 ^ 64] bytes), and time
    sources of frequency 0.

    Loops that are not structural take fuel: byte access takes one round per page
    touched and is given enough from the length; [busy_wait], [wait_for_init], the
    drivers' status polls and the calibration loops poll, and their theorems state how
    many polls suffice; [wait_all_ready] takes the other cores' progress as an argument;
    the MADT iterator has a theorem that bounds its items or shows where it stays, and
    where [kmain] collects it, running out of fuel is no result ([ics_collect]).

    ** What the theorems show

    - Memory: the page tables implement a partial map from guest pages to frames;
      mapping inserts one page or fails without effect; written bytes are read back and
      nothing else changes; of a new machine, and of every machine
      once all are built, each byte is known: the BIOS at its two addresses, the images at
      theirs, zeros below the configured size, nothing elsewhere.
    - Isolation: no operation of one guest changes what another one reads, and the
      machines built from any configuration share neither tables nor frames.  What an
      exit does depends on nothing inside other machines and changes nothing there, so
      the machines stay isolated however they run; only messages cross, never
      interrupts (a start-up request or a console grant can).
    - Devices: the device map implements a partial function, accepts exactly the regions
      that are free and keeps them disjoint; the devices' observable behaviour (console switch, key delivery, timer
      programming, bus enumeration, firmware files); the devices of a built machine
      never conflict and every port finds the device that claims it.
    - Interrupts: redirection entries and command words encode and decode;
      broadcasts reach exactly the other cores of the machine, up to the first with a full
      queue; at the end of
      an exit the lowest pending vector is injected and no other is lost.
    - Time: no timer fires early or is lost, the hardware timer is programmed for the
      soonest; busy waiting ends; the clock's frequency and the APIC timer's ticks are those
      of the hardware within stated bounds; a programmed interval timer runs once.
    - Cores: queues are bounded and first-in first-out under every interleaving;
      a waiting core starts once a start-up message is queued; a running one handles all
      messages, unless a cancellation cannot be passed on.
    - Tables: what the hypervisor encodes it reads back; the processor decodes from the
      interrupt table the gates that were installed; a guest finds every table built for it,
      with valid checksums, and its kernel, command line and RAM disk as its boot protocol says.
    - Start-up: the heap lies in available memory beside every boot module; the drivers
      and calibrations reach their configured state; every started processor gets its
      own stack and index; the cores of a machine start together, or never when one of them is
      missing or listed twice; per-core variables are private when no two processors take
      one index; which VMCS is current at each point; after a complete
      initialisation the cores the configuration assigns, and no others, are started.
    - Console: under every interleaving of the cores each message appears whole; what a
      guest prints with one string instruction (up to eight bytes) reaches the console.

    ** Not modelled

    Assembly (mode switches, exit and fault trampolines, the switch of descriptor tables; their
    effect is a parameter or a step), locks other than the console's (an operation
    under a lock is one atomic step; in [NonInterference] a whole exit is one), parsing of
    the bootloader's structures and of the user configuration by third-party crates,
    derived debug formatting, and the text of log messages (logging has no effect outside
    [Console]). *)

From Stdlib Require Export ZArith Lia.
From stdpp Require Export base numbers option list gmap strings.

#[global] Open Scope Z_scope.

Declare Scope word_scope.
Delimit Scope word_scope with word.

Create HintDb word.
Create HintDb mythril.
Create Rewrite HintDb bytes.

(** ** Fixed-width integers

    A [u8]/[u16]/[u32]/[u64] value is a [Z] in [0, 2^w).  Operations whose
    result can leave the range wrap, as Rust's do when overflow checks are off
    (the release profile the Makefile builds by default). *)

Definition wrap (w x : Z) : Z := x mod 2 ^ w.

Definition u8 (x : Z) : Z := wrap 8 x.
Definition u16 (x : Z) : Z := wrap 16 x.
Definition u32 (x : Z) : Z := wrap 32 x.
Definition u64 (x : Z) : Z := wrap 64 x.

(** [is_u w x]: [x] is a value of the unsigned type of width [w]. *)
Definition is_u (w x : Z) : Prop := 0 <= x < 2 ^ w.

#[export] Instance is_u_dec w x : Decision (is_u w x).
Proof. unfold is_u. apply _. Defined.

Notation "x '&' y" := (Z.land x y) (at level 40, left associativity) : word_scope.
Notation "x '|||' y" := (Z.lor x y) (at level 50, left associativity) : word_scope.
Notation "x '<<' k" := (Z.shiftl x k) (at level 35, no associativity) : word_scope.
Notation "x '>>' k" := (Z.shiftr x k) (at level 35, no associativity) : word_scope.

(** [!x] on the unsigned type of width [w]. *)
Definition bnot (w x : Z) : Z := wrap w (Z.lnot x).

(** [x & mask != 0] *)
Definition has_bits (x mask : Z) : bool := negb (Z.land x mask =? 0).

(** Bit [i] of [x] as the code tests it: [x & (1 << i) != 0]. *)
Definition bit (x i : Z) : bool := has_bits x (Z.shiftl 1 i).

(** Types declared with [bitflags!]: [all] lists the declared flags. *)
Definition flags_union (all : list Z) : Z := foldr Z.lor 0 all.
Definition flags_contains (x f : Z) : bool := Z.land x f =? f.
Definition from_bits (all : list Z) (x : Z) : option Z :=
  if Z.land x (flags_union all) =? x then Some x else None.
Definition from_bits_truncate (all : list Z) (x : Z) : Z := Z.land x (flags_union all).

Definition b2z (b : bool) : Z := if b then 1 else 0.

Lemma wrap_is_u w x : 0 <= w -> is_u w (wrap w x).
Proof. intros. unfold wrap, is_u. apply Z.mod_pos_bound. lia. Qed.

Lemma wrap_small w x : is_u w x -> wrap w x = x.
Proof. intros. unfold wrap. apply Z.mod_small. done. Qed.

Lemma wrap_idemp w x : wrap w (wrap w x) = wrap w x.
Proof. unfold wrap. apply Zmod_mod. Qed.

Lemma is_u_weaken w w' x : 0 <= w <= w' -> is_u w x -> is_u w' x.
Proof.
  intros Hw [H0 H1]. split; [done|].
  eapply Z.lt_le_trans; [exact H1|]. apply Z.pow_le_mono_r; lia.
Qed.

Lemma land_ones_mod x n : 0 <= n -> Z.land x (Z.ones n) = x mod 2 ^ n.
Proof. apply Z.land_ones. Qed.

Lemma is_u_testbit w x : 0 <= w -> is_u w x -> forall i, w <= i -> Z.testbit x i = false.
Proof.
  intros Hw Hx i Hi. rewrite <- (wrap_small w x) by done.
  unfold wrap. rewrite Z.mod_pow2_bits_high by lia. done.
Qed.

Lemma testbit_is_u w x :
  0 <= w -> (forall i, w <= i -> Z.testbit x i = false) -> is_u w x.
Proof.
  intros Hw Hx.
  assert (x = wrap w x) as ->; [|by apply wrap_is_u].
  unfold wrap. apply Z.bits_inj'. intros i Hi.
  destruct (decide (i < w)).
  - by rewrite Z.mod_pow2_bits_low by lia.
  - rewrite Z.mod_pow2_bits_high by lia. apply Hx. lia.
Qed.

Lemma land_is_u_l w x y : 0 <= w -> is_u w x -> is_u w (Z.land x y).
Proof.
  intros Hw Hx. apply testbit_is_u; [done|]. intros i Hi.
  rewrite Z.land_spec, (is_u_testbit w x) by done. done.
Qed.

Lemma land_is_u_r w x y : 0 <= w -> is_u w y -> is_u w (Z.land x y).
Proof. intros. rewrite Z.land_comm. by apply land_is_u_l. Qed.

Lemma lor_is_u w x y : 0 <= w -> is_u w x -> is_u w y -> is_u w (Z.lor x y).
Proof.
  intros Hw Hx Hy. apply testbit_is_u; [done|]. intros i Hi.
  rewrite Z.lor_spec, (is_u_testbit w x), (is_u_testbit w y) by done. done.
Qed.

Lemma shiftr_is_u w x k : 0 <= w -> 0 <= k -> is_u w x -> is_u w (Z.shiftr x k).
Proof.
  intros Hw Hk Hx. apply testbit_is_u; [done|]. intros i Hi.
  rewrite Z.shiftr_spec by lia. apply (is_u_testbit w); [done..|lia].
Qed.

Lemma bnot_is_u w x : 0 <= w -> is_u w (bnot w x).
Proof. intros. by apply wrap_is_u. Qed.

Lemma bnot_testbit w x i :
  0 <= w -> 0 <= i -> Z.testbit (bnot w x) i = (i <? w) && negb (Z.testbit x i).
Proof.
  intros Hw Hi. unfold bnot, wrap. destruct (Z.ltb_spec i w).
  - rewrite Z.mod_pow2_bits_low by lia. rewrite Z.lnot_spec by lia. done.
  - rewrite Z.mod_pow2_bits_high by lia. done.
Qed.

(** Bits of a contiguous mask of [n] ones starting at bit [k]. *)
Lemma testbit_mask n k i :
  0 <= n -> 0 <= k -> 0 <= i ->
  Z.testbit (Z.shiftl (Z.ones n) k) i = (k <=? i) && (i <? k + n).
Proof.
  intros Hn Hk Hi. rewrite Z.shiftl_spec by lia.
  destruct (Z.leb_spec k i); simpl.
  - destruct (Z.ltb_spec i (k + n)).
    + by rewrite Z.ones_spec_low by lia.
    + by rewrite Z.ones_spec_high by lia.
  - by rewrite Z.testbit_neg_r by lia.
Qed.

Lemma testbit_single k i :
  0 <= k -> 0 <= i -> Z.testbit (Z.shiftl 1 k) i = (i =? k).
Proof.
  intros Hk Hi. change 1 with (Z.ones 1). rewrite testbit_mask by lia.
  destruct (Z.leb_spec k i), (Z.ltb_spec i (k + 1)), (Z.eqb_spec i k); simpl; lia.
Qed.

Lemma bit_testbit x i : 0 <= i -> bit x i = Z.testbit x i.
Proof.
  intros Hi. unfold bit, has_bits.
  destruct (Z.testbit x i) eqn:E.
  - apply negb_true_iff, Z.eqb_neq. intros H0.
    assert (Z.testbit (Z.land x (Z.shiftl 1 i)) i = true) as H1.
    { rewrite Z.land_spec, testbit_single, E by lia. by rewrite Z.eqb_refl. }
    rewrite H0, Z.testbit_0_l in H1. done.
  - apply negb_false_iff, Z.eqb_eq. apply Z.bits_inj'. intros j Hj.
    rewrite Z.land_spec, testbit_single, Z.testbit_0_l by lia.
    destruct (Z.eqb_spec j i); [subst; by rewrite E | by rewrite andb_false_r].
Qed.

(** Packing a field above [k] low bits is addition. *)
Lemma lor_shiftl_add k a b :
  0 <= k -> is_u k a -> Z.lor a (Z.shiftl b k) = a + b * 2 ^ k.
Proof.
  intros Hk Ha.
  assert (Z.land a (Z.shiftl b k) = 0) as Hl.
  { apply Z.bits_inj'. intros i Hi. rewrite Z.land_spec, Z.testbit_0_l.
    rewrite Z.shiftl_spec by lia. destruct (decide (i < k)).
    - rewrite (Z.testbit_neg_r b) by lia. apply andb_false_r.
    - by rewrite (is_u_testbit k a) by (done || lia). }
  rewrite <- Z.lxor_lor by done. rewrite <- Z.add_nocarry_lxor by done.
  rewrite Z.shiftl_mul_pow2 by done. done.
Qed.

Lemma lor_shiftl_add' k a b :
  0 <= k -> is_u k a -> Z.lor (Z.shiftl b k) a = a + b * 2 ^ k.
Proof. intros. rewrite Z.lor_comm. by apply lor_shiftl_add. Qed.

(** Masks the code uses, as remainders. *)
Lemma land_mask (m n x : Z) : m = Z.ones n -> 0 <= n -> Z.land x m = x mod 2 ^ n.
Proof. intros -> ?. by apply Z.land_ones. Qed.

Ltac land_to_mod :=
  repeat match goal with
  | |- context [Z.land ?x 1] => rewrite (land_mask 1 1 x) by (reflexivity || lia)
  | |- context [Z.land ?x 3] => rewrite (land_mask 3 2 x) by (reflexivity || lia)
  | |- context [Z.land ?x 7] => rewrite (land_mask 7 3 x) by (reflexivity || lia)
  | |- context [Z.land ?x 15] => rewrite (land_mask 15 4 x) by (reflexivity || lia)
  | |- context [Z.land ?x 31] => rewrite (land_mask 31 5 x) by (reflexivity || lia)
  | |- context [Z.land ?x 63] => rewrite (land_mask 63 6 x) by (reflexivity || lia)
  | |- context [Z.land ?x 127] => rewrite (land_mask 127 7 x) by (reflexivity || lia)
  | |- context [Z.land ?x 255] => rewrite (land_mask 255 8 x) by (reflexivity || lia)
  | |- context [Z.land ?x 511] => rewrite (land_mask 511 9 x) by (reflexivity || lia)
  | |- context [Z.land ?x 4095] => rewrite (land_mask 4095 12 x) by (reflexivity || lia)
  | |- context [Z.land ?x 65535] => rewrite (land_mask 65535 16 x) by (reflexivity || lia)
  | |- context [Z.land ?x 2097151] => rewrite (land_mask 2097151 21 x) by (reflexivity || lia)
  | |- context [Z.land ?x 4294967295] => rewrite (land_mask 4294967295 32 x) by (reflexivity || lia)
  end.

(** A contiguous mask selects a field. *)
(** Clearing the low [n] bits of a word. *)
Lemma land_clear_low w n x : 0 <= n <= w -> is_u w x -> Z.land x (bnot w (Z.ones n)) = Z.shiftl (x / 2 ^ n) n.
Proof.
  intros Hn Hx. apply Z.bits_inj'. intros i Hi. rewrite Z.land_spec, bnot_testbit, Z.shiftl_spec by lia.
  rewrite <- Z.shiftr_div_pow2 by lia. destruct (decide (i < n)).
  - rewrite Z.ones_spec_low by lia. simpl. rewrite andb_false_r, andb_false_r, (Z.testbit_neg_r _ (i - n)) by lia. done.
  - rewrite Z.ones_spec_high, Z.shiftr_spec by lia. simpl. rewrite andb_true_r.
    replace (i - n + n) with i by lia. destruct (Z.ltb_spec i w); [by rewrite andb_true_r|].
    rewrite andb_false_r. symmetry. apply (is_u_testbit w); [lia|done|done].
Qed.

Lemma land_field n k x :
  0 <= n -> 0 <= k ->
  Z.land x (Z.shiftl (Z.ones n) k) = Z.shiftl (Z.shiftr x k mod 2 ^ n) k.
Proof.
  intros Hn Hk. apply Z.bits_inj'. intros i Hi.
  rewrite Z.land_spec, testbit_mask, Z.shiftl_spec by lia.
  destruct (Z.leb_spec k i); simpl; [|rewrite andb_false_r, Z.testbit_neg_r by lia; done].
  destruct (Z.ltb_spec i (k + n)).
  - rewrite Z.mod_pow2_bits_low, Z.shiftr_spec by lia. rewrite andb_true_r. f_equal. lia.
  - rewrite Z.mod_pow2_bits_high by lia. apply andb_false_r.
Qed.

Lemma shiftr_land_field m n k x :
  m = Z.shiftl (Z.ones n) k -> 0 <= n -> 0 <= k ->
  Z.shiftr (Z.land x m) k = (x / 2 ^ k) mod 2 ^ n.
Proof.
  intros -> Hn Hk. rewrite land_field, Z.shiftr_shiftl_l, Z.sub_diag, Z.shiftl_0_r by lia.
  by rewrite Z.shiftr_div_pow2.
Qed.

Lemma land_field_0 m n k x :
  m = Z.shiftl (Z.ones n) k -> 0 <= n -> 0 <= k ->
  Z.land x m = 0 <-> (x / 2 ^ k) mod 2 ^ n = 0.
Proof.
  intros -> Hn Hk. rewrite land_field, Z.shiftl_mul_pow2, Z.shiftr_div_pow2 by done.
  split; [|intros ->; done]. intros H. apply Z.eq_mul_0 in H as [H|H]; [done|].
  pose proof (Z.pow_pos_nonneg 2 k). lia.
Qed.

(** Extracting the field [f] from a word given as its parts. *)
Lemma field_at k n m lo f hi x :
  m = Z.ones n -> 0 <= k -> 0 <= n -> 0 <= lo < 2 ^ k -> 0 <= f < 2 ^ n ->
  x = lo + 2 ^ k * (f + 2 ^ n * hi) -> Z.land (Z.shiftr x k) m = f.
Proof.
  intros -> Hk Hn Hlo Hf ->. rewrite Z.land_ones, Z.shiftr_div_pow2 by done.
  rewrite (Z.add_comm lo), Z.mul_comm, Z.div_add_l by lia.
  rewrite (Z.div_small lo), Z.add_0_r, (Z.mul_comm (2 ^ n)), Z.mod_add by lia.
  by apply Z.mod_small.
Qed.

Lemma bit_field x i : 0 <= i -> bit x i = negb (Z.land (Z.shiftr x i) 1 =? 0).
Proof.
  intros Hi. rewrite bit_testbit by done. rewrite <- (Z.add_0_l i) at 1.
  rewrite <- Z.shiftr_spec by lia. rewrite Z.bit0_odd, Zodd_mod.
  rewrite (land_mask 1 1) by (reflexivity || lia). change (2 ^ 1) with 2.
  pose proof (Z.mod_pos_bound (Z.shiftr x i) 2).
  destruct (Z.eqb_spec (Z.shiftr x i mod 2) 1), (Z.eqb_spec (Z.shiftr x i mod 2) 0); done || lia.
Qed.

(** A boolean field. *)
Lemma bit_at k lo (b : bool) hi x :
  0 <= k -> 0 <= lo < 2 ^ k -> x = lo + 2 ^ k * (b2z b + 2 * hi) -> bit x k = b.
Proof.
  intros Hk Hlo Hx. rewrite bit_field by done.
  rewrite (field_at k 1 1 lo (b2z b) hi) by (done || lia || (destruct b; simpl; lia)).
  by destruct b.
Qed.

(** Turn shifts and low masks into division and remainder by literals, then
    decide with [lia]. *)
Ltac pow2_literals :=
  repeat match goal with
  | |- context [2 ^ ?k] =>
      lazymatch isZcst k with true => let v := eval vm_compute in (2 ^ k) in
        change (2 ^ k) with v end
  | H : context [2 ^ ?k] |- _ =>
      lazymatch isZcst k with true => let v := eval vm_compute in (2 ^ k) in
        change (2 ^ k) with v in H end
  end.

Ltac words :=
  unfold u8, u16, u32, u64, wrap, is_u in *; land_to_mod;
  rewrite ?Z.shiftr_div_pow2, ?Z.shiftl_mul_pow2 by lia;
  pow2_literals; Z.to_euclidean_division_equations; lia.

(** ** Bytes: the integer/byte conversions of the Rust core library *)

Definition is_byte (b : Z) : Prop := is_u 8 b.

(** [x.to_le_bytes()] for an [n]-byte integer. *)
Fixpoint le_bytes (n : nat) (x : Z) : list Z :=
  match n with
  | O => []
  | S n => x mod 256 :: le_bytes n (x / 256)
  end.

Fixpoint of_le (l : list Z) : Z :=
  match l with
  | [] => 0
  | b :: r => b + 256 * of_le r
  end.

(** [x.to_be_bytes()] and [from_be_bytes]. *)
Definition be_bytes (n : nat) (x : Z) : list Z := reverse (le_bytes n x).
Definition of_be (l : list Z) : Z := of_le (reverse l).

Lemma length_le_bytes n x : length (le_bytes n x) = n.
Proof. revert x. induction n; intros x; simpl; [done|by rewrite IHn]. Qed.

Lemma length_be_bytes n x : length (be_bytes n x) = n.
Proof. unfold be_bytes. by rewrite length_reverse, length_le_bytes. Qed.

Lemma le_bytes_byte n x : Forall is_byte (le_bytes n x).
Proof.
  revert x. induction n; intros x; simpl; constructor; [|done].
  unfold is_byte, is_u. change (2 ^ 8) with 256. apply Z.mod_pos_bound. lia.
Qed.

Lemma be_bytes_byte n x : Forall is_byte (be_bytes n x).
Proof. unfold be_bytes. apply Forall_reverse, le_bytes_byte. Qed.

Lemma of_le_bytes n x : of_le (le_bytes n x) = wrap (8 * Z.of_nat n) x.
Proof.
  revert x. induction n as [|n IH]; intros x; simpl le_bytes; simpl of_le.
  - unfold wrap. change (2 ^ (8 * Z.of_nat 0)) with 1. by rewrite Z.mod_1_r.
  - rewrite IH. unfold wrap.
    replace (8 * Z.of_nat (S n)) with (8 + 8 * Z.of_nat n) by lia.
    rewrite Z.pow_add_r by lia. change (2 ^ 8) with 256.
    rewrite Z.rem_mul_r by lia. done.
Qed.

Lemma le_bytes_of_le l : Forall is_byte l -> le_bytes (length l) (of_le l) = l.
Proof.
  induction 1 as [|b l Hb Hl IH]; simpl; [done|].
  unfold is_byte, is_u in Hb. change (2 ^ 8) with 256 in Hb.
  rewrite Z.mul_comm, Z.mod_add, Z.div_add by lia.
  rewrite Z.mod_small, Z.div_small by lia. rewrite Z.add_0_l, IH. done.
Qed.

Lemma of_be_bytes n x : of_be (be_bytes n x) = wrap (8 * Z.of_nat n) x.
Proof. unfold of_be, be_bytes. rewrite reverse_involutive. apply of_le_bytes. Qed.

Lemma be_bytes_of_be l : Forall is_byte l -> be_bytes (length l) (of_be l) = l.
Proof.
  intros Hl. unfold of_be, be_bytes. rewrite <- length_reverse.
  rewrite le_bytes_of_le by (by apply Forall_reverse). apply reverse_involutive.
Qed.

Lemma of_le_is_u l : Forall is_byte l -> is_u (8 * Z.of_nat (length l)) (of_le l).
Proof.
  intros Hl. rewrite <- (le_bytes_of_le l Hl) at 2. rewrite of_le_bytes.
  apply wrap_is_u. lia.
Qed.

Lemma of_be_is_u l : Forall is_byte l -> is_u (8 * Z.of_nat (length l)) (of_be l).
Proof.
  intros Hl. unfold of_be. rewrite <- length_reverse.
  by apply of_le_is_u, Forall_reverse.
Qed.

#[export] Hint Rewrite length_le_bytes length_be_bytes of_le_bytes of_be_bytes : bytes.
#[export] Hint Resolve le_bytes_byte be_bytes_byte : mythril.

(** ** Slices

    [slice l a b] is [&l[a..b]], with [None] where Rust panics; [blit l a bs]
    is [l[a..a + bs.len()].copy_from_slice(bs)] inside the bounds. *)

Definition slice {A} (l : list A) (a b : nat) : option (list A) :=
  if bool_decide (a <= b <= length l)%nat then Some (take (b - a) (drop a l)) else None.

Definition blit {A} (l : list A) (a : nat) (bs : list A) : list A :=
  take a l ++ bs ++ drop (a + length bs) l.

Lemma length_blit {A} (l : list A) a bs :
  (a + length bs <= length l)%nat -> length (blit l a bs) = length l.
Proof. intros. unfold blit. rewrite !length_app, length_take, length_drop. lia. Qed.

Lemma slice_Some {A} (l : list A) a b s :
  slice l a b = Some s <-> (a <= b <= length l)%nat /\ s = take (b - a) (drop a l).
Proof. unfold slice. case_bool_decide; naive_solver. Qed.

Lemma slice_length {A} (l : list A) a b s : slice l a b = Some s -> length s = (b - a)%nat.
Proof. intros [? ->]%slice_Some. rewrite length_take, length_drop. lia. Qed.

Lemma take_drop_blit {A} (l : list A) a bs :
  (a + length bs <= length l)%nat -> take (length bs) (drop a (blit l a bs)) = bs.
Proof.
  intros. unfold blit. rewrite drop_app_length' by (rewrite length_take; lia).
  by rewrite take_app_length.
Qed.

Lemma blit_lookup_ne {A} (l : list A) a bs i :
  (a + length bs <= length l)%nat -> (i < a \/ a + length bs <= i)%nat -> blit l a bs !! i = l !! i.
Proof.
  intros Hl Hi. unfold blit. destruct (decide (i < a)%nat) as [H|H].
  - rewrite lookup_app_l by (rewrite length_take; lia). by rewrite lookup_take_lt by done.
  - rewrite lookup_app_r by (rewrite length_take; lia). rewrite length_take, Nat.min_l by lia.
    rewrite lookup_app_r by lia. rewrite lookup_drop. f_equal. lia.
Qed.

(** A slice depends only on the elements in its range. *)
Lemma slice_ext {A} (l l' : list A) a b :
  length l = length l' -> (forall i, (a <= i < b)%nat -> l !! i = l' !! i) -> slice l a b = slice l' a b.
Proof.
  intros Hl He. unfold slice. rewrite <- Hl. case_bool_decide; [|done]. f_equal. apply list_eq. intros i.
  destruct (decide (i < b - a)%nat) as [Hi|Hi].
  - rewrite !lookup_take_lt, !lookup_drop by done. apply He. lia.
  - rewrite !lookup_take_ge by lia. done.
Qed.

Lemma slice_app {A} (l e : list A) a b s : slice l a b = Some s -> slice (l ++ e) a b = Some s.
Proof.
  unfold slice. repeat case_bool_decide; try done; rewrite length_app in *; try lia. intros [= <-]. f_equal.
  rewrite drop_app_le by lia. rewrite take_app_le; [done|]. rewrite length_drop. lia.
Qed.

Lemma slice_is_Some {A} (l : list A) a b : (a <= b <= length l)%nat -> is_Some (slice l a b).
Proof. intros H. unfold slice. rewrite bool_decide_true by lia. by eexists. Qed.

Lemma slice_blit {A} (l : list A) a bs :
  (a + length bs <= length l)%nat -> slice (blit l a bs) a (a + length bs) = Some bs.
Proof.
  intros H. unfold slice. rewrite bool_decide_true by (rewrite length_blit by done; lia).
  replace (a + length bs - a)%nat with (length bs) by lia. by rewrite take_drop_blit.
Qed.

Lemma blit_byte l a bs : Forall is_byte l -> Forall is_byte bs -> Forall is_byte (blit l a bs).
Proof.
  intros Hl Hb. unfold blit. repeat (apply Forall_app; split); try done.
  - by apply Forall_take.
  - by apply Forall_drop.
Qed.

(** ** Case analysis on the boolean tests of the models *)

Ltac zcase :=
  match goal with
  | |- context [if ?a =? ?b then _ else _] => destruct (Z.eqb_spec a b)
  | |- context [if ?a <? ?b then _ else _] => destruct (Z.ltb_spec a b)
  | |- context [if ?a <=? ?b then _ else _] => destruct (Z.leb_spec a b)
  end.

(** ** Filters *)

Lemma list_filter_all {A} (P : A -> Prop) `{!forall x, Decision (P x)} (l : list A) :
  Forall P l -> filter P l = l.
Proof. induction 1 as [|x l Hx Hl IH]; [done|]. by rewrite filter_cons_True, IH. Qed.

Lemma list_filter_ext {A} (P Q : A -> Prop) `{!forall x, Decision (P x)} `{!forall x, Decision (Q x)} (l : list A) :
  (forall x, x ∈ l -> P x <-> Q x) -> filter P l = filter Q l.
Proof.
  induction l as [|a l IH]; intros Hpq; [done|]. rewrite !filter_cons.
  rewrite IH by (intros x Hx; apply Hpq; by right).
  destruct (decide (P a)) as [Hp|Hp], (decide (Q a)) as [Hq|Hq]; try done; exfalso;
    [apply Hq|apply Hp]; apply Hpq; (done || left).
Qed.
