(* ===== verification/Error.v ===== *)
(** * Errors, results and the state monad ([mythril/src/error.rs])

    [Error] has the constructors of the source's [Error]; a [format!] payload is
    kept as its template and its arguments.  [res A] is [Result<A>] together
    with the outcome of a Rust panic ([unwrap], [expect], [assert!],
    [unreachable!] and out-of-range indexing).  [st S A] is code that mutates a
    state [S]: the state it leaves behind is kept also when it fails, because
    [?] returns without undoing anything. *)

From S2P Require Import Prelude.

(** The value of a [format!] (or of a literal): template and arguments. *)
Record msg := Msg { m_template : string; m_args : list Z }.
Notation "'str' s" := (Msg s []) (at level 10, s at level 9).

#[export] Instance msg_eq_dec : EqDecision msg.
Proof. solve_decision. Defined.

(** ** Enumerations with a numeric representation

    [#[derive(TryFromPrimitive)]] on a [#[repr(..)]] enumeration: the conversion
    from a number finds the variant with that discriminant. *)

Class NumEnum (E : Type) := {
  ne_all : list E;
  ne_code : E -> Z
}.

Class NumEnumOk (E : Type) `{NumEnum E} := {
  ne_complete : forall e : E, e ∈ ne_all;
  ne_inj : forall e1 e2 : E, ne_code e1 = ne_code e2 -> e1 = e2
}.

Definition try_from_primitive {E} `{NumEnum E} (v : Z) : option E :=
  head (filter (fun e => ne_code e = v) ne_all).

Lemma try_from_primitive_Some {E} `{NumEnum E} v (e : E) :
  try_from_primitive v = Some e -> ne_code e = v.
Proof.
  unfold try_from_primitive. intros He. apply head_Some_elem_of in He.
  apply list_elem_of_filter in He. naive_solver.
Qed.

Lemma try_from_primitive_code {E} `{NumEnumOk E} (e : E) :
  try_from_primitive (ne_code e) = Some e.
Proof.
  unfold try_from_primitive.
  assert (e ∈ filter (fun e' => ne_code e' = ne_code e) ne_all) as Hin
    by (apply list_elem_of_filter; split; [done|apply ne_complete]).
  destruct (filter _ _) as [|e' l] eqn:E'.
  { by apply not_elem_of_nil in Hin. }
  simpl. f_equal. apply ne_inj.
  assert (e' ∈ filter (fun e' => ne_code e' = ne_code e) ne_all) as Hin'
    by (rewrite E'; left).
  apply list_elem_of_filter in Hin'. naive_solver.
Qed.

Lemma try_from_primitive_iff {E} `{NumEnumOk E} v (e : E) :
  try_from_primitive v = Some e <-> ne_code e = v.
Proof.
  split; [apply try_from_primitive_Some|].
  intros <-. apply try_from_primitive_code.
Qed.

(** Completeness and injectivity of an explicit enumeration, by computation. *)
Ltac num_enum_ok :=
  split;
  [ let e := fresh in intros e; destruct e; simpl; set_solver
  | let a := fresh in let b := fresh in
    intros a b; destruct a, b; simpl; intros; first [reflexivity | discriminate | lia] ].

(** ** [VmInstructionError] and [Error] *)

Inductive VmInstructionError :=
| UnknownError | VmCallInRoot | VmClearInvalidAddress | VmClearWithVmxOnPtr
| VmLaunchNonClear | VmResumeNonLaunched | VmResumeAfterVmxOff
| VmEntryWithInvalidCtrlFields | VmEntryWithInvalidHostFields
| VmPtrLdWithInvalidPhysAddr | VmPtrLdWithVmxOnPtr | VmPtrLdWithWrongVmcsRevision
| VmReadWriteToUnsupportedField | VmWriteToReadOnly | VmxOnInRootMode
| VmEntryWithInvalidExecVmcsPtr | VmEntryWithNonLaunchExecVmcs | VmEntryWithExecVmcsPtr
| VmCallWithNonClearVmcs | VmCallWithInvalidVmExitFields | VmCallWithIncorrectMsegRev
| VmxOffUnderDualMonitor | VmCallWithInvalidSmmFeatures | VmEntryWithInvalidVmExecFields
| VmEntryWithEventsBlockedMovSs | InvalidOperandToInveptInvvpid.

#[export] Instance VmInstructionError_eq_dec : EqDecision VmInstructionError.
Proof. solve_decision. Defined.

#[export] Instance VmInstructionError_enum : NumEnum VmInstructionError := {
  ne_all := [UnknownError; VmCallInRoot; VmClearInvalidAddress; VmClearWithVmxOnPtr;
    VmLaunchNonClear; VmResumeNonLaunched; VmResumeAfterVmxOff;
    VmEntryWithInvalidCtrlFields; VmEntryWithInvalidHostFields;
    VmPtrLdWithInvalidPhysAddr; VmPtrLdWithVmxOnPtr; VmPtrLdWithWrongVmcsRevision;
    VmReadWriteToUnsupportedField; VmWriteToReadOnly; VmxOnInRootMode;
    VmEntryWithInvalidExecVmcsPtr; VmEntryWithNonLaunchExecVmcs; VmEntryWithExecVmcsPtr;
    VmCallWithNonClearVmcs; VmCallWithInvalidVmExitFields; VmCallWithIncorrectMsegRev;
    VmxOffUnderDualMonitor; VmCallWithInvalidSmmFeatures; VmEntryWithInvalidVmExecFields;
    VmEntryWithEventsBlockedMovSs; InvalidOperandToInveptInvvpid];
  ne_code e := match e with
    | UnknownError => 0 | VmCallInRoot => 1 | VmClearInvalidAddress => 2
    | VmClearWithVmxOnPtr => 3 | VmLaunchNonClear => 4 | VmResumeNonLaunched => 5
    | VmResumeAfterVmxOff => 6 | VmEntryWithInvalidCtrlFields => 7
    | VmEntryWithInvalidHostFields => 8 | VmPtrLdWithInvalidPhysAddr => 9
    | VmPtrLdWithVmxOnPtr => 10 | VmPtrLdWithWrongVmcsRevision => 11
    | VmReadWriteToUnsupportedField => 12 | VmWriteToReadOnly => 13
    | VmxOnInRootMode => 15 | VmEntryWithInvalidExecVmcsPtr => 16
    | VmEntryWithNonLaunchExecVmcs => 17 | VmEntryWithExecVmcsPtr => 18
    | VmCallWithNonClearVmcs => 19 | VmCallWithInvalidVmExitFields => 20
    | VmCallWithIncorrectMsegRev => 22 | VmxOffUnderDualMonitor => 23
    | VmCallWithInvalidSmmFeatures => 24 | VmEntryWithInvalidVmExecFields => 25
    | VmEntryWithEventsBlockedMovSs => 26 | InvalidOperandToInveptInvvpid => 28
    end }.

#[export] Instance VmInstructionError_enum_ok : NumEnumOk VmInstructionError.
Proof. num_enum_ok. Qed.

Inductive Error :=
| Vmcs (m : msg)
| VmFailInvalid (m : msg)
| VmFailValid (e : VmInstructionError) (m : msg)
| DuplicateMapping (m : msg)
| AllocError (m : msg)
| MissingDevice (m : msg)
| MissingFile (m : msg)
| NullPtr (m : msg)
| NotSupported
| NotFound
| Exists
| Exhausted
| Uefi (m : msg)
| InvalidValue (m : msg)
| InvalidDevice (m : msg)
| NotImplemented (m : msg)
| DeviceError (m : msg).

#[export] Instance Error_eq_dec : EqDecision Error.
Proof. solve_decision. Defined.

(** ** Results *)

Inductive res (A : Type) :=
| Ok (a : A)
| Err (e : Error)
| Panic (why : string).
Arguments Ok {A} _.
Arguments Err {A} _.
Arguments Panic {A} _.

#[export] Instance res_eq_dec {A} `{EqDecision A} : EqDecision (res A).
Proof. solve_decision. Defined.

#[export] Instance res_ret : MRet res := fun _ a => Ok a.
#[export] Instance res_bind : MBind res := fun _ _ f m =>
  match m with Ok a => f a | Err e => Err e | Panic w => Panic w end.
#[export] Instance res_fmap : FMap res := fun _ _ f m =>
  match m with Ok a => Ok (f a) | Err e => Err e | Panic w => Panic w end.

Definition is_ok {A} (r : res A) : bool :=
  match r with Ok _ => true | _ => false end.

(** [o.ok_or_else(|| e)], [o.expect(why)], and the [From] conversions. *)
Definition ok_or {A} (o : option A) (e : Error) : res A :=
  match o with Some a => Ok a | None => Err e end.
Definition expect {A} (o : option A) (why : string) : res A :=
  match o with Some a => Ok a | None => Panic why end.
Definition map_err {A} (f : Error -> Error) (r : res A) : res A :=
  match r with Err e => Err (f e) | r => r end.
Definition res_expect {A} (r : res A) (why : string) : res A :=
  match r with Err _ => Panic why | r => r end.

(** [E::try_from(v)?] for a derived enumeration: the error is converted by
    [impl From<TryFromPrimitiveError<T>> for Error]. *)
Definition try_from_primitive_err {E} `{NumEnum E} (v : Z) : res E :=
  ok_or (try_from_primitive v) (InvalidValue (Msg "{TryFromPrimitiveError}" [v])).

(** [impl<T> From<CapacityError<T>> for Error] *)
Definition capacity_error : Error := Exhausted.

(** A result that is not a panic. *)
Definition no_panic {A} (r : res A) : Prop := match r with Panic _ => False | _ => True end.

Lemma no_panic_bind {A B} (m : res A) (f : A -> res B) :
  no_panic m -> (forall a, no_panic (f a)) -> no_panic (m ≫= f).
Proof. by destruct m; cbn. Qed.
Lemma no_panic_ok_or {A} (o : option A) e : no_panic (ok_or o e).
Proof. by destruct o. Qed.
Lemma no_panic_enum {E} `{NumEnum E} v : no_panic (try_from_primitive_err (E := E) v).
Proof. apply no_panic_ok_or. Qed.
Lemma no_panic_expect {A} (o : option A) why : is_Some o -> no_panic (expect o why).
Proof. by intros [x ->]. Qed.

#[export] Hint Resolve no_panic_bind no_panic_ok_or no_panic_enum no_panic_expect : mythril.

Lemma bind_Ok {A B} (m : res A) (f : A -> res B) b :
  m ≫= f = Ok b <-> exists a, m = Ok a /\ f a = Ok b.
Proof.
  split; [|by intros (a & -> & ?)]. destruct m; simpl; naive_solver.
Qed.

(** Invert every successful step of a chain of binds in the hypotheses. *)
Ltac inv_res :=
  repeat match goal with
  | H : (_ ≫= _) = Ok _ |- _ => apply bind_Ok in H as (? & ? & ?)
  | H : Ok _ = Ok _ |- _ => injection H as H; subst
  | H : Err _ = Ok _ |- _ => discriminate H
  | H : Panic _ = Ok _ |- _ => discriminate H
  | H : ok_or ?o _ = Ok _ |- _ => destruct o eqn:?; simpl in H
  | H : expect ?o _ = Ok _ |- _ => destruct o eqn:?; simpl in H
  end.

(** ** Stateful code *)

Definition st (S A : Type) : Type := S -> S * res A.

#[export] Instance st_ret S : MRet (st S) := fun _ a s => (s, Ok a).
#[export] Instance st_bind S : MBind (st S) := fun _ _ f m s =>
  match m s with
  | (s', Ok a) => f a s'
  | (s', Err e) => (s', Err e)
  | (s', Panic w) => (s', Panic w)
  end.

Definition get {S} : st S S := fun s => (s, Ok s).
Definition put {S} (s : S) : st S unit := fun _ => (s, Ok tt).
Definition modify {S} (f : S -> S) : st S unit := fun s => (f s, Ok tt).
Definition err {S A} (e : Error) : st S A := fun s => (s, Err e).
Definition panic {S A} (why : string) : st S A := fun s => (s, Panic why).
Definition lift {S A} (r : res A) : st S A := fun s => (s, r).

(** [m.expect(why)]: an error becomes a panic. *)
Definition st_expect {S A} (m : st S A) (why : string) : st S A := fun s =>
  let '(s, r) := m s in (s, res_expect r why).

(** [for x in l { f(x)?; }] *)
Fixpoint st_iter {S X} (f : X -> st S unit) (l : list X) : st S unit :=
  match l with
  | [] => mret tt
  | x :: r => f x ≫= fun _ => st_iter f r
  end.

Lemma st_bind_eq {S A B} (m : st S A) (f : A -> st S B) s :
  (m ≫= f) s = match m s with
               | (s', Ok a) => f a s'
               | (s', Err e) => (s', Err e)
               | (s', Panic w) => (s', Panic w)
               end.
Proof. done. Qed.

(** ** [check_vm_insruction]

    Interprets the flags a VMX instruction leaves: CF (bit 0) is VMfailInvalid,
    ZF (bit 6) VMfailValid with the number read from the VM-instruction error
    field, here the argument [errno]. *)

Definition FLAGS_CF : Z := 0x1.
Definition FLAGS_ZF : Z := 0x40.

Definition check_vm_insruction (errno rflags : Z) (m : msg) : res unit :=
  if has_bits rflags FLAGS_CF then Err (VmFailInvalid m)
  else if has_bits rflags FLAGS_ZF then
    Err (VmFailValid (default UnknownError (try_from_primitive errno)) m)
  else Ok tt.

Lemma check_vm_insruction_Ok errno rflags m :
  check_vm_insruction errno rflags m = Ok tt <->
  has_bits rflags FLAGS_CF = false /\ has_bits rflags FLAGS_ZF = false.
Proof.
  unfold check_vm_insruction.
  destruct (has_bits rflags FLAGS_CF), (has_bits rflags FLAGS_ZF); naive_solver.
Qed.
