(* ===== verification/BTreeMap.v ===== *)
(** * Ordered maps: [alloc::collections::BTreeMap]

    The code keeps its devices, timers, pending interrupts and firmware files
    in [BTreeMap]s.  The model is the map's content in key order, searched the
    way the library searches: a key is compared with the stored keys in order,
    the search stops at the first one that is not below it.  Everything depends
    only on the key type's [Ord::cmp]; [CmpLaws] states what the lemmas need of
    it on the well-formed keys.  [Eq] need not be transitive: the interval keys
    of the device map compare as equal when they overlap. *)

From Stdlib Require Import Sorted.
From S2P Require Import Prelude.

Class CmpLaws {K : Type} (cmp : K -> K -> comparison) (ok : K -> Prop) := {
  cmp_refl : forall a, ok a -> cmp a a = Eq;
  cmp_flip : forall a b, ok a -> ok b -> cmp b a = CompOpp (cmp a b);
  cmp_lt_trans : forall a b c, ok a -> ok b -> ok c ->
    cmp a b = Lt -> cmp b c = Lt -> cmp a c = Lt
}.

Section btree_map.
Context {K V : Type} (cmp : K -> K -> comparison).

(** [get_key_value] *)
Fixpoint bt_get_key_value (k : K) (m : list (K * V)) : option (K * V) :=
  match m with
  | [] => None
  | (k', v) :: r =>
      match cmp k k' with
      | Lt => None
      | Eq => Some (k', v)
      | Gt => bt_get_key_value k r
      end
  end.

Definition bt_get (k : K) (m : list (K * V)) : option V := snd <$> bt_get_key_value k m.

Definition bt_contains_key (k : K) (m : list (K * V)) : bool :=
  bool_decide (is_Some (bt_get_key_value k m)).

(** [insert]: an entry with an equal key keeps its key and gets the new value. *)
Fixpoint bt_insert (k : K) (v : V) (m : list (K * V)) : list (K * V) :=
  match m with
  | [] => [(k, v)]
  | (k', v') :: r =>
      match cmp k k' with
      | Lt => (k, v) :: (k', v') :: r
      | Eq => (k', v) :: r
      | Gt => (k', v') :: bt_insert k v r
      end
  end.

Fixpoint bt_remove (k : K) (m : list (K * V)) : list (K * V) :=
  match m with
  | [] => []
  | (k', v') :: r =>
      match cmp k k' with
      | Lt => (k', v') :: r
      | Eq => r
      | Gt => (k', v') :: bt_remove k r
      end
  end.

(** [get_mut(k)] followed by a write through the reference. *)
Fixpoint bt_alter (f : V -> V) (k : K) (m : list (K * V)) : list (K * V) :=
  match m with
  | [] => []
  | (k', v') :: r =>
      match cmp k k' with
      | Lt => (k', v') :: r
      | Eq => (k', f v') :: r
      | Gt => (k', v') :: bt_alter f k r
      end
  end.

Definition key_lt (a b : K * V) : Prop := cmp a.1 b.1 = Lt.

Definition bt_wf (ok : K -> Prop) (m : list (K * V)) : Prop :=
  StronglySorted key_lt m /\ Forall (fun e => ok e.1) m.

Context {ok : K -> Prop} `{!CmpLaws cmp ok}.

Lemma bt_wf_nil : bt_wf ok [].
Proof. split; constructor. Qed.

Lemma bt_wf_cons k v m :
  bt_wf ok ((k, v) :: m) <->
  bt_wf ok m /\ ok k /\ Forall (fun e => cmp k e.1 = Lt) m.
Proof.
  unfold bt_wf. split.
  - intros [Hs Ho]. apply StronglySorted_inv in Hs as [Hs Hf].
    apply Forall_cons in Ho as [Hk Ho]. split_and!; done.
  - intros ([Hs Ho] & Hk & Hf). split; [by constructor|by constructor].
Qed.

(** A key below the first key is below all of them. *)
Lemma bt_lt_all k k' v' m :
  ok k -> bt_wf ok ((k', v') :: m) -> cmp k k' = Lt ->
  Forall (fun e => cmp k e.1 = Lt) ((k', v') :: m).
Proof.
  intros Hk [Hm [Hk' Hf]]%bt_wf_cons Hlt. constructor; [done|].
  apply Forall_forall. intros e He.
  eapply cmp_lt_trans with (b := k'); try done.
  - destruct Hm as [_ Ho]. rewrite Forall_forall in Ho. by apply Ho.
  - rewrite Forall_forall in Hf. by apply Hf.
Qed.

Lemma bt_get_key_value_Some k m k' v :
  bt_get_key_value k m = Some (k', v) -> (k', v) ∈ m /\ cmp k k' = Eq.
Proof.
  induction m as [|[k1 v1] m IH]; simpl; [done|].
  destruct (cmp k k1) eqn:E; intros H; simplify_eq.
  - split; [left|done].
  - destruct (IH H). split; [by right|done].
Qed.

Lemma bt_get_key_value_None k m :
  ok k -> bt_wf ok m ->
  bt_get_key_value k m = None <-> Forall (fun e => cmp k e.1 <> Eq) m.
Proof.
  intros Hk. induction m as [|[k1 v1] m IH]; intros Hm; simpl; [by split; constructor|].
  pose proof Hm as [Hm' _]%bt_wf_cons. destruct (cmp k k1) eqn:E.
  - split; [done|]. intros H%Forall_inv. done.
  - split; [|done]. intros _.
    eapply Forall_impl; [by apply (bt_lt_all k k1 v1)|]. simpl. congruence.
  - rewrite IH by done. rewrite Forall_cons. simpl. intuition congruence.
Qed.

(** When at most one stored key can match, [get] is membership. *)
Lemma bt_get_elem_of k k' v m :
  ok k -> bt_wf ok m ->
  (forall a b, a.1 <> b.1 -> a ∈ m -> b ∈ m -> cmp k a.1 = Eq -> cmp k b.1 = Eq -> False) ->
  (k', v) ∈ m -> cmp k k' = Eq -> bt_get_key_value k m = Some (k', v).
Proof.
  intros Hk. induction m as [|[k1 v1] m IH]; intros Hm Hu Hin HE; [by apply not_elem_of_nil in Hin|].
  pose proof Hm as (Hm' & Hk1 & Hf)%bt_wf_cons. rewrite Forall_forall in Hf.
  apply elem_of_cons in Hin as [[= -> ->]|Hin]; simpl; [by rewrite HE|].
  destruct (cmp k k1) eqn:E.
  - exfalso. apply (Hu (k', v) (k1, v1)); simpl; [|by right|left|done|done].
    intros ->. specialize (Hf _ Hin). simpl in Hf. rewrite cmp_refl in Hf by done. done.
  - exfalso. pose proof (bt_lt_all k k1 v1 m Hk Hm E) as Ha.
    rewrite Forall_forall in Ha. specialize (Ha (k', v)). simpl in Ha.
    rewrite HE in Ha. discriminate Ha. by right.
  - apply IH; try done. intros a b ? ? ?. apply Hu; [done|by right|by right].
Qed.

Lemma bt_contains_key_spec k m :
  bt_contains_key k m = false <-> bt_get_key_value k m = None.
Proof.
  unfold bt_contains_key. rewrite bool_decide_eq_false. by rewrite eq_None_not_Some.
Qed.

Lemma bt_insert_elem_of_keys k v m e : e ∈ bt_insert k v m -> e.1 = k \/ exists v', (e.1, v') ∈ m.
Proof.
  induction m as [|[k1 v1] m IH]; simpl.
  - rewrite list_elem_of_singleton. intros ->. by left.
  - destruct (cmp k k1); rewrite !elem_of_cons; intros [->|H]; simpl; eauto 6.
    + right. exists v1. by left.
    + right. exists (e.2). right. by destruct e.
    + destruct H as [->|H]; [right; exists v1; by left|].
      right. exists (e.2). right. by destruct e.
    + right. exists v1. by left.
    + destruct (IH H) as [?|[v' ?]]; [by left|]. right. exists v'. by right.
Qed.

(** Inserting a key that compares equal to no stored one adds one entry. *)
Lemma bt_insert_fresh k v m :
  ok k -> bt_wf ok m -> bt_get_key_value k m = None ->
  bt_wf ok (bt_insert k v m) /\ bt_insert k v m ≡ₚ (k, v) :: m.
Proof.
  intros Hk. induction m as [|[k1 v1] m IH]; intros Hm Hg; simpl in *.
  - split; [|done]. apply bt_wf_cons. split_and!; [apply bt_wf_nil|done|constructor].
  - pose proof Hm as (Hm' & Hk1 & Hf)%bt_wf_cons.
    destruct (cmp k k1) eqn:E; [done| |].
    + split; [|done]. apply bt_wf_cons. split_and!; [done|done|by eapply bt_lt_all].
    + destruct (IH Hm' Hg) as [Hw Hp]. split; [|rewrite Hp; apply perm_swap].
      apply bt_wf_cons. split_and!; [done|done|]. rewrite Hp.
      constructor; [|done]. simpl. rewrite (cmp_flip k k1), E by done. done.
Qed.

(** Removing a stored key takes out exactly its entry. *)
Lemma bt_remove_elem_of k v m :
  ok k -> bt_wf ok m -> (k, v) ∈ m -> m ≡ₚ (k, v) :: bt_remove k m.
Proof.
  intros Hk. induction m as [|[k1 v1] m IH]; intros Hm Hin; [by apply not_elem_of_nil in Hin|].
  pose proof Hm as (Hm' & Hk1 & Hf)%bt_wf_cons. simpl.
  apply elem_of_cons in Hin as [[= <- <-]|Hin].
  - by rewrite cmp_refl.
  - rewrite Forall_forall in Hf. specialize (Hf _ Hin). simpl in Hf.
    rewrite (cmp_flip k1 k), Hf by done. simpl. rewrite IH at 1 by done. apply perm_swap.
Qed.

Lemma bt_remove_sublist k m : bt_remove k m `sublist_of` m.
Proof.
  induction m as [|[k1 v1] m IH]; simpl; [done|].
  destruct (cmp k k1); [by apply sublist_cons|done|by apply sublist_skip].
Qed.

Lemma bt_sublist_wf m m' : m' `sublist_of` m -> bt_wf ok m -> bt_wf ok m'.
Proof.
  intros Hs. induction Hs as [|[k v] l1 l2 Hs IH|[k v] l1 l2 Hs IH]; intros Hm; [done| |].
  - apply bt_wf_cons in Hm as (Hm & Hk & Hf). apply bt_wf_cons.
    split_and!; [by apply IH|done|]. rewrite Forall_forall in Hf |- *.
    intros e He. by eapply Hf, elem_of_sublist.
  - apply bt_wf_cons in Hm as (Hm & _). by apply IH.
Qed.

Lemma bt_remove_wf k m : bt_wf ok m -> bt_wf ok (bt_remove k m).
Proof. apply bt_sublist_wf, bt_remove_sublist. Qed.

Lemma bt_remove_none k m :
  ok k -> bt_wf ok m -> Forall (fun e => cmp k e.1 <> Eq) m -> bt_remove k m = m.
Proof.
  intros Hk. induction m as [|[k1 v1] m IH]; intros Hm Hf; simpl; [done|].
  apply bt_wf_cons in Hm as (Hm & _). apply Forall_cons in Hf as [H1 Hf]. simpl in H1.
  destruct (cmp k k1); [done|done|]. by rewrite IH.
Qed.

(** Two entries with the same key are one entry. *)
Lemma bt_wf_functional m k v v' :
  bt_wf ok m -> (k, v) ∈ m -> (k, v') ∈ m -> v = v'.
Proof.
  induction m as [|[k1 v1] m IH]; intros Hm H1 H2; [by apply not_elem_of_nil in H1|].
  apply bt_wf_cons in Hm as (Hm & Hk1 & Hf). rewrite Forall_forall in Hf.
  apply elem_of_cons in H1 as [[= -> ->]|H1]; apply elem_of_cons in H2 as [E|H2].
  - by injection E.
  - apply Hf in H2. simpl in H2. by rewrite cmp_refl in H2.
  - injection E as -> ->. apply Hf in H1. simpl in H1. by rewrite cmp_refl in H1.
  - by apply IH.
Qed.
End btree_map.

#[export] Hint Resolve bt_wf_nil bt_remove_wf : mythril.

(** The order on machine integers satisfies the laws. *)
#[export] Instance Z_compare_laws : CmpLaws Z.compare (fun _ => True).
Proof.
  split.
  - intros. apply Z.compare_refl.
  - intros. apply Z.compare_antisym.
  - intros a b c _ _ _. rewrite !Z.compare_lt_iff. lia.
Qed.

(** ** Integer keys: the map as a function *)

Section int_keys.
Context {V : Type}.
Implicit Types (m : list (Z * V)) (k : Z).

Definition int_map_wf (m : list (Z * V)) : Prop := bt_wf Z.compare (fun _ => True) m.

Lemma int_map_cons k v m : int_map_wf ((k, v) :: m) <-> int_map_wf m /\ Forall (fun e => k < e.1) m.
Proof.
  unfold int_map_wf. rewrite (bt_wf_cons Z.compare).
  setoid_rewrite Z.compare_lt_iff. tauto.
Qed.

Lemma int_insert_keys k v m (P : Z -> Prop) :
  P k -> Forall (fun e => P e.1) m -> Forall (fun e => P e.1) (bt_insert Z.compare k v m).
Proof.
  intros Hk. induction m as [|[k1 v1] m IH]; intros Hm; simpl; [by constructor|].
  apply Forall_cons in Hm as [H1 Hm]. simpl in H1.
  destruct (k ?= k1); repeat (constructor; try done). by apply IH.
Qed.

Lemma int_insert_wf k v m : int_map_wf m -> int_map_wf (bt_insert Z.compare k v m).
Proof.
  induction m as [|[k1 v1] m IH]; intros Hm; simpl.
  { apply int_map_cons. split; [done|constructor]. }
  pose proof Hm as [Hm' Hf]%int_map_cons.
  destruct (Z.compare_spec k k1) as [->|Hlt|Hgt].
  - by apply int_map_cons.
  - apply int_map_cons. split; [done|]. constructor; [done|].
    eapply Forall_impl; [exact Hf|]. simpl. intros e He. lia.
  - apply int_map_cons. split; [by apply IH|]. apply (int_insert_keys k v m (fun x => k1 < x)); [lia|done].
Qed.

Lemma int_get_insert k k' v m :
  bt_get Z.compare k (bt_insert Z.compare k' v m) =
  if decide (k = k') then Some v else bt_get Z.compare k m.
Proof.
  unfold bt_get. induction m as [|[k1 v1] m IH]; simpl.
  { destruct (Z.compare_spec k k'), (decide (k = k')); try done; lia. }
  destruct (Z.compare_spec k' k1) as [->|Hlt|Hgt]; simpl.
  - destruct (Z.compare_spec k k1), (decide (k = k1)); try done; lia.
  - destruct (Z.compare_spec k k'), (decide (k = k')); try done; try lia.
    destruct (Z.compare_spec k k1); try done; lia.
  - destruct (Z.compare_spec k k1) as [->|Hlt'|Hgt']; simpl.
    + by rewrite decide_False by lia.
    + by rewrite decide_False by lia.
    + apply IH.
Qed.

Lemma int_get_elem k v m : int_map_wf m -> bt_get Z.compare k m = Some v <-> (k, v) ∈ m.
Proof.
  intros Hm. split.
  - unfold bt_get. destruct (bt_get_key_value Z.compare k m) as [[k' v']|] eqn:E; [|done].
    intros [= ->]. apply bt_get_key_value_Some in E as [Hin ->%Z.compare_eq]. done.
  - intros Hin. unfold bt_get. rewrite (bt_get_elem_of Z.compare (ok := fun _ => True) k k v m); try done.
    + intros [a va] [b vb] Hne _ _ Ha%Z.compare_eq Hb%Z.compare_eq. simpl in *. congruence.
    + apply Z.compare_refl.
Qed.
End int_keys.

#[export] Hint Resolve int_insert_wf : mythril.
