(* ===== verification/Memory.v ===== *)
(** * Guest memory and the extended page tables ([mythril/src/memory.rs])

    Host memory is what the raw pointers of the source reach: page-sized EPT
    tables (512 entries of 64 bits) and page frames (4096 bytes), both keyed by
    their address.  Following a pointer to neither is undefined behaviour in
    the source and a [Panic] here, so every theorem that concludes [Ok] also
    says that no such access happens.  A [GuestAddressSpace] is the address of
    its root table.

    The abstract view is [wentry]: the used entry a path of table indices leads
    to.  [ept_wf] says the tables reachable from the root form a tree;
    [map_guest_memory] keeps it and changes exactly one path. *)

From S2P Require Import Prelude Error.

Definition BASE_PAGE_SIZE : Z := 4096.
Definition PAGE_SIZE_ENTRIES : nat := 512.

(** ** Addresses *)

Definition pml4_index (addr : Z) : Z := (Z.land (Z.shiftr addr 39) 511).
Definition pdpt_index (addr : Z) : Z := (Z.land (Z.shiftr addr 30) 511).
Definition pd_index (addr : Z) : Z := (Z.land (Z.shiftr addr 21) 511).
Definition pt_index (addr : Z) : Z := (Z.land (Z.shiftr addr 12) 511).
Definition page_offset (addr : Z) : Z := Z.land addr 0xfff.
Definition large_page_offset (addr : Z) : Z := Z.land addr 0x1fffff.
Definition huge_page_offset (addr : Z) : Z := Z.land addr 0x3fffffff.

(** [GuestPhysAddr], [HostPhysAddr] and [Guest4LevelPagingAddr] are wrapped
    [u64]s. *)
Inductive GuestVirtAddr :=
| NoPaging (addr : Z)
| Paging4Level (addr : Z).

Definition CR0_ENABLE_PAGING : Z := Z.shiftl 1 31.

(** [GuestVirtAddr::new], with the value of the [GuestCr0] field. *)
Definition guest_virt_addr_new (val cr0 : Z) : GuestVirtAddr :=
  if has_bits cr0 CR0_ENABLE_PAGING then Paging4Level val else NoPaging val.

Definition gva_as_u64 (a : GuestVirtAddr) : Z :=
  match a with NoPaging a => a | Paging4Level a => a end.

Definition gva_add (a : GuestVirtAddr) (rhs : Z) : GuestVirtAddr :=
  match a with
  | NoPaging a => NoPaging (u64 (a + rhs))
  | Paging4Level a => Paging4Level (u64 (a + rhs))
  end.

Definition is_frame_aligned (a : Z) : bool := Z.land a 0xfff =? 0.

(** [HostPhysFrame::from_start_address] *)
Definition from_start_address (addr : Z) : res Z :=
  if negb (is_frame_aligned addr)
  then Err (InvalidValue (str "Invalid start address for HostPhysFrame"))
  else Ok addr.

Inductive GuestAccess :=
| Read (pl : Z)
| Write (pl : Z)
| Fetch (pl : Z).

(** ** Table entries *)

Definition READ_ACCESS : Z := Z.shiftl 1 0.
Definition WRITE_ACCESS : Z := Z.shiftl 1 1.
Definition PRIV_EXEC_ACCESS : Z := Z.shiftl 1 2.
Definition IGNORE_PAT : Z := Z.shiftl 1 6.
Definition ACCESSED : Z := Z.shiftl 1 8.
Definition DIRTY : Z := Z.shiftl 1 9.
Definition USERMODE_EXEC_ACCESS : Z := Z.shiftl 1 10.
Definition SUPRESS_VE : Z := Z.shiftl 1 63.

Definition flags_or (l : list Z) : Z := foldr Z.lor 0 l.

Definition EptTableFlags_all : Z :=
  flags_or [READ_ACCESS; WRITE_ACCESS; PRIV_EXEC_ACCESS; IGNORE_PAT; ACCESSED; DIRTY;
            USERMODE_EXEC_ACCESS; SUPRESS_VE].

Definition is_unused (entry : Z) : bool := entry =? 0.
Definition entry_flags (entry : Z) : Z := Z.land entry EptTableFlags_all.
Definition entry_addr (entry : Z) : Z := Z.land entry 0x000ffffffffff000.

(** [EptTableEntry::set_addr] and [set_flags] *)
Definition table_set_addr (addr flags : Z) : Z := Z.lor addr flags.
Definition table_set_flags (entry flags : Z) : Z := Z.lor (entry_addr entry) flags.

Inductive EptMemoryType := Uncacheable | WriteCache | WriteThrough | WriteP | WriteBack.

#[export] Instance EptMemoryType_eq_dec : EqDecision EptMemoryType.
Proof. solve_decision. Defined.

#[export] Instance EptMemoryType_enum : NumEnum EptMemoryType := {
  ne_all := [Uncacheable; WriteCache; WriteThrough; WriteP; WriteBack];
  ne_code t := match t with
    | Uncacheable => 0 | WriteCache => 1 | WriteThrough => 4 | WriteP => 5 | WriteBack => 6
    end }.

#[export] Instance EptMemoryType_enum_ok : NumEnumOk EptMemoryType.
Proof. num_enum_ok. Qed.

(** [EptPageTableEntry]: the last level also carries a memory type. *)
Definition mem_type (entry : Z) : res EptMemoryType :=
  expect (try_from_primitive (Z.shiftr (Z.land entry (Z.shiftl 7 5)) 5))
    "Invalid EPT memory type".

Definition pte_set_addr (entry addr flags : Z) : res Z :=
  if is_frame_aligned addr then
    mt ← mem_type entry;
    Ok (Z.lor (Z.lor addr flags) (Z.shiftl (ne_code mt) 5))
  else Panic "assertion failed: addr.is_frame_aligned()".

Definition pte_set_flags (entry flags : Z) : res Z :=
  mt ← mem_type entry;
  Ok (Z.lor (Z.lor (entry_addr entry) flags) (Z.shiftl (ne_code mt) 5)).

Definition set_mem_type (entry : Z) (mt : EptMemoryType) : Z :=
  Z.lor (Z.land entry (bnot 64 (Z.shiftl 7 5))) (u8 (Z.shiftl (ne_code mt) 5)).

(** ** Host memory *)

Record Host := mkHost {
  tables : gmap Z (list Z);
  frames : gmap Z (list Z)
}.

(** [Box::new] of a value aligned to 4096 bytes: where the allocator puts it,
    [None] when it has no memory left (the allocation error handler panics). *)
Class HostAlloc := host_alloc : Host -> option Z.

Class HostAllocLaws `{HostAlloc} := {
  alloc_fresh : forall h a, host_alloc h = Some a -> tables h !! a = None /\ frames h !! a = None;
  alloc_range : forall h a, host_alloc h = Some a -> 0 < a < 2 ^ 52;
  alloc_aligned : forall h a, host_alloc h = Some a -> a mod 4096 = 0
}.

(** The address functions of the [x86] crate's page-table entries, used to read
    the guest's own tables. *)
Class GuestPaging := guest_entry_address : Z -> Z.

Definition read_entry (t i : Z) : st Host Z := fun h =>
  match tables h !! t with
  | None => (h, Panic "invalid table pointer")
  | Some tbl => (h, expect (tbl !! Z.to_nat i) "index out of bounds")
  end.

Definition write_entry (t i e : Z) : st Host unit := fun h =>
  match tables h !! t with
  | None => (h, Panic "invalid table pointer")
  | Some tbl =>
      if bool_decide (Z.to_nat i < length tbl)%nat
      then (mkHost (<[t := <[Z.to_nat i := e]> tbl]> (tables h)) (frames h), Ok tt)
      else (h, Panic "index out of bounds")
  end.

Definition as_array (frame : Z) : st Host (list Z) := fun h =>
  if frame =? 0 then (h, Panic "called `Option::unwrap()` on a `None` value")
  else (h, expect (frames h !! frame) "invalid frame pointer").

Definition as_mut_array (frame : Z) (bytes : list Z) : st Host unit := fun h =>
  (mkHost (tables h) (<[frame := bytes]> (frames h)), Ok tt).

Section space.
Context `{HostAlloc} `{GuestPaging}.

Definition box_new_table : st Host Z := fun h =>
  match host_alloc h with
  | None => (h, Panic "allocation error")
  | Some a => (mkHost (<[a := replicate PAGE_SIZE_ENTRIES 0]> (tables h)) (frames h), Ok a)
  end.

Definition box_new_page : st Host Z := fun h =>
  match host_alloc h with
  | None => (h, Panic "allocation error")
  | Some a => (mkHost (tables h) (<[a := replicate (Z.to_nat BASE_PAGE_SIZE) 0]> (frames h)), Ok a)
  end.

(** [GuestAddressSpace::new] *)
Definition space_new : st Host Z := box_new_table.

Definition default_flags : Z :=
  flags_or [READ_ACCESS; WRITE_ACCESS; PRIV_EXEC_ACCESS; USERMODE_EXEC_ACCESS].

(** One level of [map_guest_memory]: the entry [i] of table [t], given a fresh
    empty table when it is unused; the result is the table it points to. *)
Definition ensure_table (t i : Z) : st Host Z :=
  e ← read_entry t i;
  _ ← (if is_unused e then
         a ← box_new_table;
         write_entry t i (table_set_addr a default_flags)
       else mret tt);
  e ← read_entry t i;
  mret (entry_addr e).

Definition page_flags (readonly : bool) : Z :=
  let f := flags_or [READ_ACCESS; PRIV_EXEC_ACCESS; USERMODE_EXEC_ACCESS; IGNORE_PAT] in
  if negb readonly then Z.lor f WRITE_ACCESS else f.

Definition map_guest_memory (root guest_addr host_frame : Z) (readonly : bool) : st Host unit :=
  ept_pdpt ← ensure_table root (pml4_index guest_addr);
  ept_pdt ← ensure_table ept_pdpt (pdpt_index guest_addr);
  ept_pt ← ensure_table ept_pdt (pd_index guest_addr);
  ept_pte ← read_entry ept_pt (pt_index guest_addr);
  if negb (is_unused ept_pte) then
    err (DuplicateMapping (Msg "Duplicate mapping for address 0x{:x}" [guest_addr]))
  else
    e ← lift (pte_set_addr ept_pte host_frame (page_flags readonly));
    write_entry ept_pt (pt_index guest_addr) (set_mem_type e WriteBack).

Definition map_frame := map_guest_memory.

Definition map_new_frame (root guest_addr : Z) (readonly : bool) : st Host unit :=
  page ← box_new_page;
  page ← lift (from_start_address page);
  map_frame root guest_addr page readonly.

Definition eptp (root : Z) : Z := Z.lor (Z.lor root (Z.shiftl (4 - 1) 3)) 6.

Definition find_host_frame (root addr : Z) : st Host Z :=
  ept_pml4e ← read_entry root (pml4_index addr);
  if is_unused ept_pml4e then err (InvalidValue (str "No PML4 entry for GuestPhysAddr")) else
  ept_pdpe ← read_entry (entry_addr ept_pml4e) (pdpt_index addr);
  if is_unused ept_pdpe then err (InvalidValue (str "No PDP entry for GuestPhysAddr")) else
  ept_pde ← read_entry (entry_addr ept_pdpe) (pd_index addr);
  if is_unused ept_pde then err (InvalidValue (str "No PD entry for GuestPhysAddr")) else
  ept_pte ← read_entry (entry_addr ept_pde) (pt_index addr);
  if is_unused ept_pte then err (InvalidValue (str "No PT entry for GuestPhysAddr")) else
  lift (from_start_address (entry_addr ept_pte)).

(** A 64-bit entry of one of the guest's own tables, read through the host
    pointer of its frame. *)
Definition guest_table_entry (frame i : Z) : st Host Z :=
  bytes ← as_array frame;
  lift (expect (of_le <$> slice bytes (Z.to_nat (8 * i)) (Z.to_nat (8 * i + 8))) "index out of bounds").

Definition translate_pl4_address (root cr3 addr : Z) (access : GuestAccess) : st Host Z :=
  guest_pml4_root ← find_host_frame root cr3;
  guest_pml4e ← guest_table_entry guest_pml4_root (pml4_index addr);
  guest_pml4e_host_frame ← find_host_frame root (guest_entry_address guest_pml4e);
  guest_pdpte ← guest_table_entry guest_pml4e_host_frame (pdpt_index addr);
  guest_pdpte_host_frame ← find_host_frame root (guest_entry_address guest_pdpte);
  guest_pdte ← guest_table_entry guest_pdpte_host_frame (pd_index addr);
  mret (u64 (guest_entry_address guest_pdte + large_page_offset addr)).

Definition translate_linear_address (root cr3 : Z) (addr : GuestVirtAddr) (access : GuestAccess)
    : st Host Z :=
  match addr with
  | NoPaging addr => mret addr
  | Paging4Level vaddr => translate_pl4_address root cr3 vaddr access
  end.

(** [FrameIter::next]: the frame of the current address; the iterator moves on
    by one page whether or not that succeeds. *)
Definition frame_iter_next (root cr3 : Z) (access : GuestAccess) (addr : GuestVirtAddr)
    : GuestVirtAddr * st Host Z :=
  (gva_add addr BASE_PAGE_SIZE,
   physaddr ← translate_linear_address root cr3 addr access;
   find_host_frame root physaddr).

(** The loop of [read_bytes].  Every round but the last reads at least one
    byte, so [S length] rounds are enough.  The code adds offset and length as [usize]: the sum
    wraps only for lengths within a page of [2 ^ 64], more than the result vector can hold, which
    the model does not distinguish. *)
Fixpoint read_bytes_loop (fuel : nat) (root cr3 : Z) (access : GuestAccess)
    (addr : GuestVirtAddr) (start_offset length : nat) (out : list Z) : st Host (list Z) :=
  match fuel with
  | O => panic "out of fuel"
  | S fuel =>
      let (addr', next) := frame_iter_next root cr3 access addr in
      frame ← next;
      array ← as_array frame;
      slice ← lift (expect
        (if bool_decide (start_offset + length <= 4096)%nat
         then slice array start_offset (start_offset + length)
         else slice array start_offset (List.length array)) "slice index out of range");
      let length := (length - List.length slice)%nat in
      let out := out ++ slice in
      if bool_decide (length = 0%nat) then mret out
      else read_bytes_loop fuel root cr3 access addr' 0 length out
  end.

Definition read_bytes (root cr3 : Z) (addr : GuestVirtAddr) (length : nat) (access : GuestAccess)
    : st Host (list Z) :=
  read_bytes_loop (S length) root cr3 access addr
    (Z.to_nat (gva_as_u64 addr mod BASE_PAGE_SIZE)) length [].

Fixpoint write_bytes_loop (fuel : nat) (root cr3 : Z) (access : GuestAccess)
    (addr : GuestVirtAddr) (start_offset : nat) (bytes : list Z) : st Host unit :=
  match fuel with
  | O => panic "out of fuel"
  | S fuel =>
      let (addr', next) := frame_iter_next root cr3 access addr in
      frame ← next;
      array ← as_array frame;
      if bool_decide (start_offset + length bytes <= 4096)%nat then
        as_mut_array frame (blit array start_offset bytes)
      else
        _ ← as_mut_array frame (blit array start_offset (take (4096 - start_offset) bytes));
        write_bytes_loop fuel root cr3 access addr' 0 (drop (4096 - start_offset) bytes)
  end.

Definition write_bytes (root cr3 : Z) (addr : GuestVirtAddr) (bytes : list Z)
    (access : GuestAccess) : st Host unit :=
  write_bytes_loop (S (length bytes)) root cr3 access addr
    (Z.to_nat (gva_as_u64 addr mod BASE_PAGE_SIZE)) bytes.
End space.

(** [GuestAddressSpaceView]: a space with the page-table root of a core. *)
Record GuestAddressSpaceView := mkView { view_space : Z; view_cr3 : Z }.

(** [GuestAddressSpaceView::from_vmcs], with the value of the [GuestCr3] field. *)
Definition view_from_vmcs (cr3 space : Z) : GuestAddressSpaceView := mkView space cr3.

(** The methods of a view forward to the space. *)
Section view.
Context `{GuestPaging}.

Definition view_read_bytes (v : GuestAddressSpaceView) (addr : GuestVirtAddr) (length : nat) (access : GuestAccess)
    : st Host (list Z) :=
  read_bytes (view_space v) (view_cr3 v) addr length access.
Definition view_write_bytes (v : GuestAddressSpaceView) (addr : GuestVirtAddr) (bytes : list Z) (access : GuestAccess)
    : st Host unit :=
  write_bytes (view_space v) (view_cr3 v) addr bytes access.
Definition view_translate_linear_address (v : GuestAddressSpaceView) (addr : GuestVirtAddr) (access : GuestAccess)
    : st Host Z :=
  translate_linear_address (view_space v) (view_cr3 v) addr access.
End view.

(** ** Entries *)

Lemma aligned_mod a : is_frame_aligned a = true <-> a mod 4096 = 0.
Proof.
  unfold is_frame_aligned. rewrite (land_mask 0xfff 12) by (reflexivity || lia).
  apply Z.eqb_eq.
Qed.

Lemma entry_addr_small a : 0 <= a < 2 ^ 52 -> a mod 4096 = 0 -> entry_addr a = a.
Proof.
  intros Ha Hm. unfold entry_addr.
  change 0x000ffffffffff000 with (Z.shiftl (Z.ones 40) 12).
  apply Z.bits_inj'. intros i Hi. rewrite Z.land_spec, testbit_mask by lia.
  destruct (Z.leb_spec 12 i); simpl.
  - destruct (Z.ltb_spec i (12 + 40)); [apply andb_true_r|].
    by rewrite (is_u_testbit 52 a) by (unfold is_u; lia).
  - rewrite andb_false_r. symmetry.
    rewrite <- (Z.mod_pow2_bits_low a 12) by lia.
    change (2 ^ 12) with 4096. rewrite Hm. apply Z.testbit_0_l.
Qed.

Lemma entry_addr_lor a b : entry_addr (Z.lor a b) = Z.lor (entry_addr a) (entry_addr b).
Proof. apply Z.land_lor_distr_l. Qed.

Lemma entry_addr_idemp a : entry_addr (entry_addr a) = entry_addr a.
Proof. unfold entry_addr. by rewrite <- Z.land_assoc. Qed.

Lemma entry_addr_aligned e : is_frame_aligned (entry_addr e) = true.
Proof.
  unfold is_frame_aligned, entry_addr. rewrite <- Z.land_assoc.
  change (Z.land 0x000ffffffffff000 0xfff) with 0. by rewrite Z.land_0_r.
Qed.

(** The part of a word the address mask keeps is disjoint from every mask below it. *)
Lemma entry_addr_land a m : 0 <= a < 2 ^ 52 -> a mod 4096 = 0 ->
  Z.land a m = Z.land a (Z.land 0x000ffffffffff000 m).
Proof.
  intros Ha Hm. rewrite Z.land_assoc.
  change (Z.land a 0x000ffffffffff000) with (entry_addr a). by rewrite entry_addr_small.
Qed.

Lemma table_set_addr_spec a :
  0 <= a < 2 ^ 52 -> a mod 4096 = 0 ->
  is_unused (table_set_addr a default_flags) = false /\
  entry_addr (table_set_addr a default_flags) = a.
Proof.
  intros Ha Hm. unfold table_set_addr. split.
  - apply Z.eqb_neq. intros [_ H0]%Z.lor_eq_0_iff. discriminate H0.
  - rewrite entry_addr_lor, entry_addr_small by done.
    change (entry_addr default_flags) with 0. apply Z.lor_0_r.
Qed.

(** The entry [map_guest_memory] writes. *)
Definition leaf_entry (host_frame : Z) (readonly : bool) : Z :=
  set_mem_type (Z.lor (Z.lor host_frame (page_flags readonly)) 0) WriteBack.

Lemma pte_set_addr_unused host_frame readonly :
  is_frame_aligned host_frame = true ->
  pte_set_addr 0 host_frame (page_flags readonly) =
  Ok (Z.lor (Z.lor host_frame (page_flags readonly)) 0).
Proof. intros Ha. unfold pte_set_addr. by rewrite Ha. Qed.

Lemma leaf_entry_spec host_frame readonly :
  0 <= host_frame < 2 ^ 52 -> host_frame mod 4096 = 0 ->
  entry_addr (leaf_entry host_frame readonly) = host_frame /\
  has_bits (leaf_entry host_frame readonly) WRITE_ACCESS = negb readonly /\
  is_unused (leaf_entry host_frame readonly) = false.
Proof.
  intros Ha Hm. unfold leaf_entry, set_mem_type. rewrite Z.lor_0_r.
  set (c := bnot 64 (Z.shiftl 7 5)). set (k := u8 _).
  rewrite Z.land_lor_distr_l, (entry_addr_land host_frame c) by done.
  change (Z.land 0x000ffffffffff000 c) with 0x000ffffffffff000.
  change (Z.land host_frame 0x000ffffffffff000) with (entry_addr host_frame).
  rewrite (entry_addr_small host_frame) by done. split_and!.
  - rewrite !entry_addr_lor, (entry_addr_small host_frame) by done.
    change (entry_addr k) with 0.
    replace (entry_addr (Z.land (page_flags readonly) c)) with 0 by (by destruct readonly).
    by rewrite !Z.lor_0_r.
  - unfold has_bits. rewrite !Z.land_lor_distr_l, (entry_addr_land host_frame WRITE_ACCESS) by done.
    change (Z.land 0x000ffffffffff000 WRITE_ACCESS) with 0. rewrite Z.land_0_r, Z.lor_0_l.
    by destruct readonly.
  - apply Z.eqb_neq. intros [_ H0]%Z.lor_eq_0_iff. discriminate H0.
Qed.

(** ** The tables as a tree *)

Definition idx_ok (i : Z) : Prop := 0 <= i < 512.

(** The used entry [i] of table [t]. *)
Definition step (ts : gmap Z (list Z)) (t i : Z) : option Z :=
  tbl ← ts !! t; e ← tbl !! Z.to_nat i; if is_unused e then None else Some e.

(** The table a path of indices leads to. *)
Fixpoint walk (ts : gmap Z (list Z)) (t : Z) (p : list Z) : option Z :=
  match p with
  | [] => Some t
  | i :: r => e ← step ts t i; walk ts (entry_addr e) r
  end.

Definition path_ok (p : list Z) : Prop := Forall idx_ok p /\ (length p <= 3)%nat.

Record ept_wf (ts : gmap Z (list Z)) (root : Z) : Prop := {
  ept_table : forall p t, path_ok p -> walk ts root p = Some t ->
    exists tbl, ts !! t = Some tbl /\ length tbl = PAGE_SIZE_ENTRIES;
  ept_inj : forall p q t, path_ok p -> path_ok q ->
    walk ts root p = Some t -> walk ts root q = Some t -> p = q
}.

Definition leaf (ts : gmap Z (list Z)) (root : Z) (p : list Z) (i : Z) : option Z :=
  t ← walk ts root p; step ts t i.

(** The tables of the space with root [root]. *)
Definition owns (ts : gmap Z (list Z)) (root t : Z) : Prop := exists p, path_ok p /\ walk ts root p = Some t.

(** From [ts] to [ts'] only tables of [root] change, and it gains only new ones. *)
Record confined (ts ts' : gmap Z (list Z)) (root : Z) : Prop := {
  confined_keeps : forall t, is_Some (ts !! t) -> is_Some (ts' !! t);
  confined_others : forall t tbl, ts !! t = Some tbl -> ~ owns ts root t -> ts' !! t = Some tbl;
  confined_gains : forall t, owns ts' root t -> owns ts root t \/ ts !! t = None
}.

Lemma confined_refl ts root : confined ts ts root.
Proof. split; [done|done|by left]. Qed.

Lemma confined_trans ts1 ts2 ts3 root : confined ts1 ts2 root -> confined ts2 ts3 root -> confined ts1 ts3 root.
Proof.
  intros [K1 O1 G1] [K2 O2 G2]. split.
  - auto.
  - intros t tbl Ht Hn. apply O2; [by apply O1|]. intros [?|?]%G1; [done|congruence].
  - intros t [Ht|Ht]%G2; [by apply G1|]. right. apply eq_None_not_Some. intros Hs. apply (K1 t) in Hs. rewrite Ht in Hs. by destruct Hs.
Qed.

(** Writing one table of [root], and fresh tables, is confined to [root]. *)
Lemma confined_write ts ts0 root p t tbl :
  path_ok p -> walk ts root p = Some t -> (forall t', is_Some (ts !! t') -> ts0 !! t' = ts !! t') ->
  (forall q t', path_ok q -> walk (<[t := tbl]> ts0) root q = Some t' -> walk ts root q = Some t' \/ ts !! t' = None) ->
  confined ts (<[t := tbl]> ts0) root.
Proof.
  intros Hp Hw H0 Hc. split.
  - intros t' Ht'. destruct (decide (t' = t)) as [->|]; [by rewrite lookup_insert_eq|].
    rewrite lookup_insert_ne, H0 by done. done.
  - intros t' tbl' Ht' Hn. destruct (decide (t' = t)) as [->|]; [destruct Hn; by exists p|].
    rewrite lookup_insert_ne, H0 by done. done.
  - intros t' (q & Hq & Hwq). destruct (Hc q t' Hq Hwq); [left; by exists q|by right].
Qed.

Lemma walk_app ts t p q : walk ts t (p ++ q) = t' ← walk ts t p; walk ts t' q.
Proof.
  revert t. induction p as [|i p IH]; intros t; simpl; [done|].
  destruct (step ts t i); simpl; [apply IH|done].
Qed.

Lemma walk_snoc ts t p i : walk ts t (p ++ [i]) = entry_addr <$> leaf ts t p i.
Proof.
  rewrite walk_app. unfold leaf. destruct (walk ts t p) as [t'|]; simpl; [|done].
  by destruct (step ts t' i).
Qed.

Lemma path_ok_snoc p i : path_ok (p ++ [i]) <-> Forall idx_ok p /\ idx_ok i /\ (length p <= 2)%nat.
Proof.
  unfold path_ok. rewrite Forall_app, Forall_singleton, length_app. simpl.
  intuition lia.
Qed.

Lemma path_ok_app_l p q : path_ok (p ++ q) -> path_ok p.
Proof. unfold path_ok. rewrite Forall_app, length_app. intuition lia. Qed.

(** Changing one entry, and tables no path reaches, leaves every path that
    does not run through that entry as it was. *)
Lemma walk_change ts ts' root p t i q :
  ept_wf ts root -> path_ok p -> walk ts root p = Some t ->
  (forall t' j, idx_ok j -> is_Some (ts !! t') -> ~ (t' = t /\ j = i) ->
    step ts' t' j = step ts t' j) ->
  path_ok q -> ~ (p ++ [i]) `prefix_of` q ->
  walk ts' root q = walk ts root q.
Proof.
  intros Hwf Hp Hw Hs. induction q as [|j q IH] using rev_ind; intros Hq Hn; [done|].
  pose proof Hq as (Hq0 & Hj & _)%path_ok_snoc. apply path_ok_app_l in Hq.
  assert (walk ts' root q = walk ts root q) as E.
  { apply IH; [done|]. intros Hpre. apply Hn. by apply prefix_app_r. }
  rewrite !walk_snoc. unfold leaf. rewrite E.
  destruct (walk ts root q) as [t'|] eqn:Eq; simpl; [|done]. f_equal.
  destruct (ept_table ts root Hwf q t' Hq Eq) as (tbl & Ht & _).
  apply Hs; [done|by rewrite Ht|]. intros [-> ->].
  apply Hn. rewrite (ept_inj ts root Hwf p q t Hp Hq Hw Eq). done.
Qed.

Lemma leaf_change ts ts' root p t i q j :
  ept_wf ts root -> path_ok p -> walk ts root p = Some t ->
  (forall t' j, idx_ok j -> is_Some (ts !! t') -> ~ (t' = t /\ j = i) ->
    step ts' t' j = step ts t' j) ->
  path_ok q -> idx_ok j -> ~ (p ++ [i]) `prefix_of` q ++ [j] ->
  leaf ts' root q j = leaf ts root q j.
Proof.
  intros Hwf Hp Hw Hs Hq Hj Hn. unfold leaf.
  assert (walk ts' root q = walk ts root q) as ->.
  { apply (walk_change ts ts' root p t i); try done. intros Hpre. apply Hn. by apply prefix_app_r. }
  destruct (walk ts root q) as [t'|] eqn:Eq; simpl; [|done].
  destruct (ept_table ts root Hwf q t' Hq Eq) as (tbl & Ht & _).
  apply Hs; [done|by rewrite Ht|]. intros [-> ->].
  apply Hn. by rewrite (ept_inj ts root Hwf p q t Hp Hq Hw Eq).
Qed.

(** ** Reading and writing entries *)

Lemma read_entry_Some h t i tbl :
  tables h !! t = Some tbl -> length tbl = PAGE_SIZE_ENTRIES -> idx_ok i ->
  exists e, tbl !! Z.to_nat i = Some e /\ read_entry t i h = (h, Ok e).
Proof.
  intros Ht Hl Hi. unfold idx_ok in Hi.
  destruct (lookup_lt_is_Some_2 tbl (Z.to_nat i)) as [e He].
  { rewrite Hl. unfold PAGE_SIZE_ENTRIES. lia. }
  exists e. split; [done|]. unfold read_entry. by rewrite Ht, He.
Qed.

Lemma write_entry_Some h t i e tbl :
  tables h !! t = Some tbl -> length tbl = PAGE_SIZE_ENTRIES -> idx_ok i ->
  write_entry t i e h = (mkHost (<[t := <[Z.to_nat i := e]> tbl]> (tables h)) (frames h), Ok tt).
Proof.
  intros Ht Hl [??]. unfold write_entry. rewrite Ht.
  rewrite bool_decide_true; [done|]. rewrite Hl. unfold PAGE_SIZE_ENTRIES. lia.
Qed.

Lemma step_insert_ne ts t i e tbl t' j :
  ts !! t = Some tbl -> idx_ok i -> idx_ok j -> ~ (t' = t /\ j = i) ->
  step (<[t := <[Z.to_nat i := e]> tbl]> ts) t' j = step ts t' j.
Proof.
  unfold step, idx_ok. intros Ht Hi Hj Hn. destruct (decide (t' = t)) as [->|Hne].
  - rewrite lookup_insert_eq, Ht. simpl. rewrite list_lookup_insert_ne; [done|]. lia.
  - by rewrite lookup_insert_ne by done.
Qed.

Lemma step_insert_eq ts t i e tbl :
  ts !! t = Some tbl -> length tbl = PAGE_SIZE_ENTRIES -> idx_ok i -> is_unused e = false ->
  step (<[t := <[Z.to_nat i := e]> tbl]> ts) t i = Some e.
Proof.
  unfold step, idx_ok, PAGE_SIZE_ENTRIES. intros Ht Hl Hi He. rewrite lookup_insert_eq. simpl.
  rewrite list_lookup_insert_eq by lia. simpl. by rewrite He.
Qed.

Lemma step_empty_table ts a j : step (<[a := replicate PAGE_SIZE_ENTRIES 0]> ts) a j = None.
Proof.
  unfold step. rewrite lookup_insert_eq. cbn [mbind option_bind].
  destruct (replicate PAGE_SIZE_ENTRIES 0 !! Z.to_nat j) as [e|] eqn:E; [|done].
  apply lookup_replicate in E as [-> _]. done.
Qed.

Section mapping.
Context `{HostAlloc} `{!HostAllocLaws}.

(** What one level of [map_guest_memory] leaves behind. *)
Definition grows (h h' : Host) (root : Z) : Prop :=
  ept_wf (tables h') root /\ frames h' = frames h /\ confined (tables h) (tables h') root /\
  (forall q j, path_ok q -> length q = 3%nat -> idx_ok j ->
    leaf (tables h') root q j = leaf (tables h) root q j).

Lemma grows_refl h root : ept_wf (tables h) root -> grows h h root.
Proof. intros. split_and!; [done..|apply confined_refl|done]. Qed.

Lemma grows_trans h1 h2 h3 root : grows h1 h2 root -> grows h2 h3 root -> grows h1 h3 root.
Proof.
  intros (_ & Hf1 & Hc1 & Hl1) (Hw & Hf2 & Hc2 & Hl2). split_and!; [done|congruence|by eapply confined_trans|].
  intros q j ???. rewrite Hl2, Hl1 by done. done.
Qed.

(** Hanging an empty fresh table below an unused entry. *)
Lemma hang_table ts root p t i a e tbl :
  ept_wf ts root -> path_ok (p ++ [i]) -> walk ts root p = Some t ->
  ts !! t = Some tbl -> length tbl = PAGE_SIZE_ENTRIES ->
  ts !! a = None -> step ts t i = None -> is_unused e = false -> entry_addr e = a ->
  let ts' := <[t := <[Z.to_nat i := e]> tbl]> (<[a := replicate PAGE_SIZE_ENTRIES 0]> ts) in
  ept_wf ts' root /\ confined ts ts' root /\ walk ts' root (p ++ [i]) = Some a /\
  (forall q j, path_ok q -> length q = 3%nat -> idx_ok j -> leaf ts' root q j = leaf ts root q j).
Proof.
  intros Hwf Hpi Hw Ht Hl Ha Hnone Hu Hea ts'.
  pose proof Hpi as (_ & Hi & Hlen)%path_ok_snoc. pose proof (path_ok_app_l _ _ Hpi) as Hp.
  assert (t <> a) as Hta by (intros ->; congruence).
  assert (step ts' t i = Some e) as Hsti.
  { apply step_insert_eq; try done. by rewrite lookup_insert_ne. }
  assert (forall j, step ts' a j = None) as Hsa.
  { intros j. unfold ts', step. rewrite lookup_insert_ne by done. apply step_empty_table. }
  assert (forall t' j, idx_ok j -> is_Some (ts !! t') -> ~ (t' = t /\ j = i) ->
    step ts' t' j = step ts t' j) as Hs.
  { intros t' j Hj [tbl' Ht'] Hn. unfold ts'.
    rewrite step_insert_ne by (done || by rewrite lookup_insert_ne).
    unfold step. rewrite lookup_insert_ne by (intros ->; congruence). done. }
  assert (walk ts' root p = Some t) as Hw'.
  { rewrite <- Hw. apply (walk_change ts ts' root p t i); try done.
    intros [k Hk]. apply (f_equal length) in Hk. rewrite !length_app in Hk. simpl in Hk. lia. }
  assert (forall r, walk ts' root ((p ++ [i]) ++ r) = match r with [] => Some a | _ => None end) as Hwr.
  { intros r. rewrite walk_app, walk_snoc. unfold leaf. rewrite Hw'. simpl. rewrite Hsti. simpl.
    rewrite Hea. destruct r as [|j r]; simpl; [done|]. by rewrite Hsa. }
  assert (forall q t', path_ok q -> walk ts' root q = Some t' ->
    (q = p ++ [i] /\ t' = a) \/ walk ts root q = Some t') as Hcase.
  { intros q t' Hq Hwq. destruct (decide ((p ++ [i]) `prefix_of` q)) as [[r ->]|Hn].
    - left. rewrite Hwr in Hwq. destruct r; [|done]. rewrite app_nil_r. naive_solver.
    - right. rewrite <- Hwq. symmetry. by apply (walk_change ts ts' root p t i). }
  assert (forall q t', path_ok q -> walk ts root q = Some t' -> t' <> a) as Hna.
  { intros q t' Hq Hwq ->. destruct (ept_table ts root Hwf q a Hq Hwq) as (x & Hx & _). congruence. }
  split_and!.
  - split.
    + intros q t' Hq Hwq. unfold ts'. destruct (Hcase q t' Hq Hwq) as [[-> ->]|Hwq'].
      * exists (replicate PAGE_SIZE_ENTRIES 0).
        rewrite lookup_insert_ne, lookup_insert_eq by done. by rewrite length_replicate.
      * destruct (ept_table ts root Hwf q t' Hq Hwq') as (x & Hx & Hlx).
        destruct (decide (t' = t)) as [->|Hne].
        { rewrite lookup_insert_eq. eexists. split; [done|]. by rewrite length_insert. }
        rewrite !lookup_insert_ne by (done || (intros ->; congruence)). eauto.
    + intros q1 q2 t' Hq1 Hq2 H1 H2.
      destruct (Hcase q1 t' Hq1 H1) as [[-> Ea]|H1'], (Hcase q2 t' Hq2 H2) as [[-> Ea']|H2'].
      * done.
      * by destruct (Hna q2 t' Hq2 H2').
      * by destruct (Hna q1 t' Hq1 H1').
      * by apply (ept_inj ts root Hwf q1 q2 t').
  - apply (confined_write ts _ root p); [done..| |].
    + intros t' [? Ht']. rewrite lookup_insert_ne by congruence. done.
    + intros q t' Hq Hwq. destruct (Hcase q t' Hq Hwq) as [[_ ->]|]; auto.
  - rewrite <- (app_nil_r (p ++ [i])). apply (Hwr []).
  - intros q j Hq Hlq Hj. destruct (decide ((p ++ [i]) `prefix_of` q)) as [[r ->]|Hn].
    + assert (walk ts root ((p ++ [i]) ++ r) = None) as Hold.
      { rewrite walk_app, walk_snoc. unfold leaf. rewrite Hw. simpl. by rewrite Hnone. }
      unfold leaf. rewrite Hwr, Hold. destruct r; simpl; [by rewrite Hsa|done].
    + apply (leaf_change ts ts' root p t i); try done.
      intros [k Hk]. destruct k as [|x k _] using rev_ind.
      * apply (f_equal length) in Hk. rewrite !length_app in Hk. simpl in Hk. lia.
      * rewrite app_assoc in Hk. apply app_inj_tail in Hk as [-> _]. apply Hn. by exists k.
Qed.

Lemma ensure_table_spec h root p t i :
  ept_wf (tables h) root -> path_ok (p ++ [i]) -> walk (tables h) root p = Some t ->
  let '(h', r) := ensure_table t i h in
  grows h h' root /\
  match r with
  | Ok t' => walk (tables h') root (p ++ [i]) = Some t'
  | Err _ => False
  | Panic w => w = "allocation error" /\ exists h0, host_alloc h0 = None
  end.
Proof.
  intros Hwf Hpi Hw. pose proof Hpi as (_ & Hi & _)%path_ok_snoc.
  pose proof (path_ok_app_l _ _ Hpi) as Hp.
  destruct (ept_table _ _ Hwf p t Hp Hw) as (tbl & Ht & Hl).
  destruct (read_entry_Some h t i tbl Ht Hl Hi) as (e & He & Hr).
  unfold ensure_table. rewrite st_bind_eq, Hr. destruct (is_unused e) eqn:Hu.
  - rewrite st_bind_eq. unfold box_new_table. rewrite st_bind_eq.
    destruct (host_alloc h) as [a|] eqn:Ha; [|by split; [apply grows_refl|eauto]].
    destruct (alloc_fresh h a Ha) as [Hfa _]. pose proof (alloc_range h a Ha) as Hra.
    pose proof (alloc_aligned h a Ha) as Haa.
    destruct (table_set_addr_spec a) as [Hnu Hea]; [lia|done|].
    assert (t <> a) as Hta by (intros ->; congruence).
    erewrite write_entry_Some by (done || (cbn [tables]; rewrite lookup_insert_ne by done; done)).
    destruct (hang_table (tables h) root p t i a
      (table_set_addr a default_flags) tbl) as (Hwf' & Hcf & Hw' & Hlf); try done.
    { unfold step. rewrite Ht. simpl. rewrite He. simpl. by rewrite Hu. }
    rewrite st_bind_eq. edestruct (read_entry_Some
      (mkHost (<[t:=<[Z.to_nat i:=table_set_addr a default_flags]> tbl]>
        (<[a:=replicate PAGE_SIZE_ENTRIES 0]> (tables h))) (frames h)) t i) as (e' & He' & Hr');
      [apply lookup_insert_eq|by rewrite length_insert|done|].
    cbn [tables frames]. rewrite Hr'. rewrite list_lookup_insert_eq in He'
      by (rewrite Hl; unfold PAGE_SIZE_ENTRIES, idx_ok in *; lia). injection He' as <-.
    cbv [mret st_ret]. rewrite Hea. split; [by split_and!|done].
  - rewrite st_bind_eq. simpl. rewrite st_bind_eq, Hr. simpl.
    split; [by apply grows_refl|]. rewrite walk_snoc. unfold leaf, step. rewrite Hw. simpl.
    rewrite Ht. simpl. rewrite He. simpl. by rewrite Hu.
Qed.

(** ** The abstract page map

    What an address space promises: a partial map from guest page numbers (36
    bits, as four levels of 9 bits index them) to a host frame and whether the
    guest may write to it. *)

Definition guest_pfn (addr : Z) : Z := (addr / 4096) mod 2 ^ 36.

Definition path_of (addr : Z) : list Z := [pml4_index addr; pdpt_index addr; pd_index addr].

Definition leaf_at (h : Host) (root addr : Z) : option Z :=
  leaf (tables h) root (path_of addr) (pt_index addr).

Definition page_map (h : Host) (root pfn : Z) : option (Z * bool) :=
  (fun e => (entry_addr e, has_bits e WRITE_ACCESS)) <$> leaf_at h root (4096 * pfn).

Lemma index_ok a k : idx_ok (Z.land (Z.shiftr a k) 511).
Proof.
  unfold idx_ok. rewrite (land_mask 511 9) by (reflexivity || lia).
  apply Z.mod_pos_bound. lia.
Qed.

Lemma path_of_ok a : path_ok (path_of a).
Proof. split; [|simpl; lia]. repeat constructor; apply index_ok. Qed.

Lemma path_of_pfn a :
  path_of a = path_of (4096 * guest_pfn a) /\ pt_index a = pt_index (4096 * guest_pfn a).
Proof.
  unfold path_of, guest_pfn, pml4_index, pdpt_index, pd_index, pt_index.
  rewrite !(land_mask 511 9) by (reflexivity || lia). rewrite !Z.shiftr_div_pow2 by lia.
  pow2_literals. split; [f_equal; [|f_equal; [|f_equal]]|];
    Z.to_euclidean_division_equations; lia.
Qed.

Lemma path_of_inj a b :
  path_of a = path_of b -> pt_index a = pt_index b -> guest_pfn a = guest_pfn b.
Proof.
  unfold path_of, guest_pfn, pml4_index, pdpt_index, pd_index, pt_index.
  rewrite !(land_mask 511 9) by (reflexivity || lia). rewrite !Z.shiftr_div_pow2 by lia.
  intros [= H1 H2 H3] H4. revert H1 H2 H3 H4.
  pow2_literals. Z.to_euclidean_division_equations. lia.
Qed.

Lemma leaf_at_pfn h root a : leaf_at h root a = leaf_at h root (4096 * guest_pfn a).
Proof. unfold leaf_at. destruct (path_of_pfn a) as [<- <-]. done. Qed.

Lemma pfn_of_pfn a : guest_pfn (4096 * guest_pfn a) = guest_pfn a.
Proof. unfold guest_pfn. pow2_literals. Z.to_euclidean_division_equations. lia. Qed.

(** Writing the leaf of a mapped path. *)
Lemma write_leaf ts root p t i e tbl :
  ept_wf ts root -> path_ok p -> length p = 3%nat -> idx_ok i -> walk ts root p = Some t ->
  ts !! t = Some tbl -> length tbl = PAGE_SIZE_ENTRIES -> is_unused e = false ->
  let ts' := <[t := <[Z.to_nat i := e]> tbl]> ts in
  ept_wf ts' root /\ confined ts ts' root /\
  (forall q j, path_ok q -> length q = 3%nat -> idx_ok j ->
    leaf ts' root q j = if decide (q = p /\ j = i) then Some e else leaf ts root q j).
Proof.
  intros Hwf Hp Hlp Hi Hw Ht Hl Hu ts'.
  assert (forall t' j, idx_ok j -> is_Some (ts !! t') -> ~ (t' = t /\ j = i) ->
    step ts' t' j = step ts t' j) as Hs by (intros; by apply step_insert_ne).
  assert (forall q, path_ok q -> walk ts' root q = walk ts root q) as Hwq.
  { intros q Hq. apply (walk_change ts ts' root p t i); try done.
    intros [k Hk]. apply (f_equal length) in Hk. destruct Hq as [_ Hq].
    rewrite !length_app in Hk. simpl in Hk. lia. }
  split; [split|split].
  - intros q t' Hq. rewrite Hwq by done. intros Hx.
    destruct (ept_table ts root Hwf q t' Hq Hx) as (x & Hxt & Hxl). unfold ts'.
    destruct (decide (t' = t)) as [->|Hne].
    + rewrite lookup_insert_eq. eexists. split; [done|]. by rewrite length_insert.
    + rewrite lookup_insert_ne by done. eauto.
  - intros q1 q2 t' H1 H2. rewrite !Hwq by done. by apply (ept_inj ts root Hwf).
  - apply (confined_write ts _ root p); [done..|]. intros q t' Hq. rewrite Hwq by done. by left.
  - intros q j Hq Hlq Hj. destruct (decide (q = p /\ j = i)) as [[-> ->]|Hn].
    + unfold leaf. rewrite Hwq, Hw by done. simpl. by apply step_insert_eq.
    + apply (leaf_change ts ts' root p t i); try done.
      intros [k Hk]. apply Hn. destruct k as [|x k _] using rev_ind.
      * rewrite app_nil_r in Hk. by apply app_inj_tail in Hk as [-> ->].
      * apply (f_equal length) in Hk. rewrite !length_app in Hk. simpl in Hk. lia.
Qed.

Lemma map_guest_memory_spec h root guest_addr host_frame readonly :
  ept_wf (tables h) root -> is_frame_aligned host_frame = true ->
  is_unused (leaf_entry host_frame readonly) = false ->
  let '(h', r) := map_guest_memory root guest_addr host_frame readonly h in
  ept_wf (tables h') root /\ frames h' = frames h /\ confined (tables h) (tables h') root /\
  match r with
  | Ok _ => leaf_at h root guest_addr = None /\
      forall a, leaf_at h' root a =
        if decide (guest_pfn a = guest_pfn guest_addr)
        then Some (leaf_entry host_frame readonly) else leaf_at h root a
  | Err e => e = DuplicateMapping (Msg "Duplicate mapping for address 0x{:x}" [guest_addr]) /\
      is_Some (leaf_at h root guest_addr) /\ forall a, leaf_at h' root a = leaf_at h root a
  | Panic w => w = "allocation error" /\ (exists h0, host_alloc h0 = None) /\
      forall a, leaf_at h' root a = leaf_at h root a
  end.
Proof.
  intros Hwf Hal Hnu. pose proof (path_of_ok guest_addr) as Hpo. unfold path_of in Hpo.
  assert (forall h', grows h h' root -> forall a, leaf_at h' root a = leaf_at h root a) as Hleaf.
  { intros h' (_ & _ & _ & Hlf) a. apply Hlf; [apply path_of_ok|done|apply index_ok]. }
  unfold map_guest_memory.
  pose proof (ensure_table_spec h root [] root (pml4_index guest_addr) Hwf) as H1.
  rewrite st_bind_eq. destruct (ensure_table root _ h) as [h1 r1].
  destruct H1 as [Hg1 Hr1]; [by apply (path_ok_app_l _ [pdpt_index guest_addr; pd_index guest_addr])|done|].
  destruct r1 as [t1| |]; [|done|by destruct Hr1; split_and!; try apply Hg1; try apply Hleaf].
  pose proof (ensure_table_spec h1 root [pml4_index guest_addr] t1 (pdpt_index guest_addr)) as H2.
  rewrite st_bind_eq. destruct (ensure_table t1 _ h1) as [h2 r2].
  destruct H2 as [Hg2 Hr2]; [apply Hg1|by apply (path_ok_app_l _ [pd_index guest_addr])|done|].
  pose proof (grows_trans _ _ _ _ Hg1 Hg2) as Hg12.
  destruct r2 as [t2| |]; [|done|by destruct Hr2; split_and!; try apply Hg12; try apply Hleaf].
  pose proof (ensure_table_spec h2 root [pml4_index guest_addr; pdpt_index guest_addr] t2
    (pd_index guest_addr)) as H3.
  rewrite st_bind_eq. destruct (ensure_table t2 _ h2) as [h3 r3].
  destruct H3 as [Hg3 Hr3]; [apply Hg2|done|done|].
  pose proof (grows_trans _ _ _ _ Hg12 Hg3) as Hg.
  destruct r3 as [t3| |]; [|done|by destruct Hr3; split_and!; try apply Hg; try apply Hleaf].
  destruct (ept_table (tables h3) root (proj1 Hg) (path_of guest_addr) t3) as (tbl & Ht & Hl);
    [apply path_of_ok|done|].
  assert (idx_ok (pt_index guest_addr)) as Hi by apply index_ok.
  destruct (read_entry_Some h3 t3 _ tbl Ht Hl Hi) as (e & He & Hr).
  assert (leaf_at h3 root guest_addr = if is_unused e then None else Some e) as Hlf3.
  { unfold leaf_at, leaf. change (path_of guest_addr) with
      ([pml4_index guest_addr; pdpt_index guest_addr] ++ [pd_index guest_addr]).
    rewrite Hr3. simpl. unfold step. rewrite Ht. simpl. by rewrite He. }
  rewrite st_bind_eq, Hr. destruct (is_unused e) eqn:Hu; change (negb true) with false; change (negb false) with true; cbv iota.
  - apply Z.eqb_eq in Hu as ->.
    destruct (write_leaf (tables h3) root (path_of guest_addr) t3 (pt_index guest_addr)
      (leaf_entry host_frame readonly) tbl) as (Hwf' & Hcf' & Hlf');
      [apply Hg|apply path_of_ok|done|done|done|done|done|done|].
    rewrite st_bind_eq. unfold lift. rewrite pte_set_addr_unused by done.
    fold (leaf_entry host_frame readonly).
    rewrite (write_entry_Some _ _ _ _ tbl) by done. split_and!; [done|apply Hg|eapply confined_trans; [apply Hg|done]| |].
    + by rewrite <- (Hleaf h3 Hg).
    + intros a. unfold leaf_at at 1. cbn [tables]. rewrite Hlf' by (apply path_of_ok || apply index_ok || done).
      rewrite <- (Hleaf h3 Hg a). unfold leaf_at.
      destruct (decide (guest_pfn a = guest_pfn guest_addr)) as [Hpf|Hpf]; case_decide as Hd; try done.
      * exfalso. apply Hd. destruct (path_of_pfn a) as [-> ->], (path_of_pfn guest_addr) as [-> ->].
        by rewrite Hpf.
      * exfalso. destruct Hd. apply Hpf. by apply path_of_inj.
  - split_and!; [apply Hg|apply Hg|apply Hg|done| |by apply Hleaf].
    rewrite <- (Hleaf h3 Hg), Hlf3. done.
Qed.

(** [find_host_frame] reads the abstract map, changes nothing and follows no
    invalid pointer. *)
Lemma find_host_frame_spec h root addr :
  ept_wf (tables h) root ->
  exists r, find_host_frame root addr h = (h, r) /\
  match page_map h root (guest_pfn addr) with
  | Some (f, _) => r = Ok f
  | None => exists m, r = Err (InvalidValue m)
  end.
Proof.
  intros Hwf. unfold page_map. rewrite <- leaf_at_pfn.
  pose proof (path_of_ok addr) as Hpo. unfold path_of in Hpo.
  assert (forall p t i, path_ok p -> idx_ok i -> walk (tables h) root p = Some t ->
    exists e, read_entry t i h = (h, Ok e) /\
      leaf (tables h) root p i = if is_unused e then None else Some e) as Hread.
  { intros p t i Hp Hi Hw. destruct (ept_table _ _ Hwf p t Hp Hw) as (tbl & Ht & Hl).
    destruct (read_entry_Some h t i tbl Ht Hl Hi) as (e & He & Hr). exists e. split; [done|].
    unfold leaf. rewrite Hw. simpl. unfold step. rewrite Ht. simpl. by rewrite He. }
  assert (forall p t i e, walk (tables h) root p = Some t ->
    leaf (tables h) root p i = Some e -> walk (tables h) root (p ++ [i]) = Some (entry_addr e)) as Hnext.
  { intros p t i e Hw Hl. by rewrite walk_snoc, Hl. }
  assert (forall p i q, leaf (tables h) root p i = None -> walk (tables h) root (p ++ [i] ++ q) = None) as Hstop.
  { intros p i q Hn. by rewrite app_assoc, walk_app, walk_snoc, Hn. }
  unfold find_host_frame.
  destruct (Hread [] root (pml4_index addr)) as (e1 & Hr1 & Hl1); [by repeat constructor; simpl; lia|apply index_ok|done|].
  rewrite st_bind_eq, Hr1. destruct (is_unused e1).
  { eexists. split; [done|]. unfold leaf_at, leaf.
    rewrite (Hstop [] (pml4_index addr) [pdpt_index addr; pd_index addr] Hl1 : walk _ _ (path_of addr) = None).
    simpl. eauto. }
  destruct (Hread [pml4_index addr] (entry_addr e1) (pdpt_index addr)) as (e2 & Hr2 & Hl2);
    [by apply (path_ok_app_l _ [pdpt_index addr; pd_index addr])|apply index_ok|by apply (Hnext [] root)|].
  rewrite st_bind_eq, Hr2. destruct (is_unused e2).
  { eexists. split; [done|]. unfold leaf_at, leaf.
    rewrite (Hstop [pml4_index addr] (pdpt_index addr) [pd_index addr] Hl2 : walk _ _ (path_of addr) = None).
    simpl. eauto. }
  destruct (Hread [pml4_index addr; pdpt_index addr] (entry_addr e2) (pd_index addr)) as (e3 & Hr3 & Hl3);
    [by apply (path_ok_app_l _ [pd_index addr])|apply index_ok|by eapply (Hnext [_]), Hl2; apply (Hnext [] root)|].
  rewrite st_bind_eq, Hr3. destruct (is_unused e3).
  { eexists. split; [done|]. unfold leaf_at, leaf.
    rewrite (Hstop [pml4_index addr; pdpt_index addr] (pd_index addr) [] Hl3 : walk _ _ (path_of addr) = None).
    simpl. eauto. }
  destruct (Hread (path_of addr) (entry_addr e3) (pt_index addr)) as (e4 & Hr4 & Hl4);
    [done|apply index_ok|by eapply (Hnext [_; _]), Hl3; eapply (Hnext [_]), Hl2; apply (Hnext [] root)|].
  rewrite st_bind_eq, Hr4. unfold leaf_at. rewrite Hl4. destruct (is_unused e4); [eexists; simpl; eauto|].
  eexists. split; [done|]. simpl. unfold from_start_address. by rewrite entry_addr_aligned.
Qed.
End mapping.

(** A concrete allocator: the first free page of a pool of 63. *)
Definition pool_alloc : HostAlloc := fun h =>
  head (filter (fun a => tables h !! a = None /\ frames h !! a = None)
          (map (fun n => 4096 * Z.of_nat n) (seq 1 63))).

#[export] Instance pool_alloc_laws : @HostAllocLaws pool_alloc.
Proof.
  assert (forall h a, pool_alloc h = Some a ->
    (tables h !! a = None /\ frames h !! a = None) /\
    exists n, a = 4096 * Z.of_nat n /\ (1 <= n < 64)%nat) as Hp.
  { intros h a Ha%head_Some_elem_of. apply list_elem_of_filter in Ha as [Hf Ha].
    split; [done|]. apply list_elem_of_fmap in Ha as (n & -> & Hn%elem_of_seq). eauto with lia. }
  split; intros h a (Hf & n & -> & Hn)%Hp; [done|lia|].
  rewrite Z.mul_comm. apply Z.mod_mul. lia.
Qed.

(** An empty address space and its root, for the witnesses. *)
Definition empty_space : Host := mkHost {[ 4096 := replicate PAGE_SIZE_ENTRIES 0 ]} ∅.

Lemma single_table_wf root fs : ept_wf (tables (mkHost {[ root := replicate PAGE_SIZE_ENTRIES 0 ]} fs)) root.
Proof.
  assert (forall p t, walk {[ root := replicate PAGE_SIZE_ENTRIES 0 ]} root p = Some t -> p = [] /\ t = root) as Hw.
  { intros [|i p] t; simpl; [naive_solver|]. unfold singletonM, map_singleton.
    by rewrite step_empty_table. }
  split; cbn [tables].
  - intros p t _ [-> ->]%Hw. eexists. rewrite lookup_singleton_eq. split; [done|].
    by rewrite length_replicate.
  - intros p q t _ _ [-> _]%Hw [-> _]%Hw. done.
Qed.

(** C1: mapping a frame implements insertion into the abstract page map.  The
    tables stay a tree, no frame content changes, and the call succeeds exactly
    on an unmapped page, making it translate to the given frame, writable
    unless [readonly], with every other page as before; on a mapped page it
    reports [DuplicateMapping] and no page changes; the only other outcome is
    the allocator running out of memory. *)
Theorem map_frame_refines `{HostAlloc} `{!HostAllocLaws} h root guest_addr host_frame readonly :
  ept_wf (tables h) root -> 0 <= host_frame < 2 ^ 52 -> host_frame mod 4096 = 0 ->
  let '(h', r) := map_frame root guest_addr host_frame readonly h in
  ept_wf (tables h') root /\ frames h' = frames h /\
  ((r = Panic "allocation error" /\ (exists h0, host_alloc h0 = None) /\
     forall q, page_map h' root q = page_map h root q) \/
   match page_map h root (guest_pfn guest_addr) with
   | Some _ =>
       r = Err (DuplicateMapping (Msg "Duplicate mapping for address 0x{:x}" [guest_addr])) /\
       forall q, page_map h' root q = page_map h root q
   | None => r = Ok tt /\
       forall q, 0 <= q < 2 ^ 36 -> page_map h' root q =
         if decide (q = guest_pfn guest_addr) then Some (host_frame, negb readonly)
         else page_map h root q
   end).
Proof.
  intros Hwf Hr Hm. destruct (leaf_entry_spec host_frame readonly Hr Hm) as (He & Hw & Hu).
  pose proof (map_guest_memory_spec h root guest_addr host_frame readonly Hwf
    (proj2 (aligned_mod _) Hm) Hu) as Hs.
  unfold map_frame. destruct (map_guest_memory _ _ _ _ h) as [h' r].
  destruct Hs as (Hwf' & Hf & _ & Hs). split_and!; [done..|].
  unfold page_map. rewrite <- leaf_at_pfn. destruct r as [[]|e|w].
  - right. destruct Hs as [-> Hs]. simpl. split; [done|]. intros q Hq. rewrite Hs.
    replace (guest_pfn (4096 * q)) with q
      by (unfold guest_pfn; pow2_literals; Z.to_euclidean_division_equations; lia).
    case_decide; [|done]. simpl. by rewrite He, Hw.
  - right. destruct Hs as (-> & [x ->] & Hs). simpl. split; [done|]. intros q. by rewrite Hs.
  - left. destruct Hs as (-> & Hx & Hs). split_and!; [done..|]. intros q. by rewrite Hs.
Qed.

Lemma map_frame_refines_witness :
  ept_wf (tables empty_space) 4096 /\
  (let '(h', r) := @map_frame pool_alloc 4096 0x7fff_0000_1000 0x20_0000 true empty_space in
   ept_wf (tables h') 4096).
Proof.
  split; [apply single_table_wf|].
  pose proof (@map_frame_refines pool_alloc _ empty_space 4096 0x7fff_0000_1000 0x20_0000 true
    (single_table_wf _ _) ltac:(lia) ltac:(reflexivity)) as H.
  destruct (map_frame _ _ _ _ _). apply H.
Defined.

(** [find_host_frame] returns the frame the abstract page map assigns to
    the page of the address, and an [InvalidValue] error exactly where the page
    is not mapped; it reads only valid tables and changes nothing. *)
Lemma find_host_frame_refines h root addr :
  ept_wf (tables h) root ->
  exists r, find_host_frame root addr h = (h, r) /\
    (forall f, r = Ok f <-> exists w, page_map h root (guest_pfn addr) = Some (f, w)) /\
    (page_map h root (guest_pfn addr) = None <-> exists m, r = Err (InvalidValue m)).
Proof.
  intros Hwf. destruct (find_host_frame_spec h root addr Hwf) as (r & Hf & Hr).
  exists r. split; [done|]. destruct (page_map _ _ _) as [[f w]|]; naive_solver.
Qed.

Lemma find_host_frame_refines_witness :
  ept_wf (tables empty_space) 4096 /\ exists r, find_host_frame 4096 0x1234 empty_space = (empty_space, r).
Proof.
  split; [apply single_table_wf|].
  destruct (find_host_frame_refines empty_space 4096 0x1234 (single_table_wf _ _)) as (r & H & _).
  by exists r.
Defined.
