(* ===== verification/GuestMemory.v ===== *)
(** * Reading and writing guest memory ([read_bytes] and [write_bytes] of
    [mythril/src/memory.rs])

    The abstract view is [guest_byte]: the byte at a guest-physical address.
    The loops walk the guest pages one frame at a time; the theorems say that
    they read and write exactly the bytes of the interval, whatever its
    alignment. *)

From S2P Require Import Prelude Error Memory.

(** Every mapped page has a host frame behind it. *)
Definition frames_ok (h : Host) (root : Z) : Prop :=
  forall q f w, page_map h root q = Some (f, w) ->
    f <> 0 /\ exists fr, frames h !! f = Some fr /\ length fr = 4096%nat.

(** No host frame backs two guest pages. *)
Definition frames_unshared (h : Host) (root : Z) : Prop :=
  forall q q' f w w', 0 <= q < 2 ^ 36 -> 0 <= q' < 2 ^ 36 ->
    page_map h root q = Some (f, w) -> page_map h root q' = Some (f, w') -> q = q'.

Definition mapped (h : Host) (root addr : Z) : Prop := is_Some (page_map h root (guest_pfn addr)).

#[export] Instance mapped_dec h root addr : Decision (mapped h root addr).
Proof. unfold mapped. apply _. Defined.

Definition guest_byte (h : Host) (root addr : Z) : option Z :=
  '(f, _) ← page_map h root (guest_pfn addr);
  fr ← frames h !! f;
  fr !! Z.to_nat (addr mod 4096).

Lemma guest_pfn_offset a i :
  a mod 4096 = 0 -> 0 <= i < 4096 -> guest_pfn (a + i) = guest_pfn a /\ (a + i) mod 4096 = i.
Proof. unfold guest_pfn. intros. pow2_literals. Z.to_euclidean_division_equations. lia. Qed.

Lemma guest_pfn_u64 a : guest_pfn (u64 a) = guest_pfn a.
Proof. unfold guest_pfn, u64, wrap. pow2_literals. Z.to_euclidean_division_equations. lia. Qed.

Lemma guest_pfn_base a : guest_pfn (a - a mod 4096) = guest_pfn a.
Proof. unfold guest_pfn. pow2_literals. Z.to_euclidean_division_equations. lia. Qed.

Section bytes.
Context `{HostAlloc} `{GuestPaging}.

(** One round of either loop finds the frame of the current page. *)
Lemma next_frame h root cr3 access a :
  ept_wf (tables h) root -> frames_ok h root -> mapped h root a ->
  exists f w fr, page_map h root (guest_pfn a) = Some (f, w) /\
    frames h !! f = Some fr /\ length fr = 4096%nat /\
    (frame_iter_next root cr3 access (NoPaging a)).2 h = (h, Ok f) /\
    as_array f h = (h, Ok fr).
Proof.
  intros Hwf Hok [[f w] Hm]. destruct (Hok _ _ _ Hm) as (Hf0 & fr & Hfr & Hl).
  destruct (find_host_frame_spec h root a Hwf) as (r & Hff & Hr). rewrite Hm in Hr. subst r.
  exists f, w, fr. split_and!; [done..| |].
  - unfold frame_iter_next. cbn [snd translate_linear_address]. rewrite st_bind_eq. done.
  - unfold as_array. rewrite (proj2 (Z.eqb_neq f 0)) by done. by rewrite Hfr.
Qed.

Lemma guest_byte_page h root b f w fr i :
  b mod 4096 = 0 -> 0 <= i < 4096 -> page_map h root (guest_pfn b) = Some (f, w) ->
  frames h !! f = Some fr -> guest_byte h root (b + i) = fr !! Z.to_nat i.
Proof.
  intros Hb Hi Hm Hf. destruct (guest_pfn_offset b i Hb Hi) as [Hp Ho].
  unfold guest_byte. rewrite Hp, Hm, Ho. simpl. by rewrite Hf.
Qed.

(** The loop, started on the page with base address [b] (the current address is
    [b] plus some offset [d] that does not change from page to page). *)
Lemma read_bytes_loop_spec h root cr3 access fuel : forall b d off len out,
  ept_wf (tables h) root -> frames_ok h root ->
  b mod 4096 = 0 -> 0 <= d < 4096 -> (off < 4096)%nat -> (len < fuel)%nat ->
  mapped h root b ->
  (forall i, 0 <= i < Z.of_nat len -> mapped h root (b + Z.of_nat off + i)) ->
  exists bs, read_bytes_loop fuel root cr3 access (NoPaging (u64 (b + d))) off len out h = (h, Ok (out ++ bs)) /\
    length bs = len /\
    forall i, (i < len)%nat -> bs !! i = guest_byte h root (b + Z.of_nat off + Z.of_nat i).
Proof.
  induction fuel as [|fuel IH]; intros b d off len out Hwf Hok Hb Hd Hoff Hfuel Hmb Hm; [lia|].
  destruct (guest_pfn_offset b d Hb Hd) as [Hpd _].
  destruct (next_frame h root cr3 access (u64 (b + d)) Hwf Hok) as (f & w & fr & Hpm & Hfr & Hl & Hn & Ha).
  { unfold mapped. by rewrite guest_pfn_u64, Hpd. }
  rewrite guest_pfn_u64, Hpd in Hpm.
  cbn [read_bytes_loop]. unfold frame_iter_next at 1. cbn [gva_add]. fold (frame_iter_next root cr3 access (NoPaging (u64 (b + d)))).
  change (physaddr ← translate_linear_address root cr3 (NoPaging (u64 (b + d))) access; find_host_frame root physaddr)
    with ((frame_iter_next root cr3 access (NoPaging (u64 (b + d)))).2).
  rewrite st_bind_eq, Hn, st_bind_eq, Ha, st_bind_eq.
  case_bool_decide as Hc; unfold lift, slice; rewrite bool_decide_true by lia; cbn [expect].
  - replace (off + len - off)%nat with len by lia.
    assert (length (take len (drop off fr)) = len) as Hlt by (rewrite length_take, length_drop; lia).
    rewrite Hlt, Nat.sub_diag, bool_decide_true by done.
    eexists. split; [done|]. split; [done|]. intros i Hi.
    rewrite <- Z.add_assoc, (guest_byte_page h root b f w fr) by (done || lia).
    rewrite lookup_take_lt, lookup_drop by lia. f_equal. lia.
  - set (s := take (length fr - off) (drop off fr)).
    assert (length s = (4096 - off)%nat) as Hls by (unfold s; rewrite length_take, length_drop; lia).
    rewrite Hls, bool_decide_false by lia.
    replace (u64 (u64 (b + d) + BASE_PAGE_SIZE)) with (u64 ((b + 4096) + d))
      by (clear; unfold BASE_PAGE_SIZE; words).
    edestruct (IH (b + 4096) d 0%nat (len - (4096 - off))%nat (out ++ s)) as (bs & Hr & Hlb & Hbs); try done; try lia.
    { clear -Hb. Z.to_euclidean_division_equations. lia. }
    { replace (b + 4096) with (b + Z.of_nat off + Z.of_nat (4096 - off)) by lia. apply Hm. lia. }
    { intros i Hi. replace (b + 4096 + Z.of_nat 0 + i) with (b + Z.of_nat off + (Z.of_nat (4096 - off) + i)) by lia.
      apply Hm. lia. }
    exists (s ++ bs). rewrite Hr, <- app_assoc. split; [done|]. split; [rewrite length_app; lia|].
    intros i Hi. destruct (decide (i < 4096 - off)%nat).
    + rewrite lookup_app_l by lia. unfold s. rewrite lookup_take_lt, lookup_drop by lia.
      rewrite <- Z.add_assoc, (guest_byte_page h root b f w fr) by (done || lia). f_equal. lia.
    + rewrite lookup_app_r by lia. rewrite Hls, Hbs by lia. f_equal. lia.
Qed.

(** The bytes a write leaves in a page and elsewhere. *)
Lemma guest_byte_insert h root f w fr' q x :
  frames_unshared h root -> page_map h root q = Some (f, w) -> 0 <= q < 2 ^ 36 ->
  guest_byte (mkHost (tables h) (<[f := fr']> (frames h))) root x =
  if decide (guest_pfn x = q) then fr' !! Z.to_nat (x mod 4096) else guest_byte h root x.
Proof.
  intros Hu Hq Hqr. unfold guest_byte.
  change (page_map (mkHost (tables h) (<[f := fr']> (frames h))) root (guest_pfn x))
    with (page_map h root (guest_pfn x)). cbn [frames].
  case_decide as Hd.
  - rewrite Hd, Hq. simpl. by rewrite lookup_insert_eq.
  - destruct (page_map h root (guest_pfn x)) as [[f' w']|] eqn:Hx; [|done]. simpl.
    rewrite lookup_insert_ne; [done|]. intros <-. apply Hd.
    apply (Hu _ _ f w' w); try done. unfold guest_pfn. apply Z.mod_pos_bound. lia.
Qed.

Lemma guest_pfn_range x : 0 <= guest_pfn x < 2 ^ 36.
Proof. apply Z.mod_pos_bound. lia. Qed.

Lemma frames_ok_insert h root f fr' :
  frames_ok h root -> length fr' = 4096%nat ->
  frames_ok (mkHost (tables h) (<[f := fr']> (frames h))) root.
Proof.
  intros Hok Hl q f' w Hq. destruct (Hok q f' w Hq) as (Hf0 & fr & Hfr & Hlf). split; [done|].
  cbn [frames]. destruct (decide (f' = f)) as [->|Hne].
  - rewrite lookup_insert_eq. eauto.
  - rewrite lookup_insert_ne by done. eauto.
Qed.

Lemma lookup_blit (l bs : list Z) a i :
  (a + length bs <= length l)%nat ->
  blit l a bs !! i = if decide (a <= i < a + length bs)%nat then bs !! (i - a)%nat else l !! i.
Proof.
  intros Hl. unfold blit. case_decide as Hi.
  - rewrite lookup_app_r by (rewrite length_take; lia). rewrite lookup_app_l by (rewrite length_take; lia).
    f_equal. rewrite length_take. lia.
  - destruct (decide (i < a)%nat).
    + rewrite lookup_app_l by (rewrite length_take; lia). by rewrite lookup_take_lt.
    + rewrite lookup_app_r by (rewrite length_take; lia).
      rewrite lookup_app_r by (rewrite length_take; lia).
      rewrite lookup_drop. f_equal. rewrite length_take. lia.
Qed.

Lemma same_page_iff x b :
  0 <= x < 2 ^ 48 -> 0 <= b < 2 ^ 48 -> b mod 4096 = 0 ->
  guest_pfn x = guest_pfn b <-> b <= x < b + 4096.
Proof. unfold guest_pfn. intros. pow2_literals. Z.to_euclidean_division_equations. lia. Qed.

(** Writing inside one page, in terms of the abstract bytes. *)
Lemma write_page h root b f w fr off bytes x :
  frames_unshared h root -> b mod 4096 = 0 -> 0 <= b < 2 ^ 48 ->
  page_map h root (guest_pfn b) = Some (f, w) -> frames h !! f = Some fr -> length fr = 4096%nat ->
  (off + length bytes <= 4096)%nat -> 0 <= x < 2 ^ 48 ->
  guest_byte (mkHost (tables h) (<[f := blit fr off bytes]> (frames h))) root x =
  if decide (b + Z.of_nat off <= x < b + Z.of_nat off + Z.of_nat (length bytes))
  then bytes !! Z.to_nat (x - (b + Z.of_nat off)) else guest_byte h root x.
Proof.
  intros Hu Hb Hbr Hm Hf Hl Hoff Hx.
  rewrite (guest_byte_insert h root f w _ (guest_pfn b)) by (done || apply guest_pfn_range).
  destruct (decide (guest_pfn x = guest_pfn b)) as [Hp|Hp].
  - rewrite same_page_iff in Hp by done.
    assert (x mod 4096 = x - b) as Hxb by (clear -Hb Hp; Z.to_euclidean_division_equations; lia).
    rewrite lookup_blit by lia. rewrite Hxb. do 2 case_decide; try lia.
    + f_equal. lia.
    + replace x with (b + (x - b)) at 2 by lia. by rewrite (guest_byte_page h root b f w fr) by (done || lia).
  - rewrite same_page_iff in Hp by done. case_decide; [lia|done].
Qed.

Lemma write_bytes_loop_spec root cr3 access fuel : forall h b d off bytes,
  ept_wf (tables h) root -> frames_ok h root -> frames_unshared h root ->
  b mod 4096 = 0 -> 0 <= d < 4096 -> (off < 4096)%nat -> (length bytes < fuel)%nat ->
  0 <= b -> b < 2 ^ 48 -> b + Z.of_nat off + Z.of_nat (length bytes) <= 2 ^ 48 ->
  mapped h root b ->
  (forall i, 0 <= i < Z.of_nat (length bytes) -> mapped h root (b + Z.of_nat off + i)) ->
  exists h', write_bytes_loop fuel root cr3 access (NoPaging (u64 (b + d))) off bytes h = (h', Ok tt) /\
    tables h' = tables h /\ frames_ok h' root /\
    forall x, 0 <= x < 2 ^ 48 -> guest_byte h' root x =
      if decide (b + Z.of_nat off <= x < b + Z.of_nat off + Z.of_nat (length bytes))
      then bytes !! Z.to_nat (x - (b + Z.of_nat off)) else guest_byte h root x.
Proof.
  induction fuel as [|fuel IH]; intros h b d off bytes Hwf Hok Hu Hb Hd Hoff Hfuel Hb0 Hb1 Hend Hmb Hm; [lia|].
  destruct (guest_pfn_offset b d Hb Hd) as [Hpd _].
  destruct (next_frame h root cr3 access (u64 (b + d)) Hwf Hok) as (f & w & fr & Hpm & Hfr & Hl & Hn & Ha).
  { unfold mapped. by rewrite guest_pfn_u64, Hpd. }
  rewrite guest_pfn_u64, Hpd in Hpm.
  cbn [write_bytes_loop]. unfold frame_iter_next at 1. cbn [gva_add].
  change (physaddr ← translate_linear_address root cr3 (NoPaging (u64 (b + d))) access; find_host_frame root physaddr)
    with ((frame_iter_next root cr3 access (NoPaging (u64 (b + d)))).2).
  rewrite st_bind_eq, Hn, st_bind_eq, Ha. case_bool_decide as Hc.
  - unfold as_mut_array. eexists. split; [done|]. split_and!; [done| |].
    + apply frames_ok_insert; [done|]. rewrite length_blit; lia.
    + intros x Hx. by apply (write_page h root b f w fr).
  - rewrite st_bind_eq. unfold as_mut_array at 1.
    set (pre := take (4096 - off) bytes). set (post := drop (4096 - off) bytes).
    assert (length pre = (4096 - off)%nat) as Hlpre by (unfold pre; rewrite length_take; lia).
    assert (length post = (length bytes - (4096 - off))%nat) as Hlpost by (unfold post; by rewrite length_drop).
    set (h1 := mkHost (tables h) (<[f:=blit fr off pre]> (frames h))).
    replace (u64 (u64 (b + d) + BASE_PAGE_SIZE)) with (u64 ((b + 4096) + d))
      by (clear; unfold BASE_PAGE_SIZE; words).
    destruct (IH h1 (b + 4096) d 0%nat post) as (h' & Hw & Ht & Hok' & Hbytes);
      [done|apply frames_ok_insert; [done|rewrite length_blit; lia]|done| |done|lia|lia|lia|lia|lia| | |].
    { clear -Hb. Z.to_euclidean_division_equations. lia. }
    { replace (b + 4096) with (b + Z.of_nat off + Z.of_nat (4096 - off)) by lia. apply Hm. lia. }
    { intros i Hi. replace (b + 4096 + Z.of_nat 0 + i) with (b + Z.of_nat off + (Z.of_nat (4096 - off) + i)) by lia.
      apply Hm. lia. }
    exists h'. split; [done|]. split_and!; [done|done|]. intros x Hx. rewrite Hbytes by done.
    unfold h1. rewrite (write_page h root b f w fr off pre x) by (done || lia).
    repeat case_decide; try lia; try done.
    + unfold post. rewrite lookup_drop. f_equal. lia.
    + unfold pre. rewrite lookup_take_lt by lia. done.
Qed.

(** The page decomposition the two functions start from. *)
Lemma base_offset a :
  is_u 64 a -> let b := a - a mod 4096 in
  b mod 4096 = 0 /\ 0 <= b /\ u64 (b + a mod 4096) = a /\
  (Z.to_nat (a mod 4096) < 4096)%nat /\ b + Z.of_nat (Z.to_nat (a mod 4096)) = a.
Proof.
  intros Ha b. pose proof (Z.mod_pos_bound a 4096). unfold b. split_and!; try lia.
  - Z.to_euclidean_division_equations. lia.
  - Z.to_euclidean_division_equations. unfold is_u in Ha. lia.
  - unfold u64. rewrite wrap_small by (replace (a - a mod 4096 + a mod 4096) with a by lia; done). lia.
Qed.

Lemma read_bytes_spec h root cr3 access a len :
  is_u 64 a -> ept_wf (tables h) root -> frames_ok h root -> mapped h root a ->
  (forall i, 0 <= i < Z.of_nat len -> mapped h root (a + i)) ->
  exists bs, read_bytes root cr3 (NoPaging a) len access h = (h, Ok bs) /\ length bs = len /\
    forall i, (i < len)%nat -> bs !! i = guest_byte h root (a + Z.of_nat i).
Proof.
  intros Ha Hwf Hok Hma Hm. destruct (base_offset a Ha) as (Hb & Hb0 & Hu & Ho & Hs).
  unfold read_bytes. cbn [gva_as_u64]. unfold BASE_PAGE_SIZE.
  edestruct (read_bytes_loop_spec h root cr3 access (S len) (a - a mod 4096) (a mod 4096)
    (Z.to_nat (a mod 4096)) len []) as (bs & Hr & Hl & Hbs); try done.
  - pose proof (Z.mod_pos_bound a 4096). lia.
  - lia.
  - unfold mapped. by rewrite guest_pfn_base.
  - by rewrite Hs.
  - rewrite Hu in Hr. rewrite Hs in Hbs. by exists bs.
Qed.

Lemma write_bytes_spec h root cr3 access a bytes :
  is_u 64 a -> ept_wf (tables h) root -> frames_ok h root -> frames_unshared h root ->
  a + Z.of_nat (length bytes) <= 2 ^ 48 -> a < 2 ^ 48 -> mapped h root a ->
  (forall i, 0 <= i < Z.of_nat (length bytes) -> mapped h root (a + i)) ->
  exists h', write_bytes root cr3 (NoPaging a) bytes access h = (h', Ok tt) /\
    tables h' = tables h /\ frames_ok h' root /\
    forall x, 0 <= x < 2 ^ 48 -> guest_byte h' root x =
      if decide (a <= x < a + Z.of_nat (length bytes))
      then bytes !! Z.to_nat (x - a) else guest_byte h root x.
Proof.
  intros Ha Hwf Hok Hun Hend Ha48 Hma Hm. destruct (base_offset a Ha) as (Hb & Hb0 & Hu & Ho & Hs).
  unfold write_bytes. cbn [gva_as_u64]. unfold BASE_PAGE_SIZE.
  pose proof (Z.mod_pos_bound a 4096).
  edestruct (write_bytes_loop_spec root cr3 access (S (length bytes)) h (a - a mod 4096) (a mod 4096)
    (Z.to_nat (a mod 4096)) bytes) as (h' & Hr & Ht & Hok' & Hbs); try done; try lia.
  - unfold mapped. by rewrite guest_pfn_base.
  - by rewrite Hs.
  - rewrite Hu in Hr. rewrite Hs in Hbs. by exists h'.
Qed.
End bytes.

(** A guest with two adjacent pages backed by distant frames, for the witnesses. *)
Definition no_pages : Host :=
  mkHost {[ 4096 := replicate PAGE_SIZE_ENTRIES 0 ]}
    {[ 0x200000 := replicate 4096 7; 0x300000 := replicate 4096 9 ]}.
Definition one_page : Host := (@map_frame pool_alloc 4096 0x5000 0x200000 false no_pages).1.
Definition two_pages : Host := (@map_frame pool_alloc 4096 0x6000 0x300000 false one_page).1.

Definition linear_entry_address : GuestPaging := entry_addr.

Lemma map_frame_Ok `{HostAlloc} `{!HostAllocLaws} h root ga hf ro h' :
  ept_wf (tables h) root -> 0 <= hf < 2 ^ 52 -> hf mod 4096 = 0 ->
  map_frame root ga hf ro h = (h', Ok tt) ->
  ept_wf (tables h') root /\ frames h' = frames h /\
  forall q, page_map h' root q =
    if decide (guest_pfn (4096 * q) = guest_pfn ga) then Some (hf, negb ro) else page_map h root q.
Proof.
  intros Hwf Hr Hm Hmap. destruct (leaf_entry_spec hf ro Hr Hm) as (He & Hw & Hu).
  pose proof (map_guest_memory_spec h root ga hf ro Hwf (proj2 (aligned_mod _) Hm) Hu) as Hs.
  unfold map_frame in Hmap. rewrite Hmap in Hs. destruct Hs as (Hwf' & Hf & _ & _ & Hs).
  split_and!; [done..|]. intros q. unfold page_map. rewrite Hs.
  case_decide; [|done]. simpl. by rewrite He, Hw.
Qed.

Lemma two_pages_ok :
  ept_wf (tables two_pages) 4096 /\ frames_ok two_pages 4096 /\ frames_unshared two_pages 4096 /\
  mapped two_pages 4096 0x5ffe /\ mapped two_pages 4096 0x5fff /\
  mapped two_pages 4096 0x6000 /\ mapped two_pages 4096 0x6001.
Proof.
  assert (@map_frame pool_alloc 4096 0x5000 0x200000 false no_pages = (one_page, Ok tt)) as H1
    by (apply injective_projections; [unfold one_page; reflexivity|vm_compute; reflexivity]).
  assert (@map_frame pool_alloc 4096 0x6000 0x300000 false one_page = (two_pages, Ok tt)) as H2
    by (apply injective_projections; [unfold two_pages; reflexivity|vm_compute; reflexivity]).
  apply map_frame_Ok in H1 as (Hwf1 & Hf1 & Hm1); [|apply single_table_wf|lia|done].
  apply map_frame_Ok in H2 as (Hwf2 & Hf2 & Hm2); [|done|lia|done].
  assert (forall q, page_map no_pages 4096 q = None) as Hm0.
  { intros q. unfold page_map, leaf_at, leaf, path_of, no_pages. cbn [tables walk].
    unfold singletonM, map_singleton. by rewrite step_empty_table. }
  assert (forall q f w, page_map two_pages 4096 q = Some (f, w) ->
    (f = 0x300000 /\ guest_pfn (4096 * q) = 6) \/ (f = 0x200000 /\ guest_pfn (4096 * q) = 5)) as Hc.
  { intros q f w. rewrite Hm2, Hm1, Hm0. case_decide as H6; [|case_decide as H5; [|done]]; intros [= <- <-].
    - left. rewrite H6. split; reflexivity.
    - right. rewrite H5. split; reflexivity. }
  split; [done|]. split; [|split; [|split_and!; eexists; rewrite Hm2, ?Hm1; vm_compute; reflexivity]].
  - intros q f w [[-> _]|[-> _]]%Hc; (split; [lia|]); rewrite Hf2, Hf1; eexists; split; reflexivity.
  - intros q q' f w w' Hq Hq' H1%Hc H2%Hc. unfold guest_pfn in *.
    revert H1 H2. pow2_literals. Z.to_euclidean_division_equations. lia.
Qed.

(** C10: writing any bytes to mapped guest-physical memory and reading the same
    interval back yields the same bytes, whatever pages the interval crosses;
    both calls succeed (no error, no invalid pointer, enough loop rounds). *)
Theorem write_read_roundtrip `{HostAlloc} `{GuestPaging} h root cr3 a bytes wa ra :
  is_u 64 a -> ept_wf (tables h) root -> frames_ok h root -> frames_unshared h root ->
  a + Z.of_nat (length bytes) < 2 ^ 48 -> mapped h root a ->
  (forall i, 0 <= i < Z.of_nat (length bytes) -> mapped h root (a + i)) ->
  exists h', write_bytes root cr3 (NoPaging a) bytes wa h = (h', Ok tt) /\
    read_bytes root cr3 (NoPaging a) (length bytes) ra h' = (h', Ok bytes).
Proof.
  intros Ha Hwf Hok Hun Hend Hma Hm.
  destruct (write_bytes_spec h root cr3 wa a bytes) as (h' & Hw & Ht & Hok' & Hb); try done; try lia.
  exists h'. split; [done|].
  assert (forall x, mapped h' root x <-> mapped h root x) as Hmap
    by (intros x; unfold mapped, page_map, leaf_at; by rewrite Ht).
  destruct (read_bytes_spec h' root cr3 ra a (length bytes)) as (bs & Hr & Hl & Hbs); try done.
  { by rewrite Ht. }
  { by apply Hmap. }
  { intros i Hi. by apply Hmap, Hm. }
  rewrite Hr. do 2 f_equal. apply list_eq. intros i. unfold is_u in Ha.
  destruct (decide (i < length bytes)%nat) as [Hi|Hi].
  - rewrite Hbs, Hb, decide_True by lia. f_equal. lia.
  - rewrite !lookup_ge_None_2 by lia. done.
Qed.

Lemma write_read_roundtrip_witness :
  exists h', @write_bytes linear_entry_address 4096 0 (NoPaging 0x5ffe) [1; 2; 3; 4] (Write 0) two_pages = (h', Ok tt) /\
    @read_bytes linear_entry_address 4096 0 (NoPaging 0x5ffe) 4 (Read 0) h' = (h', Ok [1; 2; 3; 4]).
Proof.
  destruct two_pages_ok as (Hwf & Hok & Hun & H0 & H1 & H2 & H3).
  apply (@write_read_roundtrip pool_alloc linear_entry_address two_pages 4096 0 0x5ffe [1; 2; 3; 4]); try done.
  intros i Hi. simpl in Hi.
  assert (i = 0 \/ i = 1 \/ i = 2 \/ i = 3) as [-> | [-> | [-> | ->]]] by lia; done.
Defined.

(** C11: a write to guest-physical memory changes no byte outside its interval,
    no table and no mapping. *)
Theorem write_bytes_frame `{GuestPaging} h root cr3 a bytes wa :
  is_u 64 a -> ept_wf (tables h) root -> frames_ok h root -> frames_unshared h root ->
  a + Z.of_nat (length bytes) < 2 ^ 48 -> mapped h root a ->
  (forall i, 0 <= i < Z.of_nat (length bytes) -> mapped h root (a + i)) ->
  let '(h', r) := write_bytes root cr3 (NoPaging a) bytes wa h in
  r = Ok tt /\ (forall q, page_map h' root q = page_map h root q) /\
  forall x, 0 <= x < 2 ^ 48 -> ~ (a <= x < a + Z.of_nat (length bytes)) ->
    guest_byte h' root x = guest_byte h root x.
Proof.
  intros Ha Hwf Hok Hun Hend Hma Hm.
  destruct (write_bytes_spec h root cr3 wa a bytes) as (h' & -> & Ht & _ & Hb); try done; try lia.
  split_and!; [done| |].
  - intros q. unfold page_map, leaf_at. by rewrite Ht.
  - intros x Hx Hn. by rewrite Hb, decide_False.
Qed.

Lemma write_bytes_frame_witness :
  let '(h', r) := @write_bytes linear_entry_address 4096 0 (NoPaging 0x5ffe) [1; 2; 3; 4] (Write 0) two_pages in
  r = Ok tt /\ guest_byte h' 4096 0x5ffd = guest_byte two_pages 4096 0x5ffd.
Proof.
  destruct two_pages_ok as (Hwf & Hok & Hun & H0 & H1 & H2 & H3).
  pose proof (@write_bytes_frame linear_entry_address two_pages 4096 0 0x5ffe [1; 2; 3; 4] (Write 0)) as H.
  destruct (write_bytes _ _ _ _ _ _) as [h' r].
  destruct H as (-> & _ & H); try done; [|split; [done|apply H; simpl; lia]].
  intros i Hi. simpl in Hi.
  assert (i = 0 \/ i = 1 \/ i = 2 \/ i = 3) as [-> | [-> | [-> | ->]]] by lia; done.
Defined.
