(* ===== verification/VirtDev.v ===== *)
(** * Virtual devices: requests, events and the device map
    ([mythril/src/virtdev/mod.rs])

    A port or memory access is a request over a byte buffer that is big-endian
    for port I/O.  Read requests borrow a mutable buffer: a device that handles
    one leaves the buffer's new content in the event.  [DeviceMap] finds the
    device responsible for a port or an address; its maps are keyed by
    intervals whose order makes overlapping intervals equal. *)

From S2P Require Import Prelude Error BTreeMap Memory.

(** ** Port requests *)

Module PortReadRequest.
Inductive t :=
| OneByte (b0 : Z)
| TwoBytes (b0 b1 : Z)
| FourBytes (b0 b1 b2 b3 : Z).

Definition as_slice (r : t) : list Z :=
  match r with
  | OneByte a => [a]
  | TwoBytes a b => [a; b]
  | FourBytes a b c d => [a; b; c; d]
  end.

Definition len (r : t) : nat := length (as_slice r).

(** [as_mut_slice().copy_from_slice(bs)]: panics unless the lengths agree. *)
Definition copy_from_slice (r : t) (bs : list Z) : res t :=
  match r, bs with
  | OneByte _, [a] => Ok (OneByte a)
  | TwoBytes _ _, [a; b] => Ok (TwoBytes a b)
  | FourBytes _ _ _ _, [a; b; c; d] => Ok (FourBytes a b c d)
  | _, _ => Panic "source slice length does not match destination slice length"
  end.

Definition copy_from_u32 (r : t) (val : Z) : res t :=
  let arr := be_bytes 4 val in
  copy_from_slice r (drop (4 - len r) arr).

Definition try_from (buff : list Z) : res t :=
  match buff with
  | [a] => Ok (OneByte a)
  | [a; b] => Ok (TwoBytes a b)
  | [a; b; c; d] => Ok (FourBytes a b c d)
  | _ => Err (InvalidValue (Msg "Invalid slice length: {}" [Z.of_nat (length buff)]))
  end.
End PortReadRequest.

Module PortWriteRequest.
Inductive t :=
| OneByte (b0 : Z)
| TwoBytes (b0 b1 : Z)
| FourBytes (b0 b1 b2 b3 : Z).

Definition as_slice (r : t) : list Z :=
  match r with
  | OneByte a => [a]
  | TwoBytes a b => [a; b]
  | FourBytes a b c d => [a; b; c; d]
  end.

Definition as_u32 (r : t) : Z :=
  of_be match r with
        | OneByte a => [0; 0; 0; a]
        | TwoBytes a b => [0; 0; a; b]
        | FourBytes a b c d => [a; b; c; d]
        end.

Definition try_from (buff : list Z) : res t :=
  match buff with
  | [a] => Ok (OneByte a)
  | [a; b] => Ok (TwoBytes a b)
  | [a; b; c; d] => Ok (FourBytes a b c d)
  | _ => Err (InvalidValue (Msg "Invalid slice length: {}" [Z.of_nat (length buff)]))
  end.

(** [TryFrom<PortWriteRequest>] for [u8], [u16] and [u32] *)
Definition to_u8 (r : t) : res Z :=
  match r with
  | OneByte a => Ok a
  | r => Err (InvalidValue (Msg "Value {} cannot be converted to u8" (as_slice r)))
  end.
Definition to_u16 (r : t) : res Z :=
  match r with
  | TwoBytes a b => Ok (of_be [a; b])
  | r => Err (InvalidValue (Msg "Value {} cannot be converted to u16" (as_slice r)))
  end.
Definition to_u32 (r : t) : res Z :=
  match r with
  | FourBytes a b c d => Ok (of_be [a; b; c; d])
  | r => Err (InvalidValue (Msg "Value {} cannot be converted to u32" (as_slice r)))
  end.
End PortWriteRequest.

(** [MemWriteRequest] and [MemReadRequest] are slices; this is
    [TryInto<u8> for MemWriteRequest]. *)
Definition mem_write_to_u8 (data : list Z) : res Z :=
  match data with
  | [a] => Ok a
  | _ => Err (InvalidValue (Msg "Value {} cannot be converted to u8" data))
  end.

(** ** Events *)

Inductive DeviceEvent :=
| HostUartReceived (b : Z)
| MemRead (addr : Z) (data : list Z)
| MemWrite (addr : Z) (data : list Z)
| PortRead (port : Z) (req : PortReadRequest.t)
| PortWrite (port : Z) (req : PortWriteRequest.t).

Inductive DeviceEventResponse :=
| GuestUartTransmitted (b : Z)
| NextConsole
| GSI (gsi : Z).

#[export] Instance DeviceEventResponse_eq_dec : EqDecision DeviceEventResponse.
Proof. solve_decision. Defined.

Definition MAX_EVENT_RESPONSES : nat := 8.

(** An event borrows its buffers, the response array and the guest's memory: the
    host memory is part of it, as the handler may write through the view.  [W] is
    what else of the executing core a handler reaches through globals (the timer
    wheel, the message queues). *)
Section handlers.
Context {W : Type}.

Record Event := mkEvent {
  kind : DeviceEvent;
  space : GuestAddressSpaceView;
  responses : list DeviceEventResponse;
  host : Host;
  world : W
}.

Definition set_kind (k : DeviceEvent) (e : Event) : Event :=
  mkEvent k (space e) (responses e) (host e) (world e).
Definition set_responses (r : list DeviceEventResponse) (e : Event) : Event :=
  mkEvent (kind e) (space e) r (host e) (world e).
Definition set_host (h : Host) (e : Event) : Event :=
  mkEvent (kind e) (space e) (responses e) h (world e).
Definition set_world (w : W) (e : Event) : Event :=
  mkEvent (kind e) (space e) (responses e) (host e) w.

(** A device handler: mutates the device and the event. *)
Definition handler (D : Type) : Type := st (D * Event) unit.

Context {D : Type}.

Definition get_dev : st (D * Event) D := fun s => (s, Ok s.1).
Definition set_dev (d : D) : st (D * Event) unit := fun s => ((d, s.2), Ok tt).
Definition get_event : st (D * Event) Event := fun s => (s, Ok s.2).

(** [event.responses.push(r)]: [ArrayVec::push] panics when it is full. *)
Definition push_response (r : DeviceEventResponse) : st (D * Event) unit := fun s =>
  if bool_decide (length (responses s.2) < MAX_EVENT_RESPONSES)%nat
  then ((s.1, set_responses (responses s.2 ++ [r]) s.2), Ok tt)
  else (s, Panic "insufficient capacity").

Definition put_kind (k : DeviceEvent) : st (D * Event) unit := fun s =>
  ((s.1, set_kind k s.2), Ok tt).

(** Code that works on the host memory, or on the rest of the core. *)
Definition on_host {A} (m : st Host A) : st (D * Event) A := fun s =>
  let '(h, r) := m (host s.2) in ((s.1, set_host h s.2), r).
Definition on_world {A} (m : st W A) : st (D * Event) A := fun s =>
  let '(w, r) := m (world s.2) in ((s.1, set_world w s.2), r).

(** [val.copy_from_u32(x)] on the buffer of a port read. *)
Definition reply_u32 (port : Z) (req : PortReadRequest.t) (val : Z) : st (D * Event) unit :=
  req ← lift (PortReadRequest.copy_from_u32 req val);
  put_kind (PortRead port req).
End handlers.
Arguments Event : clear implicits.
Arguments handler : clear implicits.

Inductive DeviceRegion :=
| PortIo (first last : Z)
| MemIo (first last : Z).

(** [trait EmulatedDevice] *)
Class EmulatedDevice (W D : Type) := {
  services : D -> list DeviceRegion;
  on_event : handler W D
}.
#[export] Hint Mode EmulatedDevice - ! : typeclass_instances.

(** ** The device map *)

(** [PortIoRegion] and [MemIoRegion]: inclusive ranges, with the order both
    types share. *)
Definition Region : Type := Z * Z.

Definition region_cmp (a b : Region) : comparison :=
  if a.2 <? b.1 then Lt else if b.2 <? a.1 then Gt else Eq.

Section device_map.
Context {V : Type}.

Record DeviceMap := mkDeviceMap {
  portio_map : list (Region * V);
  memio_map : list (Region * V)
}.

Definition device_map_default : DeviceMap := mkDeviceMap [] [].

Definition find_device_port (port : Z) (m : DeviceMap) : option V :=
  bt_get region_cmp (port, port) (portio_map m).

Definition find_device_mem (addr : Z) (m : DeviceMap) : option V :=
  bt_get region_cmp (addr, addr) (memio_map m).

Definition register_region (dev : V) (region : DeviceRegion) : st DeviceMap unit := fun m =>
  match region with
  | PortIo s e =>
      let key := (s, e) in
      if bt_contains_key region_cmp key (portio_map m) then
        (m, conflict ← expect (bt_get_key_value region_cmp key (portio_map m))
              "Could not get conflicting device";
            Err (InvalidDevice (Msg "I/O Port already registered: 0x{:x}-0x{:x} conflicts with existing map of 0x{:x}-0x{:x}"
              [s; e; conflict.1.1; conflict.1.2])))
      else (mkDeviceMap (bt_insert region_cmp key dev (portio_map m)) (memio_map m), Ok tt)
  | MemIo s e =>
      let key := (s, e) in
      if bt_contains_key region_cmp key (memio_map m) then
        (m, conflict ← expect (bt_get_key_value region_cmp key (memio_map m))
              "Could not get conflicting device";
            Err (InvalidDevice (Msg "Memory region already registered: 0x{:x}-0x{:x} conflicts with existing map of 0x{:x}-0x{:x}"
              [s; e; conflict.1.1; conflict.1.2])))
      else (mkDeviceMap (portio_map m) (bt_insert region_cmp key dev (memio_map m)), Ok tt)
  end.

(** [register_device], with the regions [dev.read().services()] returned: the
    regions registered before a conflict stay registered. *)
Definition register_device (dev : V) (regions : list DeviceRegion) : st DeviceMap unit :=
  st_iter (register_region dev) regions.

(** ** Well-formed maps *)

Definition region_ok (r : Region) : Prop := r.1 <= r.2.

#[export] Instance region_cmp_laws : CmpLaws region_cmp region_ok.
Proof.
  unfold region_cmp, region_ok. split.
  - intros [a b] H. simpl in *. destruct (Z.ltb_spec b a); [lia|done].
  - intros [a b] [c d] H1 H2. simpl in *.
    destruct (Z.ltb_spec d a), (Z.ltb_spec b c); try done; lia.
  - intros [a b] [c d] [e f] H1 H2 H3. simpl in *.
    destruct (Z.ltb_spec b c), (Z.ltb_spec d e), (Z.ltb_spec b e); try done; try lia;
      destruct (Z.ltb_spec d a), (Z.ltb_spec f c); done.
Qed.

Definition wf (m : DeviceMap) : Prop :=
  bt_wf region_cmp region_ok (portio_map m) /\ bt_wf region_cmp region_ok (memio_map m).

Definition in_region (x : Z) (r : Region) : Prop := r.1 <= x <= r.2.

Lemma point_cmp x r : region_cmp (x, x) r = Eq <-> in_region x r.
Proof.
  unfold region_cmp, in_region. simpl.
  destruct (Z.ltb_spec x r.1), (Z.ltb_spec r.2 x); split; try done; lia.
Qed.

Lemma overlap_cmp a b x :
  region_ok a -> region_ok b -> in_region x a -> in_region x b -> region_cmp a b = Eq.
Proof.
  unfold region_ok, in_region, region_cmp.
  destruct (Z.ltb_spec a.2 b.1), (Z.ltb_spec b.2 a.1); intros; try done; lia.
Qed.

(** Stored regions that share a point are the same entry. *)
Lemma region_unique l (a b : Region * V) x :
  bt_wf region_cmp region_ok l -> a ∈ l -> b ∈ l ->
  in_region x a.1 -> in_region x b.1 -> a = b.
Proof.
  induction l as [|[k v] l IH]; intros Hw Ha Hb Hxa Hxb; [by apply not_elem_of_nil in Ha|].
  apply bt_wf_cons in Hw as (Hw & Hk & Hf). pose proof Hw as [_ Hok].
  rewrite Forall_forall in Hf, Hok.
  apply elem_of_cons in Ha as [->|Ha]; apply elem_of_cons in Hb as [->|Hb]; try done.
  - pose proof (Hf _ Hb) as Hlt. simpl in *. by rewrite (overlap_cmp k b.1 x) in Hlt by (done || by apply Hok).
  - pose proof (Hf _ Ha) as Hlt. simpl in *. by rewrite (overlap_cmp k a.1 x) in Hlt by (done || by apply Hok).
  - by apply IH.
Qed.

(** Looking a point up finds the entry whose region contains it. *)
Lemma get_point (l : list (Region * V)) x v :
  bt_wf region_cmp region_ok l ->
  bt_get region_cmp (x, x) l = Some v <-> exists r, (r, v) ∈ l /\ in_region x r.
Proof.
  intros Hw. unfold bt_get. split.
  - destruct (bt_get_key_value _ _ _) as [[r v']|] eqn:E; [|done]. intros [= ->].
    apply bt_get_key_value_Some in E as [Hin Hc]. apply point_cmp in Hc. eauto.
  - intros (r & Hin & Hx).
    rewrite (bt_get_elem_of region_cmp (ok := region_ok) (x, x) r v l); try done.
    + intros [a va] [b vb] Hne Ha Hb Hca%point_cmp Hcb%point_cmp. apply Hne.
      by rewrite (region_unique l (a, va) (b, vb) x).
    + by apply point_cmp.
Qed.

Lemma get_point_None (l : list (Region * V)) x :
  bt_wf region_cmp region_ok l ->
  bt_get region_cmp (x, x) l = None <-> forall r v, (r, v) ∈ l -> ~ in_region x r.
Proof.
  intros Hw. rewrite eq_None_not_Some. split.
  - intros Hn r v Hin Hx. apply Hn. exists v. apply get_point; eauto.
  - intros Hn [v (r & Hin & Hx)%get_point]; [|done]. by eapply Hn.
Qed.
End device_map.
Arguments DeviceMap : clear implicits.

(** ** Registration

    The abstract device map: which device answers at a port and at an address.
    Registering a region extends one of the two functions on that region. *)

Section registration.
Context {V : Type}.
Implicit Types m : DeviceMap V.

Definition claimed (m : DeviceMap V) (reg : DeviceRegion) : Prop :=
  match reg with
  | PortIo s e => exists x, s <= x <= e /\ is_Some (find_device_port x m)
  | MemIo s e => exists x, s <= x <= e /\ is_Some (find_device_mem x m)
  end.

Definition region_valid (reg : DeviceRegion) : Prop :=
  match reg with PortIo s e => s <= e | MemIo s e => s <= e end.

(** What [m] answers after the region was given to [dev]. *)
Definition extended (m m' : DeviceMap V) (dev : V) (reg : DeviceRegion) : Prop :=
  match reg with
  | PortIo s e =>
      (forall x, find_device_port x m' = if decide (s <= x <= e) then Some dev else find_device_port x m) /\
      forall x, find_device_mem x m' = find_device_mem x m
  | MemIo s e =>
      (forall x, find_device_mem x m' = if decide (s <= x <= e) then Some dev else find_device_mem x m) /\
      forall x, find_device_port x m' = find_device_port x m
  end.

Lemma get_overlap (l : list (Region * V)) s e :
  s <= e -> bt_wf region_cmp region_ok l ->
  is_Some (bt_get_key_value region_cmp (s, e) l) <->
  exists x, s <= x <= e /\ is_Some (bt_get region_cmp (x, x) l).
Proof.
  intros Hse Hw. split.
  - intros [[r v] [Hin Hc]%bt_get_key_value_Some].
    assert (region_ok r) as Hr by (destruct Hw as [_ Hf]; rewrite Forall_forall in Hf; by apply (Hf (r, v))).
    unfold region_cmp, region_ok in *. simpl in *.
    exists (Z.max s r.1). destruct (Z.ltb_spec e r.1), (Z.ltb_spec r.2 s); try done.
    split; [lia|]. exists v. apply get_point; [done|]. exists r. split; [done|].
    unfold in_region. lia.
  - intros (x & Hx & [v (r & Hin & Hr)%get_point]); [|done].
    apply not_eq_None_Some. rewrite (bt_get_key_value_None region_cmp (ok := region_ok)) by done.
    intros Hf. rewrite Forall_forall in Hf. apply (Hf _ Hin). simpl.
    apply (overlap_cmp (s, e) r x); unfold region_ok, in_region in *; simpl; lia.
Qed.

Lemma get_insert (l : list (Region * V)) s e v x :
  s <= e -> bt_wf region_cmp region_ok l -> bt_get_key_value region_cmp (s, e) l = None ->
  bt_wf region_cmp region_ok (bt_insert region_cmp (s, e) v l) /\
  bt_get region_cmp (x, x) (bt_insert region_cmp (s, e) v l) =
    if decide (s <= x <= e) then Some v else bt_get region_cmp (x, x) l.
Proof.
  intros Hse Hw Hn.
  destruct (bt_insert_fresh region_cmp (ok := region_ok) (s, e) v l) as [Hw' Hp]; try done.
  split; [done|]. case_decide as Hx.
  - apply get_point; [done|]. exists (s, e). rewrite Hp. split; [left|done].
  - apply option_eq. intros v'. rewrite !get_point by done. split; intros (r & Hin & Hr).
    + rewrite Hp in Hin. apply elem_of_cons in Hin as [[= -> ->]|Hin]; [done|eauto].
    + exists r. rewrite Hp. split; [by right|done].
Qed.

Lemma register_region_spec m dev reg :
  wf m -> region_valid reg ->
  let '(m', r) := register_region dev reg m in
  wf m' /\
  ((r = Ok tt /\ ~ claimed m reg /\ extended m m' dev reg) \/
   ((exists msg, r = Err (InvalidDevice msg)) /\ claimed m reg /\ m' = m)).
Proof.
  intros [Hp Hm] Hv. destruct reg as [s e|s e]; simpl in Hv; cbn [register_region].
  all: destruct (bt_contains_key _ _ _) eqn:Hc.
  all: try (apply bt_contains_key_spec in Hc).
  all: try (unfold bt_contains_key in Hc; apply bool_decide_eq_true in Hc;
    (split; [done|]); right; pose proof Hc as [[k v] Hk]; rewrite Hk; split_and!;
    [eexists; reflexivity|by apply get_overlap in Hc|done]).
  all: match type of Hc with bt_get_key_value _ _ ?l = None =>
    assert (bt_wf region_cmp region_ok l) as Hl by done;
    pose proof (fun x => get_insert l s e dev x Hv Hl Hc) as Hi end.
  all: destruct (Hi 0) as [Hw' _]; (split; [done|]); left; (split; [done|]); split;
    [cbn; intros Hcl; apply get_overlap in Hcl; [|done..]; rewrite Hc in Hcl; by apply is_Some_None in Hcl|].
  all: split; [intros x; apply Hi|done].
Qed.
End registration.

Definition port_in (x : Z) (reg : DeviceRegion) : bool :=
  match reg with PortIo s e => bool_decide (s <= x <= e) | MemIo _ _ => false end.
Definition mem_in (x : Z) (reg : DeviceRegion) : bool :=
  match reg with MemIo s e => bool_decide (s <= x <= e) | PortIo _ _ => false end.

Definition overlap (a b : DeviceRegion) : bool :=
  match a, b with
  | PortIo s e, PortIo s' e' | MemIo s e, MemIo s' e' => (s <=? e') && (s' <=? e)
  | _, _ => false
  end.

(** What is claimed after a region was registered: what was, and what overlaps it. *)
Lemma claimed_extended {V} (m m' : DeviceMap V) dev reg a :
  region_valid reg -> region_valid a -> extended m m' dev reg ->
  claimed m' a <-> claimed m a \/ overlap reg a = true.
Proof.
  intros Hr Ha. destruct reg as [s e|s e], a as [s' e'|s' e']; cbn in *; intros [H1 H2]; setoid_rewrite H1 || setoid_rewrite H2;
    try (split; [by left|by intros [?|?]]).
  all: rewrite andb_true_iff, !Z.leb_le; split.
  all: try (intros (x & Hx & [v Hv]); case_decide; [right; lia|left; eauto]).
  all: intros [(x & Hx & Hs)|[H3 H4]]; [exists x; split; [done|]; by case_decide|].
  all: exists (Z.max s s'); split; [lia|]; rewrite decide_True by lia; done.
Qed.

(** C8: registering a device implements the extension of two partial functions.
    Starting from a map whose regions are disjoint, the map stays so.  The regions are
    registered in order up to the first that shares a point with a region of the map or
    with an earlier region of the device.  Those registered were free, and their ports
    and addresses now answer with the device, every other one as before.  Registration
    succeeds when there is no such first region, and otherwise fails with
    [InvalidDevice]. *)
Theorem register_device_refines {V} (m : DeviceMap V) dev regions :
  wf m -> Forall region_valid regions ->
  let '(m', r) := register_device dev regions m in
  wf m' /\
  exists done rest, regions = done ++ rest /\
    Forall (fun reg => ~ claimed m reg) done /\ List.ForallOrdPairs (fun a b => overlap a b = false) done /\
    (forall x, find_device_port x m' =
       if existsb (port_in x) done then Some dev else find_device_port x m) /\
    (forall x, find_device_mem x m' =
       if existsb (mem_in x) done then Some dev else find_device_mem x m) /\
    match rest with
    | [] => r = Ok tt
    | reg :: _ => (claimed m reg \/ exists a, a ∈ done /\ overlap a reg = true) /\ exists msg, r = Err (InvalidDevice msg)
    end.
Proof.
  unfold register_device. intros Hwf Hv. revert m Hwf.
  induction Hv as [|reg regions Hreg Hv IH]; intros m Hwf.
  { simpl. split; [done|]. exists [], []. split_and!; constructor || done. }
  cbn [st_iter]. rewrite st_bind_eq.
  pose proof (register_region_spec m dev reg Hwf Hreg) as Hs.
  destruct (register_region dev reg m) as [m1 r1].
  destruct Hs as [Hwf1 [(-> & Hfree & Hext)|((msg & ->) & Hcl & ->)]].
  2: { split; [done|]. exists [], (reg :: regions). split_and!; [done|constructor|constructor|done|done|by left|by exists msg]. }
  pose proof (IH m1 Hwf1) as Hi. destruct (st_iter _ _ m1) as [m' r].
  destruct Hi as (Hwf' & done & rest & -> & Hd & Ho & Hp & Hm & Hr). split; [done|]. exists (reg :: done), rest.
  apply Forall_app in Hv as [Hvd Hvr].
  assert (forall a, region_valid a -> claimed m1 a <-> claimed m a \/ overlap reg a = true) as Hc
    by (intros a Ha; by apply (claimed_extended m m1 dev reg a)).
  assert (Forall (fun a => ~ claimed m a /\ overlap reg a = false) done) as Hd'.
  { rewrite Forall_forall in Hd, Hvd |- *. intros a Ha. specialize (Hd a Ha). rewrite (Hc a (Hvd a Ha)) in Hd.
    destruct (overlap reg a); naive_solver. }
  split_and!; [done| | | | |].
  - constructor; [done|]. eapply Forall_impl; [exact Hd'|]. naive_solver.
  - constructor; [|done]. eapply Forall_impl; [exact Hd'|]. naive_solver.
  - intros x. rewrite Hp. destruct reg as [s e|s e]; destruct Hext as [He1 He2]; cbn [existsb port_in]; rewrite ?He1, ?He2;
      destruct (existsb _ done); rewrite ?orb_true_r, ?orb_false_r; [done|case_decide; by case_bool_decide|done..].
  - intros x. rewrite Hm. destruct reg as [s e|s e]; destruct Hext as [He1 He2]; cbn [existsb mem_in]; rewrite ?He1, ?He2;
      destruct (existsb _ done); rewrite ?orb_true_r, ?orb_false_r; [done|done|done|case_decide; by case_bool_decide].
  - destruct rest as [|a rest]; [done|]. destruct Hr as [Hr He]. split; [|done]. apply Forall_cons in Hvr as [Ha _].
    rewrite Hc in Hr by done. setoid_rewrite elem_of_cons. naive_solver.
Qed.

Lemma register_device_refines_witness :
  wf (@device_map_default nat) /\
  wf (register_device 1%nat [PortIo 0x60 0x60; MemIo 0xfec00000 0xfec010f0; PortIo 0x3f8 0x3ff] device_map_default).1.
Proof.
  split; [split; apply bt_wf_nil|].
  pose proof (register_device_refines (@device_map_default nat) 1%nat
    [PortIo 0x60 0x60; MemIo 0xfec00000 0xfec010f0; PortIo 0x3f8 0x3ff]) as H.
  destruct (register_device _ _ _) as [m' r]. apply H.
  - split; apply bt_wf_nil.
  - repeat constructor; simpl; lia.
Defined.

(** In a well-formed device map, looking up a port or an address finds a
    device exactly when one of the registered regions contains it, and it is
    the device of the one region that does. *)
Lemma find_device_iff {V} (m : DeviceMap V) x (v : V) :
  wf m ->
  (find_device_port x m = Some v <-> exists s e, ((s, e), v) ∈ portio_map m /\ s <= x <= e) /\
  (find_device_mem x m = Some v <-> exists s e, ((s, e), v) ∈ memio_map m /\ s <= x <= e).
Proof.
  intros [Hp Hm]. unfold find_device_port, find_device_mem. rewrite !get_point by done.
  split; (split; [intros ([s e] & ? & ?); eauto | intros (s & e & ? & ?); exists (s, e); eauto]).
Qed.

Lemma find_device_iff_witness :
  wf (mkDeviceMap [((0x60, 0x60), 3%nat)] []) /\
  find_device_port 0x60 (mkDeviceMap [((0x60, 0x60), 3%nat)] []) = Some 3%nat.
Proof.
  assert (wf (mkDeviceMap [((0x60, 0x60), 3%nat)] [])) as Hw.
  { split; [|apply bt_wf_nil]. apply bt_wf_cons. split_and!; [apply bt_wf_nil|unfold region_ok; simpl; lia|constructor]. }
  split; [done|]. apply (find_device_iff _ 0x60 3%nat Hw). exists 0x60, 0x60. split; [left|lia].
Defined.

(** ** Requests *)

Lemma be_bytes_4_unfold v :
  be_bytes 4 v = [(v / 256 / 256 / 256) mod 256; (v / 256 / 256) mod 256; (v / 256) mod 256; v mod 256].
Proof. done. Qed.

(** A port read replies with the low bytes of the value, most significant
    first, for every width of the request: read back big-endian the buffer is the
    value modulo the width, and the request keeps its width. *)
Lemma copy_from_u32_value r v :
  exists r', PortReadRequest.copy_from_u32 r v = Ok r' /\
    PortReadRequest.len r' = PortReadRequest.len r /\
    PortReadRequest.as_slice r' = be_bytes (PortReadRequest.len r) v /\
    of_be (PortReadRequest.as_slice r') = wrap (8 * Z.of_nat (PortReadRequest.len r)) v.
Proof.
  unfold PortReadRequest.copy_from_u32. rewrite be_bytes_4_unfold.
  destruct r; simpl; eexists; (split; [reflexivity|]); split_and!; try done;
    match goal with |- of_be ?l = wrap (8 * Z.of_nat ?n) v =>
      change l with (be_bytes n v); apply of_be_bytes end.
Qed.

(** A write request built from a buffer carries the buffer and, read as a
    [u32], its big-endian value; conversion succeeds exactly for buffers of 1, 2
    or 4 bytes and the typed conversions exactly for their own width. *)
Lemma port_write_request_value buff :
  Forall is_byte buff ->
  match PortWriteRequest.try_from buff with
  | Ok r => (length buff = 1 \/ length buff = 2 \/ length buff = 4)%nat /\
      PortWriteRequest.as_slice r = buff /\ PortWriteRequest.as_u32 r = of_be buff /\
      (length buff = 1%nat <-> PortWriteRequest.to_u8 r = Ok (of_be buff)) /\
      (length buff = 2%nat <-> PortWriteRequest.to_u16 r = Ok (of_be buff)) /\
      (length buff = 4%nat <-> PortWriteRequest.to_u32 r = Ok (of_be buff))
  | Err e => ~ (length buff = 1 \/ length buff = 2 \/ length buff = 4)%nat /\
      e = InvalidValue (Msg "Invalid slice length: {}" [Z.of_nat (length buff)])
  | Panic _ => False
  end.
Proof.
  intros Hb.
  assert (forall a, of_be [a] = a) as H1 by (intros; unfold of_be; simpl; lia).
  assert (forall a b, of_be [0; 0; a; b] = of_be [a; b]) as H2 by (intros; unfold of_be; simpl; lia).
  assert (forall a, of_be [0; 0; 0; a] = a) as H3 by (intros; unfold of_be; simpl; lia).
  destruct buff as [|a [|b [|c [|d [|e buff]]]]]; cbn [PortWriteRequest.try_from length];
    cbn [PortWriteRequest.as_slice PortWriteRequest.as_u32 PortWriteRequest.to_u8
         PortWriteRequest.to_u16 PortWriteRequest.to_u32];
    rewrite ?H1, ?H2, ?H3; split_and!; try done; try lia; try apply H3; try apply H2;
    try (split; intros; (done || lia)).
Qed.
