(* ===== verification/IoApic.v ===== *)
(** * The I/O APIC ([mythril/src/ioapic.rs])

    The registers are reached through an index and a data window; the device
    behind the window is a parameter ([IoApicHw]) with the part of its
    documented behaviour the code relies on.  Redirection entries are packed
    into 64-bit words by [From] and unpacked, with validation, by [TryFrom]. *)

From S2P Require Import Prelude Error.

Definition IOREDTBL_KNOWN_BITS_MASK : Z := 0xff0000000001ffff.
Definition IOREDTBL_RW_MASK : Z := 0xff0000000001afff.
Definition IOAPIC_VERSION : Z := 0x11.

Definition IOAPICID : Z := 0x00.
Definition IOAPICVER : Z := 0x01.
Definition IOAPICARB : Z := 0x02.
Definition IOREDTBL_OFFSET : Z := 0x10.
Definition MAX_IOAPIC_COUNT : nat := 16.

(** ** Redirection table entries *)

Inductive DestinationMode := Physical | Logical.
Inductive TriggerMode := Edge | Level.
Inductive PinPolarity := ActiveHigh | ActiveLow.
Inductive DeliveryMode := Fixed | LowestPriority | SMI | NMI | INIT | ExtINT.
Inductive DeliveryStatus := Idle | SendPending.

#[export] Instance DestinationMode_eq_dec : EqDecision DestinationMode.
Proof. solve_decision. Defined.
#[export] Instance TriggerMode_eq_dec : EqDecision TriggerMode.
Proof. solve_decision. Defined.
#[export] Instance PinPolarity_eq_dec : EqDecision PinPolarity.
Proof. solve_decision. Defined.
#[export] Instance DeliveryMode_eq_dec : EqDecision DeliveryMode.
Proof. solve_decision. Defined.
#[export] Instance DeliveryStatus_eq_dec : EqDecision DeliveryStatus.
Proof. solve_decision. Defined.

#[export] Instance DestinationMode_enum : NumEnum DestinationMode :=
  { ne_all := [Physical; Logical]; ne_code m := match m with Physical => 0 | Logical => 1 end }.
#[export] Instance TriggerMode_enum : NumEnum TriggerMode :=
  { ne_all := [Edge; Level]; ne_code m := match m with Edge => 0 | Level => 1 end }.
#[export] Instance PinPolarity_enum : NumEnum PinPolarity :=
  { ne_all := [ActiveHigh; ActiveLow]; ne_code m := match m with ActiveHigh => 0 | ActiveLow => 1 end }.
#[export] Instance DeliveryMode_enum : NumEnum DeliveryMode :=
  { ne_all := [Fixed; LowestPriority; SMI; NMI; INIT; ExtINT];
    ne_code m := match m with
      | Fixed => 0 | LowestPriority => 1 | SMI => 2 | NMI => 4 | INIT => 5 | ExtINT => 7 end }.
#[export] Instance DeliveryStatus_enum : NumEnum DeliveryStatus :=
  { ne_all := [Idle; SendPending]; ne_code m := match m with Idle => 0 | SendPending => 1 end }.

#[export] Instance DestinationMode_ok : NumEnumOk DestinationMode.
Proof. num_enum_ok. Qed.
#[export] Instance TriggerMode_ok : NumEnumOk TriggerMode.
Proof. num_enum_ok. Qed.
#[export] Instance PinPolarity_ok : NumEnumOk PinPolarity.
Proof. num_enum_ok. Qed.
#[export] Instance DeliveryMode_ok : NumEnumOk DeliveryMode.
Proof. num_enum_ok. Qed.
#[export] Instance DeliveryStatus_ok : NumEnumOk DeliveryStatus.
Proof. num_enum_ok. Qed.

(** The [TryFrom<u8>] implementations; the one of [DeliveryMode] has the text
    of the one of [PinPolarity] in its error. *)
Definition DestinationMode_try_from (v : Z) : res DestinationMode :=
  ok_or (try_from_primitive v) (InvalidValue (Msg "Invalid destination mode: 0x{:x}" [v])).
Definition TriggerMode_try_from (v : Z) : res TriggerMode :=
  ok_or (try_from_primitive v) (InvalidValue (Msg "Invalid trigger mode: 0x{:x}" [v])).
Definition PinPolarity_try_from (v : Z) : res PinPolarity :=
  ok_or (try_from_primitive v) (InvalidValue (Msg "Invalid pin polarity: 0x{:x}" [v])).
Definition DeliveryMode_try_from (v : Z) : res DeliveryMode :=
  ok_or (try_from_primitive v) (InvalidValue (Msg "Invalid pin polarity: 0x{:x}" [v])).
Definition DeliveryStatus_try_from (v : Z) : res DeliveryStatus :=
  ok_or (try_from_primitive v) (InvalidValue (Msg "Invalid delivery status: 0x{:x}" [v])).

Definition valid_for_level_trigger (m : DeliveryMode) : bool :=
  match m with Fixed | LowestPriority => true | _ => false end.

Record IoRedTblEntry := mkEntry {
  vector : Z;
  delivery_mode : DeliveryMode;
  destination_mode : DestinationMode;
  delivery_status : DeliveryStatus;
  pin_polarity : PinPolarity;
  remote_irr : bool;
  trigger_mode : TriggerMode;
  interrupt_mask : bool;
  destination : Z
}.

Definition validate (e : IoRedTblEntry) : res unit :=
  if bool_decide (trigger_mode e = Level) && negb (valid_for_level_trigger (delivery_mode e)) then
    Err (InvalidValue (Msg "The delivery mode `0b{:b}` is invalid for level trigger mode"
      [ne_code (delivery_mode e)]))
  else if bool_decide (destination_mode e = Physical) && (destination e >? 15) then
    Err (InvalidValue (Msg "Invalid Physical APIC ID destination: 0x{:x}" [destination e]))
  else if bool_decide (delivery_mode e = SMI) && negb (vector e =? 0) then
    Err (InvalidValue (Msg "SMI delivery mode requires an empty vector: 0x{:x}" [vector e]))
  else Ok tt.

(** [IoRedTblEntry::new] *)
Definition entry_new (v : Z) (dm : DeliveryMode) (dest_mode : DestinationMode) (pp : PinPolarity)
    (tm : TriggerMode) (mask : bool) (dest : Z) : res IoRedTblEntry :=
  let entry := mkEntry v dm dest_mode Idle pp false tm mask dest in
  _ ← validate entry; Ok entry.

(** [TryFrom<u64> for IoRedTblEntry] *)
Definition entry_try_from (bits : Z) : res IoRedTblEntry :=
  if has_bits bits (bnot 64 IOREDTBL_KNOWN_BITS_MASK) then Err NotSupported else
  let v := Z.land bits 0xff in
  dm ← DeliveryMode_try_from (Z.land (Z.shiftr bits 8) 0x7);
  dest_mode ← DestinationMode_try_from (Z.land (Z.shiftr bits 11) 0x1);
  ds ← DeliveryStatus_try_from (Z.land (Z.shiftr bits 12) 0x1);
  pp ← PinPolarity_try_from (Z.land (Z.shiftr bits 13) 0x1);
  let irr := negb (Z.land (Z.shiftr bits 14) 0x1 =? 0) in
  tm ← TriggerMode_try_from (Z.land (Z.shiftr bits 15) 0x1);
  let mask := negb (Z.land (Z.shiftr bits 16) 0x1 =? 0) in
  let dest := Z.land (Z.shiftr bits 56) 0xff in
  let entry := mkEntry v dm dest_mode ds pp irr tm mask dest in
  _ ← validate entry; Ok entry.

(** [From<IoRedTblEntry> for u64] *)
Definition entry_into (e : IoRedTblEntry) : Z :=
  let bits := vector e in
  let bits := Z.lor bits (Z.shiftl (ne_code (delivery_mode e)) 8) in
  let bits := Z.lor bits (Z.shiftl (ne_code (destination_mode e)) 11) in
  let bits := Z.lor bits (Z.shiftl (ne_code (delivery_status e)) 12) in
  let bits := Z.lor bits (Z.shiftl (ne_code (pin_polarity e)) 13) in
  let bits := if remote_irr e then Z.lor bits (Z.shiftl 1 14) else bits in
  let bits := Z.lor bits (Z.shiftl (ne_code (trigger_mode e)) 15) in
  let bits := if interrupt_mask e then Z.lor bits (Z.shiftl 1 16) else bits in
  Z.lor bits (u64 (Z.shiftl (destination e) 56)).

(** ** The device *)

Class IoApicHw (H : Type) := {
  (** a 32-bit read of, and write to, the data window at [addr] with the index
      register holding [reg] *)
  iowin_read : H -> Z -> Z -> Z;
  iowin_write : H -> Z -> Z -> Z -> H
}.

(** The redirection registers hold what was written to their writable bits. *)
Class IoApicHwLaws (H : Type) `{IoApicHw H} := {
  iowin_read_u32 : forall h a r, is_u 32 (iowin_read h a r);
  iowin_same : forall h a r v, 0x10 <= r < 0x40 -> is_u 32 v ->
    iowin_read (iowin_write h a r v) a r = v;
  iowin_other : forall h a r v a' r', 0x10 <= r < 0x40 -> (a', r') <> (a, r) ->
    iowin_read (iowin_write h a r v) a' r' = iowin_read h a' r'
}.

Record IoApic := mkIoApic { ioapic_addr : Z; gsi_base : Z }.

Section device.
Context {H : Type} `{IoApicHw H}.
Implicit Types a : IoApic.

Definition read_raw a (reg : Z) : st H Z := fun h => (h, Ok (iowin_read h (ioapic_addr a) reg)).
Definition write_raw a (reg val : Z) : st H unit := fun h =>
  (iowin_write h (ioapic_addr a) reg val, Ok tt).

Definition ioapic_id a : st H Z :=
  raw_id ← read_raw a IOAPICID; mret (Z.land (Z.shiftr raw_id 24) 0x0f).

Definition set_id a (id : Z) : st H unit :=
  if id >? 0x0f then err (InvalidValue (Msg "I/O APIC ID `0x{:x}` too large" [id]))
  else write_raw a IOAPICID (u32 (Z.shiftl id 24)).

Definition version a : st H Z :=
  raw_version ← read_raw a IOAPICVER; mret (Z.land raw_version 0xff).

Definition max_redirection_entry a : st H Z :=
  raw_version ← read_raw a IOAPICVER; mret (Z.land (Z.shiftr raw_version 16) 0xff).

Definition arbitration_id a : st H Z :=
  raw_arb_id ← read_raw a IOAPICARB; mret (Z.land (Z.shiftr raw_arb_id 24) 0x0f).

Definition set_arbitration_id a (id : Z) : st H unit :=
  if id >? 15 then err (InvalidValue (Msg "I/O APIC Arbitration ID `0x{:x}` too large" [id]))
  else write_raw a IOAPICARB (u32 (Z.shiftl id 24)).

Definition read_ioredtbl_raw a (id : Z) : st H Z :=
  let base_reg := u8 (IOREDTBL_OFFSET + u8 (id * 2)) in
  low_order ← read_raw a base_reg;
  high_order ← read_raw a (u8 (base_reg + 1));
  mret (Z.lor low_order (u64 (Z.shiftl high_order 32))).

Definition read_ioredtbl a (id : Z) : st H IoRedTblEntry :=
  if id >? 23 then
    err (InvalidValue (Msg "I/O APIC IO Redirect Table register`0x{:x}` too large" [id]))
  else
    bits ← read_ioredtbl_raw a id;
    lift (entry_try_from bits).

Definition write_ioredtbl_raw a (id val : Z) : st H unit :=
  let base_reg := u8 (IOREDTBL_OFFSET + u8 (id * 2)) in
  let low_order := Z.land val 0xffffffff in
  let high_order := u32 (Z.shiftr val 32) in
  _ ← write_raw a base_reg low_order;
  write_raw a (u8 (base_reg + 1)) high_order.

Definition write_ioredtbl a (id : Z) (entry : IoRedTblEntry) : st H unit :=
  let val := entry_into entry in
  if id >? 23 then
    err (InvalidValue (Msg "I/O APIC IO Redirect Table register`0x{:x}` too large" [id]))
  else if has_bits val (bnot 64 IOREDTBL_RW_MASK) then
    err (InvalidValue (Msg "Read-only IO Redirect Table Entry bits set: 0x{:x}"
      [Z.land val (bnot 64 IOREDTBL_RW_MASK)]))
  else write_ioredtbl_raw a id val.

(** [get_ivec_range]: the half-open range of interrupt numbers. *)
Definition get_ivec_range a : st H (Z * Z) :=
  m ← max_redirection_entry a;
  mret (gsi_base a, u32 (gsi_base a + m)).

(** [IoApic::new] *)
Definition ioapic_new (addr gsi : Z) : st H IoApic :=
  let ioapic := mkIoApic addr gsi in
  v ← version ioapic;
  if negb (v =? IOAPIC_VERSION) then err NotSupported else mret ioapic.

Fixpoint ioapic_for_gsi (ioapics : list IoApic) (gsi : Z) : st H (option (IoApic * Z)) :=
  match ioapics with
  | [] => mret None
  | a :: rest =>
      range ← get_ivec_range a;
      if (range.1 <=? gsi) && (gsi <? range.2) then mret (Some (a, u8 (gsi - gsi_base a)))
      else ioapic_for_gsi rest gsi
  end.

Definition map_gsi_vector (ioapics : list IoApic) (gsi v apic_id : Z) : st H unit :=
  found ← ioapic_for_gsi ioapics gsi;
  match found with
  | Some (a, entry) =>
      e ← lift (entry_new v Fixed Physical ActiveHigh Edge false apic_id);
      write_ioredtbl a entry e
  | None => err NotFound
  end.
End device.

(** ** The packed form *)

Lemma DestinationMode_bit m : 0 <= ne_code (E := DestinationMode) m <= 1.
Proof. destruct m; simpl; lia. Qed.
Lemma TriggerMode_bit m : 0 <= ne_code (E := TriggerMode) m <= 1.
Proof. destruct m; simpl; lia. Qed.
Lemma PinPolarity_bit m : 0 <= ne_code (E := PinPolarity) m <= 1.
Proof. destruct m; simpl; lia. Qed.
Lemma DeliveryStatus_bit m : 0 <= ne_code (E := DeliveryStatus) m <= 1.
Proof. destruct m; simpl; lia. Qed.
Lemma DeliveryMode_bits m : 0 <= ne_code (E := DeliveryMode) m <= 7.
Proof. destruct m; simpl; lia. Qed.

(** The fields of an entry at their positions. *)
Definition entry_sum (e : IoRedTblEntry) : Z :=
  vector e + 2 ^ 8 * ne_code (delivery_mode e) + 2 ^ 11 * ne_code (destination_mode e)
  + 2 ^ 12 * ne_code (delivery_status e) + 2 ^ 13 * ne_code (pin_polarity e)
  + 2 ^ 14 * b2z (remote_irr e) + 2 ^ 15 * ne_code (trigger_mode e)
  + 2 ^ 16 * b2z (interrupt_mask e) + 2 ^ 56 * destination e.

Definition entry_fields_ok (e : IoRedTblEntry) : Prop :=
  is_u 8 (vector e) /\ is_u 8 (destination e).

Ltac entry_bounds e :=
  pose proof (DestinationMode_bit (destination_mode e));
  pose proof (TriggerMode_bit (trigger_mode e));
  pose proof (PinPolarity_bit (pin_polarity e));
  pose proof (DeliveryStatus_bit (delivery_status e));
  pose proof (DeliveryMode_bits (delivery_mode e)).

Lemma lor_if (b : bool) (x y : Z) :
  (if b then Z.lor x y else x) = Z.lor x (if b then y else 0).
Proof. destruct b; [done|]. by rewrite Z.lor_0_r. Qed.

Lemma if_shiftl (b : bool) k : (if b then Z.shiftl 1 k else 0) = Z.shiftl (b2z b) k.
Proof. destruct b; [done|]. by rewrite Z.shiftl_0_l. Qed.

Lemma entry_into_sum e : entry_fields_ok e -> entry_into e = entry_sum e.
Proof.
  intros [Hv Hd]. unfold is_u in *. entry_bounds e. unfold entry_into, entry_sum.
  assert (0 <= b2z (remote_irr e) <= 1) by (destruct (remote_irr e); simpl; lia).
  assert (0 <= b2z (interrupt_mask e) <= 1) by (destruct (interrupt_mask e); simpl; lia).
  rewrite !lor_if, !if_shiftl.
  unfold u64. rewrite wrap_small
    by (unfold is_u; rewrite Z.shiftl_mul_pow2 by lia; lia).
  rewrite (lor_shiftl_add 8) by (unfold is_u; lia).
  rewrite (lor_shiftl_add 11) by (unfold is_u; lia).
  rewrite (lor_shiftl_add 12) by (unfold is_u; lia).
  rewrite (lor_shiftl_add 13) by (unfold is_u; lia).
  rewrite (lor_shiftl_add 14) by (unfold is_u; lia).
  rewrite (lor_shiftl_add 15) by (unfold is_u; lia).
  rewrite (lor_shiftl_add 16) by (unfold is_u; lia).
  rewrite (lor_shiftl_add 56) by (unfold is_u; lia). lia.
Qed.

Lemma known_bits_iff bits :
  has_bits bits (bnot 64 IOREDTBL_KNOWN_BITS_MASK) = false <-> (bits / 2 ^ 17) mod 2 ^ 39 = 0.
Proof.
  unfold has_bits. rewrite negb_false_iff, Z.eqb_eq. apply land_field_0; [reflexivity|lia..].
Qed.

(** The bits a write may not contain: the reserved ones, the delivery status
    and the remote IRR. *)
Lemma rw_bits_iff bits :
  has_bits bits (bnot 64 IOREDTBL_RW_MASK) = false <->
  (bits / 2 ^ 17) mod 2 ^ 39 = 0 /\ (bits / 2 ^ 12) mod 2 = 0 /\ (bits / 2 ^ 14) mod 2 = 0.
Proof.
  unfold has_bits. rewrite negb_false_iff, Z.eqb_eq.
  change (bnot 64 IOREDTBL_RW_MASK) with
    (Z.lor (Z.shiftl (Z.ones 39) 17) (Z.lor (Z.shiftl (Z.ones 1) 12) (Z.shiftl (Z.ones 1) 14))).
  rewrite !Z.land_lor_distr_r, !Z.lor_eq_0_iff.
  rewrite (land_field_0 _ 39 17), (land_field_0 _ 1 12), (land_field_0 _ 1 14) by (reflexivity || lia).
  done.
Qed.

(** What unpacking yields, field by field. *)
Lemma entry_try_from_sum e :
  entry_fields_ok e -> entry_try_from (entry_sum e) = _ ← validate e; Ok e.
Proof.
  intros [Hv Hd]. unfold is_u in *. entry_bounds e. unfold entry_try_from.
  assert (0 <= b2z (remote_irr e) <= 1) by (destruct (remote_irr e); simpl; lia).
  assert (0 <= b2z (interrupt_mask e) <= 1) by (destruct (interrupt_mask e); simpl; lia).
  rewrite (proj2 (known_bits_iff (entry_sum e)))
    by (unfold entry_sum; pow2_literals; Z.to_euclidean_division_equations; lia).
  pose (l11 := vector e + 2 ^ 8 * ne_code (delivery_mode e)).
  pose (l12 := l11 + 2 ^ 11 * ne_code (destination_mode e)).
  pose (l13 := l12 + 2 ^ 12 * ne_code (delivery_status e)).
  pose (l14 := l13 + 2 ^ 13 * ne_code (pin_polarity e)).
  pose (l15 := l14 + 2 ^ 14 * b2z (remote_irr e)).
  pose (l16 := l15 + 2 ^ 15 * ne_code (trigger_mode e)).
  pose (l17 := l16 + 2 ^ 16 * b2z (interrupt_mask e)).
  pose (h16 := 2 ^ 39 * destination e).
  pose (h15 := b2z (interrupt_mask e) + 2 * h16).
  pose (h14 := ne_code (trigger_mode e) + 2 * h15).
  pose (h13 := b2z (remote_irr e) + 2 * h14).
  pose (h12 := ne_code (pin_polarity e) + 2 * h13).
  pose (h11 := ne_code (delivery_status e) + 2 * h12).
  pose (h8 := ne_code (destination_mode e) + 2 * h11).
  replace (Z.land (entry_sum e) 255) with (vector e)
    by (symmetry; rewrite <- (Z.shiftr_0_r (entry_sum e));
        apply (field_at 0 8 _ 0 _ (ne_code (delivery_mode e) + 2 ^ 3 * h8)); unfold entry_sum; reflexivity || lia).
  rewrite (field_at 8 3 _ (vector e) (ne_code (delivery_mode e)) h8) by (unfold entry_sum; reflexivity || lia).
  rewrite (field_at 11 1 _ l11 (ne_code (destination_mode e)) h11) by (unfold entry_sum; reflexivity || lia).
  rewrite (field_at 12 1 _ l12 (ne_code (delivery_status e)) h12) by (unfold entry_sum; reflexivity || lia).
  rewrite (field_at 13 1 _ l13 (ne_code (pin_polarity e)) h13) by (unfold entry_sum; reflexivity || lia).
  rewrite (field_at 14 1 _ l14 (b2z (remote_irr e)) h14) by (unfold entry_sum; reflexivity || lia).
  rewrite (field_at 15 1 _ l15 (ne_code (trigger_mode e)) h15) by (unfold entry_sum; reflexivity || lia).
  rewrite (field_at 16 1 _ l16 (b2z (interrupt_mask e)) h16) by (unfold entry_sum; reflexivity || lia).
  rewrite (field_at 56 8 _ l17 (destination e) 0) by (unfold entry_sum; reflexivity || lia).
  unfold DeliveryMode_try_from, DestinationMode_try_from, DeliveryStatus_try_from,
    PinPolarity_try_from, TriggerMode_try_from.
  rewrite !try_from_primitive_code. simpl.
  replace (negb (b2z (remote_irr e) =? 0)) with (remote_irr e) by (by destruct (remote_irr e)).
  replace (negb (b2z (interrupt_mask e) =? 0)) with (interrupt_mask e) by (by destruct (interrupt_mask e)).
  by destruct e.
Qed.

Lemma ok_or_code {E} `{NumEnum E} v err (e : E) :
  ok_or (try_from_primitive v) err = Ok e -> ne_code e = v.
Proof.
  destruct (try_from_primitive v) eqn:Ht; [|done]. intros [= <-]. by apply try_from_primitive_Some.
Qed.

Lemma negb_eqb_b2z x : 0 <= x < 2 -> b2z (negb (x =? 0)) = x.
Proof. intros. destruct (Z.eqb_spec x 0); simpl; lia. Qed.

Lemma entry_try_from_Ok bits e :
  is_u 64 bits -> entry_try_from bits = Ok e ->
  entry_fields_ok e /\ validate e = Ok tt /\ entry_sum e = bits.
Proof.
  intros Hb. unfold entry_try_from.
  destruct (has_bits bits _) eqn:Hk; [done|]. apply known_bits_iff in Hk.
  land_to_mod. rewrite !Z.shiftr_div_pow2 by lia.
  intros H. inv_res.
  repeat match goal with
  | Hx : ok_or (try_from_primitive _) _ = Ok _ |- _ => apply ok_or_code in Hx
  | Hx : DeliveryMode_try_from _ = Ok _ |- _ => apply ok_or_code in Hx
  | Hx : DestinationMode_try_from _ = Ok _ |- _ => apply ok_or_code in Hx
  | Hx : DeliveryStatus_try_from _ = Ok _ |- _ => apply ok_or_code in Hx
  | Hx : PinPolarity_try_from _ = Ok _ |- _ => apply ok_or_code in Hx
  | Hx : TriggerMode_try_from _ = Ok _ |- _ => apply ok_or_code in Hx
  end.
  split; [|split].
  - split; apply Z.mod_pos_bound; lia.
  - by destruct x4.
  - unfold entry_sum. cbn [vector delivery_mode destination_mode delivery_status pin_polarity
      remote_irr trigger_mode interrupt_mask destination].
    rewrite !negb_eqb_b2z by (apply Z.mod_pos_bound; lia).
    repeat match goal with Hx : ne_code _ = _ |- _ => rewrite Hx; clear Hx end.
    unfold is_u in Hb. revert Hb Hk. clear. pow2_literals.
    Z.to_euclidean_division_equations. lia.
Qed.

(** packing a valid redirection entry into 64 bits and unpacking it gives the
    entry back; the word uses only the known bits. *)
Lemma entry_pack_unpack e :
  entry_fields_ok e -> validate e = Ok tt ->
  entry_try_from (entry_into e) = Ok e /\
  has_bits (entry_into e) (bnot 64 IOREDTBL_KNOWN_BITS_MASK) = false.
Proof.
  intros Hf Hv. rewrite entry_into_sum by done.
  assert (entry_try_from (entry_sum e) = Ok e) as He by (rewrite entry_try_from_sum, Hv by done; done).
  split; [done|]. unfold entry_try_from in He. by destruct (has_bits _ _).
Qed.

Lemma entry_pack_unpack_witness :
  entry_try_from (entry_into (mkEntry 0x31 LowestPriority Logical SendPending ActiveLow true Level true 0xc3)) =
  Ok (mkEntry 0x31 LowestPriority Logical SendPending ActiveLow true Level true 0xc3).
Proof.
  apply entry_pack_unpack; [split; unfold is_u; simpl; lia|reflexivity].
Defined.

(** Unpacking is faithful and validating: a word unpacks only to a valid
    entry, and that entry packs to the same word. *)
Lemma entry_unpack_pack bits e :
  is_u 64 bits -> entry_try_from bits = Ok e ->
  validate e = Ok tt /\ entry_into e = bits.
Proof.
  intros Hb He. destruct (entry_try_from_Ok bits e Hb He) as (Hf & Hv & Hs).
  split; [done|]. by rewrite entry_into_sum.
Qed.

Lemma entry_unpack_pack_witness :
  entry_try_from 0xab00000000010820 = Ok (mkEntry 0x20 Fixed Logical Idle ActiveHigh false Edge true 0xab) /\
  entry_into (mkEntry 0x20 Fixed Logical Idle ActiveHigh false Edge true 0xab) = 0xab00000000010820.
Proof.
  split; [reflexivity|]. eapply entry_unpack_pack; [unfold is_u; lia|reflexivity].
Defined.

(** ** Register access *)

Section device_theorems.
Context {H : Type} `{IoApicHw H} `{!IoApicHwLaws H}.

Lemma redtbl_reg id : 0 <= id <= 23 ->
  u8 (IOREDTBL_OFFSET + u8 (id * 2)) = 0x10 + 2 * id /\
  u8 (u8 (IOREDTBL_OFFSET + u8 (id * 2)) + 1) = 0x11 + 2 * id.
Proof. intros. unfold IOREDTBL_OFFSET. split; words. Qed.

Lemma split_join_64 v : is_u 64 v ->
  Z.lor (Z.land v 0xffffffff) (u64 (Z.shiftl (u32 (Z.shiftr v 32)) 32)) = v.
Proof.
  unfold is_u. intros Hv. land_to_mod. unfold u64, u32.
  rewrite Z.shiftr_div_pow2 by lia.
  assert (0 <= v / 2 ^ 32 < 2 ^ 32) as Hh by (pow2_literals; Z.to_euclidean_division_equations; lia).
  rewrite (wrap_small 32) by done. rewrite wrap_small
    by (unfold is_u; rewrite Z.shiftl_mul_pow2 by lia; lia).
  rewrite lor_shiftl_add by (try apply Z.mod_pos_bound; lia).
  pow2_literals. Z.to_euclidean_division_equations. lia.
Qed.

Lemma entry_into_u64 e : entry_fields_ok e -> is_u 64 (entry_into e).
Proof.
  intros Hf. rewrite entry_into_sum by done. destruct Hf as [Hv Hd]. unfold is_u in *. entry_bounds e.
  assert (0 <= b2z (remote_irr e) <= 1) by (destruct (remote_irr e); simpl; lia).
  assert (0 <= b2z (interrupt_mask e) <= 1) by (destruct (interrupt_mask e); simpl; lia).
  unfold entry_sum. lia.
Qed.

Lemma writable_iff e : entry_fields_ok e ->
  has_bits (entry_into e) (bnot 64 IOREDTBL_RW_MASK) = false <->
  delivery_status e = Idle /\ remote_irr e = false.
Proof.
  intros Hf. rewrite rw_bits_iff, entry_into_sum by done.
  destruct Hf as [Hv Hd]. unfold is_u in *. entry_bounds e.
  assert (0 <= b2z (interrupt_mask e) <= 1) by (destruct (interrupt_mask e); simpl; lia).
  unfold entry_sum. destruct (delivery_status e), (remote_irr e); cbn [ne_code DeliveryStatus_enum b2z];
    split; try (intros; split; discriminate || reflexivity); intros Hx;
    try (destruct Hx; discriminate); exfalso + idtac; revert Hx || idtac;
    pow2_literals; Z.to_euclidean_division_equations; lia.
Qed.

Lemma write_ioredtbl_raw_spec a id val h :
  0 <= id <= 23 -> is_u 64 val ->
  exists h', write_ioredtbl_raw a id val h = (h', Ok tt) /\
    read_ioredtbl_raw a id h' = (h', Ok val) /\
    forall a' r, ~ (a' = ioapic_addr a /\ (r = 0x10 + 2 * id \/ r = 0x11 + 2 * id)) ->
      iowin_read h' a' r = iowin_read h a' r.
Proof.
  intros Hid Hv. destruct (redtbl_reg id Hid) as [E1 E2].
  assert (is_u 32 (Z.land val 0xffffffff)) as Hl by (land_to_mod; apply wrap_is_u; lia).
  assert (is_u 32 (u32 (Z.shiftr val 32))) as Hh by (apply wrap_is_u; lia).
  unfold write_ioredtbl_raw, read_ioredtbl_raw. rewrite E2, E1.
  eexists. split; [reflexivity|]. split.
  - cbv [mbind st_bind mret st_ret read_raw write_raw]. rewrite iowin_other by (try lia; intros [=]; lia).
    rewrite !iowin_same by (done || lia). do 2 f_equal. by apply split_join_64.
  - intros a' r Hn. rewrite !iowin_other by (try lia; intros [= -> ->]; apply Hn; lia). done.
Qed.

Lemma write_ioredtbl_spec a id e h :
  0 <= id < 256 -> entry_fields_ok e -> validate e = Ok tt ->
  let '(h', r) := write_ioredtbl a id e h in
  if bool_decide (id <= 23 /\ delivery_status e = Idle /\ remote_irr e = false) then
    r = Ok tt /\ read_ioredtbl a id h' = (h', Ok e) /\
    forall a' r, ~ (a' = ioapic_addr a /\ (r = 0x10 + 2 * id \/ r = 0x11 + 2 * id)) ->
      iowin_read h' a' r = iowin_read h a' r
  else h' = h /\ exists m, r = Err (InvalidValue m).
Proof.
  intros Hid Hf Hv. unfold write_ioredtbl, read_ioredtbl. rewrite Z.gtb_ltb.
  destruct (Z.ltb_spec 23 id).
  { rewrite bool_decide_false by lia. split; [done|]. by eexists. }
  pose proof (writable_iff e Hf) as Hw.
  destruct (has_bits (entry_into e) _).
  { rewrite bool_decide_false by (intros (_ & Hx); by apply Hw in Hx). split; [done|]. by eexists. }
  rewrite bool_decide_true by (split; [done|by apply Hw]).
  destruct (write_ioredtbl_raw_spec a id (entry_into e) h) as (h' & -> & Hr & Ho);
    [lia|by apply entry_into_u64|].
  split; [done|]. split; [|done]. rewrite st_bind_eq, Hr. unfold lift. f_equal.
  rewrite entry_into_sum, entry_try_from_sum, Hv by done. done.
Qed.

(** writing a redirection entry and reading it back.  With an index in the
    table and an entry whose read-only fields are clear the write succeeds, the
    read returns the entry and no other register of any I/O APIC changes; in
    every other case the write is an [InvalidValue] error and changes nothing. *)
Lemma write_ioredtbl_correct a id e h :
  0 <= id < 256 -> entry_fields_ok e -> validate e = Ok tt ->
  let '(h', r) := write_ioredtbl a id e h in
  if bool_decide (id <= 23 /\ delivery_status e = Idle /\ remote_irr e = false) then
    r = Ok tt /\ read_ioredtbl a id h' = (h', Ok e) /\
    forall a' r, ~ (a' = ioapic_addr a /\ (r = 0x10 + 2 * id \/ r = 0x11 + 2 * id)) ->
      iowin_read h' a' r = iowin_read h a' r
  else h' = h /\ exists m, r = Err (InvalidValue m).
Proof. apply write_ioredtbl_spec. Qed.

Lemma max_redirection_entry_spec a h :
  exists m, max_redirection_entry a h = (h, Ok m) /\
    m = (iowin_read h (ioapic_addr a) IOAPICVER / 2 ^ 16) mod 256.
Proof.
  eexists. split; [reflexivity|]. cbn. land_to_mod. by rewrite Z.shiftr_div_pow2 by lia.
Qed.

(** The interrupt numbers an I/O APIC claims, from its version register. *)
Definition claims_gsi (h : H) (a : IoApic) (gsi : Z) : Prop :=
  gsi_base a <= gsi < u32 (gsi_base a + (iowin_read h (ioapic_addr a) IOAPICVER / 2 ^ 16) mod 256).

#[export] Instance claims_gsi_dec h a gsi : Decision (claims_gsi h a gsi).
Proof. unfold claims_gsi. apply _. Defined.

Lemma ioapic_for_gsi_spec l gsi h :
  ioapic_for_gsi l gsi h =
  (h, Ok ((fun a => (a, u8 (gsi - gsi_base a))) <$> head (filter (fun a => claims_gsi h a gsi) l))).
Proof.
  induction l as [|a l IH]; [done|]. cbn [ioapic_for_gsi]. unfold get_ivec_range.
  rewrite st_bind_eq, st_bind_eq. destruct (max_redirection_entry_spec a h) as (m & -> & ->).
  cbn [fst snd mret st_ret]. unfold mret, st_ret.
  destruct (Z.leb_spec (gsi_base a) gsi), (Z.ltb_spec gsi
    (u32 (gsi_base a + (iowin_read h (ioapic_addr a) IOAPICVER / 2 ^ 16) mod 256))); simpl.
  - by rewrite filter_cons_True by (unfold claims_gsi; lia).
  - rewrite filter_cons_False by (unfold claims_gsi; lia). apply IH.
  - rewrite filter_cons_False by (unfold claims_gsi; lia). apply IH.
  - rewrite filter_cons_False by (unfold claims_gsi; lia). apply IH.
Qed.

(** mapping an interrupt number to a vector programs the first I/O APIC that
    claims it: its entry at the number's offset from the base reads back as an
    unmasked, edge-triggered, fixed entry for that vector and physical APIC id.
    A number no I/O APIC claims is [NotFound]; an APIC id over 15 or an offset
    over 23 is an [InvalidValue] error; errors change no register. *)
Lemma map_gsi_vector_correct ioapics gsi v apic_id h :
  is_u 8 v -> is_u 8 apic_id -> Forall (fun a => 0 <= gsi_base a) ioapics ->
  let '(h', r) := map_gsi_vector ioapics gsi v apic_id h in
  match head (filter (fun a => claims_gsi h a gsi) ioapics) with
  | None => r = Err NotFound /\ h' = h
  | Some a =>
      if bool_decide (apic_id <= 15 /\ gsi - gsi_base a <= 23) then
        r = Ok tt /\ read_ioredtbl a (gsi - gsi_base a) h' =
          (h', Ok (mkEntry v Fixed Physical Idle ActiveHigh false Edge false apic_id))
      else h' = h /\ exists m, r = Err (InvalidValue m)
  end.
Proof.
  intros Hv Hid Hbase. unfold map_gsi_vector. rewrite st_bind_eq, ioapic_for_gsi_spec.
  destruct (head _) as [a|] eqn:Hh; [|done]. cbn [fmap option_fmap option_map].
  apply head_Some_elem_of, list_elem_of_filter in Hh as [Hc Hin].
  rewrite Forall_forall in Hbase. specialize (Hbase a Hin).
  assert (0 <= gsi - gsi_base a < 256) as Ho.
  { unfold claims_gsi in Hc. pose proof (Z.mod_pos_bound (iowin_read h (ioapic_addr a) IOAPICVER / 2 ^ 16) 256).
    pose proof (Z.mod_le (gsi_base a + (iowin_read h (ioapic_addr a) IOAPICVER / 2 ^ 16) mod 256) (2 ^ 32)).
    unfold u32, wrap in Hc. lia. }
  replace (u8 (gsi - gsi_base a)) with (gsi - gsi_base a) by (symmetry; apply wrap_small; unfold is_u; lia).
  unfold entry_new, validate. cbn [trigger_mode delivery_mode destination_mode destination vector].
  cbn [valid_for_level_trigger]. rewrite (bool_decide_false (Edge = Level)) by done.
  rewrite (bool_decide_true (Physical = Physical)), (bool_decide_false (Fixed = SMI)) by done.
  cbn [andb]. rewrite Z.gtb_ltb. destruct (Z.ltb_spec 15 apic_id).
  { rewrite bool_decide_false by lia. split; [done|]. by eexists. }
  set (e := mkEntry v Fixed Physical Idle ActiveHigh false Edge false apic_id).
  rewrite st_bind_eq. change (lift (_ ← Ok (); Ok e) h) with (h, Ok e). cbv beta iota.
  pose proof (write_ioredtbl_spec a (gsi - gsi_base a) e h Ho) as Hw. cbv zeta in Hw.
  destruct (write_ioredtbl a (gsi - gsi_base a) e h) as [h' r].
  assert (validate e = Ok tt) as Hval.
  { unfold validate, e. cbn. rewrite Z.gtb_ltb. destruct (Z.ltb_spec 15 apic_id); [lia|done]. }
  specialize (Hw (conj Hv Hid) Hval).
  case_bool_decide as Hc1; case_bool_decide as Hc2.
  - destruct Hw as (-> & Hr & _). split; [done|exact Hr].
  - exfalso. apply Hc2. destruct Hc1. repeat split; (lia || done).
  - exfalso. apply Hc1. destruct Hc2. repeat split; (lia || done).
  - done.
Qed.
End device_theorems.

(** A concrete device for the witnesses: registers in a finite map, with version
    0x11 and 24 redirection entries by default. *)
Notation reg_file := (gmap (Z * Z) Z).

#[export] Instance reg_file_hw : IoApicHw reg_file := {
  iowin_read h a r := u32 (default (if r =? IOAPICVER then 0x170011 else 0) (h !! (a, r)));
  iowin_write h a r v := <[(a, r) := v]> h }.

#[export] Instance reg_file_laws : IoApicHwLaws reg_file.
Proof.
  split.
  - intros. apply wrap_is_u. lia.
  - intros h a r v _ Hv. cbv [iowin_read iowin_write reg_file_hw]. rewrite lookup_insert_eq. by apply wrap_small.
  - intros h a r v a' r' _ Hne. cbv [iowin_read iowin_write reg_file_hw]. by rewrite lookup_insert_ne by done.
Qed.

Lemma write_ioredtbl_correct_witness :
  let '(h', r) := write_ioredtbl (mkIoApic 0xfec00000 0) 4
    (mkEntry 0x24 Fixed Physical Idle ActiveHigh false Edge false 2) (∅ : reg_file) in
  r = Ok tt /\ read_ioredtbl (mkIoApic 0xfec00000 0) 4 h' =
    (h', Ok (mkEntry 0x24 Fixed Physical Idle ActiveHigh false Edge false 2)).
Proof.
  pose proof (write_ioredtbl_correct (mkIoApic 0xfec00000 0) 4
    (mkEntry 0x24 Fixed Physical Idle ActiveHigh false Edge false 2) (∅ : reg_file)) as Hw.
  cbv zeta in Hw. destruct (write_ioredtbl _ _ _ _) as [h' r].
  destruct Hw as (-> & Hr & _); [lia|split; unfold is_u; simpl; lia|reflexivity|done].
Defined.

Lemma map_gsi_vector_correct_witness :
  let '(h', r) := map_gsi_vector [mkIoApic 0xfec00000 0; mkIoApic 0xfec01000 24] 26 0x24 2 (∅ : reg_file) in
  r = Ok tt /\ read_ioredtbl (mkIoApic 0xfec01000 24) 2 h' =
    (h', Ok (mkEntry 0x24 Fixed Physical Idle ActiveHigh false Edge false 2)).
Proof.
  pose proof (map_gsi_vector_correct [mkIoApic 0xfec00000 0; mkIoApic 0xfec01000 24] 26 0x24 2 (∅ : reg_file)) as Hw.
  cbv zeta in Hw. destruct (map_gsi_vector _ _ _ _ _) as [h' r]. apply Hw.
  - unfold is_u. lia.
  - unfold is_u. lia.
  - repeat constructor; simpl; lia.
Defined.
