(* ===== verification/Vmcs.v ===== *)
(** * The VMCS ([mythril/src/vmcs.rs], [mythril/src/vmx.rs])

    The processor keeps the current VMCS: a value for every field encoding.
    [VmxCpu] is what the code asks of the processor and cannot read from the
    source: the flags and the error number a VMX instruction leaves, and the
    capability MSRs.  A field keeps as many bits as bits 14:13 of its encoding
    say. *)

From S2P Require Import Prelude Error.

Inductive VmcsField :=
| VirtualProcessorId | PostedIntrNv | GuestEsSelector | GuestCsSelector | GuestSsSelector
| GuestDsSelector | GuestFsSelector | GuestGsSelector | GuestLdtrSelector | GuestTrSelector
| GuestIntrStatus | GuestPmlIndex | HostEsSelector | HostCsSelector | HostSsSelector
| HostDsSelector | HostFsSelector | HostGsSelector | HostTrSelector | IoBitmapA | IoBitmapAHigh
| IoBitmapB | IoBitmapBHigh | MsrBitmap | MsrBitmapHigh | VmExitMsrStoreAddr
| VmExitMsrStoreAddrHigh | VmExitMsrLoadAddr | VmExitMsrLoadAddrHigh | VmEntryMsrLoadAddr
| VmEntryMsrLoadAddrHigh | PmlAddress | PmlAddressHigh | TscOffset | TscOffsetHigh
| VirtualApicPageAddr | VirtualApicPageAddrHigh | ApicAccessAddr | ApicAccessAddrHigh
| PostedIntrDescAddr | PostedIntrDescAddrHigh | EptPointer | EptPointerHigh | EoiExitBitmap0
| EoiExitBitmap0High | EoiExitBitmap1 | EoiExitBitmap1High | EoiExitBitmap2
| EoiExitBitmap2High | EoiExitBitmap3 | EoiExitBitmap3High | VmreadBitmap | VmreadBitmapHigh
| VmwriteBitmap | VmwriteBitmapHigh | XssExitBitmap | XssExitBitmapHigh | TscMultiplier
| TscMultiplierHigh | GuestPhysicalAddress | GuestPhysicalAddressHigh | VmcsLinkPointer
| VmcsLinkPointerHigh | GuestIa32Debugctl | GuestIa32DebugctlHigh | GuestIa32Pat
| GuestIa32PatHigh | GuestIa32Efer | GuestIa32EferHigh | GuestIa32PerfGlobalCtrl
| GuestIa32PerfGlobalCtrlHigh | GuestPdptr0 | GuestPdptr0High | GuestPdptr1 | GuestPdptr1High
| GuestPdptr2 | GuestPdptr2High | GuestPdptr3 | GuestPdptr3High | GuestBndcfgs
| GuestBndcfgsHigh | HostIa32Pat | HostIa32PatHigh | HostIa32Efer | HostIa32EferHigh
| HostIa32PerfGlobalCtrl | HostIa32PerfGlobalCtrlHigh | PinBasedVmExecControl
| CpuBasedVmExecControl | ExceptionBitmap | PageFaultErrorCodeMask | PageFaultErrorCodeMatch
| Cr3TargetCount | VmExitControls | VmExitMsrStoreCount | VmExitMsrLoadCount | VmEntryControls
| VmEntryMsrLoadCount | VmEntryIntrInfoField | VmEntryExceptionErrorCode
| VmEntryInstructionLen | TprThreshold | SecondaryVmExecControl | PleGap | PleWindow
| VmInstructionErrorField | VmExitReason | VmExitIntrInfo | VmExitIntrErrorCode
| IdtVectoringInfoField | IdtVectoringErrorCode | VmExitInstructionLen | VmxInstructionInfo
| GuestEsLimit | GuestCsLimit | GuestSsLimit | GuestDsLimit | GuestFsLimit | GuestGsLimit
| GuestLdtrLimit | GuestTrLimit | GuestGdtrLimit | GuestIdtrLimit | GuestEsArBytes
| GuestCsArBytes | GuestSsArBytes | GuestDsArBytes | GuestFsArBytes | GuestGsArBytes
| GuestLdtrArBytes | GuestTrArBytes | GuestInterruptibilityInfo | GuestActivityState
| GuestSysenterCs | VmxPreemptionTimerValue | HostIa32SysenterCs | Cr0GuestHostMask
| Cr4GuestHostMask | Cr0ReadShadow | Cr4ReadShadow | Cr3TargetValue0 | Cr3TargetValue1
| Cr3TargetValue2 | Cr3TargetValue3 | ExitQualification | GuestLinearAddress | GuestCr0
| GuestCr3 | GuestCr4 | GuestEsBase | GuestCsBase | GuestSsBase | GuestDsBase | GuestFsBase
| GuestGsBase | GuestLdtrBase | GuestTrBase | GuestGdtrBase | GuestIdtrBase | GuestDr7
| GuestRsp | GuestRip | GuestRflags | GuestPendingDbgExceptions | GuestSysenterEsp
| GuestSysenterEip | HostCr0 | HostCr3 | HostCr4 | HostFsBase | HostGsBase | HostTrBase
| HostGdtrBase | HostIdtrBase | HostIa32SysenterEsp | HostIa32SysenterEip | HostRsp | HostRip.

(** The fields of natural width. *)
Definition VmcsField_natural : list VmcsField := [
  Cr0GuestHostMask; Cr4GuestHostMask; Cr0ReadShadow; Cr4ReadShadow; Cr3TargetValue0;
  Cr3TargetValue1; Cr3TargetValue2; Cr3TargetValue3; ExitQualification; GuestLinearAddress;
  GuestCr0; GuestCr3; GuestCr4; GuestEsBase; GuestCsBase; GuestSsBase; GuestDsBase; GuestFsBase;
  GuestGsBase; GuestLdtrBase; GuestTrBase; GuestGdtrBase; GuestIdtrBase; GuestDr7; GuestRsp;
  GuestRip; GuestRflags; GuestPendingDbgExceptions; GuestSysenterEsp; GuestSysenterEip; HostCr0;
  HostCr3; HostCr4; HostFsBase; HostGsBase; HostTrBase; HostGdtrBase; HostIdtrBase;
  HostIa32SysenterEsp; HostIa32SysenterEip; HostRsp; HostRip].

Definition VmcsField_all : list VmcsField := [
  VirtualProcessorId; PostedIntrNv; GuestEsSelector; GuestCsSelector; GuestSsSelector;
  GuestDsSelector; GuestFsSelector; GuestGsSelector; GuestLdtrSelector; GuestTrSelector;
  GuestIntrStatus; GuestPmlIndex; HostEsSelector; HostCsSelector; HostSsSelector;
  HostDsSelector; HostFsSelector; HostGsSelector; HostTrSelector; IoBitmapA; IoBitmapAHigh;
  IoBitmapB; IoBitmapBHigh; MsrBitmap; MsrBitmapHigh; VmExitMsrStoreAddr;
  VmExitMsrStoreAddrHigh; VmExitMsrLoadAddr; VmExitMsrLoadAddrHigh; VmEntryMsrLoadAddr;
  VmEntryMsrLoadAddrHigh; PmlAddress; PmlAddressHigh; TscOffset; TscOffsetHigh;
  VirtualApicPageAddr; VirtualApicPageAddrHigh; ApicAccessAddr; ApicAccessAddrHigh;
  PostedIntrDescAddr; PostedIntrDescAddrHigh; EptPointer; EptPointerHigh; EoiExitBitmap0;
  EoiExitBitmap0High; EoiExitBitmap1; EoiExitBitmap1High; EoiExitBitmap2; EoiExitBitmap2High;
  EoiExitBitmap3; EoiExitBitmap3High; VmreadBitmap; VmreadBitmapHigh; VmwriteBitmap;
  VmwriteBitmapHigh; XssExitBitmap; XssExitBitmapHigh; TscMultiplier; TscMultiplierHigh;
  GuestPhysicalAddress; GuestPhysicalAddressHigh; VmcsLinkPointer; VmcsLinkPointerHigh;
  GuestIa32Debugctl; GuestIa32DebugctlHigh; GuestIa32Pat; GuestIa32PatHigh; GuestIa32Efer;
  GuestIa32EferHigh; GuestIa32PerfGlobalCtrl; GuestIa32PerfGlobalCtrlHigh; GuestPdptr0;
  GuestPdptr0High; GuestPdptr1; GuestPdptr1High; GuestPdptr2; GuestPdptr2High; GuestPdptr3;
  GuestPdptr3High; GuestBndcfgs; GuestBndcfgsHigh; HostIa32Pat; HostIa32PatHigh; HostIa32Efer;
  HostIa32EferHigh; HostIa32PerfGlobalCtrl; HostIa32PerfGlobalCtrlHigh; PinBasedVmExecControl;
  CpuBasedVmExecControl; ExceptionBitmap; PageFaultErrorCodeMask; PageFaultErrorCodeMatch;
  Cr3TargetCount; VmExitControls; VmExitMsrStoreCount; VmExitMsrLoadCount; VmEntryControls;
  VmEntryMsrLoadCount; VmEntryIntrInfoField; VmEntryExceptionErrorCode; VmEntryInstructionLen;
  TprThreshold; SecondaryVmExecControl; PleGap; PleWindow; VmInstructionErrorField;
  VmExitReason; VmExitIntrInfo; VmExitIntrErrorCode; IdtVectoringInfoField;
  IdtVectoringErrorCode; VmExitInstructionLen; VmxInstructionInfo; GuestEsLimit; GuestCsLimit;
  GuestSsLimit; GuestDsLimit; GuestFsLimit; GuestGsLimit; GuestLdtrLimit; GuestTrLimit;
  GuestGdtrLimit; GuestIdtrLimit; GuestEsArBytes; GuestCsArBytes; GuestSsArBytes;
  GuestDsArBytes; GuestFsArBytes; GuestGsArBytes; GuestLdtrArBytes; GuestTrArBytes;
  GuestInterruptibilityInfo; GuestActivityState; GuestSysenterCs; VmxPreemptionTimerValue;
  HostIa32SysenterCs] ++ VmcsField_natural.

Definition field_code (f : VmcsField) : Z :=
  match f with
  | VirtualProcessorId => 0x00000000 | PostedIntrNv => 0x00000002
  | GuestEsSelector => 0x00000800 | GuestCsSelector => 0x00000802
  | GuestSsSelector => 0x00000804 | GuestDsSelector => 0x00000806
  | GuestFsSelector => 0x00000808 | GuestGsSelector => 0x0000080a
  | GuestLdtrSelector => 0x0000080c | GuestTrSelector => 0x0000080e
  | GuestIntrStatus => 0x00000810 | GuestPmlIndex => 0x00000812 | HostEsSelector => 0x00000c00
  | HostCsSelector => 0x00000c02 | HostSsSelector => 0x00000c04 | HostDsSelector => 0x00000c06
  | HostFsSelector => 0x00000c08 | HostGsSelector => 0x00000c0a | HostTrSelector => 0x00000c0c
  | IoBitmapA => 0x00002000 | IoBitmapAHigh => 0x00002001 | IoBitmapB => 0x00002002
  | IoBitmapBHigh => 0x00002003 | MsrBitmap => 0x00002004 | MsrBitmapHigh => 0x00002005
  | VmExitMsrStoreAddr => 0x00002006 | VmExitMsrStoreAddrHigh => 0x00002007
  | VmExitMsrLoadAddr => 0x00002008 | VmExitMsrLoadAddrHigh => 0x00002009
  | VmEntryMsrLoadAddr => 0x0000200a | VmEntryMsrLoadAddrHigh => 0x0000200b
  | PmlAddress => 0x0000200e | PmlAddressHigh => 0x0000200f | TscOffset => 0x00002010
  | TscOffsetHigh => 0x00002011 | VirtualApicPageAddr => 0x00002012
  | VirtualApicPageAddrHigh => 0x00002013 | ApicAccessAddr => 0x00002014
  | ApicAccessAddrHigh => 0x00002015 | PostedIntrDescAddr => 0x00002016
  | PostedIntrDescAddrHigh => 0x00002017 | EptPointer => 0x0000201a
  | EptPointerHigh => 0x0000201b | EoiExitBitmap0 => 0x0000201c
  | EoiExitBitmap0High => 0x0000201d | EoiExitBitmap1 => 0x0000201e
  | EoiExitBitmap1High => 0x0000201f | EoiExitBitmap2 => 0x00002020
  | EoiExitBitmap2High => 0x00002021 | EoiExitBitmap3 => 0x00002022
  | EoiExitBitmap3High => 0x00002023 | VmreadBitmap => 0x00002026
  | VmreadBitmapHigh => 0x00002027 | VmwriteBitmap => 0x00002028
  | VmwriteBitmapHigh => 0x00002029 | XssExitBitmap => 0x0000202c
  | XssExitBitmapHigh => 0x0000202d | TscMultiplier => 0x00002032
  | TscMultiplierHigh => 0x00002033 | GuestPhysicalAddress => 0x00002400
  | GuestPhysicalAddressHigh => 0x00002401 | VmcsLinkPointer => 0x00002800
  | VmcsLinkPointerHigh => 0x00002801 | GuestIa32Debugctl => 0x00002802
  | GuestIa32DebugctlHigh => 0x00002803 | GuestIa32Pat => 0x00002804
  | GuestIa32PatHigh => 0x00002805 | GuestIa32Efer => 0x00002806
  | GuestIa32EferHigh => 0x00002807 | GuestIa32PerfGlobalCtrl => 0x00002808
  | GuestIa32PerfGlobalCtrlHigh => 0x00002809 | GuestPdptr0 => 0x0000280a
  | GuestPdptr0High => 0x0000280b | GuestPdptr1 => 0x0000280c | GuestPdptr1High => 0x0000280d
  | GuestPdptr2 => 0x0000280e | GuestPdptr2High => 0x0000280f | GuestPdptr3 => 0x00002810
  | GuestPdptr3High => 0x00002811 | GuestBndcfgs => 0x00002812 | GuestBndcfgsHigh => 0x00002813
  | HostIa32Pat => 0x00002c00 | HostIa32PatHigh => 0x00002c01 | HostIa32Efer => 0x00002c02
  | HostIa32EferHigh => 0x00002c03 | HostIa32PerfGlobalCtrl => 0x00002c04
  | HostIa32PerfGlobalCtrlHigh => 0x00002c05 | PinBasedVmExecControl => 0x00004000
  | CpuBasedVmExecControl => 0x00004002 | ExceptionBitmap => 0x00004004
  | PageFaultErrorCodeMask => 0x00004006 | PageFaultErrorCodeMatch => 0x00004008
  | Cr3TargetCount => 0x0000400a | VmExitControls => 0x0000400c
  | VmExitMsrStoreCount => 0x0000400e | VmExitMsrLoadCount => 0x00004010
  | VmEntryControls => 0x00004012 | VmEntryMsrLoadCount => 0x00004014
  | VmEntryIntrInfoField => 0x00004016 | VmEntryExceptionErrorCode => 0x00004018
  | VmEntryInstructionLen => 0x0000401a | TprThreshold => 0x0000401c
  | SecondaryVmExecControl => 0x0000401e | PleGap => 0x00004020 | PleWindow => 0x00004022
  | VmInstructionErrorField => 0x00004400 | VmExitReason => 0x00004402
  | VmExitIntrInfo => 0x00004404 | VmExitIntrErrorCode => 0x00004406
  | IdtVectoringInfoField => 0x00004408 | IdtVectoringErrorCode => 0x0000440a
  | VmExitInstructionLen => 0x0000440c | VmxInstructionInfo => 0x0000440e
  | GuestEsLimit => 0x00004800 | GuestCsLimit => 0x00004802 | GuestSsLimit => 0x00004804
  | GuestDsLimit => 0x00004806 | GuestFsLimit => 0x00004808 | GuestGsLimit => 0x0000480a
  | GuestLdtrLimit => 0x0000480c | GuestTrLimit => 0x0000480e | GuestGdtrLimit => 0x00004810
  | GuestIdtrLimit => 0x00004812 | GuestEsArBytes => 0x00004814 | GuestCsArBytes => 0x00004816
  | GuestSsArBytes => 0x00004818 | GuestDsArBytes => 0x0000481a | GuestFsArBytes => 0x0000481c
  | GuestGsArBytes => 0x0000481e | GuestLdtrArBytes => 0x00004820
  | GuestTrArBytes => 0x00004822 | GuestInterruptibilityInfo => 0x00004824
  | GuestActivityState => 0x00004826 | GuestSysenterCs => 0x0000482a
  | VmxPreemptionTimerValue => 0x0000482e | HostIa32SysenterCs => 0x00004c00
  | Cr0GuestHostMask => 0x00006000 | Cr4GuestHostMask => 0x00006002
  | Cr0ReadShadow => 0x00006004 | Cr4ReadShadow => 0x00006006 | Cr3TargetValue0 => 0x00006008
  | Cr3TargetValue1 => 0x0000600a | Cr3TargetValue2 => 0x0000600c
  | Cr3TargetValue3 => 0x0000600e | ExitQualification => 0x00006400
  | GuestLinearAddress => 0x0000640a | GuestCr0 => 0x00006800 | GuestCr3 => 0x00006802
  | GuestCr4 => 0x00006804 | GuestEsBase => 0x00006806 | GuestCsBase => 0x00006808
  | GuestSsBase => 0x0000680a | GuestDsBase => 0x0000680c | GuestFsBase => 0x0000680e
  | GuestGsBase => 0x00006810 | GuestLdtrBase => 0x00006812 | GuestTrBase => 0x00006814
  | GuestGdtrBase => 0x00006816 | GuestIdtrBase => 0x00006818 | GuestDr7 => 0x0000681a
  | GuestRsp => 0x0000681c | GuestRip => 0x0000681e | GuestRflags => 0x00006820
  | GuestPendingDbgExceptions => 0x00006822 | GuestSysenterEsp => 0x00006824
  | GuestSysenterEip => 0x00006826 | HostCr0 => 0x00006c00 | HostCr3 => 0x00006c02
  | HostCr4 => 0x00006c04 | HostFsBase => 0x00006c06 | HostGsBase => 0x00006c08
  | HostTrBase => 0x00006c0a | HostGdtrBase => 0x00006c0c | HostIdtrBase => 0x00006c0e
  | HostIa32SysenterEsp => 0x00006c10 | HostIa32SysenterEip => 0x00006c12
  | HostRsp => 0x00006c14 | HostRip => 0x00006c16
  end.

Module PinBasedCtrlFlags.
Definition EXT_INTR_EXIT : Z := 0x00000001.
Definition NMI_EXITING : Z := 0x00000008.
Definition VIRTUAL_NMIS : Z := 0x00000020.
Definition PREEMPT_TIMER : Z := 0x00000040.
Definition POSTED_INTERRUPT : Z := 0x00000080.
Definition all : list Z := [
  EXT_INTR_EXIT; NMI_EXITING; VIRTUAL_NMIS; PREEMPT_TIMER; POSTED_INTERRUPT].
End PinBasedCtrlFlags.

Module CpuBasedCtrlFlags.
Definition INTERRUPT_WINDOW_EXITING : Z := 0x00000004.
Definition USE_TSC_OFFSETING : Z := 0x00000008.
Definition HLT_EXITING : Z := 0x00000080.
Definition INVLPG_EXITING : Z := 0x00000200.
Definition MWAIT_EXITING : Z := 0x00000400.
Definition RDPMC_EXITING : Z := 0x00000800.
Definition RDTSC_EXITING : Z := 0x00001000.
Definition CR3_LOAD_EXITING : Z := 0x00008000.
Definition CR3_STORE_EXITING : Z := 0x00010000.
Definition CR8_LOAD_EXITING : Z := 0x00080000.
Definition CR8_STORE_EXITING : Z := 0x00100000.
Definition TPR_SHADOW : Z := 0x00200000.
Definition VIRTUAL_NMI_PENDING : Z := 0x00400000.
Definition MOV_DR_EXITING : Z := 0x00800000.
Definition UNCOND_IO_EXITING : Z := 0x01000000.
Definition ACTIVATE_IO_BITMAP : Z := 0x02000000.
Definition MONITOR_TRAP_FLAG : Z := 0x08000000.
Definition ACTIVATE_MSR_BITMAP : Z := 0x10000000.
Definition MONITOR_EXITING : Z := 0x20000000.
Definition PAUSE_EXITING : Z := 0x40000000.
Definition ACTIVATE_SECONDARY_CONTROLS : Z := 0x80000000.
Definition all : list Z := [
  INTERRUPT_WINDOW_EXITING; USE_TSC_OFFSETING; HLT_EXITING; INVLPG_EXITING; MWAIT_EXITING;
  RDPMC_EXITING; RDTSC_EXITING; CR3_LOAD_EXITING; CR3_STORE_EXITING; CR8_LOAD_EXITING;
  CR8_STORE_EXITING; TPR_SHADOW; VIRTUAL_NMI_PENDING; MOV_DR_EXITING; UNCOND_IO_EXITING;
  ACTIVATE_IO_BITMAP; MONITOR_TRAP_FLAG; ACTIVATE_MSR_BITMAP; MONITOR_EXITING; PAUSE_EXITING;
  ACTIVATE_SECONDARY_CONTROLS].
End CpuBasedCtrlFlags.

Module VmExitCtrlFlags.
Definition SAVE_DEBUG_CNTRLS : Z := 0x00000004.
Definition IA32E_MODE : Z := 0x00000200.
Definition LOAD_PERF_GLOBAL_CTRL : Z := 0x00001000.
Definition ACK_INTR_ON_EXIT : Z := 0x00008000.
Definition SAVE_GUEST_PAT : Z := 0x00040000.
Definition LOAD_HOST_PAT : Z := 0x00080000.
Definition SAVE_GUEST_EFER : Z := 0x00100000.
Definition LOAD_HOST_EFER : Z := 0x00200000.
Definition SAVE_PREEMPT_TIMER : Z := 0x00400000.
Definition CLEAR_BNDCFGS : Z := 0x00800000.
Definition all : list Z := [
  SAVE_DEBUG_CNTRLS; IA32E_MODE; LOAD_PERF_GLOBAL_CTRL; ACK_INTR_ON_EXIT; SAVE_GUEST_PAT;
  LOAD_HOST_PAT; SAVE_GUEST_EFER; LOAD_HOST_EFER; SAVE_PREEMPT_TIMER; CLEAR_BNDCFGS].
End VmExitCtrlFlags.

Module VmEntryCtrlFlags.
Definition IA32E_MODE : Z := 0x00000200.
Definition SMM : Z := 0x00000400.
Definition DEACT_DUAL_MONITOR : Z := 0x00000800.
Definition LOAD_PERF_GLOBAL_CTRL : Z := 0x00002000.
Definition LOAD_GUEST_PAT : Z := 0x00004000.
Definition LOAD_GUEST_EFER : Z := 0x00008000.
Definition LOAD_BNDCFGS : Z := 0x00010000.
Definition all : list Z := [
  IA32E_MODE; SMM; DEACT_DUAL_MONITOR; LOAD_PERF_GLOBAL_CTRL; LOAD_GUEST_PAT; LOAD_GUEST_EFER;
  LOAD_BNDCFGS].
End VmEntryCtrlFlags.

Module SecondaryExecFlags.
Definition VIRTUALIZE_APIC_ACCESSES : Z := 0x00000001.
Definition ENABLE_EPT : Z := 0x00000002.
Definition DESCRIPTOR_TABLE_EXITING : Z := 0x00000004.
Definition ENABLE_RDTSCP : Z := 0x00000008.
Definition VIRTUALIZE_X2APIC_MODE : Z := 0x00000010.
Definition ENABLE_VPID : Z := 0x00000020.
Definition WBINVD_EXITING : Z := 0x00000040.
Definition UNRESTRICTED_GUEST : Z := 0x00000080.
Definition APIC_REGISTER_VIRT : Z := 0x00000100.
Definition VIRTUAL_INTR_DELIVERY : Z := 0x00000200.
Definition PAUSE_LOOP_EXITING : Z := 0x00000400.
Definition ENABLE_INVPCID : Z := 0x00001000.
Definition ENABLE_VM_FUNCTIONS : Z := 0x00002000.
Definition ENABLE_VMCS_SHADOWING : Z := 0x00004000.
Definition ENABLE_PML : Z := 0x00020000.
Definition ENABLE_VIRT_EXCEPTIONS : Z := 0x00040000.
Definition XSAVES : Z := 0x00100000.
Definition TSC_SCALING : Z := 0x02000000.
Definition all : list Z := [
  VIRTUALIZE_APIC_ACCESSES; ENABLE_EPT; DESCRIPTOR_TABLE_EXITING; ENABLE_RDTSCP;
  VIRTUALIZE_X2APIC_MODE; ENABLE_VPID; WBINVD_EXITING; UNRESTRICTED_GUEST; APIC_REGISTER_VIRT;
  VIRTUAL_INTR_DELIVERY; PAUSE_LOOP_EXITING; ENABLE_INVPCID; ENABLE_VM_FUNCTIONS;
  ENABLE_VMCS_SHADOWING; ENABLE_PML; ENABLE_VIRT_EXCEPTIONS; XSAVES; TSC_SCALING].
End SecondaryExecFlags.

Module InterruptibilityState.
Definition STI_BLOCKING : Z := 0x00000001.
Definition MOV_SS_BLOCKING : Z := 0x00000002.
Definition SMI_BLOCKING : Z := 0x00000004.
Definition NMI_BLOCKING : Z := 0x00000008.
Definition ENCLAVE_INTERRUPT : Z := 0x00000010.
Definition all : list Z := [
  STI_BLOCKING; MOV_SS_BLOCKING; SMI_BLOCKING; NMI_BLOCKING; ENCLAVE_INTERRUPT].
End InterruptibilityState.

Inductive ActivityState := Active | Hlt | Shutdown | WaitForSipi.

#[export] Instance ActivityState_enum : NumEnum ActivityState := {
  ne_all := [Active; Hlt; Shutdown; WaitForSipi];
  ne_code s := match s with Active => 0 | Hlt => 1 | Shutdown => 2 | WaitForSipi => 3 end }.

#[export] Instance ActivityState_enum_ok : NumEnumOk ActivityState.
Proof. num_enum_ok. Qed.


(** ** The processor *)

Class VmxCpu := {
  rdmsr : Z -> Z;
  vmwrite_rflags : Z -> Z -> Z;
  vm_instruction_error : Z
}.

(** Fields of the current VMCS by encoding.  An odd encoding accesses bits 63:32 of
    the 64-bit field with the even encoding below it. *)
Notation VmcsState := (gmap Z Z).

Definition is_high (f : VmcsField) : bool := Z.odd (field_code f).
Definition full_code (f : VmcsField) : Z := if is_high f then field_code f - 1 else field_code f.

Definition field_width (f : VmcsField) : Z :=
  if is_high f then 32
  else match Z.land (Z.shiftr (field_code f) 13) 3 with 0 => 16 | 1 => 64 | 2 => 32 | _ => 64 end.

Definition vmcs_full (v : VmcsState) (f : VmcsField) : Z := default 0 (v !! full_code f).

Definition vmcs_peek (v : VmcsState) (f : VmcsField) : Z :=
  if is_high f then vmcs_full v f / 2 ^ 32 else vmcs_full v f.

Definition vmcs_store (f : VmcsField) (value : Z) (v : VmcsState) : VmcsState :=
  <[full_code f :=
      if is_high f then vmcs_full v f mod 2 ^ 32 + 2 ^ 32 * wrap 32 value
      else wrap (field_width f) value]> v.

Section vmcs.
Context `{VmxCpu}.

Definition vmcs_write (f : VmcsField) (value : Z) : st VmcsState unit := fun v =>
  match check_vm_insruction vm_instruction_error (vmwrite_rflags (field_code f) value)
          (Msg "Failed to write 0x{:x} to field {:?}" [value; field_code f]) with
  | Ok _ => (vmcs_store f value v, Ok tt)
  | r => (v, r)
  end.

(** [vmcs_read] ignores the flags of [vmread]. *)
Definition vmcs_read (f : VmcsField) : st VmcsState Z := fun v => (v, Ok (vmcs_peek v f)).

Definition vmcs_write_with_fixed (f : VmcsField) (value msr : Z) : st VmcsState Z :=
  let fixed := rdmsr msr in
  let low := Z.land fixed 0xffffffff in
  let high := Z.shiftr fixed 32 in
  let required_value := Z.lor (Z.land value high) low in
  if has_bits value (bnot 64 required_value) then
    err (Vmcs (Msg "Requested field ({:?}) bit not allowed by MSR (requested=0x{:x} forbidden=0x{:x} required=0x{:x} res=0x{:x})"
      [field_code f; value; high; low; required_value]))
  else
    _ ← vmcs_write f required_value;
    mret required_value.

End vmcs.

(** ** Fields *)

(** The field with a given encoding. *)
Definition field_of_code (c : Z) : option VmcsField :=
  head (filter (fun f => field_code f = c) VmcsField_all).

Lemma field_of_code_code f : field_of_code (field_code f) = Some f.
Proof. destruct f; vm_compute; reflexivity. Qed.

Lemma field_code_inj f g : field_code f = field_code g -> f = g.
Proof.
  intros E. pose proof (field_of_code_code f) as Hf. rewrite E, field_of_code_code in Hf. congruence.
Qed.

#[export] Instance VmcsField_eq_dec : EqDecision VmcsField.
Proof.
  intros f g. destruct (decide (field_code f = field_code g)) as [E|E].
  - left. by apply field_code_inj.
  - right. by intros ->.
Defined.

Section vmcs_theorems.
Context `{VmxCpu}.

(** The fields whose writes the processor accepts, with what they keep. *)
Definition writable (f : VmcsField) (value : Z) : Prop :=
  has_bits (vmwrite_rflags (field_code f) value) FLAGS_CF = false /\
  has_bits (vmwrite_rflags (field_code f) value) FLAGS_ZF = false.

Lemma vmcs_write_ok f value v :
  writable f value ->
  vmcs_write f value v = (vmcs_store f value v, Ok tt).
Proof.
  intros Hw. unfold vmcs_write. by rewrite (proj2 (check_vm_insruction_Ok _ _ _) Hw).
Qed.

Lemma vmcs_write_fail f value v :
  ~ writable f value -> exists e, vmcs_write f value v = (v, Err e).
Proof.
  intros Hn. unfold vmcs_write. destruct (check_vm_insruction _ _ _) as [[]|e|w] eqn:Hc.
  - by apply check_vm_insruction_Ok in Hc.
  - by eexists.
  - unfold check_vm_insruction in Hc. destruct (has_bits _ _); [done|]. by destruct (has_bits _ _).
Qed.

Lemma full_store f x v g :
  vmcs_full (vmcs_store f x v) g =
  if decide (full_code g = full_code f) then
    (if is_high f then vmcs_full v f mod 2 ^ 32 + 2 ^ 32 * wrap 32 x else wrap (field_width f) x)
  else vmcs_full v g.
Proof.
  unfold vmcs_full, vmcs_store. case_decide as Hd; [by rewrite Hd, lookup_insert_eq|].
  by rewrite lookup_insert_ne by done.
Qed.

Lemma peek_store_same f x v : vmcs_peek (vmcs_store f x v) f = wrap (field_width f) x.
Proof.
  unfold vmcs_peek. rewrite full_store, decide_True by done.
  destruct (is_high f) eqn:Hh; [|done]. unfold field_width. rewrite Hh, Z.mul_comm, Z.div_add by done.
  rewrite Z.div_small; [lia|]. by apply Z.mod_pos_bound.
Qed.

Lemma peek_store_other f x v g :
  full_code g <> full_code f -> vmcs_peek (vmcs_store f x v) g = vmcs_peek v g.
Proof. intros Hne. unfold vmcs_peek. by rewrite full_store, decide_False. Qed.

(** [value & !required = 0] in terms of the two words of the capability MSR. *)
Lemma fixed_allowed value high low :
  is_u 64 value ->
  has_bits value (bnot 64 (Z.lor (Z.land value high) low)) = false <->
  forall i, 0 <= i -> Z.testbit value i = true -> Z.testbit high i = true \/ Z.testbit low i = true.
Proof.
  intros Hv. unfold has_bits. rewrite negb_false_iff, Z.eqb_eq. split.
  - intros H0 i Hi Hb. apply (f_equal (fun x => Z.testbit x i)) in H0.
    assert (i < 64) by (destruct (decide (i < 64)); [done|]; rewrite (is_u_testbit 64 value) in Hb by (done || lia); done).
    rewrite Z.land_spec, Hb, bnot_testbit, Z.testbit_0_l, Z.lor_spec, Z.land_spec, Hb in H0 by lia.
    rewrite (proj2 (Z.ltb_lt i 64)) in H0 by done.
    destruct (Z.testbit high i), (Z.testbit low i); auto.
  - intros Ha. apply Z.bits_inj'. intros i Hi. rewrite Z.land_spec, Z.testbit_0_l, bnot_testbit by lia.
    rewrite Z.lor_spec, Z.land_spec. destruct (Z.testbit value i) eqn:Hb; [|done].
    destruct (Ha i Hi Hb) as [-> | ->]; rewrite ?orb_true_r; simpl; by rewrite andb_false_r.
Qed.
End vmcs_theorems.

(** Every requested bit is allowed by the MSR's high word or demanded by its low
    word. *)
Definition ctrl_allowed (value high low : Z) : Prop :=
  forall i, 0 <= i -> Z.testbit value i = true -> Z.testbit high i = true \/ Z.testbit low i = true.

(** C24: [write_with_fixed] honours the capability MSR.  A requested bit that is
    neither allowed by the MSR's high word nor demanded by its low word is
    rejected and nothing is written; otherwise the value written (and returned)
    is the request plus exactly the demanded bits: every demanded bit is set, no
    bit outside the two words is, and no other field changes. *)
Theorem write_with_fixed_correct `{VmxCpu} f value msr v :
  is_u 32 value -> is_u 64 (rdmsr msr) -> field_width f = 32 ->
  (forall x, writable f x) ->
  let low := rdmsr msr mod 2 ^ 32 in
  let high := rdmsr msr / 2 ^ 32 in
  let '(v', r) := vmcs_write_with_fixed f value msr v in
  (ctrl_allowed value high low /\ r = Ok (Z.lor value low) /\
   vmcs_peek v' f = Z.lor value low /\ ctrl_allowed (Z.lor value low) high low /\
   forall g, full_code g <> full_code f -> vmcs_peek v' g = vmcs_peek v g) \/
  (~ ctrl_allowed value high low /\ v' = v /\ exists m, r = Err (Vmcs m)).
Proof.
  intros Hv Hm Hw Hwr low high. unfold vmcs_write_with_fixed.
  rewrite (land_mask 0xffffffff 32) by (reflexivity || lia). rewrite Z.shiftr_div_pow2 by lia.
  fold low high. pose proof (fixed_allowed value high low (is_u_weaken 32 64 value ltac:(lia) Hv)) as Ha.
  destruct (has_bits value _).
  - unfold err. right. split; [|split; [done|by eexists]]. intros Hc. discriminate (proj2 Ha Hc).
  - assert (ctrl_allowed value high low) as Hc by exact (proj1 Ha eq_refl).
    assert (Z.lor (Z.land value high) low = Z.lor value low) as E.
    { apply Z.bits_inj'. intros i Hi. rewrite !Z.lor_spec, Z.land_spec.
      destruct (Z.testbit value i) eqn:Hb; [|done].
      destruct (Hc i Hi Hb) as [-> | ->]; by rewrite ?orb_true_r. }
    assert (is_u 32 (Z.lor value low)) as Hu by (apply lor_is_u; [lia|done|by apply wrap_is_u]).
    rewrite E, st_bind_eq, vmcs_write_ok by done. cbv beta iota. left. split; [done|]. split; [done|]. split_and!.
    + by rewrite peek_store_same, Hw, wrap_small.
    + intros i Hi. rewrite Z.lor_spec, orb_true_iff. intros [Hb|Hb]; [by apply Hc|by right].
    + intros g Hg. by apply peek_store_other.
Qed.

(** A processor that accepts every write, for the witnesses: bit 1 demanded,
    the low byte allowed. *)
Definition lenient_cpu : VmxCpu := {|
  rdmsr := fun _ => 0x000000ff00000002;
  vmwrite_rflags := fun _ _ => 2;
  vm_instruction_error := 0 |}.

Lemma write_with_fixed_correct_witness :
  let '(v', r) := @vmcs_write_with_fixed lenient_cpu PinBasedVmExecControl 0x9 0x481 ∅ in
  (ctrl_allowed 0x9 0xff 2 /\ r = Ok 0xb) \/ ~ ctrl_allowed 0x9 0xff 2.
Proof.
  pose proof (@write_with_fixed_correct lenient_cpu PinBasedVmExecControl 0x9 0x481 ∅) as H.
  cbv zeta in H. destruct (vmcs_write_with_fixed _ _ _ _) as [v' r].
  destruct H as [(Hc & Hr & _)|(Hc & _)].
  - unfold is_u. lia.
  - unfold is_u. simpl. lia.
  - reflexivity.
  - intros x. split; reflexivity.
  - left. split; [exact Hc|exact Hr].
  - right. exact Hc.
Defined.

(** A field write reads back truncated to the field's width, and no field other
    than the two halves of the same 64-bit field changes: writing a field shows its
    upper bits in its high half, writing the high half keeps the lower ones. *)
Lemma vmcs_write_read `{VmxCpu} f g value v :
  let '(v', r) := vmcs_write f value v in
  (writable f value /\ r = Ok tt /\
   vmcs_read g v' = (v', Ok
     (if decide (g = f) then wrap (field_width f) value
      else if decide (full_code g = full_code f) then
        (if is_high g then wrap (field_width f) value / 2 ^ 32
         else vmcs_peek v g mod 2 ^ 32 + 2 ^ 32 * wrap 32 value)
      else vmcs_peek v g))) \/
  (~ writable f value /\ v' = v /\ exists e, r = Err e).
Proof.
  destruct (decide (has_bits (vmwrite_rflags (field_code f) value) FLAGS_CF = false /\
    has_bits (vmwrite_rflags (field_code f) value) FLAGS_ZF = false)) as [Hw|Hw].
  - rewrite vmcs_write_ok by done. left. split; [done|]. split; [done|].
    unfold vmcs_read. do 2 f_equal. case_decide as Hg; [subst; apply peek_store_same|].
    case_decide as Hs; [|by apply peek_store_other].
    unfold vmcs_peek. rewrite full_store, decide_True by done.
    destruct (is_high f) eqn:Hf, (is_high g) eqn:Hgh; unfold full_code in Hs; rewrite Hf, Hgh in Hs.
    + exfalso. apply Hg, field_code_inj. lia.
    + do 2 f_equal. unfold vmcs_full, full_code. by rewrite Hf, Hgh, Hs.
    + done.
    + exfalso. apply Hg, field_code_inj. done.
  - destruct (vmcs_write_fail f value v Hw) as [e ->]. right. split; [done|]. split; [done|by exists e].
Qed.
