(* ===== verification/VmExit.v ===== *)
(** * Decoding VM exits ([mythril/src/vmexit.rs])

    The exit reason and its extended information are read from fields of the
    current VMCS.  [MovCrRegister] gives access to the guest register a control
    register instruction names. *)

From S2P Require Import Prelude Error Vmcs.

Record GuestCpuState := mkCpu {
  cr2 : Z;
  r15 : Z;
  r14 : Z;
  r13 : Z;
  r12 : Z;
  r11 : Z;
  r10 : Z;
  r9 : Z;
  r8 : Z;
  rbp : Z;
  rdi : Z;
  rsi : Z;
  rdx : Z;
  rcx : Z;
  rbx : Z;
  rax : Z
}.

Definition cpu_zero : GuestCpuState := mkCpu 0 0 0 0 0 0 0 0 0 0 0 0 0 0 0 0.

Definition set_cr2 (x : Z) (c : GuestCpuState) : GuestCpuState :=
  mkCpu x (r15 c) (r14 c) (r13 c) (r12 c) (r11 c) (r10 c) (r9 c) (r8 c) (rbp c) (rdi c) (rsi c) (rdx c) (rcx c) (rbx c) (rax c).
Definition set_r15 (x : Z) (c : GuestCpuState) : GuestCpuState :=
  mkCpu (cr2 c) x (r14 c) (r13 c) (r12 c) (r11 c) (r10 c) (r9 c) (r8 c) (rbp c) (rdi c) (rsi c) (rdx c) (rcx c) (rbx c) (rax c).
Definition set_r14 (x : Z) (c : GuestCpuState) : GuestCpuState :=
  mkCpu (cr2 c) (r15 c) x (r13 c) (r12 c) (r11 c) (r10 c) (r9 c) (r8 c) (rbp c) (rdi c) (rsi c) (rdx c) (rcx c) (rbx c) (rax c).
Definition set_r13 (x : Z) (c : GuestCpuState) : GuestCpuState :=
  mkCpu (cr2 c) (r15 c) (r14 c) x (r12 c) (r11 c) (r10 c) (r9 c) (r8 c) (rbp c) (rdi c) (rsi c) (rdx c) (rcx c) (rbx c) (rax c).
Definition set_r12 (x : Z) (c : GuestCpuState) : GuestCpuState :=
  mkCpu (cr2 c) (r15 c) (r14 c) (r13 c) x (r11 c) (r10 c) (r9 c) (r8 c) (rbp c) (rdi c) (rsi c) (rdx c) (rcx c) (rbx c) (rax c).
Definition set_r11 (x : Z) (c : GuestCpuState) : GuestCpuState :=
  mkCpu (cr2 c) (r15 c) (r14 c) (r13 c) (r12 c) x (r10 c) (r9 c) (r8 c) (rbp c) (rdi c) (rsi c) (rdx c) (rcx c) (rbx c) (rax c).
Definition set_r10 (x : Z) (c : GuestCpuState) : GuestCpuState :=
  mkCpu (cr2 c) (r15 c) (r14 c) (r13 c) (r12 c) (r11 c) x (r9 c) (r8 c) (rbp c) (rdi c) (rsi c) (rdx c) (rcx c) (rbx c) (rax c).
Definition set_r9 (x : Z) (c : GuestCpuState) : GuestCpuState :=
  mkCpu (cr2 c) (r15 c) (r14 c) (r13 c) (r12 c) (r11 c) (r10 c) x (r8 c) (rbp c) (rdi c) (rsi c) (rdx c) (rcx c) (rbx c) (rax c).
Definition set_r8 (x : Z) (c : GuestCpuState) : GuestCpuState :=
  mkCpu (cr2 c) (r15 c) (r14 c) (r13 c) (r12 c) (r11 c) (r10 c) (r9 c) x (rbp c) (rdi c) (rsi c) (rdx c) (rcx c) (rbx c) (rax c).
Definition set_rbp (x : Z) (c : GuestCpuState) : GuestCpuState :=
  mkCpu (cr2 c) (r15 c) (r14 c) (r13 c) (r12 c) (r11 c) (r10 c) (r9 c) (r8 c) x (rdi c) (rsi c) (rdx c) (rcx c) (rbx c) (rax c).
Definition set_rdi (x : Z) (c : GuestCpuState) : GuestCpuState :=
  mkCpu (cr2 c) (r15 c) (r14 c) (r13 c) (r12 c) (r11 c) (r10 c) (r9 c) (r8 c) (rbp c) x (rsi c) (rdx c) (rcx c) (rbx c) (rax c).
Definition set_rsi (x : Z) (c : GuestCpuState) : GuestCpuState :=
  mkCpu (cr2 c) (r15 c) (r14 c) (r13 c) (r12 c) (r11 c) (r10 c) (r9 c) (r8 c) (rbp c) (rdi c) x (rdx c) (rcx c) (rbx c) (rax c).
Definition set_rdx (x : Z) (c : GuestCpuState) : GuestCpuState :=
  mkCpu (cr2 c) (r15 c) (r14 c) (r13 c) (r12 c) (r11 c) (r10 c) (r9 c) (r8 c) (rbp c) (rdi c) (rsi c) x (rcx c) (rbx c) (rax c).
Definition set_rcx (x : Z) (c : GuestCpuState) : GuestCpuState :=
  mkCpu (cr2 c) (r15 c) (r14 c) (r13 c) (r12 c) (r11 c) (r10 c) (r9 c) (r8 c) (rbp c) (rdi c) (rsi c) (rdx c) x (rbx c) (rax c).
Definition set_rbx (x : Z) (c : GuestCpuState) : GuestCpuState :=
  mkCpu (cr2 c) (r15 c) (r14 c) (r13 c) (r12 c) (r11 c) (r10 c) (r9 c) (r8 c) (rbp c) (rdi c) (rsi c) (rdx c) (rcx c) x (rax c).
Definition set_rax (x : Z) (c : GuestCpuState) : GuestCpuState :=
  mkCpu (cr2 c) (r15 c) (r14 c) (r13 c) (r12 c) (r11 c) (r10 c) (r9 c) (r8 c) (rbp c) (rdi c) (rsi c) (rdx c) (rcx c) (rbx c) x.

(** ** Extended information *)

Inductive ApicAccessKind :=
| LinearRead | LinearWrite | LinearFetch | LinearEventDelivery
| PhysicalAccessDuringEvent | PhysicalAccessDuringFetch.

#[export] Instance ApicAccessKind_eq_dec : EqDecision ApicAccessKind.
Proof. solve_decision. Defined.

#[export] Instance ApicAccessKind_enum : NumEnum ApicAccessKind := {
  ne_all := [LinearRead; LinearWrite; LinearFetch; LinearEventDelivery;
    PhysicalAccessDuringEvent; PhysicalAccessDuringFetch];
  ne_code k := match k with
    | LinearRead => 0 | LinearWrite => 1 | LinearFetch => 2 | LinearEventDelivery => 3
    | PhysicalAccessDuringEvent => 10 | PhysicalAccessDuringFetch => 15 end }.

#[export] Instance ApicAccessKind_enum_ok : NumEnumOk ApicAccessKind.
Proof. num_enum_ok. Qed.

Record ApicAccessInformation := mkApicAccess {
  aa_offset : option Z;
  aa_kind : ApicAccessKind;
  aa_async_instr_exec : bool
}.

Definition apic_access_from_vmcs (v : VmcsState) : res ApicAccessInformation :=
  let qualifier := vmcs_peek v ExitQualification in
  kind ← try_from_primitive_err (Z.land (Z.shiftr qualifier 12) 15);
  let offset :=
    if bool_decide (kind = LinearRead) || bool_decide (kind = LinearWrite)
       || bool_decide (kind = LinearFetch) || bool_decide (kind = LinearEventDelivery)
    then Some (Z.land qualifier 0xfff) else None in
  Ok (mkApicAccess offset kind (bit qualifier 16)).

Record IoInstructionInformation := mkIoInstr {
  io_size : Z;
  io_input : bool;
  io_string : bool;
  io_rep : bool;
  io_immediate : bool;
  io_port : Z
}.

Definition io_instruction_from_vmcs (v : VmcsState) : res IoInstructionInformation :=
  let qualifier := vmcs_peek v ExitQualification in
  Ok (mkIoInstr (u8 (Z.land qualifier 7 + 1)) (bit qualifier 3) (bit qualifier 4)
        (bit qualifier 5) (bit qualifier 6) (u16 (Z.shiftr (Z.land qualifier 0xffff0000) 16))).

Inductive InterruptType :=
| IT_ExternalInterrupt | IT_NonMaskableInterrupt | IT_HardwareException | IT_SoftwareException.

#[export] Instance InterruptType_eq_dec : EqDecision InterruptType.
Proof. solve_decision. Defined.

#[export] Instance InterruptType_enum : NumEnum InterruptType := {
  ne_all := [IT_ExternalInterrupt; IT_NonMaskableInterrupt; IT_HardwareException; IT_SoftwareException];
  ne_code t := match t with
    | IT_ExternalInterrupt => 0 | IT_NonMaskableInterrupt => 1
    | IT_HardwareException => 3 | IT_SoftwareException => 6 end }.

#[export] Instance InterruptType_enum_ok : NumEnumOk InterruptType.
Proof. num_enum_ok. Qed.

Record VectoredEventInformation := mkVectored {
  ve_vector : Z;
  ve_interrupt_type : InterruptType;
  ve_error_code : option Z;
  ve_nmi_unblocking_iret : bool;
  ve_valid : bool
}.

Definition vectored_event_from_vmcs (v : VmcsState) : res VectoredEventInformation :=
  let inter_info := vmcs_peek v VmExitIntrInfo in
  let inter_error := vmcs_peek v VmExitIntrErrorCode in
  let error_code := if bit inter_info 11 then Some (u32 inter_error) else None in
  itype ← try_from_primitive_err (Z.shiftr (Z.land inter_info 0x700) 8);
  Ok (mkVectored (Z.land inter_info 0xff) itype error_code (bit inter_info 12) (bit inter_info 31)).

Record EptInformation := mkEpt {
  ept_read : bool;
  ept_write : bool;
  ept_exec : bool;
  ept_read_allowed : bool;
  ept_write_allowed : bool;
  ept_priv_exec_allowed : bool;
  ept_user_exec_allowed : bool;
  ept_guest_linear_addr : option Z;
  ept_after_page_translation : bool;
  ept_user_mode_address : bool;
  ept_read_write_page : bool;
  ept_nx_page : bool;
  ept_nmi_unblocking_iret : bool;
  ept_guest_phys_addr : Z
}.

Definition ept_information_from_vmcs (v : VmcsState) : res EptInformation :=
  let qualifier := vmcs_peek v ExitQualification in
  let guest_linear_addr :=
    if bit qualifier 7 then Some (vmcs_peek v GuestLinearAddress) else None in
  let guest_phys_addr := vmcs_peek v GuestPhysicalAddress in
  Ok (mkEpt (bit qualifier 0) (bit qualifier 1) (bit qualifier 2) (bit qualifier 3)
        (bit qualifier 4) (bit qualifier 5) (bit qualifier 6) guest_linear_addr
        (bit qualifier 8) (bit qualifier 9) (bit qualifier 10) (bit qualifier 11)
        (bit qualifier 12) guest_phys_addr).

Inductive CrAccessType := MovToCr | MovFromCr | Clts | Lmsw.

#[export] Instance CrAccessType_eq_dec : EqDecision CrAccessType.
Proof. solve_decision. Defined.

#[export] Instance CrAccessType_enum : NumEnum CrAccessType := {
  ne_all := [MovToCr; MovFromCr; Clts; Lmsw];
  ne_code t := match t with MovToCr => 0 | MovFromCr => 1 | Clts => 2 | Lmsw => 3 end }.

#[export] Instance CrAccessType_enum_ok : NumEnumOk CrAccessType.
Proof. num_enum_ok. Qed.

Inductive MovCrRegister :=
| Rax | Rcx | Rdx | Rbx | Rsp | Rbp | Rsi | Rdi | R8 | R9 | R10 | R11 | R12 | R13 | R14 | R15.

#[export] Instance MovCrRegister_eq_dec : EqDecision MovCrRegister.
Proof. solve_decision. Defined.

#[export] Instance MovCrRegister_enum : NumEnum MovCrRegister := {
  ne_all := [Rax; Rcx; Rdx; Rbx; Rsp; Rbp; Rsi; Rdi; R8; R9; R10; R11; R12; R13; R14; R15];
  ne_code r := match r with
    | Rax => 0 | Rcx => 1 | Rdx => 2 | Rbx => 3 | Rsp => 4 | Rbp => 5 | Rsi => 6 | Rdi => 7
    | R8 => 8 | R9 => 9 | R10 => 10 | R11 => 11 | R12 => 12 | R13 => 13 | R14 => 14 | R15 => 15
    end }.

#[export] Instance MovCrRegister_enum_ok : NumEnumOk MovCrRegister.
Proof. num_enum_ok. Qed.

(** The registers live in the saved CPU state, the stack pointer in the VMCS. *)
Definition mov_cr_read (r : MovCrRegister) (v : VmcsState) (cpu : GuestCpuState) : res Z :=
  Ok match r with
  | Rax => rax cpu
  | Rcx => rcx cpu
  | Rdx => rdx cpu
  | Rbx => rbx cpu
  | Rsp => vmcs_peek v GuestRsp
  | Rbp => rbp cpu
  | Rsi => rsi cpu
  | Rdi => rdi cpu
  | R8 => r8 cpu
  | R9 => r9 cpu
  | R10 => r10 cpu
  | R11 => r11 cpu
  | R12 => r12 cpu
  | R13 => r13 cpu
  | R14 => r14 cpu
  | R15 => r15 cpu
  end.

Definition mov_cr_write `{VmxCpu} (r : MovCrRegister) (value : Z) : st (VmcsState * GuestCpuState) unit :=
  fun '(v, cpu) =>
  match r with
  | Rax => ((v, set_rax value cpu), Ok tt)
  | Rcx => ((v, set_rcx value cpu), Ok tt)
  | Rdx => ((v, set_rdx value cpu), Ok tt)
  | Rbx => ((v, set_rbx value cpu), Ok tt)
  | Rbp => ((v, set_rbp value cpu), Ok tt)
  | Rsi => ((v, set_rsi value cpu), Ok tt)
  | Rdi => ((v, set_rdi value cpu), Ok tt)
  | R8 => ((v, set_r8 value cpu), Ok tt)
  | R9 => ((v, set_r9 value cpu), Ok tt)
  | R10 => ((v, set_r10 value cpu), Ok tt)
  | R11 => ((v, set_r11 value cpu), Ok tt)
  | R12 => ((v, set_r12 value cpu), Ok tt)
  | R13 => ((v, set_r13 value cpu), Ok tt)
  | R14 => ((v, set_r14 value cpu), Ok tt)
  | R15 => ((v, set_r15 value cpu), Ok tt)
  | Rsp => let '(v', r) := vmcs_write GuestRsp value v in ((v', cpu), r)
  end.

Record CrInformation := mkCr {
  cr_num : Z;
  cr_access_type : CrAccessType;
  cr_lmsw_memory_operand : bool;
  cr_register : option MovCrRegister;
  cr_lmsw_data : option Z
}.

Definition cr_information_from_vmcs (v : VmcsState) : res CrInformation :=
  let qualifier := vmcs_peek v ExitQualification in
  access_type ← try_from_primitive_err (Z.shiftr (Z.land qualifier 48) 4);
  let reg := Z.shiftr (Z.land qualifier 0xf00) 8 in
  let num := Z.land qualifier 15 in
  '(num, reg, source) ← match access_type with
    | MovToCr | MovFromCr => reg ← try_from_primitive_err reg; Ok (num, Some reg, None)
    | _ => Ok (0, None, Some (Z.shiftr (Z.land qualifier 0xffff0000) 16))
    end;
  Ok (mkCr num access_type (bit qualifier 6) reg source).

(** ** Exit reasons *)

Module ExitInformation.
Inductive t :=
| NonMaskableInterrupt (i : VectoredEventInformation)
| ExternalInterrupt (i : VectoredEventInformation)
| TripleFault
| InitSignal
| StartUpIpi
| IoSystemManagementInterrupt
| OtherSystemManagementInterrupt
| InterruptWindow
| NonMaskableInterruptWindow
| TaskSwitch
| CpuId
| GetSec
| Hlt
| Invd
| InvlPg
| Rdpmc
| Rdtsc
| Rsm
| VmCall
| VmClear
| VmLaunch
| VmPtrLd
| VmPtrRst
| VmRead
| VmResume
| VmWrite
| VmxOff
| VmxOn
| CrAccess (i : CrInformation)
| MovDr
| IoInstruction (i : IoInstructionInformation)
| RdMsr
| WrMsr
| VmEntryInvalidGuestState
| VmEntryMsrLoad
| Mwait
| MonitorTrapFlag
| Monitor
| Pause
| VmEntryMachineCheck
| TprBelowThreshold
| ApicAccess (i : ApicAccessInformation)
| VirtualEio
| AccessGdtridtr
| AccessLdtrTr
| EptViolation (i : EptInformation)
| EptMisconfigure
| InvEpt
| Rdtscp
| VmxPreemptionTimerExpired
| Invvpid
| Wbinvd
| Xsetbv
| ApicWrite
| RdRand
| Invpcid
| VmFunc
| Encls
| RdSeed
| PageModificationLogFull
| Xsaves
| Xrstors.
End ExitInformation.

Definition ExitReasonFlags_all : Z :=
  foldr Z.lor 0 [Z.shiftl 1 27; Z.shiftl 1 28; Z.shiftl 1 29; Z.shiftl 1 31].

Record ExitReason := mkExitReason { flags : Z; info : ExitInformation.t }.

Definition exit_information (v : VmcsState) (basic_reason : Z) : res ExitInformation.t :=
  match basic_reason with
  | 0 => i ← vectored_event_from_vmcs v; Ok (ExitInformation.NonMaskableInterrupt i)
  | 1 => i ← vectored_event_from_vmcs v; Ok (ExitInformation.ExternalInterrupt i)
  | 2 => Ok ExitInformation.TripleFault
  | 3 => Ok ExitInformation.InitSignal
  | 4 => Ok ExitInformation.StartUpIpi
  | 5 => Ok ExitInformation.IoSystemManagementInterrupt
  | 6 => Ok ExitInformation.OtherSystemManagementInterrupt
  | 7 => Ok ExitInformation.InterruptWindow
  | 8 => Ok ExitInformation.NonMaskableInterruptWindow
  | 9 => Ok ExitInformation.TaskSwitch
  | 10 => Ok ExitInformation.CpuId
  | 11 => Ok ExitInformation.GetSec
  | 12 => Ok ExitInformation.Hlt
  | 13 => Ok ExitInformation.Invd
  | 14 => Ok ExitInformation.InvlPg
  | 15 => Ok ExitInformation.Rdpmc
  | 16 => Ok ExitInformation.Rdtsc
  | 17 => Ok ExitInformation.Rsm
  | 18 => Ok ExitInformation.VmCall
  | 19 => Ok ExitInformation.VmClear
  | 20 => Ok ExitInformation.VmLaunch
  | 21 => Ok ExitInformation.VmPtrLd
  | 22 => Ok ExitInformation.VmPtrRst
  | 23 => Ok ExitInformation.VmRead
  | 24 => Ok ExitInformation.VmResume
  | 25 => Ok ExitInformation.VmWrite
  | 26 => Ok ExitInformation.VmxOff
  | 27 => Ok ExitInformation.VmxOn
  | 28 => i ← cr_information_from_vmcs v; Ok (ExitInformation.CrAccess i)
  | 29 => Ok ExitInformation.MovDr
  | 30 => i ← io_instruction_from_vmcs v; Ok (ExitInformation.IoInstruction i)
  | 31 => Ok ExitInformation.RdMsr
  | 32 => Ok ExitInformation.WrMsr
  | 33 => Ok ExitInformation.VmEntryInvalidGuestState
  | 34 => Ok ExitInformation.VmEntryMsrLoad
  | 36 => Ok ExitInformation.Mwait
  | 37 => Ok ExitInformation.MonitorTrapFlag
  | 39 => Ok ExitInformation.Monitor
  | 40 => Ok ExitInformation.Pause
  | 41 => Ok ExitInformation.VmEntryMachineCheck
  | 43 => Ok ExitInformation.TprBelowThreshold
  | 44 => i ← apic_access_from_vmcs v; Ok (ExitInformation.ApicAccess i)
  | 45 => Ok ExitInformation.VirtualEio
  | 46 => Ok ExitInformation.AccessGdtridtr
  | 47 => Ok ExitInformation.AccessLdtrTr
  | 48 => i ← ept_information_from_vmcs v; Ok (ExitInformation.EptViolation i)
  | 49 => Ok ExitInformation.EptMisconfigure
  | 50 => Ok ExitInformation.InvEpt
  | 51 => Ok ExitInformation.Rdtscp
  | 52 => Ok ExitInformation.VmxPreemptionTimerExpired
  | 53 => Ok ExitInformation.Invvpid
  | 54 => Ok ExitInformation.Wbinvd
  | 55 => Ok ExitInformation.Xsetbv
  | 56 => Ok ExitInformation.ApicWrite
  | 57 => Ok ExitInformation.RdRand
  | 58 => Ok ExitInformation.Invpcid
  | 59 => Ok ExitInformation.VmFunc
  | 60 => Ok ExitInformation.Encls
  | 61 => Ok ExitInformation.RdSeed
  | 62 => Ok ExitInformation.PageModificationLogFull
  | 63 => Ok ExitInformation.Xsaves
  | 64 => Ok ExitInformation.Xrstors
  | reason => Err (InvalidValue (Msg "Unexpected basic vmexit reason: {}" [reason]))
  end.

(** [ExitReason::from_active_vmcs] *)
Definition exit_reason_from_vmcs (v : VmcsState) : res ExitReason :=
  let reason := vmcs_peek v VmExitReason in
  let basic_reason := Z.land reason 0x7fff in
  info ← exit_information v basic_reason;
  Ok (mkExitReason (Z.land reason ExitReasonFlags_all) info).

(** The basic reason numbers of the processor's exit reason table. *)
Definition reason_number (i : ExitInformation.t) : Z :=
  match i with
  | ExitInformation.NonMaskableInterrupt _ => 0 | ExitInformation.ExternalInterrupt _ => 1
  | ExitInformation.TripleFault => 2 | ExitInformation.InitSignal => 3
  | ExitInformation.StartUpIpi => 4 | ExitInformation.IoSystemManagementInterrupt => 5
  | ExitInformation.OtherSystemManagementInterrupt => 6 | ExitInformation.InterruptWindow => 7
  | ExitInformation.NonMaskableInterruptWindow => 8 | ExitInformation.TaskSwitch => 9
  | ExitInformation.CpuId => 10 | ExitInformation.GetSec => 11 | ExitInformation.Hlt => 12
  | ExitInformation.Invd => 13 | ExitInformation.InvlPg => 14 | ExitInformation.Rdpmc => 15
  | ExitInformation.Rdtsc => 16 | ExitInformation.Rsm => 17 | ExitInformation.VmCall => 18
  | ExitInformation.VmClear => 19 | ExitInformation.VmLaunch => 20
  | ExitInformation.VmPtrLd => 21 | ExitInformation.VmPtrRst => 22 | ExitInformation.VmRead => 23
  | ExitInformation.VmResume => 24 | ExitInformation.VmWrite => 25 | ExitInformation.VmxOff => 26
  | ExitInformation.VmxOn => 27 | ExitInformation.CrAccess _ => 28 | ExitInformation.MovDr => 29
  | ExitInformation.IoInstruction _ => 30 | ExitInformation.RdMsr => 31
  | ExitInformation.WrMsr => 32 | ExitInformation.VmEntryInvalidGuestState => 33
  | ExitInformation.VmEntryMsrLoad => 34 | ExitInformation.Mwait => 36
  | ExitInformation.MonitorTrapFlag => 37 | ExitInformation.Monitor => 39
  | ExitInformation.Pause => 40 | ExitInformation.VmEntryMachineCheck => 41
  | ExitInformation.TprBelowThreshold => 43 | ExitInformation.ApicAccess _ => 44
  | ExitInformation.VirtualEio => 45 | ExitInformation.AccessGdtridtr => 46
  | ExitInformation.AccessLdtrTr => 47 | ExitInformation.EptViolation _ => 48
  | ExitInformation.EptMisconfigure => 49 | ExitInformation.InvEpt => 50
  | ExitInformation.Rdtscp => 51 | ExitInformation.VmxPreemptionTimerExpired => 52
  | ExitInformation.Invvpid => 53 | ExitInformation.Wbinvd => 54 | ExitInformation.Xsetbv => 55
  | ExitInformation.ApicWrite => 56 | ExitInformation.RdRand => 57
  | ExitInformation.Invpcid => 58 | ExitInformation.VmFunc => 59 | ExitInformation.Encls => 60
  | ExitInformation.RdSeed => 61 | ExitInformation.PageModificationLogFull => 62
  | ExitInformation.Xsaves => 63 | ExitInformation.Xrstors => 64
  end.

(** Decoding is inverse to the exit reason table. *)
Lemma exit_information_number v n :
  match exit_information v n with
  | Ok i => reason_number i = n
  | Err e => e = InvalidValue (Msg "Unexpected basic vmexit reason: {}" [n]) \/ n ∈ [0; 1; 28; 44]
  | Panic _ => False
  end.
Proof.
  assert (forall (A : Type) (m : res A) (f : A -> ExitInformation.t) k,
    (forall w, m <> Panic w) -> (forall a, reason_number (f a) = k) -> k ∈ [0; 1; 28; 44] ->
    match (i ← m; Ok (f i)) with
    | Ok i => reason_number i = k
    | Err e => e = InvalidValue (Msg "Unexpected basic vmexit reason: {}" [k]) \/ k ∈ [0; 1; 28; 44]
    | Panic _ => False
    end) as Hb.
  { intros A m f k Hp Hf Hk. destruct m as [a|e|w]; simpl; [done|by right|by eapply Hp]. }
  assert (forall w, vectored_event_from_vmcs v <> Panic w) as Hv.
  { intros w. unfold vectored_event_from_vmcs, try_from_primitive_err.
    destruct (try_from_primitive _); simpl; congruence. }
  assert (forall w, cr_information_from_vmcs v <> Panic w) as Hc.
  { intros w. unfold cr_information_from_vmcs, try_from_primitive_err.
    destruct (try_from_primitive (E := CrAccessType) _) as [t|]; simpl; [|congruence].
    destruct t; simpl; try congruence; destruct (try_from_primitive _); simpl; congruence. }
  assert (forall w, apic_access_from_vmcs v <> Panic w) as Ha.
  { intros w. unfold apic_access_from_vmcs, try_from_primitive_err.
    destruct (try_from_primitive _); simpl; congruence. }
  destruct n as [|p|p].
  - apply Hb; [done|done|set_solver].
  - do 7 (try destruct p as [p|p|]); cbn [exit_information];
      first [reflexivity | by left | apply Hb; [done|done|set_solver]].
  - by left.
Qed.

Lemma listed_reason v n i :
  exit_information v n = Err (InvalidValue (Msg "Unexpected basic vmexit reason: {}" [n])) ->
  reason_number i <> n.
Proof.
  intros Hn <-. revert Hn. destruct i; cbn [reason_number exit_information]; try done;
    unfold vectored_event_from_vmcs, cr_information_from_vmcs, apic_access_from_vmcs, try_from_primitive_err;
    repeat (match goal with |- context [@try_from_primitive ?E ?H ?x] =>
      destruct (@try_from_primitive E H x) as [[]|] end; simpl; try congruence).
Qed.

(** The exit reason decoder agrees with the table of basic exit reasons: what
    it returns has the number in bits 14:0 of the reason field; a number it
    reports as unexpected belongs to no exit information; only the four reasons
    that carry a checked qualification can fail otherwise; it never panics. *)
Lemma exit_reason_decode v :
  let n := vmcs_peek v VmExitReason mod 2 ^ 15 in
  match exit_reason_from_vmcs v with
  | Ok r => reason_number (info r) = n /\
      flags r = Z.land (vmcs_peek v VmExitReason) ExitReasonFlags_all
  | Err e =>
      (e = InvalidValue (Msg "Unexpected basic vmexit reason: {}" [n]) /\
       forall i, reason_number i <> n) \/ n ∈ [0; 1; 28; 44]
  | Panic _ => False
  end.
Proof.
  intros n. unfold exit_reason_from_vmcs.
  rewrite (land_mask 0x7fff 15) by (reflexivity || lia). fold n.
  pose proof (exit_information_number v n) as Hi.
  destruct (exit_information v n) as [i|e|w] eqn:E; cbn [mbind res_bind info flags]; [done| |done].
  destruct Hi as [->|Hi]; [left|by right]. split; [done|]. intros i. by apply (listed_reason v).
Qed.

(** ** Qualifications *)

(** The exit qualification of an I/O instruction, with arbitrary reserved bits
    [lo] (bits 15:7) and [hi] (above bit 31). *)
Definition io_qualification (i : IoInstructionInformation) (lo hi : Z) : Z :=
  (io_size i - 1) + 2 ^ 3 * b2z (io_input i) + 2 ^ 4 * b2z (io_string i)
  + 2 ^ 5 * b2z (io_rep i) + 2 ^ 6 * b2z (io_immediate i) + 2 ^ 7 * lo
  + 2 ^ 16 * io_port i + 2 ^ 32 * hi.

Lemma b2z_range b : 0 <= b2z b <= 1.
Proof. destruct b; simpl; lia. Qed.

Lemma land_shiftr_16 x : Z.shiftr (Z.land x 0xffff0000) 16 = Z.land (Z.shiftr x 16) 0xffff.
Proof. by rewrite Z.shiftr_land. Qed.

(** Every I/O instruction (width 1 to 8, any port, any combination of the
    direction, string, repeat and immediate flags) is decoded from its exit
    qualification, whatever the reserved bits hold. *)
Lemma io_qualification_decode v i lo hi :
  1 <= io_size i <= 8 -> is_u 16 (io_port i) -> 0 <= lo < 2 ^ 9 ->
  vmcs_peek v ExitQualification = io_qualification i lo hi ->
  io_instruction_from_vmcs v = Ok i.
Proof.
  intros Hs Hp Hl Hq. unfold io_instruction_from_vmcs. rewrite Hq. unfold is_u in Hp.
  destruct i as [sz inp sg rp imm port]; cbn [io_size io_input io_string io_rep io_immediate io_port] in *.
  pose proof (b2z_range inp). pose proof (b2z_range sg).
  pose proof (b2z_range rp). pose proof (b2z_range imm).
  set (q := io_qualification _ lo hi). rewrite land_shiftr_16.
  pose (h16 := port + 2 ^ 16 * hi). pose (h7 := lo + 2 ^ 9 * h16).
  pose (h6 := b2z imm + 2 * h7). pose (h5 := b2z rp + 2 * h6). pose (h4 := b2z sg + 2 * h5).
  pose (l4 := sz - 1 + 2 ^ 3 * b2z inp). pose (l5 := l4 + 2 ^ 4 * b2z sg).
  pose (l6 := l5 + 2 ^ 5 * b2z rp). pose (l16 := l6 + 2 ^ 6 * b2z imm + 2 ^ 7 * lo).
  replace (Z.land q 7) with (sz - 1)
    by (symmetry; rewrite <- (Z.shiftr_0_r q); apply (field_at 0 3 _ 0 _ (b2z inp + 2 * h4)); unfold q, io_qualification; cbn -[Z.pow Z.mul Z.add]; reflexivity || lia).
  rewrite (bit_at 3 (sz - 1) inp h4) by (unfold q, io_qualification; cbn -[Z.pow Z.mul Z.add]; lia).
  rewrite (bit_at 4 l4 sg h5) by (unfold q, io_qualification; cbn -[Z.pow Z.mul Z.add]; lia).
  rewrite (bit_at 5 l5 rp h6) by (unfold q, io_qualification; cbn -[Z.pow Z.mul Z.add]; lia).
  rewrite (bit_at 6 l6 imm h7) by (unfold q, io_qualification; cbn -[Z.pow Z.mul Z.add]; lia).
  rewrite (field_at 16 16 _ l16 port hi) by (unfold q, io_qualification; cbn -[Z.pow Z.mul Z.add]; reflexivity || lia).
  unfold u8, u16. rewrite !wrap_small by (unfold is_u; lia). do 2 f_equal. lia.
Qed.

Lemma io_qualification_decode_witness :
  io_instruction_from_vmcs {[ field_code ExitQualification := 0x3f8_0028 + 2 ^ 32 * 5 ]} =
  Ok (mkIoInstr 1 true false true false 0x3f8).
Proof.
  apply (io_qualification_decode _ (mkIoInstr 1 true false true false 0x3f8) 0 5);
    [simpl; lia|unfold is_u; simpl; lia|lia|reflexivity].
Defined.

(** A register named by a control register instruction reads back the value
    written to it, every other one is unchanged, also across the saved CPU state
    and the VMCS (where the stack pointer lives). *)
Lemma mov_cr_write_read `{VmxCpu} r r' value v cpu :
  is_u 64 value -> writable GuestRsp value ->
  let '(s, res) := mov_cr_write r value (v, cpu) in
  res = Ok tt /\
  mov_cr_read r' s.1 s.2 = if decide (r' = r) then Ok value else mov_cr_read r' v cpu.
Proof.
  intros Hv Hw. unfold mov_cr_write.
  destruct r; cbv beta iota; try (split; [done|]; destruct r';
    first [rewrite decide_True by done | rewrite decide_False by done]; reflexivity).
  rewrite vmcs_write_ok by done. cbv beta iota. split; [done|]. cbn [fst snd].
  destruct r'; try (rewrite decide_False by done; reflexivity).
  rewrite decide_True by done. unfold mov_cr_read. rewrite peek_store_same.
  change (field_width GuestRsp) with 64. by rewrite wrap_small.
Qed.

Lemma mov_cr_write_read_witness :
  let '(s, r) := @mov_cr_write lenient_cpu Rsp 0xdeadbeef (∅, cpu_zero) in
  r = Ok tt /\ mov_cr_read Rsp s.1 s.2 = Ok 0xdeadbeef.
Proof.
  pose proof (@mov_cr_write_read lenient_cpu Rsp Rsp 0xdeadbeef ∅ cpu_zero) as Hw.
  destruct (mov_cr_write _ _ _) as [s r]. apply Hw; [unfold is_u; lia|split; reflexivity].
Defined.
