(* ===== verification/Clock.v ===== *)
(** * Time arithmetic and the per-core hardware ([mythril/src/time.rs],
    [mythril/src/tsc.rs])

    [Instant]s are readings of the time source, [Duration]s nanoseconds.  The
    time source is a parameter: the sequence of its readings and its frequency.
    [CoreHw] is the hardware state a core's code touches: how many readings it
    has taken and the MSR writes it has made, oldest first. *)

From S2P Require Import Prelude Error.

(** [TimeSource] *)
Class TimeSource := {
  ts_reading : nat -> Z;
  ts_frequency : Z
}.

Class TimeSourceLaws `{TimeSource} := {
  ts_reading_u64 : forall n, is_u 64 (ts_reading n);
  ts_monotone : forall n m, (n <= m)%nat -> ts_reading n <= ts_reading m;
  ts_frequency_pos : 0 < ts_frequency < 2 ^ 64
}.

Record CoreHw := mkHw { hw_pos : nat; msr_writes : list (Z * Z) }.

Section clock.
Context `{TimeSource}.

Definition now : st CoreHw Z := fun hw =>
  (mkHw (S (hw_pos hw)) (msr_writes hw), Ok (ts_reading (hw_pos hw))).

Definition wrmsr (m v : Z) : st CoreHw unit := fun hw =>
  (mkHw (hw_pos hw) (msr_writes hw ++ [(m, v)]), Ok tt).

(** Durations are at most [u64::MAX] seconds and a fraction. *)
Definition is_duration (d : Z) : Prop := 0 <= d < 2 ^ 64 * 1000000000.

(** Ticks of a duration; the product is a [u128]. *)
Definition ticks_of (d : Z) : Z := u64 (wrap 128 (ts_frequency * d) / 1000000000).

(** [Instant + Duration], [Instant - Duration], [Instant - Instant]; the difference divides by
    the frequency, which panics in the code when it is 0: time sources have a positive one
    ([ts_frequency_pos]). *)
Definition instant_add (i d : Z) : Z := u64 (i + ticks_of d).
Definition instant_sub (i d : Z) : Z := u64 (i - ticks_of d).
Definition instant_diff (i j : Z) : Z :=
  let ticks := u64 (Z.abs (i - j)) in
  u64 (wrap 128 (ticks * 1000000000) / ts_frequency).

(** [busy_wait]: polls the clock until it is past the deadline. *)
Fixpoint busy_wait_loop (fuel : nat) (deadline : Z) : st CoreHw unit :=
  match fuel with
  | O => panic "out of fuel"
  | S fuel => t ← now; if t <? deadline then busy_wait_loop fuel deadline else mret tt
  end.

Definition busy_wait (fuel : nat) (duration : Z) : st CoreHw unit :=
  start ← now;
  busy_wait_loop fuel (instant_add start duration).

(** [tsc::calibrate_tsc]: the frequency computed from the count of ticks in
    [CALIBRATE_COUNT] periods of the PIT. *)
Definition PIT_HZ : Z := 1193182.
Definition CALIBRATE_COUNT : Z := 0x800.
Definition tsc_frequency (tsc_start tsc_end : Z) : Z :=
  let diff := u64 (tsc_end - tsc_start) in
  let tsc_khz := u64 (diff * PIT_HZ) / (CALIBRATE_COUNT * 1000) in
  u64 (tsc_khz * 1000).

Context `{!TimeSourceLaws}.

Lemma ticks_of_small d :
  is_duration d -> ts_frequency * d / 1000000000 < 2 ^ 64 ->
  ticks_of d = ts_frequency * d / 1000000000.
Proof.
  intros Hd Ht. pose proof ts_frequency_pos as Hf. unfold ticks_of, is_duration in *.
  pose proof (Z.mul_succ_div_gt (ts_frequency * d) 1000000000) as Hm.
  assert (0 <= ts_frequency * d) as Hnn by nia.
  rewrite (wrap_small 128) by (unfold is_u; lia).
  unfold u64. apply wrap_small. split; [|done]. apply Z.div_pos; lia.
Qed.

(** Subtraction of instants rounds down and is symmetric. *)
Lemma instant_diff_spec i j :
  is_u 64 i -> is_u 64 j -> Z.abs (i - j) * 1000000000 / ts_frequency < 2 ^ 64 ->
  instant_diff i j = Z.abs (i - j) * 1000000000 / ts_frequency.
Proof.
  unfold is_u. intros Hi Hj Hs. pose proof ts_frequency_pos as Hf. unfold instant_diff.
  unfold u64 at 2. rewrite (wrap_small 64 (Z.abs (i - j))) by (unfold is_u; lia).
  rewrite wrap_small by (unfold is_u; nia). unfold u64. apply wrap_small.
  split; [|done]. apply Z.div_pos; nia.
Qed.

(** A reading no later than [started + ticks] is not past the duration. *)
Lemma not_past started d t :
  is_u 64 started -> is_duration d -> started <= t -> is_u 64 t ->
  ts_frequency * d / 1000000000 < 2 ^ 64 -> (t - started) * 1000000000 / ts_frequency < 2 ^ 64 ->
  t <= started + ticks_of d -> instant_diff t started <= d.
Proof.
  intros Hs Hd Hle Ht Hov Hov' Hb. pose proof ts_frequency_pos as Hf.
  rewrite ticks_of_small in Hb by done.
  rewrite instant_diff_spec by (rewrite ?Z.abs_eq by lia; done). rewrite Z.abs_eq by lia.
  apply Z.div_le_upper_bound; [lia|].
  pose proof (Z.mul_div_le (ts_frequency * d) 1000000000). nia.
Qed.

(** A reading at or past the exact deadline of one more nanosecond is. *)
Lemma is_past started d t :
  is_u 64 started -> is_duration d -> started <= t -> is_u 64 t ->
  (t - started) * 1000000000 / ts_frequency < 2 ^ 64 ->
  ts_frequency * (d + 1) <= (t - started) * 1000000000 -> d < instant_diff t started.
Proof.
  intros Hs Hd Hle Ht Hov Hb. pose proof ts_frequency_pos as Hf.
  rewrite instant_diff_spec by (rewrite ?Z.abs_eq by lia; done). rewrite Z.abs_eq by lia.
  assert (d + 1 <= (t - started) * 1000000000 / ts_frequency); [|lia].
  apply Z.div_le_lower_bound; lia.
Qed.

Lemma busy_wait_loop_spec fuel deadline hw k :
  (k < fuel)%nat -> deadline <= ts_reading (hw_pos hw + k) ->
  exists n, (n <= k)%nat /\
    busy_wait_loop fuel deadline hw = (mkHw (hw_pos hw + S n) (msr_writes hw), Ok tt) /\
    deadline <= ts_reading (hw_pos hw + n) /\
    forall j, (j < n)%nat -> ts_reading (hw_pos hw + j) < deadline.
Proof.
  revert hw k. induction fuel as [|fuel IH]; intros hw k Hk Hd; [lia|].
  cbn [busy_wait_loop]. rewrite st_bind_eq. unfold now.
  destruct (Z.ltb_spec (ts_reading (hw_pos hw)) deadline) as [Hlt|Hge].
  - destruct k as [|k]; [rewrite Nat.add_0_r in Hd; lia|].
    destruct (IH (mkHw (S (hw_pos hw)) (msr_writes hw)) k) as (n & Hn & Hb & Hr & Hall); [lia|simpl; by rewrite Nat.add_succ_r in Hd|].
    exists (S n). simpl in *. rewrite Hb. split; [lia|]. split; [do 2 f_equal; lia|].
    split; [by rewrite Nat.add_succ_r|]. intros [|j] Hj; [by rewrite Nat.add_0_r|].
    rewrite Nat.add_succ_r. apply Hall. lia.
  - exists 0%nat. split; [lia|]. rewrite Nat.add_0_r. split; [|split; [done|lia]].
    cbv [mret st_ret]. do 2 f_equal. lia.
Qed.

(** The deadline of a duration, when it is within the clock's range. *)
Lemma busy_wait_spec fuel d k hw :
  is_duration d -> ts_reading (hw_pos hw) + ts_frequency * d / 1000000000 < 2 ^ 64 ->
  ts_reading (hw_pos hw) + ts_frequency * d / 1000000000 <= ts_reading (S (hw_pos hw) + k) -> (k < fuel)%nat ->
  exists n, (n <= k)%nat /\
    busy_wait fuel d hw = (mkHw (S (hw_pos hw) + S n) (msr_writes hw), Ok tt) /\
    ts_frequency * d / 1000000000 <= ts_reading (S (hw_pos hw) + n) - ts_reading (hw_pos hw) /\
    forall j, (j < n)%nat -> ts_reading (S (hw_pos hw) + j) - ts_reading (hw_pos hw) < ts_frequency * d / 1000000000.
Proof.
  intros Hd Hov Hk Hf. pose proof (ts_reading_u64 (hw_pos hw)) as Hu. unfold is_u in Hu.
  assert (instant_add (ts_reading (hw_pos hw)) d = ts_reading (hw_pos hw) + ts_frequency * d / 1000000000) as He.
  { unfold instant_add. rewrite ticks_of_small by (done || lia). unfold u64. apply wrap_small. split; [|lia].
    pose proof ts_frequency_pos. unfold is_duration in Hd. pose proof (Z.div_pos (ts_frequency * d) 1000000000). nia. }
  destruct (busy_wait_loop_spec fuel _ (mkHw (S (hw_pos hw)) (msr_writes hw)) k Hf Hk) as (n & Hn & Hb & Hr & Hall).
  exists n. split; [done|]. split; [|split; [cbn [hw_pos] in Hr; lia|intros j Hj; specialize (Hall j Hj); cbn [hw_pos] in Hall; lia]].
  unfold busy_wait. rewrite st_bind_eq. unfold now. cbv beta iota. by rewrite He, Hb.
Qed.
End clock.

(** a busy wait ends, neither early nor late.  When the clock gets past the
    deadline by its [k]-th reading, the loop returns within [k + 1] polls; it stops at
    the first reading at or past the deadline, so the whole duration has elapsed. *)
Lemma busy_wait_terminates `{TimeSource} `{!TimeSourceLaws} fuel d k hw :
  is_duration d -> ts_reading (hw_pos hw) + ts_frequency * d / 1000000000 < 2 ^ 64 ->
  ts_reading (hw_pos hw) + ts_frequency * d / 1000000000 <= ts_reading (S (hw_pos hw) + k) -> (k < fuel)%nat ->
  exists n, (n <= k)%nat /\
    busy_wait fuel d hw = (mkHw (S (hw_pos hw) + S n) (msr_writes hw), Ok tt) /\
    ts_frequency * d / 1000000000 <= ts_reading (S (hw_pos hw) + n) - ts_reading (hw_pos hw) /\
    forall j, (j < n)%nat -> ts_reading (S (hw_pos hw) + j) - ts_reading (hw_pos hw) < ts_frequency * d / 1000000000.
Proof. apply busy_wait_spec. Qed.

(** A clock of three ticks a second, that stops at 1000. *)
Definition slow_clock : TimeSource :=
  {| ts_reading := fun n => Z.of_nat (Nat.min n 1000); ts_frequency := 3 |}.

#[export] Instance slow_clock_laws : @TimeSourceLaws slow_clock.
Proof. split; unfold is_u; cbn [ts_reading ts_frequency slow_clock]; intros; lia. Qed.

Lemma busy_wait_terminates_witness :
  exists n, (n <= 6)%nat /\ @busy_wait slow_clock 10 2000000000 (mkHw 3 []) = (mkHw (4 + S n) [], Ok tt).
Proof.
  destruct (@busy_wait_terminates slow_clock _ 10 2000000000 6 (mkHw 3 [])) as (n & Hn & Hb & _).
  - unfold is_duration. lia.
  - vm_compute. done.
  - vm_compute. discriminate.
  - lia.
  - exists n. split; [exact Hn | exact Hb].
Defined.
