(* ===== verification/Apic.v ===== *)
(** * The physical local APIC ([mythril/src/apic.rs])

    The x2APIC is programmed through MSRs; every operation is the MSR writes it
    makes.  The MSR numbers are the architectural ones. *)

From S2P Require Import Prelude Error Clock.

Definition IA32_APIC_BASE_MASK : Z := 0xfffff000.
Definition IA32_APIC_BASE_EN : Z := Z.shiftl 1 11.
Definition IA32_APIC_BASE_EXD : Z := Z.shiftl 1 10.
Definition IA32_APIC_BASE_BSP : Z := Z.shiftl 1 8.

Definition IA32_APIC_BASE : Z := 0x1b.
Definition IA32_X2APIC_EOI : Z := 0x80b.
Definition IA32_X2APIC_SIVR : Z := 0x80f.
Definition IA32_X2APIC_ESR : Z := 0x828.
Definition IA32_X2APIC_ICR : Z := 0x830.
Definition IA32_X2APIC_LVT_TIMER : Z := 0x832.
Definition IA32_X2APIC_INIT_COUNT : Z := 0x838.
Definition IA32_X2APIC_DIV_CONF : Z := 0x83e.
Definition IA32_X2APIC_SELF_IPI : Z := 0x83f.

Inductive DstShorthand := NoShorthand | MySelf | AllIncludingSelf | AllExcludingSelf.
Inductive Level := DeAssert | Assert.
Inductive TriggerMode := Edge | LevelTrigger.
Inductive DstMode := Physical | Logical.
Inductive DeliveryMode :=
| Fixed | Reserved0 | SMI | Reserved1 | NMI | Init | StartUp | Reserved2.

#[export] Instance DstShorthand_eq_dec : EqDecision DstShorthand.
Proof. solve_decision. Defined.
#[export] Instance DeliveryMode_eq_dec : EqDecision DeliveryMode.
Proof. solve_decision. Defined.

#[export] Instance DstShorthand_enum : NumEnum DstShorthand := {
  ne_all := [NoShorthand; MySelf; AllIncludingSelf; AllExcludingSelf];
  ne_code s := match s with
    | NoShorthand => 0 | MySelf => 1 | AllIncludingSelf => 2 | AllExcludingSelf => 3 end }.
#[export] Instance Level_enum : NumEnum Level :=
  { ne_all := [DeAssert; Assert]; ne_code l := match l with DeAssert => 0 | Assert => 1 end }.
#[export] Instance TriggerMode_enum : NumEnum TriggerMode :=
  { ne_all := [Edge; LevelTrigger]; ne_code l := match l with Edge => 0 | LevelTrigger => 1 end }.
#[export] Instance DstMode_enum : NumEnum DstMode :=
  { ne_all := [Physical; Logical]; ne_code l := match l with Physical => 0 | Logical => 1 end }.
#[export] Instance DeliveryMode_enum : NumEnum DeliveryMode := {
  ne_all := [Fixed; Reserved0; SMI; Reserved1; NMI; Init; StartUp; Reserved2];
  ne_code m := match m with
    | Fixed => 0 | Reserved0 => 1 | SMI => 2 | Reserved1 => 3 | NMI => 4 | Init => 5
    | StartUp => 6 | Reserved2 => 7 end }.

#[export] Instance DstShorthand_ok : NumEnumOk DstShorthand.
Proof. num_enum_ok. Qed.
#[export] Instance DstMode_ok : NumEnumOk DstMode.
Proof. num_enum_ok. Qed.
#[export] Instance DeliveryMode_ok : NumEnumOk DeliveryMode.
Proof. num_enum_ok. Qed.

Record LocalApic := mkLocalApic { base_reg : Z; ticks_per_ms : Z }.

(** [ApicId::is_bsp] *)
Definition apic_id_is_bsp (raw : Z) : bool := raw =? 0.

Definition bsp (a : LocalApic) : bool := has_bits (base_reg a) IA32_APIC_BASE_BSP.
Definition base (a : LocalApic) : Z := Z.land (base_reg a) IA32_APIC_BASE_MASK.

(** [logical_id], from the value of the APIC id register. *)
Definition logical_id (apicid : Z) : Z :=
  let id := u32 apicid in
  Z.lor (u32 (Z.shiftl (Z.land id 0xfffffff0) 16)) (Z.shiftl 1 (Z.land id 0xf)).

(** The interrupt command [send_ipi] assembles. *)
Definition icr_value (dst : Z) (dst_short : DstShorthand) (trigger : TriggerMode) (level : Level)
    (dst_mode : DstMode) (delivery_mode : DeliveryMode) (vector : Z) : Z :=
  let icr := u64 (Z.shiftl dst 32) in
  let icr := Z.lor icr (Z.shiftl (ne_code dst_short) 18) in
  let icr := Z.lor icr (Z.shiftl (ne_code trigger) 15) in
  let icr := Z.lor icr (Z.shiftl (ne_code level) 14) in
  let icr := Z.lor icr (Z.shiftl (ne_code dst_mode) 11) in
  let icr := Z.lor icr (Z.shiftl (ne_code delivery_mode) 8) in
  Z.lor icr vector.

Definition send_ipi (dst : Z) (dst_short : DstShorthand) (trigger : TriggerMode) (level : Level)
    (dst_mode : DstMode) (delivery_mode : DeliveryMode) (vector : Z) : st CoreHw unit :=
  wrmsr IA32_X2APIC_ICR (icr_value dst dst_short trigger level dst_mode delivery_mode vector).

Definition self_ipi (vector : Z) : st CoreHw unit := wrmsr IA32_X2APIC_SELF_IPI vector.
Definition clear_esr : st CoreHw unit := wrmsr IA32_X2APIC_ESR 0.
Definition eoi : st CoreHw unit := wrmsr IA32_X2APIC_EOI 0.

Section apic.
Context `{TimeSource}.

Definition schedule_interrupt (a : LocalApic) (when vector : Z) : st CoreHw unit :=
  t ← now;
  let micros := instant_diff when t / 1000 in
  let ticks := wrap 128 (micros * ticks_per_ms a) / 1000 in
  _ ← wrmsr IA32_X2APIC_DIV_CONF 0x3;
  _ ← wrmsr IA32_X2APIC_LVT_TIMER vector;
  wrmsr IA32_X2APIC_INIT_COUNT (u64 ticks).
End apic.

(** ** The interrupt command word *)

Lemma DstShorthand_range s : 0 <= ne_code (E := DstShorthand) s <= 3.
Proof. destruct s; simpl; lia. Qed.
Lemma Level_range s : 0 <= ne_code (E := Level) s <= 1.
Proof. destruct s; simpl; lia. Qed.
Lemma TriggerMode_range s : 0 <= ne_code (E := TriggerMode) s <= 1.
Proof. destruct s; simpl; lia. Qed.
Lemma DstMode_range s : 0 <= ne_code (E := DstMode) s <= 1.
Proof. destruct s; simpl; lia. Qed.
Lemma DeliveryMode_range s : 0 <= ne_code (E := DeliveryMode) s <= 7.
Proof. destruct s; simpl; lia. Qed.

Lemma icr_value_sum dst s t l m d v :
  is_u 32 dst -> is_u 8 v ->
  icr_value dst s t l m d v =
  v + 2 ^ 8 * ne_code d + 2 ^ 11 * ne_code m + 2 ^ 14 * ne_code l + 2 ^ 15 * ne_code t
  + 2 ^ 18 * ne_code s + 2 ^ 32 * dst.
Proof.
  intros Hd Hv. unfold is_u in *. unfold icr_value.
  pose proof (DstShorthand_range s). pose proof (Level_range l). pose proof (TriggerMode_range t).
  pose proof (DstMode_range m). pose proof (DeliveryMode_range d).
  unfold u64. rewrite wrap_small by (unfold is_u; rewrite Z.shiftl_mul_pow2 by lia; lia).
  rewrite (Z.lor_comm _ v), (Z.lor_comm _ (Z.shiftl (ne_code d) 8)), (Z.lor_comm _ (Z.shiftl (ne_code m) 11)),
    (Z.lor_comm _ (Z.shiftl (ne_code l) 14)), (Z.lor_comm _ (Z.shiftl (ne_code t) 15)),
    (Z.lor_comm _ (Z.shiftl (ne_code s) 18)).
  rewrite !Z.lor_assoc.
  rewrite (lor_shiftl_add 8) by (unfold is_u; lia).
  rewrite (lor_shiftl_add 11) by (unfold is_u; lia).
  rewrite (lor_shiftl_add 14) by (unfold is_u; lia).
  rewrite (lor_shiftl_add 15) by (unfold is_u; lia).
  rewrite (lor_shiftl_add 18) by (unfold is_u; lia).
  rewrite (lor_shiftl_add 32) by (unfold is_u; lia). lia.
Qed.

(** The interrupt command [send_ipi] writes carries every argument in its
    architectural field: vector 7:0, delivery mode 10:8, destination mode 11,
    level 14, trigger 15, shorthand 19:18, destination 63:32. *)
Lemma send_ipi_fields dst s t l m d v hw :
  is_u 32 dst -> is_u 8 v ->
  exists icr, send_ipi dst s t l m d v hw =
      (mkHw (hw_pos hw) (msr_writes hw ++ [(IA32_X2APIC_ICR, icr)]), Ok tt) /\
    is_u 64 icr /\
    icr mod 2 ^ 8 = v /\ (icr / 2 ^ 8) mod 2 ^ 3 = ne_code d /\ (icr / 2 ^ 11) mod 2 = ne_code m /\
    (icr / 2 ^ 14) mod 2 = ne_code l /\ (icr / 2 ^ 15) mod 2 = ne_code t /\
    (icr / 2 ^ 18) mod 4 = ne_code s /\ icr / 2 ^ 32 = dst.
Proof.
  intros Hd Hv. eexists. split; [reflexivity|]. rewrite icr_value_sum by done.
  pose proof (DstShorthand_range s). pose proof (Level_range l). pose proof (TriggerMode_range t).
  pose proof (DstMode_range m). pose proof (DeliveryMode_range d). unfold is_u in *.
  pow2_literals. split_and!; Z.to_euclidean_division_equations; lia.
Qed.

Lemma send_ipi_fields_witness :
  exists icr, send_ipi 5 AllExcludingSelf Edge Assert Logical StartUp 0x31 (mkHw 0 []) =
      (mkHw 0 [(IA32_X2APIC_ICR, icr)], Ok tt) /\ icr / 2 ^ 32 = 5.
Proof.
  destruct (send_ipi_fields 5 AllExcludingSelf Edge Assert Logical StartUp 0x31 (mkHw 0 []))
    as (icr & Hs & _ & _ & _ & _ & _ & _ & _ & Hd); [unfold is_u; lia|unfold is_u; lia|].
  exists icr. split; [exact Hs|exact Hd].
Defined.

(** The logical id the code computes for a 32-bit APIC id: bits 15:4 of the
    id land in bits 31:20 (the higher ones are lost), one bit selected by the low
    four bits in bits 15:0, and bits 19:16 are always clear; so for every id of
    16 or more it differs from the documented [(id[31:4] << 16) | (1 << id[3:0])]. *)
Lemma logical_id_value id :
  is_u 32 id ->
  logical_id id = 2 ^ (id mod 16) + 2 ^ 20 * ((id / 16) mod 2 ^ 12) /\
  (16 <= id < 2 ^ 20 -> logical_id id <> 2 ^ (id mod 16) + 2 ^ 16 * (id / 16)).
Proof.
  intros Hid. unfold is_u in Hid.
  assert (logical_id id = 2 ^ (id mod 16) + 2 ^ 20 * ((id / 16) mod 2 ^ 12)) as E.
  { unfold logical_id. replace (u32 id) with id by (symmetry; by apply wrap_small). land_to_mod.
    change 0xfffffff0 with (Z.shiftl (Z.ones 28) 4). rewrite land_field by lia.
    rewrite Z.shiftl_shiftl by lia. rewrite Z.lor_comm.
    pose proof (Z.mod_pos_bound id 16) as Hm. change (2 ^ 4) with 16.
    assert (0 < 2 ^ (id mod 16) < 2 ^ 16) as Hp.
    { split; [apply Z.pow_pos_nonneg; lia|]. apply Z.pow_lt_mono_r; lia. }
    replace (u32 (Z.shiftl (Z.shiftr id 4 mod 2 ^ 28) (4 + 16))) with (Z.shiftl (Z.shiftr id 4 mod 2 ^ 12) 20)
      by (unfold u32, wrap; rewrite !Z.shiftl_mul_pow2, Z.shiftr_div_pow2 by lia; pow2_literals;
          Z.to_euclidean_division_equations; lia).
    rewrite Z.shiftl_1_l, lor_shiftl_add by (unfold is_u; lia).
    rewrite Z.shiftr_div_pow2 by lia. change (2 ^ 4) with 16. lia. }
  split; [done|]. intros Hb. rewrite E. pow2_literals.
  intros Hx. apply Z.add_reg_l in Hx. revert Hb Hx. Z.to_euclidean_division_equations. lia.
Qed.

Lemma logical_id_value_witness : logical_id 0x25 = 2 ^ 5 + 2 ^ 20 * 2.
Proof. exact (proj1 (logical_id_value 0x25 ltac:(unfold is_u; lia))). Defined.
