(* ===== verification/Timers.v ===== *)
(** * Timers ([mythril/src/time.rs])

    The timer wheel multiplexes virtual timers over the local APIC timer.  Every
    [elapsed] takes a reading of the time source, so the model threads the
    core's hardware state through the passes over the timers. *)

From Stdlib Require Import Sorted.
From S2P Require Import Prelude Error BTreeMap Clock Apic.

(** [vcpu::InjectedInterruptType] *)
Inductive InjectedInterruptType :=
| ExternalInterrupt | NonMaskableInterrupt | HardwareException | SoftwareInterrupt
| PrivilegedSoftwareException | SoftwareException | OtherEvent.

#[export] Instance InjectedInterruptType_eq_dec : EqDecision InjectedInterruptType.
Proof. solve_decision. Defined.

Definition injected_code (k : InjectedInterruptType) : Z :=
  match k with
  | ExternalInterrupt => 0 | NonMaskableInterrupt => 2 | HardwareException => 3
  | SoftwareInterrupt => 4 | PrivilegedSoftwareException => 5 | SoftwareException => 6
  | OtherEvent => 7
  end.

(** [interrupt::vector] and [interrupt::gsi] *)
Definition vector_UART : Z := 36.
Definition vector_TIMER : Z := 48.
Definition vector_IPC : Z := 49.
Definition gsi_PIT : Z := 0.
Definition gsi_UART : Z := 4.

Inductive TimerInterruptType :=
| Direct (vector : Z) (kind : InjectedInterruptType)
| TimerGSI (gsi : Z).

Inductive TimerMode := OneShot | Periodic.

#[export] Instance TimerMode_eq_dec : EqDecision TimerMode.
Proof. solve_decision. Defined.

Record ReadyTimer := mkReady {
  ready_duration : Z; ready_mode : TimerMode; ready_kind : TimerInterruptType
}.

Record RunningTimer := mkRunning {
  duration : Z; mode : TimerMode; started : Z; timer_kind : TimerInterruptType
}.

(** [TimerId], with its derived lexicographic order. *)
Record TimerId := mkTimerId { timer_id : Z; core_id : Z }.

#[export] Instance TimerId_eq_dec : EqDecision TimerId.
Proof. solve_decision. Defined.

Definition timer_id_cmp (a b : TimerId) : comparison :=
  match Z.compare (timer_id a) (timer_id b) with
  | Eq => Z.compare (core_id a) (core_id b)
  | c => c
  end.

Record TimerWheel := mkWheel { counter : Z; timers : list (TimerId * RunningTimer) }.

Definition one_shot (d : Z) (k : TimerInterruptType) : ReadyTimer := mkReady d OneShot k.
Definition periodic (d : Z) (k : TimerInterruptType) : ReadyTimer := mkReady d Periodic k.
Definition stop (t : RunningTimer) : ReadyTimer := mkReady (duration t) (mode t) (timer_kind t).
Definition is_periodic (t : RunningTimer) : bool :=
  match mode t with Periodic => true | OneShot => false end.

Definition wheel_new : TimerWheel := mkWheel 0 [].

Section timers.
Context `{TimeSource}.
(** The core's local APIC and its index ([percore::read_core_id]). *)
Context (apic : LocalApic) (this_core : Z).

Definition start (t : ReadyTimer) : st CoreHw RunningTimer :=
  s ← now; mret (mkRunning (ready_duration t) (ready_mode t) s (ready_kind t)).

Definition elapsed (t : RunningTimer) : st CoreHw bool :=
  n ← now; mret (instant_diff n (started t) >? duration t).

Definition elapses_at (t : RunningTimer) : Z := instant_add (started t) (duration t).

Definition reset (t : RunningTimer) : st CoreHw RunningTimer :=
  s ← (if is_periodic t then mret (elapses_at t) else now);
  mret (mkRunning (duration t) (mode t) s (timer_kind t)).

Definition soonest (l : list Z) : option Z :=
  match l with [] => None | x :: r => Some (foldl Z.min x r) end.

Definition update_interrupt_timer (w : TimerWheel) : st CoreHw unit :=
  match soonest (map (fun e => elapses_at e.2) (timers w)) with
  | Some when => schedule_interrupt apic when vector_TIMER
  | None => mret tt
  end.

(** The first pass: the ids of the elapsed one-shot timers. *)
Fixpoint elapsed_oneshots (l : list (TimerId * RunningTimer)) : st CoreHw (list TimerId) :=
  match l with
  | [] => mret []
  | (id, t) :: r =>
      e ← elapsed t;
      rest ← elapsed_oneshots r;
      mret (if e && negb (is_periodic t) then id :: rest else rest)
  end.

(** Reporting and removing them. *)
Fixpoint remove_oneshots (ids : list TimerId) (ints : list TimerInterruptType)
    (l : list (TimerId * RunningTimer))
    : res (list (TimerId * RunningTimer) * list TimerInterruptType) :=
  match ids with
  | [] => Ok (l, ints)
  | id :: r =>
      t ← expect (bt_get timer_id_cmp id l) "no entry found for key";
      remove_oneshots r (ints ++ [timer_kind t]) (bt_remove timer_id_cmp id l)
  end.

(** The second pass: elapsed periodic timers are reported and reset. *)
Fixpoint reset_periodics (l : list (TimerId * RunningTimer))
    : st CoreHw (list (TimerId * RunningTimer) * list TimerInterruptType) :=
  match l with
  | [] => mret ([], [])
  | (id, t) :: r =>
      e ← elapsed t;
      if e && is_periodic t then
        t' ← reset t;
        '(r', ints) ← reset_periodics r;
        mret ((id, t') :: r', timer_kind t :: ints)
      else
        '(r', ints) ← reset_periodics r;
        mret ((id, t) :: r', ints)
  end.

Definition expire_elapsed_timers (w : TimerWheel) : st CoreHw (TimerWheel * list TimerInterruptType) :=
  ids ← elapsed_oneshots (timers w);
  '(l, ints) ← lift (remove_oneshots ids [] (timers w));
  '(l', ints') ← reset_periodics l;
  let w' := mkWheel (counter w) l' in
  _ ← update_interrupt_timer w';
  mret (w', ints ++ ints').

Definition is_local_timer (id : TimerId) : bool := core_id id =? this_core.

Definition register_timer (w : TimerWheel) (t : ReadyTimer) : st CoreHw (TimerWheel * TimerId) :=
  let id := mkTimerId (counter w) this_core in
  t ← start t;
  let w' := mkWheel (u64 (counter w + 1)) (bt_insert timer_id_cmp id t (timers w)) in
  _ ← update_interrupt_timer w';
  mret (w', id).

Definition get_timer (w : TimerWheel) (id : TimerId) : option RunningTimer :=
  bt_get timer_id_cmp id (timers w).

Definition remove_timer (w : TimerWheel) (id : TimerId) : st CoreHw TimerWheel :=
  let w' := mkWheel (counter w) (bt_remove timer_id_cmp id (timers w)) in
  _ ← update_interrupt_timer w';
  mret w'.

Definition set_oneshot_timer (w : TimerWheel) (d : Z) (k : TimerInterruptType) :=
  register_timer w (one_shot d k).
Definition set_periodic_timer (w : TimerWheel) (d : Z) (k : TimerInterruptType) :=
  register_timer w (periodic d k).

(** ** The order on timer ids *)

#[export] Instance timer_id_laws : CmpLaws timer_id_cmp (fun _ => True).
Proof.
  unfold timer_id_cmp. split.
  - intros a _. by rewrite !Z.compare_refl.
  - intros a b _ _. rewrite (Z.compare_antisym (timer_id a)), (Z.compare_antisym (core_id a)).
    by destruct (timer_id a ?= timer_id b).
  - intros a b c _ _ _.
    destruct (Z.compare_spec (timer_id a) (timer_id b)), (Z.compare_spec (timer_id b) (timer_id c)),
      (Z.compare_spec (timer_id a) (timer_id c)); try done; try lia;
      rewrite ?Z.compare_lt_iff; lia.
Qed.

Lemma timer_id_cmp_Eq a b : timer_id_cmp a b = Eq <-> a = b.
Proof.
  unfold timer_id_cmp. split; [|intros ->; by rewrite !Z.compare_refl].
  destruct a as [i c], b as [j d]; simpl.
  destruct (Z.compare_spec i j); [|done..]. intros ->%Z.compare_eq. congruence.
Qed.

Notation wheel_wf := (bt_wf timer_id_cmp (fun _ => True)).

(** ** What the passes do *)

Definition elapsed_at (t : RunningTimer) (n : nat) : bool :=
  instant_diff (ts_reading n) (started t) >? duration t.

(** One-shot timers whose reading, the [p]-th, [p+1]-th, ... says they elapsed,
    and the timers that stay. *)
Fixpoint fired (p : nat) (l : list (TimerId * RunningTimer)) : list (TimerId * RunningTimer) :=
  match l with
  | [] => []
  | e :: r => if elapsed_at e.2 p && negb (is_periodic e.2) then e :: fired (S p) r else fired (S p) r
  end.
Fixpoint kept (p : nat) (l : list (TimerId * RunningTimer)) : list (TimerId * RunningTimer) :=
  match l with
  | [] => []
  | e :: r => if elapsed_at e.2 p && negb (is_periodic e.2) then kept (S p) r else e :: kept (S p) r
  end.

(** Periodic timers that elapsed start again where their period ended. *)
Definition restarted (t : RunningTimer) : RunningTimer :=
  mkRunning (duration t) (mode t) (elapses_at t) (timer_kind t).
Fixpoint advanced (p : nat) (l : list (TimerId * RunningTimer)) : list (TimerId * RunningTimer) :=
  match l with
  | [] => []
  | e :: r => (if elapsed_at e.2 p && is_periodic e.2 then (e.1, restarted e.2) else e) :: advanced (S p) r
  end.
Fixpoint ticked (p : nat) (l : list (TimerId * RunningTimer)) : list (TimerId * RunningTimer) :=
  match l with
  | [] => []
  | e :: r => if elapsed_at e.2 p && is_periodic e.2 then e :: ticked (S p) r else ticked (S p) r
  end.

Lemma elapsed_oneshots_spec l hw :
  elapsed_oneshots l hw =
  (mkHw (hw_pos hw + length l) (msr_writes hw), Ok (map fst (fired (hw_pos hw) l))).
Proof.
  revert hw. induction l as [|[id t] l IH]; intros hw.
  - simpl. rewrite Nat.add_0_r. by destruct hw.
  - cbn [elapsed_oneshots]. rewrite st_bind_eq. unfold elapsed. rewrite st_bind_eq. unfold now at 1.
    cbv [mret st_ret]. rewrite st_bind_eq, IH. cbn [hw_pos msr_writes fired snd length].
    rewrite <- Nat.add_succ_comm. unfold elapsed_at.
    by destruct (_ && _).
Qed.

Lemma reset_periodics_spec l hw :
  reset_periodics l hw =
  (mkHw (hw_pos hw + length l) (msr_writes hw),
   Ok (advanced (hw_pos hw) l, map (fun e => timer_kind e.2) (ticked (hw_pos hw) l))).
Proof.
  revert hw. induction l as [|[id t] l IH]; intros hw.
  - simpl. rewrite Nat.add_0_r. by destruct hw.
  - cbn [reset_periodics]. rewrite st_bind_eq. unfold elapsed. rewrite st_bind_eq. unfold now at 1.
    cbv [mret st_ret]. cbn [advanced ticked fst snd length]. unfold elapsed_at.
    rewrite <- Nat.add_succ_comm.
    destruct (instant_diff _ _ >? _) eqn:He; [destruct (is_periodic t) eqn:Hp|]; cbn [andb].
    + rewrite st_bind_eq. unfold reset. rewrite Hp, st_bind_eq. cbv [mret st_ret].
      rewrite st_bind_eq, IH. done.
    + rewrite st_bind_eq, IH. done.
    + rewrite st_bind_eq, IH. done.
Qed.

Implicit Types l f : list (TimerId * RunningTimer).

Lemma wheel_keys_nodup l : wheel_wf l -> NoDup (map fst l).
Proof.
  induction l as [|[k t] l IH]; intros Hw; simpl; constructor.
  - apply bt_wf_cons in Hw as (_ & _ & Hf). intros Hin.
    apply list_elem_of_fmap in Hin as ([k' t'] & -> & Hin).
    rewrite Forall_forall in Hf. specialize (Hf _ Hin). simpl in Hf.
    by rewrite (proj2 (timer_id_cmp_Eq _ _) eq_refl) in Hf.
  - apply IH. by apply bt_wf_cons in Hw as (? & _).
Qed.

Lemma bt_remove_filter k l : wheel_wf l -> bt_remove timer_id_cmp k l = filter (fun e => e.1 <> k) l.
Proof.
  induction l as [|[k1 t1] l IH]; intros Hw; [done|].
  pose proof Hw as (Hw' & _ & Hf)%bt_wf_cons. cbn [bt_remove].
  assert (forall e, e ∈ l -> timer_id_cmp k k1 <> Gt -> e.1 <> k) as Hne.
  { intros e He Hc Hk. rewrite Forall_forall in Hf. specialize (Hf _ He).
    rewrite Hk in Hf. rewrite (cmp_flip k1 k), Hf in Hc by done. done. }
  destruct (timer_id_cmp k k1) eqn:Hc.
  - apply timer_id_cmp_Eq in Hc as ->. rewrite filter_cons_False by naive_solver.
    symmetry. apply list_filter_all. apply Forall_forall. intros e He. by apply Hne.
  - rewrite filter_cons_True by (simpl; intros ->; by rewrite (proj2 (timer_id_cmp_Eq k k) eq_refl) in Hc).
    f_equal. symmetry. apply list_filter_all. apply Forall_forall. intros e He. by apply Hne.
  - rewrite filter_cons_True by (simpl; intros ->; by rewrite (proj2 (timer_id_cmp_Eq k k) eq_refl) in Hc).
    by rewrite IH.
Qed.

Lemma wheel_get_elem l id t : wheel_wf l -> (id, t) ∈ l -> bt_get timer_id_cmp id l = Some t.
Proof.
  intros Hw Hin. unfold bt_get.
  rewrite (bt_get_elem_of timer_id_cmp (ok := fun _ => True) id id t); try done.
  - intros a b Hne _ _ Ha%timer_id_cmp_Eq Hb%timer_id_cmp_Eq. congruence.
  - by apply timer_id_cmp_Eq.
Qed.

Lemma remove_oneshots_spec f : forall l ints,
  wheel_wf l -> NoDup (map fst f) -> (forall e, e ∈ f -> e ∈ l) ->
  remove_oneshots (map fst f) ints l =
  Ok (filter (fun e => e.1 ∉ map fst f) l, ints ++ map (fun e => timer_kind e.2) f).
Proof.
  induction f as [|[id t] f IH]; intros l ints Hw Hnd Hin; simpl.
  - rewrite app_nil_r. do 2 f_equal. symmetry. apply list_filter_all.
    apply Forall_forall. intros e _. apply not_elem_of_nil.
  - apply NoDup_cons in Hnd as [Hni Hnd].
    rewrite (wheel_get_elem l id t) by (done || apply Hin; left). simpl.
    rewrite IH; [|by apply (bt_remove_wf timer_id_cmp)|done|].
    + rewrite <- app_assoc. do 2 f_equal. rewrite bt_remove_filter by done.
      rewrite list_filter_filter. apply list_filter_iff. intros e. rewrite not_elem_of_cons. naive_solver.
    + intros e He. rewrite bt_remove_filter by done. apply list_elem_of_filter. split.
      * intros Heq. apply Hni. rewrite <- Heq. apply list_elem_of_fmap. by exists e.
      * apply Hin. by right.
Qed.

Lemma fired_sub p l : forall e, e ∈ fired p l -> e ∈ l.
Proof.
  revert p. induction l as [|a l IH]; intros p e; simpl; [done|].
  destruct (_ && _); rewrite ?elem_of_cons; naive_solver.
Qed.

Lemma fired_nodup p l : NoDup (map fst l) -> NoDup (map fst (fired p l)).
Proof.
  revert p. induction l as [|a l IH]; intros p; simpl; [done|]. intros [Hn Hnd]%NoDup_cons.
  destruct (_ && _); [|by apply IH]. simpl. constructor; [|by apply IH].
  intros (e & Heq & He)%list_elem_of_fmap. apply Hn. rewrite Heq. apply list_elem_of_fmap.
  exists e. split; [done|]. by apply (fired_sub (S p)).
Qed.

Lemma kept_filter p l :
  NoDup (map fst l) -> filter (fun e => e.1 ∉ map fst (fired p l)) l = kept p l.
Proof.
  revert p. induction l as [|a l IH]; intros p; simpl; [done|]. intros [Hn Hnd]%NoDup_cons.
  assert (forall e, e ∈ l -> e.1 <> a.1) as Hne.
  { intros e He Heq. apply Hn. rewrite <- Heq. apply list_elem_of_fmap. eauto. }
  destruct (_ && _).
  - rewrite filter_cons_False by (simpl; set_solver). rewrite <- (IH (S p)) by done.
    apply list_filter_ext. intros e He. simpl. rewrite not_elem_of_cons. specialize (Hne e He). naive_solver.
  - rewrite filter_cons_True; [by rewrite IH|].
    intros (e & Heq & He)%list_elem_of_fmap. apply (Hne e); [|done]. by apply (fired_sub (S p)).
Qed.

Lemma update_interrupt_timer_Ok w hw :
  exists hw', update_interrupt_timer w hw = (hw', Ok tt).
Proof.
  unfold update_interrupt_timer, schedule_interrupt.
  destruct (soonest _); eexists; cbv [mbind st_bind now wrmsr mret st_ret]; reflexivity.
Qed.

Lemma kept_wf p l : wheel_wf l -> wheel_wf (kept p l).
Proof.
  intros Hw. rewrite <- kept_filter by (by apply wheel_keys_nodup).
  eapply bt_sublist_wf; [|exact Hw]. apply sublist_filter.
Qed.

Lemma advanced_keys p l : map fst (advanced p l) = map fst l.
Proof. revert p. induction l as [|a l IH]; intros p; simpl; [done|]. rewrite IH. by destruct (_ && _). Qed.

(** Well-formedness depends on the keys only. *)
Lemma wheel_wf_keys l l' : map fst l = map fst l' -> wheel_wf l -> wheel_wf l'.
Proof.
  revert l'. induction l as [|[k t] l IH]; intros [|[k' t'] l'] E Hw; try done.
  simpl in E. injection E as -> E. apply bt_wf_cons in Hw as (Hw & _ & Hf).
  apply bt_wf_cons. split_and!; [by apply IH|done|].
  rewrite Forall_forall in Hf |- *. intros e He.
  assert (e.1 ∈ map fst l) as (e' & Heq & He')%list_elem_of_fmap
    by (rewrite E; apply list_elem_of_fmap; eauto).
  rewrite Heq. by apply Hf.
Qed.

Lemma expire_spec w hw :
  wheel_wf (timers w) ->
  exists hw', expire_elapsed_timers w hw =
    (hw', Ok (mkWheel (counter w)
                (advanced (hw_pos hw + length (timers w)) (kept (hw_pos hw) (timers w))),
              map (fun e => timer_kind e.2) (fired (hw_pos hw) (timers w)) ++
              map (fun e => timer_kind e.2)
                (ticked (hw_pos hw + length (timers w)) (kept (hw_pos hw) (timers w))))).
Proof.
  intros Hw. pose proof (wheel_keys_nodup _ Hw) as Hnd. unfold expire_elapsed_timers.
  rewrite st_bind_eq, elapsed_oneshots_spec, st_bind_eq. unfold lift.
  rewrite remove_oneshots_spec by (done || apply fired_sub || by apply fired_nodup).
  rewrite kept_filter by done. rewrite st_bind_eq, reset_periodics_spec. cbn [hw_pos msr_writes].
  rewrite st_bind_eq. edestruct update_interrupt_timer_Ok as [hw' ->]. exists hw'. done.
Qed.
End timers.

Notation wheel_wf := (bt_wf timer_id_cmp (fun _ => True)).

(** Readings a second apart at 1 GHz, for the witnesses. *)
Definition second_clock : TimeSource :=
  {| ts_reading := fun n => Z.of_nat (n mod 4096) * 1000000000; ts_frequency := 1000000000 |}.

(** C9: expiring timers is the specified filtering.  With one reading per timer
    and pass, the one-shot timers whose reading is past their duration are
    reported and removed, the periodic ones whose (second) reading is past are
    reported and restarted exactly one period later, every other timer stays
    unchanged, the map stays ordered, and no call panics on a missing id. *)
Theorem expire_elapsed_timers_refines `{TimeSource} apic w hw :
  wheel_wf (timers w) ->
  let p := hw_pos hw in
  let q := (hw_pos hw + length (timers w))%nat in
  exists hw' w', expire_elapsed_timers apic w hw =
    (hw', Ok (w', map (fun e => timer_kind e.2) (fired p (timers w)) ++
                  map (fun e => timer_kind e.2) (ticked q (kept p (timers w))))) /\
    timers w' = advanced q (kept p (timers w)) /\
    counter w' = counter w /\ wheel_wf (timers w') /\
    (forall id t, (id, t) ∈ fired p (timers w) -> mode t = OneShot /\ get_timer w' id = None).
Proof.
  intros Hw p q. destruct (expire_spec apic w hw Hw) as [hw' He].
  exists hw', (mkWheel (counter w) (advanced q (kept p (timers w)))).
  split; [exact He|]. cbn [timers counter]. split_and!; try done.
  - apply (wheel_wf_keys (kept p (timers w))); [by rewrite advanced_keys|by apply kept_wf].
  - intros id t Hf. split.
    + assert (forall l n, (id, t) ∈ fired n l -> mode t = OneShot) as Hx; [|by apply (Hx _ _ Hf)].
      induction l as [|a l IH]; intros n; simpl; [by intros ?%not_elem_of_nil|].
      destruct (elapsed_at a.2 n && negb (is_periodic a.2)) eqn:Hc; [|by apply IH].
      rewrite elem_of_cons. intros [<-|Hi]; [|by apply (IH (S n))].
      apply andb_true_iff in Hc as [_ Hp]. unfold is_periodic in Hp. simpl in Hp. by destruct (mode t).
    + unfold get_timer, bt_get. cbn [timers].
      assert (wheel_wf (advanced q (kept p (timers w)))) as Hwf.
      { apply (wheel_wf_keys (kept p (timers w))); [by rewrite advanced_keys|by apply kept_wf]. }
      rewrite (proj2 (bt_get_key_value_None timer_id_cmp (ok := fun _ => True) id _ I Hwf)); [done|].
      apply Forall_forall. intros e He' Hc%timer_id_cmp_Eq.
      assert (e.1 ∈ map fst (kept p (timers w))) as Hk
        by (rewrite <- (advanced_keys q); apply list_elem_of_fmap; by exists e).
      apply list_elem_of_fmap in Hk as (e' & Heq & Hk).
      rewrite <- kept_filter in Hk by (by apply wheel_keys_nodup).
      apply list_elem_of_filter in Hk as [Hn _]. apply Hn. rewrite <- Heq, <- Hc.
      apply list_elem_of_fmap. by exists (id, t).
Qed.

Lemma expire_elapsed_timers_refines_witness :
  let w := mkWheel 2 [(mkTimerId 0 0, mkRunning 5 OneShot 0 (TimerGSI 4));
                      (mkTimerId 1 0, mkRunning 1000000000 Periodic 0 (TimerGSI 0))] in
  exists hw' w', @expire_elapsed_timers second_clock (mkLocalApic 0 1) w (mkHw 5 []) =
    (hw', Ok (w', [TimerGSI 4; TimerGSI 0])).
Proof.
  destruct (@expire_elapsed_timers_refines second_clock (mkLocalApic 0 1)
    (mkWheel 2 [(mkTimerId 0 0, mkRunning 5 OneShot 0 (TimerGSI 4));
                (mkTimerId 1 0, mkRunning 1000000000 Periodic 0 (TimerGSI 0))]) (mkHw 5 []))
    as (hw' & w' & He & _).
  - apply bt_wf_cons. split_and!; [apply bt_wf_cons; split_and!; [apply bt_wf_nil|done|constructor]|done|].
    repeat constructor.
  - exists hw', w'. exact He.
Defined.

(** a timer never fires early: at any reading up to the instant it elapses at
    ([started + duration], in ticks), [elapsed] is false; and it does not stay
    silent: [elapsed] is true from the first reading a nanosecond past the
    duration on.  (The readings are assumed to span less than [2^64] ns.) *)
Lemma elapsed_exact `{TimeSource} `{!TimeSourceLaws} t hw :
  is_u 64 (started t) -> is_duration (duration t) ->
  started t <= ts_reading (hw_pos hw) ->
  started t + ts_frequency * duration t / 1000000000 < 2 ^ 64 ->
  (ts_reading (hw_pos hw) - started t) * 1000000000 / ts_frequency < 2 ^ 64 ->
  let '(hw', r) := elapsed t hw in
  hw_pos hw' = S (hw_pos hw) /\ exists b, r = Ok b /\
  (ts_reading (hw_pos hw) <= elapses_at t -> b = false) /\
  (ts_frequency * (duration t + 1) <= (ts_reading (hw_pos hw) - started t) * 1000000000 -> b = true).
Proof.
  intros Hs Hd Hle Hov Hov'. split; [done|]. eexists. split; [reflexivity|].
  pose proof (ts_reading_u64 (hw_pos hw)) as Hr. unfold is_u in Hs. split.
  - intros Hb. rewrite Z.gtb_ltb. apply Z.ltb_ge.
    apply not_past; try done; [lia|]. unfold elapses_at, instant_add in Hb.
    pose proof ts_frequency_pos. unfold is_duration in Hd.
    rewrite ticks_of_small in Hb |- * by (done || lia).
    unfold u64 in Hb. rewrite wrap_small in Hb; [done|].
    unfold is_u. split; [|lia]. assert (0 <= ts_frequency * duration t / 1000000000); [|lia].
    apply Z.div_pos; nia.
  - intros Hb. rewrite Z.gtb_ltb. apply Z.ltb_lt. by apply is_past.
Qed.

Lemma elapsed_exact_witness :
  snd (@elapsed slow_clock (mkRunning 2000000000 OneShot 4 (TimerGSI 4)) (mkHw 10 [])) = Ok false.
Proof.
  pose proof (@elapsed_exact slow_clock _
    (mkRunning 2000000000 OneShot 4 (TimerGSI 4)) (mkHw 10 [])) as H.
  destruct (elapsed _ _) as [hw' r]. destruct H as (_ & b & -> & Hb & _).
  - unfold is_u. simpl. lia.
  - unfold is_duration. simpl. lia.
  - simpl. lia.
  - reflexivity.
  - reflexivity.
  - rewrite Hb; [reflexivity|vm_compute; discriminate].
Defined.

(** ** Registration *)

(** Ids in a wheel are of its core and below its counter. *)
Definition wheel_inv (this_core : Z) (w : TimerWheel) : Prop :=
  wheel_wf (timers w) /\ 0 <= counter w /\
  forall id t, (id, t) ∈ timers w -> core_id id = this_core /\ timer_id id < counter w.

Lemma wheel_get_iff (l : list (TimerId * RunningTimer)) id t : wheel_wf l -> bt_get timer_id_cmp id l = Some t <-> (id, t) ∈ l.
Proof.
  intros Hl. split; [|by apply wheel_get_elem]. unfold bt_get.
  destruct (bt_get_key_value timer_id_cmp id l) as [[k v]|] eqn:E; simpl; [|done]. intros [= ->].
  apply bt_get_key_value_Some in E as [Hin Heq%timer_id_cmp_Eq]. by subst.
Qed.

Lemma register_timer_spec `{TimeSource} apic this_core w rt hw :
  wheel_inv this_core w -> counter w + 1 < 2 ^ 64 ->
  exists hw' w', register_timer apic this_core w rt hw =
      (hw', Ok (w', mkTimerId (counter w) this_core)) /\
    wheel_inv this_core w' /\
    get_timer w (mkTimerId (counter w) this_core) = None /\
    (forall id, get_timer w' id =
       if decide (id = mkTimerId (counter w) this_core)
       then Some (mkRunning (ready_duration rt) (ready_mode rt) (ts_reading (hw_pos hw)) (ready_kind rt))
       else get_timer w id).
Proof.
  intros (Hw & Hc0 & Hids) Hc. set (id0 := mkTimerId (counter w) this_core).
  set (t0 := mkRunning (ready_duration rt) (ready_mode rt) (ts_reading (hw_pos hw)) (ready_kind rt)).
  assert (bt_get_key_value timer_id_cmp id0 (timers w) = None) as Hnone.
  { apply (bt_get_key_value_None timer_id_cmp (ok := fun _ => True)); [done|done|].
    apply Forall_forall. intros [id t] Hin Heq%timer_id_cmp_Eq. simpl in Heq. subst id.
    apply Hids in Hin as [_ Hlt]. simpl in Hlt. lia. }
  destruct (bt_insert_fresh timer_id_cmp (ok := fun _ => True) id0 t0 (timers w) I Hw Hnone) as [Hw' Hp].
  unfold register_timer. fold id0. rewrite st_bind_eq.
  change (start rt hw) with (mkHw (S (hw_pos hw)) (msr_writes hw), @Ok RunningTimer t0). cbv beta iota zeta.
  unfold u64. rewrite wrap_small by (unfold is_u; lia).
  rewrite st_bind_eq. edestruct update_interrupt_timer_Ok as [hw' ->].
  exists hw'. eexists. split; [reflexivity|]. split; [|split].
  - split; [exact Hw'|]. cbn [counter timers]. split; [lia|]. intros id t. rewrite Hp, elem_of_cons.
    intros [[= -> ->]|Hin]; [simpl; lia|]. apply Hids in Hin. lia.
  - unfold get_timer, bt_get. by rewrite Hnone.
  - intros id. unfold get_timer. cbn [timers]. apply option_eq. intros t.
    rewrite wheel_get_iff by exact Hw'. rewrite Hp, elem_of_cons. case_decide as Hd.
    + subst id. split; [|intros [= <-]; by left]. intros [[= ->]|Hin]; [done|].
      apply Hids in Hin as [_ Hlt]. simpl in Hlt. lia.
    + rewrite wheel_get_iff by done. split; [intros [Heq|?]; [|done]|by right].
      by apply (f_equal fst) in Heq.
Qed.

Lemma register_timer_counter `{TimeSource} apic this_core w rt hw hw' w' id :
  register_timer apic this_core w rt hw = (hw', Ok (w', id)) -> counter w' = u64 (counter w + 1).
Proof.
  unfold register_timer. rewrite st_bind_eq. destruct (start rt hw) as [hw1 [t|e|why]]; [|done..].
  rewrite st_bind_eq. edestruct update_interrupt_timer_Ok as [hw2 ->]. intros [= _ <- _]. done.
Qed.

(** Removing one takes out that timer only. *)
Lemma remove_timer_spec `{TimeSource} apic this_core w id hw :
  wheel_inv this_core w ->
  exists hw' w', remove_timer apic w id hw = (hw', Ok w') /\ wheel_inv this_core w' /\
    counter w' = counter w /\
    forall id', get_timer w' id' = if decide (id' = id) then None else get_timer w id'.
Proof.
  intros (Hw & Hc0 & Hids). unfold remove_timer. rewrite st_bind_eq.
  edestruct update_interrupt_timer_Ok as [hw' ->]. exists hw'. eexists. split; [reflexivity|].
  rewrite bt_remove_filter by done.
  assert (wheel_wf (filter (fun e => e.1 <> id) (timers w))) as Hw'
    by (rewrite <- bt_remove_filter by done; by apply bt_remove_wf).
  split; [|split].
  - split; [exact Hw'|]. split; [done|]. cbn [timers counter].
    intros id' t [_ Hin]%list_elem_of_filter. by apply Hids in Hin.
  - done.
  - intros id'. unfold get_timer. cbn [timers]. apply option_eq. intros t.
    rewrite wheel_get_iff, list_elem_of_filter by exact Hw'. cbn [fst]. case_decide.
    + split; [intros [? _]; done|done].
    + rewrite wheel_get_iff by done. tauto.
Qed.

(** Registering a timer hands out an id no registered timer has, starts the
    timer at the current reading, leaves every other timer in place and keeps the
    wheel's invariant (until the 64-bit counter wraps). *)
Lemma register_timer_fresh `{TimeSource} apic this_core w rt hw :
  wheel_inv this_core w -> counter w + 1 < 2 ^ 64 ->
  exists hw' w', register_timer apic this_core w rt hw =
      (hw', Ok (w', mkTimerId (counter w) this_core)) /\
    wheel_inv this_core w' /\
    get_timer w (mkTimerId (counter w) this_core) = None /\
    (forall id, get_timer w' id =
       if decide (id = mkTimerId (counter w) this_core)
       then Some (mkRunning (ready_duration rt) (ready_mode rt) (ts_reading (hw_pos hw)) (ready_kind rt))
       else get_timer w id).
Proof. apply register_timer_spec. Qed.

Lemma register_timer_fresh_witness :
  exists hw' w', @register_timer second_clock (mkLocalApic 0 1) 3 wheel_new (one_shot 7 (TimerGSI 0)) (mkHw 2 []) =
    (hw', Ok (w', mkTimerId 0 3)).
Proof.
  destruct (@register_timer_fresh second_clock (mkLocalApic 0 1) 3 wheel_new (one_shot 7 (TimerGSI 0)) (mkHw 2 []))
    as (hw' & w' & He & _).
  - split; [apply bt_wf_nil|]. split; [simpl; lia|]. intros id t Hin. by apply not_elem_of_nil in Hin.
  - simpl. lia.
  - exists hw', w'. exact He.
Defined.

Lemma foldl_min_le l x : foldl Z.min x l <= x /\ Forall (fun y => foldl Z.min x l <= y) l /\
  (foldl Z.min x l = x \/ foldl Z.min x l ∈ l).
Proof.
  revert x. induction l as [|y l IH]; intros x; simpl; [split_and!; [lia|constructor|by left]|].
  destruct (IH (Z.min x y)) as (H1 & H2 & H3). split_and!; [lia|constructor; [lia|done]|].
  rewrite elem_of_cons. destruct H3 as [H3|H3]; [|by right; right].
  destruct (Z.min_spec x y) as [[_ E]|[_ E]]; rewrite E in *; auto.
Qed.

(** after every update the local APIC timer is programmed for the timer that
    elapses first: the count is the time from the current reading to the smallest
    [elapses_at] among the wheel's timers, with vector [TIMER]; an empty wheel
    programs nothing. *)
Lemma update_programs_soonest `{TimeSource} apic w hw :
  let '(hw', r) := update_interrupt_timer apic w hw in
  r = Ok tt /\
  match timers w with
  | [] => hw' = hw
  | _ => exists id t, (id, t) ∈ timers w /\
      Forall (fun e => elapses_at t <= elapses_at e.2) (timers w) /\
      msr_writes hw' = msr_writes hw ++
        [(IA32_X2APIC_DIV_CONF, 3); (IA32_X2APIC_LVT_TIMER, vector_TIMER);
         (IA32_X2APIC_INIT_COUNT,
          u64 (wrap 128 (instant_diff (elapses_at t) (ts_reading (hw_pos hw)) / 1000 * ticks_per_ms apic) / 1000))]
  end.
Proof.
  unfold update_interrupt_timer. destruct (timers w) as [|[id t] l]; [done|].
  cbn [map soonest snd]. destruct (foldl_min_le (map (fun e => elapses_at e.2) l) (elapses_at t)) as (H1 & H2 & H3).
  set (m := foldl Z.min _ _) in *. unfold schedule_interrupt.
  cbv [mbind st_bind now wrmsr mret st_ret]. cbn [msr_writes hw_pos]. split; [done|].
  assert (exists id' t', (id', t') ∈ (id, t) :: l /\ elapses_at t' = m) as (id' & t' & Hin & Hm).
  { destruct H3 as [H3|H3].
    - exists id, t. split; [left|done].
    - apply list_elem_of_fmap in H3 as ([id' t'] & Heq & Hin). exists id', t'. split; [by right|done]. }
  exists id', t'. split; [done|]. rewrite Hm. split.
  - constructor; [done|]. apply Forall_forall. intros e He. apply (proj1 (Forall_forall _ _) H2).
    apply list_elem_of_fmap. by exists e.
  - by rewrite <- !app_assoc.
Qed.
