(* ===== verification/Vm.v ===== *)
(** * Virtual machines and their messages ([mythril/src/vm.rs])

    A virtual machine owns its devices and its guest address space; the set of
    machines also holds one bounded message queue per core.  The set is shared by
    all cores (behind locks in the source): an operation of one core is a
    transition of the whole set. *)

From S2P Require Import Prelude Error BTreeMap Memory VirtDev Clock Apic Timers.

Definition GUEST_LOCAL_APIC_ADDR : Z := 0xfee00000.
Definition MAX_VM_COUNT : nat := 64.
Definition MAX_PER_VM_CORE_COUNT : nat := 32.
Definition MAX_VCPU_COUNT : nat := 2048.
Definition MAX_PENDING_MSG : nat := 100.

(** [GrantConsole] carries the physical serial device, here its base port. *)
Inductive VirtualMachineMsg :=
| GrantConsole (serial : Z)
| CancelTimer (id : TimerId)
| StartVcpu (addr : Z)
| GuestInterrupt (kind : InjectedInterruptType) (vector : Z).

#[export] Instance VirtualMachineMsg_eq_dec : EqDecision VirtualMachineMsg.
Proof. solve_decision. Defined.

Section vm.
Context {W D : Type} `{EmulatedDevice W D}.

(** Devices are numbered in the order they are registered: the static ones, then
    the dynamic ones. *)
Record VirtualMachine := mkVm {
  vm_id : Z;
  vm_cpus : list Z;
  vm_memory : Z;
  vm_serial : option Z;
  vm_devices : list D;
  vm_device_map : DeviceMap nat;
  vm_guest_space : Z;
  vm_apic_access_page : Z;
  vm_logical_apic_state : list (Z * Z);
  vm_cpus_ready : Z
}.

Definition set_vm_serial (s : option Z) (v : VirtualMachine) : VirtualMachine :=
  mkVm (vm_id v) (vm_cpus v) (vm_memory v) s (vm_devices v) (vm_device_map v) (vm_guest_space v)
    (vm_apic_access_page v) (vm_logical_apic_state v) (vm_cpus_ready v).
Definition set_vm_devices (d : list D) (v : VirtualMachine) : VirtualMachine :=
  mkVm (vm_id v) (vm_cpus v) (vm_memory v) (vm_serial v) d (vm_device_map v) (vm_guest_space v)
    (vm_apic_access_page v) (vm_logical_apic_state v) (vm_cpus_ready v).
Definition set_vm_device_map (m : DeviceMap nat) (v : VirtualMachine) : VirtualMachine :=
  mkVm (vm_id v) (vm_cpus v) (vm_memory v) (vm_serial v) (vm_devices v) m (vm_guest_space v)
    (vm_apic_access_page v) (vm_logical_apic_state v) (vm_cpus_ready v).
Definition set_vm_logical (l : list (Z * Z)) (v : VirtualMachine) : VirtualMachine :=
  mkVm (vm_id v) (vm_cpus v) (vm_memory v) (vm_serial v) (vm_devices v) (vm_device_map v)
    (vm_guest_space v) (vm_apic_access_page v) l (vm_cpus_ready v).
Definition set_vm_ready (n : Z) (v : VirtualMachine) : VirtualMachine :=
  mkVm (vm_id v) (vm_cpus v) (vm_memory v) (vm_serial v) (vm_devices v) (vm_device_map v)
    (vm_guest_space v) (vm_apic_access_page v) (vm_logical_apic_state v) n.

(** [VirtualMachineContext]: its machine is an index into the set. *)
Record VmContext := mkContext { ctx_core_id : Z; ctx_vm : nat; ctx_msgqueue : list VirtualMachineMsg }.

Record VirtualMachineSet := mkSet { contexts : list VmContext; vms : list VirtualMachine }.

Definition set_new : VirtualMachineSet := mkSet [] [].

Definition bsp_id (v : VirtualMachine) : res Z := expect (vm_cpus v !! 0%nat) "index out of bounds".

(** ** Lookup *)

Definition context_by_core_id (s : VirtualMachineSet) (core : Z) : option VmContext :=
  head (filter (fun c => ctx_core_id c = core) (contexts s)).

Definition context_by_vm_id (s : VirtualMachineSet) (id : Z) : option VmContext :=
  head (filter (fun c => (vm_id <$> vms s !! ctx_vm c) = Some id) (contexts s)).

Definition vm_count (s : VirtualMachineSet) : Z := u32 (Z.of_nat (length (vms s))).

Definition is_assigned_core_id (s : VirtualMachineSet) (core : Z) : bool :=
  bool_decide (is_Some (context_by_core_id s core)).

Definition get_by_core_id (s : VirtualMachineSet) (core : Z) : option VirtualMachine :=
  c ← context_by_core_id s core; vms s !! ctx_vm c.

Definition get_by_vm_id (s : VirtualMachineSet) (id : Z) : option VirtualMachine :=
  c ← context_by_vm_id s id; vms s !! ctx_vm c.

Definition bsp_core_id (s : VirtualMachineSet) (id : Z) : res (option Z) :=
  match get_by_vm_id s id with
  | Some v => b ← bsp_id v; Ok (Some b)
  | None => Ok None
  end.

(** ** Messages *)

(** Write the queue of the first context of [core]. *)
Fixpoint set_queue (core : Z) (q : list VirtualMachineMsg) (l : list VmContext) : list VmContext :=
  match l with
  | [] => []
  | c :: r =>
      if decide (ctx_core_id c = core) then mkContext (ctx_core_id c) (ctx_vm c) q :: r
      else c :: set_queue core q r
  end.

Definition send_msg_core (msg : VirtualMachineMsg) (core : Z) (notify : bool)
    : st (VirtualMachineSet * CoreHw) unit := fun '(s, hw) =>
  match context_by_core_id s core with
  | None => ((s, hw), Err NotFound)
  | Some context =>
      if bool_decide (length (ctx_msgqueue context) < MAX_PENDING_MSG)%nat then
        let s' := mkSet (set_queue core (ctx_msgqueue context ++ [msg]) (contexts s)) (vms s) in
        if negb notify then ((s', hw), Ok tt)
        else
          let '(hw', r) := send_ipi core NoShorthand Edge Assert Physical Fixed vector_IPC hw in
          ((s', hw'), r)
      else ((s, hw), Err (InvalidValue (Msg "RX queue is full for core_id = {}" [core])))
  end.

Definition send_msg (msg : VirtualMachineMsg) (id : Z) (notify : bool)
    : st (VirtualMachineSet * CoreHw) unit := fun '(s, hw) =>
  match bsp_core_id s id with
  | Ok (Some vm_bsp) => send_msg_core msg vm_bsp notify (s, hw)
  | Ok None => ((s, hw), Err (InvalidValue (Msg "Unable to find BSP for VM id '{}'" [id])))
  | Err e => ((s, hw), Err e)
  | Panic w => ((s, hw), Panic w)
  end.

Definition recv_msg (core : Z) : st VirtualMachineSet (option VirtualMachineMsg) := fun s =>
  match context_by_core_id s core with
  | None => (s, Panic "No VirtualMachineContext for apic id")
  | Some context =>
      match ctx_msgqueue context with
      | [] => (s, Ok None)
      | m :: q => (mkSet (set_queue core q (contexts s)) (vms s), Ok (Some m))
      end
  end.

Definition recv_all_msgs (core : Z) : st VirtualMachineSet (list VirtualMachineMsg) := fun s =>
  match context_by_core_id s core with
  | None => (s, Panic "No VirtualMachineContext for apic id")
  | Some context =>
      (mkSet (set_queue core [] (contexts s)) (vms s), Ok (ctx_msgqueue context))
  end.

(** ** Machines *)

(** The fields of a machine that never change as it runs. *)
Definition setup_guest_local_apic_page `{HostAlloc} (v : VirtualMachine) : st Host unit :=
  apic_frame ← lift (from_start_address (vm_apic_access_page v));
  map_frame (vm_guest_space v) GUEST_LOCAL_APIC_ADDR apic_frame false.

(** Register the devices in order, each under its number. *)
Fixpoint register_devices (i : nat) (l : list D) : st (DeviceMap nat) unit :=
  match l with
  | [] => mret tt
  | d :: r => _ ← register_device i (services d); register_devices (S i) r
  end.

Definition set_insert `{HostAlloc} (v : VirtualMachine) : st (VirtualMachineSet * Host) unit :=
  fun '(s, h) =>
  if bool_decide (length (vms s) < MAX_VM_COUNT)%nat then
    let idx := length (vms s) in
    match register_devices 0 (vm_devices v) (vm_device_map v) with
    | (m, Ok _) =>
        let v := set_vm_device_map m v in
        let s := mkSet (contexts s) (vms s ++ [v]) in
        match setup_guest_local_apic_page v h with
        | (h, Ok _) =>
            let new := map (fun cpu => mkContext cpu idx []) (vm_cpus v) in
            if bool_decide (length (contexts s) + length new <= MAX_VCPU_COUNT)%nat
            then ((mkSet (contexts s ++ new) (vms s), h), Ok tt)
            else ((mkSet (take MAX_VCPU_COUNT (contexts s ++ new)) (vms s), h),
                  Panic "insufficient capacity")
        | (h, Err e) => ((s, h), Err e)
        | (h, Panic w) => ((s, h), Panic w)
        end
    | (m, Err e) => ((mkSet (contexts s) (vms s ++ [set_vm_device_map m v]), h), Err e)
    | (m, Panic w) => ((mkSet (contexts s) (vms s ++ [set_vm_device_map m v]), h), Panic w)
    end
  else ((s, h), Panic "insufficient capacity").

Definition notify_ready (v : VirtualMachine) : VirtualMachine :=
  set_vm_ready (u32 (vm_cpus_ready v + 1)) v.

Definition all_cores_ready (v : VirtualMachine) : bool :=
  vm_cpus_ready v =? u32 (Z.of_nat (length (vm_cpus v))).

(** The device an event is for. *)
Inductive Ident := IdentPort (port : Z) | IdentAddr (addr : Z).

Definition find_device (ident : Ident) (v : VirtualMachine) : option nat :=
  match ident with
  | IdentPort p => find_device_port p (vm_device_map v)
  | IdentAddr a => find_device_mem a (vm_device_map v)
  end.

(** What [dispatch_event] works on: the machine, the event's buffer, handed back in
    [ds_kind], the responses so far, the host memory and the rest of the core. *)
Record DispatchState := mkDispatch {
  ds_vm : VirtualMachine;
  ds_kind : DeviceEvent;
  ds_responses : list DeviceEventResponse;
  ds_host : Host;
  ds_world : W
}.

Definition dispatch_event (ident : Ident) (cr3 : Z) : st DispatchState unit := fun s =>
  match find_device ident (ds_vm s) with
  | None =>
      match ds_kind s with
      | PortRead p req =>
          match PortReadRequest.copy_from_u32 req 0 with
          | Ok req => (mkDispatch (ds_vm s) (PortRead p req) (ds_responses s) (ds_host s) (ds_world s), Ok tt)
          | Err e => (s, Err e)
          | Panic w => (s, Panic w)
          end
      | PortWrite _ _ => (s, Ok tt)
      | _ => (s, Err (MissingDevice (str "Unable to dispatch event")))
      end
  | Some i =>
      match vm_devices (ds_vm s) !! i with
      | None => (s, Panic "dangling device reference")
      | Some d =>
          let event := mkEvent (ds_kind s) (view_from_vmcs cr3 (vm_guest_space (ds_vm s)))
                         (ds_responses s) (ds_host s) (ds_world s) in
          let '((d', event'), r) := on_event (d, event) in
          (mkDispatch (set_vm_devices (<[i := d']> (vm_devices (ds_vm s))) (ds_vm s))
             (kind event') (responses event') (host event') (world event'), r)
      end
  end.

(** The filter of [logical_apic_destination]: whether a core's logical
    destination register shares a bit with the mask; panics on a core without
    logical state. *)
Definition logical_apic_destination (v : VirtualMachine) (mask core : Z) : res bool :=
  destination ← expect (bt_get Z.compare core (vm_logical_apic_state v)) "Missing logical state for core";
  Ok (has_bits destination mask).

Definition update_core_logical_destination (core dest : Z) (v : VirtualMachine) : res VirtualMachine :=
  _ ← expect (bt_get Z.compare core (vm_logical_apic_state v)) "Missing logical state for core";
  Ok (set_vm_logical (bt_alter Z.compare (fun _ => dest) core (vm_logical_apic_state v)) v).

(** [gsi_destination]: core, vector and interrupt type *)
Definition gsi_destination (this_core gsi : Z) (v : VirtualMachine)
    : res (Z * Z * InjectedInterruptType) :=
  let vector := u8 (u32 (gsi + 48)) in
  if gsi =? gsi_UART then b ← bsp_id v; Ok (b, vector, ExternalInterrupt)
  else Ok (this_core, vector, ExternalInterrupt).

(** ** Queues *)

(** The queue of a core, as the abstract bounded channel the set implements. *)
Definition queue (s : VirtualMachineSet) (core : Z) : option (list VirtualMachineMsg) :=
  ctx_msgqueue <$> context_by_core_id s core.

Definition queues_bounded (s : VirtualMachineSet) : Prop :=
  Forall (fun c => length (ctx_msgqueue c) <= MAX_PENDING_MSG)%nat (contexts s).

Lemma set_queue_lookup core q l vs core' :
  queue (mkSet (set_queue core q l) vs) core' =
  if decide (core' = core) then (fun _ => q) <$> queue (mkSet l vs) core'
  else queue (mkSet l vs) core'.
Proof.
  unfold queue, context_by_core_id. cbn [contexts].
  induction l as [|c l IH]; simpl; [by destruct (decide (core' = core))|].
  destruct (decide (ctx_core_id c = core)) as [Hc|Hc].
  - subst core. destruct (decide (core' = ctx_core_id c)) as [->|Hne].
    + rewrite !filter_cons_True by done. done.
    + rewrite !filter_cons_False by (simpl; congruence). done.
  - destruct (decide (ctx_core_id c = core')) as [<-|Hne].
    + rewrite !filter_cons_True by done. by rewrite decide_False.
    + rewrite !filter_cons_False by done. done.
Qed.

Lemma set_queue_bounded core q l :
  (length q <= MAX_PENDING_MSG)%nat ->
  Forall (fun c => length (ctx_msgqueue c) <= MAX_PENDING_MSG)%nat l ->
  Forall (fun c => length (ctx_msgqueue c) <= MAX_PENDING_MSG)%nat (set_queue core q l).
Proof.
  intros Hq. induction 1 as [|c l Hc Hl IH]; simpl; [constructor|].
  case_decide; constructor; done.
Qed.

Lemma queue_Some s core c :
  context_by_core_id s core = Some c -> queue s core = Some (ctx_msgqueue c).
Proof. unfold queue. by intros ->. Qed.

Lemma queue_bounded s core q :
  queues_bounded s -> queue s core = Some q -> (length q <= MAX_PENDING_MSG)%nat.
Proof.
  unfold queue. intros Hb. destruct (context_by_core_id s core) as [c|] eqn:Hc; [|done]. intros [= <-].
  apply head_Some_elem_of, list_elem_of_filter in Hc as [_ Hc].
  unfold queues_bounded in Hb. rewrite Forall_forall in Hb. by apply Hb.
Qed.

Lemma send_msg_core_spec msg core notify s hw :
  let '((s', hw'), r) := send_msg_core msg core notify (s, hw) in
  vms s' = vms s /\
  match queue s core with
  | None => r = Err NotFound /\ s' = s /\ hw' = hw
  | Some q =>
      if bool_decide (length q < MAX_PENDING_MSG)%nat then
        r = Ok tt /\ contexts s' = set_queue core (q ++ [msg]) (contexts s) /\
        (forall core', queue s' core' = if decide (core' = core) then Some (q ++ [msg]) else queue s core') /\
        hw' = (if notify then
                 mkHw (hw_pos hw) (msr_writes hw ++
                   [(IA32_X2APIC_ICR, icr_value core NoShorthand Edge Assert Physical Fixed vector_IPC)])
               else hw)
      else r = Err (InvalidValue (Msg "RX queue is full for core_id = {}" [core])) /\ s' = s /\ hw' = hw
  end.
Proof.
  unfold send_msg_core, queue at 1. destruct (context_by_core_id s core) as [c|] eqn:Hc; [|done].
  cbn [fmap option_fmap option_map]. case_bool_decide as Hl; [|done].
  assert (forall core', queue (mkSet (set_queue core (ctx_msgqueue c ++ [msg]) (contexts s)) (vms s)) core' =
    if decide (core' = core) then Some (ctx_msgqueue c ++ [msg]) else queue s core') as Hq.
  { intros core'. rewrite set_queue_lookup. case_decide as Hd; [|by destruct s].
    subst. destruct s as [cs vs]. cbn [contexts vms]. by rewrite (queue_Some _ _ c). }
  destruct notify; done.
Qed.
End vm.
Arguments VirtualMachine : clear implicits.
Arguments VirtualMachineSet : clear implicits.
Arguments DispatchState : clear implicits.

(** C20: the per-core queues are bounded FIFO channels.  Sending appends to the
    queue of the addressed core and to no other, raises exactly one IPI with the
    IPC vector when asked to notify, fails with [NotFound] for a core without a
    queue and with [InvalidValue] on a queue of 100 messages, and a failed send
    changes nothing; the bound is kept. *)
Theorem send_msg_core_fifo {D} msg core notify (s : VirtualMachineSet D) hw :
  queues_bounded s ->
  let '((s', hw'), r) := send_msg_core msg core notify (s, hw) in
  queues_bounded s' /\ vms s' = vms s /\
  match queue s core with
  | None => r = Err NotFound /\ s' = s /\ hw' = hw
  | Some q =>
      if bool_decide (length q < 100)%nat then
        r = Ok tt /\
        (forall core', queue s' core' = if decide (core' = core) then Some (q ++ [msg]) else queue s core') /\
        msr_writes hw' = msr_writes hw ++
          (if notify then [(IA32_X2APIC_ICR, icr_value core NoShorthand Edge Assert Physical Fixed vector_IPC)] else [])
      else r = Err (InvalidValue (Msg "RX queue is full for core_id = {}" [core])) /\ s' = s /\ hw' = hw
  end.
Proof.
  intros Hb. pose proof (send_msg_core_spec msg core notify s hw) as Hs.
  destruct (send_msg_core msg core notify (s, hw)) as [[s' hw'] r]. destruct Hs as [Hv Hs].
  destruct (queue s core) as [q|] eqn:Hq; [|by destruct Hs as (-> & -> & ->)].
  unfold MAX_PENDING_MSG in Hs. case_bool_decide as Hl; [|by destruct Hs as (-> & -> & ->)].
  destruct Hs as (-> & Hc & Hqs & ->). split_and!; try done.
  - unfold queues_bounded. rewrite Hc. apply set_queue_bounded; [|done].
    rewrite length_app. unfold MAX_PENDING_MSG. simpl. lia.
  - destruct notify; [done|]. by rewrite app_nil_r.
Qed.

Lemma send_msg_core_fifo_witness :
  let s := mkSet (D := unit) [mkContext 1 0 [StartVcpu 0x8000]; mkContext 2 0 []] [] in
  let '((s', hw'), r) := send_msg_core (GrantConsole 0x3f8) 1 true (s, mkHw 0 []) in
  r = Ok tt /\ queue s' 1 = Some [StartVcpu 0x8000; GrantConsole 0x3f8].
Proof.
  pose proof (send_msg_core_fifo (D := unit) (GrantConsole 0x3f8) 1 true
    (mkSet [mkContext 1 0 [StartVcpu 0x8000]; mkContext 2 0 []] []) (mkHw 0 [])) as H.
  cbv zeta. destruct (send_msg_core _ _ _ _) as [[s' hw'] r].
  destruct H as (_ & _ & -> & Hq & _).
  - repeat constructor; simpl; unfold MAX_PENDING_MSG; lia.
  - split; [reflexivity|]. rewrite Hq. reflexivity.
Defined.

(** Receiving, one message or all of them. *)
Lemma recv_spec {D} core (s : VirtualMachineSet D) q :
  queue s core = Some q ->
  (exists s', recv_all_msgs core s = (s', Ok q) /\ vms s' = vms s /\
     forall core', queue s' core' = if decide (core' = core) then Some [] else queue s core') /\
  (exists s', recv_msg core s = (s', Ok (head q)) /\ vms s' = vms s /\
     forall core', queue s' core' = if decide (core' = core) then Some (tail q) else queue s core').
Proof.
  intros Hq. assert (exists c, context_by_core_id s core = Some c /\ q = ctx_msgqueue c) as (c & Hc & ->).
  { unfold queue in Hq. destruct (context_by_core_id s core) as [c|]; [|done]. injection Hq as <-. eauto. }
  assert (forall q' core', queue (mkSet (set_queue core q' (contexts s)) (vms s)) core' =
    if decide (core' = core) then Some q' else queue s core') as Hset.
  { intros q' core'. rewrite set_queue_lookup. destruct s as [cs vs]. cbn [contexts vms] in *.
    case_decide; [|done]. subst. by rewrite Hq. }
  unfold recv_all_msgs, recv_msg. rewrite Hc. split; [by eexists|].
  destruct (ctx_msgqueue c) as [|m q'] eqn:E; eexists; (split; [done|]); (split; [done|]); [|done].
  intros core'. case_decide; [|done]. subst. by rewrite Hq.
Qed.

(** receiving.  [recv_all_msgs] returns every message of the core's queue in
    the order they were sent and empties it; [recv_msg] returns and removes the
    oldest; other cores' queues are untouched. *)
Lemma recv_msgs_order {D} core (s : VirtualMachineSet D) q :
  queue s core = Some q ->
  (let '(s', r) := recv_all_msgs core s in
   r = Ok q /\ forall core', queue s' core' = if decide (core' = core) then Some [] else queue s core') /\
  (let '(s', r) := recv_msg core s in
   r = Ok (head q) /\ forall core', queue s' core' = if decide (core' = core) then Some (tail q) else queue s core').
Proof.
  intros Hq. destruct (recv_spec core s q Hq) as [(s1 & -> & _ & H1) (s2 & -> & _ & H2)]. done.
Qed.

Lemma recv_msgs_order_witness :
  let s := mkSet (D := unit) [mkContext 1 0 [StartVcpu 0x8000; GrantConsole 4]] [] in
  snd (recv_all_msgs 1 s) = Ok [StartVcpu 0x8000; GrantConsole 4].
Proof.
  cbv zeta. destruct (recv_msgs_order 1 (mkSet (D := unit) [mkContext 1 0 [StartVcpu 0x8000; GrantConsole 4]] [])
    [StartVcpu 0x8000; GrantConsole 4]) as [H _]; [reflexivity|].
  destruct (recv_all_msgs _ _) as [s' r]. destruct H as [-> _]. reflexivity.
Defined.

(** An event for a port no device claims is answered by the machine itself: a
    read leaves all zero bytes in its buffer, a write is dropped, neither touches
    a device, guest memory or the rest of the core; for an unclaimed address, and for any other event,
    the result is [MissingDevice]. *)
Lemma dispatch_unclaimed {W D} `{EmulatedDevice W D} ident cr3 (s : DispatchState W D) :
  find_device ident (ds_vm s) = None ->
  let '(s', r) := dispatch_event ident cr3 s in
  ds_vm s' = ds_vm s /\ ds_world s' = ds_world s /\ ds_host s' = ds_host s /\ ds_responses s' = ds_responses s /\
  match ds_kind s with
  | PortRead p req => r = Ok tt /\ exists req', ds_kind s' = PortRead p req' /\
      PortReadRequest.len req' = PortReadRequest.len req /\
      Forall (fun b => b = 0) (PortReadRequest.as_slice req')
  | PortWrite _ _ => r = Ok tt /\ ds_kind s' = ds_kind s
  | _ => r = Err (MissingDevice (str "Unable to dispatch event")) /\ ds_kind s' = ds_kind s
  end.
Proof.
  intros Hn. unfold dispatch_event. rewrite Hn.
  destruct (ds_kind s) as [b|a d|a d|p req|p req] eqn:Hk; try (by split_and!; rewrite ?Hk).
  destruct req; cbn; (split_and!; try done); eexists; split_and!; try done; repeat constructor.
Qed.

Lemma dispatch_unclaimed_witness :
  let dev : EmulatedDevice unit unit := {| services := fun _ => []; on_event := fun s => (s, Ok tt) |} in
  let v := mkVm (D := unit) 0 [0] 32 None [] device_map_default 4096 0 [] 0 in
  find_device (IdentPort 0x80) v = None /\
  snd (@dispatch_event unit unit dev (IdentPort 0x80) 0
         (mkDispatch v (PortRead 0x80 (PortReadRequest.OneByte 7)) [] empty_space tt)) = Ok tt.
Proof.
  cbv zeta. split; [reflexivity|].
  pose proof (@dispatch_unclaimed unit unit {| services := fun _ => []; on_event := fun s => (s, Ok tt) |} (IdentPort 0x80) 0
    (mkDispatch (mkVm (D := unit) 0 [0] 32 None [] device_map_default 4096 0 [] 0)
       (PortRead 0x80 (PortReadRequest.OneByte 7)) [] empty_space tt) eq_refl) as H.
  destruct (dispatch_event _ _ _) as [s' r]. destruct H as (_ & _ & _ & _ & -> & _). reflexivity.
Defined.
