(* ===== verification/VmMemory.v ===== *)
(** * Building a guest's memory ([setup_ept] and its helpers in
    [mythril/src/vm.rs], [mythril/src/boot_info.rs])

    The guest's physical memory is made of freshly allocated pages: first the
    BIOS image at its two addresses, then the configured images, then a zero page
    for every remaining page below the configured size. *)

From S2P Require Import Prelude Error BTreeMap Memory GuestMemory VirtDev Vm.

Record BootModule := mkModule { module_identifier : option string; module_data : list Z }.

(** [BootInfo::find_module] *)
Definition find_module (modules : list BootModule) (ident : string) : option BootModule :=
  head (filter (fun m => module_identifier m = Some ident) modules).

(** [slice.chunks(4096)] *)
Fixpoint chunks (fuel : nat) (l : list Z) : list (list Z) :=
  match fuel, l with
  | S fuel, _ :: _ => take 4096 l :: chunks fuel (drop 4096 l)
  | _, _ => []
  end.

Section build.
Context `{HostAlloc}.

(** One round of [map_data]: a fresh page holding the chunk, mapped writable. *)
Definition map_chunk (root addr : Z) (chunk : list Z) : st Host unit :=
  frame_ptr ← box_new_page;
  frame ← lift (from_start_address frame_ptr);
  _ ← as_mut_array frame_ptr (blit (replicate 4096 0) 0 chunk);
  map_frame root addr frame false.

Fixpoint map_chunks (root addr : Z) (l : list (list Z)) : st Host unit :=
  match l with
  | [] => mret tt
  | c :: r => _ ← map_chunk root (u64 addr) c; map_chunks root (addr + 4096) r
  end.

Definition map_data (root : Z) (image : list Z) (addr : Z) : st Host unit :=
  map_chunks root addr (chunks (length image) image).

Definition map_image (root : Z) (modules : list BootModule) (image : string) (addr : Z) : st Host unit :=
  match find_module modules image with
  | None => err (InvalidValue (str "No such module '{}'"))
  | Some m => map_data root (module_data m) addr
  end.

Definition map_bios (root : Z) (bios : list Z) : st Host unit :=
  let bios_size := Z.of_nat (length bios) in
  _ ← map_data root bios (u64 (1024 * 1024 - bios_size));
  map_data root bios (u64 (4 * 1024 * 1024 * 1024 - bios_size)).

(** The page loop of [setup_ept]: a page that is already mapped is left alone. *)
Fixpoint map_pages (n : nat) (i root : Z) : st Host unit :=
  match n with
  | O => mret tt
  | S n => fun h =>
      match map_new_frame root (u64 (i * 4096)) false h with
      | (h, Ok _) => map_pages n (i + 1) root h
      | (h, Err (DuplicateMapping _)) => map_pages n (i + 1) root h
      | (h, r) => (h, r)
      end
  end.

Definition setup_ept (bios : list Z) (modules : list BootModule) (images : list (string * Z))
    (memory : Z) : st Host Z :=
  guest_space ← space_new;
  _ ← map_bios guest_space bios;
  _ ← st_iter (fun '(name, addr) => map_image guest_space modules name addr) images;
  _ ← map_pages (Z.to_nat (u64 (Z.shiftl memory 8))) 0 guest_space;
  mret guest_space.

(** ** One page *)

Definition mem_inv (h : Host) (root : Z) : Prop :=
  ept_wf (tables h) root /\ frames_ok h root /\ frames_unshared h root.

Context `{!HostAllocLaws}.

Lemma map_guest_memory_frame h root ga hf ro h' r :
  ept_wf (tables h) root -> 0 <= hf < 2 ^ 52 -> hf mod 4096 = 0 ->
  map_guest_memory root ga hf ro h = (h', r) ->
  ept_wf (tables h') root /\ frames h' = frames h /\
  match r with
  | Ok _ => page_map h root (guest_pfn ga) = None /\
      forall q, page_map h' root q =
        if decide (guest_pfn (4096 * q) = guest_pfn ga) then Some (hf, negb ro) else page_map h root q
  | Err e => (exists m, e = DuplicateMapping m) /\ is_Some (page_map h root (guest_pfn ga)) /\
      forall q, page_map h' root q = page_map h root q
  | Panic w => w = "allocation error" /\ forall q, page_map h' root q = page_map h root q
  end.
Proof.
  intros Hwf Hr Hm Hmap. destruct (leaf_entry_spec hf ro Hr Hm) as (He & Hw & Hu).
  pose proof (map_guest_memory_spec h root ga hf ro Hwf (proj2 (aligned_mod _) Hm) Hu) as Hs.
  rewrite Hmap in Hs. destruct Hs as (Hwf' & Hf & _ & Hs). split; [done|]. split; [done|].
  unfold page_map. rewrite <- leaf_at_pfn. destruct r as [[]|e|w].
  - destruct Hs as [-> Hs]. split; [done|]. intros q. rewrite Hs. case_decide; [|done]. simpl. by rewrite He, Hw.
  - destruct Hs as (-> & [x ->] & Hs). split_and!; [by eexists|by eexists|]. intros q. by rewrite Hs.
  - destruct Hs as (-> & _ & Hs). split; [done|]. intros q. by rewrite Hs.
Qed.

(** The range of page numbers the tables can address. *)
Lemma pfn_of_small q : 0 <= q < 2 ^ 36 -> guest_pfn (4096 * q) = q.
Proof. intros. unfold guest_pfn. pow2_literals. Z.to_euclidean_division_equations. lia. Qed.

Lemma page_map_pfn h root q : page_map h root q = page_map h root (guest_pfn (4096 * q)).
Proof. unfold page_map. by rewrite <- leaf_at_pfn. Qed.

(** Mapping a fresh page with known content. *)
Lemma fresh_page h root ga a content r h' :
  mem_inv h root -> host_alloc h = Some a -> length content = 4096%nat ->
  map_guest_memory root ga a false
    (mkHost (tables h) (<[a := content]> (<[a := replicate 4096 0]> (frames h)))) = (h', r) ->
  mem_inv h' root /\
  match r with
  | Ok _ => ~ mapped h root ga /\
      (forall x, mapped h' root x <-> guest_pfn x = guest_pfn ga \/ mapped h root x) /\
      forall x, guest_byte h' root x =
        if decide (guest_pfn x = guest_pfn ga) then content !! Z.to_nat (x mod 4096) else guest_byte h root x
  | Err e => (exists m, e = DuplicateMapping m) /\ mapped h root ga /\
      (forall x, mapped h' root x <-> mapped h root x) /\
      forall x, guest_byte h' root x = guest_byte h root x
  | Panic w => w = "allocation error"
  end.
Proof.
  intros (Hwf & Hok & Hun) Ha Hl Hmap.
  destruct (alloc_fresh h a Ha) as [_ Hfa]. pose proof (alloc_range h a Ha) as Hra.
  rewrite insert_insert_eq in Hmap. set (h1 := mkHost (tables h) (<[a := content]> (frames h))) in *.
  destruct (map_guest_memory_frame h1 root ga a false h' r) as (Hwf' & Hf' & Hr);
    [done|lia|by apply (alloc_aligned h)|done|].
  change (page_map h1) with (page_map h) in Hr.
  assert (forall q f w, page_map h root q = Some (f, w) -> f <> a) as Hne.
  { intros q f w Hq ->. destruct (Hok _ _ _ Hq) as (_ & fr & Hfr & _). congruence. }
  assert (frames_ok h' root /\ frames_unshared h' root) as [Hok' Hun'].
  { assert (forall q f w, page_map h' root q = Some (f, w) -> page_map h root q = Some (f, w) \/
      (f = a /\ guest_pfn (4096 * q) = guest_pfn ga /\ is_ok r = true)) as Hcase.
    { intros q f w. destruct r as [[]|e|w'].
      - destruct Hr as [_ ->]. case_decide; [|by left]. intros [= <- <-]. by right.
      - destruct Hr as (_ & _ & ->). by left.
      - destruct Hr as (_ & ->). by left. }
    split.
    - intros q f w Hq. rewrite Hf'. cbn [frames h1]. destruct (Hcase q f w Hq) as [Hq'|(-> & _)].
      + rewrite lookup_insert_ne by (intros ->; by eapply Hne). by eapply Hok.
      + rewrite lookup_insert_eq. split; [lia|eauto].
    - intros q q' f w w' Hq Hq' H1 H2.
      destruct (Hcase _ _ _ H1) as [H1'|(-> & E1 & _)], (Hcase _ _ _ H2) as [H2'|(E & E2 & _)].
      + by eapply Hun.
      + subst f. by destruct (Hne _ _ _ H1').
      + by destruct (Hne _ _ _ H2').
      + rewrite pfn_of_small in E1, E2 by done. congruence. }
  split; [done|]. destruct r as [[]|e|w]; [| |by destruct Hr].
  - destruct Hr as [Hnone Hr]. split; [unfold mapped; rewrite Hnone; by intros ?%is_Some_None|].
    assert (forall x, page_map h' root (guest_pfn x) =
      if decide (guest_pfn x = guest_pfn ga) then Some (a, true) else page_map h root (guest_pfn x)) as Hp.
    { intros x. rewrite Hr, pfn_of_pfn. done. }
    split.
    + intros x. unfold mapped. rewrite Hp. case_decide; [|naive_solver]. split; [by left|by eexists].
    + intros x. unfold guest_byte. rewrite Hp, Hf'. case_decide.
      * simpl. by rewrite lookup_insert_eq.
      * destruct (page_map h root (guest_pfn x)) as [[f w]|] eqn:Hx; [|done]. simpl.
        rewrite lookup_insert_ne by (intros ->; by eapply Hne). done.
  - destruct Hr as (He & Hs & Hr). split; [done|]. split; [done|]. split.
    + intros x. unfold mapped. by rewrite Hr.
    + intros x. unfold guest_byte. rewrite Hr, Hf'.
      destruct (page_map h root (guest_pfn x)) as [[f w]|] eqn:Hx; [|done]. simpl.
      rewrite lookup_insert_ne by (intros ->; by eapply Hne). done.
Qed.

(** ** Images *)

Lemma map_chunk_spec h root ga chunk :
  mem_inv h root -> (length chunk <= 4096)%nat ->
  let '(h', r) := map_chunk root ga chunk h in
  mem_inv h' root /\
  match r with
  | Ok _ => ~ mapped h root ga /\
      (forall x, mapped h' root x <-> guest_pfn x = guest_pfn ga \/ mapped h root x) /\
      forall x, guest_byte h' root x =
        if decide (guest_pfn x = guest_pfn ga) then Some (default 0 (chunk !! Z.to_nat (x mod 4096)))
        else guest_byte h root x
  | Err e => (exists m, e = DuplicateMapping m) /\ mapped h root ga
  | Panic w => w = "allocation error"
  end.
Proof.
  intros Hinv Hl. unfold map_chunk. rewrite st_bind_eq. unfold box_new_page.
  destruct (host_alloc h) as [a|] eqn:Ha; [|done]. rewrite st_bind_eq. unfold lift, from_start_address.
  rewrite (proj2 (aligned_mod a) (alloc_aligned h a Ha)). cbn [negb]. rewrite st_bind_eq.
  unfold as_mut_array. cbn [tables frames]. change (Z.to_nat BASE_PAGE_SIZE) with 4096%nat.
  set (content := blit (replicate 4096 0) 0 chunk).
  assert (length content = 4096%nat) as Hlc by (unfold content; rewrite length_blit; rewrite length_replicate; lia).
  assert (forall i, (i < 4096)%nat -> content !! i = Some (default 0 (chunk !! i))) as Hc.
  { intros i Hi. unfold content. rewrite lookup_blit by (rewrite length_replicate; lia).
    case_decide as Hd.
    - rewrite Nat.sub_0_r. destruct (lookup_lt_is_Some_2 chunk i) as [b ->]; [lia|done].
    - rewrite lookup_replicate_2 by done. by rewrite lookup_ge_None_2 by lia. }
  unfold map_frame. destruct (map_guest_memory _ _ _ _ _) as [h' r] eqn:Hm.
  destruct (fresh_page h root ga a content r h' Hinv Ha Hlc Hm) as [Hinv' Hr]. split; [done|].
  destruct r as [[]|e|w]; [|by destruct Hr as (? & ? & _)|done]. destruct Hr as (Hn & Hmp & Hb). split_and!; [done..|].
  intros x. rewrite Hb. case_decide; [|done]. apply Hc.
  pose proof (Z.mod_pos_bound x 4096). lia.
Qed.

Lemma map_chunks_spec root : forall fuel image addr h,
  mem_inv h root -> (length image <= fuel)%nat -> addr mod 4096 = 0 -> 0 <= addr ->
  addr + 4096 * Z.of_nat (length (chunks fuel image)) <= 2 ^ 48 ->
  let '(h', r) := map_chunks root addr (chunks fuel image) h in
  mem_inv h' root /\
  match r with
  | Ok _ => forall x, 0 <= x < 2 ^ 48 ->
      (guest_byte h' root x =
        if decide (addr <= x < addr + 4096 * Z.of_nat (length (chunks fuel image)))
        then Some (default 0 (image !! Z.to_nat (x - addr))) else guest_byte h root x) /\
      (mapped h root x -> mapped h' root x /\ ~ (addr <= x < addr + 4096 * Z.of_nat (length (chunks fuel image))))
  | Err e => (exists m, e = DuplicateMapping m) /\
      exists x, addr <= x < addr + 4096 * Z.of_nat (length (chunks fuel image)) /\ mapped h root x
  | Panic w => w = "allocation error"
  end.
Proof.
  induction fuel as [|fuel IH]; intros image addr h Hinv Hl Ha Ha0 Hend.
  { destruct image; [|simpl in Hl; lia]. cbn [chunks map_chunks length]. split; [done|].
    intros x Hx. rewrite decide_False by lia. split; [done|]. intros Hm. split; [done|lia]. }
  destruct image as [|b image].
  { cbn [chunks map_chunks length]. split; [done|].
    intros x Hx. rewrite decide_False by lia. split; [done|]. intros Hm. split; [done|lia]. }
  assert (chunks (S fuel) (b :: image) = take 4096 (b :: image) :: chunks fuel (drop 4096 (b :: image))) as E
    by reflexivity.
  set (img := b :: image) in *. rewrite E in Hend |- *. clear E.
  rewrite length_cons in Hend |- *. set (n := length (chunks fuel (drop 4096 img))) in *.
  cbn [map_chunks]. rewrite st_bind_eq.
  replace (u64 addr) with addr by (symmetry; apply wrap_small; unfold is_u; lia).
  pose proof (map_chunk_spec h root addr (take 4096 img) Hinv) as Hc.
  destruct (map_chunk root addr (take 4096 img) h) as [h1 r1].
  destruct Hc as [Hinv1 Hr1]; [rewrite length_take; lia|].
  destruct r1 as [[]|e|w].
  2: { split; [done|]. destruct Hr1 as [He Hm]. split; [done|]. exists addr. split; [lia|done]. }
  2: { split; done. }
  destruct Hr1 as (Hfree & Hmap1 & Hb1).
  pose proof (IH (drop 4096 img) (addr + 4096) h1 Hinv1) as Hi.
  destruct (map_chunks root (addr + 4096) _ h1) as [h' r].
  destruct Hi as [Hinv' Hr]; [rewrite length_drop; unfold img in *; simpl in *; lia| |lia|lia|].
  { clear -Ha. Z.to_euclidean_division_equations. lia. }
  split; [done|]. fold n in Hr. destruct r as [[]|e|w]; [| |done].
  - intros x Hx. destruct (Hr x Hx) as [Hb Hm].
    pose proof (same_page_iff x addr Hx ltac:(lia) Ha) as Hsp. split.
    + rewrite Hb, Hb1.
      destruct (decide (guest_pfn x = guest_pfn addr)) as [E|E].
      * rewrite decide_False by (apply Hsp in E; lia). apply Hsp in E. rewrite decide_True by lia.
        assert (x mod 4096 = x - addr) as -> by (clear -Ha E; Z.to_euclidean_division_equations; lia).
        by rewrite lookup_take_lt by lia.
      * assert (~ (addr <= x < addr + 4096)) as Hn by (intros ?; by apply E, Hsp).
        repeat case_decide; try lia; [|done]. rewrite lookup_drop. do 2 f_equal. f_equal. lia.
    + intros Hmx. destruct Hm as [Hm1 Hm2]; [apply Hmap1; by right|]. split; [done|].
      intros Hin. destruct (decide (addr <= x < addr + 4096)) as [Hf|Hf]; [|lia].
      apply Hfree. unfold mapped. rewrite <- (proj2 Hsp Hf). exact Hmx.
  - destruct Hr as (He & x & Hx & Hm). split; [done|].
    apply Hmap1 in Hm as [E|Hm]; [|exists x; split; [lia|done]].
    apply same_page_iff in E; lia.
Qed.

(** ** All of memory *)

Lemma map_new_frame_spec h root ga :
  mem_inv h root ->
  let '(h', r) := map_new_frame root ga false h in
  mem_inv h' root /\
  match r with
  | Ok _ => forall x, mapped h' root x <-> guest_pfn x = guest_pfn ga \/ mapped h root x
  | Err e => (exists m, e = DuplicateMapping m) /\ mapped h root ga /\
      forall x, mapped h' root x <-> mapped h root x
  | Panic w => w = "allocation error"
  end.
Proof.
  intros Hinv. unfold map_new_frame. rewrite st_bind_eq. unfold box_new_page.
  destruct (host_alloc h) as [a|] eqn:Ha; [|done]. rewrite st_bind_eq. unfold lift, from_start_address.
  rewrite (proj2 (aligned_mod a) (alloc_aligned h a Ha)). cbn [negb].
  change (Z.to_nat BASE_PAGE_SIZE) with 4096%nat. unfold map_frame.
  destruct (map_guest_memory _ _ _ _ _) as [h' r] eqn:Hm.
  destruct (fresh_page h root ga a (replicate 4096 0) r h' Hinv Ha (length_replicate _ _)) as [Hinv' Hr].
  { by rewrite insert_insert_eq. }
  split; [done|]. destruct r as [[]|e|w]; [by destruct Hr as (_ & ? & _)| |done]. destruct Hr as (? & ? & ? & _). done.
Qed.

Lemma map_pages_spec root : forall n i h,
  mem_inv h root -> 0 <= i -> i + Z.of_nat n <= 2 ^ 36 ->
  let '(h', r) := map_pages n i root h in
  mem_inv h' root /\
  match r with
  | Ok _ => (forall x, mapped h root x -> mapped h' root x) /\
      forall x, 4096 * i <= x < 4096 * (i + Z.of_nat n) -> mapped h' root x
  | Err _ => False
  | Panic w => w = "allocation error"
  end.
Proof.
  induction n as [|n IH]; intros i h Hinv Hi Hend; cbn [map_pages].
  { split; [done|]. split; [done|]. intros x Hx. lia. }
  replace (u64 (i * 4096)) with (4096 * i) by (unfold u64; rewrite wrap_small by (unfold is_u; lia); lia).
  pose proof (map_new_frame_spec h root (4096 * i) Hinv) as Hs.
  destruct (map_new_frame root (4096 * i) false h) as [h1 r1]. destruct Hs as [Hinv1 Hr1].
  assert (match r1 with
    | Ok _ | Err (DuplicateMapping _) => mapped h1 root (4096 * i) /\ forall x, mapped h root x -> mapped h1 root x
    | Err _ => False
    | Panic w => w = "allocation error" end) as Hstep.
  { destruct r1 as [[]|e|w]; [| |done].
    - split; [apply Hr1; by left|]. intros x Hx. apply Hr1. by right.
    - destruct Hr1 as ((m & ->) & Hm & Hx). split; [by apply Hx|]. intros x ?. by apply Hx. }
  assert (mapped h1 root (4096 * i) /\ (forall x, mapped h root x -> mapped h1 root x) ->
    let '(h', r) := map_pages n (i + 1) root h1 in
    mem_inv h' root /\
    match r with
    | Ok _ => (forall x, mapped h root x -> mapped h' root x) /\
        forall x, 4096 * i <= x < 4096 * (i + Z.of_nat (S n)) -> mapped h' root x
    | Err _ => False
    | Panic w => w = "allocation error"
    end) as Hrest.
  { intros [Hm Hmono]. pose proof (IH (i + 1) h1 Hinv1) as Hi'.
    destruct (map_pages n (i + 1) root h1) as [h' r].
    destruct Hi' as [Hinv' Hr]; [lia|lia|]. split; [done|]. destruct r as [[]|e|w]; [|done|done].
    destruct Hr as [Hk Hr]. split; [naive_solver|]. intros x Hx.
    destruct (decide (x < 4096 * (i + 1))); [|apply Hr; lia].
    apply Hk. unfold mapped in *. replace (guest_pfn x) with (guest_pfn (4096 * i)); [done|].
    unfold guest_pfn. clear -Hx l Hi Hend. f_equal. Z.to_euclidean_division_equations. lia. }
  destruct r1 as [[]|e|w]; [by apply Hrest| |by split].
  destruct e; try done. by apply Hrest.
Qed.
End build.

(** loading an image into guest memory.  From a consistent guest memory, at a
    page-aligned address, [map_data] makes the guest read exactly the image's bytes
    at that address (and zeros in the rest of its last page), changes no other byte
    of the guest and unmaps nothing; it fails only with [DuplicateMapping], when
    some page of the destination was mapped already, or when the allocator runs
    out; the memory stays consistent in every case. *)
Lemma map_data_loads_image `{HostAlloc} `{!HostAllocLaws} h root image addr :
  mem_inv h root -> addr mod 4096 = 0 -> 0 <= addr -> addr + Z.of_nat (length image) + 4096 <= 2 ^ 48 ->
  let '(h', r) := map_data root image addr h in
  mem_inv h' root /\
  match r with
  | Ok _ =>
      (forall k, (k < length image)%nat -> guest_byte h' root (addr + Z.of_nat k) = image !! k) /\
      (forall x, 0 <= x < 2 ^ 48 -> ~ (addr <= x < addr + Z.of_nat (length image) + 4095) ->
        guest_byte h' root x = guest_byte h root x) /\
      (forall x, 0 <= x < 2 ^ 48 -> mapped h root x -> mapped h' root x)
  | Err e => (exists m, e = DuplicateMapping m) /\
      exists x, addr <= x < addr + Z.of_nat (length image) + 4095 /\ mapped h root x
  | Panic w => w = "allocation error"
  end.
Proof.
  intros Hinv Ha Ha0 Hend. unfold map_data.
  assert (forall fuel img, (length img <= fuel)%nat ->
    Z.of_nat (length img) <= 4096 * Z.of_nat (length (chunks fuel img)) < Z.of_nat (length img) + 4096) as Hn.
  { induction fuel as [|fuel IH]; intros [|b img] Hl; simpl in Hl; try (simpl; lia).
    change (chunks (S fuel) (b :: img)) with (take 4096 (b :: img) :: chunks fuel (drop 4096 (b :: img))).
    rewrite length_cons. specialize (IH (drop 4096 (b :: img))).
    rewrite length_drop in IH. cbn [length] in IH |- *. lia. }
  specialize (Hn (length image) image (le_n _)).
  pose proof (map_chunks_spec root (length image) image addr h Hinv (le_n _) Ha Ha0) as Hs.
  destruct (map_chunks root addr _ h) as [h' r]. destruct Hs as [Hinv' Hr]; [lia|].
  split; [done|]. destruct r as [[]|e|w]; [| |done].
  - split_and!.
    + intros k Hk. destruct (Hr (addr + Z.of_nat k)) as [-> _]; [lia|]. rewrite decide_True by lia.
      replace (Z.to_nat (addr + Z.of_nat k - addr)) with k by lia.
      by destruct (lookup_lt_is_Some_2 image k Hk) as [b ->].
    + intros x Hx Hnx. destruct (Hr x Hx) as [-> _]. by rewrite decide_False by lia.
    + intros x Hx Hm. by destruct (Hr x Hx) as [_ [? _]].
  - destruct Hr as (He & x & Hx & Hm). split; [done|]. exists x. split; [lia|done].
Qed.

Lemma map_data_loads_image_witness :
  let '(h', r) := @map_data pool_alloc 4096 [1; 2; 3] 0x7000 two_pages in
  mem_inv h' 4096.
Proof.
  pose proof (@map_data_loads_image pool_alloc _ two_pages 4096 [1; 2; 3] 0x7000) as H.
  destruct (map_data _ _ _ _) as [h' r]. apply H; [|reflexivity|lia|simpl; lia].
  destruct two_pages_ok as (H1 & H2 & H3 & _). split; [exact H1|split; [exact H2|exact H3]].
Defined.

(** [setup_ept]'s page loop backs every page below the configured size: on
    success all of them are mapped, pages mapped before (BIOS, images) stay mapped,
    and duplicates are the only errors it meets, so the loop itself never fails
    unless the allocator does. *)
Lemma map_pages_covers `{HostAlloc} `{!HostAllocLaws} h root n :
  mem_inv h root -> Z.of_nat n <= 2 ^ 36 ->
  let '(h', r) := map_pages n 0 root h in
  mem_inv h' root /\
  ((r = Ok tt /\ (forall x, mapped h root x -> mapped h' root x) /\
    forall x, 0 <= x < 4096 * Z.of_nat n -> mapped h' root x) \/
   r = Panic "allocation error").
Proof.
  intros Hinv Hn. pose proof (map_pages_spec root n 0 h Hinv) as Hs.
  destruct (map_pages n 0 root h) as [h' r]. destruct Hs as [Hinv' Hr]; [lia|lia|].
  split; [done|]. destruct r as [[]|e|w]; [left|done|right; congruence].
  destruct Hr as [H1 H2]. split_and!; [done|done|]. intros x Hx. apply H2. lia.
Qed.

Lemma map_pages_covers_witness :
  let '(h', r) := @map_pages pool_alloc 3 0 4096 two_pages in mem_inv h' 4096.
Proof.
  pose proof (@map_pages_covers pool_alloc _ two_pages 4096 3) as H.
  destruct (map_pages _ _ _ _) as [h' r]. apply H; [|lia].
  destruct two_pages_ok as (H1 & H2 & H3 & _). split; [exact H1|split; [exact H2|exact H3]].
Defined.
