(* ===== verification/Isolation.v ===== *)
(** * Isolation of guests ([mythril/src/memory.rs], [mythril/src/vm.rs])

    All guest address spaces live in one host memory and are changed by the same
    operations.  A step is one of these operations on behalf of one guest: creating
    its space, loading a page of an image, adding RAM, mapping its APIC access page,
    and writing its memory while a device or an instruction is emulated.  In every
    reachable state the page tables of different guests are disjoint and no host frame
    backs two guests, and a step of one guest changes nothing another one reads. *)

From S2P Require Import Prelude Error BTreeMap Memory GuestMemory VirtDev Vm VmMemory.

(** ** Computations that only read *)

(** [m] changes nothing and returns the same from [h] and [h']. *)
Definition reads_same {A} (m : st Host A) (h h' : Host) : Prop := exists x, m h = (h, x) /\ m h' = (h', x).

Lemma reads_same_bind {A B} (m : st Host A) (k : A -> st Host B) h h' :
  reads_same m h h' -> (forall a, m h = (h, Ok a) -> reads_same (k a) h h') -> reads_same (m ≫= k) h h'.
Proof.
  intros (x & E & E') Hk. unfold reads_same. rewrite !st_bind_eq, E, E'. destruct x as [a|e|w]; [by apply Hk|by eexists..].
Qed.

Lemma reads_same_pure {A} (x : res A) h h' : reads_same (lift x) h h'.
Proof. by exists x. Qed.

Lemma reads_same_ret {A} (a : A) h h' : reads_same (mret a) h h'.
Proof. by eexists. Qed.

Lemma reads_same_err {A} e h h' : reads_same (A := A) (err e) h h'.
Proof. by eexists. Qed.

Lemma reads_same_panic {A} w h h' : reads_same (A := A) (panic w) h h'.
Proof. by eexists. Qed.

#[local] Hint Resolve reads_same_pure reads_same_ret reads_same_err reads_same_panic : core.

Lemma read_entry_same t i h h' : tables h' !! t = tables h !! t -> reads_same (read_entry t i) h h'.
Proof. intros E. unfold reads_same, read_entry. rewrite E. destruct (tables h !! t); by eexists. Qed.

Lemma as_array_same f h h' : frames h' !! f = frames h !! f -> reads_same (as_array f) h h'.
Proof. intros E. unfold reads_same, as_array. rewrite E. destruct (f =? 0); by eexists. Qed.

(** ** What a guest sees *)

(** [h'] has the tables of [root] and the frames they map as they are in [h]. *)
Record same_view (h h' : Host) (root : Z) : Prop := {
  view_tables : forall t, owns (tables h) root t -> tables h' !! t = tables h !! t;
  view_frames : forall q f w, page_map h root q = Some (f, w) -> frames h' !! f = frames h !! f
}.

Lemma same_view_refl h root : same_view h h root.
Proof. by split. Qed.

Lemma walk_same ts ts' root p : (forall t, owns ts root t -> ts' !! t = ts !! t) -> path_ok p ->
  walk ts' root p = walk ts root p.
Proof.
  intros Hs. induction p as [|i p IH] using rev_ind; intros Hp; [done|].
  apply path_ok_app_l in Hp as Hq. rewrite !walk_snoc. unfold leaf. rewrite IH by done.
  destruct (walk ts root p) as [t|] eqn:E; [|done]. simpl. unfold step. rewrite Hs; [done|by exists p].
Qed.

Lemma leaf_same ts ts' root p i : (forall t, owns ts root t -> ts' !! t = ts !! t) -> path_ok p ->
  leaf ts' root p i = leaf ts root p i.
Proof.
  intros Hs Hp. unfold leaf. rewrite (walk_same ts) by done. destruct (walk ts root p) as [t|] eqn:E; [|done].
  simpl. unfold step. rewrite Hs; [done|by exists p].
Qed.

Lemma owns_same ts ts' root t : (forall t, owns ts root t -> ts' !! t = ts !! t) -> owns ts' root t <-> owns ts root t.
Proof. intros Hs. unfold owns. split; intros (p & Hp & Hw); exists p; (split; [done|]); [rewrite <- (walk_same ts ts')|rewrite (walk_same ts ts')]; done. Qed.

Lemma page_map_same h h' root q : (forall t, owns (tables h) root t -> tables h' !! t = tables h !! t) ->
  page_map h' root q = page_map h root q.
Proof. intros Hs. unfold page_map, leaf_at. rewrite (leaf_same (tables h)) by (done || apply path_of_ok). done. Qed.

Lemma ept_wf_same ts ts' root : (forall t, owns ts root t -> ts' !! t = ts !! t) -> ept_wf ts root -> ept_wf ts' root.
Proof.
  intros Hs [Ht Hi]. split.
  - intros p t Hp. rewrite (walk_same ts) by done. intros Hw. rewrite Hs by (by exists p). by apply (Ht p).
  - intros p q t Hp Hq. rewrite (walk_same ts ts' root p), (walk_same ts ts' root q) by done. by apply Hi.
Qed.

Lemma same_view_trans h1 h2 h3 root : same_view h1 h2 root -> same_view h2 h3 root -> same_view h1 h3 root.
Proof.
  intros [T1 F1] [T2 F2]. split.
  - intros t Ht. rewrite T2, T1; [done..|]. by apply (owns_same (tables h1)).
  - intros q f w Hq. rewrite (F2 q f w), (F1 q f w); [done..|]. by rewrite (page_map_same h1).
Qed.

Section reads.
Context `{GuestPaging}.
Variables (h h' : Host) (root : Z).
Hypotheses (Hwf : ept_wf (tables h) root) (Hv : same_view h h' root).

Lemma find_host_frame_same addr : reads_same (find_host_frame root addr) h h'.
Proof.
  pose proof (path_of_ok addr) as Hpo. unfold path_of in Hpo.
  assert (path_ok []) as Hnil by (split; [constructor|simpl; lia]).
  assert (forall p t i, path_ok p -> walk (tables h) root p = Some t -> reads_same (read_entry t i) h h') as Hr.
  { intros p t i Hp Hw. apply read_entry_same, (view_tables _ _ _ Hv). by exists p. }
  assert (forall p t i e, path_ok p -> walk (tables h) root p = Some t -> read_entry t i h = (h, Ok e) -> is_unused e = false ->
    walk (tables h) root (p ++ [i]) = Some (entry_addr e)) as Hnext.
  { intros p t i e Hp Hw He Hu. rewrite walk_snoc. unfold leaf. rewrite Hw. simpl. unfold step.
    unfold read_entry in He. destruct (tables h !! t) as [tbl|]; [|done]. simpl.
    destruct (tbl !! Z.to_nat i) as [e'|]; [|done]. simpl in *. injection He as ->. by rewrite Hu. }
  unfold find_host_frame.
  apply reads_same_bind; [by apply (Hr [])|]. intros e1 H1. destruct (is_unused e1) eqn:U1; [done|].
  apply (Hnext []) in H1; [|done..]. cbn [app] in H1.
  apply reads_same_bind; [apply (Hr [pml4_index addr]); [by apply (path_ok_app_l _ [pdpt_index addr; pd_index addr])|done]|].
  intros e2 H2. destruct (is_unused e2) eqn:U2; [done|].
  apply (Hnext [pml4_index addr]) in H2; [|by apply (path_ok_app_l _ [pdpt_index addr; pd_index addr])|done..]. cbn [app] in H2.
  apply reads_same_bind; [apply (Hr [pml4_index addr; pdpt_index addr]); [by apply (path_ok_app_l _ [pd_index addr])|done]|].
  intros e3 H3. destruct (is_unused e3) eqn:U3; [done|].
  apply (Hnext [pml4_index addr; pdpt_index addr]) in H3; [|by apply (path_ok_app_l _ [pd_index addr])|done..]. cbn [app] in H3.
  apply reads_same_bind; [by apply (Hr [pml4_index addr; pdpt_index addr; pd_index addr])|].
  intros e4 H4. by destruct (is_unused e4).
Qed.

Lemma find_host_frame_maps addr f : find_host_frame root addr h = (h, Ok f) -> exists q w, page_map h root q = Some (f, w).
Proof.
  intros Hf. destruct (find_host_frame_spec h root addr Hwf) as (r & Hr & Hm). rewrite Hf in Hr. injection Hr as <-.
  destruct (page_map h root (guest_pfn addr)) as [[f' w]|] eqn:E; [|by destruct Hm]. injection Hm as ->. by exists (guest_pfn addr), w.
Qed.

(** A frame the space maps, read after it was looked up. *)
Lemma guest_table_entry_same addr f i :
  find_host_frame root addr h = (h, Ok f) -> reads_same (guest_table_entry f i) h h'.
Proof.
  intros (q & w & Hf)%find_host_frame_maps. apply reads_same_bind; [|done].
  by apply as_array_same, (view_frames _ _ _ Hv q f w).
Qed.

Lemma translate_same cr3 a access : reads_same (translate_linear_address root cr3 a access) h h'.
Proof.
  destruct a as [addr|addr]; cbn [translate_linear_address]; [apply reads_same_ret|]. unfold translate_pl4_address.
  do 3 (apply reads_same_bind; [apply find_host_frame_same|intros ? ?];
    apply reads_same_bind; [by eapply guest_table_entry_same|intros ? ?]). done.
Qed.

Lemma frame_iter_same cr3 access a : reads_same (frame_iter_next root cr3 access a).2 h h'.
Proof. apply reads_same_bind; [apply translate_same|]. intros. apply find_host_frame_same. Qed.

Lemma frame_iter_maps cr3 access a f : (frame_iter_next root cr3 access a).2 h = (h, Ok f) ->
  exists q w, page_map h root q = Some (f, w).
Proof.
  unfold frame_iter_next. cbn [snd]. rewrite st_bind_eq. destruct (translate_linear_address root cr3 a access h) as [h1 [x|e|w]] eqn:E; [|done..].
  destruct (translate_same cr3 a access) as (? & E1 & _). rewrite E in E1. injection E1 as -> _.
  apply find_host_frame_maps.
Qed.

Lemma read_bytes_loop_same fuel cr3 access : forall a off len out,
  reads_same (read_bytes_loop fuel root cr3 access a off len out) h h'.
Proof.
  induction fuel as [|fuel IH]; intros a off len out; cbn [read_bytes_loop]; [apply reads_same_panic|].
  destruct (frame_iter_next root cr3 access a) as [a' next] eqn:E.
  assert (next = (frame_iter_next root cr3 access a).2) as -> by (by rewrite E).
  apply reads_same_bind; [apply frame_iter_same|]. intros f (q & w & Hf)%frame_iter_maps.
  apply reads_same_bind; [by apply as_array_same, (view_frames _ _ _ Hv q f w)|]. intros array _.
  apply reads_same_bind; [done|]. intros s _. cbv zeta. case_bool_decide; [done|apply IH].
Qed.

(** A guest whose view did not change reads what it read before, whether its accesses
    go through its own page tables or not. *)
Lemma read_bytes_same cr3 a len access : reads_same (read_bytes root cr3 a len access) h h'.
Proof. apply read_bytes_loop_same. Qed.
End reads.

(** ** Writes *)

(** From [h] to [h'] only frames of [root] change, and they keep their size. *)
Record writes_own (h h' : Host) (root : Z) : Prop := {
  own_tables : tables h' = tables h;
  own_others : forall f, (forall q w, page_map h root q <> Some (f, w)) -> frames h' !! f = frames h !! f;
  own_sizes : frames_ok h root -> frames_ok h' root
}.

Lemma page_map_tables h h' root q : tables h' = tables h -> page_map h' root q = page_map h root q.
Proof. intros E. unfold page_map, leaf_at. by rewrite E. Qed.

Lemma writes_own_refl h root : writes_own h h root.
Proof. by split. Qed.

Lemma writes_own_trans h1 h2 h3 root : writes_own h1 h2 root -> writes_own h2 h3 root -> writes_own h1 h3 root.
Proof.
  intros [T1 O1 S1] [T2 O2 S2]. split; [congruence| |auto]. intros f Hf. rewrite O2, O1; [done..|].
  intros q w. rewrite (page_map_tables h1) by done. apply Hf.
Qed.

Lemma write_own h root q f w fr fr' :
  page_map h root q = Some (f, w) -> frames h !! f = Some fr -> length fr' = length fr ->
  writes_own h (mkHost (tables h) (<[f := fr']> (frames h))) root.
Proof.
  intros Hm Hf Hl. split; [done| |].
  - intros g Hg. cbn [frames]. rewrite lookup_insert_ne; [done|]. intros ->. by eapply Hg.
  - intros Hok q' g w' Hg. change (page_map h root q' = Some (g, w')) in Hg. destruct (Hok _ _ _ Hg) as (H0 & x & Hx & Hlx).
    split; [done|]. cbn [frames]. destruct (decide (f = g)) as [->|]; [|rewrite lookup_insert_ne by done; eauto].
    rewrite lookup_insert_eq. exists fr'. split; [done|]. congruence.
Qed.

Lemma write_bytes_loop_own `{GuestPaging} root cr3 access fuel : forall h a off bytes,
  ept_wf (tables h) root -> frames_ok h root -> (off < 4096)%nat ->
  writes_own h (write_bytes_loop fuel root cr3 access a off bytes h).1 root.
Proof.
  induction fuel as [|fuel IH]; intros h a off bytes Hwf Hok Hoff; [apply writes_own_refl|]. cbn [write_bytes_loop].
  destruct (frame_iter_next root cr3 access a) as [a' next] eqn:E.
  assert (next = (frame_iter_next root cr3 access a).2) as -> by (by rewrite E). clear E.
  destruct (frame_iter_same h h root Hwf (same_view_refl h root) cr3 access a) as (x & Hx & _).
  rewrite st_bind_eq, Hx. destruct x as [f|e|w]; [|apply writes_own_refl..].
  apply (frame_iter_maps h h root Hwf (same_view_refl h root)) in Hx as (q & w & Hm). destruct (Hok _ _ _ Hm) as (Hf0 & fr & Hfr & Hl).
  rewrite st_bind_eq. unfold as_array at 1. rewrite (proj2 (Z.eqb_neq f 0)) by done. rewrite Hfr. cbn [expect].
  case_bool_decide as Hb.
  - unfold as_mut_array. cbn [fst]. apply (write_own h root q f w fr); [done..|]. apply length_blit. lia.
  - rewrite st_bind_eq. unfold as_mut_array.
    set (h1 := mkHost _ _). assert (writes_own h h1 root) as Hw.
    { apply (write_own h root q f w fr); [done..|]. apply length_blit. rewrite length_take. lia. }
    eapply writes_own_trans; [exact Hw|]. apply IH; [done|by apply Hw|lia].
Qed.

Lemma write_bytes_own `{GuestPaging} root cr3 access h a bytes h' r :
  ept_wf (tables h) root -> frames_ok h root -> write_bytes root cr3 a bytes access h = (h', r) -> writes_own h h' root.
Proof.
  intros Hwf Hok Hw. replace h' with (write_bytes root cr3 a bytes access h).1 by (by rewrite Hw).
  apply write_bytes_loop_own; [done..|]. unfold BASE_PAGE_SIZE. pose proof (Z.mod_pos_bound (gva_as_u64 a) 4096). lia.
Qed.

(** ** The invariant *)

(** The guests with the given roots share neither page tables nor frames. *)
Record isolated (h : Host) (roots : list Z) : Prop := {
  iso_wf : forall r, r ∈ roots -> ept_wf (tables h) r;
  iso_frames : forall r, r ∈ roots -> frames_ok h r;
  iso_tables : forall r r' t, r ∈ roots -> r' ∈ roots -> owns (tables h) r t -> owns (tables h) r' t -> r = r';
  iso_pages : forall r r' q q' f w w', r ∈ roots -> r' ∈ roots -> 0 <= q < 2 ^ 36 -> 0 <= q' < 2 ^ 36 ->
    page_map h r q = Some (f, w) -> page_map h r' q' = Some (f, w') -> r = r' /\ q = q'
}.

(** No guest maps the frame [f]. *)
Definition unmapped (h : Host) (roots : list Z) (f : Z) : Prop :=
  forall r q w, r ∈ roots -> page_map h r q <> Some (f, w).

Definition host_page (h : Host) (f : Z) : Prop :=
  0 < f < 2 ^ 52 /\ f mod 4096 = 0 /\ exists fr, frames h !! f = Some fr /\ length fr = 4096%nat.

Lemma isolated_mem_inv h roots r : isolated h roots -> r ∈ roots -> mem_inv h r.
Proof.
  intros [W F T P] Hr. split_and!; [by apply W|by apply F|]. intros q q' f w w' Hq Hq' H1 H2.
  by destruct (P r r q q' f w w').
Qed.

Lemma unallocated_unmapped h roots f : isolated h roots -> frames h !! f = None -> unmapped h roots f.
Proof. intros I Hf r q w Hr Hq. destruct (iso_frames _ _ I r Hr _ _ _ Hq) as (_ & fr & Hfr & _). congruence. Qed.

(** From [h] to [h'] no frame changes, and the guests gain only frames that were not in
    use before. *)
Record builds (h h' : Host) (roots : list Z) : Prop := {
  builds_frames : forall f fr, frames h !! f = Some fr -> frames h' !! f = Some fr;
  builds_spare : forall f, is_Some (frames h !! f) -> unmapped h roots f -> unmapped h' roots f
}.

Lemma builds_refl h roots : builds h h roots.
Proof. by split. Qed.

Lemma builds_trans h1 h2 h3 roots : builds h1 h2 roots -> builds h2 h3 roots -> builds h1 h3 roots.
Proof.
  intros [F1 S1] [F2 S2]. split; [auto|]. intros f [fr Hf] Hu. apply S2; [eauto|]. apply S1; eauto.
Qed.

(** Page numbers the tables tell apart. *)
Lemma page_map_range h root q x : page_map h root q = Some x -> exists q', 0 <= q' < 2 ^ 36 /\ page_map h root q' = Some x /\ q' = guest_pfn (4096 * q).
Proof. intros Hq. exists (guest_pfn (4096 * q)). split; [apply guest_pfn_range|]. by rewrite <- page_map_pfn. Qed.

(** Changing frames no guest maps is invisible. *)
Lemma isolated_spare h roots f fr :
  isolated h roots -> unmapped h roots f ->
  isolated (mkHost (tables h) (<[f := fr]> (frames h))) roots /\
  forall r, r ∈ roots -> same_view h (mkHost (tables h) (<[f := fr]> (frames h))) r.
Proof.
  intros [W F T P] Hf. split; [split|]; [done| |done|done|].
  - intros r Hr q g w Hq. change (page_map h r q = Some (g, w)) in Hq. destruct (F r Hr _ _ _ Hq) as (H0 & x & Hx & Hl).
    split; [done|]. exists x. cbn [frames]. rewrite lookup_insert_ne; [done|]. intros ->. by eapply Hf.
  - intros r Hr. split; [done|]. intros q g w Hq. cbn [frames]. rewrite lookup_insert_ne; [done|]. intros ->. by eapply Hf.
Qed.

Section steps.
Context `{HA : HostAlloc} `{!HostAllocLaws} `{GP : GuestPaging}.

(** Mapping a page no guest has to one guest. *)
Lemma isolated_map h roots root ga f ro h' r :
  isolated h roots -> root ∈ roots -> host_page h f -> unmapped h roots f ->
  map_frame root ga f ro h = (h', r) ->
  isolated h' roots /\ frames h' = frames h /\
  (forall r' g, r' ∈ roots -> (exists q w, page_map h' r' q = Some (g, w)) -> (exists q w, page_map h r' q = Some (g, w)) \/ g = f) /\
  forall r', r' ∈ roots -> r' <> root -> same_view h h' r'.
Proof.
  intros I Hroot (Hr & Hal & fr & Hfr & Hl) Hun Hmap. pose proof I as [W F T P].
  destruct (leaf_entry_spec f ro ltac:(lia) Hal) as (He & _ & Hu).
  pose proof (map_guest_memory_spec h root ga f ro (W _ Hroot) (proj2 (aligned_mod _) Hal) Hu) as Hs.
  unfold map_frame in Hmap. rewrite Hmap in Hs. destruct Hs as (Hwf & Hf & [K O G] & Hs).
  assert (forall q g w, page_map h' root q = Some (g, w) ->
    page_map h root q = Some (g, w) \/ (g = f /\ guest_pfn (4096 * q) = guest_pfn ga)) as Hnew.
  { intros q g w. unfold page_map. destruct r as [[]|e|p].
    - destruct Hs as [_ Hs]. rewrite Hs. case_decide as Hd; [|by left]. simpl. intros [= Hg _]. right. by rewrite <- He.
    - destruct Hs as (_ & _ & Hs). rewrite Hs. by left.
    - destruct Hs as (_ & _ & Hs). rewrite Hs. by left. }
  assert (forall r', r' ∈ roots -> r' <> root -> forall t, owns (tables h) r' t -> tables h' !! t = tables h !! t) as Ho.
  { intros r' Hr' Hne t (p & Hp & Hw). destruct (ept_table _ _ (W r' Hr') p t Hp Hw) as (tbl & Ht & _). rewrite Ht.
    apply O; [done|]. intros Hroot'. apply Hne. apply (T r' root t); [done..|by exists p|done]. }
  assert (forall r', r' ∈ roots -> r' <> root -> forall q, page_map h' r' q = page_map h r' q) as Hsame.
  { intros r' Hr' Hne q. apply page_map_same. by apply Ho. }
  split; [split|split; [done|split]].
  - intros r' Hr'. destruct (decide (r' = root)) as [->|Hne]; [done|]. apply (ept_wf_same (tables h)); [by apply Ho|by apply W].
  - intros r' Hr' q g w Hq. rewrite Hf. destruct (decide (r' = root)) as [->|Hne].
    + apply Hnew in Hq as [Hq|[-> _]]; [by apply (F root Hroot q g w)|]. split; [lia|eauto].
    + rewrite Hsame in Hq by done. by apply (F r' Hr' q g w).
  - assert (forall r' t, r' ∈ roots -> r' <> root -> owns (tables h') root t -> owns (tables h') r' t -> False) as Hx.
    { intros r' t Hr' Hne R1 R2. apply (owns_same (tables h)) in R2; [|by apply Ho]. apply G in R1 as [R1|R1].
      - by apply Hne, (T r' root t).
      - destruct R2 as (p & Hp & Hw). destruct (ept_table _ _ (W r' Hr') p t Hp Hw) as (tbl & Ht & _). congruence. }
    intros r1 r2 t R1 R2 O1 O2. destruct (decide (r1 = root)) as [->|N1], (decide (r2 = root)) as [->|N2]; [done| | |].
    + by destruct (Hx r2 t).
    + by destruct (Hx r1 t).
    + apply (owns_same (tables h)) in O1; [|by apply Ho]. apply (owns_same (tables h)) in O2; [|by apply Ho]. by apply (T r1 r2 t).
  - assert (forall r1 q g w, r1 ∈ roots -> page_map h' r1 q = Some (g, w) ->
      page_map h r1 q = Some (g, w) \/ (r1 = root /\ g = f /\ guest_pfn (4096 * q) = guest_pfn ga)) as Hc.
    { intros r1 q g w R1 Hq. destruct (decide (r1 = root)) as [->|N]; [apply Hnew in Hq as [?|[? ?]]; auto|]. left. by rewrite <- Hsame. }
    intros r1 r2 q1 q2 g w1 w2 R1 R2 Q1 Q2 M1 M2.
    destruct (Hc _ _ _ _ R1 M1) as [M1'|(-> & -> & E1)], (Hc _ _ _ _ R2 M2) as [M2'|(-> & E & E2)].
    + by apply (P r1 r2 q1 q2 g w1 w2).
    + subst g. by destruct (Hun r1 q1 w1).
    + by destruct (Hun r2 q2 w2).
    + split; [done|]. rewrite pfn_of_small in E1, E2 by done. congruence.
  - intros r' g Hr' (q & w & Hq). destruct (decide (r' = root)) as [->|Hne].
    + apply Hnew in Hq as [?|[? _]]; [left; eauto|by right].
    + left. rewrite Hsame in Hq by done. eauto.
  - intros r' Hr' Hne. split; [by apply Ho|]. intros. by rewrite Hf.
Qed.

(** A fresh page with some content, mapped to one guest. *)
Lemma isolated_new_page h roots root ga ro a content h' r :
  isolated h roots -> root ∈ roots -> host_alloc h = Some a -> length content = 4096%nat ->
  map_frame root ga a ro (mkHost (tables h) (<[a := content]> (frames h))) = (h', r) ->
  isolated h' roots /\ builds h h' roots /\ forall r', r' ∈ roots -> r' <> root -> same_view h h' r'.
Proof.
  intros I Hroot Ha Hl Hmap. destruct (alloc_fresh h a Ha) as [_ Hfa].
  pose proof (unallocated_unmapped h roots a I Hfa) as Hun. destruct (isolated_spare h roots a content I Hun) as [I1 V1].
  set (h1 := mkHost _ _) in *.
  destruct (isolated_map h1 roots root ga a ro h' r I1 Hroot) as (I2 & F2 & N2 & V2); [|done|done|].
  - split; [by apply (alloc_range h)|]. split; [by apply (alloc_aligned h)|]. exists content. split; [apply lookup_insert_eq|done].
  - split; [done|]. split; [split|].
    { intros f fr Hf. rewrite F2. unfold h1. cbn [frames]. rewrite lookup_insert_ne; [done|]. congruence. }
    { intros f [fr Hf] Hu r' q w Hr' Hq. destruct (N2 r' f Hr') as [(q' & w' & Hq')| ->]; [eauto| |congruence].
      by apply (Hu r' q' w'). }
    intros r' Hr' Hne. apply (same_view_trans h h1); [by apply V1|by apply V2].
Qed.

Lemma isolated_chunk h roots root ga chunk h' r :
  isolated h roots -> root ∈ roots -> (length chunk <= 4096)%nat -> map_chunk root ga chunk h = (h', r) ->
  isolated h' roots /\ builds h h' roots /\ forall r', r' ∈ roots -> r' <> root -> same_view h h' r'.
Proof.
  intros I Hroot Hl. unfold map_chunk. rewrite st_bind_eq. unfold box_new_page.
  destruct (host_alloc h) as [a|] eqn:Ha; [|intros [= <- _]; split; [done|]; split; [apply builds_refl|intros; apply same_view_refl]].
  rewrite st_bind_eq. unfold lift, from_start_address. rewrite (proj2 (aligned_mod a) (alloc_aligned h a Ha)). cbn [negb].
  rewrite st_bind_eq. unfold as_mut_array. cbn [tables frames]. rewrite insert_insert_eq. intros Hm.
  eapply isolated_new_page; [done..| |exact Hm]. rewrite length_blit; rewrite length_replicate; lia.
Qed.

Lemma isolated_ram h roots root ga ro h' r :
  isolated h roots -> root ∈ roots -> map_new_frame root ga ro h = (h', r) ->
  isolated h' roots /\ builds h h' roots /\ forall r', r' ∈ roots -> r' <> root -> same_view h h' r'.
Proof.
  intros I Hroot. unfold map_new_frame. rewrite st_bind_eq. unfold box_new_page.
  destruct (host_alloc h) as [a|] eqn:Ha; [|intros [= <- _]; split; [done|]; split; [apply builds_refl|intros; apply same_view_refl]].
  rewrite st_bind_eq. unfold lift, from_start_address. rewrite (proj2 (aligned_mod a) (alloc_aligned h a Ha)). cbn [negb].
  intros Hm. eapply isolated_new_page; [done..| |exact Hm]. apply length_replicate.
Qed.

(** A guest that changes only its own frames. *)
Lemma isolated_own h roots root h' :
  isolated h roots -> root ∈ roots -> writes_own h h' root ->
  isolated h' roots /\ forall r', r' ∈ roots -> r' <> root -> same_view h h' r'.
Proof.
  intros I Hroot [Ht Ho Hs]. pose proof I as [W F T P].
  assert (forall r' q, page_map h' r' q = page_map h r' q) as Hpm by (intros; by apply page_map_tables).
  assert (forall r' q f w, r' ∈ roots -> r' <> root -> page_map h r' q = Some (f, w) -> frames h' !! f = frames h !! f) as Hfr.
  { intros r' q f w Hr' Hne Hq. apply Ho. intros q2 w2 Hq2.
    apply page_map_range in Hq as (x & Hx & Hq & _). apply page_map_range in Hq2 as (x2 & Hx2 & Hq2 & _).
    by destruct (P r' root x x2 f w w2). }
  split; [split|].
  - intros r' Hr'. rewrite Ht. by apply W.
  - intros r' Hr'. destruct (decide (r' = root)) as [->|Hne]; [by apply Hs, F|].
    intros q f w. rewrite Hpm. intros Hq. rewrite (Hfr r' q f w) by done. by apply (F r' Hr' q f w).
  - rewrite Ht. apply T.
  - intros r1 r2 q1 q2 f w1 w2. rewrite !Hpm. apply P.
  - intros r' Hr' Hne. split; [by rewrite Ht|]. intros q f w. by apply Hfr.
Qed.

Lemma isolated_write h roots root cr3 a bytes access h' r :
  isolated h roots -> root ∈ roots -> write_bytes root cr3 a bytes access h = (h', r) ->
  isolated h' roots /\ forall r', r' ∈ roots -> r' <> root -> same_view h h' r'.
Proof.
  intros I Hroot Hw. apply (isolated_own h roots root); [done..|].
  apply write_bytes_own in Hw; [done|by apply (iso_wf _ _ I)|by apply (iso_frames _ _ I)].
Qed.

Lemma isolated_new_space h roots h' root :
  isolated h roots -> space_new h = (h', Ok root) ->
  isolated h' (root :: roots) /\ root ∉ roots /\ frames h' = frames h /\ (forall q, page_map h' root q = None) /\
  forall r', r' ∈ roots -> same_view h h' r'.
Proof.
  intros I. pose proof I as [W F T P]. unfold space_new, box_new_table.
  destruct (host_alloc h) as [a|] eqn:Ha; [|done]. intros [= <- <-]. destruct (alloc_fresh h a Ha) as [Hta _].
  set (ts := <[a := replicate PAGE_SIZE_ENTRIES 0]> (tables h)).
  assert (path_ok []) as Hnil by (split; [constructor|simpl; lia]).
  assert (forall r' t, r' ∈ roots -> owns (tables h) r' t -> t <> a) as Hna.
  { intros r' t Hr' (p & Hp & Hw) ->. destruct (ept_table _ _ (W r' Hr') p a Hp Hw) as (x & Hx & _). congruence. }
  assert (forall r', r' ∈ roots -> forall t, owns (tables h) r' t -> ts !! t = tables h !! t) as Ho.
  { intros r' Hr' t Ht. unfold ts. rewrite lookup_insert_ne; [done|]. intros <-. by eapply Hna. }
  assert (forall p t, walk ts a p = Some t -> p = [] /\ t = a) as Hw.
  { intros [|i p] t; simpl; [naive_solver|]. unfold ts. by rewrite step_empty_table. }
  assert (forall q, page_map (mkHost ts (frames h)) a q = None) as Hp0.
  { intros q. unfold page_map, leaf_at, leaf, path_of. cbn [tables walk]. unfold ts. by rewrite step_empty_table. }
  assert (a ∉ roots) as Har by (intros Hin; eapply (Hna a a Hin); [by exists []|done]).
  assert (forall r', r' ∈ a :: roots -> r' = a \/ r' ∈ roots) as Hr by (intros r'; by rewrite elem_of_cons).
  assert (forall r' q, r' ∈ roots -> page_map (mkHost ts (frames h)) r' q = page_map h r' q) as Hpm
    by (intros r' q Hr'; apply page_map_same; by apply Ho).
  split; [split|split_and!; [done..|]].
  - intros r' [->|Hr']%Hr; [|apply (ept_wf_same (tables h)); [by apply Ho|by apply W]]. split.
    + intros p t _ [-> ->]%Hw. exists (replicate PAGE_SIZE_ENTRIES 0). split; [apply lookup_insert_eq|apply length_replicate].
    + intros p q t _ _ [-> _]%Hw [-> _]%Hw. done.
  - intros r' [->|Hr']%Hr q f w; [by rewrite Hp0|]. rewrite Hpm by done. by apply F.
  - assert (forall r' t, r' ∈ roots -> owns ts a t -> owns ts r' t -> False) as Hx.
    { intros r' t Hr' (p & _ & [-> ->]%Hw) Ht. apply (owns_same (tables h)) in Ht; [|by apply Ho]. by eapply Hna. }
    intros r1 r2 t [->|R1]%Hr [->|R2]%Hr O1 O2; [done|by destruct (Hx r2 t)|by destruct (Hx r1 t)|].
    apply (owns_same (tables h)) in O1; [|by apply Ho]. apply (owns_same (tables h)) in O2; [|by apply Ho]. by apply (T r1 r2 t).
  - intros r1 r2 q1 q2 f w1 w2 [->|R1]%Hr [->|R2]%Hr Q1 Q2; rewrite ?Hp0; [done..|]. rewrite !Hpm by done. by apply P.
  - intros r' Hr'. split; [by apply Ho|done].
Qed.
End steps.

(** ** Guests at work *)

Section guests.
Context `{HA : HostAlloc} `{!HostAllocLaws} `{GP : GuestPaging}.

(** One operation on behalf of the guest with root [actor], whatever its outcome. *)
Inductive mem_step (actor : Z) : Host * list Z -> Host * list Z -> Prop :=
| step_new_space h roots h' :
    space_new h = (h', Ok actor) -> mem_step actor (h, roots) (h', actor :: roots)
| step_image h roots ga chunk h' r :
    actor ∈ roots -> (length chunk <= 4096)%nat -> map_chunk actor ga chunk h = (h', r) ->
    mem_step actor (h, roots) (h', roots)
| step_ram h roots ga ro h' r :
    actor ∈ roots -> map_new_frame actor ga ro h = (h', r) -> mem_step actor (h, roots) (h', roots)
| step_page h roots ga f ro h' r :
    actor ∈ roots -> host_page h f -> unmapped h roots f -> map_frame actor ga f ro h = (h', r) ->
    mem_step actor (h, roots) (h', roots)
| step_write h roots cr3 a bytes access h' r :
    actor ∈ roots -> write_bytes actor cr3 a bytes access h = (h', r) -> mem_step actor (h, roots) (h', roots).

Definition some_step (s s' : Host * list Z) : Prop := exists actor, mem_step actor s s'.

Lemma mem_step_isolated actor h roots h' roots' :
  isolated h roots -> mem_step actor (h, roots) (h', roots') ->
  isolated h' roots' /\ forall r, r ∈ roots -> r <> actor -> same_view h h' r.
Proof.
  intros I Hs. inversion Hs; subst; [| | | |by eapply isolated_write].
  - destruct (isolated_new_space h roots h' actor) as (? & ? & ? & ? & ?); [done..|]. split; auto.
  - destruct (isolated_chunk h roots' actor ga chunk h' r) as (? & ? & ?); [done..|]. split; auto.
  - destruct (isolated_ram h roots' actor ga ro h' r) as (? & ? & ?); [done..|]. split; auto.
  - destruct (isolated_map h roots' actor ga f ro h' r) as (? & ? & ? & ?); [done..|]. split; auto.
Qed.

Lemma steps_isolated s s' : isolated s.1 s.2 -> rtc some_step s s' -> isolated s'.1 s'.2.
Proof.
  intros I Hs. induction Hs as [|s [h roots] s' [actor Hs] _ IH]; [done|]. apply IH. destruct s as [h0 roots0].
  by apply (mem_step_isolated actor h0 roots0).
Qed.

Lemma no_guests_isolated h : isolated h [].
Proof. split; intros; by match goal with H : _ ∈ [] |- _ => apply not_elem_of_nil in H end. Qed.

(** C2: guests are isolated.  From a host without guests, after any sequence of
    operations on behalf of any guests: no host frame backs pages of two guests, nor two
    pages of one; and whatever a guest then does, every other guest reads at every
    address, with paging on or off, exactly what it read before. *)
Theorem guests_isolated h0 h roots :
  rtc some_step (h0, []) (h, roots) ->
  (forall r r' q q' f w w', r ∈ roots -> r' ∈ roots -> 0 <= q < 2 ^ 36 -> 0 <= q' < 2 ^ 36 ->
    page_map h r q = Some (f, w) -> page_map h r' q' = Some (f, w') -> r = r' /\ q = q') /\
  (forall actor h' roots' r cr3 a len access,
    mem_step actor (h, roots) (h', roots') -> r ∈ roots -> r <> actor ->
    exists x, read_bytes r cr3 a len access h = (h, x) /\ read_bytes r cr3 a len access h' = (h', x)).
Proof.
  intros Hs. apply steps_isolated in Hs as I; [|apply no_guests_isolated]. cbn [fst snd] in I. split; [apply I|].
  intros actor h' roots' r cr3 a len access Hstep Hr Hne. destruct (mem_step_isolated _ _ _ _ _ I Hstep) as [_ Hv].
  apply read_bytes_same; [by apply (iso_wf _ _ I)|by apply Hv].
Qed.
(** ** Building a guest's memory as steps *)

(** [h'] is reached from [h] by steps that build up the guest [root]; the others keep their
    view. *)
Definition grown (root : Z) (roots : list Z) (h h' : Host) : Prop :=
  isolated h' roots /\ builds h h' roots /\ rtc some_step (h, roots) (h', roots) /\
  forall r', r' ∈ roots -> r' <> root -> same_view h h' r'.

Lemma grown_refl root roots h : isolated h roots -> grown root roots h h.
Proof. intros. split_and!; [done|apply builds_refl|done|intros; apply same_view_refl]. Qed.

Lemma grown_trans root roots h1 h2 h3 : grown root roots h1 h2 -> grown root roots h2 h3 -> grown root roots h1 h3.
Proof.
  intros (_ & B1 & S1 & V1) (I2 & B2 & S2 & V2). split_and!; [done|by eapply builds_trans|by etrans|].
  intros r' Hr' Hne. eapply same_view_trans; [by apply V1|by apply V2].
Qed.

(** A computation on behalf of [root] that builds, whatever its outcome. *)
Definition building {A} (root : Z) (roots : list Z) (m : st Host A) : Prop :=
  forall h, isolated h roots -> grown root roots h (m h).1.

Lemma building_bind {A B} root roots (m : st Host A) (k : A -> st Host B) :
  building root roots m -> (forall a, building root roots (k a)) -> building root roots (m ≫= k).
Proof.
  intros Hm Hk h I. specialize (Hm h I). rewrite st_bind_eq. destruct (m h) as [h1 [a|e|w]]; [|done..].
  eapply grown_trans; [exact Hm|]. apply Hk, Hm.
Qed.

Lemma building_pure {A} root roots (x : res A) : building root roots (lift x).
Proof. intros h I. by apply grown_refl. Qed.

Lemma building_ret {A} root roots (a : A) : building root roots (mret a).
Proof. intros h I. by apply grown_refl. Qed.

Lemma building_chunk roots root ga chunk :
  root ∈ roots -> (length chunk <= 4096)%nat -> building root roots (map_chunk root ga chunk).
Proof.
  intros Hr Hl h I. destruct (map_chunk root ga chunk h) as [h' r] eqn:E.
  destruct (isolated_chunk h roots root ga chunk h' r) as (? & ? & ?); [done..|]. split_and!; [done..| |done].
  apply rtc_once. exists root. by eapply step_image.
Qed.

Lemma building_ram roots root ga ro : root ∈ roots -> building root roots (map_new_frame root ga ro).
Proof.
  intros Hr h I. destruct (map_new_frame root ga ro h) as [h' r] eqn:E.
  destruct (isolated_ram h roots root ga ro h' r) as (? & ? & ?); [done..|]. split_and!; [done..| |done].
  apply rtc_once. exists root. by eapply step_ram.
Qed.

Lemma chunks_length fuel : forall l, Forall (fun c => length c <= 4096)%nat (chunks fuel l).
Proof.
  induction fuel as [|fuel IH]; intros [|b l]; [constructor..|].
  change (chunks (S fuel) (b :: l)) with (take 4096 (b :: l) :: chunks fuel (drop 4096 (b :: l))).
  constructor; [rewrite length_take; lia|apply IH].
Qed.

Lemma building_data roots root image addr : root ∈ roots -> building root roots (map_data root image addr).
Proof.
  intros Hr. unfold map_data. pose proof (chunks_length (length image) image) as Hl.
  revert addr. induction Hl as [|c l Hc Hl IH]; intros addr; [apply building_ret|]. cbn [map_chunks].
  apply building_bind; [by apply building_chunk|]. intros _. apply IH.
Qed.

Lemma building_image roots root modules image addr : root ∈ roots -> building root roots (map_image root modules image addr).
Proof.
  intros Hr. unfold map_image. destruct (find_module modules image); [by apply building_data|].
  intros h I. by apply grown_refl.
Qed.

Lemma building_pages roots root n : root ∈ roots -> forall i, building root roots (map_pages n i root).
Proof.
  intros Hr. induction n as [|n IH]; intros i h I; [by apply grown_refl|]. cbn [map_pages].
  pose proof (building_ram roots root (u64 (i * 4096)) false Hr h I) as Hg.
  destruct (map_new_frame root (u64 (i * 4096)) false h) as [h1 r]. cbn [fst] in Hg.
  assert (grown root roots h (map_pages n (i + 1) root h1).1) as Hrest by (eapply grown_trans; [exact Hg|]; apply IH, Hg).
  destruct r as [|[]|]; done.
Qed.

(** Setting up the memory of a new guest: either it fails for want of memory before the
    space exists, or it builds the new guest's space beside the others. *)
Lemma setup_ept_steps bios modules images memory h roots :
  isolated h roots ->
  let '(h', r) := setup_ept bios modules images memory h in
  (h' = h /\ r = Panic "allocation error") \/
  exists root, root ∉ roots /\ isolated h' (root :: roots) /\ rtc some_step (h, roots) (h', root :: roots) /\
    (forall f fr, frames h !! f = Some fr -> frames h' !! f = Some fr) /\
    (forall f, is_Some (frames h !! f) -> unmapped h roots f -> unmapped h' (root :: roots) f) /\
    (forall x, r = Ok x -> x = root) /\ forall r', r' ∈ roots -> same_view h h' r'.
Proof.
  intros I. unfold setup_ept. rewrite st_bind_eq. destruct (space_new h) as [h1 [root|e|w]] eqn:E.
  2, 3: unfold space_new, box_new_table in E; destruct (host_alloc h); [done|]; injection E; intros; subst; try done; by left.
  destruct (isolated_new_space h roots h1 root I E) as (I1 & Hn & F1 & P1 & V1).
  assert (root ∈ root :: roots) as Hr by left.
  match goal with |- context [?m h1] => assert (building root (root :: roots) m) as Hb end.
  { apply building_bind; [apply building_bind; [by apply building_data|intros _; by apply building_data]|intros _].
    apply building_bind.
    { induction images as [|[name addr] images IH]; [apply building_ret|]. cbn [st_iter].
      apply building_bind; [by apply building_image|intros _; apply IH]. }
    intros _. apply building_bind; [by apply building_pages|intros _; apply building_ret]. }
  match goal with |- context [?m h1] => destruct (m h1) as [h' r] eqn:Em end.
  specialize (Hb h1 I1). rewrite Em in Hb. destruct Hb as (I' & B & S & V). right. exists root. split_and!; [done..| | | | |].
  - eapply rtc_l; [|exact S]. exists root. by apply step_new_space.
  - intros f fr Hf. apply B. by rewrite F1.
  - intros f Hf Hu. apply B; [by rewrite F1|]. intros r' q w [->|Hr']%elem_of_cons; [by rewrite P1|].
    rewrite (page_map_same h h1); [by apply Hu|]. apply (V1 r' Hr').
  - intros x ->. revert Em. rewrite st_bind_eq. destruct (map_bios root bios h1) as [h2 [[]|e|w]]; [|done..].
    rewrite st_bind_eq. destruct (st_iter _ images h2) as [h3 [[]|e|w]]; [|done..].
    rewrite st_bind_eq. destruct (map_pages _ 0 root h3) as [h4 [[]|e|w]]; [|done..]. unfold mret, st_ret. by intros [= _ ->].
  - intros r' Hr'. eapply same_view_trans; [by apply V1|]. apply V; [by right|]. by intros ->.
Qed.
End guests.

(** Two guests, each with a page of RAM at address 0; the second one writes to its own. *)
Definition two_guests : Host * list Z :=
  let h := (@space_new pool_alloc (mkHost ∅ ∅)).1 in
  let h := (@map_new_frame pool_alloc 4096 0 false h).1 in
  let h := (@space_new pool_alloc h).1 in
  let root := 4096 * 6 in
  ((@map_new_frame pool_alloc root 0 false h).1, [root; 4096]).

Lemma two_guests_reachable : rtc (@some_step pool_alloc linear_entry_address) (mkHost ∅ ∅, []) two_guests.
Proof.
  set (h1 := (@space_new pool_alloc (mkHost ∅ ∅)).1). set (h2 := (@map_new_frame pool_alloc 4096 0 false h1).1).
  set (h3 := (@space_new pool_alloc h2).1).
  apply (rtc_l _ _ (h1, [4096])); [exists 4096; apply step_new_space; reflexivity|].
  apply (rtc_l _ _ (h2, [4096])).
  { exists 4096. eapply (step_ram _ _ _ 0 false); [by left|]. apply surjective_pairing. }
  apply (rtc_l _ _ (h3, [4096 * 6; 4096])); [exists (4096 * 6); apply step_new_space; vm_compute; reflexivity|].
  apply rtc_once. exists (4096 * 6). eapply (step_ram _ _ _ 0 false); [by left|]. apply surjective_pairing.
Qed.

Lemma guests_isolated_witness :
  let h' := (@write_bytes linear_entry_address (4096 * 6) 0 (NoPaging 0x10) [1; 2; 3] (Write 0) two_guests.1).1 in
  (exists x, @read_bytes linear_entry_address 4096 0 (NoPaging 0x10) 3 (Read 0) two_guests.1 = (two_guests.1, x) /\
   @read_bytes linear_entry_address 4096 0 (NoPaging 0x10) 3 (Read 0) h' = (h', x)) /\
  (@read_bytes linear_entry_address (4096 * 6) 0 (NoPaging 0x10) 3 (Read 0) h').2 = Ok [1; 2; 3].
Proof.
  split; [|vm_compute; reflexivity].
  destruct (@guests_isolated pool_alloc _ linear_entry_address _ two_guests.1 two_guests.2 two_guests_reachable) as [_ H].
  eapply (H (4096 * 6) _ [4096 * 6; 4096]); [|by right; left|lia].
  eapply (step_write _ _ _ 0 (NoPaging 0x10) [1; 2; 3] (Write 0)); [by left|]. apply surjective_pairing.
Defined.
