(* ===== verification/Lapic.v ===== *)
(** * The virtual local APIC ([mythril/src/virtdev/lapic.rs])

    Writes to the interrupt command register become messages to the other cores
    of the machine.  The state is the register file of the core (only the pending
    destination is kept), the set of machines and the core's hardware. *)

From S2P Require Import Prelude Error BTreeMap VirtDev Clock Apic Timers Vm.

Module Reg.
Inductive ApicRegisterSimpleOffset :=
| ApicId | ApicVersion | TaskPriority | ArbitrationPriority | ProcessorPriority
| EndOfInterrupt | RemoteRead | LogicalDestination | DestinationFormat
| SpuriousInterruptVector | ErrorStatus | LvtCorrectMachineCheckInterrupt | LvtTimer
| LvtThermalSensor | LvtPerformanceMonitoringCounter | LvtLINT0 | LvtLINT1 | LvtError
| TimerInitialCount | TimerCurrentCount | TimerDivideConfig.

#[global] Instance simple_eq_dec : EqDecision ApicRegisterSimpleOffset.
Proof. solve_decision. Defined.

#[global] Instance simple_enum : NumEnum ApicRegisterSimpleOffset := {
  ne_all := [ApicId; ApicVersion; TaskPriority; ArbitrationPriority; ProcessorPriority;
    EndOfInterrupt; RemoteRead; LogicalDestination; DestinationFormat;
    SpuriousInterruptVector; ErrorStatus; LvtCorrectMachineCheckInterrupt; LvtTimer;
    LvtThermalSensor; LvtPerformanceMonitoringCounter; LvtLINT0; LvtLINT1; LvtError;
    TimerInitialCount; TimerCurrentCount; TimerDivideConfig];
  ne_code r := match r with
    | ApicId => 0x20 | ApicVersion => 0x30 | TaskPriority => 0x80
    | ArbitrationPriority => 0x90 | ProcessorPriority => 0xa0 | EndOfInterrupt => 0xb0
    | RemoteRead => 0xc0 | LogicalDestination => 0xd0 | DestinationFormat => 0xe0
    | SpuriousInterruptVector => 0xf0 | ErrorStatus => 0x280
    | LvtCorrectMachineCheckInterrupt => 0x2f0 | LvtTimer => 0x320 | LvtThermalSensor => 0x330
    | LvtPerformanceMonitoringCounter => 0x340 | LvtLINT0 => 0x350 | LvtLINT1 => 0x360
    | LvtError => 0x370 | TimerInitialCount => 0x380 | TimerCurrentCount => 0x390
    | TimerDivideConfig => 0x3e0
    end }.

#[global] Instance simple_enum_ok : NumEnumOk ApicRegisterSimpleOffset.
Proof. num_enum_ok. Qed.

Inductive ApicRegisterOffset :=
| Simple (r : ApicRegisterSimpleOffset)
| InterruptRequest (n : Z)
| InterruptCommand (n : Z)
| TriggerMode (n : Z)
| InService (n : Z).

Definition in_range (lo hi v : Z) : bool := (lo <=? v) && (v <=? hi).

Definition try_from (value : Z) : res ApicRegisterOffset :=
  if has_bits value 15 then
    Err (InvalidValue (Msg "APIC register offset not aligned: 0x{:x}" [value]))
  else
    match try_from_primitive value with
    | Some simple_reg => Ok (Simple simple_reg)
    | None =>
        if in_range 0x100 0x170 value then Ok (InService (Z.shiftr (value - 0x100) 4))
        else if in_range 0x180 0x1f0 value then Ok (TriggerMode (Z.shiftr (value - 0x180) 4))
        else if in_range 0x200 0x270 value then Ok (InterruptRequest (Z.shiftr (value - 0x200) 4))
        else if in_range 0x300 0x310 value then Ok (InterruptCommand (Z.shiftr (value - 0x300) 4))
        else Err (InvalidValue (Msg "Invalid APIC register offset: 0x{:x}" [value]))
    end.
End Reg.

(** [LocalApic]: [icr_destination] *)
Definition VirtLocalApic : Type := option Z.
Definition lapic_new : VirtLocalApic := None.

Section lapic.
Context {D : Type}.
Implicit Types s : VirtualMachineSet D.

(** The core executing, and the index of its machine in the set. *)
Context (this_core : Z) (this_vm : nat).

Definition LapicState : Type := VirtLocalApic * (VirtualMachineSet D * CoreHw).

Definition get_icr : st LapicState VirtLocalApic := fun w => (w, Ok w.1).
Definition set_icr (d : VirtLocalApic) : st LapicState unit := fun w => ((d, w.2), Ok tt).
Definition get_vm : st LapicState (VirtualMachine D) := fun w =>
  (w, expect (vms w.2.1 !! this_vm) "dangling machine reference").
Definition put_vm (v : VirtualMachine D) : st LapicState unit := fun w =>
  ((w.1, (mkSet (contexts w.2.1) (<[this_vm := v]> (vms w.2.1)), w.2.2)), Ok tt).
Definition send (msg : VirtualMachineMsg) (core : Z) (notify : bool) : st LapicState unit := fun w =>
  let '(w2, r) := send_msg_core msg core notify w.2 in ((w.1, w2), r).

Definition process_sipi_request (value : Z) : st LapicState unit :=
  icr ← get_icr;
  match icr with
  | Some dest =>
      let vector := Z.land value 0xff in
      let addr := u64 (Z.shiftl vector 12) in
      let core_id := Z.shiftr dest 24 in
      send (StartVcpu addr) core_id false
  | None => mret tt
  end.

(** The two loops over the machine's cores; the executing core is skipped. *)
Definition send_unless_self (vector core : Z) : st LapicState unit :=
  if core =? this_core then mret tt
  else send (GuestInterrupt ExternalInterrupt vector) core true.

Fixpoint send_logical (v : VirtualMachine D) (vector dest : Z) (cores : list Z) : st LapicState unit :=
  match cores with
  | [] => mret tt
  | core :: r =>
      addressed ← lift (logical_apic_destination v dest core);
      _ ← (if addressed : bool then send_unless_self vector core else mret tt);
      send_logical v vector dest r
  end.

Definition process_interrupt_command (value : Z) : st LapicState unit :=
  delivery ← lift (try_from_primitive_err (Z.land (u8 (Z.shiftr value 8)) 7));
  match delivery with
  | Init => mret tt
  | StartUp => process_sipi_request value
  | _ =>
      let vector := Z.land value 0xff in
      dst_mode ← lift (try_from_primitive_err (Z.land (Z.shiftr value 11) 1));
      shorthand ← lift (try_from_primitive_err (Z.land (Z.shiftr value 18) 3));
      match shorthand with
      | AllIncludingSelf => mret tt
      | AllExcludingSelf =>
          v ← get_vm;
          st_iter (send_unless_self vector) (vm_cpus v)
      | MySelf => mret tt
      | NoShorthand =>
          icr ← get_icr;
          match icr with
          | Some dest =>
              match dst_mode with
              | Logical => v ← get_vm; send_logical v vector dest (vm_cpus v)
              | Physical => mret tt
              end
          | None => mret tt
          end
      end
  end.

Definition register_read (offset : Z) : st LapicState Z :=
  offset ← lift (Reg.try_from offset);
  match offset with
  | Reg.Simple Reg.ApicId => mret this_core
  | _ => mret 0
  end.

Definition register_write (offset value : Z) : st LapicState unit :=
  offset ← lift (Reg.try_from offset);
  match offset with
  | Reg.Simple Reg.EndOfInterrupt => mret tt
  | Reg.Simple Reg.LogicalDestination =>
      v ← get_vm;
      v ← lift (update_core_logical_destination this_core value v);
      put_vm v
  | Reg.Simple _ => mret tt
  | Reg.InterruptCommand 0 =>
      _ ← process_interrupt_command value;
      set_icr None
  | Reg.InterruptCommand 1 => set_icr (Some value)
  | Reg.InterruptCommand _ => panic "internal error: entered unreachable code"
  | _ => mret tt
  end.
End lapic.

(** ** Register offsets *)

Lemma aligned_16 v : has_bits v 15 = false <-> v mod 16 = 0.
Proof.
  unfold has_bits. rewrite (land_mask 15 4) by (reflexivity || lia).
  change (2 ^ 4) with 16. rewrite negb_false_iff. apply Z.eqb_eq.
Qed.

Lemma in_range_true lo hi v : Reg.in_range lo hi v = true <-> lo <= v <= hi.
Proof. unfold Reg.in_range. rewrite andb_true_iff, Z.leb_le, Z.leb_le. done. Qed.

(** Decoding an APIC register offset inverts the register layout: a named
    register only at its own offset, a bank register at [base + 16 n] with [n]
    inside the bank (so an interrupt command write always addresses word 0 or 1),
    and an error exactly for offsets that are unaligned or in no register. *)
Lemma apic_offset_decode v :
  match Reg.try_from v with
  | Ok (Reg.Simple r) => v = ne_code r
  | Ok (Reg.InService n) => v = 0x100 + 16 * n /\ 0 <= n <= 7
  | Ok (Reg.TriggerMode n) => v = 0x180 + 16 * n /\ 0 <= n <= 7
  | Ok (Reg.InterruptRequest n) => v = 0x200 + 16 * n /\ 0 <= n <= 7
  | Ok (Reg.InterruptCommand n) => v = 0x300 + 16 * n /\ (n = 0 \/ n = 1)
  | Err e => (exists m, e = InvalidValue m) /\
      (v mod 16 <> 0 \/
       ((forall r : Reg.ApicRegisterSimpleOffset, ne_code r <> v) /\
        ~ (0x100 <= v <= 0x170 \/ 0x180 <= v <= 0x1f0 \/ 0x200 <= v <= 0x270 \/ 0x300 <= v <= 0x310)))
  | Panic _ => False
  end.
Proof.
  unfold Reg.try_from. pose proof (aligned_16 v) as Ha.
  destruct (has_bits v 15).
  { split; [by eexists|]. left. intros H0%Ha. done. }
  assert (v mod 16 = 0) as Hm by (by apply Ha). clear Ha.
  destruct (try_from_primitive v) as [r|] eqn:Hr.
  { symmetry. by apply try_from_primitive_Some. }
  assert (forall r : Reg.ApicRegisterSimpleOffset, ne_code r <> v) as Hn.
  { intros r Hc. rewrite <- Hc, try_from_primitive_code in Hr. done. }
  rewrite !Z.shiftr_div_pow2 by lia.
  repeat match goal with |- context [Reg.in_range ?lo ?hi v] =>
    let E := fresh in destruct (Reg.in_range lo hi v) eqn:E;
    [apply in_range_true in E; change (2 ^ 4) with 16; Z.to_euclidean_division_equations; lia
    |assert (~ (lo <= v <= hi)) by (rewrite <- in_range_true, E; done); clear E] end.
  split; [by eexists|]. right. split; [done|lia].
Qed.

(** ** Sending *)

Section lapic_theorems.
Context {D : Type}.
Implicit Types s : VirtualMachineSet D.

Definition has_room (s : VirtualMachineSet D) (core : Z) : Prop :=
  match queue s core with Some q => (length q < MAX_PENDING_MSG)%nat | None => False end.

#[export] Instance has_room_dec s core : Decision (has_room s core).
Proof. unfold has_room. destruct (queue s core); apply _. Defined.

(** The inter-processor interrupt that announces a message to [core]. *)
Definition ipc_ipi (core : Z) : Z * Z :=
  (IA32_X2APIC_ICR, icr_value core NoShorthand Edge Assert Physical Fixed vector_IPC).

(** The queue of [core] behind a broadcast that reached [cores]. *)
Definition broadcast_queue (this_core vector : Z) (cores : list Z) (s : VirtualMachineSet D) (core : Z) :=
  if decide (core ∈ cores /\ core <> this_core)
  then (fun q => q ++ [GuestInterrupt ExternalInterrupt vector]) <$> queue s core
  else queue s core.

(** What a send to a core without room answers. *)
Definition send_error (s : VirtualMachineSet D) (core : Z) : Error :=
  match queue s core with
  | None => NotFound
  | Some _ => InvalidValue (Msg "RX queue is full for core_id = {}" [core])
  end.

Lemma send_spec msg core (icr : VirtLocalApic) s hw :
  let '((icr', (s', hw')), r) := send msg core true (icr, (s, hw)) in
  icr' = icr /\ vms s' = vms s /\
  if decide (has_room s core) then
    r = Ok tt /\ msr_writes hw' = msr_writes hw ++ [ipc_ipi core] /\
    forall core', queue s' core' =
      if decide (core' = core) then (fun q => q ++ [msg]) <$> queue s core' else queue s core'
  else r = Err (send_error s core) /\ s' = s /\ hw' = hw.
Proof.
  unfold send. cbn [fst snd]. pose proof (send_msg_core_spec msg core true s hw) as Hs.
  destruct (send_msg_core msg core true (s, hw)) as [[s' hw'] r]. destruct Hs as [Hv Hs].
  split_and!; [done..|]. destruct (queue s core) as [q|] eqn:Hq.
  - case_bool_decide as Hl; case_decide as Hd; unfold has_room, send_error in *; rewrite Hq in *; try lia.
    + destruct Hs as (-> & _ & Hqs & ->). split_and!; [done..|].
      intros core'. rewrite Hqs. case_decide; [|done]. subst. by rewrite Hq.
    + by destruct Hs as (-> & -> & ->).
  - destruct Hs as (-> & -> & ->). case_decide as Hd; unfold has_room, send_error in *; by rewrite Hq in *.
Qed.

Lemma broadcast_spec this_core vector cores : forall (icr : VirtLocalApic) s hw,
  NoDup cores ->
  let '((icr', (s', hw')), r) := st_iter (send_unless_self (D := D) this_core vector) cores (icr, (s, hw)) in
  exists reached rest, cores = reached ++ rest /\ icr' = icr /\
    msr_writes hw' = msr_writes hw ++ (ipc_ipi <$> filter (fun core => core <> this_core) reached) /\
    (forall core, queue s' core = broadcast_queue this_core vector reached s core) /\
    match rest with
    | [] => r = Ok tt
    | core :: _ => core <> this_core /\ ~ has_room s core /\ r = Err (send_error s core)
    end.
Proof.
  induction cores as [|core cores IH]; intros icr s hw Hnd; cbn [st_iter].
  { exists [], []. cbn. rewrite app_nil_r. by split_and!. }
  apply NoDup_cons in Hnd as [Hni Hnd]. rewrite st_bind_eq. unfold send_unless_self at 1.
  destruct (Z.eqb_spec core this_core) as [->|Hne].
  - change ((mret tt : st LapicState unit) (icr, (s, hw))) with ((icr, (s, hw)), @Ok unit tt).
    cbv beta iota. specialize (IH icr s hw Hnd). destruct (st_iter _ cores _) as [[icr' [s' hw']] r].
    destruct IH as (reached & rest & -> & -> & Hm & Hq & Hr).
    exists (this_core :: reached), rest. rewrite filter_cons_False by tauto. split_and!; try done.
    intros core'. rewrite Hq. unfold broadcast_queue. do 2 case_decide; try done; exfalso; set_solver.
  - pose proof (send_spec (GuestInterrupt ExternalInterrupt vector) core icr s hw) as Hs.
    destruct (send _ core true _) as [[icr1 [s1 hw1]] r1]. destruct Hs as (-> & Hv1 & Hs). case_decide as Hroom.
    + destruct Hs as (-> & Hm1 & Hq1). specialize (IH icr s1 hw1 Hnd).
      destruct (st_iter _ cores _) as [[icr' [s' hw']] r]. destruct IH as (reached & rest & -> & -> & Hm & Hq & Hr).
      exists (core :: reached), rest. rewrite filter_cons_True, fmap_cons by done.
      split_and!; [done|done|by rewrite Hm, Hm1, <- app_assoc| |].
      * intros core'. rewrite Hq. unfold broadcast_queue. rewrite Hq1. destruct (decide (core' = core)) as [->|Hc].
        -- rewrite decide_False by set_solver. by rewrite decide_True by (split; [left|done]).
        -- do 2 case_decide; try done; exfalso; set_solver.
      * destruct rest as [|core' rest]; [done|]. destruct Hr as (Hc & Hfull & He).
        unfold has_room, send_error in *. rewrite Hq1, decide_False in * by (intros ->; set_solver). by split_and!.
    + destruct Hs as (-> & -> & ->).
      exists [], (core :: cores). cbn. rewrite app_nil_r. by split_and!.
Qed.
End lapic_theorems.

(** Every bit pattern of these fields names a constructor. *)
Lemma DeliveryMode_total n : 0 <= n < 8 -> exists m : DeliveryMode, ne_code m = n.
Proof.
  intros Hn. assert (n ∈ [0; 1; 2; 3; 4; 5; 6; 7]) as Hin by (rewrite !elem_of_cons; lia).
  change [0; 1; 2; 3; 4; 5; 6; 7] with (ne_code <$> ne_all (E := DeliveryMode)) in Hin.
  apply list_elem_of_fmap in Hin as (m & -> & _). by exists m.
Qed.
Lemma DstMode_total n : 0 <= n < 2 -> exists m : DstMode, ne_code m = n.
Proof. intros Hn. destruct (decide (n = 0)) as [->|]; [by exists Physical|exists Logical; simpl; lia]. Qed.

Lemma try_from_primitive_err_code {E} `{NumEnumOk E} (e : E) v :
  v = ne_code e -> try_from_primitive_err v = Ok e.
Proof. intros ->. unfold try_from_primitive_err. by rewrite try_from_primitive_code. Qed.

(** C26: an interrupt command with the "all excluding self" shorthand, whatever its
    level, trigger, destination mode and reserved bits, and any delivery mode but INIT
    and start-up (which are handled before the shorthand is looked at), by a core of a
    machine that lists no core twice.  The cores of the machine are served in order, up to the first whose queue is full or missing: each core served but
    the issuing one gets exactly one interrupt with the command's vector at the end of
    its queue and one inter-processor interrupt, no other queue changes.  When all are
    served the write succeeds and the pending destination is cleared; otherwise the
    write fails, the cores behind get nothing and the destination is kept. *)
Theorem icr_broadcast_all_but_self {D} this_core this_vm (v : VirtualMachine D)
    (s : VirtualMachineSet D) hw icr value :
  vms s !! this_vm = Some v -> NoDup (vm_cpus v) -> is_u 32 value ->
  value / 2 ^ 18 mod 4 = 3 -> value / 2 ^ 8 mod 8 ∉ [5; 6] ->
  let '((icr', (s', hw')), r) := register_write this_core this_vm 0x300 value (icr, (s, hw)) in
  exists reached rest, vm_cpus v = reached ++ rest /\
    msr_writes hw' = msr_writes hw ++ (ipc_ipi <$> filter (fun core => core <> this_core) reached) /\
    (forall core, queue s' core = broadcast_queue this_core (value mod 256) reached s core) /\
    match rest with
    | [] => r = Ok tt /\ icr' = None
    | core :: _ => core <> this_core /\ ~ has_room s core /\ r = Err (send_error s core) /\ icr' = icr
    end.
Proof.
  intros Hv Hnd Hu Hsh Hmode. unfold is_u in Hu.
  assert (Z.land value 0xff = value mod 256) as E0 by (land_to_mod; by pow2_literals).
  destruct (DeliveryMode_total (value / 2 ^ 8 mod 8)) as [mode Em]; [apply Z.mod_pos_bound; lia|].
  assert (Z.land (u8 (Z.shiftr value 8)) 7 = ne_code mode) as E1 by (rewrite Em; words).
  destruct (DstMode_total (value / 2 ^ 11 mod 2)) as [dst Ed]; [apply Z.mod_pos_bound; lia|].
  assert (Z.land (Z.shiftr value 11) 1 = ne_code dst) as E2 by (rewrite Ed; words).
  assert (Z.land (Z.shiftr value 18) 3 = ne_code AllExcludingSelf) as E3
    by (transitivity (value / 2 ^ 18 mod 4); [words|exact Hsh]).
  unfold register_write. rewrite st_bind_eq. change (lift (Reg.try_from 0x300) (icr, (s, hw)))
    with ((icr, (s, hw)), @Ok Reg.ApicRegisterOffset (Reg.InterruptCommand 0)). cbv beta iota.
  rewrite st_bind_eq. unfold process_interrupt_command. rewrite st_bind_eq. unfold lift.
  rewrite (try_from_primitive_err_code mode) by done.
  assert (forall X (a b c : X), match mode with Init => a | StartUp => b | _ => c end = c) as Hmatch.
  { intros X a b c. destruct mode; try done; exfalso; apply Hmode; rewrite <- Em; set_solver. }
  rewrite Hmatch, st_bind_eq, (try_from_primitive_err_code dst) by done.
  rewrite st_bind_eq, (try_from_primitive_err_code AllExcludingSelf) by done.
  rewrite st_bind_eq. unfold get_vm. cbn [fst snd]. rewrite Hv. cbn [expect]. rewrite E0.
  pose proof (broadcast_spec this_core (value mod 256) (vm_cpus v) icr s hw Hnd) as Hb.
  destruct (st_iter _ (vm_cpus v) _) as [[icr1 [s1 hw1]] r1]. destruct Hb as (reached & rest & E & -> & Hm & Hq & Hr).
  destruct rest as [|core rest].
  - rewrite Hr. exists reached, []. by split_and!.
  - destruct Hr as (Hne & Hfull & ->).
    exists reached, (core :: rest). by split_and!.
Qed.

(** A level-asserted fixed interrupt to three other cores, of which one has a full queue. *)
Lemma icr_broadcast_all_but_self_witness :
  let v := mkVm (D := unit) 0 [0; 1; 2; 4] 32 None [] device_map_default 4096 0 [] 0 in
  let s := mkSet [mkContext 0 0 []; mkContext 1 0 []; mkContext 2 0 (replicate 100 (StartVcpu 0)); mkContext 3 1 [];
    mkContext 4 0 []] [v] in
  let '((icr', (s', hw')), r) := register_write 1 0 0x300 0xc4042 (Some 7, (s, mkHw 0 [])) in
  exists reached rest, vm_cpus v = reached ++ rest /\
    msr_writes hw' = [] ++ (ipc_ipi <$> filter (fun core => core <> 1) reached) /\
    (forall core, queue s' core = broadcast_queue 1 (0xc4042 mod 256) reached s core) /\
    match rest with
    | [] => r = Ok tt /\ icr' = None
    | core :: _ => core <> 1 /\ ~ has_room s core /\ r = Err (send_error s core) /\ icr' = Some 7
    end.
Proof.
  cbv zeta. apply (icr_broadcast_all_but_self 1 0
    (mkVm (D := unit) 0 [0; 1; 2; 4] 32 None [] device_map_default 4096 0 [] 0)
    (mkSet [mkContext 0 0 []; mkContext 1 0 []; mkContext 2 0 (replicate 100 (StartVcpu 0)); mkContext 3 1 [];
      mkContext 4 0 []] [mkVm (D := unit) 0 [0; 1; 2; 4] 32 None [] device_map_default 4096 0 [] 0])
    (mkHw 0 []) (Some 7) 0xc4042).
  - reflexivity.
  - simpl. repeat (constructor; [set_solver|]). constructor.
  - unfold is_u. lia.
  - reflexivity.
  - vm_compute (_ mod 8). set_solver.
Defined.

(** the guest's start-up sequence.  Writing a destination to the high command
    word and a start-up command to the low one sends [StartVcpu] with the vector's
    page address to the addressed core's queue, without an interrupt, and clears
    the pending destination. *)
Lemma sipi_starts_core {D} this_core this_vm (s : VirtualMachineSet D) hw icr core vector :
  is_u 8 core -> is_u 8 vector -> has_room s core ->
  exists s',
    (_ ← register_write this_core this_vm 0x310 (2 ^ 24 * core);
     register_write this_core this_vm 0x300 (vector + 2 ^ 8 * ne_code StartUp)) (icr, (s, hw)) =
      ((None, (s', hw)), Ok tt) /\
    forall core', queue s' core' =
      if decide (core' = core) then (fun q => q ++ [StartVcpu (4096 * vector)]) <$> queue s core'
      else queue s core'.
Proof.
  intros Hc Hu Hroom. unfold is_u in *.
  assert (Z.land (u8 (Z.shiftr (vector + 2 ^ 8 * ne_code StartUp) 8)) 7 = ne_code StartUp) as E1.
  { simpl (ne_code StartUp). words. }
  assert (Z.land (vector + 2 ^ 8 * ne_code StartUp) 0xff = vector) as E0.
  { simpl (ne_code StartUp). land_to_mod. pow2_literals. Z.to_euclidean_division_equations. lia. }
  rewrite st_bind_eq.
  change (register_write this_core this_vm 0x310 (2 ^ 24 * core) (icr, (s, hw)))
    with ((Some (2 ^ 24 * core), (s, hw)), @Ok unit tt). cbv beta iota.
  unfold register_write. rewrite st_bind_eq.
  change (lift (Reg.try_from 0x300) (Some (2 ^ 24 * core), (s, hw)))
    with ((Some (2 ^ 24 * core), (s, hw)), @Ok Reg.ApicRegisterOffset (Reg.InterruptCommand 0)). cbv beta iota.
  rewrite st_bind_eq. unfold process_interrupt_command. rewrite st_bind_eq. unfold lift.
  rewrite (try_from_primitive_err_code StartUp) by done.
  unfold process_sipi_request. rewrite st_bind_eq. unfold get_icr. cbn [fst]. rewrite E0.
  replace (Z.shiftr (2 ^ 24 * core) 24) with core by (rewrite Z.shiftr_div_pow2 by lia; Z.to_euclidean_division_equations; lia).
  replace (u64 (Z.shiftl vector 12)) with (4096 * vector)
    by (unfold u64; rewrite wrap_small; rewrite Z.shiftl_mul_pow2 by lia; unfold is_u; lia).
  unfold send. cbn [fst snd]. pose proof (send_msg_core_spec (StartVcpu (4096 * vector)) core false s hw) as Hs.
  destruct (send_msg_core _ core false (s, hw)) as [[s' hw'] r]. destruct Hs as [_ Hs].
  unfold has_room in Hroom. destruct (queue s core) as [q|] eqn:Hq; [|done].
  rewrite bool_decide_true in Hs by done. destruct Hs as (-> & _ & Hqs & ->).
  exists s'. split; [done|]. intros core'. rewrite Hqs. case_decide; [|done]. subst. by rewrite Hq.
Qed.

Lemma sipi_starts_core_witness :
  let s := mkSet (D := unit) [mkContext 5 0 []] [] in
  exists s', (_ ← register_write 0 0 0x310 (2 ^ 24 * 5);
     register_write 0 0 0x300 (0x9a + 2 ^ 8 * ne_code StartUp)) (None, (s, mkHw 0 [])) =
      ((None, (s', mkHw 0 [])), Ok tt).
Proof.
  cbv zeta. destruct (sipi_starts_core 0 0 (mkSet (D := unit) [mkContext 5 0 []] []) (mkHw 0 []) None 5 0x9a)
    as (s' & H & _); [unfold is_u; lia|unfold is_u; lia|unfold has_room; simpl; unfold MAX_PENDING_MSG; lia|].
  exists s'. exact H.
Defined.
