(* ===== verification/Platform.v ===== *)
(** * What device handlers reach of the executing core

    The globals of [mythril/src/time.rs] (the core's timer wheel) and the message
    queues of [mythril/src/vm.rs], with the operations on them that device models
    call: [time::now], [time::set_oneshot_timer], [time::set_periodic_timer] and
    [time::cancel_timer], which messages the owning core when the timer is not
    its own. *)

From S2P Require Import Prelude Error BTreeMap VirtDev Clock Apic Timers Vm.

Record Platform := mkPlatform {
  pl_hw : CoreHw;
  pl_wheel : TimerWheel;
  pl_contexts : list VmContext
}.

Definition on_hw {A} (m : st CoreHw A) : st Platform A := fun p =>
  let '(hw, r) := m (pl_hw p) in (mkPlatform hw (pl_wheel p) (pl_contexts p), r).
Definition get_wheel : st Platform TimerWheel := fun p => (p, Ok (pl_wheel p)).
Definition put_wheel (w : TimerWheel) : st Platform unit := fun p =>
  (mkPlatform (pl_hw p) w (pl_contexts p), Ok tt).

(** [send_msg_core]: sending only touches the queues. *)
Definition platform_send (msg : VirtualMachineMsg) (core : Z) (notify : bool) : st Platform unit := fun p =>
  let '((s, hw), r) := send_msg_core (D := Empty_set) msg core notify (mkSet (pl_contexts p) [], pl_hw p) in
  (mkPlatform hw (pl_wheel p) (contexts s), r).

Section platform.
Context `{TimeSource}.
Context (apic : LocalApic) (this_core : Z).

Definition cancel_timer (id : TimerId) : st Platform unit :=
  if is_local_timer this_core id then
    w ← get_wheel;
    w ← on_hw (remove_timer apic w id);
    put_wheel w
  else platform_send (CancelTimer id) (core_id id) true.

(** [time::set_oneshot_timer] and [time::set_periodic_timer] *)
Definition register_core_timer (t : ReadyTimer) : st Platform TimerId :=
  w ← get_wheel;
  '(w, id) ← on_hw (register_timer apic this_core w t);
  _ ← put_wheel w;
  mret id.

(** ** What cancelling does *)

(** The message queue of a core, as a handler sees it. *)
Definition pl_queue (p : Platform) (core : Z) : option (list VirtualMachineMsg) :=
  queue (D := Empty_set) (mkSet (pl_contexts p) []) core.

(** A timer of this core leaves the wheel; for one of another core that core gets
    a message, unless it has no queue or its queue is full. *)
Definition cancel_effect (id : TimerId) (p p' : Platform) (r : res unit) : Prop :=
  if core_id id =? this_core then
    r = Ok tt /\ pl_contexts p' = pl_contexts p /\
    forall id', get_timer (pl_wheel p') id' = if decide (id' = id) then None else get_timer (pl_wheel p) id'
  else
    pl_wheel p' = pl_wheel p /\
    match pl_queue p (core_id id) with
    | None => r = Err NotFound /\ p' = p
    | Some q =>
        if bool_decide (length q < MAX_PENDING_MSG)%nat then
          r = Ok tt /\ forall core, pl_queue p' core =
            if decide (core = core_id id) then Some (q ++ [CancelTimer id]) else pl_queue p core
        else r = Err (InvalidValue (Msg "RX queue is full for core_id = {}" [core_id id])) /\ p' = p
    end.

Lemma cancel_timer_spec id p :
  wheel_inv this_core (pl_wheel p) ->
  let '(p', r) := cancel_timer id p in
  wheel_inv this_core (pl_wheel p') /\ counter (pl_wheel p') = counter (pl_wheel p) /\ cancel_effect id p p' r.
Proof.
  intros Hw. unfold cancel_timer, cancel_effect, is_local_timer. destruct (core_id id =? this_core).
  - rewrite st_bind_eq. cbn [get_wheel]. rewrite st_bind_eq. unfold on_hw.
    destruct (remove_timer_spec apic this_core (pl_wheel p) id (pl_hw p) Hw) as (hw' & w' & -> & ? & ? & ?). done.
  - unfold platform_send. pose proof (send_msg_core_spec (D := Empty_set) (CancelTimer id) (core_id id) true
      (mkSet (pl_contexts p) []) (pl_hw p)) as Hs. fold (pl_queue p (core_id id)) in Hs.
    destruct (send_msg_core _ _ _ _) as [[s' hw'] r]. destruct Hs as [Hv Hs]. split_and!; [done|done|done|].
    destruct (pl_queue p (core_id id)) as [q|]; [case_bool_decide|].
    + destruct Hs as (-> & _ & Hq & _). split; [done|]. intros core. unfold pl_queue. cbn [pl_contexts].
      rewrite <- (Hq core). reflexivity.
    + destruct Hs as (-> & -> & ->). by destruct p.
    + destruct Hs as (-> & -> & ->). by destruct p.
Qed.
End platform.
