(* ===== verification/Uart.v ===== *)
(** * The serial port ([mythril/src/virtdev/com.rs], registers from
    [mythril/src/physdev/com.rs]) *)

From S2P Require Import Prelude Error BTreeMap Memory VirtDev Clock Apic Timers.

Module SerialOffset.
Definition DATA : Z := 0.
Definition DLL : Z := 0.
Definition IER : Z := 1.
Definition DLH : Z := 1.
Definition IIR : Z := 2.
Definition LCR : Z := 3.
Definition LSR : Z := 5.
Definition MSR : Z := 6.
End SerialOffset.

Module IerFlags.
Definition RECV_DATA_AVAIL_INTERRUPT : Z := Z.shiftl 1 0.
Definition THR_EMPTY_INTERRUPT : Z := Z.shiftl 1 1.
Definition RECEIVER_LINE_STATUS_INTERRUPT : Z := Z.shiftl 1 2.
Definition MODEM_STATUS_INTERRUPT : Z := Z.shiftl 1 3.
Definition SLEEP_MODE : Z := Z.shiftl 1 4.
Definition LOW_POWER_MODE : Z := Z.shiftl 1 5.
Definition RESERVED_1 : Z := Z.shiftl 1 6.
Definition RESERVED_2 : Z := Z.shiftl 1 7.
Definition all : list Z := [
  RECV_DATA_AVAIL_INTERRUPT; THR_EMPTY_INTERRUPT; RECEIVER_LINE_STATUS_INTERRUPT;
  MODEM_STATUS_INTERRUPT; SLEEP_MODE; LOW_POWER_MODE; RESERVED_1; RESERVED_2].
End IerFlags.

Module LsrFlags.
Definition DATA_READY : Z := Z.shiftl 1 0.
Definition OVERRUN_ERROR : Z := Z.shiftl 1 1.
Definition PARITY_ERROR : Z := Z.shiftl 1 2.
Definition FRAMING_ERROR : Z := Z.shiftl 1 3.
Definition BREAK_INTERRUPT : Z := Z.shiftl 1 4.
Definition EMPTY_TRANSMIT_HOLDING_REGISTER : Z := Z.shiftl 1 5.
Definition EMPTY_DATA_HOLDING_REGISTER : Z := Z.shiftl 1 6.
Definition RECV_FIFO_ERROR : Z := Z.shiftl 1 7.
Definition all : list Z := [
  DATA_READY; OVERRUN_ERROR; PARITY_ERROR; FRAMING_ERROR; BREAK_INTERRUPT;
  EMPTY_TRANSMIT_HOLDING_REGISTER; EMPTY_DATA_HOLDING_REGISTER; RECV_FIFO_ERROR].
End LsrFlags.

(** [Uart8250]; the status, modem and scratch registers are never used. *)
Record Uart8250 := mkUart {
  base_port : Z;
  divisor : Z;
  receive_buffer : option Z;
  interrupt_enable_register : Z;
  interrupt_identification_register : Z;
  line_control_register : Z;
  ctrl_a_count : Z
}.

Definition uart_new (base_port : Z) : Uart8250 := mkUart base_port 0 None 0 1 0 0.

Definition divisor_latch_bit_set (u : Uart8250) : bool :=
  has_bits (line_control_register u) (Z.shiftl 1 7).

Definition set_divisor (d : Z) (u : Uart8250) : Uart8250 :=
  mkUart (base_port u) d (receive_buffer u) (interrupt_enable_register u)
    (interrupt_identification_register u) (line_control_register u) (ctrl_a_count u).
Definition set_receive_buffer (b : option Z) (u : Uart8250) : Uart8250 :=
  mkUart (base_port u) (divisor u) b (interrupt_enable_register u)
    (interrupt_identification_register u) (line_control_register u) (ctrl_a_count u).
Definition set_ier (x : Z) (u : Uart8250) : Uart8250 :=
  mkUart (base_port u) (divisor u) (receive_buffer u) x
    (interrupt_identification_register u) (line_control_register u) (ctrl_a_count u).
Definition set_iir (x : Z) (u : Uart8250) : Uart8250 :=
  mkUart (base_port u) (divisor u) (receive_buffer u) (interrupt_enable_register u)
    x (line_control_register u) (ctrl_a_count u).
Definition set_ctrl_a_count (x : Z) (u : Uart8250) : Uart8250 :=
  mkUart (base_port u) (divisor u) (receive_buffer u) (interrupt_enable_register u)
    (interrupt_identification_register u) (line_control_register u) x.

(** [Uart8250::write]: the byte is for the guest to read. *)
Definition uart_write (data : Z) (u : Uart8250) : Uart8250 :=
  set_iir 4 (set_receive_buffer (Some data) u).

Definition uart_services (u : Uart8250) : list DeviceRegion :=
  [PortIo (base_port u) (u16 (base_port u + 7))].

Section uart.
Context {W : Type}.
Notation H := (st (Uart8250 * Event W)).

(** The key handler, in the source's order: the interrupt, the console switch. *)
Definition uart_receive (key : Z) : H unit :=
  _ ← push_response (GSI gsi_UART);
  u ← get_dev;
  let u := if key =? 1 then set_ctrl_a_count (u8 (ctrl_a_count u + 1)) u else u in
  _ ← set_dev u;
  _ ← (if ctrl_a_count u =? 3 then
         _ ← push_response NextConsole;
         set_dev (set_ctrl_a_count 0 u)
       else mret tt);
  u ← get_dev;
  set_dev (uart_write key u).

(** A port read: the registers after it and what is in the buffer. *)
Definition uart_read (port : Z) (val : PortReadRequest.t) (u : Uart8250)
    : res (Uart8250 * PortReadRequest.t) :=
  let offset := u16 (port - base_port u) in
  '(u, val) ←
    (if (offset =? SerialOffset.DATA) && negb (divisor_latch_bit_set u) then
       match receive_buffer u with
       | Some b =>
           val ← PortReadRequest.copy_from_u32 val b;
           Ok (set_iir 1 (set_receive_buffer None u), val)
       | None => Ok (u, val)
       end
     else if (offset =? SerialOffset.DATA) && divisor_latch_bit_set u then
       val ← PortReadRequest.copy_from_u32 val (Z.land (divisor u) 0xff); Ok (u, val)
     else if (offset =? SerialOffset.DLL) && divisor_latch_bit_set u then
       val ← PortReadRequest.copy_from_u32 val (Z.shiftr (divisor u) 8); Ok (u, val)
     else Ok (u, val));
  '(u, val) ←
    (if offset =? SerialOffset.IIR then
       val ← PortReadRequest.copy_from_u32 val (interrupt_identification_register u);
       Ok (set_iir 1 u, val)
     else if offset =? SerialOffset.IER then
       val ← PortReadRequest.copy_from_u32 val (interrupt_enable_register u); Ok (u, val)
     else Ok (u, val));
  if offset =? SerialOffset.LSR then
    let flags := Z.lor LsrFlags.EMPTY_TRANSMIT_HOLDING_REGISTER LsrFlags.EMPTY_DATA_HOLDING_REGISTER in
    let flags := if bool_decide (is_Some (receive_buffer u)) then Z.lor flags LsrFlags.DATA_READY else flags in
    val ← PortReadRequest.copy_from_u32 val flags;
    Ok (u, val)
  else Ok (u, val).

Definition uart_port_write (port : Z) (val : PortWriteRequest.t) : H unit :=
  val ← lift (PortWriteRequest.to_u8 val);
  u ← get_dev;
  let offset := u16 (port - base_port u) in
  _ ← (if offset =? SerialOffset.DATA then
         if divisor_latch_bit_set u then
           set_dev (set_divisor (Z.land (divisor u) (Z.lor 0xff00 val)) u)
         else
           _ ← push_response (GuestUartTransmitted val);
           _ ← (if flags_contains (interrupt_enable_register u) IerFlags.THR_EMPTY_INTERRUPT
                then push_response (GSI gsi_UART) else mret tt);
           set_dev (set_iir 2 u)
       else if (offset =? SerialOffset.DLL) && divisor_latch_bit_set u then
         set_dev (set_divisor (Z.lor (Z.land (divisor u) 0xff) (Z.shiftl val 8)) u)
       else mret tt);
  u ← get_dev;
  if offset =? SerialOffset.IER
  then set_dev (set_ier (from_bits_truncate IerFlags.all val) u)
  else mret tt.

Definition uart_on_event : handler W Uart8250 :=
  e ← get_event;
  match kind e with
  | HostUartReceived key => uart_receive key
  | PortRead port val =>
      u ← get_dev;
      '(u, val) ← lift (uart_read port val u);
      _ ← set_dev u;
      put_kind (PortRead port val)
  | PortWrite port val => uart_port_write port val
  | _ => mret tt
  end.

#[export] Instance uart_device : EmulatedDevice W Uart8250 := {
  services := uart_services; on_event := uart_on_event }.
End uart.

(** ** Receiving *)

Section uart_theorems.
Context {W : Type}.
Implicit Types (u : Uart8250) (e : Event W).

(** The device after a key, and what it asks for. *)
Definition after_key (key : Z) (u : Uart8250) : Uart8250 :=
  let n := ctrl_a_count u + b2z (key =? 1) in
  uart_write key (set_ctrl_a_count (if n =? 3 then 0 else n) u).

Lemma uart_receive_spec key u e :
  kind e = HostUartReceived key -> responses e = [] -> 0 <= ctrl_a_count u < 3 ->
  uart_on_event (u, e) =
  ((after_key key u, set_responses (GSI gsi_UART ::
      if ctrl_a_count u + b2z (key =? 1) =? 3 then [NextConsole] else []) e), Ok tt).
Proof.
  intros Hk Hr Hc. unfold uart_on_event. rewrite st_bind_eq. cbn [get_event snd]. rewrite Hk.
  unfold uart_receive. rewrite st_bind_eq. unfold push_response at 1. cbn [snd fst]. rewrite Hr.
  cbn [length]. rewrite bool_decide_true by (unfold MAX_EVENT_RESPONSES; lia).
  cbv [mbind st_bind mret st_ret get_dev set_dev push_response]. cbn [fst snd].
  assert (u8 (ctrl_a_count u + 1) = ctrl_a_count u + 1) as E by (apply wrap_small; unfold is_u; lia).
  destruct (Z.eqb_spec key 1); cbn [ctrl_a_count set_ctrl_a_count b2z]; rewrite ?E, ?Z.add_0_r.
  - destruct (Z.eqb_spec (ctrl_a_count u + 1) 3) as [E3|E3]; cbn [snd fst responses set_responses length app];
      unfold after_key; rewrite (proj2 (Z.eqb_eq key 1)) by done; cbn [b2z].
    + rewrite (proj2 (Z.eqb_eq _ 3)) by done. rewrite bool_decide_true by (unfold MAX_EVENT_RESPONSES; lia). done.
    + rewrite (proj2 (Z.eqb_neq _ 3)) by done. done.
  - rewrite (proj2 (Z.eqb_neq (ctrl_a_count u) 3)) by lia. unfold after_key.
    rewrite (proj2 (Z.eqb_neq key 1)) by done. cbn [b2z]. rewrite Z.add_0_r.
    rewrite (proj2 (Z.eqb_neq (ctrl_a_count u) 3)) by lia. by destruct u.
Qed.

(** Keys arriving one after another, each with the empty response array its exit
    starts with; the responses are collected in order. *)
Fixpoint uart_feed (keys : list Z) (u : Uart8250) (e : Event W)
    : res (Uart8250 * list DeviceEventResponse) :=
  match keys with
  | [] => Ok (u, [])
  | key :: r =>
      match uart_on_event (u, set_responses [] (set_kind (HostUartReceived key) e)) with
      | ((u', e'), Ok _) => '(u2, l) ← uart_feed r u' e'; Ok (u2, responses e' ++ l)
      | (_, Err err) => Err err
      | (_, Panic w) => Panic w
      end
  end.

Definition presses (keys : list Z) : Z := Z.of_nat (length (filter (fun k => k = 1) keys)).
Definition count_of (r : DeviceEventResponse) (l : list DeviceEventResponse) : Z :=
  Z.of_nat (length (filter (fun x => x = r) l)).

Lemma count_of_app r l l' : count_of r (l ++ l') = count_of r l + count_of r l'.
Proof. unfold count_of. rewrite filter_app, length_app. lia. Qed.

Lemma presses_cons k keys : presses (k :: keys) = b2z (k =? 1) + presses keys.
Proof.
  unfold presses. rewrite filter_cons. destruct (Z.eqb_spec k 1); case_decide; try done; simpl; lia.
Qed.

(** C28: every third Ctrl-A the guest's console receives, and nothing else, asks for
    the console to move to the next machine: fed any keys, the device asks for it
    exactly [(c + presses) / 3] times, starting from a count of [c], raises its
    interrupt once per key, and is left with the last key to read. *)
Theorem uart_console_switch keys u e :
  0 <= ctrl_a_count u < 3 ->
  exists u' l, uart_feed keys u e = Ok (u', l) /\
    count_of NextConsole l = (ctrl_a_count u + presses keys) / 3 /\
    count_of (GSI gsi_UART) l = Z.of_nat (length keys) /\
    ctrl_a_count u' = (ctrl_a_count u + presses keys) mod 3 /\
    receive_buffer u' = match last keys with Some k => Some k | None => receive_buffer u end.
Proof.
  revert u e. induction keys as [|key keys IH]; intros u e Hc.
  { exists u, []. split; [done|]. unfold presses, count_of. simpl.
    split_and!; [rewrite Z.div_small by lia; lia|done|rewrite Z.mod_small by lia; lia|done]. }
  cbn [uart_feed]. rewrite (uart_receive_spec key) by done. cbn [responses set_responses].
  set (e' := set_responses _ _). set (n := ctrl_a_count u + b2z (key =? 1)).
  assert (0 <= n <= 3) as Hn by (unfold n; destruct (key =? 1); simpl; lia).
  destruct (IH (after_key key u) e') as (u' & l & -> & Hnc & Hg & Hcc & Hb).
  { unfold after_key. fold n. cbn. destruct (Z.eqb_spec n 3); lia. }
  eexists _, _. split; [done|]. rewrite !count_of_app, Hnc, Hg, Hcc, presses_cons.
  replace (ctrl_a_count u + (b2z (key =? 1) + presses keys)) with (n + presses keys) by (unfold n; lia).
  assert (0 <= presses keys) by (unfold presses; lia).
  replace (ctrl_a_count (after_key key u)) with (if n =? 3 then 0 else n) by done.
  split_and!.
  - assert (count_of NextConsole (GSI gsi_UART :: if n =? 3 then [NextConsole] else []) = b2z (n =? 3))
      as -> by (by destruct (n =? 3)).
    destruct (Z.eqb_spec n 3) as [->|]; simpl b2z; Z.to_euclidean_division_equations; lia.
  - assert (count_of (GSI gsi_UART) (GSI gsi_UART :: if n =? 3 then [NextConsole] else []) = 1)
      as -> by (by destruct (n =? 3)).
    simpl. lia.
  - destruct (Z.eqb_spec n 3) as [->|]; Z.to_euclidean_division_equations; lia.
  - rewrite Hb. destruct keys as [|k ks]; [done|]. change (last (key :: k :: ks)) with (last (k :: ks)).
    destruct (last (k :: ks)) eqn:El; [done|]. by apply last_None in El.
Qed.

(** ** Reading what arrived *)

Definition byte_read (port : Z) (u : Uart8250) : option (Uart8250 * Z) :=
  match uart_read port (PortReadRequest.OneByte 0) u with
  | Ok (u', PortReadRequest.OneByte b) => Some (u', b)
  | _ => None
  end.

Lemma u16_offset base o : is_u 16 (base + o) -> 0 <= o < 2 ^ 16 -> u16 (base + o - base) = o.
Proof. intros. replace (base + o - base) with o by lia. by apply wrap_small. Qed.

Lemma copy_byte_u32 b x : is_u 8 x ->
  PortReadRequest.copy_from_u32 (PortReadRequest.OneByte b) x = Ok (PortReadRequest.OneByte x).
Proof.
  intros Hx. unfold PortReadRequest.copy_from_u32. rewrite be_bytes_4_unfold. cbn.
  by rewrite (Z.mod_small x 256).
Qed.

Definition line_status (u : Uart8250) : Z :=
  0x60 + b2z (bool_decide (is_Some (receive_buffer u))).

Lemma read_lsr u : is_u 16 (base_port u + 7) -> is_u 16 (base_port u) ->
  byte_read (base_port u + 5) u = Some (u, line_status u).
Proof.
  unfold is_u. intros Hb Hb0. unfold byte_read, uart_read.
  rewrite u16_offset by (unfold is_u; lia). cbn -[PortReadRequest.copy_from_u32].
  unfold line_status. case_bool_decide; simpl b2z; by rewrite copy_byte_u32.
Qed.

Lemma read_data u : is_u 16 (base_port u + 7) -> is_u 16 (base_port u) ->
  divisor_latch_bit_set u = false ->
  (forall b, receive_buffer u = Some b -> is_u 8 b) ->
  byte_read (base_port u + 0) u =
  Some match receive_buffer u with
       | Some b => (set_iir 1 (set_receive_buffer None u), b)
       | None => (u, 0)
       end.
Proof.
  unfold is_u. intros Hb Hb0 Hd Hr. unfold byte_read, uart_read.
  rewrite u16_offset by (unfold is_u; lia). rewrite Hd. cbn -[PortReadRequest.copy_from_u32].
  destruct (receive_buffer u) as [b|]; [|done].
  rewrite copy_byte_u32 by (by apply Hr). done.
Qed.

(** a key the host receives reaches the guest exactly once.  After it, the line
    status says data is ready and the data port reads the key; after that read the
    status says there is none, and the data port reads nothing. *)
Lemma uart_key_roundtrip key u e :
  kind e = HostUartReceived key -> responses e = [] -> is_u 8 key ->
  0 <= ctrl_a_count u < 3 -> divisor_latch_bit_set u = false ->
  is_u 16 (base_port u) -> is_u 16 (base_port u + 7) ->
  exists u1 u2 e', uart_on_event (u, e) = ((u1, e'), Ok tt) /\
    byte_read (base_port u + SerialOffset.LSR) u1 = Some (u1, 0x61) /\
    byte_read (base_port u + SerialOffset.DATA) u1 = Some (u2, key) /\
    byte_read (base_port u + SerialOffset.LSR) u2 = Some (u2, 0x60) /\
    byte_read (base_port u + SerialOffset.DATA) u2 = Some (u2, 0) /\
    divisor_latch_bit_set u2 = false /\ 0 <= ctrl_a_count u2 < 3 /\ base_port u2 = base_port u.
Proof.
  intros Hk Hr Hkey Hc Hd Hb0 Hb. rewrite (uart_receive_spec key) by done.
  set (u1 := after_key key u). exists u1, (set_iir 1 (set_receive_buffer None u1)).
  eexists. split; [reflexivity|].
  pose proof (read_lsr u1 Hb Hb0) as L1. pose proof (read_data u1 Hb Hb0 Hd) as D1.
  set (u2 := set_iir 1 (set_receive_buffer None u1)) in *.
  pose proof (read_lsr u2 Hb Hb0) as L2. pose proof (read_data u2 Hb Hb0 Hd) as D2.
  change (base_port u1) with (base_port u) in *. change (base_port u2) with (base_port u) in *.
  unfold SerialOffset.LSR, SerialOffset.DATA. rewrite L1, L2, D1, D2; [|done|by intros b [= <-]].
  split_and!; try done; cbn; destruct (Z.eqb_spec (ctrl_a_count u + b2z (key =? 1)) 3);
    destruct (key =? 1); simpl in *; lia.
Qed.
End uart_theorems.

Definition view_none : GuestAddressSpaceView := view_from_vmcs 0 0.
Definition plain_event (k : DeviceEvent) : Event unit := mkEvent k view_none [] empty_space tt.

Lemma uart_console_switch_witness :
  exists u' l, uart_feed [1; 0x61; 1; 1; 0x62] (uart_new 0x3f8) (plain_event (HostUartReceived 0)) = Ok (u', l) /\
    count_of NextConsole l = 1 /\ receive_buffer u' = Some 0x62.
Proof.
  destruct (uart_console_switch [1; 0x61; 1; 1; 0x62] (uart_new 0x3f8) (plain_event (HostUartReceived 0)))
    as (u' & l & H & Hn & _ & _ & Hb); [simpl; lia|].
  exists u', l. split; [exact H|]. split; [exact Hn|exact Hb].
Defined.

Lemma uart_key_roundtrip_witness :
  exists u1 u2 e', uart_on_event (uart_new 0x3f8, plain_event (HostUartReceived 0x41)) = ((u1, e'), Ok tt) /\
    byte_read (0x3f8 + SerialOffset.DATA) u1 = Some (u2, 0x41).
Proof.
  destruct (uart_key_roundtrip 0x41 (uart_new 0x3f8) (plain_event (HostUartReceived 0x41)))
    as (u1 & u2 & e' & H & _ & Hd & _); [reflexivity|reflexivity|unfold is_u; lia|simpl; lia|reflexivity
    |unfold is_u; simpl; lia|unfold is_u; simpl; lia|].
  exists u1, u2, e'. split; [exact H|exact Hd].
Defined.
