(* ===== verification/Pit.v ===== *)
(** * The interval timer ([mythril/src/virtdev/pit.rs], constants from
    [mythril/src/physdev/pit.rs])

    Channel 0 drives a virtual timer of the executing core; channel 2 only
    remembers when it was started, for the speaker port. *)

From S2P Require Import Prelude Error BTreeMap Memory VirtDev Clock Apic Timers Vm Platform.

Definition PIT_NS_PER_TICK : Z := 838.
Definition PIT_COUNTER_0 : Z := 0x0040.
Definition PIT_COUNTER_1 : Z := 0x0041.
Definition PIT_COUNTER_2 : Z := 0x0042.
Definition PIT_MODE_CONTROL : Z := 0x0043.
Definition PIT_PS2_CTRL_B : Z := 0x0061.

Inductive OperatingModeState :=
| Mode0 (start_counter : option Z) (timer : option TimerId) (start_time : option Z)
| Mode2 (start_counter : option Z) (timer : option TimerId) (start_time : option Z).

Inductive AccessModeState := LatchCount | LoByte | HiByte | Word (lo_byte : option Z).

Record ChannelState := mkChannel { ch_mode : OperatingModeState; ch_access : AccessModeState }.

Definition channel_default : ChannelState := mkChannel (Mode0 None None None) LoByte.

(** Channel 1 is not supported. *)
Record Pit8254 := mkPit { channel0 : ChannelState; channel2 : ChannelState }.

Definition pit_new : Pit8254 := mkPit channel_default channel_default.

Definition mode_timer (m : OperatingModeState) : option TimerId :=
  match m with Mode0 _ t _ | Mode2 _ t _ => t end.

Definition pit_services (p : Pit8254) : list DeviceRegion :=
  [PortIo PIT_COUNTER_0 PIT_MODE_CONTROL; PortIo PIT_PS2_CTRL_B PIT_PS2_CTRL_B].

(** The two channels a guest can address. *)
Inductive ChannelId := Ch0 | Ch2.
Definition channel (c : ChannelId) (p : Pit8254) : ChannelState :=
  match c with Ch0 => channel0 p | Ch2 => channel2 p end.
Definition set_channel (c : ChannelId) (s : ChannelState) (p : Pit8254) : Pit8254 :=
  match c with Ch0 => mkPit s (channel2 p) | Ch2 => mkPit (channel0 p) s end.

(** Decoding a mode command: the channel and its new state, in the order the source
    makes its checks. *)
Definition decode_mode (val : Z) : res (ChannelId * ChannelState) :=
  let ch := Z.shiftr (Z.land 0xc0 val) 6 in
  let access := Z.shiftr (Z.land 0x30 val) 4 in
  let operating := Z.shiftr (Z.land 0x0e val) 1 in
  if has_bits val 1 then Err (InvalidValue (str "PIT BCD mode is not supported"))
  else
    operating_state ←
      match operating with
      | 0 => Ok (Mode0 None None None)
      | 2 => Ok (Mode2 None None None)
      | value => Err (InvalidValue (Msg "Invalid PIT operating state '0x{:x}'" [value]))
      end;
    access_state ←
      match access with
      | 0 => Ok LatchCount
      | 1 => Ok LoByte
      | 2 => Ok HiByte
      | 3 => Ok (Word None)
      | value => Err (InvalidValue (Msg "Invalid PIT access state '0x{:x}'" [value]))
      end;
    c ←
      match ch with
      | 0 => Ok Ch0
      | 2 => Ok Ch2
      | value => Err (InvalidValue (Msg "Invalid PIT channel '0x{:x}'" [value]))
      end;
    Ok (c, mkChannel operating_state access_state).

(** The byte written to a counter port: a full count, or the low half of one. *)
Inductive CounterWrite := HalfWritten (s : ChannelState) | CounterLoaded (counter : Z).

Definition write_counter_byte (val : Z) (s : ChannelState) : res CounterWrite :=
  match ch_access s with
  | LoByte => Ok (CounterLoaded val)
  | HiByte => Ok (CounterLoaded (u16 (Z.shiftl val 8)))
  | Word (Some lo) => Ok (CounterLoaded (Z.lor (u16 (Z.shiftl val 8)) lo))
  | Word None => Ok (HalfWritten (mkChannel (ch_mode s) (Word (Some val))))
  | LatchCount => Panic "internal error: entered unreachable code"
  end.

Section pit.
Context `{TimeSource}.
Context (apic : LocalApic) (this_core : Z).
Notation M := (st (Pit8254 * Event Platform)).

(** The result of cancelling is dropped; a panic is not. *)
Definition cancel_channel_timer (m : OperatingModeState) : st Platform unit := fun p =>
  match mode_timer m with
  | None => (p, Ok tt)
  | Some id =>
      match cancel_timer apic this_core id p with
      | (p, Err _) => (p, Ok tt)
      | r => r
      end
  end.

Definition write_mode (val : Z) : M unit :=
  '(c, new) ← lift (decode_mode val);
  d ← get_dev;
  _ ← on_world (cancel_channel_timer (ch_mode (channel c d)));
  set_dev (set_channel c new d).

Definition write_counter (c : ChannelId) (val : Z) : M unit :=
  d ← get_dev;
  let s := channel c d in
  w ← lift (write_counter_byte val s);
  match w with
  | HalfWritten s => set_dev (set_channel c s d)
  | CounterLoaded counter =>
      if counter =? 0 then mret tt
      else
        let duration := u64 (PIT_NS_PER_TICK * counter) in
        t ← on_world (on_hw now);
        match ch_mode s with
        | Mode0 _ timer _ =>
            timer ← match c with
                    | Ch0 => id ← on_world (register_core_timer apic this_core (one_shot duration (TimerGSI gsi_PIT)));
                             mret (Some id)
                    | Ch2 => mret timer
                    end;
            set_dev (set_channel c (mkChannel (Mode0 (Some counter) timer (Some t)) (ch_access s)) d)
        | Mode2 _ timer _ =>
            timer ← match c with
                    | Ch0 => id ← on_world (register_core_timer apic this_core (periodic duration (TimerGSI gsi_PIT)));
                             mret (Some id)
                    | Ch2 => mret timer
                    end;
            set_dev (set_channel c (mkChannel (Mode2 (Some counter) timer (Some t)) (ch_access s)) d)
        end
  end.

Definition pit_on_port_write (port : Z) (val : PortWriteRequest.t) : M unit :=
  if port =? PIT_MODE_CONTROL then
    val ← lift (PortWriteRequest.to_u8 val); write_mode val
  else if (PIT_COUNTER_0 <=? port) && (port <=? PIT_COUNTER_2) then
    val ← lift (PortWriteRequest.to_u8 val);
    if port =? PIT_COUNTER_0 then write_counter Ch0 val
    else if port =? PIT_COUNTER_1 then err (InvalidValue (Msg "Invalid PIT port '0x{:x}'" [port]))
    else write_counter Ch2 val
  else mret tt.

Definition pit_on_port_read (port : Z) (val : PortReadRequest.t) : M unit :=
  if port =? PIT_PS2_CTRL_B then
    d ← get_dev;
    match ch_mode (channel2 d) with
    | Mode0 (Some start_counter) _ (Some start_time) =>
        n ← on_world (on_hw now);
        let ticks := instant_diff n start_time / PIT_NS_PER_TICK in
        if u16 ticks >? start_counter then reply_u32 port val (Z.shiftl 1 5) else mret tt
    | _ => mret tt
    end
  else mret tt.

Definition pit_on_event : handler Platform Pit8254 :=
  e ← get_event;
  match kind e with
  | PortRead port val => pit_on_port_read port val
  | PortWrite port val => pit_on_port_write port val
  | _ => mret tt
  end.
End pit.

(** ** Programming channel 0 *)

Section pit_theorems.
Context `{TimeSource}.
Context (apic : LocalApic) (this_core : Z).
Implicit Types (d : Pit8254) (e : Event Platform) (p : Platform).

(** Who hears of the end of a channel's timer: the owner of one that runs on another
    core, when its queue takes the message.  Otherwise nobody does. *)
Definition cancel_message (prev : option TimerId) (p : Platform) (core : Z) : list VirtualMachineMsg :=
  match prev with
  | Some id =>
      if bool_decide (core_id id = core /\ core <> this_core) then
        match pl_queue p core with
        | Some q => if bool_decide (length q < MAX_PENDING_MSG)%nat then [CancelTimer id] else []
        | None => []
        end
      else []
  | None => []
  end.

(** Cancelling the timer [prev] of a channel. *)
Definition cancelled (prev : option TimerId) (p p' : Platform) : Prop :=
  wheel_inv this_core (pl_wheel p') /\ counter (pl_wheel p') = counter (pl_wheel p) /\
  (forall core, pl_queue p' core = (fun q => q ++ cancel_message prev p core) <$> pl_queue p core) /\
  forall id, get_timer (pl_wheel p') id = if decide (prev = Some id) then None else get_timer (pl_wheel p) id.

Lemma append_nil (o : option (list VirtualMachineMsg)) : (fun q => q ++ []) <$> o = o.
Proof. destruct o as [q|]; [|done]. cbn. by rewrite app_nil_r. Qed.

Lemma cancel_channel_spec m p :
  wheel_inv this_core (pl_wheel p) ->
  exists p', cancel_channel_timer apic this_core m p = (p', Ok tt) /\ cancelled (mode_timer m) p p'.
Proof.
  intros Hinv. unfold cancel_channel_timer, cancelled, cancel_message. destruct (mode_timer m) as [id|].
  2:{ exists p. split_and!; try done. intros core. by rewrite append_nil. }
  pose proof (cancel_timer_spec apic this_core id p Hinv) as Hs.
  destruct (cancel_timer apic this_core id p) as [p' r]. destruct Hs as (Hi & Hc & He). unfold cancel_effect in He.
  destruct (Z.eqb_spec (core_id id) this_core) as [Hl|Hl].
  - destruct He as (-> & Hctx & Hg). exists p'. split_and!; try done.
    + intros core. rewrite bool_decide_false, append_nil by (intros [? ?]; congruence). unfold pl_queue. by rewrite Hctx.
    + intros id'. rewrite Hg. repeat case_decide; congruence.
  - destruct He as [Hw He].
    assert (get_timer (pl_wheel p) id = None) as Hnone.
    { destruct Hinv as (Hwf & _ & Hids). destruct (get_timer (pl_wheel p) id) as [t|] eqn:E; [|done].
      apply wheel_get_iff in E; [|done]. apply Hids in E. tauto. }
    exists p'. split; [destruct (pl_queue p (core_id id)); [case_bool_decide|]; by destruct He as [-> _]|].
    split_and!; [done|done| |intros id'; rewrite Hw; case_decide as Hd; [injection Hd as <-; done|done]].
    intros core. case_bool_decide as Hb.
    + destruct Hb as [<- _]. destruct (pl_queue p (core_id id)) as [q|] eqn:E; [case_bool_decide|].
      * destruct He as [_ Hq]. by rewrite Hq, decide_True.
      * destruct He as [_ ->]. by rewrite append_nil.
      * by destruct He as [_ ->].
    + rewrite append_nil. destruct (pl_queue p (core_id id)) as [q|] eqn:E; [case_bool_decide|].
      * destruct He as [_ Hq]. rewrite Hq, decide_False; [done|]. intros ->. by destruct Hb.
      * by destruct He as [_ ->].
      * by destruct He as [_ ->].
Qed.

Lemma register_core_spec t p :
  wheel_inv this_core (pl_wheel p) -> counter (pl_wheel p) + 1 < 2 ^ 64 ->
  exists p' started, register_core_timer apic this_core t p =
      (p', Ok (mkTimerId (counter (pl_wheel p)) this_core)) /\
    wheel_inv this_core (pl_wheel p') /\ counter (pl_wheel p') = counter (pl_wheel p) + 1 /\
    pl_contexts p' = pl_contexts p /\
    forall id, get_timer (pl_wheel p') id =
      if decide (id = mkTimerId (counter (pl_wheel p)) this_core)
      then Some (mkRunning (ready_duration t) (ready_mode t) started (ready_kind t))
      else get_timer (pl_wheel p) id.
Proof.
  intros Hinv Hc. unfold register_core_timer. rewrite st_bind_eq. cbn [get_wheel].
  rewrite st_bind_eq. unfold on_hw.
  destruct (register_timer_spec apic this_core (pl_wheel p) t (pl_hw p) Hinv Hc)
    as (hw' & w' & He & Hi & _ & Hg).
  pose proof (register_timer_counter _ _ _ _ _ _ _ _ He) as Hcnt. rewrite He.
  unfold u64 in Hcnt. rewrite wrap_small in Hcnt by (unfold is_u; destruct Hinv as (_ & ? & _); lia).
  eexists _, _. split; [reflexivity|]. split_and!; [exact Hi|exact Hcnt|done|exact Hg].
Qed.

(** The mode commands of channel 0: mode 0 or 2, and the bytes of the count that follow. *)
Inductive CountBytes := LowByte | HighByte | BothBytes.

Definition mode_command (m : TimerMode) (b : CountBytes) : Z :=
  match b with LowByte => 0x10 | HighByte => 0x20 | BothBytes => 0x30 end + match m with OneShot => 0 | Periodic => 4 end.

Definition idle_mode (m : TimerMode) : OperatingModeState :=
  match m with OneShot => Mode0 None None None | Periodic => Mode2 None None None end.

Definition timer_mode (m : OperatingModeState) : TimerMode :=
  match m with Mode0 _ _ _ => OneShot | Mode2 _ _ _ => Periodic end.

Lemma decode_mode_command m b :
  decode_mode (mode_command m b) =
  Ok (Ch0, mkChannel (idle_mode m) match b with LowByte => LoByte | HighByte => HiByte | BothBytes => Word None end).
Proof. by destruct m, b. Qed.

Definition write_count (byte : Z) : st (Pit8254 * Event Platform) unit :=
  pit_on_port_write apic this_core PIT_COUNTER_0 (PortWriteRequest.OneByte byte).

(** The guest's programming sequence: mode command, then the bytes of the count it announced. *)
Definition program_channel0 (m : TimerMode) (b : CountBytes) (lo hi : Z) : st (Pit8254 * Event Platform) unit :=
  _ ← pit_on_port_write apic this_core PIT_MODE_CONTROL (PortWriteRequest.OneByte (mode_command m b));
  match b with
  | LowByte => write_count lo
  | HighByte => write_count hi
  | BothBytes => _ ← write_count lo; write_count hi
  end.

Definition count_of (b : CountBytes) (lo hi : Z) : Z :=
  match b with LowByte => lo | HighByte => 256 * hi | BothBytes => lo + 256 * hi end.

(** The count a further byte makes, without a mode command: the low byte of a two-byte
    count is the old one. *)
Definition reload_of (b : CountBytes) (lo byte : Z) : Z :=
  match b with LowByte => byte | HighByte => 256 * byte | BothBytes => lo + 256 * byte end.

Lemma high_counter hi : is_u 8 hi -> u16 (Z.shiftl hi 8) = 256 * hi.
Proof. unfold is_u, u16. intros Hhi. rewrite wrap_small; rewrite Z.shiftl_mul_pow2 by lia; unfold is_u; lia. Qed.

Lemma word_counter lo hi : is_u 8 lo -> is_u 8 hi -> Z.lor (u16 (Z.shiftl hi 8)) lo = lo + 256 * hi.
Proof.
  unfold is_u. intros Hlo Hhi. unfold u16. rewrite wrap_small by (rewrite Z.shiftl_mul_pow2 by lia; unfold is_u; lia).
  rewrite Z.lor_comm, lor_shiftl_add by (unfold is_u; lia). lia.
Qed.

(** The channel runs the timer [id], and the wheel has it besides those it had. *)
Definition timer_started (m : TimerMode) (n : Z) (w : TimerWheel) (d : Pit8254) (p : Platform) : Prop :=
  let id := mkTimerId (counter w) this_core in
  mode_timer (ch_mode (channel0 d)) = Some id /\ wheel_inv this_core (pl_wheel p) /\
  counter (pl_wheel p) = counter w + 1 /\
  exists started, forall id', get_timer (pl_wheel p) id' =
    if decide (id' = id) then Some (mkRunning (838 * n) m started (TimerGSI gsi_PIT)) else get_timer w id'.

(** A byte that completes a count. *)
Lemma load_count_spec byte n d e :
  write_counter_byte byte (channel0 d) = Ok (CounterLoaded n) -> 0 < n < 2 ^ 16 ->
  wheel_inv this_core (pl_wheel (world e)) -> counter (pl_wheel (world e)) + 1 < 2 ^ 64 ->
  exists d' p', write_count byte (d, e) = ((d', set_world p' e), Ok tt) /\
    channel2 d' = channel2 d /\ ch_access (channel0 d') = ch_access (channel0 d) /\
    timer_mode (ch_mode (channel0 d')) = timer_mode (ch_mode (channel0 d)) /\
    (forall core, pl_queue p' core = pl_queue (world e) core) /\
    timer_started (timer_mode (ch_mode (channel0 d))) n (pl_wheel (world e)) d' p'.
Proof.
  intros Hb Hn Hinv Hc. change (write_count byte (d, e)) with (write_counter apic this_core Ch0 byte (d, e)).
  unfold write_counter. rewrite st_bind_eq. cbn [get_dev fst channel].
  rewrite st_bind_eq. unfold lift. rewrite Hb. rewrite (proj2 (Z.eqb_neq _ 0)) by lia.
  replace (u64 (PIT_NS_PER_TICK * n)) with (838 * n) by (symmetry; apply wrap_small; unfold is_u, PIT_NS_PER_TICK; lia).
  rewrite st_bind_eq. cbn [on_world on_hw now fst snd].
  set (p1 := mkPlatform (mkHw _ _) _ _).
  destruct (ch_mode (channel0 d)); rewrite st_bind_eq, st_bind_eq; unfold on_world; cbn [fst snd world set_world timer_mode];
    [set (t := one_shot (838 * n) (TimerGSI gsi_PIT))|set (t := periodic (838 * n) (TimerGSI gsi_PIT))];
    (destruct (register_core_spec t p1 Hinv Hc) as (p2 & started & -> & Hi & Hcnt & Hq & Hg));
    (eexists _, p2; split; [reflexivity|]); (split_and!; try done);
    try (intros core; unfold pl_queue; by rewrite Hq); split_and!; try done; exists started; exact Hg.
Qed.

Lemma write_mode_spec m b d e :
  wheel_inv this_core (pl_wheel (world e)) ->
  exists p', write_mode apic this_core (mode_command m b) (d, e) =
      ((mkPit (mkChannel (idle_mode m) match b with LowByte => LoByte | HighByte => HiByte | BothBytes => Word None end)
          (channel2 d), set_world p' e), Ok tt) /\
    cancelled (mode_timer (ch_mode (channel0 d))) (world e) p'.
Proof.
  intros Hinv. unfold write_mode. rewrite st_bind_eq. unfold lift. rewrite decode_mode_command.
  rewrite st_bind_eq. cbn [get_dev fst]. rewrite st_bind_eq. unfold on_world. cbn [snd fst channel].
  destruct (cancel_channel_spec (ch_mode (channel0 d)) (world e) Hinv) as (p' & -> & Hp). by exists p'.
Qed.

Lemma write_low_byte lo d e :
  ch_access (channel0 d) = Word None ->
  write_count lo (d, e) = ((mkPit (mkChannel (ch_mode (channel0 d)) (Word (Some lo))) (channel2 d), e), Ok tt).
Proof.
  intros Ha. change (write_count lo) with (write_counter apic this_core Ch0 lo).
  unfold write_counter. rewrite st_bind_eq. cbn [get_dev fst channel].
  rewrite st_bind_eq. unfold lift, write_counter_byte. rewrite Ha. done.
Qed.

(** The access state a programmed channel is left in. *)
Definition loaded_access (b : CountBytes) (lo : Z) : AccessModeState :=
  match b with LowByte => LoByte | HighByte => HiByte | BothBytes => Word (Some lo) end.

Lemma loaded_byte b lo byte s :
  is_u 8 lo -> is_u 8 byte -> ch_access s = loaded_access b lo ->
  write_counter_byte byte s = Ok (CounterLoaded (reload_of b lo byte)).
Proof.
  intros Hlo Hb Ha. unfold write_counter_byte. rewrite Ha.
  destruct b; cbn [loaded_access reload_of]; [done|by rewrite high_counter|by rewrite word_counter].
Qed.

Lemma program_spec m b lo hi d e :
  wheel_inv this_core (pl_wheel (world e)) -> counter (pl_wheel (world e)) + 1 < 2 ^ 64 ->
  is_u 8 lo -> is_u 8 hi -> count_of b lo hi <> 0 ->
  exists p1 d' p', program_channel0 m b lo hi (d, e) = ((d', set_world p' e), Ok tt) /\
    channel2 d' = channel2 d /\ ch_access (channel0 d') = loaded_access b lo /\
    timer_mode (ch_mode (channel0 d')) = m /\
    cancelled (mode_timer (ch_mode (channel0 d))) (world e) p1 /\
    (forall core, pl_queue p' core = pl_queue p1 core) /\
    timer_started m (count_of b lo hi) (pl_wheel p1) d' p'.
Proof.
  intros Hinv Hc Hlo Hhi Hnz. unfold program_channel0.
  change (pit_on_port_write apic this_core PIT_MODE_CONTROL (PortWriteRequest.OneByte (mode_command m b)))
    with (write_mode apic this_core (mode_command m b)).
  destruct (write_mode_spec m b d e Hinv) as (p1 & Hm & Hcan). rewrite st_bind_eq, Hm.
  pose proof Hcan as (Hi1 & Hc1 & _ & _). exists p1.
  set (d1 := mkPit (mkChannel (idle_mode m) (loaded_access b lo)) (channel2 d)).
  destruct (load_count_spec match b with LowByte => lo | _ => hi end (count_of b lo hi) d1 (set_world p1 e))
    as (d' & p' & Hl & H2 & Ha & Ht & Hq & Hs).
  { rewrite (loaded_byte b lo) by (by destruct b). by destruct b. }
  { unfold is_u in *. destruct b; cbn [count_of] in *; lia. }
  { done. }
  { cbn [world set_world]. lia. }
  exists d', p'.
  assert (timer_mode (idle_mode m) = m) as Et by (by destruct m).
  cbn [d1 channel0 ch_mode ch_access channel2 world set_world] in *. rewrite Et in *.
  split_and!; try done. destruct b; [exact Hl|exact Hl|]. rewrite st_bind_eq, write_low_byte by done. exact Hl.
Qed.

(** C27: programming channel 0, with one byte of the count or both.  A mode command and a non-zero
    count start exactly one timer on the executing core, one-shot for mode 0 and periodic
    for mode 2, that raises the timer's interrupt line after 838 ns per count; every
    other timer of the core and the other channel are untouched.  The timer the
    channel ran before leaves the wheel when it is one of this core; when it runs on another core,
    that core is sent a cancellation if its queue takes it, and otherwise the old timer
    keeps running and no error is reported.  A further count without a mode command (for two bytes,
    a single byte, taken as the high one) starts a second timer and leaves the first
    running although the channel no longer knows it.  The wheel is consistent ([wheel_inv]) and
    its 64-bit counter has two timer ids left. *)
Theorem pit_programs_timer m b lo hi d e :
  wheel_inv this_core (pl_wheel (world e)) -> counter (pl_wheel (world e)) + 2 < 2 ^ 64 ->
  is_u 8 lo -> is_u 8 hi -> count_of b lo hi <> 0 ->
  let prev := mode_timer (ch_mode (channel0 d)) in
  let id := mkTimerId (counter (pl_wheel (world e))) this_core in
  exists d' e' started, program_channel0 m b lo hi (d, e) = ((d', e'), Ok tt) /\
    mode_timer (ch_mode (channel0 d')) = Some id /\ channel2 d' = channel2 d /\
    wheel_inv this_core (pl_wheel (world e')) /\
    (forall core, pl_queue (world e') core = (fun q => q ++ cancel_message prev (world e) core) <$> pl_queue (world e) core) /\
    (forall id', get_timer (pl_wheel (world e')) id' =
      if decide (id' = id) then Some (mkRunning (838 * count_of b lo hi) m started (TimerGSI gsi_PIT))
      else if decide (prev = Some id') then None
      else get_timer (pl_wheel (world e)) id') /\
    forall byte, is_u 8 byte -> reload_of b lo byte <> 0 ->
      let id2 := mkTimerId (counter (pl_wheel (world e)) + 1) this_core in
      exists d2 e2 started2, write_count byte (d', e') = ((d2, e2), Ok tt) /\
        mode_timer (ch_mode (channel0 d2)) = Some id2 /\
        forall id', get_timer (pl_wheel (world e2)) id' =
          if decide (id' = id2) then Some (mkRunning (838 * reload_of b lo byte) m started2 (TimerGSI gsi_PIT))
          else get_timer (pl_wheel (world e')) id'.
Proof.
  intros Hinv Hc Hlo Hhi Hnz prev id.
  destruct (program_spec m b lo hi d e Hinv ltac:(lia) Hlo Hhi Hnz)
    as (p1 & d' & p' & Hp & H2 & Ha & Ht & (_ & Hc1 & Hq1 & Hg1) & Hq & (Hid & Hi & Hc' & started & Hg)).
  exists d', (set_world p' e), started. cbn [world set_world]. rewrite Hc1 in *. split_and!; try done.
  - intros core. by rewrite Hq, Hq1.
  - intros id'. rewrite Hg. subst id. destruct (decide _); [done|]. apply Hg1.
  - intros byte Hb Hr.
    destruct (load_count_spec byte (reload_of b lo byte) d' (set_world p' e))
      as (d2 & p2 & Hl & _ & _ & _ & _ & (Hid2 & _ & _ & started2 & Hg2)).
    + by apply loaded_byte.
    + unfold is_u in *. destruct b; cbn [reload_of] in *; lia.
    + done.
    + cbn [world set_world]. lia.
    + cbn [world set_world] in *. rewrite Hc', Ht in *. exists d2, (set_world p2 (set_world p' e)), started2.
      split; [exact Hl|]. split; [exact Hid2|exact Hg2].
Qed.
End pit_theorems.

(** Channel 0 ran a timer on core 3, which gets the cancellation. *)
Lemma pit_programs_timer_witness :
  let d := mkPit (mkChannel (Mode2 (Some 7) (Some (mkTimerId 4 3)) (Some 0)) LoByte) channel_default in
  let e := mkEvent (HostUartReceived 0) (view_from_vmcs 0 0) [] empty_space
    (mkPlatform (mkHw 0 []) wheel_new [mkContext 3 0 []]) in
  exists d' e', @program_channel0 second_clock (mkLocalApic 0 1) 2 Periodic BothBytes 0x9c 0x2e (d, e) = ((d', e'), Ok tt) /\
    pl_queue (world e') 3 = Some [CancelTimer (mkTimerId 4 3)] /\
    exists t, get_timer (pl_wheel (world e')) (mkTimerId 0 2) =
      Some (mkRunning (838 * 11932) Periodic t (TimerGSI gsi_PIT)).
Proof.
  cbv zeta.
  destruct (@pit_programs_timer second_clock (mkLocalApic 0 1) 2 Periodic BothBytes 0x9c 0x2e
    (mkPit (mkChannel (Mode2 (Some 7) (Some (mkTimerId 4 3)) (Some 0)) LoByte) channel_default)
    (mkEvent (HostUartReceived 0) (view_from_vmcs 0 0) [] empty_space
      (mkPlatform (mkHw 0 []) wheel_new [mkContext 3 0 []])))
    as (d' & e' & t & H & _ & _ & _ & Hq & Hg & _).
  - split; [apply bt_wf_nil|]. split; [simpl; lia|]. intros id t Hin. by apply not_elem_of_nil in Hin.
  - simpl. lia.
  - unfold is_u. lia.
  - unfold is_u. lia.
  - discriminate.
  - exists d', e'. split; [exact H|]. split; [rewrite Hq; reflexivity|].
    exists t. rewrite Hg. rewrite decide_True by reflexivity. reflexivity.
Defined.
