(* ===== verification/Devices.v ===== *)
(** * The small devices: debug port, keyboard, I/O APIC window, interrupt
    controller, ACPI runtime ports, VGA controller and CMOS
    ([mythril/src/virtdev/{debug,keyboard,ioapic,pic,acpi,vga,rtc}.rs]) *)

From S2P Require Import Prelude Error BTreeMap Memory VirtDev Clock Apic Timers Vm Platform.

(** ** [debug.rs] *)
Module DebugPort.
Definition t : Type := Z.
Definition new (port : Z) : t := port.
Definition services (d : t) : list DeviceRegion := [PortIo d d].

Definition on_event {W} : handler W t :=
  e ← get_event;
  match kind e with
  | PortRead port val => reply_u32 port val 0xe9
  | PortWrite _ val =>
      b ← lift (PortWriteRequest.to_u8 val);
      push_response (GuestUartTransmitted b)
  | _ => mret tt
  end.
End DebugPort.

(** ** [keyboard.rs] *)
Module Keyboard8042.
Definition t : Type := unit.
Definition new : t := tt.
Definition PS2_DATA : Z := 0x0060.
Definition PS2_STATUS : Z := 0x0064.
Definition services (d : t) : list DeviceRegion :=
  [PortIo PS2_DATA PS2_DATA; PortIo PS2_STATUS PS2_STATUS].

Definition on_event {W} : handler W t :=
  e ← get_event;
  match kind e with
  | PortRead port val => reply_u32 port val 0xff
  | _ => mret tt
  end.
End Keyboard8042.

(** ** [ioapic.rs]: the window is claimed and ignored. *)
Module VirtIoApic.
Definition t : Type := unit.
Definition new : t := tt.
Definition services (d : t) : list DeviceRegion :=
  [MemIo 0xfec00000 0xfec010f0; MemIo 0xfed00000 0xfed010f0].
Definition on_event {W} : handler W t := fun s => (s, Ok tt).
End VirtIoApic.

(** ** [pic.rs] *)
Module Pic8259.
Record t := mkPic { master_imr : Z; slave_imr : Z }.
Definition new : t := mkPic 0 0.
Definition PIC_MASTER_COMMAND : Z := 0x0020.
Definition PIC_MASTER_DATA : Z := PIC_MASTER_COMMAND + 1.
Definition PIC_SLAVE_COMMAND : Z := 0x00a0.
Definition PIC_SLAVE_DATA : Z := PIC_SLAVE_COMMAND + 1.
Definition PIC_ECLR_COMMAND : Z := 0x4d0.
Definition PIC_ECLR_DATA : Z := PIC_ECLR_COMMAND + 1.

Definition services (d : t) : list DeviceRegion := [
  PortIo PIC_MASTER_COMMAND PIC_MASTER_DATA;
  PortIo PIC_SLAVE_COMMAND PIC_SLAVE_DATA;
  PortIo PIC_ECLR_COMMAND PIC_ECLR_DATA].

(** Both data ports work on the master's mask. *)
Definition on_event {W} : handler W t :=
  e ← get_event;
  d ← get_dev;
  match kind e with
  | PortRead port val =>
      if port =? PIC_MASTER_DATA then reply_u32 port val (master_imr d)
      else if port =? PIC_SLAVE_DATA then reply_u32 port val (master_imr d)
      else mret tt
  | PortWrite port val =>
      if port =? PIC_MASTER_DATA then
        imr ← lift (PortWriteRequest.to_u8 val); set_dev (mkPic imr (slave_imr d))
      else if port =? PIC_SLAVE_DATA then
        imr ← lift (PortWriteRequest.to_u8 val); set_dev (mkPic imr (slave_imr d))
      else mret tt
  | _ => mret tt
  end.
End Pic8259.

(** ** [acpi.rs] *)
Module AcpiRuntime.
Definition PMTIMER_HZ : Z := 3579545.
Definition t : Type := Z.
Definition new (pm_base : Z) : t := pm_base.
Definition FADT_SMI_COMMAND : Z := 0xb2.
Definition GPE_BLOCK_START : Z := 0xafe0.
Definition GPE_BLOCK_END : Z := 0xafe3.
Definition PCI_SLOT_INJECTION_START : Z := 0xae00.
Definition PCI_SLOT_INJECTION_END : Z := 0xae03.
Definition PCI_SLOT_REMOVAL_NOTIFY_START : Z := 0xae04.
Definition PCI_SLOT_REMOVAL_NOTIFY_END : Z := 0xae07.
Definition PCI_DEVICE_EJECT_START : Z := 0xae08.
Definition PCI_DEVICE_EJECT_END : Z := 0xae0b.
Definition PCI_REMOVABILITY_STATUS_START : Z := 0xae0c.
Definition PCI_REMOVABILITY_STATUS_END : Z := 0xae0f.
Definition pm1a_cnt (d : t) : Z := u16 (d + 4).
Definition pmtimer (d : t) : Z := u16 (d + 8).

Definition services (d : t) : list DeviceRegion := [
  PortIo FADT_SMI_COMMAND FADT_SMI_COMMAND;
  PortIo (pm1a_cnt d) (pm1a_cnt d);
  PortIo (pmtimer d) (pmtimer d);
  PortIo GPE_BLOCK_START GPE_BLOCK_END;
  PortIo PCI_SLOT_INJECTION_START PCI_SLOT_INJECTION_END;
  PortIo PCI_SLOT_REMOVAL_NOTIFY_START PCI_SLOT_REMOVAL_NOTIFY_END;
  PortIo PCI_DEVICE_EJECT_START PCI_DEVICE_EJECT_END;
  PortIo PCI_REMOVABILITY_STATUS_START PCI_REMOVABILITY_STATUS_END].

(** [start] is the reading taken when the system started. *)
Definition on_event `{TimeSource} (start : Z) : handler Platform t :=
  e ← get_event;
  d ← get_dev;
  match kind e with
  | PortRead port val =>
      if port =? pmtimer d then
        n ← on_world (on_hw now);
        let pm_time := wrap 128 (instant_diff n start * PMTIMER_HZ) / 1000000000 in
        reply_u32 port val (u32 pm_time)
      else mret tt
  | _ => mret tt
  end.
End AcpiRuntime.

(** ** [vga.rs] *)
Module VgaController.
(** A [VgaRegister] by its number: all values below 16 are registers. *)
Record t := mkVga { index : Z; registers : list Z }.
Definition VGA_INDEX : Z := 0x03d4.
Definition VGA_DATA : Z := 0x03d5.

Definition new : t := mkVga 0
  [0x61; 0x50; 0x52; 0x0f; 0x19; 0x06; 0x19; 0x19; 0x02; 0x0d; 0x0b; 0x0c; 0x00; 0x00; 0x00; 0x00].

(** [VgaRegister::try_from] *)
Definition register_try_from (b : Z) : res Z :=
  if (0 <=? b) && (b <? 16) then Ok b
  else Err (InvalidValue (Msg "{TryFromPrimitiveError}" [b])).

Definition services (d : t) : list DeviceRegion := [PortIo VGA_INDEX VGA_DATA].

Section vga.
Context {W : Type}.
Notation M := (st (t * Event W)).

Definition on_port_read (port : Z) (val : PortReadRequest.t) : M unit :=
  if port =? VGA_DATA then
    d ← get_dev;
    x ← lift (expect (registers d !! Z.to_nat (index d)) "index out of bounds");
    reply_u32 port val x
  else err (NotImplemented (Msg "Unsupported attempt to read from vga port 0x{:x}" [port])).

Definition on_port_write (port : Z) (val : PortWriteRequest.t) : M unit :=
  d ← get_dev;
  if port =? VGA_INDEX then
    match val with
    | PortWriteRequest.OneByte b =>
        i ← lift (register_try_from b);
        set_dev (mkVga i (registers d))
    | PortWriteRequest.TwoBytes data i =>
        i ← lift (register_try_from i);
        set_dev (mkVga i (<[Z.to_nat i := data]> (registers d)))
    | _ => err (InvalidValue (Msg "Invalid port write to VGA index register: {:?}" (PortWriteRequest.as_slice val)))
    end
  else if port =? VGA_DATA then
    data ← lift (PortWriteRequest.to_u8 val);
    set_dev (mkVga (index d) (<[Z.to_nat (index d) := data]> (registers d)))
  else err (NotImplemented (Msg "Unsupported attempt to write to vga port 0x{:x}" [port])).

Definition on_event : handler W t :=
  e ← get_event;
  match kind e with
  | PortRead port val => on_port_read port val
  | PortWrite port val => on_port_write port val
  | _ => mret tt
  end.
End vga.
End VgaController.

(** ** [rtc.rs] *)
Module CmosRtc.
(** [CmosRegister], by number. *)
Definition CmosRegisters : list Z := [
  0x00; 0x01; 0x02; 0x03; 0x04; 0x05; 0x06; 0x07; 0x08; 0x09; 0x0a; 0x0b; 0x0c; 0x0d; 0x0e; 0x0f;
  0x10; 0x12; 0x14; 0x15; 0x16; 0x17; 0x18; 0x19; 0x1a; 0x2e; 0x2f; 0x30; 0x31; 0x32; 0x33;
  0x34; 0x35; 0x5b; 0x5c; 0x5d; 0xff].
Definition StatusRegisterC : Z := 0x0c.
Definition StatusRegisterD : Z := 0x0d.
Definition ShutdownStatus : Z := 0x0f.
Definition QemuMemAbove16MbLsb : Z := 0x34.
Definition QemuMemAbove16MbMsb : Z := 0x35.
Definition Unknown : Z := 0xff.

Record t := mkCmos { addr : Z; data : list Z }.
Definition RTC_ADDRESS : Z := 0x0070.
Definition RTC_DATA : Z := 0x0071.

(** [mem] is in megabytes. *)
Definition blocks_under_4gb (mem : Z) : Z :=
  let megs_under_4gb := Z.land mem 0xfff in
  u16 (u64 (Z.shiftl (u64 (megs_under_4gb - 16)) 4)).

Definition default_register_values (mem : Z) : list Z :=
  let blocks := blocks_under_4gb mem in
  <[Z.to_nat QemuMemAbove16MbMsb := u8 (Z.shiftr blocks 8)]>
    (<[Z.to_nat QemuMemAbove16MbLsb := u8 blocks]>
      (<[Z.to_nat StatusRegisterD := 0x80]> (replicate 256 0))).

Definition new (mem : Z) : t := mkCmos 0 (default_register_values mem).

Definition services (d : t) : list DeviceRegion := [PortIo RTC_ADDRESS RTC_DATA].

Section rtc.
Context {W : Type}.
Notation M := (st (t * Event W)).

Definition on_port_read (port : Z) (val : PortReadRequest.t) : M unit :=
  d ← get_dev;
  if port =? RTC_ADDRESS then reply_u32 port val (addr d)
  else if port =? RTC_DATA then
    x ← lift (expect (data d !! Z.to_nat (addr d)) "index out of bounds");
    reply_u32 port val x
  else panic "internal error: entered unreachable code".

Definition on_port_write (port : Z) (val : PortWriteRequest.t) : M unit :=
  val ← lift (PortWriteRequest.to_u8 val);
  let val := Z.land val 0x7f in
  d ← get_dev;
  if port =? RTC_ADDRESS then
    set_dev (mkCmos (if bool_decide (val ∈ CmosRegisters) then val else Unknown) (data d))
  else if port =? RTC_DATA then
    if (addr d =? ShutdownStatus) || (addr d =? StatusRegisterD) || (addr d =? StatusRegisterC)
    then mret tt
    else set_dev (mkCmos (addr d) (<[Z.to_nat (addr d) := val]> (data d)))
  else panic "internal error: entered unreachable code".

Definition on_event : handler W t :=
  e ← get_event;
  match kind e with
  | PortRead port val => on_port_read port val
  | PortWrite port val => on_port_write port val
  | _ => mret tt
  end.
End rtc.
End CmosRtc.

(** ** The memory the guest is told about *)

(** Firmware learns the memory size from CMOS 0x34 and 0x35: for a machine of 16
    to 4095 megabytes they are the two bytes of the number of 64 KiB blocks above
    16 MB. *)
Lemma cmos_memory_size mem :
  16 <= mem < 4096 ->
  exists lo hi, CmosRtc.data (CmosRtc.new mem) !! 0x34%nat = Some lo /\
    CmosRtc.data (CmosRtc.new mem) !! 0x35%nat = Some hi /\
    is_u 8 lo /\ is_u 8 hi /\ (lo + 256 * hi) * 65536 = (mem - 16) * 2 ^ 20.
Proof.
  intros Hm. set (b := CmosRtc.blocks_under_4gb mem).
  exists (u8 b), (u8 (Z.shiftr b 8)). split; [reflexivity|]. split; [reflexivity|].
  split; [by apply wrap_is_u|]. split; [by apply wrap_is_u|].
  assert (b = (mem - 16) * 16) as ->.
  { unfold b, CmosRtc.blocks_under_4gb. words. }
  words.
Qed.
