(* ===== verification/Pci.v ===== *)
(** * The PCI root complex ([mythril/src/virtdev/pci.rs])

    Configuration space by the 0xcf8/0xcfc port pair.  A configuration space is a
    packed structure read as 64 little-endian registers. *)

From S2P Require Import Prelude Error BTreeMap Memory VirtDev.

Definition VendorId_Intel : Z := 0x8086.
Definition DeviceId_P35Mch : Z := 0x29c0.
Definition DeviceId_Ich9 : Z := 0x2918.

Record PciNonBridgeHeader := mkHeader {
  vendor_id : Z; device_id : Z; command : Z; status : Z;
  revision_id : Z; prog_if : Z; subclass : Z; class : Z;
  cache_line_size : Z; latency_timer : Z; header_type : Z; bist : Z;
  bar_0 : Z; bar_1 : Z; bar_2 : Z; bar_3 : Z; bar_4 : Z; bar_5 : Z;
  cardbus_cis : Z; subsystem_vendor_id : Z; subsystem_id : Z;
  expansion_rom_addr : Z; capabilities : Z; reserved : list Z;
  interrupt_line : Z; interrupt_pin : Z; min_grant : Z; max_latency : Z
}.

(** [PciNonBridgeHeader { vendor_id, device_id, ..default() }] *)
Definition header_with_id (vendor device : Z) : PciNonBridgeHeader :=
  mkHeader vendor device 0 0 0 0 0 0 0 0 0 0 0 0 0 0 0 0 0 0 0 0 0 (replicate 7 0) 0 0 0 0.

(** The packed layout. *)
Definition header_bytes (h : PciNonBridgeHeader) : list Z :=
  le_bytes 2 (vendor_id h) ++ le_bytes 2 (device_id h) ++ le_bytes 2 (command h) ++ le_bytes 2 (status h)
  ++ [revision_id h; prog_if h; subclass h; class h]
  ++ [cache_line_size h; latency_timer h; header_type h; bist h]
  ++ le_bytes 4 (bar_0 h) ++ le_bytes 4 (bar_1 h) ++ le_bytes 4 (bar_2 h)
  ++ le_bytes 4 (bar_3 h) ++ le_bytes 4 (bar_4 h) ++ le_bytes 4 (bar_5 h)
  ++ le_bytes 4 (cardbus_cis h) ++ le_bytes 2 (subsystem_vendor_id h) ++ le_bytes 2 (subsystem_id h)
  ++ le_bytes 4 (expansion_rom_addr h) ++ [capabilities h] ++ reserved h
  ++ [interrupt_line h; interrupt_pin h; min_grant h; max_latency h].

Inductive PciConfigSpace :=
| Type0 (header : PciNonBridgeHeader) (data : list Z)
| Type1 (data : list Z)
| Type2 (data : list Z).

Definition non_bridge_space (h : PciNonBridgeHeader) : PciConfigSpace := Type0 h (replicate 48 0).

(** [n] registers of a byte string. *)
Fixpoint words_of (n : nat) (bs : list Z) : list Z :=
  match n with
  | O => []
  | S n => of_le (take 4 bs) :: words_of n (drop 4 bs)
  end.

Definition as_registers (s : PciConfigSpace) : list Z :=
  match s with
  | Type0 h data => words_of 16 (header_bytes h) ++ data
  | Type1 data | Type2 data => data
  end.

Definition read_register (s : PciConfigSpace) (register : Z) : res Z :=
  expect (as_registers s !! Z.to_nat register) "index out of bounds".

Record PciBdf := mkBdf { bus : Z; device : Z; function : Z }.

Definition bdf_from (bytes : Z) : PciBdf :=
  mkBdf (u8 (Z.shiftr (Z.land bytes 0xff00) 8)) (u8 (Z.shiftr (Z.land bytes 0xf8) 3)) (u8 (Z.land bytes 7)).

Definition bdf_into (b : PciBdf) : Z :=
  Z.lor (Z.lor (u16 (Z.shiftl (bus b) 8)) (u16 (Z.shiftl (device b) 3))) (function b).

Record PciDevice := mkPciDevice { config_space : PciConfigSpace; bdf : PciBdf }.

Record PciRootComplex := mkComplex { current_address : Z; devices : list (Z * PciDevice) }.

Definition PCI_CONFIG_ADDRESS : Z := 0xcf8.
Definition PCI_CONFIG_TYPE : Z := 0xcfb.
Definition PCI_CONFIG_DATA : Z := 0xcfc.
Definition PCI_CONFIG_DATA_MAX : Z := PCI_CONFIG_DATA + 3.

Definition pci_new : PciRootComplex :=
  let host_bridge := mkPciDevice (non_bridge_space (header_with_id VendorId_Intel DeviceId_P35Mch)) (bdf_from 0) in
  let ich9 := mkPciDevice (non_bridge_space (header_with_id VendorId_Intel DeviceId_Ich9)) (bdf_from 8) in
  mkComplex 0
    (bt_insert Z.compare (bdf_into (bdf ich9)) ich9
      (bt_insert Z.compare (bdf_into (bdf host_bridge)) host_bridge [])).

Definition pci_services (d : PciRootComplex) : list DeviceRegion := [
  PortIo PCI_CONFIG_ADDRESS PCI_CONFIG_ADDRESS;
  PortIo PCI_CONFIG_DATA PCI_CONFIG_DATA_MAX;
  PortIo PCI_CONFIG_TYPE PCI_CONFIG_TYPE].

(** What a read of the data ports sees; [current_address & 0xff >> 2] is a mask of
    [0x3f], as [>>] binds tighter than [&]. *)
Definition config_read (d : PciRootComplex) (port : Z) : res Z :=
  let bdf := u16 (Z.shiftr (Z.land (current_address d) 0xffff00) 8) in
  let register := u8 (Z.land (current_address d) (Z.shiftr 0xff 2)) in
  let offset := u8 (u16 (port - PCI_CONFIG_DATA)) in
  match bt_get Z.compare bdf (devices d) with
  | Some device =>
      x ← read_register (config_space device) register;
      Ok (Z.shiftr x (u8 (offset * 8)))
  | None => Ok 0xffffffff
  end.

Definition pci_on_event {W} : handler W PciRootComplex :=
  e ← get_event;
  d ← get_dev;
  match kind e with
  | PortRead port val =>
      if port =? PCI_CONFIG_ADDRESS then reply_u32 port val (Z.lor 0x80000000 (current_address d))
      else if (PCI_CONFIG_DATA <=? port) && (port <=? PCI_CONFIG_DATA_MAX) then
        x ← lift (config_read d port); reply_u32 port val x
      else err (InvalidValue (Msg "Invalid PCI port read 0x{:x}" [port]))
  | PortWrite port val =>
      if port =? PCI_CONFIG_ADDRESS then
        addr ← lift (PortWriteRequest.to_u32 val);
        set_dev (mkComplex (Z.land addr 0x7fffffff) (devices d))
      else mret tt
  | _ => mret tt
  end.

(** ** Enumeration *)

Lemma bdf_roundtrip x : is_u 16 x -> bdf_into (bdf_from x) = x.
Proof.
  intros Hx. unfold bdf_into, bdf_from. cbn [bus device function].
  rewrite (shiftr_land_field 0xff00 8 8), (shiftr_land_field 0xf8 5 3), (land_mask 7 3) by (reflexivity || lia).
  unfold is_u in Hx. set (a := (x / 2 ^ 8) mod 2 ^ 8). set (b := (x / 2 ^ 3) mod 2 ^ 5). set (c := x mod 2 ^ 3).
  assert (0 <= a < 256 /\ 0 <= b < 32 /\ 0 <= c < 8 /\ x = a * 256 + b * 8 + c) as (Ha & Hb & Hc & Hs)
    by (unfold a, b, c; pow2_literals; Z.to_euclidean_division_equations; lia).
  clearbody a b c. unfold u8. rewrite !wrap_small by (unfold is_u; lia).
  unfold u16. rewrite (wrap_small 16 (Z.shiftl a 8)), (wrap_small 16 (Z.shiftl b 3))
    by (rewrite Z.shiftl_mul_pow2 by lia; unfold is_u; lia).
  rewrite <- Z.lor_assoc, (lor_shiftl_add' 3), (lor_shiftl_add' 8) by (unfold is_u; lia). lia.
Qed.

(** The access the guest makes: address port, then a read of the data port. *)
Definition config_access {W} (address port : Z) (val : PortReadRequest.t) (d : PciRootComplex) (e : Event W)
    : res (PciRootComplex * DeviceEvent) :=
  let w := PortWrite PCI_CONFIG_ADDRESS
    match be_bytes 4 address with
    | [a; b; c; x] => PortWriteRequest.FourBytes a b c x
    | _ => PortWriteRequest.OneByte 0
    end in
  match pci_on_event (d, set_kind w e) with
  | ((d, e), Ok _) =>
      match pci_on_event (d, set_kind (PortRead port val) e) with
      | ((d, e), Ok _) => Ok (d, kind e)
      | (_, Err x) => Err x
      | (_, Panic x) => Panic x
      end
  | (_, Err x) => Err x
  | (_, Panic x) => Panic x
  end.

Lemma write_address {W} address d (e : Event W) a b c x :
  is_u 32 address -> be_bytes 4 address = [a; b; c; x] ->
  kind e = PortWrite PCI_CONFIG_ADDRESS (PortWriteRequest.FourBytes a b c x) ->
  pci_on_event (d, e) = ((mkComplex (address mod 2 ^ 31) (devices d), e), Ok tt).
Proof.
  intros Ha Hb Hk. unfold pci_on_event. rewrite st_bind_eq. cbn [get_event snd].
  rewrite st_bind_eq. cbn [get_dev fst]. rewrite Hk, Z.eqb_refl, st_bind_eq. unfold lift, PortWriteRequest.to_u32.
  rewrite <- Hb, of_be_bytes, (wrap_small (8 * Z.of_nat 4)) by done.
  by rewrite (land_mask 0x7fffffff 31) by (reflexivity || lia).
Qed.

Lemma read_config_port {W} off val d (e : Event W) :
  0 <= off <= 3 -> kind e = PortRead (PCI_CONFIG_DATA + off) val ->
  pci_on_event (d, e) =
  match config_read d (PCI_CONFIG_DATA + off) with
  | Ok x => reply_u32 (PCI_CONFIG_DATA + off) val x (d, e)
  | Err x => ((d, e), Err x)
  | Panic x => ((d, e), Panic x)
  end.
Proof.
  intros Ho Hk. unfold pci_on_event. rewrite st_bind_eq. cbn [get_event snd].
  rewrite st_bind_eq. cbn [get_dev fst]. rewrite Hk.
  unfold PCI_CONFIG_DATA_MAX, PCI_CONFIG_DATA, PCI_CONFIG_ADDRESS in *.
  rewrite (proj2 (Z.eqb_neq (0xcfc + off) 0xcf8)) by lia.
  rewrite (proj2 (Z.leb_le 0xcfc _)), (proj2 (Z.leb_le _ (0xcfc + 3))) by lia. cbn [andb].
  rewrite st_bind_eq. unfold lift. by destruct (config_read d (0xcfc + off)).
Qed.

Lemma config_access_spec {W} address off val d (e : Event W) :
  is_u 32 address -> 0 <= off <= 3 ->
  let d' := mkComplex (address mod 2 ^ 31) (devices d) in
  config_access address (PCI_CONFIG_DATA + off) val d e =
  match config_read d' (PCI_CONFIG_DATA + off) with
  | Ok x => val ← PortReadRequest.copy_from_u32 val x; Ok (d', PortRead (PCI_CONFIG_DATA + off) val)
  | Err x => Err x
  | Panic x => Panic x
  end.
Proof.
  intros Ha Ho d'. unfold config_access. rewrite be_bytes_4_unfold.
  erewrite (write_address address) by first [done | apply be_bytes_4_unfold | reflexivity]. cbv beta iota.
  rewrite (read_config_port off val) by done. fold d'.
  destruct (config_read d' (PCI_CONFIG_DATA + off)) as [x|x|x]; [|done..].
  unfold reply_u32. rewrite st_bind_eq. unfold lift. by destruct (PortReadRequest.copy_from_u32 val x).
Qed.

Lemma config_read_bdf address devs port :
  is_u 31 address ->
  config_read (mkComplex address devs) port =
  match bt_get Z.compare ((address / 2 ^ 8) mod 2 ^ 16) devs with
  | Some device =>
      x ← read_register (config_space device) (address mod 2 ^ 6);
      Ok (Z.shiftr x (u8 (u8 (u16 (port - PCI_CONFIG_DATA)) * 8)))
  | None => Ok 0xffffffff
  end.
Proof.
  intros Ha. unfold config_read. cbn [current_address devices].
  rewrite (shiftr_land_field 0xffff00 16 8) by (reflexivity || lia).
  change (Z.shiftr 0xff 2) with 0x3f. rewrite (land_mask 0x3f 6) by (reflexivity || lia).
  unfold u16 at 1. rewrite wrap_small by (apply wrap_is_u; lia).
  replace (u8 (address mod 2 ^ 6)) with (address mod 2 ^ 6); [done|]. symmetry. apply wrap_small.
  unfold is_u in *. pose proof (Z.mod_pos_bound address (2 ^ 6)). lia.
Qed.

(** bus enumeration.  For every bus/device/function number, reading the first
    configuration register through the two ports yields the identification of the
    host bridge at 0:0.0, of the south bridge at 0:1.0, and all ones everywhere
    else, whatever was read before. *)
Lemma pci_enumeration {W} n d (e : Event W) :
  is_u 16 n -> devices d = devices pci_new ->
  exists d' val, config_access (0x80000000 + 256 * n) PCI_CONFIG_DATA (PortReadRequest.FourBytes 0 0 0 0) d e =
      Ok (d', PortRead PCI_CONFIG_DATA val) /\ devices d' = devices pci_new /\
    of_be (PortReadRequest.as_slice val) =
      (if n =? 0 then 0x29c08086 else if n =? 8 then 0x29188086 else 0xffffffff).
Proof.
  intros Hn Hd. unfold is_u in Hn.
  pose proof (config_access_spec (0x80000000 + 256 * n) 0 (PortReadRequest.FourBytes 0 0 0 0) d e) as Hs.
  cbv zeta in Hs. rewrite Z.add_0_r in Hs. rewrite Hs by (unfold is_u; lia). clear Hs.
  replace ((0x80000000 + 256 * n) mod 2 ^ 31) with (256 * n) by words.
  rewrite config_read_bdf by (unfold is_u; lia).
  replace ((256 * n / 2 ^ 8) mod 2 ^ 16) with n by words.
  replace (256 * n mod 2 ^ 6) with 0 by words. rewrite Hd.
  destruct (Z.eqb_spec n 0) as [->|H0]; [eexists _, _; split_and!; vm_compute; reflexivity|].
  destruct (Z.eqb_spec n 8) as [->|H8]; [eexists _, _; split_and!; vm_compute; reflexivity|].
  assert (bt_get Z.compare n (devices pci_new) = None) as ->.
  { unfold bt_get. vm_compute (devices pci_new). cbn [bt_get_key_value].
    destruct (Z.compare_spec n 0); [lia|done|]. by destruct (Z.compare_spec n 8). }
  eexists _, _. split_and!; [reflexivity|done|reflexivity].
Qed.

Lemma pci_enumeration_witness :
  exists d' val, config_access (0x80000000 + 256 * 8) PCI_CONFIG_DATA (PortReadRequest.FourBytes 0 0 0 0) pci_new
      (mkEvent (HostUartReceived 0) (view_from_vmcs 0 0) [] empty_space tt) = Ok (d', PortRead PCI_CONFIG_DATA val) /\
    of_be (PortReadRequest.as_slice val) = 0x29188086.
Proof.
  destruct (pci_enumeration 8 pci_new (mkEvent (HostUartReceived 0) (view_from_vmcs 0 0) [] empty_space tt))
    as (d' & val & H & _ & Hv); [unfold is_u; lia|reflexivity|].
  exists d', val. split; [exact H|exact Hv].
Defined.

(** Register [r] of a function has the configuration address [bdf * 256 + 4 * r]; the
    index computed for it is [4 * r] modulo 64, which is [r] only when [3 * r] is a
    multiple of 64. *)
Lemma pci_register_index devs n r port device :
  is_u 15 n -> is_u 6 r -> bt_get Z.compare n devs = Some device ->
  config_read (mkComplex (256 * n + 4 * r) devs) port =
    x ← read_register (config_space device) (4 * r mod 64);
    Ok (Z.shiftr x (u8 (u8 (u16 (port - PCI_CONFIG_DATA)) * 8))).
Proof.
  intros Hn Hr Hd. unfold is_u in *. rewrite config_read_bdf by (unfold is_u; lia).
  replace ((256 * n + 4 * r) / 2 ^ 8 mod 2 ^ 16) with n by words. rewrite Hd.
  by replace ((256 * n + 4 * r) mod 2 ^ 6) with (4 * r mod 64) by words.
Qed.
