(* ===== verification/FwCfg.v ===== *)
(** * The firmware configuration device ([mythril/src/virtdev/qemu_fw_cfg.rs])

    Firmware selects an item by number and reads it as a stream, byte by byte or
    by DMA.  The builder numbers files from 0x20 and makes their directory. *)

From S2P Require Import Prelude Error BTreeMap Memory VirtDev.

Module FwCfgSelector.
Definition SIGNATURE : Z := 0x00.
Definition ID : Z := 0x01.
Definition UUID : Z := 0x02.
Definition RAM_SIZE : Z := 0x03.
Definition NOGRAPHIC : Z := 0x04.
Definition NB_CPUS : Z := 0x05.
Definition MACHINE_ID : Z := 0x06.
Definition KERNEL_ADDR : Z := 0x07.
Definition KERNEL_SIZE : Z := 0x08.
Definition KERNEL_CMDLINE : Z := 0x09.
Definition INITRD_ADDR : Z := 0x0a.
Definition INITRD_SIZE : Z := 0x0b.
Definition BOOT_DEVICE : Z := 0x0c.
Definition NUMA : Z := 0x0d.
Definition BOOT_MENU : Z := 0x0e.
Definition MAX_CPUS : Z := 0x0f.
Definition KERNEL_ENTRY : Z := 0x10.
Definition KERNEL_DATA : Z := 0x11.
Definition INITRD_DATA : Z := 0x12.
Definition CMDLINE_ADDR : Z := 0x13.
Definition CMDLINE_SIZE : Z := 0x14.
Definition CMDLINE_DATA : Z := 0x15.
Definition SETUP_ADDR : Z := 0x16.
Definition SETUP_SIZE : Z := 0x17.
Definition SETUP_DATA : Z := 0x18.
Definition FILE_DIR : Z := 0x19.
Definition FILE_FIRST : Z := 0x20.
Definition FILE_LAST : Z := 0x7fff.
Definition X86_ACPI_TABLES : Z := 0x8000.
Definition X86_SMBIOS_TABLES : Z := 0x8001.
Definition X86_IRQ0_OVERRIDES : Z := 0x8002.
Definition X86_E820_TABLE : Z := 0x8003.
Definition X86_HEPT_DATA : Z := 0x8003.
End FwCfgSelector.

Definition FW_CFG_MAX_FILE_NAME : nat := 55.

(** [FWCfgFile]: [size] and [select] are stored big-endian. *)
Record FWCfgFile := mkFile { file_size : Z; file_select : Z; file_name : list Z }.

Definition file_bytes (f : FWCfgFile) : list Z :=
  be_bytes 4 (file_size f) ++ be_bytes 2 (file_select f) ++ [0; 0] ++ file_name f.

(** [DmaControlFlags] *)
Module Dma.
Definition ERROR : Z := Z.shiftl 1 0.
Definition READ : Z := Z.shiftl 1 1.
Definition SKIP : Z := Z.shiftl 1 2.
Definition SELECT : Z := Z.shiftl 1 3.
Definition WRITE : Z := Z.shiftl 1 4.
Definition all : list Z := [ERROR; READ; SKIP; SELECT; WRITE].
Definition remove (x f : Z) : Z := Z.land x (Z.land (bnot 16 f) (flags_union all)).
End Dma.

Record FWCfgDmaAccess := mkDma { dma_control : Z; dma_select : Z; dma_length : Z; dma_address : Z }.

(** [RawFWCfgDmaAccess] as the 16 bytes of guest memory. *)
Definition dma_from_raw (bytes : list Z) : FWCfgDmaAccess :=
  let control := of_be (take 4 bytes) in
  mkDma (from_bits_truncate Dma.all (u16 control)) (u16 (Z.shiftr control 16))
    (of_be (take 4 (drop 4 bytes))) (of_be (take 8 (drop 8 bytes))).

Definition dma_into_raw (d : FWCfgDmaAccess) : list Z :=
  be_bytes 4 (dma_control d) ++ be_bytes 4 (dma_length d) ++ be_bytes 8 (dma_address d).

(** ** The builder *)

Record QemuFwCfgBuilder := mkBuilder { file_info : list FWCfgFile; builder_data : list (Z * list Z) }.

Definition add_bytes (selector : Z) (data : list Z) (b : QemuFwCfgBuilder) : QemuFwCfgBuilder :=
  mkBuilder (file_info b) (bt_insert Z.compare selector data (builder_data b)).

Definition add_i32 (selector data : Z) (b : QemuFwCfgBuilder) : QemuFwCfgBuilder :=
  mkBuilder (file_info b) (bt_insert Z.compare selector (le_bytes 4 data) (builder_data b)).

Definition builder_new : QemuFwCfgBuilder :=
  add_i32 FwCfgSelector.ID 3 (add_i32 FwCfgSelector.SIGNATURE 0x554d4551 (mkBuilder [] [])).

Definition is_file_selector (s : Z) : bool :=
  (FwCfgSelector.FILE_FIRST <=? s) && (s <=? FwCfgSelector.FILE_LAST).

Definition next_file_selector (b : QemuFwCfgBuilder) : Z :=
  let keys := filter (fun s => is_file_selector s = true) (map fst (builder_data b)) in
  let max := match keys with [] => FwCfgSelector.FILE_FIRST - 1 | k :: r => foldl Z.max k r end in
  u16 (max + 1).

Definition add_file (name data : list Z) : st QemuFwCfgBuilder unit := fun b =>
  if bool_decide (FW_CFG_MAX_FILE_NAME < length name)%nat then
    (b, Err (InvalidValue (Msg "qemu_fw_cfg: file name too long: {}" name)))
  else
    let selector := next_file_selector b in
    if selector >? FwCfgSelector.FILE_LAST then
      (b, Err (InvalidValue (str "qemu_fw_cfg: too many files")))
    else
      let info := mkFile (u32 (Z.of_nat (length data))) selector
        (name ++ replicate (FW_CFG_MAX_FILE_NAME + 1 - length name) 0) in
      (mkBuilder (file_info b ++ [info]) (bt_insert Z.compare selector data (builder_data b)), Ok tt).

(** ** The device *)

Record QemuFwCfg := mkFwCfg {
  selector : Z;
  fw_data : list (Z * list Z);
  data_idx : Z;
  dma_addr : Z
}.

Definition file_dir (b : QemuFwCfgBuilder) : list Z :=
  be_bytes 4 (u32 (Z.of_nat (length (file_info b)))) ++ concat (map file_bytes (file_info b)).

Definition build (b : QemuFwCfgBuilder) : QemuFwCfg :=
  mkFwCfg FwCfgSelector.SIGNATURE
    (bt_insert Z.compare FwCfgSelector.FILE_DIR (file_dir b) (builder_data b)) 0 0.

Definition FW_CFG_PORT_SEL : Z := 0x510.
Definition FW_CFG_PORT_DATA : Z := 0x511.
Definition FW_CFG_PORT_DMA_HIGH : Z := 0x514.
Definition FW_CFG_PORT_DMA_LOW : Z := 0x518.

Definition fw_services (d : QemuFwCfg) : list DeviceRegion := [
  PortIo FW_CFG_PORT_SEL FW_CFG_PORT_DATA;
  PortIo FW_CFG_PORT_DMA_HIGH FW_CFG_PORT_DMA_LOW].

(** [read_selector]: the next [length] bytes of the selected item; reading past its
    end panics. *)
Definition read_selector (length : Z) (d : QemuFwCfg) : res (QemuFwCfg * option (list Z)) :=
  match bt_get Z.compare (selector d) (fw_data d) with
  | Some data =>
      let stop := data_idx d + length in
      if stop >? Z.of_nat (List.length data) then Panic "range end index out of range for slice"
      else Ok (mkFwCfg (selector d) (fw_data d) stop (dma_addr d),
               Some (take (Z.to_nat length) (drop (Z.to_nat (data_idx d)) data)))
  | None => Ok (d, None)
  end.

(** [u32::from_be] on a little-endian machine *)
Definition swap32 (x : Z) : Z := of_le (be_bytes 4 x).

Section fw_cfg.
Context `{GuestPaging} {W : Type}.
Notation M := (st (QemuFwCfg * Event W)).

Definition space_read (addr : Z) (len : nat) : M (list Z) :=
  e ← get_event;
  on_host (view_read_bytes (space e) (NoPaging addr) len (Read 0)).
Definition space_write (addr : Z) (bytes : list Z) : M unit :=
  e ← get_event;
  on_host (view_write_bytes (space e) (NoPaging addr) bytes (Read 0)).

Definition set_control (c : Z) (r : FWCfgDmaAccess) : FWCfgDmaAccess :=
  mkDma c (dma_select r) (dma_length r) (dma_address r).

Definition perform_dma_transfer : M unit :=
  d ← get_dev;
  bytes ← space_read (dma_addr d) 16;
  let request := dma_from_raw bytes in
  request ←
    (if flags_contains (dma_control request) Dma.SELECT then
       d ← get_dev;
       _ ← set_dev (mkFwCfg (dma_select request) (fw_data d) 0 (dma_addr d));
       mret (set_control (Dma.remove (dma_control request) Dma.SELECT) request)
     else mret request);
  request ←
    (if flags_contains (dma_control request) Dma.SKIP then
       d ← get_dev;
       _ ← set_dev (mkFwCfg (selector d) (fw_data d) (dma_length request) (dma_addr d));
       mret (set_control (Dma.remove (dma_control request) Dma.SKIP) request)
     else mret request);
  request ←
    (if flags_contains (dma_control request) Dma.READ then
       d ← get_dev;
       '(d, data) ← lift (read_selector (dma_length request) d);
       _ ← set_dev d;
       request ←
         match data with
         | Some data => _ ← space_write (dma_address request) data; mret request
         | None => mret (set_control Dma.ERROR request)
         end;
       mret (set_control (Dma.remove (dma_control request) Dma.READ) request)
     else mret request);
  let request :=
    if flags_contains (dma_control request) Dma.WRITE then
      set_control (Z.lor (Dma.remove (dma_control request) Dma.WRITE) Dma.ERROR) request
    else request in
  d ← get_dev;
  space_write (dma_addr d) (dma_into_raw request).

Definition fw_on_port_read (port : Z) (val : PortReadRequest.t) : M unit :=
  d ← get_dev;
  if port =? FW_CFG_PORT_SEL then reply_u32 port val (selector d)
  else if port =? FW_CFG_PORT_DATA then
    '(d, data) ← lift (read_selector (Z.of_nat (PortReadRequest.len val)) d);
    _ ← set_dev d;
    match data with
    | Some data => val ← lift (PortReadRequest.copy_from_slice val data); put_kind (PortRead port val)
    | None => reply_u32 port val 0
    end
  else if port =? FW_CFG_PORT_DMA_LOW then reply_u32 port val 0x20434647
  else if port =? FW_CFG_PORT_DMA_HIGH then reply_u32 port val 0x51454d55
  else panic "internal error: entered unreachable code".

Definition fw_on_port_write (port : Z) (val : PortWriteRequest.t) : M unit :=
  d ← get_dev;
  if port =? FW_CFG_PORT_SEL then
    s ← lift (PortWriteRequest.to_u16 val);
    set_dev (mkFwCfg s (fw_data d) 0 (dma_addr d))
  else if port =? FW_CFG_PORT_DATA then
    err (NotImplemented (str "Write to QEMU FW CFG data port not yet supported"))
  else if port =? FW_CFG_PORT_DMA_LOW then
    v ← lift (PortWriteRequest.to_u32 val);
    _ ← set_dev (mkFwCfg (selector d) (fw_data d) (data_idx d) (Z.lor (dma_addr d) (swap32 v)));
    _ ← perform_dma_transfer;
    d ← get_dev;
    set_dev (mkFwCfg (selector d) (fw_data d) (data_idx d) 0)
  else if port =? FW_CFG_PORT_DMA_HIGH then
    v ← lift (PortWriteRequest.to_u32 val);
    set_dev (mkFwCfg (selector d) (fw_data d) (data_idx d) (Z.shiftl (swap32 v) 32))
  else panic "internal error: entered unreachable code".

Definition fw_on_event : handler W QemuFwCfg :=
  e ← get_event;
  match kind e with
  | PortRead port val => fw_on_port_read port val
  | PortWrite port val => fw_on_port_write port val
  | _ => mret tt
  end.
End fw_cfg.

(** ** Files *)

Definition builder_ok (b : QemuFwCfgBuilder) : Prop :=
  int_map_wf (builder_data b) /\ Forall (fun e => is_u 16 e.1) (builder_data b).

Lemma builder_new_ok : builder_ok builder_new.
Proof.
  split.
  - unfold builder_new, add_i32. cbn [builder_data file_info].
    apply int_insert_wf, int_insert_wf, (bt_wf_nil Z.compare).
  - apply Forall_forall. intros e He. unfold builder_new, add_i32 in He. cbn in He.
    rewrite !elem_of_cons in He. unfold is_u. destruct He as [-> | [-> | He]]; [split; [vm_compute; discriminate|vm_compute; reflexivity]..|].
    by apply not_elem_of_nil in He.
Qed.

Lemma foldl_max_ge l x : x <= foldl Z.max x l /\ Forall (fun y => y <= foldl Z.max x l) l /\
  (foldl Z.max x l = x \/ foldl Z.max x l ∈ l).
Proof.
  revert x. induction l as [|y l IH]; intros x; simpl; [split; [lia|]; split; [constructor|by left]|].
  destruct (IH (Z.max x y)) as (H1 & H2 & H3). split; [lia|]. split; [constructor; [lia|done]|].
  destruct H3 as [E|E]; [|right; by right]. rewrite E.
  destruct (Z.max_spec x y) as [[_ ->]|[_ ->]]; [right; left|by left].
Qed.

Lemma is_file_selector_iff s : is_file_selector s = true <-> 0x20 <= s <= 0x7fff.
Proof. unfold is_file_selector, FwCfgSelector.FILE_FIRST, FwCfgSelector.FILE_LAST. rewrite andb_true_iff, !Z.leb_le. done. Qed.

(** The next selector is above every file in the map; it is past the last one
    exactly when the last one is taken. *)
Lemma next_file_selector_spec b :
  builder_ok b ->
  let s := next_file_selector b in
  0x20 <= s <= 0x8000 /\ (forall data, (s, data) ∈ builder_data b -> s = 0x8000) /\
  (s = 0x8000 -> exists data, (0x7fff, data) ∈ builder_data b).
Proof.
  intros [Hw Hu] s. unfold next_file_selector in s.
  set (keys := filter _ _) in s.
  assert (forall k, k ∈ keys <-> 0x20 <= k <= 0x7fff /\ exists data, (k, data) ∈ builder_data b) as Hk.
  { intros k. unfold keys. rewrite list_elem_of_filter, is_file_selector_iff, list_elem_of_fmap.
    split; intros [H1 H2]; (split; [done|]).
    - destruct H2 as ([k' data] & -> & Hin). by exists data.
    - destruct H2 as [data Hin]. by exists (k, data). }
  assert (exists m, s = m + 1 /\ 0x1f <= m <= 0x7fff /\ (forall k, k ∈ keys -> k <= m) /\ (m = 0x1f \/ m ∈ keys)) as (m & Hs & Hm & Hmax & Hin).
  { destruct keys as [|k r] eqn:Ek; unfold s; [exists 0x1f; split_and!; try done; [|by left]|].
    - intros k Hin. by apply not_elem_of_nil in Hin.
    - destruct (foldl_max_ge r k) as (H1 & H2 & H3). rewrite Forall_forall in H2.
      assert (foldl Z.max k r ∈ k :: r) as Hin by (destruct H3 as [-> | ?]; [left|by right]).
      pose proof (proj1 (Hk _) Hin) as [Hr _]. exists (foldl Z.max k r). split_and!; try lia; [|done..| |by right].
      + unfold u16. apply wrap_small. unfold is_u. lia.
      + intros k' [->|Hk']%elem_of_cons; [done|by apply H2]. }
  split; [lia|]. split.
  - intros data Hd. destruct (decide (m = 0x7fff)); [lia|].
    assert (s ∈ keys) as Hsk by (apply Hk; split; [lia|by exists data]). apply Hmax in Hsk. lia.
  - intros E. assert (m = 0x7fff) as -> by lia. destruct Hin as [?|Hin]; [done|]. by apply Hk in Hin as [_ ?].
Qed.

(** Reading [n] bytes, one port read each, and selecting an item first. *)
Section stream.
Context `{GuestPaging} {W : Type}.
Implicit Types (d : QemuFwCfg) (e : Event W).

Fixpoint fw_read (n : nat) (d : QemuFwCfg) (e : Event W) : res (list Z) :=
  match n with
  | O => Ok []
  | S n =>
      match fw_on_event (d, set_kind (PortRead FW_CFG_PORT_DATA (PortReadRequest.OneByte 0)) e) with
      | ((d, e), Ok _) =>
          match kind e with
          | PortRead _ (PortReadRequest.OneByte b) => rest ← fw_read n d e; Ok (b :: rest)
          | _ => Err NotFound
          end
      | (_, Err x) => Err x
      | (_, Panic x) => Panic x
      end
  end.

Definition fw_stream (s : Z) (n : nat) (d : QemuFwCfg) (e : Event W) : res (list Z) :=
  match fw_on_event (d, set_kind (PortWrite FW_CFG_PORT_SEL (PortWriteRequest.TwoBytes (s / 256) (s mod 256))) e) with
  | ((d, e), Ok _) => fw_read n d e
  | (_, Err x) => Err x
  | (_, Panic x) => Panic x
  end.

Lemma fw_read_spec data : forall rest d e,
  bt_get Z.compare (selector d) (fw_data d) = Some data -> rest = drop (Z.to_nat (data_idx d)) data ->
  0 <= data_idx d -> fw_read (length rest) d e = Ok rest.
Proof.
  induction rest as [|b rest IH]; intros d e Hg Hr Hi; [done|]. cbn [length fw_read].
  unfold fw_on_event. rewrite st_bind_eq. cbn [get_event snd kind set_kind].
  unfold fw_on_port_read. rewrite st_bind_eq. cbn [get_dev fst].
  cbn [Z.eqb Pos.eqb FW_CFG_PORT_DATA FW_CFG_PORT_SEL].
  rewrite st_bind_eq. unfold lift, read_selector. rewrite Hg.
  change (Z.of_nat (PortReadRequest.len (PortReadRequest.OneByte 0))) with 1.
  assert (length (drop (Z.to_nat (data_idx d)) data) = S (length rest)) as Hl by (by rewrite <- Hr).
  rewrite length_drop in Hl. rewrite Z.gtb_ltb, (proj2 (Z.ltb_ge _ _)) by lia.
  rewrite <- Hr. change (take (Z.to_nat 1) (b :: rest)) with [b].
  cbv [mbind st_bind set_dev put_kind PortReadRequest.copy_from_slice]. cbn [fst snd kind set_kind].
  rewrite IH; [done|done| |cbn [data_idx]; lia].
  cbn [data_idx]. replace (Z.to_nat (data_idx d + 1)) with (1 + Z.to_nat (data_idx d))%nat by lia.
  rewrite Nat.add_comm, <- drop_drop, <- Hr. done.
Qed.
End stream.

(** C29: firmware files.  Adding a file fails, changing nothing, exactly when its name
    is over 55 bytes or selector 0x7fff is taken.  Otherwise the file gets a fresh
    selector of the file range, no other item changes, the directory gains the
    entry with its size, selector and zero-padded name, and in the built device
    selecting it and reading it byte by byte yields exactly its contents. *)
Theorem fw_cfg_file_roundtrip `{GuestPaging} {W} name data b (e : Event W) :
  builder_ok b -> Z.of_nat (length data) < 2 ^ 32 ->
  match add_file name data b with
  | (b', Ok _) =>
      let s := next_file_selector b in
      (length name <= 55)%nat /\ 0x20 <= s <= 0x7fff /\ builder_ok b' /\
      bt_get Z.compare s (builder_data b) = None /\
      (forall s', s' <> s -> bt_get Z.compare s' (builder_data b') = bt_get Z.compare s' (builder_data b)) /\
      drop 4 (file_dir b') = drop 4 (file_dir b) ++
        be_bytes 4 (Z.of_nat (length data)) ++ be_bytes 2 s ++ [0; 0] ++ name ++ replicate (56 - length name) 0 /\
      fw_stream s (length data) (build b') e = Ok data
  | (b', Err _) => b' = b /\
      ((55 < length name)%nat \/ is_Some (bt_get Z.compare 0x7fff (builder_data b)))
  | (_, Panic _) => False
  end.
Proof.
  intros Hb Hl. pose proof Hb as [Hw Hu]. unfold add_file.
  destruct (next_file_selector_spec b Hb) as (Hr & Hfresh & Hfull). set (s := next_file_selector b) in *.
  case_bool_decide as Hn; unfold FW_CFG_MAX_FILE_NAME in *; [split; [done|by left]|].
  rewrite Z.gtb_ltb. unfold FwCfgSelector.FILE_LAST. destruct (Z.ltb_spec 0x7fff s) as [Hs|Hs].
  { split; [done|]. right. destruct Hfull as [x Hx]; [lia|]. exists x. by apply int_get_elem. }
  cbv zeta. unfold u32. rewrite wrap_small by (unfold is_u; lia).
  set (b' := mkBuilder _ _). split; [lia|]. split; [lia|]. split_and!.
  - split; [by apply int_insert_wf|].
    apply (int_insert_keys s data (builder_data b) (fun x => is_u 16 x)); [unfold is_u; lia|done].
  - destruct (bt_get _ s _) as [x|] eqn:E; [|done]. apply int_get_elem in E; [|done].
    apply Hfresh in E. lia.
  - intros s' Hs'. unfold b'. cbn [builder_data]. by rewrite int_get_insert, decide_False.
  - unfold file_dir, b'. cbn [file_info]. rewrite !drop_app_length' by (by rewrite length_be_bytes).
    rewrite map_app, concat_app. cbn [map concat file_bytes file_size file_select file_name]. by rewrite app_nil_r.
  - unfold fw_stream, fw_on_event. rewrite st_bind_eq. cbn [get_event snd kind set_kind].
    unfold fw_on_port_write. rewrite st_bind_eq. cbn [get_dev fst]. rewrite Z.eqb_refl, st_bind_eq.
    unfold lift. cbn [PortWriteRequest.to_u16 set_dev snd fst].
    replace (of_be [s / 256; s mod 256]) with s by (cbn; Z.to_euclidean_division_equations; lia).
    apply (fw_read_spec data); cbn [selector fw_data data_idx build]; [|done|done].
    unfold b'. cbn [builder_data]. rewrite !int_get_insert. unfold FwCfgSelector.FILE_DIR.
    rewrite decide_False by lia. by rewrite decide_True.
Qed.

Lemma fw_cfg_file_roundtrip_witness :
  let b := add_file [0x61] [1; 2; 3] builder_new in
  is_ok (snd b) = true /\
  @fw_stream (fun x => x) unit 0x20 3 (build (fst b))
    (mkEvent (HostUartReceived 0) (view_from_vmcs 0 0) [] empty_space tt) = Ok [1; 2; 3].
Proof.
  cbv zeta. split; [reflexivity|].
  assert (Z.of_nat (length [1; 2; 3]) < 2 ^ 32) as Hl by reflexivity.
  pose proof (@fw_cfg_file_roundtrip (fun x => x) unit [0x61] [1; 2; 3] builder_new
    (mkEvent (HostUartReceived 0) (view_from_vmcs 0 0) [] empty_space tt) builder_new_ok Hl) as H.
  destruct H as (_ & _ & _ & _ & _ & _ & H). exact H.
Defined.
