(* ===== verification/Core.v ===== *)
(** * The state of a core while it handles an exit

    [VCpu] of [mythril/src/vcpu.rs] with the guest registers ([GuestCpuState]) and
    the globals its handlers reach: the core's timer wheel, the shared set of
    machines, host memory, the local and I/O APICs and the host console.  What the
    processor answers to instructions the code executes is [CoreCpu]. *)

From S2P Require Import Prelude Error BTreeMap Memory VirtDev IoApic Vmcs VmExit Clock Apic Timers Vm Lapic Platform.

Class CoreCpu := {
  (** [cpuid] at a leaf and sub-leaf: eax, ebx, ecx, edx *)
  cpuid_count : Z -> Z -> Z * Z * Z * Z;
  (** the flags [invvpid] leaves, from its type and 128-bit operand *)
  invvpid_rflags : Z -> Z -> Z;
  (** the byte the physical serial port at a base port holds *)
  serial_input : Z -> Z
}.

Record Core (D H : Type) := mkCore {
  c_vmcs : VmcsState;
  c_lapic : VirtLocalApic;
  c_pending : list (Z * InjectedInterruptType);
  c_cpu : GuestCpuState;
  c_wheel : TimerWheel;
  c_hw : CoreHw;
  c_set : VirtualMachineSet D;
  c_host : Host;
  c_ioapics : H;
  c_flushed : list (Z * Z);
  c_console : list Z;
  c_responses : list DeviceEventResponse
}.
Arguments mkCore {D H} _ _ _ _ _ _ _ _ _ _ _ _.
Arguments c_vmcs {D H} _.
Arguments c_lapic {D H} _.
Arguments c_pending {D H} _.
Arguments c_cpu {D H} _.
Arguments c_wheel {D H} _.
Arguments c_hw {D H} _.
Arguments c_set {D H} _.
Arguments c_host {D H} _.
Arguments c_ioapics {D H} _.
Arguments c_flushed {D H} _.
Arguments c_console {D H} _.
Arguments c_responses {D H} _.

Section core.
Context {D H : Type}.
Notation Core := (Core D H).
Notation M := (st Core).
Implicit Types c : Core.

(** ** Code that works on one part of the core *)

Definition on_vmcs {A} (m : st VmcsState A) : M A := fun c =>
  let '(v, r) := m (c_vmcs c) in
  (mkCore v (c_lapic c) (c_pending c) (c_cpu c) (c_wheel c) (c_hw c) (c_set c) (c_host c) (c_ioapics c)
     (c_flushed c) (c_console c) (c_responses c), r).
Definition on_cpu {A} (m : st GuestCpuState A) : M A := fun c =>
  let '(g, r) := m (c_cpu c) in
  (mkCore (c_vmcs c) (c_lapic c) (c_pending c) g (c_wheel c) (c_hw c) (c_set c) (c_host c) (c_ioapics c)
     (c_flushed c) (c_console c) (c_responses c), r).
Definition on_pending {A} (m : st (list (Z * InjectedInterruptType)) A) : M A := fun c =>
  let '(p, r) := m (c_pending c) in
  (mkCore (c_vmcs c) (c_lapic c) p (c_cpu c) (c_wheel c) (c_hw c) (c_set c) (c_host c) (c_ioapics c)
     (c_flushed c) (c_console c) (c_responses c), r).
Definition on_core_host {A} (m : st Host A) : M A := fun c =>
  let '(h, r) := m (c_host c) in
  (mkCore (c_vmcs c) (c_lapic c) (c_pending c) (c_cpu c) (c_wheel c) (c_hw c) (c_set c) h (c_ioapics c)
     (c_flushed c) (c_console c) (c_responses c), r).
Definition on_core_hw {A} (m : st CoreHw A) : M A := fun c =>
  let '(h, r) := m (c_hw c) in
  (mkCore (c_vmcs c) (c_lapic c) (c_pending c) (c_cpu c) (c_wheel c) h (c_set c) (c_host c) (c_ioapics c)
     (c_flushed c) (c_console c) (c_responses c), r).
Definition on_set {A} (m : st (VirtualMachineSet D * CoreHw) A) : M A := fun c =>
  let '((s, h), r) := m (c_set c, c_hw c) in
  (mkCore (c_vmcs c) (c_lapic c) (c_pending c) (c_cpu c) (c_wheel c) h s (c_host c) (c_ioapics c)
     (c_flushed c) (c_console c) (c_responses c), r).
Definition on_lapic {A} (m : st (@LapicState D) A) : M A := fun c =>
  let '((l, (s, h)), r) := m (c_lapic c, (c_set c, c_hw c)) in
  (mkCore (c_vmcs c) l (c_pending c) (c_cpu c) (c_wheel c) h s (c_host c) (c_ioapics c)
     (c_flushed c) (c_console c) (c_responses c), r).
Definition on_ioapics {A} (m : st H A) : M A := fun c =>
  let '(h, r) := m (c_ioapics c) in
  (mkCore (c_vmcs c) (c_lapic c) (c_pending c) (c_cpu c) (c_wheel c) (c_hw c) (c_set c) (c_host c) h
     (c_flushed c) (c_console c) (c_responses c), r).
(** The globals device handlers see. *)
Definition on_platform {A} (m : st Platform A) : M A := fun c =>
  let '(p, r) := m (mkPlatform (c_hw c) (c_wheel c) (contexts (c_set c))) in
  (mkCore (c_vmcs c) (c_lapic c) (c_pending c) (c_cpu c) (pl_wheel p) (pl_hw p)
     (mkSet (pl_contexts p) (vms (c_set c))) (c_host c) (c_ioapics c)
     (c_flushed c) (c_console c) (c_responses c), r).

Definition log_flush (t operand : Z) : M unit := fun c =>
  (mkCore (c_vmcs c) (c_lapic c) (c_pending c) (c_cpu c) (c_wheel c) (c_hw c) (c_set c) (c_host c) (c_ioapics c)
     (c_flushed c ++ [(t, operand)]) (c_console c) (c_responses c), Ok tt).
Definition write_console (b : list Z) : M unit := fun c =>
  (mkCore (c_vmcs c) (c_lapic c) (c_pending c) (c_cpu c) (c_wheel c) (c_hw c) (c_set c) (c_host c) (c_ioapics c)
     (c_flushed c) (c_console c ++ b) (c_responses c), Ok tt).
Definition take_responses : M (list DeviceEventResponse) := fun c =>
  (mkCore (c_vmcs c) (c_lapic c) (c_pending c) (c_cpu c) (c_wheel c) (c_hw c) (c_set c) (c_host c) (c_ioapics c)
     (c_flushed c) (c_console c) [], Ok (c_responses c)).

(** The machine this core belongs to. *)
Context (this_vm : nat).

Definition this_machine : M (VirtualMachine D) := fun c =>
  (c, expect (vms (c_set c) !! this_vm) "dangling machine reference").
Definition put_machine (v : VirtualMachine D) : M unit := fun c =>
  (mkCore (c_vmcs c) (c_lapic c) (c_pending c) (c_cpu c) (c_wheel c) (c_hw c)
     (mkSet (contexts (c_set c)) (<[this_vm := v]> (vms (c_set c)))) (c_host c) (c_ioapics c)
     (c_flushed c) (c_console c) (c_responses c), Ok tt).

(** [self.vm.dispatch_event(ident, event, self, responses)], returning the event for
    its buffer. *)
Definition dispatch `{EmulatedDevice Platform D} (ident : Ident) (k : DeviceEvent) : M DeviceEvent := fun c =>
  match vms (c_set c) !! this_vm with
  | None => (c, Panic "dangling machine reference")
  | Some v =>
      let '(s, r) := dispatch_event ident (vmcs_peek (c_vmcs c) GuestCr3)
        (mkDispatch v k (c_responses c) (c_host c) (mkPlatform (c_hw c) (c_wheel c) (contexts (c_set c)))) in
      (mkCore (c_vmcs c) (c_lapic c) (c_pending c) (c_cpu c) (pl_wheel (ds_world s)) (pl_hw (ds_world s))
         (mkSet (pl_contexts (ds_world s)) (<[this_vm := ds_vm s]> (vms (c_set c)))) (ds_host s) (c_ioapics c)
         (c_flushed c) (c_console c) (ds_responses s), (fun _ => ds_kind s) <$> r)
  end.

(** ** [vmx.rs]: TLB maintenance *)

Inductive InvVpidMode :=
| IndividualAddress (vpid addr : Z)
| SingleContext (vpid : Z)
| AllContext
| SingleContextRetainGlobal (vpid : Z).

Definition invvpid_operand (mode : InvVpidMode) : Z * Z :=
  match mode with
  | IndividualAddress vpid addr => (0, Z.lor vpid (wrap 128 (Z.shiftl addr 64)))
  | SingleContext vpid => (1, vpid)
  | AllContext => (2, 0)
  | SingleContextRetainGlobal vpid => (3, vpid)
  end.

Definition invvpid `{VmxCpu} `{CoreCpu} (mode : InvVpidMode) : M unit :=
  let '(t, val) := invvpid_operand mode in
  match check_vm_insruction vm_instruction_error (invvpid_rflags t val) (str "Failed to execute invvpid") with
  | Ok _ => log_flush t val
  | Err e => err e
  | Panic w => panic w
  end.
End core.
