(* ===== verification/Emulate.v ===== *)
(** * Emulating instructions: port I/O, control registers and CPUID
    ([mythril/src/emulate/{portio,controlreg,cpuid}.rs]) *)

From S2P Require Import Prelude Error BTreeMap Memory VirtDev IoApic Vmcs VmExit Clock Apic Timers Vm Lapic Platform Core.

(** [chunks_exact(size)]: the whole chunks; the remainder is dropped. *)
Fixpoint chunks_exact (n size : nat) (l : list Z) : list (list Z) :=
  match n with
  | O => []
  | S n => take size l :: chunks_exact n size (drop size l)
  end.

Section emulate.
Context {D H : Type} `{EmulatedDevice Platform D} `{VmxCpu} `{CoreCpu} `{GuestPaging}.
Context (this_core : Z) (this_vm : nat).
Notation M := (st (Core D H)).

Definition read_field (f : VmcsField) : M Z := on_vmcs (vmcs_read f).
Definition write_field (f : VmcsField) (v : Z) : M unit := on_vmcs (vmcs_write f v).
Definition get_cpu : M GuestCpuState := on_cpu get.
Definition put_cpu (g : GuestCpuState) : M unit := on_cpu (put g).

(** [GuestVirtAddr::new] and [GuestAddressSpaceView::from_vmcs] read the VMCS. *)
Definition guest_virt_addr (linear : Z) : M GuestVirtAddr :=
  cr0 ← read_field GuestCr0; mret (guest_virt_addr_new linear cr0).
Definition space_read_bytes (a : GuestVirtAddr) (len : nat) : M (list Z) :=
  cr3 ← read_field GuestCr3;
  v ← this_machine this_vm;
  on_core_host (view_read_bytes (view_from_vmcs cr3 (vm_guest_space v)) a len (Read 0)).
Definition space_write_bytes (a : GuestVirtAddr) (bytes : list Z) : M unit :=
  cr3 ← read_field GuestCr3;
  v ← this_machine this_vm;
  on_core_host (view_write_bytes (view_from_vmcs cr3 (vm_guest_space v)) a bytes (Read 0)).

(** ** [portio.rs] *)

Definition dispatch_write (port : Z) (chunk : list Z) : M unit :=
  request ← lift (PortWriteRequest.try_from chunk);
  _ ← dispatch this_vm (IdentPort port) (PortWrite port request);
  mret tt.

(** The buffer of a port read after the dispatch. *)
Definition dispatch_read (port : Z) (chunk : list Z) : M (list Z) :=
  request ← lift (PortReadRequest.try_from chunk);
  k ← dispatch this_vm (IdentPort port) (PortRead port request);
  mret match k with PortRead _ r => PortReadRequest.as_slice r | _ => chunk end.

Fixpoint read_chunks (port : Z) (n size : nat) : M (list Z) :=
  match n with
  | O => mret []
  | S n =>
      b ← dispatch_read port (replicate size 0);
      rest ← read_chunks port n size;
      mret (b ++ rest)
  end.

Definition emulate_outs (port : Z) (exit : IoInstructionInformation) : M unit :=
  linear_addr ← read_field GuestLinearAddress;
  guest_addr ← guest_virt_addr linear_addr;
  g ← get_cpu;
  let len := Z.to_nat (u64 (rcx g * io_size exit)) in
  bytes ← space_read_bytes guest_addr len;
  let size := Z.to_nat (io_size exit) in
  _ ← st_iter (dispatch_write port) (chunks_exact (length bytes / size) size bytes);
  g ← get_cpu;
  put_cpu (set_rcx 0 (set_rsi (u64 (rsi g + Z.of_nat (length bytes))) g)).

(** The buffer of [rcx] bytes is taken to be allocated; for a count the heap cannot hold the code
    aborts. *)
Definition emulate_ins (port : Z) (exit : IoInstructionInformation) : M unit :=
  linear_addr ← read_field GuestLinearAddress;
  guest_addr ← guest_virt_addr linear_addr;
  g ← get_cpu;
  let len := Z.to_nat (rcx g) in
  let size := Z.to_nat (io_size exit) in
  chunks ← read_chunks port (len / size) size;
  let bytes := chunks ++ replicate (len mod size) 0 in
  _ ← space_write_bytes guest_addr bytes;
  g ← get_cpu;
  put_cpu (set_rcx 0 (set_rdi (u64 (rdi g + Z.of_nat len)) g)).

(** What an input leaves in [rax], from the buffer [arr]. *)
Definition input_rax (rax size : Z) (arr : list Z) : Z :=
  Z.lor (Z.land rax (u64 (Z.shiftl (bnot 64 rax) (size * 8)))) (of_be arr).

Definition emulate_portio (exit : IoInstructionInformation) : M unit :=
  let port := io_port exit in
  let size := io_size exit in
  if negb (io_string exit) then
    if size >? 4 then panic "range start index out of range for slice"
    else
      let skip := Z.to_nat (4 - size) in
      if negb (io_input exit) then
        g ← get_cpu;
        dispatch_write port (drop skip (be_bytes 4 (u32 (rax g))))
      else
        b ← dispatch_read port (replicate (Z.to_nat size) 0);
        g ← get_cpu;
        put_cpu (set_rax (input_rax (rax g) size (replicate skip 0 ++ b)) g)
  else if negb (io_input exit) then emulate_outs port exit
  else emulate_ins port exit.

(** ** [controlreg.rs] *)

Definition mov_cr_read_core (r : MovCrRegister) : M Z := fun c => (c, mov_cr_read r (c_vmcs c) (c_cpu c)).
Definition mov_cr_write_core (r : MovCrRegister) (value : Z) : M unit := fun c =>
  let '((v, g), res) := mov_cr_write r value (c_vmcs c, c_cpu c) in
  (mkCore v (c_lapic c) (c_pending c) g (c_wheel c) (c_hw c) (c_set c) (c_host c) (c_ioapics c)
     (c_flushed c) (c_console c) (c_responses c), res).
Definition unwrap_register (o : option MovCrRegister) : M MovCrRegister :=
  lift (expect o "called `Option::unwrap()` on a `None` value").

Definition emulate_access (i : CrInformation) : M unit :=
  if cr_num i =? 0 then
    match cr_access_type i with
    | Clts =>
        cr0 ← read_field GuestCr0;
        write_field GuestCr0 (Z.land cr0 (bnot 64 8))
    | MovToCr =>
        reg ← unwrap_register (cr_register i);
        val ← mov_cr_read_core reg;
        write_field GuestCr0 val
    | _ => panic "Unsupported MovToCr cr0 operation"
    end
  else if cr_num i =? 3 then
    match cr_access_type i with
    | MovToCr =>
        reg ← unwrap_register (cr_register i);
        val ← mov_cr_read_core reg;
        val ← (if negb (has_bits val (Z.shiftl 1 63)) then
                 vpid ← read_field VirtualProcessorId;
                 _ ← invvpid (SingleContextRetainGlobal (u16 vpid));
                 mret val
               else mret (Z.land val (bnot 64 (Z.shiftl 1 63))));
        write_field GuestCr3 val
    | MovFromCr =>
        reg ← unwrap_register (cr_register i);
        val ← read_field GuestCr3;
        mov_cr_write_core reg val
    | _ => panic "Unsupported MovFromCr cr0 operation"
    end
  else err (InvalidValue (str "Unsupported CR number access")).

(** ** [cpuid.rs] *)

Definition merge_low (x old : Z) : Z := Z.lor x (Z.land old 0xffffffff00000000).

Definition emulate_cpuid : M unit :=
  g ← get_cpu;
  let leaf := u32 (rax g) in
  let '(eax, ebx, ecx, edx) := cpuid_count leaf (u32 (rcx g)) in
  let '(ecx, edx) :=
    if leaf =? 1 then
      (Z.land (Z.land (Z.land ecx (bnot 32 (Z.shiftl 1 26))) (bnot 32 (Z.shiftl 1 31))) (bnot 32 (Z.shiftl 1 24)),
       Z.land edx (bnot 32 (Z.shiftl 1 12)))
    else if leaf =? 0x0b then (ecx, this_core)
    else (ecx, edx) in
  put_cpu (set_rdx (merge_low edx (rdx g)) (set_rcx (merge_low ecx (rcx g))
            (set_rbx (merge_low ebx (rbx g)) (set_rax (merge_low eax (rax g)) g)))).
End emulate.
