(* ===== verification/MemIo.v ===== *)
(** * Memory-mapped I/O and APIC accesses ([mythril/src/emulate/memio.rs])

    The faulting instruction is fetched from guest memory and decoded by the
    [iced_x86] crate, a parameter here; everything is treated as a move between
    memory and a register or an immediate. *)

From S2P Require Import Prelude Error BTreeMap Memory GuestMemory VirtDev IoApic Vmcs VmExit Clock Apic Timers Vm Lapic Platform Core Emulate.

(** The registers of [iced_x86::Register] the code names ([R8] to [R15] are [R8Q] to
    [R15Q] here). *)
Module Register.
Inductive t :=
| AL | AX | EAX | RAX
| BL | BX | EBX | RBX
| CL | CX | ECX | RCX
| DL | DX | EDX | RDX
| R8L | R8W | R8D | R8Q
| R9L | R9W | R9D | R9Q
| R10L | R10W | R10D | R10Q
| R11L | R11W | R11D | R11Q
| R12L | R12W | R12D | R12Q
| R13L | R13W | R13D | R13Q
| R14L | R14W | R14D | R14Q
| R15L | R15W | R15D | R15Q
| DIL | DI | EDI | RDI
| SIL | SI | ESI | RSI
| SPL | SP | ESP | RSP
| BPL | BP | EBP | RBP
| Other (code : Z).

(** The 64-bit register a name is part of, and the size of the part in bytes. *)
Definition parts (r : t) : option (MovCrRegister * nat) :=
  match r with
    | AL => Some (Rax, 1%nat) | AX => Some (Rax, 2%nat) | EAX => Some (Rax, 4%nat) | RAX => Some (Rax, 8%nat)
    | BL => Some (Rbx, 1%nat) | BX => Some (Rbx, 2%nat) | EBX => Some (Rbx, 4%nat) | RBX => Some (Rbx, 8%nat)
    | CL => Some (Rcx, 1%nat) | CX => Some (Rcx, 2%nat) | ECX => Some (Rcx, 4%nat) | RCX => Some (Rcx, 8%nat)
    | DL => Some (Rdx, 1%nat) | DX => Some (Rdx, 2%nat) | EDX => Some (Rdx, 4%nat) | RDX => Some (Rdx, 8%nat)
    | R8L => Some (R8, 1%nat) | R8W => Some (R8, 2%nat) | R8D => Some (R8, 4%nat) | R8Q => Some (R8, 8%nat)
    | R9L => Some (R9, 1%nat) | R9W => Some (R9, 2%nat) | R9D => Some (R9, 4%nat) | R9Q => Some (R9, 8%nat)
    | R10L => Some (R10, 1%nat) | R10W => Some (R10, 2%nat) | R10D => Some (R10, 4%nat) | R10Q => Some (R10, 8%nat)
    | R11L => Some (R11, 1%nat) | R11W => Some (R11, 2%nat) | R11D => Some (R11, 4%nat) | R11Q => Some (R11, 8%nat)
    | R12L => Some (R12, 1%nat) | R12W => Some (R12, 2%nat) | R12D => Some (R12, 4%nat) | R12Q => Some (R12, 8%nat)
    | R13L => Some (R13, 1%nat) | R13W => Some (R13, 2%nat) | R13D => Some (R13, 4%nat) | R13Q => Some (R13, 8%nat)
    | R14L => Some (R14, 1%nat) | R14W => Some (R14, 2%nat) | R14D => Some (R14, 4%nat) | R14Q => Some (R14, 8%nat)
    | R15L => Some (R15, 1%nat) | R15W => Some (R15, 2%nat) | R15D => Some (R15, 4%nat) | R15Q => Some (R15, 8%nat)
    | DIL => Some (Rdi, 1%nat) | DI => Some (Rdi, 2%nat) | EDI => Some (Rdi, 4%nat) | RDI => Some (Rdi, 8%nat)
    | SIL => Some (Rsi, 1%nat) | SI => Some (Rsi, 2%nat) | ESI => Some (Rsi, 4%nat) | RSI => Some (Rsi, 8%nat)
    | SPL => Some (Rsp, 1%nat) | SP => Some (Rsp, 2%nat) | ESP => Some (Rsp, 4%nat) | RSP => Some (Rsp, 8%nat)
    | BPL => Some (Rbp, 1%nat) | BP => Some (Rbp, 2%nat) | EBP => Some (Rbp, 4%nat) | RBP => Some (Rbp, 8%nat)
  | Other _ => None
  end.
End Register.

Module OpKind.
Inductive t := Register | Immediate8 | Immediate16 | Immediate32 | Immediate64 | Memory | Memory64 | Other.
End OpKind.

Record Instruction := mkInstr {
  op0_kind : OpKind.t;
  op1_kind : OpKind.t;
  op_register : Z -> Register.t;
  immediate : Z;
  code : Z
}.

(** [iced_x86::Decoder]: mode, bytes, instruction pointer *)
Class Decoder := decode : Z -> list Z -> Z -> Instruction.

Definition get_gpr (r : MovCrRegister) (g : GuestCpuState) : Z :=
  match r with
  | Rax => rax g | Rcx => rcx g | Rdx => rdx g | Rbx => rbx g | Rsp => 0 | Rbp => rbp g
  | Rsi => rsi g | Rdi => rdi g | R8 => r8 g | R9 => r9 g | R10 => r10 g | R11 => r11 g
  | R12 => r12 g | R13 => r13 g | R14 => r14 g | R15 => r15 g
  end.
Definition set_gpr (r : MovCrRegister) (v : Z) (g : GuestCpuState) : GuestCpuState :=
  match r with
  | Rax => set_rax v g | Rcx => set_rcx v g | Rdx => set_rdx v g | Rbx => set_rbx v g | Rsp => g
  | Rbp => set_rbp v g | Rsi => set_rsi v g | Rdi => set_rdi v g | R8 => set_r8 v g | R9 => set_r9 v g
  | R10 => set_r10 v g | R11 => set_r11 v g | R12 => set_r12 v g | R13 => set_r13 v g
  | R14 => set_r14 v g | R15 => set_r15 v g
  end.

(** The bytes of a register's low part, most significant first. *)
Definition read_register_value (register : Register.t) (v : VmcsState) (g : GuestCpuState) : res (list Z) :=
  match Register.parts register with
  | Some (Rsp, n) => Ok (be_bytes n (vmcs_peek v GuestRsp))
  | Some (r, n) => Ok (be_bytes n (get_gpr r g))
  | None => Err (InvalidValue (str "Invalid register '{:?}'"))
  end.

(** The register an MMIO read may load: the stack and frame pointers are not in the
    table. *)
Definition loadable (register : Register.t) : option (MovCrRegister * nat) :=
  match Register.parts register with
  | Some (Rsp, _) | Some (Rbp, _) => None
  | o => o
  end.

(** Merging the little-endian buffer into the register. *)
Definition merge_loaded (old : Z) (size : nat) (arr : list Z) : Z :=
  let mask := 2 ^ (8 * Z.of_nat size) - 1 in
  Z.lor (Z.land old (bnot 64 mask)) (of_le arr).

Section memio.
Context {D H : Type} `{EmulatedDevice Platform D} `{VmxCpu} `{CoreCpu} `{GuestPaging} `{Decoder}.
Context (this_core : Z) (this_vm : nat).
Notation M := (st (Core D H)).

(** [MemIoCallback]: handles the event and hands its buffer back. *)
Definition callback : Type := Z -> DeviceEvent -> M DeviceEvent.

Definition do_mmio_write (addr : Z) (instr : Instruction) (on_write : callback) : M unit :=
  data ←
    match op1_kind instr with
    | OpKind.Register => fun c => (c, read_register_value (op_register instr 1) (c_vmcs c) (c_cpu c))
    | OpKind.Immediate8 => mret (be_bytes 1 (immediate instr))
    | OpKind.Immediate16 => mret (be_bytes 2 (immediate instr))
    | OpKind.Immediate32 => mret (be_bytes 4 (immediate instr))
    | OpKind.Immediate64 => mret (be_bytes 8 (immediate instr))
    | _ => err NotSupported
    end;
  _ ← on_write addr (MemWrite addr data);
  mret tt.

Definition do_mmio_read (addr : Z) (instr : Instruction) (on_read : callback) : M unit :=
  '(reg, size) ←
    match op0_kind instr with
    | OpKind.Register =>
        match loadable (op_register instr 0) with
        | Some p => mret p
        | None => err (InvalidValue (str "mmio read into invalid register '{:?}'"))
        end
    | _ => err NotSupported
    end;
  k ← on_read addr (MemRead addr (replicate size 0));
  let arr := match k with MemRead _ d => d | _ => replicate size 0 end in
  g ← get_cpu;
  put_cpu (set_gpr reg (merge_loaded (get_gpr reg g) size arr) g).

Definition is_memory (k : OpKind.t) : bool :=
  match k with OpKind.Memory | OpKind.Memory64 => true | _ => false end.

Definition process_memio_op (addr : Z) (on_read on_write : callback) : M unit :=
  instruction_len ← read_field VmExitInstructionLen;
  ip ← read_field GuestRip;
  ip_addr ← guest_virt_addr ip;
  bytes ← space_read_bytes this_vm ip_addr (Z.to_nat instruction_len);
  efer ← read_field GuestIa32Efer;
  let mode := if has_bits efer 0x100 then 64 else 32 in
  let instr := decode mode bytes ip in
  if is_memory (op0_kind instr) then do_mmio_write addr instr on_write
  else if is_memory (op1_kind instr) then do_mmio_read addr instr on_read
  else err (InvalidValue (Msg "Unsupported mmio instruction: {:?} (rip=0x{:x}, bytes={:?})" (code instr :: ip :: bytes))).

Definition handle_ept_violation (exit : EptInformation) : M unit :=
  addr ← read_field GuestPhysicalAddress;
  let on_ept_violation : callback := fun addr event => dispatch this_vm (IdentAddr addr) event in
  process_memio_op addr on_ept_violation on_ept_violation.

Definition address_to_apic_offset (addr : Z) : res Z :=
  if (GUEST_LOCAL_APIC_ADDR <=? addr) && (addr <? GUEST_LOCAL_APIC_ADDR + 4096)
  then Ok (u16 ((addr - GUEST_LOCAL_APIC_ADDR) / 4))
  else Panic "assertion failed: addr >= apic_base && addr < (apic_base + BASE_PAGE_SIZE as u64)".

Definition on_apic_read : callback := fun addr event =>
  offset ← lift (address_to_apic_offset addr);
  value ← on_lapic (register_read this_core offset);
  match event with
  | MemRead a req =>
      if bool_decide (length req = 4%nat) then mret (MemRead a (be_bytes 4 value))
      else panic "source slice length does not match destination slice length"
  | _ => err NotSupported
  end.

Definition on_apic_write : callback := fun addr event =>
  offset ← lift (address_to_apic_offset addr);
  match event with
  | MemWrite a req =>
      if bool_decide (length req = 4%nat) then
        _ ← on_lapic (register_write this_core this_vm offset (of_be req));
        mret (MemWrite a req)
      else panic "source slice length does not match destination slice length"
  | _ => err NotSupported
  end.

Definition handle_apic_access (exit : ApicAccessInformation) : M unit :=
  offset ← lift (expect (aa_offset exit) "Apic access with no offset");
  process_memio_op (GUEST_LOCAL_APIC_ADDR + offset * 4) on_apic_read on_apic_write.
End memio.

(** ** Stores to and loads from the APIC page *)

Section memio_theorems.
Context {D H : Type} `{EmulatedDevice Platform D} `{VmxCpu} `{CoreCpu} `{GuestPaging} `{Decoder}.
Context (this_core : Z) (this_vm : nat).
Implicit Types c : Core D H.

(** The instruction the guest executed, as the handler fetches and decodes it. *)
Definition fetched (c : Core D H) (instr : Instruction) : Prop :=
  exists bytes,
    space_read_bytes this_vm (guest_virt_addr_new (vmcs_peek (c_vmcs c) GuestRip) (vmcs_peek (c_vmcs c) GuestCr0))
      (Z.to_nat (vmcs_peek (c_vmcs c) VmExitInstructionLen)) c = (c, Ok bytes) /\
    decode (if has_bits (vmcs_peek (c_vmcs c) GuestIa32Efer) 0x100 then 64 else 32) bytes
      (vmcs_peek (c_vmcs c) GuestRip) = instr.

Lemma read_field_eq f c : read_field f c = (c, Ok (vmcs_peek (c_vmcs c) f)).
Proof. by destruct c. Qed.

Lemma space_read_bytes_eq a len c v bs :
  vms (c_set c) !! this_vm = Some v ->
  read_bytes (vm_guest_space v) (vmcs_peek (c_vmcs c) GuestCr3) a len (Read 0) (c_host c) = (c_host c, Ok bs) ->
  space_read_bytes this_vm a len c = (c, Ok bs).
Proof.
  intros Hv Hr. unfold space_read_bytes. rewrite st_bind_eq, read_field_eq. cbv beta iota.
  rewrite st_bind_eq. unfold this_machine. rewrite Hv. cbn [expect].
  unfold on_core_host, view_read_bytes. cbn [view_from_vmcs view_space view_cr3]. rewrite Hr. by destruct c.
Qed.

Lemma process_memio_op_eq addr on_read on_write c instr :
  fetched c instr ->
  process_memio_op this_vm addr on_read on_write c =
  (if is_memory (op0_kind instr) then do_mmio_write addr instr on_write c
   else if is_memory (op1_kind instr) then do_mmio_read addr instr on_read c
   else process_memio_op this_vm addr on_read on_write c).
Proof.
  intros (bytes & Hb & Hd). unfold process_memio_op.
  rewrite st_bind_eq, read_field_eq, st_bind_eq, read_field_eq. cbv beta iota.
  unfold guest_virt_addr. rewrite st_bind_eq, st_bind_eq, read_field_eq. cbv beta iota.
  cbv [mret st_ret]. rewrite st_bind_eq, Hb. cbv beta iota.
  rewrite st_bind_eq, read_field_eq. cbv beta iota zeta. rewrite Hd.
  by destruct (is_memory (op0_kind instr)), (is_memory (op1_kind instr)).
Qed.

Lemma apic_offset o :
  0 <= o < 1024 -> address_to_apic_offset (GUEST_LOCAL_APIC_ADDR + o * 4) = Ok o.
Proof.
  intros Ho. unfold address_to_apic_offset, GUEST_LOCAL_APIC_ADDR.
  rewrite (proj2 (Z.leb_le _ _)), (proj2 (Z.ltb_lt _ _)) by lia. cbn [andb]. f_equal.
  replace (0xfee00000 + o * 4 - 0xfee00000) with (o * 4) by lia. rewrite Z.div_mul by lia.
  apply wrap_small. unfold is_u. lia.
Qed.

Lemma swapped_byte x : is_u 8 x -> of_le (be_bytes 4 x) = x * 2 ^ 24.
Proof.
  unfold is_u. intros Hx. rewrite be_bytes_4_unfold.
  cbn [of_le]. pow2_literals. Z.to_euclidean_division_equations. lia.
Qed.

(** The value of a 32-bit store, from the register it names. *)
Definition stored_value (c : Core D H) (r : MovCrRegister) : Z :=
  (match r with Rsp => vmcs_peek (c_vmcs c) GuestRsp | _ => get_gpr r (c_cpu c) end) mod 2 ^ 32.

(** a 32-bit store from any register to the APIC page is the write of that
    register's low half to the APIC register at the accessed offset. *)
Lemma apic_store_is_register_write exit o instr r c :
  aa_offset exit = Some o -> 0 <= o < 1024 -> fetched c instr ->
  is_memory (op0_kind instr) = true -> op1_kind instr = OpKind.Register ->
  Register.parts (op_register instr 1) = Some (r, 4%nat) ->
  handle_apic_access this_core this_vm exit c =
  on_lapic (register_write this_core this_vm o (stored_value c r)) c.
Proof.
  intros Ho Hr Hf Hk0 Hk1 Hp. unfold handle_apic_access. rewrite st_bind_eq. unfold lift. rewrite Ho. cbn [expect].
  rewrite (process_memio_op_eq _ _ _ _ instr Hf), Hk0. unfold do_mmio_write. rewrite Hk1, st_bind_eq.
  unfold read_register_value. rewrite Hp.
  assert (forall v, length (be_bytes 4 v) = 4%nat /\ of_be (be_bytes 4 v) = v mod 2 ^ 32) as Hbe.
  { intros v. split; [apply length_be_bytes|]. rewrite of_be_bytes. done. }
  assert (forall v, (_ ← on_apic_write this_core this_vm (GUEST_LOCAL_APIC_ADDR + o * 4)
      (MemWrite (GUEST_LOCAL_APIC_ADDR + o * 4) (be_bytes 4 v)); mret tt) c =
    on_lapic (D := D) (H := H) (register_write this_core this_vm o (v mod 2 ^ 32)) c) as Hw.
  { intros v. rewrite st_bind_eq. unfold on_apic_write. rewrite st_bind_eq. unfold lift. rewrite apic_offset by done.
    destruct (Hbe v) as [-> ->]. rewrite bool_decide_true by done. rewrite st_bind_eq.
    destruct (on_lapic _ c) as [c' [[]|e|w]]; done. }
  unfold stored_value. destruct r; apply Hw.
Qed.

(** A 32-bit load of the APIC id register puts the core's id into the top byte
    of the destination's low half, as an xAPIC lays it out, and keeps its high half. *)
Lemma apic_id_load exit instr r c :
  aa_offset exit = Some (ne_code Reg.ApicId) -> fetched c instr ->
  is_memory (op0_kind instr) = false -> is_memory (op1_kind instr) = true ->
  op0_kind instr = OpKind.Register -> loadable (op_register instr 0) = Some (r, 4%nat) ->
  is_u 8 this_core -> is_u 64 (get_gpr r (c_cpu c)) ->
  exists c', handle_apic_access this_core this_vm exit c = (c', Ok tt) /\
    c_cpu c' = set_gpr r (get_gpr r (c_cpu c) / 2 ^ 32 * 2 ^ 32 + this_core * 2 ^ 24) (c_cpu c) /\
    c_set c' = c_set c /\ c_lapic c' = c_lapic c /\ c_vmcs c' = c_vmcs c.
Proof.
  intros Ho Hf Hk0 Hk1 Hop Hl Hcore Hg. unfold handle_apic_access. rewrite st_bind_eq. unfold lift. rewrite Ho. cbn [expect].
  rewrite (process_memio_op_eq _ _ _ _ instr Hf), Hk0, Hk1. unfold do_mmio_read. rewrite Hop, Hl.
  rewrite st_bind_eq. cbv [mret st_ret]. rewrite st_bind_eq.
  unfold on_apic_read. rewrite st_bind_eq. unfold lift. rewrite apic_offset by (simpl; lia).
  rewrite st_bind_eq.
  change (on_lapic (register_read this_core (ne_code Reg.ApicId)) c) with
    (on_lapic (D := D) (H := H) (fun s => (s, Ok this_core)) c).
  unfold on_lapic. rewrite length_replicate, bool_decide_true by done.
  eexists. split; [reflexivity|]. cbn [c_cpu c_set c_lapic c_vmcs]. split_and!; [|by destruct c..].
  f_equal. unfold merge_loaded. change (2 ^ (8 * Z.of_nat 4) - 1) with (Z.ones 32).
  rewrite (land_clear_low 64 32), swapped_byte by done. rewrite (lor_shiftl_add' 32) by (unfold is_u in *; lia). lia.
Qed.
End memio_theorems.

(** ** Witnesses: a core whose guest executes from the page at 0x5000 *)

Definition no_device : EmulatedDevice Platform unit :=
  {| services := fun _ => []; on_event := fun s => (s, Ok tt) |}.
Definition plain_cpu : CoreCpu :=
  {| cpuid_count := fun _ _ => (0, 0, 0, 0); invvpid_rflags := fun _ _ => 2; serial_input := fun _ => 0x41 |}.

Definition demo_core : Core unit unit :=
  mkCore (<[field_code VmExitInstructionLen := 4]> (<[field_code GuestRip := 0x5ffe]> ∅)) None []
    (set_rbx 0x1122334455667788 cpu_zero) wheel_new (mkHw 0 [])
    (mkSet [mkContext 3 0 []] [mkVm (D := unit) 0 [3] 32 None [] device_map_default 4096 0 [(3, 0)] 0])
    two_pages tt [] [] [].

Lemma demo_fetch : exists bytes,
  @space_read_bytes unit unit linear_entry_address 0 (NoPaging 0x5ffe) 4 demo_core = (demo_core, Ok bytes).
Proof.
  destruct two_pages_ok as (Hwf & Hok & Hun & H0 & H1 & H2 & H3).
  destruct (@read_bytes_spec linear_entry_address two_pages 4096 0 (Read 0) 0x5ffe 4) as (bs & Hr & _);
    [unfold is_u; lia|exact Hwf|exact Hok|exact H0| |].
  - intros i Hi. assert (i = 0 \/ i = 1 \/ i = 2 \/ i = 3) as [-> | [-> | [-> | ->]]] by lia;
      [exact H0|exact H1|exact H2|exact H3].
  - exists bs. eapply space_read_bytes_eq; [reflexivity|exact Hr].
Qed.

(** [mov [mem], ebx] and [mov ebx, [mem]] *)
Definition store_ebx : Instruction :=
  mkInstr OpKind.Memory OpKind.Register (fun _ => Register.EBX) 0 0.
Definition load_ebx : Instruction :=
  mkInstr OpKind.Register OpKind.Memory (fun _ => Register.EBX) 0 0.

Lemma apic_store_is_register_write_witness :
  @handle_apic_access unit unit linear_entry_address (fun _ _ _ => store_ebx) 3 0
    (mkApicAccess (Some 0xd0) LinearWrite false) demo_core =
  on_lapic (register_write 3 0 0xd0 0x55667788) demo_core.
Proof.
  apply (@apic_store_is_register_write unit unit linear_entry_address (fun _ _ _ => store_ebx) 3 0
    (mkApicAccess (Some 0xd0) LinearWrite false) 0xd0 store_ebx Rbx demo_core).
  - reflexivity.
  - lia.
  - destruct demo_fetch as [bytes Hb]. exists bytes. split; [exact Hb|reflexivity].
  - reflexivity.
  - reflexivity.
  - reflexivity.
Defined.

Lemma apic_id_load_witness :
  exists c', @handle_apic_access unit unit linear_entry_address (fun _ _ _ => load_ebx) 3 0
      (mkApicAccess (Some 0x20) LinearRead false) demo_core = (c', Ok tt) /\
    rbx (c_cpu c') = 0x1122334403000000.
Proof.
  destruct (@apic_id_load unit unit linear_entry_address (fun _ _ _ => load_ebx) 3 0
    (mkApicAccess (Some 0x20) LinearRead false) load_ebx Rbx demo_core) as (c' & He & Hg & _).
  - reflexivity.
  - destruct demo_fetch as [bytes Hb]. exists bytes. split; [exact Hb|reflexivity].
  - reflexivity.
  - reflexivity.
  - reflexivity.
  - reflexivity.
  - unfold is_u. lia.
  - unfold is_u. simpl. lia.
  - exists c'. split; [exact He|]. rewrite Hg. reflexivity.
Defined.
