(* ===== verification/VCpu.v ===== *)
(** * The virtual CPU ([mythril/src/vcpu.rs])

    Setting up the VMCS, waiting for the start-up message, and handling exits:
    the dispatch on the exit reason, the responses of devices, messages from other
    cores, timers, and the injection of pending interrupts. *)

From S2P Require Import Prelude Error BTreeMap Memory VirtDev IoApic Vmcs VmExit Clock Apic Timers Vm Lapic Platform Core Emulate MemIo.

Definition IA32_APIC_BASE : Z := 0x1b.
Definition IA32_VMX_PINBASED_CTLS : Z := 0x481.
Definition IA32_VMX_PROCBASED_CTLS : Z := 0x482.
Definition IA32_VMX_EXIT_CTLS : Z := 0x483.
Definition IA32_VMX_ENTRY_CTLS : Z := 0x484.
Definition IA32_VMX_CR0_FIXED0 : Z := 0x486.
Definition IA32_VMX_CR4_FIXED0 : Z := 0x488.
Definition IA32_VMX_PROCBASED_CTLS2 : Z := 0x48b.
Definition IA32_EFER : Z := 0xc0000080.
Definition IA32_FS_BASE : Z := 0xc0000100.
Definition IA32_GS_BASE : Z := 0xc0000101.

(** The registers of the host the code reads, and addresses fixed when it is linked. *)
Record HostRegs := mkHostRegs {
  host_cr0 : Z; host_cr3 : Z; host_cr4 : Z;
  GDT64_CODE : Z; GDT64_DATA : Z;
  idtr_base : Z; gdtr_base : Z;
  vmexit_handler_wrapper : Z
}.

(** ** Setting up the VMCS *)

Section init.
Context `{VmxCpu}.

Definition write_fields (l : list (VmcsField * Z)) : st VmcsState unit :=
  st_iter (fun p => vmcs_write p.1 p.2) l.

Definition host_fields (h : HostRegs) (stack : Z) : list (VmcsField * Z) := [
  (HostCr0, host_cr0 h); (HostCr3, host_cr3 h); (HostCr4, host_cr4 h);
  (HostCsSelector, GDT64_CODE h); (HostSsSelector, GDT64_DATA h); (HostDsSelector, GDT64_DATA h);
  (HostEsSelector, GDT64_DATA h); (HostFsSelector, GDT64_DATA h); (HostGsSelector, GDT64_DATA h);
  (HostTrSelector, GDT64_DATA h);
  (HostIa32SysenterCs, 0); (HostIa32SysenterEsp, 0); (HostIa32SysenterEip, 0);
  (HostIdtrBase, idtr_base h); (HostGdtrBase, gdtr_base h);
  (HostFsBase, rdmsr IA32_FS_BASE); (HostGsBase, rdmsr IA32_GS_BASE);
  (HostRsp, stack); (HostIa32Efer, rdmsr IA32_EFER); (HostRip, vmexit_handler_wrapper h)].

Definition initialize_host_vmcs (h : HostRegs) (stack : Z) : st VmcsState unit :=
  write_fields (host_fields h stack).

(** [IA32_VMX_CR0_FIXED0] without PE and PG *)
Definition guest_cr0 : Z :=
  Z.land (Z.land (rdmsr IA32_VMX_CR0_FIXED0) (bnot 64 (Z.shiftl 1 0))) (bnot 64 (Z.shiftl 1 31)).
Definition guest_cr4 : Z := rdmsr IA32_VMX_CR4_FIXED0.

Definition guest_fields : list (VmcsField * Z) := [
  (GuestEsSelector, 0); (GuestCsSelector, 0xf000); (GuestSsSelector, 0); (GuestDsSelector, 0);
  (GuestFsSelector, 0); (GuestGsSelector, 0); (GuestTrSelector, 0); (GuestLdtrSelector, 0);
  (GuestEsBase, 0); (GuestCsBase, 0xffff0000); (GuestSsBase, 0); (GuestDsBase, 0);
  (GuestFsBase, 0); (GuestGsBase, 0); (GuestTrBase, 0); (GuestLdtrBase, 0);
  (GuestIdtrBase, 0); (GuestGdtrBase, 0);
  (GuestEsLimit, 0xffff); (GuestCsLimit, 0xffff); (GuestSsLimit, 0xffff); (GuestDsLimit, 0xffff);
  (GuestFsLimit, 0xffff); (GuestGsLimit, 0xffff); (GuestTrLimit, 0xffff); (GuestLdtrLimit, 0xffff);
  (GuestIdtrLimit, 0xffff); (GuestGdtrLimit, 0xffff);
  (GuestEsArBytes, 0x0093); (GuestSsArBytes, 0x0093); (GuestDsArBytes, 0x0093); (GuestFsArBytes, 0x0093);
  (GuestGsArBytes, 0x0093); (GuestCsArBytes, 0x009b); (GuestLdtrArBytes, 0x0082); (GuestTrArBytes, 0x008b);
  (GuestInterruptibilityInfo, 0); (GuestDr7, 0); (GuestRsp, 0); (GuestRflags, Z.shiftl 1 1);
  (VmcsLinkPointer, 0xffffffff); (VmcsLinkPointerHigh, 0xffffffff);
  (GuestIa32Efer, 0);
  (Cr0GuestHostMask, Z.land guest_cr0 0xffffffff); (Cr4GuestHostMask, Z.land guest_cr4 0xffffffff);
  (GuestCr0, guest_cr0); (GuestCr4, guest_cr4); (Cr0ReadShadow, 0); (Cr4ReadShadow, 0);
  (GuestCr3, 0); (GuestRip, 0xfff0); (GuestActivityState, ne_code Active)].

Definition initialize_guest_vmcs : st VmcsState unit := write_fields guest_fields.

(** The MSR bitmap page: exit on reads of [IA32_APIC_BASE]. *)
Definition msr_page : list Z := <[3%nat := Z.lor 0 (Z.shiftl 1 3)]> (replicate 4096 0).

Definition on_v {A} (m : st VmcsState A) : st (VmcsState * Host) A := fun s =>
  let '(v, r) := m s.1 in ((v, s.2), r).

Definition initialize_ctrl_vmcs `{HostAlloc} (this_core : Z) : st (VmcsState * Host) unit :=
  _ ← on_v (vmcs_write_with_fixed CpuBasedVmExecControl
        (flags_union [CpuBasedCtrlFlags.UNCOND_IO_EXITING; CpuBasedCtrlFlags.TPR_SHADOW;
           CpuBasedCtrlFlags.ACTIVATE_MSR_BITMAP; CpuBasedCtrlFlags.ACTIVATE_SECONDARY_CONTROLS])
        IA32_VMX_PROCBASED_CTLS);
  _ ← on_v (vmcs_write_with_fixed SecondaryVmExecControl
        (flags_union [SecondaryExecFlags.VIRTUALIZE_APIC_ACCESSES; SecondaryExecFlags.ENABLE_EPT;
           SecondaryExecFlags.ENABLE_RDTSCP; SecondaryExecFlags.ENABLE_VPID;
           SecondaryExecFlags.ENABLE_INVPCID; SecondaryExecFlags.UNRESTRICTED_GUEST])
        IA32_VMX_PROCBASED_CTLS2);
  _ ← on_v (vmcs_write VirtualProcessorId (u64 (this_core + 1)));
  _ ← on_v (vmcs_write_with_fixed PinBasedVmExecControl PinBasedCtrlFlags.EXT_INTR_EXIT IA32_VMX_PINBASED_CTLS);
  _ ← on_v (vmcs_write_with_fixed VmExitControls
        (flags_union [VmExitCtrlFlags.IA32E_MODE; VmExitCtrlFlags.ACK_INTR_ON_EXIT; VmExitCtrlFlags.SAVE_GUEST_EFER])
        IA32_VMX_EXIT_CTLS);
  _ ← on_v (vmcs_write_with_fixed VmEntryControls 0 IA32_VMX_ENTRY_CTLS);
  msr_bitmap ← (fun s =>
    match host_alloc s.2 with
    | Some a => ((s.1, mkHost (tables s.2) (<[a := msr_page]> (frames s.2))), Ok a)
    | None => (s, Panic "memory allocation failed")
    end);
  _ ← on_v (vmcs_write MsrBitmap msr_bitmap);
  _ ← on_v (vmcs_write ExceptionBitmap 0);
  _ ← on_v (vmcs_read CpuBasedVmExecControl);
  _ ← on_v (vmcs_read SecondaryVmExecControl);
  _ ← on_v (vmcs_write Cr3TargetCount 0);
  on_v (vmcs_write TprThreshold 0).

(** [VCpu::new] after the VMX and VMCS regions are set up; the host stack starts at
    [stack] and the address of the [VCpu] is pushed on it. *)
Definition PER_CORE_HOST_STACK_SIZE : Z := 1024 * 1024.
Definition vcpu_new `{HostAlloc} {D} (h : HostRegs) (stack this_core : Z) (v : VirtualMachine D)
    : st (VmcsState * Host) unit :=
  let stack_base := u64 (stack + PER_CORE_HOST_STACK_SIZE - 8) in
  _ ← on_v (vmcs_write EptPointer (eptp (vm_guest_space v)));
  _ ← on_v (vmcs_write ApicAccessAddr (vm_apic_access_page v));
  _ ← on_v (initialize_host_vmcs h stack_base);
  _ ← on_v initialize_guest_vmcs;
  initialize_ctrl_vmcs this_core.
End init.

(** [String::from_utf8_lossy] of one byte *)
Definition utf8_lossy (b : Z) : list Z := if b <? 0x80 then [b] else [0xef; 0xbf; 0xbd].

Section vcpu.
Context {D H : Type} `{EmulatedDevice Platform D} `{IoApicHw H} `{VmxCpu} `{CoreCpu} `{GuestPaging} `{Decoder} `{TimeSource}.
Context (apic : LocalApic) (ioapics : list IoApic) (this_core : Z) (this_vm : nat).
Notation M := (st (Core D H)).

Definition inject_interrupt (vector : Z) (kind : InjectedInterruptType) : M unit :=
  on_pending (modify (bt_insert Z.compare vector kind)).

(** ** Waiting for the start-up message *)

(** One round of the loop: whether the core was started. *)
Definition wait_for_init_step : M bool :=
  msg ← on_set (fun '(s, hw) => let '(s, r) := recv_msg this_core s in ((s, hw), r));
  match msg with
  | Some (StartVcpu addr) =>
      _ ← write_field GuestCsSelector (Z.shiftr addr 4);
      _ ← write_field GuestCsBase 0x0000;
      _ ← write_field GuestRip 0;
      mret true
  | _ => mret false
  end.

(** The loop polls; between polls other cores may queue messages ([env]). *)
Fixpoint wait_for_init (fuel : nat) (env : nat -> VirtualMachineSet D -> VirtualMachineSet D) : M unit :=
  match fuel with
  | O => panic "out of fuel"
  | S fuel =>
      _ ← on_set (fun '(s, hw) => ((env fuel s, hw), Ok tt));
      started ← wait_for_init_step;
      if started : bool then mret tt else wait_for_init fuel env
  end.

(** ** Exits *)

Definition skip_emulated_instruction : M unit :=
  rip ← read_field GuestRip;
  len ← read_field VmExitInstructionLen;
  write_field GuestRip (u64 (rip + len)).

Definition route_interrupt (gsi : Z) : M unit :=
  v ← this_machine this_vm;
  '(destination, vector, kind) ← lift (gsi_destination this_core gsi v);
  if destination =? this_core then inject_interrupt vector kind
  else on_set (send_msg_core (GuestInterrupt kind vector) destination true).

Definition handle_msg (m : VirtualMachineMsg) : M unit :=
  match m with
  | GrantConsole serial => v ← this_machine this_vm; put_machine this_vm (set_vm_serial (Some serial) v)
  | CancelTimer id => on_platform (cancel_timer apic this_core id)
  | GuestInterrupt kind vector => inject_interrupt vector kind
  | StartVcpu _ => mret tt
  end.

Definition handle_ipc : M unit :=
  msgs ← on_set (fun '(s, hw) => let '(s, r) := recv_all_msgs this_core s in ((s, hw), r));
  st_iter handle_msg msgs.

Definition handle_uart_keypress : M unit :=
  v ← this_machine this_vm;
  match vm_serial v with
  | Some port => _ ← dispatch this_vm (IdentPort port) (HostUartReceived (serial_input port)); mret tt
  | None => mret tt
  end.

Definition handle_response (r : DeviceEventResponse) : M unit :=
  match r with
  | GSI gsi => route_interrupt gsi
  | NextConsole =>
      v ← this_machine this_vm;
      _ ← put_machine this_vm (set_vm_serial None v);
      serial ← lift (ok_or (vm_serial v) NotFound);
      s ← on_set (fun w => (w, Ok w.1));
      if vm_count s =? 0 then panic "attempt to calculate the remainder with a divisor of zero"
      else
        let next_vmid := u32 (vm_id v + 1) mod vm_count s in
        _ ← on_set (send_msg (GrantConsole serial) next_vmid true);
        s ← on_set (fun w => (w, Ok w.1));
        next_bsp ← lift (bsp_core_id s next_vmid);
        next_bsp ← lift (ok_or next_bsp NotFound);
        on_ioapics (fun h =>
          let '(h, r) := map_gsi_vector ioapics gsi_UART vector_UART (u8 next_bsp) h in
          (h, map_err (fun _ => DeviceError (str "Failed to update console GSI mapping")) r))
  | GuestUartTransmitted val =>
      v ← this_machine this_vm;
      if bool_decide (is_Some (vm_serial v)) then write_console (utf8_lossy val) else mret tt
  end.

Definition handle_rdmsr : M unit :=
  g ← get_cpu;
  (if u32 (rcx g) =? IA32_APIC_BASE then
     let real_apic_base := Z.land (rdmsr IA32_APIC_BASE) (bnot 64 (Z.shiftl 1 10)) in
     put_cpu (set_rax (Z.land real_apic_base 0xffffffff) (set_rdx (Z.shiftr real_apic_base 32) g))
   else mret tt).

Definition handle_external_interrupt (vector : Z) : M unit :=
  _ ← (if vector =? vector_UART then handle_uart_keypress
       else if vector =? vector_IPC then handle_ipc
       else mret tt);
  on_core_hw eoi.

Definition handle_exit (exit : ExitReason) : M unit :=
  match info exit with
  | ExitInformation.RdMsr => _ ← handle_rdmsr; skip_emulated_instruction
  | ExitInformation.ApicAccess i => _ ← handle_apic_access this_core this_vm i; skip_emulated_instruction
  | ExitInformation.CrAccess i => _ ← emulate_access i; skip_emulated_instruction
  | ExitInformation.CpuId => _ ← emulate_cpuid this_core; skip_emulated_instruction
  | ExitInformation.IoInstruction i => _ ← emulate_portio this_vm i; skip_emulated_instruction
  | ExitInformation.EptViolation i => _ ← handle_ept_violation this_vm i; skip_emulated_instruction
  | ExitInformation.InterruptWindow => mret tt
  | ExitInformation.ExternalInterrupt i => handle_external_interrupt (ve_vector i)
  | _ => panic "No handler for exit reason"
  end.

(** The response array is fresh for every exit. *)
Definition handle_vmexit_impl (exit : ExitReason) : M unit :=
  _ ← take_responses;
  _ ← handle_exit exit;
  responses ← take_responses;
  st_iter handle_response responses.

Definition handle_timer_event (t : TimerInterruptType) : M unit :=
  match t with
  | Direct vector kind => inject_interrupt vector kind
  | TimerGSI gsi => route_interrupt gsi
  end.

Definition expire_timers : M (list TimerInterruptType) :=
  on_platform (w ← get_wheel;
    '(w, ints) ← on_hw (expire_elapsed_timers apic w);
    _ ← put_wheel w;
    mret ints).

(** The end of [handle_vmexit]: inject the first pending interrupt if the guest can
    take it, and ask for an exit when it can if there is more. *)
Definition inject_pending : M unit :=
  pending ← on_pending get;
  match pending with
  | [] => mret tt
  | _ =>
      state ← read_field GuestInterruptibilityInfo;
      interruptibility ← lift (ok_or (from_bits InterruptibilityState.all state)
        (InvalidValue (str "Invalid interruptibility state")));
      rflags ← read_field GuestRflags;
      field ← read_field CpuBasedVmExecControl;
      let window := CpuBasedCtrlFlags.INTERRUPT_WINDOW_EXITING in
      if negb (interruptibility =? 0) || negb (has_bits rflags 0x200) then
        write_field CpuBasedVmExecControl (Z.lor field window)
      else
        _ ← write_field CpuBasedVmExecControl (Z.land field (bnot 64 window));
        first ← on_pending (fun p => match p with [] => (p, Ok None) | e :: r => (r, Ok (Some e)) end);
        _ ← match first with
            | Some (vector, kind) =>
                write_field VmEntryIntrInfoField
                  (Z.lor (Z.lor 0x80000000 vector) (Z.shiftl (injected_code kind) 8))
            | None => mret tt
            end;
        pending ← on_pending get;
        match pending with
        | [] => write_field CpuBasedVmExecControl (Z.land field (bnot 64 window))
        | _ => write_field CpuBasedVmExecControl (Z.lor field window)
        end
  end.

Definition handle_vmexit (exit : ExitReason) : M unit :=
  _ ← handle_vmexit_impl exit;
  events ← expire_timers;
  _ ← st_iter handle_timer_event events;
  inject_pending.
End vcpu.

(** ** The initial guest state *)

Section init_theorems.
Context `{VmxCpu}.

Definition accepted (l : list (VmcsField * Z)) : Prop := Forall (fun p => writable p.1 p.2) l.

Definition store_all (l : list (VmcsField * Z)) (v : VmcsState) : VmcsState :=
  foldl (fun v p => vmcs_store p.1 p.2 v) v l.

Lemma write_fields_ok l v : accepted l -> write_fields l v = (store_all l v, Ok tt).
Proof.
  intros Ha. revert v. induction Ha as [|[f x] l Hw Ha IH]; intros v; [done|].
  unfold write_fields. cbn [st_iter]. rewrite st_bind_eq. cbn [fst snd] in *.
  rewrite vmcs_write_ok by done. apply IH.
Qed.

Lemma store_all_other l v f :
  Forall (fun p => full_code p.1 <> full_code f) l -> vmcs_peek (store_all l v) f = vmcs_peek v f.
Proof.
  intros Hl. revert v. induction Hl as [|[g x] l Hg Hl IH]; intros v; [done|].
  cbn [store_all foldl fst snd]. fold (store_all l (vmcs_store g x v)). rewrite IH.
  apply peek_store_other. cbn [fst] in Hg. by intros E.
Qed.

(** The last write to a field is the value it holds. *)
Lemma store_all_last l1 f x l2 v :
  Forall (fun p => full_code p.1 <> full_code f) l2 ->
  vmcs_peek (store_all (l1 ++ (f, x) :: l2) v) f = wrap (field_width f) x.
Proof.
  intros Hl. unfold store_all. rewrite foldl_app. cbn [foldl fst snd].
  change (vmcs_peek (store_all l2 (vmcs_store f x (store_all l1 v))) f = wrap (field_width f) x).
  rewrite store_all_other by done. apply peek_store_same.
Qed.

Lemma store_halves lo hi x y v :
  is_high lo = false -> is_high hi = true -> full_code hi = full_code lo ->
  vmcs_peek (vmcs_store hi y (vmcs_store lo x v)) lo = wrap (field_width lo) x mod 2 ^ 32 + 2 ^ 32 * wrap 32 y.
Proof.
  intros Hl Hh Hf. unfold vmcs_peek. rewrite Hl, full_store, decide_True, Hh by done.
  by rewrite full_store, decide_True, Hl.
Qed.

Lemma store_all_pair l i lo hi x y v :
  l !! i = Some (lo, x) -> l !! S i = Some (hi, y) ->
  is_high lo = false -> is_high hi = true -> full_code hi = full_code lo ->
  bool_decide (Forall (fun p => full_code p.1 <> full_code lo) (drop (S (S i)) l)) = true ->
  vmcs_peek (store_all l v) lo = wrap (field_width lo) x mod 2 ^ 32 + 2 ^ 32 * wrap 32 y.
Proof.
  intros Hi Hsi Hl Hh Hc Hf%bool_decide_eq_true.
  rewrite <- (take_drop_middle l i (lo, x)) by done. rewrite (drop_S l (hi, y) (S i)) by done.
  unfold store_all. rewrite foldl_app. cbn [foldl fst snd].
  match goal with |- vmcs_peek (foldl ?g ?s ?l2) _ = _ => change (foldl g s l2) with (store_all l2 s) end.
  rewrite store_all_other by done. by apply store_halves.
Qed.

Lemma store_all_at l i f x v :
  l !! i = Some (f, x) -> bool_decide (Forall (fun p => full_code p.1 <> full_code f) (drop (S i) l)) = true ->
  vmcs_peek (store_all l v) f = wrap (field_width f) x.
Proof.
  intros Hi Hf%bool_decide_eq_true. rewrite <- (take_drop_middle l i (f, x)) by done. by apply store_all_last.
Qed.

(** the initial guest state.  When the processor accepts the writes, a new
    virtual CPU starts at the reset vector (code segment base plus instruction
    pointer is 0xfffffff0) in real mode: CR0 is the fixed value without its
    protection and paging bits, the flags hold only their reserved bit, and the
    link pointer is all ones. *)
Lemma guest_reset_state v :
  accepted guest_fields -> is_u 64 (rdmsr IA32_VMX_CR0_FIXED0) ->
  exists v', initialize_guest_vmcs v = (v', Ok tt) /\
    vmcs_peek v' GuestCsBase + vmcs_peek v' GuestRip = 0xfffffff0 /\
    (forall i, 0 <= i -> Z.testbit (vmcs_peek v' GuestCr0) i =
       if decide (i = 0 \/ i = 31) then false else Z.testbit (rdmsr IA32_VMX_CR0_FIXED0) i) /\
    vmcs_peek v' GuestRflags = 2 /\ vmcs_peek v' GuestActivityState = 0 /\
    vmcs_peek v' VmcsLinkPointer = 2 ^ 64 - 1 /\
    (forall f, full_code f ∉ map (fun p => full_code p.1) guest_fields -> vmcs_peek v' f = vmcs_peek v f).
Proof.
  intros Ha Hu. exists (store_all guest_fields v). split; [by apply write_fields_ok|].
  rewrite (store_all_at _ 9 GuestCsBase 0xffff0000), (store_all_at _ 50 GuestRip 0xfff0),
    (store_all_at _ 39 GuestRflags 2), (store_all_at _ 51 GuestActivityState 0) by reflexivity.
  split; [reflexivity|]. split; [|split; [reflexivity|split; [reflexivity|split]]].
  - rewrite (store_all_at _ 45 GuestCr0 guest_cr0) by reflexivity. change (field_width GuestCr0) with 64.
    intros i Hi. unfold guest_cr0.
    rewrite wrap_small by (do 2 (apply land_is_u_l; [lia|]); done).
    rewrite !Z.land_spec, !bnot_testbit by lia. rewrite !Z.shiftl_1_l, !Z.pow2_bits_eqb by lia.
    destruct (decide (i < 64)); [|rewrite (is_u_testbit 64 _ ltac:(lia) Hu) by lia; by case_decide].
    rewrite (proj2 (Z.ltb_lt i 64)) by lia.
    case_decide as Hc; [destruct Hc as [-> | ->]; by rewrite ?andb_false_r|].
    rewrite (proj2 (Z.eqb_neq 0 i)), (proj2 (Z.eqb_neq 31 i)) by lia. by rewrite !andb_true_r.
  - rewrite (store_all_pair guest_fields 40 VmcsLinkPointer VmcsLinkPointerHigh 0xffffffff 0xffffffff) by reflexivity.
    reflexivity.
  - intros f Hf. apply store_all_other, Forall_forall. intros p Hp E. apply Hf. rewrite <- E.
    apply list_elem_of_fmap. by exists p.
Qed.
End init_theorems.

Lemma guest_reset_state_witness :
  exists v', @initialize_guest_vmcs lenient_cpu ∅ = (v', Ok tt) /\
    vmcs_peek v' GuestCsBase + vmcs_peek v' GuestRip = 0xfffffff0.
Proof.
  destruct (@guest_reset_state lenient_cpu ∅) as (v' & H & Hr & _).
  - unfold accepted, guest_fields. repeat (constructor; [split; reflexivity|]). constructor.
  - unfold is_u. simpl. lia.
  - exists v'. split; [exact H|exact Hr].
Defined.

(** ** Injection *)

Section injection.
Context {D H : Type} `{VmxCpu}.
Implicit Types c : Core D H.

Definition set_vmcs (v : VmcsState) (c : Core D H) : Core D H :=
  mkCore v (c_lapic c) (c_pending c) (c_cpu c) (c_wheel c) (c_hw c) (c_set c) (c_host c) (c_ioapics c)
     (c_flushed c) (c_console c) (c_responses c).
Definition set_pending (p : list (Z * InjectedInterruptType)) (c : Core D H) : Core D H :=
  mkCore (c_vmcs c) (c_lapic c) p (c_cpu c) (c_wheel c) (c_hw c) (c_set c) (c_host c) (c_ioapics c)
     (c_flushed c) (c_console c) (c_responses c).

Lemma write_field_ok f x c : writable f x -> write_field f x c = (set_vmcs (vmcs_store f x (c_vmcs c)) c, Ok tt).
Proof. intros Hw. unfold write_field, on_vmcs. by rewrite vmcs_write_ok. Qed.

(** The information word for the processor: valid bit, type, vector. *)
Lemma intr_info_word vector kind : is_u 8 vector ->
  Z.lor (Z.lor 0x80000000 vector) (Z.shiftl (injected_code kind) 8) =
  0x80000000 + vector + 2 ^ 8 * injected_code kind.
Proof.
  intros Hv. rewrite (Z.lor_comm 0x80000000), <- Z.lor_assoc, (Z.lor_comm 0x80000000).
  rewrite Z.lor_assoc, (lor_shiftl_add 8) by (done || lia).
  assert (0 <= injected_code kind <= 7) by (destruct kind; simpl; lia). unfold is_u in Hv.
  change 0x80000000 with (Z.shiftl 1 31) at 1. rewrite (lor_shiftl_add 31) by (unfold is_u; lia). lia.
Qed.

Lemma window_bit_set x : is_u 32 x -> is_u 32 (Z.lor x CpuBasedCtrlFlags.INTERRUPT_WINDOW_EXITING).
Proof. intros. apply lor_is_u; [lia|done|]. unfold is_u. vm_compute. split; congruence. Qed.
Lemma window_bit_clear x : is_u 32 x -> is_u 32 (Z.land x (bnot 64 CpuBasedCtrlFlags.INTERRUPT_WINDOW_EXITING)).
Proof. intros. apply land_is_u_l; [lia|done]. Qed.

(** The control word with the interrupt-window bit at [b]. *)
Definition window_ctl (b : bool) (x x' : Z) : Prop :=
  forall i, 0 <= i -> Z.testbit x' i = if decide (i = 2) then b else Z.testbit x i.

Lemma window_ctl_set x : window_ctl true x (Z.lor x CpuBasedCtrlFlags.INTERRUPT_WINDOW_EXITING).
Proof.
  intros i Hi. change CpuBasedCtrlFlags.INTERRUPT_WINDOW_EXITING with (2 ^ 2).
  rewrite Z.lor_spec, Z.pow2_bits_eqb by lia.
  case_decide as E; [subst; apply orb_true_r|]. rewrite (proj2 (Z.eqb_neq 2 i)) by lia. apply orb_false_r.
Qed.

Lemma window_ctl_clear x : is_u 32 x ->
  window_ctl false x (Z.land x (bnot 64 CpuBasedCtrlFlags.INTERRUPT_WINDOW_EXITING)).
Proof.
  intros Hx i Hi. change CpuBasedCtrlFlags.INTERRUPT_WINDOW_EXITING with (2 ^ 2).
  rewrite Z.land_spec, bnot_testbit, Z.pow2_bits_eqb by lia.
  case_decide as E; [subst; apply andb_false_r|]. rewrite (proj2 (Z.eqb_neq 2 i)) by lia.
  destruct (Z.ltb_spec i 64); [apply andb_true_r|]. rewrite (is_u_testbit 32 x) by (done || lia). done.
Qed.

Lemma interruptibility_bits x : is_u 32 x ->
  from_bits InterruptibilityState.all x = if bool_decide (x < 32) then Some x else None.
Proof.
  intros Hx. unfold from_bits. change (flags_union InterruptibilityState.all) with (Z.ones 5).
  rewrite Z.land_ones by lia. change (2 ^ 5) with 32. unfold is_u in Hx.
  case_bool_decide; destruct (Z.eqb_spec (x mod 32) x); try done.
  - rewrite Z.mod_small in n by lia. done.
  - pose proof (Z.mod_pos_bound x 32). lia.
Qed.

Lemma if_flag rflags : has_bits rflags 0x200 = Z.testbit rflags 9.
Proof. change 0x200 with (Z.shiftl 1 9). fold (bit rflags 9). by apply bit_testbit. Qed.

(** The final choice of the window bit after an injection. *)
Lemma finish_window (rest : list (Z * InjectedInterruptType)) field c :
  (forall x, writable CpuBasedVmExecControl x) -> is_u 32 field ->
  exists x, match rest with
      | [] => write_field CpuBasedVmExecControl (Z.land field (bnot 64 CpuBasedCtrlFlags.INTERRUPT_WINDOW_EXITING))
      | _ => write_field CpuBasedVmExecControl (Z.lor field CpuBasedCtrlFlags.INTERRUPT_WINDOW_EXITING)
      end c = (set_vmcs (vmcs_store CpuBasedVmExecControl x (c_vmcs c)) c, Ok tt) /\
    is_u 32 x /\ window_ctl (bool_decide (rest <> [])) field x.
Proof.
  intros Hw Hf. destruct rest; rewrite write_field_ok by apply Hw; eexists; (split; [reflexivity|]).
  - split; [by apply window_bit_clear|]. rewrite bool_decide_false by auto. by apply window_ctl_clear.
  - split; [by apply window_bit_set|]. rewrite bool_decide_true by done. apply window_ctl_set.
Qed.

(** C7: interrupt injection at the end of every exit.  With nothing pending nothing
    changes; an undefined interruptibility state is an error.  A guest that cannot
    take an interrupt keeps everything pending and gets interrupt-window exiting.
    Otherwise the pending interrupt with the lowest vector, and only that one, is
    handed to the processor with its vector, its type and the valid bit, and
    interrupt-window exiting is on exactly when more are pending.  No other bit of
    the controls and no other field changes. *)
Theorem inject_pending_correct c :
  (forall x, writable CpuBasedVmExecControl x) -> (forall x, writable VmEntryIntrInfoField x) ->
  is_u 32 (vmcs_peek (c_vmcs c) CpuBasedVmExecControl) ->
  is_u 32 (vmcs_peek (c_vmcs c) GuestInterruptibilityInfo) ->
  int_map_wf (c_pending c) -> Forall (fun e => is_u 8 e.1) (c_pending c) ->
  let '(c', r) := inject_pending c in
  let ctl := vmcs_peek (c_vmcs c) CpuBasedVmExecControl in
  let ctl' := vmcs_peek (c_vmcs c') CpuBasedVmExecControl in
  let blocking := vmcs_peek (c_vmcs c) GuestInterruptibilityInfo in
  match c_pending c with
  | [] => c' = c /\ r = Ok tt
  | (vector, kind) :: rest =>
      if bool_decide (32 <= blocking) then c' = c /\ exists m, r = Err (InvalidValue m)
      else if (blocking =? 0) && Z.testbit (vmcs_peek (c_vmcs c) GuestRflags) 9 then
        r = Ok tt /\ c_pending c' = rest /\ Forall (fun e => vector < e.1) rest /\
        vmcs_peek (c_vmcs c') VmEntryIntrInfoField = 0x80000000 + vector + 2 ^ 8 * injected_code kind /\
        window_ctl (bool_decide (rest <> [])) ctl ctl' /\
        forall f, full_code f <> full_code CpuBasedVmExecControl ->
          full_code f <> full_code VmEntryIntrInfoField -> vmcs_peek (c_vmcs c') f = vmcs_peek (c_vmcs c) f
      else
        r = Ok tt /\ c_pending c' = c_pending c /\ window_ctl true ctl ctl' /\
        forall f, full_code f <> full_code CpuBasedVmExecControl ->
          vmcs_peek (c_vmcs c') f = vmcs_peek (c_vmcs c) f
  end.
Proof.
  intros Hw1 Hw2 Hctl Hblk Hwf Hu8. unfold inject_pending. rewrite st_bind_eq.
  change (on_pending get c) with (set_pending (c_pending c) c, Ok (c_pending c)). cbv beta iota.
  assert (set_pending (c_pending c) c = c) as -> by (by destruct c).
  destruct (c_pending c) as [|[vector kind] rest] eqn:Hp; [done|].
  apply int_map_cons in Hwf as [_ Hlow]. apply Forall_cons in Hu8 as [Hv8 _]. cbn [fst] in Hv8.
  set (ctl := vmcs_peek (c_vmcs c) CpuBasedVmExecControl) in *.
  rewrite st_bind_eq, read_field_eq. cbv beta iota. rewrite st_bind_eq. unfold lift.
  rewrite interruptibility_bits by done. set (blk := vmcs_peek (c_vmcs c) GuestInterruptibilityInfo) in *.
  destruct (bool_decide_reflect (blk < 32)) as [Hb|Hb].
  2:{ rewrite bool_decide_true by lia. cbn [ok_or]. split; [done|by eexists]. }
  rewrite bool_decide_false by lia. cbn [ok_or].
  rewrite st_bind_eq, read_field_eq. cbv beta iota. rewrite st_bind_eq, read_field_eq. cbv beta iota zeta.
  fold ctl. rewrite if_flag.
  destruct (blk =? 0), (Z.testbit (vmcs_peek (c_vmcs c) GuestRflags) 9); cbn [negb orb andb].
  2-4: rewrite write_field_ok by apply Hw1; cbn [c_vmcs set_vmcs c_pending];
    (split; [done|]); (split; [done|]); rewrite peek_store_same; change (field_width CpuBasedVmExecControl) with 32;
    rewrite wrap_small by (by apply window_bit_set);
    (split; [apply window_ctl_set|]); intros f Hf; by apply peek_store_other.
  rewrite st_bind_eq, write_field_ok by apply Hw1. cbv beta iota.
  set (c1 := set_vmcs _ c). rewrite st_bind_eq.
  replace (on_pending _ c1) with (set_pending rest c1, Ok (Some (vector, kind))) by (unfold on_pending, c1; cbn; by rewrite Hp).
  cbv beta iota. rewrite st_bind_eq, write_field_ok by apply Hw2. cbv beta iota.
  rewrite intr_info_word by done. set (c2 := set_vmcs _ (set_pending rest c1)).
  rewrite st_bind_eq. change (on_pending get c2) with (c2, Ok rest). cbv beta iota.
  destruct (finish_window rest ctl c2 Hw1 Hctl) as (x & -> & Hx & Hwin).
  split; [done|]. split; [done|]. split; [exact Hlow|]. cbn [c_vmcs set_vmcs].
  assert (full_code VmEntryIntrInfoField <> full_code CpuBasedVmExecControl) as Hne by (vm_compute; discriminate).
  split.
  { rewrite peek_store_other by exact Hne. unfold c2. cbn [c_vmcs set_vmcs]. rewrite peek_store_same.
    change (field_width VmEntryIntrInfoField) with 32. apply wrap_small. unfold is_u in *.
    assert (0 <= injected_code kind <= 7) by (destruct kind; simpl; lia). lia. }
  split.
  { rewrite peek_store_same. change (field_width CpuBasedVmExecControl) with 32. by rewrite wrap_small. }
  intros f Hf1 Hf2. rewrite peek_store_other by done. unfold c2, c1. cbn [c_vmcs set_vmcs set_pending].
  by rewrite !peek_store_other by done.
Qed.
End injection.

Lemma inject_pending_correct_witness :
  let c := mkCore (D := unit) (H := unit)
    (<[field_code GuestRflags := 0x202]> (<[field_code CpuBasedVmExecControl := 0x80]> ∅)) None
    [(0x30, ExternalInterrupt); (0x31, ExternalInterrupt)] cpu_zero wheel_new (mkHw 0 []) (mkSet [] []) empty_space tt [] [] [] in
  let '(c', r) := @inject_pending unit unit lenient_cpu c in
  r = Ok tt /\ c_pending c' = [(0x31, ExternalInterrupt)] /\
  vmcs_peek (c_vmcs c') VmEntryIntrInfoField = 0x80000030.
Proof.
  cbv zeta.
  pose proof (@inject_pending_correct unit unit lenient_cpu (mkCore (D := unit) (H := unit)
    (<[field_code GuestRflags := 0x202]> (<[field_code CpuBasedVmExecControl := 0x80]> ∅)) None
    [(0x30, ExternalInterrupt); (0x31, ExternalInterrupt)] cpu_zero wheel_new (mkHw 0 []) (mkSet [] []) empty_space tt [] [] [])) as Hw.
  destruct (inject_pending _) as [c' r]. cbn [c_pending] in Hw.
  destruct Hw as (Hr & Hp & _ & Hi & _).
  - intros x. split; reflexivity.
  - intros x. split; reflexivity.
  - vm_compute. split; congruence.
  - vm_compute. split; congruence.
  - apply int_map_cons. split; [apply int_map_cons; split; [apply (bt_wf_nil Z.compare)|constructor]|].
    repeat constructor.
  - repeat constructor; unfold is_u; simpl; lia.
  - split; [exact Hr|]. split; [exact Hp|exact Hi].
Defined.

(** ** Starting an application processor *)

Section start.
Context {D H : Type} `{VmxCpu}.
Context (this_core : Z).
Implicit Types c : Core D H.

(** What other cores do between polls: they only append to this core's queue. *)
Definition only_appends (env : nat -> VirtualMachineSet D -> VirtualMachineSet D) : Prop :=
  forall n s q, queue s this_core = Some q -> exists l, queue (env n s) this_core = Some (q ++ l).

Definition is_start (m : VirtualMachineMsg) : bool := match m with StartVcpu _ => true | _ => false end.

Definition set_set (s : VirtualMachineSet D) (c : Core D H) : Core D H :=
  mkCore (c_vmcs c) (c_lapic c) (c_pending c) (c_cpu c) (c_wheel c) (c_hw c) s (c_host c) (c_ioapics c)
     (c_flushed c) (c_console c) (c_responses c).

Definition start_fields (addr : Z) : list (VmcsField * Z) :=
  [(GuestCsSelector, Z.shiftr addr 4); (GuestCsBase, 0); (GuestRip, 0)].

(** One poll of a non-empty queue. *)
Lemma wait_step c m q :
  queue (c_set c) this_core = Some (m :: q) ->
  (forall addr, m = StartVcpu addr -> accepted (start_fields addr)) ->
  exists s', queue s' this_core = Some q /\
    wait_for_init_step this_core c =
    match m with
    | StartVcpu addr => (set_set s' (set_vmcs (store_all (start_fields addr) (c_vmcs c)) c), Ok true)
    | _ => (set_set s' c, Ok false)
    end.
Proof.
  intros Hq Ha. destruct (recv_spec this_core (c_set c) (m :: q) Hq) as [_ (s' & Hr & _ & Hq')].
  exists s'. split; [rewrite Hq'; by rewrite decide_True|].
  unfold wait_for_init_step. rewrite st_bind_eq. unfold on_set at 1. rewrite Hr. cbn [head].
  destruct m as [serial|id|addr|k v]; try done.
  specialize (Ha addr eq_refl). unfold accepted, start_fields in Ha. rewrite !Forall_cons in Ha. destruct Ha as (H1 & H2 & H3 & _).
  cbv beta iota. do 3 (rewrite st_bind_eq, write_field_ok by done; cbv beta iota). by destruct c.
Qed.

(** C22: a waiting core starts.  Once its queue holds a start-up message, whatever
    comes before it and whatever other cores append while it polls, the loop ends
    after one poll per message up to it: earlier messages are dropped, later ones
    stay queued, the code segment selector is the start address over 16 and the
    code segment base and instruction pointer are zero. *)
Theorem wait_for_init_starts env fuel q addr rest c :
  only_appends env -> Forall (fun m => is_start m = false) q -> (length q < fuel)%nat ->
  queue (c_set c) this_core = Some (q ++ StartVcpu addr :: rest) -> accepted (start_fields addr) ->
  exists c' l, wait_for_init this_core fuel env c = (c', Ok tt) /\
    queue (c_set c') this_core = Some (rest ++ l) /\
    vmcs_peek (c_vmcs c') GuestCsSelector = wrap 16 (Z.shiftr addr 4) /\
    vmcs_peek (c_vmcs c') GuestCsBase = 0 /\ vmcs_peek (c_vmcs c') GuestRip = 0.
Proof.
  intros Henv Hq. revert fuel rest c. induction Hq as [|m q Hm Hq IH]; intros fuel rest c Hf Hc Ha.
  - destruct fuel as [|fuel]; [simpl in Hf; lia|]. cbn [wait_for_init]. rewrite st_bind_eq. cbn [on_set].
    destruct (Henv fuel _ _ Hc) as [l Hl]. set (c1 := mkCore _ _ _ _ _ _ (env fuel (c_set c)) _ _ _ _ _).
    destruct (wait_step c1 (StartVcpu addr) (rest ++ l)) as (s' & Hs & Hw); [done|by intros a [= <-]|].
    rewrite st_bind_eq, Hw. cbv beta iota. eexists _, l. split; [reflexivity|]. cbn [c_set set_set c_vmcs set_vmcs].
    split; [done|].
    rewrite (store_all_at _ 0 GuestCsSelector (Z.shiftr addr 4)), (store_all_at _ 1 GuestCsBase 0),
      (store_all_at _ 2 GuestRip 0) by reflexivity. done.
  - destruct fuel as [|fuel]; [simpl in Hf; lia|]. cbn [wait_for_init]. rewrite st_bind_eq. cbn [on_set].
    destruct (Henv fuel _ _ Hc) as [l Hl]. set (c1 := mkCore _ _ _ _ _ _ (env fuel (c_set c)) _ _ _ _ _).
    destruct (wait_step c1 m (q ++ StartVcpu addr :: rest ++ l)) as (s' & Hs & Hw).
    { cbn [c1 c_set]. rewrite Hl. cbn [app]. by rewrite <- app_assoc. }
    { intros a ->. done. }
    rewrite st_bind_eq, Hw.
    destruct (IH fuel (rest ++ l) (set_set s' c1)) as (c' & l' & Hr & Hq' & Hrest);
      [simpl in Hf; lia|exact Hs|exact Ha|].
    exists c', (l ++ l'). rewrite app_assoc. split; [|by split]. destruct m; done.
Qed.
End start.

Lemma wait_for_init_starts_witness :
  let c := mkCore (D := unit) (H := unit) ∅ None [] cpu_zero wheel_new (mkHw 0 [])
    (mkSet [mkContext 1 0 [GrantConsole 0x3f8; StartVcpu 0x9a000]] []) empty_space tt [] [] [] in
  exists c', @wait_for_init unit unit lenient_cpu 1 2 (fun _ s => s) c = (c', Ok tt) /\
    vmcs_peek (c_vmcs c') GuestCsSelector = 0x9a00.
Proof.
  cbv zeta.
  destruct (@wait_for_init_starts unit unit lenient_cpu 1 (fun _ s => s) 2 [GrantConsole 0x3f8] 0x9a000 []
    (mkCore (D := unit) (H := unit) ∅ None [] cpu_zero wheel_new (mkHw 0 [])
      (mkSet [mkContext 1 0 [GrantConsole 0x3f8; StartVcpu 0x9a000]] []) empty_space tt [] [] []))
    as (c' & l & H & _ & Hs & _).
  - intros n s q Hq. exists []. rewrite app_nil_r. exact Hq.
  - repeat constructor.
  - simpl. lia.
  - reflexivity.
  - unfold accepted, start_fields. repeat (constructor; [split; reflexivity|]). constructor.
  - exists c'. split; [exact H|exact Hs].
Defined.

(** ** Messages from other cores *)

Section ipc.
Context {D H : Type} `{TimeSource}.
Context (apic : LocalApic) (this_core : Z) (this_vm : nat).
Implicit Types c : Core D H.

(** The console a message hands over. *)
Definition granted (old : option Z) (m : VirtualMachineMsg) : option Z :=
  match m with GrantConsole p => Some p | _ => old end.

(** Cancellations of another core's timers are passed on to that core. *)
Definition cancels_on (core : Z) (m : VirtualMachineMsg) : bool :=
  match m with CancelTimer id => core_id id =? core | _ => false end.

(** What the messages [q] have done, all of them, with [own] left in this core's queue: the interrupts are pending, the
    last console is owned, the timers are gone, and cancellations that name another
    core's timer are in that core's queue. *)
Record ipc_effect (own : option (list VirtualMachineMsg)) (q : list VirtualMachineMsg) (c c' : Core D H) : Prop := {
  ipc_wheel : wheel_inv this_core (c_wheel c');
  ipc_serial : forall v, vms (c_set c) !! this_vm = Some v ->
    exists v', vms (c_set c') !! this_vm = Some v' /\ vm_serial v' = foldl granted (vm_serial v) q;
  ipc_pending : forall vec, is_Some (bt_get Z.compare vec (c_pending c')) <->
    is_Some (bt_get Z.compare vec (c_pending c)) \/ exists k, GuestInterrupt k vec ∈ q;
  ipc_cancelled : forall id, CancelTimer id ∈ q -> get_timer (c_wheel c') id = None;
  ipc_kept : forall id, CancelTimer id ∉ q -> get_timer (c_wheel c') id = get_timer (c_wheel c) id;
  ipc_own_queue : queue (c_set c') this_core = own;
  ipc_queues : forall core, core <> this_core ->
    queue (c_set c') core = (fun l => l ++ filter (fun m => cancels_on core m = true) q) <$> queue (c_set c) core
}.

(** Why a cancellation fails: it names a timer of a core that has no queue or a full one. *)
Definition cancel_refused (id : TimerId) (c : Core D H) (e : Error) : Prop :=
  core_id id <> this_core /\
  match queue (c_set c) (core_id id) with
  | None => e = NotFound
  | Some q => (MAX_PENDING_MSG <= length q)%nat /\ e = InvalidValue (Msg "RX queue is full for core_id = {}" [core_id id])
  end.

Lemma ipc_effect_nil c : wheel_inv this_core (c_wheel c) -> ipc_effect (queue (c_set c) this_core) [] c c.
Proof.
  intros Hw. split; [done|eauto| | |done|done|].
  - intros vec. split; [by left|]. intros [?|[k Hk]]; [done|]. by apply not_elem_of_nil in Hk.
  - intros id Hi. by apply not_elem_of_nil in Hi.
  - intros core _. destruct (queue (c_set c) core) as [l|]; [|done]. cbn. by rewrite app_nil_r.
Qed.

Lemma foreign_timer c id : wheel_inv this_core (c_wheel c) -> core_id id <> this_core -> get_timer (c_wheel c) id = None.
Proof.
  intros (Hwf & _ & Hids) Hi. destruct (get_timer (c_wheel c) id) as [t|] eqn:E; [|done].
  apply wheel_get_iff in E; [|done]. apply Hids in E. tauto.
Qed.

Lemma ipc_effect_app own own' q q' c c1 c2 :
  ipc_effect own q c c1 -> ipc_effect own' q' c1 c2 -> ipc_effect own' (q ++ q') c c2.
Proof.
  intros [Hw1 Hs1 Hp1 Hc1 Hk1 Ho1 Hq1] [Hw2 Hs2 Hp2 Hc2 Hk2 Ho2 Hq2]. split; [done| | | | |done|].
  - intros v Hv. destruct (Hs1 v Hv) as (v1 & Hv1 & E1). destruct (Hs2 v1 Hv1) as (v2 & Hv2 & E2).
    exists v2. split; [done|]. by rewrite E2, E1, foldl_app.
  - intros vec. rewrite Hp2, Hp1. setoid_rewrite elem_of_app. clear. naive_solver.
  - intros id Hin. destruct (decide (get_timer (c_wheel c2) id = None)) as [|Hn]; [done|].
    assert (CancelTimer id ∉ q') as Hi by (intros Hi; by apply Hn, Hc2).
    rewrite Hk2 in * by done. apply Hc1. apply elem_of_app in Hin as [?|?]; done.
  - intros id Hi. rewrite Hk2, Hk1; [done| |]; intros Hin; apply Hi, elem_of_app; auto.
  - intros core Hne. rewrite (Hq2 core Hne), (Hq1 core Hne). destruct (queue (c_set c) core); [|done].
    cbn. by rewrite filter_app, app_assoc.
Qed.

Lemma ipc_effect_plain m c c' :
  wheel_inv this_core (c_wheel c) -> (forall id, m <> CancelTimer id) -> c_wheel c' = c_wheel c ->
  contexts (c_set c') = contexts (c_set c) ->
  (forall v, vms (c_set c) !! this_vm = Some v ->
    exists v', vms (c_set c') !! this_vm = Some v' /\ vm_serial v' = granted (vm_serial v) m) ->
  (forall vec, is_Some (bt_get Z.compare vec (c_pending c')) <->
    is_Some (bt_get Z.compare vec (c_pending c)) \/ exists k, GuestInterrupt k vec = m) ->
  ipc_effect (queue (c_set c) this_core) [m] c c'.
Proof.
  intros Hw Hm Hwh Hctx Hs Hp.
  assert (forall core, queue (c_set c') core = queue (c_set c) core) as Hq
    by (intros core; unfold queue, context_by_core_id; by rewrite Hctx).
  split; [by rewrite Hwh|done| | |by rewrite Hwh|done|].
  - intros vec. rewrite Hp. by setoid_rewrite list_elem_of_singleton.
  - intros id Hi. apply list_elem_of_singleton in Hi. by destruct (Hm id).
  - intros core Hne. rewrite Hq. destruct (queue (c_set c) core); [|done]. cbn.
    destruct m as [|id| |]; try (by rewrite app_nil_r). by destruct (Hm id).
Qed.

Lemma handle_cancel_spec id c :
  wheel_inv this_core (c_wheel c) ->
  let '(c', r) := handle_msg apic this_core this_vm (CancelTimer id) c in
  (r = Ok tt /\ ipc_effect (queue (c_set c) this_core) [CancelTimer id] c c') \/
  (exists e, r = Err e /\ cancel_refused id c e /\ ipc_effect (queue (c_set c) this_core) [] c c').
Proof.
  intros Hw. cbn [handle_msg]. unfold on_platform.
  pose proof (cancel_timer_spec apic this_core id (mkPlatform (c_hw c) (c_wheel c) (contexts (c_set c))) Hw) as Hs.
  destruct (cancel_timer _ _ _ _) as [p' r]. destruct Hs as (Hw' & _ & He). unfold cancel_effect in He. cbn [pl_wheel pl_contexts] in He.
  set (c' := mkCore _ _ _ _ _ _ _ _ _ _ _ _).
  assert (forall core, queue (c_set c) core = pl_queue (mkPlatform (c_hw c) (c_wheel c) (contexts (c_set c))) core) as Hq by done.
  assert (forall core, queue (c_set c') core = pl_queue p' core) as Hq' by done.
  destruct (Z.eqb_spec (core_id id) this_core) as [Hl|Hl].
  - left. destruct He as (-> & Hctx & Ht). split; [done|].
    assert (forall core, queue (c_set c') core = queue (c_set c) core) as Hsame
      by (intros core; rewrite Hq, Hq'; unfold pl_queue, queue, context_by_core_id; by rewrite Hctx).
    split; [done|eauto| | | |done|].
    + intros vec. split; [by left|]. intros [?|[k Hk]]; [done|]. by apply list_elem_of_singleton in Hk.
    + intros id' [= ->]%list_elem_of_singleton. cbn [c' c_wheel]. rewrite Ht. by rewrite decide_True.
    + intros id' Hi. cbn [c' c_wheel]. rewrite Ht. rewrite decide_False; [done|]. intros ->. apply Hi. by left.
    + intros core Hne. rewrite Hsame. destruct (queue (c_set c) core); [|done]. cbn.
      rewrite (proj2 (Z.eqb_neq _ _)) by congruence. cbn. by rewrite app_nil_r.
  - destruct He as [Hwh He]. rewrite <- Hq in He. unfold cancel_refused.
    assert (forall core, p' = mkPlatform (c_hw c) (c_wheel c) (contexts (c_set c)) -> queue (c_set c') core = queue (c_set c) core)
      as Hsame by (intros core Hp; by rewrite Hq', Hq, Hp).
    assert (p' = mkPlatform (c_hw c) (c_wheel c) (contexts (c_set c)) -> ipc_effect (queue (c_set c) this_core) [] c c') as Hnil.
    { intros Hp. destruct (ipc_effect_nil c Hw) as [? ? ? ? ? Ho Hqs].
      subst c'. rewrite Hp in *. split; try done. }
    destruct (queue (c_set c) (core_id id)) as [q|] eqn:E; [case_bool_decide as Hlen|].
    + left. destruct He as (-> & Hs). split; [done|]. split; [done|eauto| | | | |].
      * intros vec. split; [by left|]. intros [?|[k Hk]]; [done|]. by apply list_elem_of_singleton in Hk.
      * intros id' [= ->]%list_elem_of_singleton. cbn [c' c_wheel]. rewrite Hwh. by apply foreign_timer.
      * intros id' _. cbn [c' c_wheel]. by rewrite Hwh.
      * rewrite Hq', Hs, decide_False by congruence. done.
      * intros core Hne. rewrite Hq', Hs. case_decide as Hd.
        -- subst core. rewrite E. cbn. by rewrite Z.eqb_refl.
        -- rewrite <- Hq. destruct (queue (c_set c) core); [|done]. cbn.
           rewrite (proj2 (Z.eqb_neq _ _)) by congruence. cbn. by rewrite app_nil_r.
    + right. destruct He as (-> & Hp). eexists. split_and!; [done|done|lia|done|by apply Hnil].
    + right. destruct He as (-> & Hp). eexists. split_and!; [done|done|done|by apply Hnil].
Qed.

Lemma handle_msg_spec m c v :
  wheel_inv this_core (c_wheel c) -> vms (c_set c) !! this_vm = Some v ->
  let '(c', r) := handle_msg apic this_core this_vm m c in
  (r = Ok tt /\ ipc_effect (queue (c_set c) this_core) [m] c c') \/
  (exists id e, m = CancelTimer id /\ r = Err e /\ cancel_refused id c e /\ ipc_effect (queue (c_set c) this_core) [] c c').
Proof.
  intros Hw Hv. destruct m as [serial|id|addr|k vec].
  - cbn [handle_msg]. rewrite st_bind_eq. unfold this_machine. rewrite Hv. cbn [expect].
    left. split; [reflexivity|]. apply ipc_effect_plain; try done; [|intros vec; cbn; naive_solver].
    intros v0 Hv0. assert (v0 = v) as -> by congruence.
    exists (set_vm_serial (Some serial) v). split; [|done]. apply list_lookup_insert_eq. by eapply lookup_lt_Some.
  - pose proof (handle_cancel_spec id c Hw) as Hs. destruct (handle_msg _ _ _ _ _) as [c' r].
    destruct Hs as [?|(e & ? & ? & ?)]; [by left|right; by exists id, e].
  - left. split; [reflexivity|]. apply ipc_effect_plain; try done; [eauto|intros vec; naive_solver].
  - left. split; [reflexivity|]. apply ipc_effect_plain; try done; [by eauto|].
    intros vec'. cbn [c_pending]. rewrite int_get_insert. case_decide as Hd.
    + subst. split; [intros _; right; by exists k|]. intros _. by eexists.
    + split; [by left|]. intros [?|[k' [= -> ->]]]; [done|by destruct Hd].
Qed.

(** The queue is handled in order up to its end or to the first cancellation that is refused. *)
Lemma handle_msgs_spec q : forall c v,
  wheel_inv this_core (c_wheel c) -> vms (c_set c) !! this_vm = Some v ->
  let '(c', r) := st_iter (handle_msg apic this_core this_vm) q c in
  exists before rest, q = before ++ rest /\ ipc_effect (queue (c_set c) this_core) before c c' /\
    match rest with
    | [] => r = Ok tt
    | m :: _ => exists id e, m = CancelTimer id /\ r = Err e /\ cancel_refused id c' e
    end.
Proof.
  induction q as [|m q IH]; intros c v Hw Hv; cbn [st_iter].
  { exists [], []. split_and!; [done|by apply ipc_effect_nil|done]. }
  rewrite st_bind_eq. pose proof (handle_msg_spec m c v Hw Hv) as Hm.
  destruct (handle_msg _ _ _ _ _) as [c1 r1]. destruct Hm as [[-> He]|(id & e & -> & -> & Hr & He)].
  - destruct (ipc_serial _ _ _ _ He v Hv) as (v1 & Hv1 & _).
    specialize (IH c1 v1 (ipc_wheel _ _ _ _ He) Hv1). destruct (st_iter _ q c1) as [c' r].
    destruct IH as (before & rest & -> & Hb & Hr). exists (m :: before), rest.
    split; [done|]. split; [|done]. change (m :: before) with ([m] ++ before).
    rewrite (ipc_own_queue _ _ _ _ He) in Hb. by eapply ipc_effect_app.
  - exists [], (CancelTimer id :: q). split; [done|]. split; [done|]. exists id, e. split_and!; try done.
    destruct Hr as [Hne Hr]. split; [done|]. rewrite (ipc_queues _ _ _ _ He) by done.
    destruct (queue (c_set c) (core_id id)); cbn; [by rewrite app_nil_r|done].
Qed.

(** C23: messages between cores arrive.  Handling the inter-processor interrupt empties
    the core's queue and handles its messages in order: the vectors pending afterwards
    are those pending before and those of the interrupts handled, the machine owns the
    last console granted, the cancelled timers are gone from the wheel and no other, and
    a cancellation for another core's timer is passed on to that core.  Every message is
    handled and the result is success, unless a cancellation names the timer of another core that has
    no queue or a full one: handling stops there with that error, and the messages behind it,
    no longer in the queue, are lost.  So a queue that cancels only timers of this core is
    handled completely.  [wheel_inv] is the invariant of a core's timer wheel: its timers are this core's. *)
Theorem handle_ipc_delivers q c v :
  queue (c_set c) this_core = Some q -> vms (c_set c) !! this_vm = Some v -> wheel_inv this_core (c_wheel c) ->
  let '(c', r) := handle_ipc apic this_core this_vm c in
  exists before rest, q = before ++ rest /\ ipc_effect (Some []) before c c' /\
    match rest with
    | [] => r = Ok tt
    | m :: _ => exists id e, m = CancelTimer id /\ r = Err e /\ cancel_refused id c' e
    end.
Proof.
  intros Hq Hv Hw. destruct (recv_spec this_core (c_set c) q Hq) as [(s' & Hr & Hvs & Hq') _].
  unfold handle_ipc. rewrite st_bind_eq. unfold on_set. rewrite Hr. cbv beta iota.
  set (c1 := mkCore _ _ _ _ _ _ s' _ _ _ _ _).
  assert (queue (c_set c1) this_core = Some []) as H1 by (cbn; by rewrite Hq', decide_True).
  pose proof (handle_msgs_spec q c1 v Hw) as Hs. destruct (st_iter _ q c1) as [c' r].
  destruct Hs as (before & rest & -> & He & Hres); [cbn; by rewrite Hvs|].
  exists before, rest. split; [done|]. split; [|done]. rewrite H1 in He. destruct He as [? Hser ? ? ? ? Hqs].
  cbn in Hser. rewrite Hvs in Hser. split; try done. intros core Hne. rewrite (Hqs core Hne).
  cbn. by rewrite Hq', decide_False.
Qed.
End ipc.

Lemma handle_ipc_delivers_witness :
  let v := mkVm (D := unit) 0 [1; 2] 32 None [] device_map_default 4096 0 [] 0 in
  let c := mkCore (D := unit) (H := unit) ∅ None [(0x40, ExternalInterrupt)] cpu_zero wheel_new (mkHw 0 [])
    (mkSet [mkContext 1 0 []; mkContext 2 0 [CancelTimer (mkTimerId 5 1); GuestInterrupt ExternalInterrupt 0x34;
      CancelTimer (mkTimerId 6 9); GrantConsole 0x3f8]] [v]) empty_space tt [] [] [] in
  let '(c', r) := @handle_ipc unit unit second_clock (mkLocalApic 0 1) 2 0 c in
  exists before rest, [CancelTimer (mkTimerId 5 1); GuestInterrupt ExternalInterrupt 0x34;
      CancelTimer (mkTimerId 6 9); GrantConsole 0x3f8] = before ++ rest /\
    ipc_effect 2 0 (Some []) before c c' /\
    match rest with
    | [] => r = Ok tt
    | m :: _ => exists id e, m = CancelTimer id /\ r = Err e /\ cancel_refused 2 id c' e
    end.
Proof.
  cbv zeta. apply (@handle_ipc_delivers unit unit second_clock (mkLocalApic 0 1) 2 0
    [CancelTimer (mkTimerId 5 1); GuestInterrupt ExternalInterrupt 0x34; CancelTimer (mkTimerId 6 9); GrantConsole 0x3f8]
    _ (mkVm (D := unit) 0 [1; 2] 32 None [] device_map_default 4096 0 [] 0)).
  - reflexivity.
  - reflexivity.
  - split; [apply bt_wf_nil|]. split; [simpl; lia|]. intros id t Hin. by apply not_elem_of_nil in Hin.
Defined.
