(* ===== verification/Acpi.v ===== *)
(** * ACPI tables ([mythril/src/acpi/{mod,rsdt,rsdp,hpet,seabios}.rs])

    Reading the host's tables from physical memory, and building the guest's as
    firmware configuration files with the commands that link them. *)

From S2P Require Import Prelude Error BTreeMap Memory VirtDev FwCfg.

(** ** [mod.rs] *)

Definition sum_bytes (bytes : list Z) : Z := foldr Z.add 0 bytes.

Definition verify_checksum (bytes : list Z) (cksum_idx : nat) : res unit :=
  let result := sum_bytes bytes in
  if Z.land result 0xff =? 0 then Ok tt
  else
    b ← expect (bytes !! cksum_idx) "index out of bounds";
    Err (InvalidValue (Msg "Checksum mismatch checksum={:x} {:x} != 0x00" [b; Z.land result 0xff])).

Definition calc_checksum (bytes : list Z) : Z :=
  let sum := foldl (fun acc val => u8 (acc + val)) 0 bytes in
  u8 (u16 (0x100 - sum)).

Definition GAS_SIZE : nat := 12.

Inductive AddressSpaceID :=
| SystemMemory | SystemIO | PCIConfiguration | EmbeddedController | SMBus | SystemCMOS | PciBarTarget
| IPMI | GPIO | GenericSerialBus | PlatformCommunicationsChannel | FunctionalFixedHardware.

#[export] Instance AddressSpaceID_eq_dec : EqDecision AddressSpaceID.
Proof. solve_decision. Defined.

#[export] Instance AddressSpaceID_enum : NumEnum AddressSpaceID := {
  ne_all := [SystemMemory; SystemIO; PCIConfiguration; EmbeddedController; SMBus; SystemCMOS; PciBarTarget;
    IPMI; GPIO; GenericSerialBus; PlatformCommunicationsChannel; FunctionalFixedHardware];
  ne_code a := match a with
    | SystemMemory => 0 | SystemIO => 1 | PCIConfiguration => 2 | EmbeddedController => 3 | SMBus => 4
    | SystemCMOS => 5 | PciBarTarget => 6 | IPMI => 7 | GPIO => 8 | GenericSerialBus => 9
    | PlatformCommunicationsChannel => 0x0a | FunctionalFixedHardware => 0x7f end }.

Inductive AccessSize := Undefined | Byte | Word | DWord | QWord.

#[export] Instance AccessSize_enum : NumEnum AccessSize := {
  ne_all := [Undefined; Byte; Word; DWord; QWord];
  ne_code a := match a with Undefined => 0 | Byte => 1 | Word => 2 | DWord => 3 | QWord => 4 end }.

Record GenericAddressStructure := mkGas {
  address_space : AddressSpaceID;
  bit_width : Z;
  bit_offset : Z;
  access_size : AccessSize;
  gas_address : Z
}.

(** Bytes [a] to [b] of a slice as a little-endian integer, and one byte. *)
Definition read_le (bytes : list Z) (a b : nat) : res Z :=
  expect (of_le <$> slice bytes a b) "range end index out of range for slice".
Definition read_u8 (bytes : list Z) (i : nat) : res Z := expect (bytes !! i) "index out of bounds".

(** [long_mode] is what CPUID says of 64-bit mode, if it says anything. *)
Definition gas_new (long_mode : option bool) (bytes : list Z) : res GenericAddressStructure :=
  if negb (bool_decide (length bytes = GAS_SIZE)) then
    Err (InvalidValue (Msg "Invalid number of bytes for GAS: {} != {}" [Z.of_nat (length bytes); 12]))
  else
    b0 ← read_u8 bytes 0;
    space ← try_from_primitive_err b0;
    width ← read_u8 bytes 1;
    offset ← read_u8 bytes 2;
    b3 ← read_u8 bytes 3;
    size ← try_from_primitive_err b3;
    address ← read_le bytes 4 12;
    _ ← (if bool_decide (space = SystemMemory) || bool_decide (space = SystemIO) then
           is_64bit ← ok_or long_mode NotSupported;
           if negb is_64bit && has_bits (Z.shiftr address 32) 0xffffffff then
             Err (InvalidValue (Msg "Invalid address for a 32-bit system: {:x}" [address]))
           else Ok tt
         else Ok tt);
    Ok (mkGas space width offset size address).

(** ** [rsdt.rs] *)

Definition SDT_HEADER : nat := 36.

Record SDT := mkSdt { signature : list Z; sdt_length : Z; revision : Z; table : list Z }.

(** Physical memory as the bytes at addresses; [raw_parts] is a slice of it. *)
Definition raw_parts (mem : Z -> Z) (addr : Z) (len : nat) : list Z :=
  map (fun i => mem (addr + Z.of_nat i)) (seq 0 len).

Definition sdt_new (mem : Z -> Z) (addr : Z) : res SDT :=
  let header := raw_parts mem addr SDT_HEADER in
  let signature := take 4 header in
  length ← read_le header 4 8;
  let bytes := raw_parts mem addr (Z.to_nat length) in
  _ ← verify_checksum bytes 9;
  rev ← read_u8 header 8;
  table ← expect (slice bytes SDT_HEADER (List.length bytes)) "range start index out of range for slice";
  Ok (mkSdt signature length rev table).

Inductive RSDT := RsdtTable (s : SDT) | XsdtTable (s : SDT).

(** The addresses an iterator goes through: entries of [w] bytes, the remainder of
    the table is ignored. *)
Fixpoint entry_addresses (n w : nat) (table : list Z) : list Z :=
  match n with
  | O => []
  | S n => of_le (take w table) :: entry_addresses n w (drop w table)
  end.

Definition rsdt_entries (mem : Z -> Z) (r : RSDT) : list (res SDT) :=
  let '(w, t) := match r with RsdtTable s => (4%nat, table s) | XsdtTable s => (8%nat, table s) end in
  map (sdt_new mem) (entry_addresses (length t / w) w t).

Definition num_entries (r : RSDT) : Z :=
  match r with
  | XsdtTable s => u64 (sdt_length s - 36) / 8
  | RsdtTable s => u64 (sdt_length s - 36) / 4
  end.

Fixpoint find_sdt (sig : list Z) (l : list (res SDT)) : res SDT :=
  match l with
  | [] => Err NotFound
  | Ok s :: r => if bool_decide (signature s = sig) then Ok s else find_sdt sig r
  | Err _ :: r => find_sdt sig r
  | Panic w :: _ => Panic w
  end.

Definition find_entry (mem : Z -> Z) (r : RSDT) (sig : list Z) : res SDT := find_sdt sig (rsdt_entries mem r).

(** [ArrayVec::try_extend_from_slice] on a vector of capacity [cap] *)
Definition try_extend (cap : nat) (buffer bytes : list Z) : res (list Z) :=
  if bool_decide (length buffer + length bytes <= cap)%nat then Ok (buffer ++ bytes) else Err capacity_error.

Definition write_sdt_header (signature : list Z) (revision creator_revision : Z) (sdt_len : nat)
    (buffer : list Z) : res (list Z) :=
  if bool_decide (length buffer < sdt_len)%nat then
    Err (InvalidValue (Msg "Buffer length should be at least `{}` but was `{}`"
      [Z.of_nat sdt_len; Z.of_nat (length buffer)]))
  else if bool_decide (length buffer < SDT_HEADER)%nat then Panic "range end index out of range for slice"
  else
    let buffer := blit buffer 0 signature in
    let buffer := blit buffer 4 (le_bytes 4 (Z.of_nat sdt_len)) in
    let buffer := <[8%nat := revision]> buffer in
    let buffer := blit buffer 32 (le_bytes 4 creator_revision) in
    Ok (<[9%nat := calc_checksum buffer]> buffer).

(** [trait SDTBuilder]: the body is encoded after a zeroed header, then the header
    is written over it. *)
Class SDTBuilder (B : Type) := {
  SIGNATURE : list Z;
  sdt_revision : B -> Z;
  sdt_creator_revision : B -> Z;
  encode_table : B -> nat -> list Z -> res (list Z)
}.

Definition encode_sdt {B} `{SDTBuilder B} (b : B) (cap : nat) : res (list Z) :=
  buffer ← try_extend cap [] (replicate SDT_HEADER 0);
  buffer ← encode_table b cap buffer;
  write_sdt_header SIGNATURE (sdt_revision b) (sdt_creator_revision b) (length buffer) buffer.

(** ** [rsdp.rs] *)

Definition RSDP_SIGNATURE : list Z := [0x52; 0x53; 0x44; 0x20; 0x50; 0x54; 0x52; 0x20].
Definition RSDP_V1_SIZE : nat := 20.
Definition RSDP_V2_SIZE : nat := 36.

Inductive RSDP :=
| RsdpV1 (oemid : list Z) (rsdt_addr : Z)
| RsdpV2 (oemid : list Z) (xsdt_addr : Z).

Definition verify_rsdp_checksum (bytes : list Z) : res unit :=
  v1 ← expect (slice bytes 0 20) "range end index out of range for slice";
  _ ← verify_checksum v1 8;
  r ← read_u8 bytes 15;
  if r =? 0 then Ok tt
  else if r =? 2 then
    v2 ← expect (slice bytes 0 36) "range end index out of range for slice";
    verify_checksum v2 32
  else Err (InvalidValue (Msg "Invalid RSDP revision: {}" [r])).

Definition rsdp_from_bytes (bytes : list Z) : res RSDP :=
  oemid ← expect (slice bytes 9 15) "range end index out of range for slice";
  rsdt_addr ← read_le bytes 16 20;
  r ← read_u8 bytes 15;
  rsdp ← (if r =? 0 then Ok (RsdpV1 oemid rsdt_addr)
          else if r =? 2 then x ← read_le bytes 24 32; Ok (RsdpV2 oemid x)
          else Err (InvalidValue (Msg "Invalid RSDP revision: {}" [r])));
  _ ← verify_rsdp_checksum bytes;
  Ok rsdp.

(** [search_range]: candidates at even offsets below [range.len() - 20]. *)
Fixpoint search_from (fuel i : nat) (range : list Z) : res (list Z) :=
  match fuel with
  | O => Err NotFound
  | S fuel =>
      if bool_decide (i < length range - RSDP_V1_SIZE)%nat then
        let candidate := take RSDP_V1_SIZE (drop i range) in
        if bool_decide (take 8 candidate = RSDP_SIGNATURE) then
          r ← read_u8 candidate 15;
          if r =? 0 then Ok candidate
          else if (r =? 2) && bool_decide (i + RSDP_V2_SIZE < length range)%nat
          then Ok (take RSDP_V2_SIZE (drop i range))
          else Err (InvalidValue (Msg "Invalid RSDP revision: {} at {:p}" [r; Z.of_nat i]))
        else search_from fuel (i + 2) range
      else Err NotFound
  end.

Definition search_range (range : list Z) : res (list Z) := search_from (length range) 0 range.

Definition MAIN_BIOS_DATA_START : Z := 0x000e0000.
Definition MAIN_BIOS_DATA_SIZE : nat := Z.to_nat 0x20000.
Definition EXTENDED_BIOS_DATA_START : Z := 0x000040e.
Definition EXTENDED_BIOS_DATA_SIZE : nat := Z.to_nat 0x800.

Definition rsdp_find (mem : Z -> Z) : res RSDP :=
  bytes ← match search_range (raw_parts mem MAIN_BIOS_DATA_START MAIN_BIOS_DATA_SIZE) with
          | Err _ => search_range (raw_parts mem EXTENDED_BIOS_DATA_START EXTENDED_BIOS_DATA_SIZE)
          | r => r
          end;
  rsdp_from_bytes bytes.

Definition rsdp_rsdt (mem : Z -> Z) (r : RSDP) : res RSDT :=
  match r with
  | RsdpV1 _ a => s ← sdt_new mem a; Ok (RsdtTable s)
  | RsdpV2 _ a => s ← sdt_new mem a; Ok (XsdtTable s)
  end.

(** The 36 bytes [RSDPBuilder::build] adds as a file. *)
Definition rsdp_buffer : list Z :=
  let buffer := blit (replicate 36 0) 0 RSDP_SIGNATURE in
  let buffer := <[15%nat := 2]> buffer in
  let buffer := blit buffer 20 (le_bytes 4 36) in
  let buffer := blit buffer 24 (le_bytes 8 0) in
  let buffer := blit buffer 16 (le_bytes 4 0) in
  let buffer := <[8%nat := calc_checksum (take 20 buffer)]> buffer in
  <[32%nat := calc_checksum (take 36 buffer)]> buffer.

(** ** [seabios.rs] *)

Definition ROMFILE_FILENAME_SIZE : nat := 56.

Inductive AllocZone := High | Fseg.
Definition zone_code (z : AllocZone) : Z := match z with High => 1 | Fseg => 2 end.

Inductive TableLoaderCommand :=
| Allocate (file : list Z) (align : Z) (zone : AllocZone)
| AddPointer (dst src : list Z) (offset size : Z)
| AddChecksum (file : list Z) (offset start length : Z)
| WritePointer (dst src : list Z) (dst_offset src_offset size : Z).

Definition fits (file : list Z) : bool := bool_decide (length file < ROMFILE_FILENAME_SIZE)%nat.

Definition command_bytes (c : TableLoaderCommand) : res (list Z) :=
  let bytes := replicate 128 0 in
  match c with
  | Allocate file align zone =>
      if negb (fits file) then Err NotSupported
      else
        let bytes := blit bytes 0 (le_bytes 4 1) in
        let bytes := blit bytes 4 file in
        let bytes := blit bytes 60 (le_bytes 4 align) in
        Ok (<[64%nat := zone_code zone]> bytes)
  | AddPointer dst src offset size =>
      if negb (fits src) || negb (fits dst) then Err NotSupported
      else
        let bytes := blit bytes 0 (le_bytes 4 2) in
        let bytes := blit bytes 4 dst in
        let bytes := blit bytes 60 src in
        let bytes := blit bytes 116 (le_bytes 4 offset) in
        Ok (<[120%nat := size]> bytes)
  | AddChecksum file offset start length =>
      if negb (fits file) then Err NotSupported
      else
        let bytes := blit bytes 0 (le_bytes 4 3) in
        let bytes := blit bytes 4 file in
        let bytes := blit bytes 60 (le_bytes 4 offset) in
        let bytes := blit bytes 64 (le_bytes 4 start) in
        Ok (blit bytes 68 (le_bytes 4 length))
  | WritePointer dst src dst_offset src_offset size =>
      if negb (fits src) || negb (fits dst) then Err NotSupported
      else
        let bytes := blit bytes 0 (le_bytes 4 4) in
        let bytes := blit bytes 4 dst in
        let bytes := blit bytes 60 src in
        let bytes := blit bytes 116 (le_bytes 4 dst_offset) in
        let bytes := blit bytes 120 (le_bytes 4 src_offset) in
        Ok (<[124%nat := size]> bytes)
  end.

Definition add_command (cap : nat) (c : TableLoaderCommand) (buffer : list Z) : res (list Z) :=
  bytes ← command_bytes c; try_extend cap buffer bytes.

(** ** [hpet.rs] *)

Inductive PageProtection := NoProtection | Protected4KB | Protected64KB.

#[export] Instance PageProtection_enum : NumEnum PageProtection := {
  ne_all := [NoProtection; Protected4KB; Protected64KB];
  ne_code p := match p with NoProtection => 0 | Protected4KB => 1 | Protected64KB => 2 end }.

Record HPET := mkHpet {
  hardware_rev_id : Z;
  comparator_count : Z;
  counter_cap : bool;
  legacy_replacement : bool;
  pci_vendor_id : Z;
  hpet_address : GenericAddressStructure;
  hpet_number : Z;
  minimum_tick : Z;
  page_protection : PageProtection
}.

Definition hpet_new (long_mode : option bool) (sdt : SDT) : res HPET :=
  id ← read_le (table sdt) 0 4;
  base ← expect (slice (table sdt) 4 16) "range end index out of range for slice";
  address ← gas_new long_mode base;
  number ← read_u8 (table sdt) 16;
  tick ← read_le (table sdt) 17 19;
  p ← read_u8 (table sdt) 19;
  protection ← try_from_primitive_err (Z.land p 0xf);
  Ok (mkHpet (u8 (Z.land id 0xff)) (u8 (Z.land (Z.shiftr id 8) 0x1f))
    (negb (u8 (Z.land (Z.shiftr id 13) 1) =? 0)) (negb (u8 (Z.land (Z.shiftr id 15) 1) =? 0))
    (u16 (Z.land (Z.shiftr id 16) 0xffff)) address number tick protection).

(** ** Checksums *)

Lemma foldl_checksum bytes : forall acc, foldl (fun acc val => u8 (acc + val)) (u8 acc) bytes = u8 (acc + sum_bytes bytes).
Proof.
  induction bytes as [|b bytes IH]; intros acc; cbn [foldl sum_bytes foldr]; [by rewrite Z.add_0_r|].
  replace (u8 (u8 acc + b)) with (u8 (acc + b)); [rewrite IH; f_equal; fold (sum_bytes bytes); lia|].
  unfold u8, wrap. by rewrite Zplus_mod_idemp_l.
Qed.

Lemma calc_checksum_sum bytes : calc_checksum bytes = (- sum_bytes bytes) mod 256.
Proof.
  unfold calc_checksum. change 0 with (u8 0) at 1. rewrite foldl_checksum, Z.add_0_l. clear. words.
Qed.

Lemma sum_bytes_app l l' : sum_bytes (l ++ l') = sum_bytes l + sum_bytes l'.
Proof. unfold sum_bytes. induction l; simpl; lia. Qed.

Lemma verify_checksum_Ok bytes i : sum_bytes bytes mod 256 = 0 -> verify_checksum bytes i = Ok tt.
Proof. intros H. unfold verify_checksum. rewrite (land_mask 0xff 8) by (reflexivity || lia). change (2 ^ 8) with 256. by rewrite H. Qed.

(** ** Encoding and reading a table *)

Definition sdt_image (sig : list Z) (len : nat) (rev creator : Z) (body : list Z) (ck : Z) : list Z :=
  sig ++ le_bytes 4 (Z.of_nat len) ++ [rev; ck] ++ replicate 22 0 ++ le_bytes 4 creator ++ body.

Definition sdt_bytes (sig : list Z) (rev creator : Z) (body : list Z) (ck : Z) : list Z :=
  sdt_image sig (SDT_HEADER + length body) rev creator body ck.

(** The checksum covers the whole buffer, also past the table's length. *)
Lemma write_sdt_header_image sig len rev creator body :
  length sig = 4%nat -> (len <= SDT_HEADER + length body)%nat ->
  write_sdt_header sig rev creator len (replicate SDT_HEADER 0 ++ body) =
  Ok (sdt_image sig len rev creator body (calc_checksum (sdt_image sig len rev creator body 0))).
Proof.
  intros Hs Hl. unfold write_sdt_header. rewrite length_app, length_replicate.
  rewrite !bool_decide_false by lia. do 4 (destruct sig as [|? sig]; [done|]). destruct sig; [|done].
  unfold sdt_image. set (n := Z.of_nat len). reflexivity.
Qed.

Lemma write_sdt_header_spec sig rev creator body :
  length sig = 4%nat ->
  write_sdt_header sig rev creator (SDT_HEADER + length body) (replicate SDT_HEADER 0 ++ body) =
  Ok (sdt_bytes sig rev creator body (calc_checksum (sdt_bytes sig rev creator body 0))).
Proof. intros Hs. by apply write_sdt_header_image. Qed.

Lemma sdt_image_sum sig len rev creator body ck :
  sum_bytes (sdt_image sig len rev creator body ck) = sum_bytes (sdt_image sig len rev creator [] 0) + ck + sum_bytes body.
Proof. unfold sdt_image. rewrite !sum_bytes_app. cbn [sum_bytes foldr]. lia. Qed.

Lemma sdt_bytes_sum sig rev creator body ck :
  sum_bytes (sdt_bytes sig rev creator body ck) = sum_bytes (sdt_bytes sig rev creator body 0) + ck.
Proof. unfold sdt_bytes. rewrite (sdt_image_sum _ _ _ _ body ck), (sdt_image_sum _ _ _ _ body 0). lia. Qed.

Lemma raw_parts_take mem addr n m : (n <= m)%nat -> raw_parts mem addr n = take n (raw_parts mem addr m).
Proof.
  intros Hn. unfold raw_parts. rewrite <- fmap_take. f_equal.
  rewrite take_seq. f_equal. lia.
Qed.

Lemma read_le_le_bytes pre n x post a :
  length pre = a -> is_u (8 * Z.of_nat n) x ->
  read_le (pre ++ le_bytes n x ++ post) a (a + n) = Ok x.
Proof.
  intros Ha Hx. unfold read_le, slice. rewrite bool_decide_true.
  2:{ rewrite !length_app, length_le_bytes. lia. }
  cbn [fmap option_fmap option_map expect]. rewrite drop_app_length' by done.
  replace (a + n - a)%nat with (length (le_bytes n x)) by (rewrite length_le_bytes; lia).
  rewrite take_app_length, of_le_bytes, wrap_small by done. done.
Qed.

(** Reading an image whose bytes sum to zero. *)
Lemma sdt_new_bytes sig rev creator body ck mem addr :
  length sig = 4%nat -> Z.of_nat (SDT_HEADER + length body) < 2 ^ 32 ->
  sum_bytes (sdt_bytes sig rev creator body ck) mod 256 = 0 ->
  raw_parts mem addr (SDT_HEADER + length body) = sdt_bytes sig rev creator body ck ->
  sdt_new mem addr = Ok (mkSdt sig (Z.of_nat (SDT_HEADER + length body)) rev body).
Proof.
  intros Hsig Hlen Hsum Hmem. set (buffer := sdt_bytes sig rev creator body ck) in *.
  assert (length buffer = (SDT_HEADER + length body)%nat) as Hl.
  { unfold buffer, sdt_bytes, sdt_image. rewrite !length_app, !length_le_bytes, length_replicate, Hsig. simpl. lia. }
  unfold sdt_new. rewrite (raw_parts_take mem addr SDT_HEADER (SDT_HEADER + length body)) by lia.
  rewrite Hmem. set (n := Z.of_nat (SDT_HEADER + length body)) in *.
  assert (take 36 buffer = sig ++ le_bytes 4 n ++ [rev; ck] ++ replicate 22 0 ++ le_bytes 4 creator) as Ht.
  { unfold buffer, sdt_bytes, sdt_image. fold n. rewrite !app_assoc. rewrite take_app_length'; [done|].
    rewrite !length_app, !length_le_bytes, length_replicate, Hsig. done. }
  change (take SDT_HEADER buffer) with (take 36 buffer). rewrite Ht.
  pose proof (fun post => read_le_le_bytes sig 4 n post 4 Hsig) as Hr. change (4 + 4)%nat with 8%nat in Hr.
  rewrite Hr by (unfold is_u; lia). cbn [mbind res_bind]. replace (Z.to_nat n) with (SDT_HEADER + length body)%nat by lia. rewrite Hmem.
  rewrite verify_checksum_Ok by done.
  cbn [mbind res_bind]. rewrite (take_app_length' sig _ 4) by done.
  unfold read_u8. rewrite lookup_app_r, lookup_app_r by (rewrite ?length_le_bytes; lia).
  rewrite length_le_bytes, Hsig. cbn [lookup list_lookup expect app mbind res_bind Nat.sub].
  unfold slice. rewrite bool_decide_true by lia. cbn [expect mbind res_bind].
  assert (drop 36 buffer = body) as Hd.
  { unfold buffer, sdt_bytes, sdt_image. fold n. rewrite !app_assoc. rewrite drop_app_length'; [done|].
    rewrite !length_app, !length_le_bytes, length_replicate, Hsig. done. }
  change (drop SDT_HEADER buffer) with (drop 36 buffer). rewrite Hd, Hl, take_ge by (unfold SDT_HEADER; lia). done.
Qed.

Lemma sdt_encode_spec {B} `{SDTBuilder B} (b : B) cap body mem addr :
  length (SIGNATURE (B := B)) = 4%nat ->
  (SDT_HEADER + length body <= cap)%nat -> Z.of_nat (SDT_HEADER + length body) < 2 ^ 32 ->
  encode_table b cap (replicate SDT_HEADER 0) = Ok (replicate SDT_HEADER 0 ++ body) ->
  exists buffer, encode_sdt b cap = Ok buffer /\
    (raw_parts mem addr (length buffer) = buffer ->
     sdt_new mem addr = Ok (mkSdt SIGNATURE (Z.of_nat (length buffer)) (sdt_revision b) body)).
Proof.
  intros Hsig Hcap Hlen Henc. unfold encode_sdt, try_extend.
  rewrite bool_decide_true by (rewrite length_replicate; simpl; lia). cbn [app mbind res_bind].
  rewrite Henc. cbn [mbind res_bind]. rewrite length_app, length_replicate.
  rewrite write_sdt_header_spec by done. eexists. split; [reflexivity|].
  assert (forall ck, length (sdt_bytes SIGNATURE (sdt_revision b) (sdt_creator_revision b) body ck) = (SDT_HEADER + length body)%nat) as Hl.
  { intros ck. unfold sdt_bytes, sdt_image. rewrite !length_app, !length_le_bytes, length_replicate, Hsig. simpl. lia. }
  rewrite Hl. intros Hmem. eapply sdt_new_bytes; [done..| |exact Hmem]. rewrite sdt_bytes_sum, calc_checksum_sum.
  generalize (sum_bytes (sdt_bytes SIGNATURE (sdt_revision b) (sdt_creator_revision b) body 0)) as z. clear. intros z.
  Z.to_euclidean_division_equations. lia.
Qed.

(** A table the hypervisor encodes is a table it can read.  For any builder whose
    body fits the buffer, encoding succeeds, and reading the encoded bytes from
    memory passes the checksum and yields the builder's signature, its revision,
    the whole length and exactly its body. *)
Lemma sdt_encode_read {B} `{SDTBuilder B} (b : B) cap body mem addr :
  length (SIGNATURE (B := B)) = 4%nat ->
  (SDT_HEADER + length body <= cap)%nat -> Z.of_nat (SDT_HEADER + length body) < 2 ^ 32 ->
  encode_table b cap (replicate SDT_HEADER 0) = Ok (replicate SDT_HEADER 0 ++ body) ->
  exists buffer, encode_sdt b cap = Ok buffer /\
    (raw_parts mem addr (length buffer) = buffer ->
     sdt_new mem addr = Ok (mkSdt SIGNATURE (Z.of_nat (length buffer)) (sdt_revision b) body)).
Proof. apply sdt_encode_spec. Qed.

(** A table with a fixed body, for the witness. *)
Definition plain_table : SDTBuilder (list Z) := {|
  SIGNATURE := [0x54; 0x45; 0x53; 0x54];
  sdt_revision := fun _ => 1;
  sdt_creator_revision := fun _ => 0;
  encode_table := fun body cap buffer => try_extend cap buffer body |}.

Lemma sdt_encode_read_witness :
  let buffer := match @encode_sdt (list Z) plain_table [7; 8; 9] 64 with Ok b => b | _ => [] end in
  let mem := fun a => default 0 (buffer !! Z.to_nat (a - 0x1000)) in
  sdt_new mem 0x1000 = Ok (mkSdt [0x54; 0x45; 0x53; 0x54] 39 1 [7; 8; 9]).
Proof.
  cbv zeta.
  destruct (@sdt_encode_read (list Z) plain_table [7; 8; 9] 64 [7; 8; 9]
    (fun a => default 0 (match @encode_sdt (list Z) plain_table [7; 8; 9] 64 with Ok b => b | _ => [] end !! Z.to_nat (a - 0x1000)))
    0x1000) as (buffer & He & Hr).
  - reflexivity.
  - simpl. lia.
  - reflexivity.
  - reflexivity.
  - rewrite He in Hr |- *. rewrite Hr.
    + injection He as <-. reflexivity.
    + injection He as <-. vm_compute. reflexivity.
Defined.
