(* ===== verification/Rsdt.v ===== *)
(** * Iterating the root table ([mythril/src/acpi/rsdt.rs])

    [RSDTIterator] walks a table by an offset.  [rsdt_entries] of [Acpi] lists the entries
    at once; this file has the iterator itself and shows the two agree, so what is found
    by iterating is what [find_entry] finds. *)

From S2P Require Import Prelude Error Acpi.

Inductive RSDTIterator :=
| IterRsdt (table : list Z) (offset : nat)
| IterXsdt (table : list Z) (offset : nat).

Definition iter_new_rsdt (table : list Z) : RSDTIterator := IterRsdt table 0.
Definition iter_new_xsdt (table : list Z) : RSDTIterator := IterXsdt table 0.

(** [RSDT::new_rsdt], [RSDT::new_xsdt] *)
Definition new_rsdt (mem : Z -> Z) (rsdt_addr : Z) : res RSDT :=
  sdt ← sdt_new mem rsdt_addr;
  Ok (RsdtTable sdt).
Definition new_xsdt (mem : Z -> Z) (xsdt_addr : Z) : res RSDT :=
  sdt ← sdt_new mem xsdt_addr;
  Ok (XsdtTable sdt).

(** [RSDT::entries] *)
Definition entries (r : RSDT) : RSDTIterator :=
  match r with
  | RsdtTable sdt => iter_new_rsdt (table sdt)
  | XsdtTable sdt => iter_new_xsdt (table sdt)
  end.

(** [Iterator::next]: [None] at the end, otherwise the entry and the iterator behind it. *)
Definition rsdt_next (mem : Z -> Z) (i : RSDTIterator) : option (res SDT * RSDTIterator) :=
  match i with
  | IterRsdt table offset =>
      let next := (offset + 4)%nat in
      if bool_decide (next <= length table)%nat then
        let ptr := of_le (take 4 (drop offset table)) in
        Some (sdt_new mem ptr, IterRsdt table next)
      else None
  | IterXsdt table offset =>
      let next := (offset + 8)%nat in
      if bool_decide (next <= length table)%nat then
        let ptr := of_le (take 8 (drop offset table)) in
        Some (sdt_new mem ptr, IterXsdt table next)
      else None
  end.

(** [SDT::len] and [SDT::data] *)
Definition sdt_len (s : SDT) : Z := u64 (sdt_length s - 36).
Definition sdt_data (s : SDT) : list Z := table s.

(** [Iterator::find] as [find_entry] uses it, with fuel: the first readable table with the
    signature. *)
Fixpoint iter_find (fuel : nat) (mem : Z -> Z) (sig : list Z) (i : RSDTIterator) : option (res SDT) :=
  match fuel with
  | O => None
  | S fuel =>
      match rsdt_next mem i with
      | None => Some (Err NotFound)
      | Some (Ok entry, i') =>
          if bool_decide (signature entry = sig) then Some (Ok entry) else iter_find fuel mem sig i'
      | Some (Err _, i') => iter_find fuel mem sig i'
      | Some (Panic w, _) => Some (Panic w)
      end
  end.

(** ** The iterator goes through [rsdt_entries] *)

(** What is left of a table, and the width of its entries. *)
Definition iter_rest (i : RSDTIterator) : nat * list Z :=
  match i with IterRsdt t o => (4%nat, drop o t) | IterXsdt t o => (8%nat, drop o t) end.
Definition iter_entries (mem : Z -> Z) (i : RSDTIterator) : list (res SDT) :=
  let '(w, t) := iter_rest i in map (sdt_new mem) (entry_addresses (length t / w) w t).

Lemma length_entry_addresses n w t : length (entry_addresses n w t) = n.
Proof. revert t. induction n; intros t; cbn; auto. Qed.

Lemma entries_start mem r : iter_entries mem (entries r) = rsdt_entries mem r.
Proof. by destruct r. Qed.

Lemma iter_entries_unfold mem (w : nat) (t : list Z) : (0 < w)%nat ->
  map (sdt_new mem) (entry_addresses (length t / w) w t) =
  if bool_decide (w <= length t)%nat
  then sdt_new mem (of_le (take w t)) :: map (sdt_new mem) (entry_addresses (length (drop w t) / w) w (drop w t))
  else [].
Proof.
  intros Hw. case_bool_decide as Hl.
  - rewrite length_drop. replace (length t / w)%nat with (S ((length t - w) / w)); [done|].
    replace (length t) with (length t - w + 1 * w)%nat at 2 by lia. rewrite Nat.div_add by lia. lia.
  - by rewrite Nat.div_small by lia.
Qed.

Lemma next_entries mem i :
  iter_entries mem i = match rsdt_next mem i with Some (x, i') => x :: iter_entries mem i' | None => [] end.
Proof.
  destruct i as [t o|t o]; unfold iter_entries; cbn [iter_rest rsdt_next]; rewrite iter_entries_unfold by lia;
    rewrite length_drop; repeat case_bool_decide; try lia; try done; cbn [iter_rest]; by rewrite drop_drop.
Qed.

(** Iterating finds what [find_entry] finds, within one round more than there are entries. *)
Lemma iter_find_correct mem r sig fuel : (length (rsdt_entries mem r) < fuel)%nat ->
  iter_find fuel mem sig (entries r) = Some (find_entry mem r sig).
Proof.
  unfold find_entry. rewrite <- (entries_start mem r). generalize (entries r) as i.
  induction fuel as [|fuel IH]; intros i Hf; [lia|]. cbn [iter_find]. rewrite next_entries in Hf |- *.
  destruct (rsdt_next mem i) as [[[s|e|w] i']|]; cbn [find_sdt length] in *; [|apply IH; lia|done..].
  case_bool_decide; [done|]. apply IH. lia.
Qed.

(** The table is what its length field leaves behind the header. *)
Lemma sdt_new_length mem addr s : (forall a, is_byte (mem a)) -> sdt_new mem addr = Ok s ->
  36 <= sdt_length s < 2 ^ 32 /\ Z.of_nat (length (table s)) = sdt_len s.
Proof.
  intros Hmem Hs. unfold sdt_new in Hs. apply bind_Ok in Hs as (len & Hlen & Hs).
  assert (is_u 32 len) as Hu.
  { assert (Forall is_byte (raw_parts mem addr SDT_HEADER)) as Hb
      by (apply Forall_fmap, Forall_true; intros i; apply Hmem).
    unfold read_le in Hlen. destruct (slice _ 4 8) as [x|] eqn:Hx; [|done]. injection Hlen as <-.
    pose proof (slice_length _ _ _ _ Hx) as Hl. apply slice_Some in Hx as [_ ->].
    apply (Forall_drop _ 4), (Forall_take _ (8 - 4)), of_le_is_u in Hb. rewrite Hl in Hb. exact Hb. }
  apply bind_Ok in Hs as (? & _ & Hs). apply bind_Ok in Hs as (rev & _ & Hs). apply bind_Ok in Hs as (t & Ht & Hs).
  injection Hs as <-. unfold sdt_len. cbn [sdt_length table].
  destruct (slice _ _ _) as [y|] eqn:Hy; [|done]. injection Ht as ->.
  pose proof (slice_length _ _ _ _ Hy) as Hl. apply slice_Some in Hy as [Hr _].
  assert (length (raw_parts mem addr (Z.to_nat len)) = Z.to_nat len) as Hlb by (unfold raw_parts; by rewrite length_map, length_seq).
  rewrite Hlb in Hl, Hr. unfold SDT_HEADER in *. unfold is_u in Hu. unfold u64. rewrite wrap_small; [lia|unfold is_u; lia].
Qed.

(** A root table read from memory has as many entries as [num_entries] says, so iterating
    it ends after that many rounds. *)
Lemma rsdt_num_entries mem addr r : (forall a, is_byte (mem a)) ->
  new_rsdt mem addr = Ok r \/ new_xsdt mem addr = Ok r ->
  Z.of_nat (length (rsdt_entries mem r)) = num_entries r /\
  forall sig, iter_find (S (Z.to_nat (num_entries r))) mem sig (entries r) = Some (find_entry mem r sig).
Proof.
  intros Hmem Hr. assert (Z.of_nat (length (rsdt_entries mem r)) = num_entries r) as Hn.
  { destruct Hr as [Hr|Hr]; apply bind_Ok in Hr as (s & Hs & [= <-]); destruct (sdt_new_length mem addr s Hmem Hs) as [_ Hl];
      unfold rsdt_entries, num_entries, sdt_len in *; rewrite length_map, length_entry_addresses, Nat2Z.inj_div, Hl; done. }
  split; [done|]. intros sig. apply iter_find_correct. lia.
Qed.
