(* ===== verification/Madt.v ===== *)
(** * The multiple APIC description table ([mythril/src/acpi/madt.rs], and
    [init_ioapics] of [mythril/src/ioapic.rs]) *)

From Stdlib Require Import Wf_nat.
From S2P Require Import Prelude Error BTreeMap Memory VirtDev IoApic FwCfg Acpi.

Module IcsType.
Inductive t :=
| ProcessorLocalApic | IoApic | InterruptSourceOverride | NmiSource | LocalApicNmi
| LocalApicAddressOverride | PlatformInterruptSource | ProcessorLocalX2Apic | LocalX2ApicNmi.

#[global] Instance ics_type_eq_dec : EqDecision t.
Proof. solve_decision. Defined.

#[global] Instance ics_type_enum : NumEnum t := {
  ne_all := [ProcessorLocalApic; IoApic; InterruptSourceOverride; NmiSource; LocalApicNmi;
    LocalApicAddressOverride; PlatformInterruptSource; ProcessorLocalX2Apic; LocalX2ApicNmi];
  ne_code x := match x with
    | ProcessorLocalApic => 0 | IoApic => 1 | InterruptSourceOverride => 2 | NmiSource => 3
    | LocalApicNmi => 4 | LocalApicAddressOverride => 5 | PlatformInterruptSource => 8
    | ProcessorLocalX2Apic => 9 | LocalX2ApicNmi => 0x0a end }.

#[global] Instance ics_type_enum_ok : NumEnumOk t.
Proof. num_enum_ok. Qed.

Definition MAX_LEN : nat := 16.

Definition expected_len (x : t) : nat :=
  match x with
  | ProcessorLocalApic => 8 | IoApic => 12 | InterruptSourceOverride => 10 | NmiSource => 8
  | LocalApicNmi => 6 | LocalApicAddressOverride => 12 | PlatformInterruptSource => 16
  | ProcessorLocalX2Apic => 16 | LocalX2ApicNmi => 12
  end.

Definition check_len (x : t) (length : nat) : res unit :=
  if bool_decide (length = expected_len x - 2)%nat then Ok tt
  else Err (InvalidValue (Msg "Invalid length={} for type=0x{:x}" [ne_code x; Z.of_nat length])).
End IcsType.

Definition MultipleApicFlags_all : list Z := [1].
Definition LocalApicFlags_all : list Z := [1; Z.shiftl 1 1].
Definition MpsIntiFlags_all : list Z := [0x0001; 0x0003; 0x0004; 0x000c].

Module Ics.
Inductive t :=
| LocalApic (apic_uid apic_id flags : Z)
| IoApic (ioapic_id ioapic_addr gsi_base : Z)
| InterruptSourceOverride (source gsi flags : Z)
| NmiSource (flags gsi : Z)
| LocalApicNmi (acpi_proc_uid flags local_apic_lint : Z)
| LocalX2Apic (x2apic_id flags apic_proc_uid : Z)
| Invalid.

Definition ics_type (x : t) : res IcsType.t :=
  match x with
  | LocalApic _ _ _ => Ok IcsType.ProcessorLocalApic
  | IoApic _ _ _ => Ok IcsType.IoApic
  | InterruptSourceOverride _ _ _ => Ok IcsType.InterruptSourceOverride
  | NmiSource _ _ => Ok IcsType.NmiSource
  | LocalApicNmi _ _ _ => Ok IcsType.LocalApicNmi
  | LocalX2Apic _ _ _ => Ok IcsType.ProcessorLocalX2Apic
  | Invalid => Panic "Invalid ICS type"
  end.

Definition parse (ty : IcsType.t) (bytes : list Z) : res t :=
  _ ← IcsType.check_len ty (length bytes);
  match ty with
  | IcsType.ProcessorLocalApic =>
      uid ← read_u8 bytes 0; id ← read_u8 bytes 1; f ← read_le bytes 2 6;
      Ok (LocalApic uid id (from_bits_truncate LocalApicFlags_all f))
  | IcsType.IoApic =>
      addr ← read_le bytes 2 6; id ← read_u8 bytes 0; gsi ← read_le bytes 6 10;
      Ok (IoApic id addr gsi)
  | IcsType.InterruptSourceOverride =>
      source ← read_u8 bytes 1; gsi ← read_le bytes 2 6; f ← read_le bytes 6 8;
      Ok (InterruptSourceOverride source gsi (from_bits_truncate MpsIntiFlags_all f))
  | IcsType.NmiSource =>
      f ← read_le bytes 0 2; gsi ← read_le bytes 2 6;
      Ok (NmiSource (from_bits_truncate MpsIntiFlags_all f) gsi)
  | IcsType.LocalApicNmi =>
      uid ← read_u8 bytes 0; f ← read_le bytes 1 3; lint ← read_u8 bytes 3;
      Ok (LocalApicNmi uid (from_bits_truncate MpsIntiFlags_all f) lint)
  | IcsType.ProcessorLocalX2Apic =>
      id ← read_le bytes 2 6; f ← read_le bytes 6 10; uid ← read_le bytes 10 14;
      Ok (LocalX2Apic id (from_bits_truncate LocalApicFlags_all f) uid)
  | ty => Err (NotImplemented (Msg "type=0x{:x} length={} not implemented" [ne_code ty; Z.of_nat (length bytes)]))
  end.

Definition encode (cap : nat) (x : t) (buffer : list Z) : res (list Z) :=
  ty ← ics_type x;
  let tmp := replicate IcsType.MAX_LEN 0 in
  let tmp := <[1%nat := Z.of_nat (IcsType.expected_len ty)]> tmp in
  let tmp := <[0%nat := ne_code ty]> tmp in
  tmp ←
    match x with
    | LocalApic uid id flags =>
        Ok (blit (<[3%nat := id]> (<[2%nat := uid]> tmp)) 4 (le_bytes 4 flags))
    | IoApic id addr gsi =>
        let tmp := <[2%nat := id]> tmp in
        if addr <? 2 ^ 32 then Ok (blit (blit tmp 4 (le_bytes 4 addr)) 8 (le_bytes 4 gsi))
        else Err (InvalidValue (str "out of range integral type conversion attempted"))
    | _ => Err (NotImplemented (str "The ICS Type {:?} has not been implemented"))
    end;
  try_extend cap buffer (take (IcsType.expected_len ty) tmp).
End Ics.

(** ** The iterator *)

(** [IcsIterator::next]: the item and the bytes left; an error leaves the bytes. *)
Definition ics_next (bytes : list Z) : option (res Ics.t * list Z) :=
  match bytes with
  | b0 :: b1 :: _ =>
      match try_from_primitive b0 with
      | None => Some (Err (InvalidValue (Msg "Invalid ICS type: {}" [b0])), bytes)
      | Some ty =>
          let len := Z.to_nat b1 in
          if bool_decide (length bytes < len)%nat then
            Some (Err (InvalidValue (Msg "Payload for type=0x{:x} and len={} to big for buffer len={}"
              [ne_code ty; b1; Z.of_nat (length bytes)])), bytes)
          else if bool_decide (len < 3)%nat then
            Some (Err (InvalidValue (Msg "length `{}` provided is too small" [b1])), bytes)
          else Some (Ics.parse ty (take (len - 2) (drop 2 bytes)), drop len bytes)
      end
  | _ => None
  end.

(** The first [fuel] items. *)
Fixpoint ics_items (fuel : nat) (bytes : list Z) : list (res Ics.t) :=
  match fuel with
  | O => []
  | S fuel =>
      match ics_next bytes with
      | None => []
      | Some (r, rest) => r :: ics_items fuel rest
      end
  end.

(** What collecting the iterator gives; [None] when it has not ended after [fuel] items,
    as for a table at which it never ends. *)
Fixpoint ics_collect (fuel : nat) (bytes : list Z) : option (list (res Ics.t)) :=
  match fuel with
  | O => None
  | S fuel =>
      match ics_next bytes with
      | None => Some []
      | Some (r, rest) => cons r <$> ics_collect fuel rest
      end
  end.

(** Iterating over [bytes] yields the items [l] and ends. *)
Inductive ics_list : list Z -> list (res Ics.t) -> Prop :=
| ics_list_nil bytes : ics_next bytes = None -> ics_list bytes []
| ics_list_cons bytes r rest l : ics_next bytes = Some (r, rest) -> ics_list rest l -> ics_list bytes (r :: l).

Record MADT := mkMadt { ica : Z; madt_flags : Z; ics : list Z }.

Definition madt_new (s : SDT) : res MADT :=
  ica ← read_le (table s) 0 4;
  flags ← read_le (table s) 4 8;
  ics ← expect (slice (table s) 8 (length (table s))) "range start index out of range for slice";
  Ok (mkMadt ica (from_bits_truncate MultipleApicFlags_all flags) ics).

(** ** The builder *)

Record MADTBuilder := mkMadtBuilder {
  builder_ica : option Z;
  builder_flags : option Z;
  structures : list Ics.t
}.

Definition madt_builder_new : MADTBuilder := mkMadtBuilder None None [].
Definition set_ica (x : Z) (b : MADTBuilder) : MADTBuilder := mkMadtBuilder (Some x) (builder_flags b) (structures b).
Definition set_flags (x : Z) (b : MADTBuilder) : MADTBuilder := mkMadtBuilder (builder_ica b) (Some x) (structures b).

(** [add_ics], on an array of capacity [cap] *)
Definition add_ics (cap : nat) (x : Ics.t) (b : MADTBuilder) : res MADTBuilder :=
  if bool_decide (length (structures b) < cap)%nat
  then Ok (mkMadtBuilder (builder_ica b) (builder_flags b) (structures b ++ [x]))
  else Err capacity_error.

Fixpoint encode_all (cap : nat) (l : list Ics.t) (buffer : list Z) : res (list Z) :=
  match l with
  | [] => Ok buffer
  | x :: r => buffer ← Ics.encode cap x buffer; encode_all cap r buffer
  end.

Definition madt_encode_table (b : MADTBuilder) (cap : nat) (buffer : list Z) : res (list Z) :=
  buffer ← try_extend cap buffer (le_bytes 4 (default 0 (builder_ica b)) ++ le_bytes 4 (default 0 (builder_flags b)));
  encode_all cap (structures b) buffer.

#[export] Instance madt_sdt : SDTBuilder MADTBuilder := {
  SIGNATURE := [0x41; 0x50; 0x49; 0x43];
  sdt_revision := fun _ => 5;
  sdt_creator_revision := fun _ => 0;
  encode_table := madt_encode_table }.

(** ** [init_ioapics] *)

(** [TryFrom<Ics> for IoApic] *)
Definition ioapic_try_from {H} `{IoApicHw H} (value : Ics.t) : st H IoApic :=
  match value with
  | Ics.IoApic _ addr gsi => ioapic_new addr gsi
  | _ =>
      ty ← lift (Ics.ics_type value);
      err (InvalidValue (Msg "Attempting to create an IoApic from: {:?}" [ne_code ty]))
  end.

(** I/O APICs of the wrong version are skipped with a warning. *)
Fixpoint init_ioapics {H} `{IoApicHw H} (items : list (res Ics.t)) (acc : list IoApic) : st H (list IoApic) :=
  match items with
  | [] => mret acc
  | Ok (Ics.IoApic _ _ _ as ioapic) :: r =>
      fun h =>
      match ioapic_try_from ioapic h with
      | (h, Ok a) =>
          if bool_decide (length acc < MAX_IOAPIC_COUNT)%nat then init_ioapics r (acc ++ [a]) h
          else (h, Panic "insufficient capacity")
      | (h, Err _) => init_ioapics r acc h
      | (h, Panic w) => (h, Panic w)
      end
  | Panic w :: _ => panic w
  | _ :: r => init_ioapics r acc
  end.

(** The I/O APICs among the structures that have the right version. *)
Definition ioapics_of {H} `{IoApicHw H} (h : H) (items : list (res Ics.t)) : list IoApic :=
  omap (fun r => match r with
    | Ok (Ics.IoApic _ addr gsi) =>
        if Z.land (iowin_read h addr IOAPICVER) 0xff =? IOAPIC_VERSION then Some (mkIoApic addr gsi) else None
    | _ => None
    end) items.

Lemma init_ioapics_Ok {H} `{IoApicHw H} items : forall acc (h h' : H) l,
  init_ioapics items acc h = (h', Ok l) -> h' = h /\ l = acc ++ ioapics_of h items.
Proof.
  induction items as [|r items IH]; intros acc h h' l; cbn [init_ioapics].
  { intros [= <- <-]. by rewrite app_nil_r. }
  unfold ioapics_of. cbn [omap list_omap]. destruct r as [x|e|w]; [|apply IH|done].
  destruct x as [| id addr gsi | | | | |]; try apply IH.
  unfold ioapic_try_from, ioapic_new, version. rewrite !st_bind_eq. unfold read_raw at 1. cbn [ioapic_addr]. unfold mret, st_ret.
  destruct (_ =? IOAPIC_VERSION); cbn [negb]; [|apply IH]. case_bool_decide; [|done].
  intros Hi. apply IH in Hi as [-> ->]. rewrite <- app_assoc. done.
Qed.

(** ** What the builder writes, the iterator reads *)

(** The structures [Ics::encode] supports, with fields of their widths. *)
Definition encodable (x : Ics.t) : Prop :=
  match x with
  | Ics.LocalApic uid id flags => is_u 8 uid /\ is_u 8 id /\ 0 <= flags < 4
  | Ics.IoApic id addr gsi => is_u 8 id /\ is_u 32 addr /\ is_u 32 gsi
  | _ => False
  end.

Definition ics_bytes (x : Ics.t) : list Z :=
  match x with
  | Ics.LocalApic uid id flags => [0; 8; uid; id] ++ le_bytes 4 flags
  | Ics.IoApic id addr gsi => [1; 12; id; 0] ++ le_bytes 4 addr ++ le_bytes 4 gsi
  | _ => []
  end.

Lemma encode_bytes cap x buffer : encodable x -> Ics.encode cap x buffer = try_extend cap buffer (ics_bytes x).
Proof.
  destruct x; cbn [encodable]; intros Hx; try contradiction.
  - reflexivity.
  - destruct Hx as (? & ? & ?). unfold Ics.encode. cbn [Ics.ics_type mbind res_bind].
    destruct (Z.ltb_spec ioapic_addr (2 ^ 32)); [reflexivity | unfold is_u in *; lia].
Qed.

Lemma local_flags_truncate f : 0 <= f < 4 -> from_bits_truncate LocalApicFlags_all f = f.
Proof. intros H. assert (f = 0 \/ f = 1 \/ f = 2 \/ f = 3) as [-> | [-> | [-> | ->]]] by lia; reflexivity. Qed.

Lemma ics_next_bytes x post : encodable x -> ics_next (ics_bytes x ++ post) = Some (Ok x, post).
Proof.
  destruct x; cbn [encodable]; intros Hx; try contradiction; destruct Hx as (H1 & H2 & H3);
    cbn [ics_bytes app ics_next le_bytes].
  - change (try_from_primitive 0) with (Some IcsType.ProcessorLocalApic). change (Z.to_nat 8) with 8%nat.
    rewrite !bool_decide_false by (cbn; lia). cbn [drop Nat.sub take]. rewrite ?take_0, ?drop_0.
    pose proof (read_le_le_bytes [apic_uid; apic_id] 4 flags [] 2 eq_refl) as Hr. cbn [le_bytes app Nat.add] in Hr.
    unfold Ics.parse. change (IcsType.check_len _ _) with (Ok tt). cbn [mbind res_bind].
    rewrite Hr by (unfold is_u; lia). cbn. by rewrite local_flags_truncate.
  - change (try_from_primitive 1) with (Some IcsType.IoApic). change (Z.to_nat 12) with 12%nat.
    rewrite !bool_decide_false by (cbn; lia). cbn [drop Nat.sub take]. rewrite ?take_0, ?drop_0.
    pose proof (read_le_le_bytes [ioapic_id; 0] 4 ioapic_addr (le_bytes 4 gsi_base) 2 eq_refl) as Hr.
    pose proof (read_le_le_bytes ([ioapic_id; 0] ++ le_bytes 4 ioapic_addr) 4 gsi_base [] 6 eq_refl) as Hs.
    cbn [le_bytes app Nat.add] in Hr, Hs.
    unfold Ics.parse. change (IcsType.check_len _ _) with (Ok tt). cbn [mbind res_bind].
    rewrite Hr, Hs by (unfold is_u in *; lia). reflexivity.
Qed.

Lemma ics_items_bytes l fuel : Forall encodable l -> (length l < fuel)%nat ->
  ics_items fuel (concat (ics_bytes <$> l)) = Ok <$> l.
Proof.
  intros Hl. revert fuel. induction Hl as [|x l Hx Hl IH]; intros [|fuel] Hf; cbn [length] in Hf; try lia.
  - reflexivity.
  - cbn [fmap list_fmap concat ics_items]. rewrite ics_next_bytes by done. f_equal. apply IH. lia.
Qed.

Lemma encode_all_bytes cap l buffer : Forall encodable l ->
  (length buffer + length (concat (ics_bytes <$> l)) <= cap)%nat ->
  encode_all cap l buffer = Ok (buffer ++ concat (ics_bytes <$> l)).
Proof.
  intros Hl. revert buffer. induction Hl as [|x l Hx Hl IH]; intros buffer Hc.
  - cbn. by rewrite app_nil_r.
  - cbn [fmap list_fmap concat encode_all] in *. rewrite length_app in Hc.
    rewrite encode_bytes by done. unfold try_extend. rewrite bool_decide_true by lia. cbn [mbind res_bind].
    rewrite IH by (rewrite length_app; lia). by rewrite app_assoc.
Qed.

(** ** Theorems *)

(** C33: the table of interrupt controllers survives encoding.  For any builder with
    local APIC and I/O APIC structures whose fields fit their widths, encoding into a
    buffer that is large enough succeeds, and reading the encoded bytes from memory
    yields the address, the flags and exactly the builder's structures, in order. *)
Theorem madt_roundtrip b cap mem addr :
  Forall encodable (structures b) -> is_u 32 (default 0 (builder_ica b)) -> 0 <= default 0 (builder_flags b) < 2 ->
  (SDT_HEADER + 8 + length (concat (ics_bytes <$> structures b)) <= cap)%nat -> Z.of_nat cap < 2 ^ 32 ->
  exists buffer, encode_sdt b cap = Ok buffer /\
    (raw_parts mem addr (length buffer) = buffer ->
     exists s m, sdt_new mem addr = Ok s /\ signature s = SIGNATURE (B := MADTBuilder) /\ madt_new s = Ok m /\
       ica m = default 0 (builder_ica b) /\ madt_flags m = default 0 (builder_flags b) /\
       forall fuel, (length (structures b) < fuel)%nat -> ics_items fuel (ics m) = Ok <$> structures b).
Proof.
  intros Hs Hi Hf Hc Hlt. set (body := concat (ics_bytes <$> structures b)) in *.
  set (head := le_bytes 4 (default 0 (builder_ica b)) ++ le_bytes 4 (default 0 (builder_flags b))).
  assert (length (head ++ body) = (8 + length body)%nat) as Hl.
  { unfold head. by rewrite !length_app, !length_le_bytes. }
  destruct (sdt_encode_spec b cap (head ++ body) mem addr) as (buffer & He & Hr).
  - reflexivity.
  - lia.
  - lia.
  - cbn [encode_table madt_sdt]. unfold madt_encode_table, try_extend. fold head.
    rewrite bool_decide_true by (unfold head; rewrite length_app, !length_le_bytes, length_replicate; lia).
    cbn [mbind res_bind]. rewrite encode_all_bytes, <- app_assoc; [done..|].
    unfold head. rewrite !length_app, !length_le_bytes, length_replicate. fold body. lia.
  - exists buffer. split; [exact He|]. intros Hm. eexists _, _. split; [exact (Hr Hm)|]. split; [reflexivity|].
    split; [unfold madt_new; cbn [table]|cbn [ica madt_flags ics]].
    + pose proof (read_le_le_bytes [] 4 (default 0 (builder_ica b)) (le_bytes 4 (default 0 (builder_flags b)) ++ body) 0 eq_refl) as H1.
      pose proof (read_le_le_bytes (le_bytes 4 (default 0 (builder_ica b))) 4 (default 0 (builder_flags b)) body 4 (length_le_bytes 4 _)) as H2.
      cbn [app Nat.add] in H1, H2. rewrite app_assoc in H1, H2. fold head in H1, H2.
      rewrite H1, H2 by (unfold is_u in *; lia).
      cbn [mbind res_bind]. unfold slice. rewrite bool_decide_true by lia. cbn [expect mbind res_bind].
      rewrite drop_app_length', take_ge; [reflexivity | lia | unfold head; by rewrite length_app, !length_le_bytes].
    + split; [done|]. split; [|intros fuel Hfuel; by apply ics_items_bytes].
      assert (default 0 (builder_flags b) = 0 \/ default 0 (builder_flags b) = 1) as [-> | ->] by lia; reflexivity.
Qed.

Lemma madt_roundtrip_witness :
  let l := [Ics.LocalApic 0 0 1; Ics.LocalApic 1 1 1; Ics.IoApic 2 0xfec00000 0] in
  let b := mkMadtBuilder (Some 0xfee00000) (Some 1) l in
  let buffer := match encode_sdt b 128 with Ok x => x | _ => [] end in
  let mem := fun a => default 0 (buffer !! Z.to_nat a) in
  exists s m, sdt_new mem 0 = Ok s /\ madt_new s = Ok m /\ ics_items 4 (ics m) = Ok <$> l.
Proof.
  intros l b buffer mem. destruct (madt_roundtrip b 128 mem 0) as (buffer' & He & Hr).
  - repeat constructor; cbn; unfold is_u; lia.
  - cbn. unfold is_u. lia.
  - cbn. lia.
  - cbn. lia.
  - cbn. lia.
  - assert (buffer' = buffer) as -> by (unfold buffer; by rewrite He).
    destruct Hr as (s & m & H1 & H2 & H3 & H4 & H5 & H6); [vm_compute; reflexivity|].
    exists s, m. split; [exact H1|]. split; [exact H3|]. apply H6. cbn. lia.
Defined.

Lemma ics_collect_list fuel : forall bytes l, ics_collect fuel bytes = Some l -> ics_list bytes l.
Proof.
  induction fuel as [|fuel IH]; intros bytes l; [done|]. cbn [ics_collect].
  destruct (ics_next bytes) as [[r rest]|] eqn:E; [|intros [= <-]; by apply ics_list_nil].
  destruct (ics_collect fuel rest) as [l'|] eqn:Hl; intros [= <-]. eapply ics_list_cons; [exact E|]. by apply IH.
Qed.

Lemma ics_list_unique bytes l l' : ics_list bytes l -> ics_list bytes l' -> l = l'.
Proof.
  intros Hl. revert l'. induction Hl as [bytes E|bytes r rest l E Hl IH]; intros l' Hl'; inversion Hl'; subst; [done|congruence..|].
  match goal with Hx : ics_next bytes = Some (?r', ?rest'), Hy : ics_list ?rest' _ |- _ =>
    rewrite E in Hx; injection Hx as <- <-; by rewrite (IH _ Hy) end.
Qed.

(** The interrupt bases in a table of bytes are unsigned. *)
Lemma parse_gsi ty bytes id addr gsi :
  Forall is_byte bytes -> Ics.parse ty bytes = Ok (Ics.IoApic id addr gsi) -> 0 <= gsi.
Proof.
  intros Hb. unfold Ics.parse. destruct (IcsType.check_len ty (length bytes)) as [[]|e|w]; [|done..]. cbn [mbind res_bind].
  destruct ty; intros H; inv_res; try done.
  match goal with Hr : read_le bytes 6 10 = Ok _ |- _ => revert Hr end. unfold read_le.
  destruct (slice bytes 6 10) as [l|] eqn:Hs; [|done]. intros [= <-].
  apply (of_le_is_u l). apply slice_Some in Hs as [_ ->]. by apply Forall_take, Forall_drop.
Qed.

Lemma ics_list_gsi bytes l : Forall is_byte bytes -> ics_list bytes l ->
  forall id addr gsi, Ok (Ics.IoApic id addr gsi) ∈ l -> 0 <= gsi.
Proof.
  intros Hb Hl. induction Hl as [|bytes r rest l E Hl IH]; intros id addr gsi; [by intros ?%not_elem_of_nil|].
  destruct bytes as [|b0 [|b1 bs]]; [discriminate E..|]. cbn [ics_next] in E.
  assert (Forall is_byte rest /\ (r = Ok (Ics.IoApic id addr gsi) -> 0 <= gsi)) as [Hrest Hr].
  { destruct (try_from_primitive b0) as [ty|]; [|by injection E as <- <-].
    case_bool_decide; [by injection E as <- <-|]. case_bool_decide; [by injection E as <- <-|].
    injection E as <- <-. split; [by apply Forall_drop|]. intros Hp. eapply parse_gsi; [|exact Hp]. apply Forall_take. exact (Forall_drop _ 2 _ Hb). }
  intros [Hi|Hi]%elem_of_cons; [apply Hr; congruence|by eapply IH].
Qed.

(** A step of the iterator either reports an error and stays, or consumes at least
    three bytes. *)
Lemma ics_next_cases bytes r rest :
  ics_next bytes = Some (r, rest) ->
  (exists e, r = Err e /\ rest = bytes) \/ (length rest + 3 <= length bytes)%nat.
Proof.
  destruct bytes as [|b0 [|b1 bs]]; cbn [ics_next]; [done..|].
  destruct (try_from_primitive b0) as [ty|]; [|intros [= <- <-]; left; by eexists].
  case_bool_decide as H1; [intros [= <- <-]; left; by eexists|].
  case_bool_decide as H2; [intros [= <- <-]; left; by eexists|].
  intros [= <- <-]. right. rewrite length_drop. cbn [length] in *. lia.
Qed.

(** C34: the iterator over interrupt controller structures either ends, after at most
    one item per three bytes, or stays for ever at the first structure it cannot
    delimit, repeating the same error: skipping errors does not make progress. *)
Theorem ics_iteration bytes :
  exists items, (3 * length items <= length bytes)%nat /\
    ((forall fuel, (length items <= fuel)%nat -> ics_items fuel bytes = items) \/
     exists e, forall k, ics_items (length items + k) bytes = items ++ replicate k (Err e)).
Proof.
  induction bytes as [bytes IH] using (well_founded_induction (Wf_nat.well_founded_ltof _ (@length Z))).
  destruct (ics_next bytes) as [[r rest]|] eqn:Hn.
  2:{ exists []. split; [cbn; lia|]. left. intros [|fuel] _; cbn [ics_items]; [done|]. by rewrite Hn. }
  destruct (ics_next_cases bytes r rest Hn) as [[e [-> ->]] | Hlt].
  - exists []. split; [cbn; lia|]. right. exists e. intros k. cbn [length Nat.add app]. induction k as [|k IHk]; [done|].
    cbn [ics_items replicate]. by rewrite Hn, IHk.
  - destruct (IH rest) as (items & Hlen & Hitems); [unfold Wf_nat.ltof; lia|]. exists (r :: items). split; [cbn [length]; lia|].
    destruct Hitems as [Hend | [e Hstuck]].
    + left. intros [|fuel] Hf; cbn [length] in Hf; [lia|]. cbn [ics_items]. rewrite Hn. f_equal. apply Hend. lia.
    + right. exists e. intros k. cbn [length Nat.add ics_items app]. by rewrite Hn, Hstuck.
Qed.
