(* ===== verification/Fadt.v ===== *)
(** * The fixed ACPI description table ([mythril/src/acpi/fadt.rs])

    Every field is read when the table is long enough to hold it; later revisions of
    the table only append fields.  The [Option]s of the source are kept. *)

From S2P Require Import Prelude Error FwCfg Acpi.

(** The [offsets] of the source: ranges and indices into the table. *)
Module offsets.
Definition FIRMWARE_CTRL : nat * nat := (0, 4)%nat.
Definition DSDT : nat * nat := (4, 8)%nat.
Definition PREFERRED_POWER_MANAGEMENT_PROFILE : nat := 9%nat.
Definition SCI_INTERRUPT : nat * nat := (10, 12)%nat.
Definition SMI_COMMAND_PORT : nat * nat := (12, 16)%nat.
Definition ACPI_ENABLE : nat := 16%nat.
Definition ACPI_DISABLE : nat := 17%nat.
Definition S4_BIOS_REQ : nat := 18%nat.
Definition PSTATE_CONTROL : nat := 19%nat.
Definition PM1A_EVENT_BLOCK : nat * nat := (20, 24)%nat.
Definition PM1B_EVENT_BLOCK : nat * nat := (24, 28)%nat.
Definition PM1A_CONTROL_BLOCK : nat * nat := (28, 32)%nat.
Definition PM1B_CONTROL_BLOCK : nat * nat := (32, 36)%nat.
Definition PM2_CONTROL_BLOCK : nat * nat := (36, 40)%nat.
Definition PM_TIMER_BLOCK : nat * nat := (40, 44)%nat.
Definition GPE0_BLOCK : nat * nat := (44, 48)%nat.
Definition GPE1_BLOCK : nat * nat := (48, 52)%nat.
Definition PM1_EVENT_LENGTH : nat := 52%nat.
Definition PM1_CONTROL_LENGTH : nat := 53%nat.
Definition PM2_CONTROL_LENGTH : nat := 54%nat.
Definition PM_TIMER_LENGTH : nat := 55%nat.
Definition GPE0_LENGTH : nat := 56%nat.
Definition GPE1_LENGTH : nat := 57%nat.
Definition GPE1_BASE : nat := 58%nat.
Definition CSTATE_CONTROL : nat := 59%nat.
Definition WORST_C2_LATENCY : nat * nat := (60, 62)%nat.
Definition WORST_C3_LATENCY : nat * nat := (62, 64)%nat.
Definition FLUSH_SIZE : nat * nat := (64, 66)%nat.
Definition FLUSH_STRIDE : nat * nat := (66, 68)%nat.
Definition DUTY_OFFSET : nat := 68%nat.
Definition DUTY_WIDTH : nat := 69%nat.
Definition DAY_ALARM : nat := 70%nat.
Definition MONTH_ALARM : nat := 71%nat.
Definition CENTURY : nat := 72%nat.
Definition BOOT_ARCHITECTURE_FLAGS : nat * nat := (73, 75)%nat.
Definition FLAGS : nat * nat := (76, 80)%nat.
Definition RESET_REG : nat * nat := (80, 92)%nat.
Definition RESET_VALUE : nat := 92%nat.
Definition ARM_BOOT_ARCHITECTURE_FLAGS : nat * nat := (93, 95)%nat.
Definition FADT_MINOR_VERSION : nat := 95%nat.
Definition X_FIRMWARE_CONTROL : nat * nat := (96, 104)%nat.
Definition X_DSDT : nat * nat := (104, 112)%nat.
Definition X_PM1A_EVENT_BLOCK : nat * nat := (112, 124)%nat.
Definition X_PM1B_EVENT_BLOCK : nat * nat := (124, 136)%nat.
Definition X_PM1A_CONTROL_BLOCK : nat * nat := (136, 148)%nat.
Definition X_PM1B_CONTROL_BLOCK : nat * nat := (148, 160)%nat.
Definition X_PM2_CONTROL_BLOCK : nat * nat := (160, 172)%nat.
Definition X_PM_TIMERBLOCK : nat * nat := (172, 184)%nat.
Definition X_GPE0_BLOCK : nat * nat := (184, 196)%nat.
Definition X_GPE1_BLOCK : nat * nat := (196, 208)%nat.
End offsets.
Import offsets.

(** [table.get(range)] and [table.get(index)], with the little-endian reads. *)
Definition get_le (t : list Z) (r : nat * nat) : option Z := of_le <$> slice t r.1 r.2.
Definition get_u8 (t : list Z) (i : nat) : option Z := t !! i.

(** [if let Some(bytes) = table.get(range) { Some(GenericAddressStructure::new(bytes)?) } else { None }] *)
Definition get_gas (long_mode : option bool) (t : list Z) (r : nat * nat) : res (option GenericAddressStructure) :=
  match slice t r.1 r.2 with
  | Some bytes => g ← gas_new long_mode bytes; Ok (Some g)
  | None => Ok None
  end.

Record FADT := mkFadt {
  firmware_ctrl : option Z;
  dsdt : option Z;
  preferred_power_management_profile : option Z;
  sci_interrupt : option Z;
  smi_command_port : option Z;
  acpi_enable : option Z;
  acpi_disable : option Z;
  s4_bios_req : option Z;
  pstate_control : option Z;
  pm1a_event_block : option Z;
  pm1b_event_block : option Z;
  pm1a_control_block : option Z;
  pm1b_control_block : option Z;
  pm2_control_block : option Z;
  pm_timer_block : option Z;
  gpe0_block : option Z;
  gpe1_block : option Z;
  pm1_event_length : option Z;
  pm1_control_length : option Z;
  pm2_control_length : option Z;
  pm_timer_length : option Z;
  gpe0_length : option Z;
  gpe1_length : option Z;
  gpe1_base : option Z;
  cstate_control : option Z;
  worst_c2_latency : option Z;
  worst_c3_latency : option Z;
  flush_size : option Z;
  flush_stride : option Z;
  duty_offset : option Z;
  duty_width : option Z;
  day_alarm : option Z;
  month_alarm : option Z;
  century : option Z;
  boot_architecture_flags : option Z;
  fadt_flags : option Z;
  reset_reg : option GenericAddressStructure;
  reset_value : option Z;
  arm_boot_architecture_flags : option Z;
  fadt_minor_version : option Z;
  x_firmware_control : option Z;
  x_dsdt : option Z;
  x_pm1a_event_block : option GenericAddressStructure;
  x_pm1b_event_block : option GenericAddressStructure;
  x_pm1a_control_block : option GenericAddressStructure;
  x_pm1b_control_block : option GenericAddressStructure;
  x_pm2_control_block : option GenericAddressStructure;
  x_pm_timerblock : option GenericAddressStructure;
  x_gpe0_block : option GenericAddressStructure;
  x_gpe1_block : option GenericAddressStructure
}.

(** The extended register blocks [FADT::new] reads last. *)
Record XBlocks := mkXBlocks {
  xb_pm1a_event_block : option GenericAddressStructure;
  xb_pm1b_event_block : option GenericAddressStructure;
  xb_pm1a_control_block : option GenericAddressStructure;
  xb_pm1b_control_block : option GenericAddressStructure;
  xb_pm2_control_block : option GenericAddressStructure;
  xb_pm_timerblock : option GenericAddressStructure;
  xb_gpe0_block : option GenericAddressStructure;
  xb_gpe1_block : option GenericAddressStructure
}.

Definition read_xblocks (long_mode : option bool) (t : list Z) : res XBlocks :=
  x_pm1a_event_block_ ← get_gas long_mode t X_PM1A_EVENT_BLOCK;
  x_pm1b_event_block_ ← get_gas long_mode t X_PM1B_EVENT_BLOCK;
  x_pm1a_control_block_ ← get_gas long_mode t X_PM1A_CONTROL_BLOCK;
  x_pm1b_control_block_ ← get_gas long_mode t X_PM1B_CONTROL_BLOCK;
  x_pm2_control_block_ ← get_gas long_mode t X_PM2_CONTROL_BLOCK;
  x_pm_timerblock_ ← get_gas long_mode t X_PM_TIMERBLOCK;
  x_gpe0_block_ ← get_gas long_mode t X_GPE0_BLOCK;
  x_gpe1_block_ ← get_gas long_mode t X_GPE1_BLOCK;
  Ok (mkXBlocks x_pm1a_event_block_ x_pm1b_event_block_ x_pm1a_control_block_ x_pm1b_control_block_ x_pm2_control_block_ x_pm_timerblock_ x_gpe0_block_ x_gpe1_block_).

(** [FADT::new] *)
Definition fadt_new (long_mode : option bool) (s : SDT) : res FADT :=
  let t := table s in
  reset_reg_ ← get_gas long_mode t RESET_REG;
  x ← read_xblocks long_mode t;
  Ok (mkFadt
    (get_le t FIRMWARE_CTRL) (get_le t DSDT) (get_u8 t PREFERRED_POWER_MANAGEMENT_PROFILE)
    (get_le t SCI_INTERRUPT) (get_le t SMI_COMMAND_PORT) (get_u8 t ACPI_ENABLE) (get_u8 t ACPI_DISABLE)
    (get_u8 t S4_BIOS_REQ) (get_u8 t PSTATE_CONTROL) (get_le t PM1A_EVENT_BLOCK) (get_le t PM1B_EVENT_BLOCK)
    (get_le t PM1A_CONTROL_BLOCK) (get_le t PM1B_CONTROL_BLOCK) (get_le t PM2_CONTROL_BLOCK)
    (get_le t PM_TIMER_BLOCK) (get_le t GPE0_BLOCK) (get_le t GPE1_BLOCK) (get_u8 t PM1_EVENT_LENGTH)
    (get_u8 t PM1_CONTROL_LENGTH) (get_u8 t PM2_CONTROL_LENGTH) (get_u8 t PM_TIMER_LENGTH)
    (get_u8 t GPE0_LENGTH) (get_u8 t GPE1_LENGTH) (get_u8 t GPE1_BASE) (get_u8 t CSTATE_CONTROL)
    (get_le t WORST_C2_LATENCY) (get_le t WORST_C3_LATENCY) (get_le t FLUSH_SIZE) (get_le t FLUSH_STRIDE)
    (get_u8 t DUTY_OFFSET) (get_u8 t DUTY_WIDTH) (get_u8 t DAY_ALARM) (get_u8 t MONTH_ALARM) (get_u8 t CENTURY)
    (get_le t BOOT_ARCHITECTURE_FLAGS) (get_le t FLAGS) reset_reg_ (get_u8 t RESET_VALUE)
    (get_le t ARM_BOOT_ARCHITECTURE_FLAGS) (get_u8 t FADT_MINOR_VERSION) (get_le t X_FIRMWARE_CONTROL)
    (get_le t X_DSDT) (xb_pm1a_event_block x) (xb_pm1b_event_block x) (xb_pm1a_control_block x)
    (xb_pm1b_control_block x) (xb_pm2_control_block x) (xb_pm_timerblock x) (xb_gpe0_block x) (xb_gpe1_block x)).

(** The fields of a description table, in the order of the table. *)
Definition fadt_numbers (f : FADT) : list (option Z) :=
  [firmware_ctrl f; dsdt f; preferred_power_management_profile f; sci_interrupt f; smi_command_port f;
   acpi_enable f; acpi_disable f; s4_bios_req f; pstate_control f; pm1a_event_block f; pm1b_event_block f;
   pm1a_control_block f; pm1b_control_block f; pm2_control_block f; pm_timer_block f; gpe0_block f;
   gpe1_block f; pm1_event_length f; pm1_control_length f; pm2_control_length f; pm_timer_length f;
   gpe0_length f; gpe1_length f; gpe1_base f; cstate_control f; worst_c2_latency f; worst_c3_latency f;
   flush_size f; flush_stride f; duty_offset f; duty_width f; day_alarm f; month_alarm f; century f;
   boot_architecture_flags f; fadt_flags f; reset_value f; arm_boot_architecture_flags f;
   fadt_minor_version f; x_firmware_control f; x_dsdt f].
Definition fadt_registers (f : FADT) : list (option GenericAddressStructure) :=
  [reset_reg f; x_pm1a_event_block f; x_pm1b_event_block f; x_pm1a_control_block f; x_pm1b_control_block f;
   x_pm2_control_block f; x_pm_timerblock f; x_gpe0_block f; x_gpe1_block f].

Definition kept {A} (a b : option A) : Prop := forall x, a = Some x -> b = Some x.

Lemma get_le_app t e r : kept (get_le t r) (get_le (t ++ e) r).
Proof.
  unfold kept, get_le. intros x. destruct (slice t r.1 r.2) as [s|] eqn:Hs; [|done]. by rewrite (slice_app _ _ _ _ _ Hs).
Qed.

Lemma get_u8_app t e i : kept (get_u8 t i) (get_u8 (t ++ e) i).
Proof. unfold kept, get_u8. intros x. apply lookup_app_l_Some. Qed.

Lemma get_gas_app m t e r g g' :
  get_gas m t r = Ok g -> get_gas m (t ++ e) r = Ok g' -> kept g g'.
Proof.
  unfold get_gas, kept. destruct (slice t r.1 r.2) as [s|] eqn:Hs.
  - rewrite (slice_app _ _ _ _ _ Hs). intros H1 H2 x ->. by rewrite H1 in H2; injection H2 as <-.
  - intros [= <-] _ x. done.
Qed.

Lemma read_u8_no_panic bytes i : (i < length bytes)%nat -> no_panic (read_u8 bytes i).
Proof. intros H. by apply no_panic_expect, lookup_lt_is_Some_2. Qed.

Lemma read_le_no_panic bytes a b : (a <= b <= length bytes)%nat -> no_panic (read_le bytes a b).
Proof. intros H. by apply no_panic_expect, fmap_is_Some, slice_is_Some. Qed.

Lemma gas_new_no_panic m bytes : no_panic (gas_new m bytes).
Proof.
  unfold gas_new. case_bool_decide as Hl; cbn [negb]; [|done]. unfold GAS_SIZE in Hl.
  repeat (apply no_panic_bind; [|intros ?]); try done;
    try (apply read_u8_no_panic; lia); try (apply read_le_no_panic; lia); try apply no_panic_enum.
  destruct (_ || _); [|exact I]. apply no_panic_bind; [apply no_panic_ok_or|]. intros b.
  by destruct (_ && _).
Qed.

Lemma get_gas_no_panic m t r : no_panic (get_gas m t r).
Proof. unfold get_gas. destruct (slice t r.1 r.2); [|done]. apply no_panic_bind; [apply gas_new_no_panic|done]. Qed.

(** reading the fixed description table is safe and respects revisions.  No table,
    however short, makes the reader panic, and appending to a table leaves every field
    that was present as it was: a later revision reads the same for an older reader. *)
Lemma fadt_revisions m s ext f f' :
  let s' := mkSdt (signature s) (sdt_length s) (revision s) (table s ++ ext) in
  fadt_new m s = Ok f -> fadt_new m s' = Ok f' ->
  (forall s'', no_panic (fadt_new m s'')) /\
  Forall2 kept (fadt_numbers f) (fadt_numbers f') /\ Forall2 kept (fadt_registers f) (fadt_registers f').
Proof.
  intros s' H1 H2. split.
  { intros s''. unfold fadt_new, read_xblocks.
    repeat (apply no_panic_bind; [|intros ?]); apply get_gas_no_panic || exact I. }
  unfold fadt_new in H1, H2. cbn [table s'] in H2.
  do 2 (apply bind_Ok in H1 as (? & ? & H1); apply bind_Ok in H2 as (? & ? & H2)).
  injection H1 as <-. injection H2 as <-. unfold read_xblocks in *. inv_res.
  split; repeat (apply Forall2_cons; split); try apply Forall2_nil; try apply I;
    first [apply get_le_app | apply get_u8_app | eapply get_gas_app; eassumption].
Qed.

(** The table of QEMU's default machine: revision 1, so no extended field. *)
Definition qemu_fadt : SDT := mkSdt [0x46; 0x41; 0x43; 0x50] 0x74 1
  ([0x00; 0x00; 0xfe; 0x3f; 0x40; 0x00; 0xfe; 0x3f; 0x01; 0x00; 0x09; 0x00; 0xb2; 0x00; 0x00; 0x00; 0xf1; 0xf0;
    0x00; 0x00; 0x00; 0x06; 0x00; 0x00; 0x00; 0x00; 0x00; 0x00; 0x04; 0x06; 0x00; 0x00; 0x00; 0x00; 0x00; 0x00;
    0x00; 0x00; 0x00; 0x00; 0x08; 0x06; 0x00; 0x00; 0xe0; 0xaf; 0x00; 0x00; 0x00; 0x00; 0x00; 0x00; 0x04; 0x02;
    0x00; 0x04; 0x04; 0x00; 0x00; 0x00; 0xff; 0x0f; 0xff; 0x0f] ++ replicate 8 0 ++
   [0x32; 0x00; 0x00; 0x00; 0xa5; 0x80; 0x00; 0x00]).

Example qemu_fadt_fields : exists f, fadt_new None qemu_fadt = Ok f /\
  firmware_ctrl f = Some 0x3ffe0000 /\ dsdt f = Some 0x3ffe0040 /\ sci_interrupt f = Some 9 /\
  pm1a_control_block f = Some 0x604 /\ pm_timer_block f = Some 0x608 /\ gpe0_block f = Some 0xafe0 /\
  century f = Some 0x32 /\ fadt_flags f = Some 0x80a5 /\ reset_reg f = None /\ x_dsdt f = None.
Proof. eexists. split; [vm_compute; reflexivity|]. by vm_compute. Qed.

Lemma fadt_revisions_witness :
  exists f f', fadt_new (Some true) qemu_fadt = Ok f /\
    Forall2 kept (fadt_numbers f) (fadt_numbers f') /\ x_dsdt f' = Some 0x3ffe0040.
Proof.
  pose (ext := [1; 8; 0; 1; 0xf9; 0x0c; 0; 0; 0; 0; 0; 0; 6; 0; 0; 0] ++ replicate 8 0 ++ le_bytes 8 0x3ffe0040).
  eexists _, _. split; [vm_compute; reflexivity|].
  split; [|shelve].
  eapply (fun f f' H1 H2 => proj1 (proj2 (fadt_revisions (Some true) qemu_fadt ext f f' H1 H2))); vm_compute; reflexivity.
  Unshelve. reflexivity.
Defined.
