(* ===== verification/UnitTests.v ===== *)
(** * The unit tests of the sources

    The test functions of [acpi/fadt.rs], [acpi/hpet.rs], [ioapic.rs], [virtdev/mod.rs],
    [virtdev/pci.rs] and [virtdev/qemu_fw_cfg.rs], translated with the model's functions in
    place of the program's: each must end without a failed assertion or unwrap.  They
    check the definitions against the behaviour the authors recorded. *)

From S2P Require Import Prelude Error BTreeMap Memory VirtDev IoApic Uart Pci FwCfg Acpi Madt Fadt.

(** [assert!], [assert_eq!], [unwrap], [unwrap_err], [is_err] *)
Definition assert (b : bool) : res unit := if b then Ok tt else Panic "assertion failed".
Definition assert_eq {A} `{EqDecision A} (x y : A) : res unit := assert (bool_decide (x = y)).
Definition unwrap {A} (r : res A) : res A :=
  match r with Ok a => Ok a | _ => Panic "called `Result::unwrap()` on an `Err` value" end.
Definition unwrap_err {A} (r : res A) : res Error :=
  match r with Err e => Ok e | _ => Panic "called `Result::unwrap_err()` on an `Ok` value" end.
Definition is_err {A} (r : res A) : bool := match r with Err _ => true | _ => false end.
Definition is_ok {A} (r : res A) : bool := match r with Ok _ => true | _ => false end.

(** The bytes of a table, two hexadecimal digits each. *)
Definition hex_digit (a : Ascii.ascii) : Z :=
  let n := Z.of_N (Ascii.N_of_ascii a) in if n <? 58 then n - 48 else n - 87.
Fixpoint hex (s : string) : list Z :=
  match s with
  | String a (String b s) => 16 * hex_digit a + hex_digit b :: hex s
  | _ => []
  end.

(** A byte buffer at address 0. *)
Definition buffer (b : list Z) (a : Z) : Z := default 0 (b !! Z.to_nat a).

#[export] Instance PageProtection_eq_dec : EqDecision PageProtection.
Proof. solve_decision. Defined.
#[export] Instance AccessSize_eq_dec : EqDecision AccessSize.
Proof. solve_decision. Defined.
#[export] Instance GenericAddressStructure_eq_dec : EqDecision GenericAddressStructure.
Proof. solve_decision. Defined.

(** ** Tables *)

Definition live_fadt_bytes : list Z := hex (
  "464143500c0100000586414c41534b4141204d204900000009200701414d4920" ++
  "13000100809f1edea061cadd01010900b2000000a0a100000018000000000000" ++
  "0418000000000000501800000818000020180000000000000402010410000000" ++
  "6500e9030004100000000d0032100000a584030001080000f90c000000000000" ++
  "060000000000000000000000a061cadd00000000012000020018000000000000" ++
  "0100000200000000000000000110000204180000000000000100000200000000" ++
  "0000000001080001501800000000000001200003081800000000000001800001" ++
  "2018000000000000010000010000000000000000000000000000000000000000" ++
  "000000000000000000000000").

Definition test_fadt_parse_v5 : res unit :=
  fadt_sdt ← sdt_new (buffer live_fadt_bytes) 0;
  fadt ← fadt_new (Some true) fadt_sdt;
  gas1 ← gas_new (Some true) (hex "01080000f90c000000000000");
  gas2 ← gas_new (Some true) (hex "012000020018000000000000");
  gas3 ← gas_new (Some true) (hex "010000020000000000000000");
  gas4 ← gas_new (Some true) (hex "011000020418000000000000");
  gas5 ← gas_new (Some true) (hex "010000020000000000000000");
  gas6 ← gas_new (Some true) (hex "010800015018000000000000");
  gas7 ← gas_new (Some true) (hex "012000030818000000000000");
  gas8 ← gas_new (Some true) (hex "018000012018000000000000");
  gas9 ← gas_new (Some true) (hex "010000010000000000000000");
  assert (forallb id [
    bool_decide (firmware_ctrl fadt = Some 0xde1e9f80); bool_decide (dsdt fadt = Some 0xddca61a0);
    bool_decide (preferred_power_management_profile fadt = Some 0x1); bool_decide (sci_interrupt fadt = Some 0x9);
    bool_decide (smi_command_port fadt = Some 0xb2); bool_decide (acpi_enable fadt = Some 0xa0);
    bool_decide (acpi_disable fadt = Some 0xa1); bool_decide (s4_bios_req fadt = Some 0x0);
    bool_decide (pstate_control fadt = Some 0x0); bool_decide (pm1a_event_block fadt = Some 0x1800);
    bool_decide (pm1b_event_block fadt = Some 0x0); bool_decide (pm1a_control_block fadt = Some 0x1804);
    bool_decide (pm1b_control_block fadt = Some 0x0); bool_decide (pm2_control_block fadt = Some 0x1850);
    bool_decide (pm_timer_block fadt = Some 0x1808); bool_decide (gpe0_block fadt = Some 0x1820);
    bool_decide (gpe1_block fadt = Some 0x0); bool_decide (pm1_event_length fadt = Some 0x4);
    bool_decide (pm1_control_length fadt = Some 0x2); bool_decide (pm2_control_length fadt = Some 0x1);
    bool_decide (pm_timer_length fadt = Some 0x4); bool_decide (gpe0_length fadt = Some 0x10);
    bool_decide (gpe1_length fadt = Some 0x0); bool_decide (gpe1_base fadt = Some 0x0);
    bool_decide (cstate_control fadt = Some 0x0); bool_decide (worst_c2_latency fadt = Some 0x65);
    bool_decide (worst_c3_latency fadt = Some 0x3e9); bool_decide (flush_size fadt = Some 0x400);
    bool_decide (flush_stride fadt = Some 0x10); bool_decide (duty_offset fadt = Some 0x0);
    bool_decide (duty_width fadt = Some 0x0); bool_decide (day_alarm fadt = Some 0xd);
    bool_decide (month_alarm fadt = Some 0x0); bool_decide (century fadt = Some 0x32);
    bool_decide (boot_architecture_flags fadt = Some 0x10); bool_decide (fadt_flags fadt = Some 0x384a5);
    bool_decide (reset_reg fadt = Some gas1); bool_decide (reset_value fadt = Some 0x6);
    bool_decide (arm_boot_architecture_flags fadt = Some 0x0); bool_decide (fadt_minor_version fadt = Some 0x0);
    bool_decide (x_firmware_control fadt = Some 0x0); bool_decide (x_dsdt fadt = Some 0xddca61a0);
    bool_decide (x_pm1a_event_block fadt = Some gas2); bool_decide (x_pm1b_event_block fadt = Some gas3);
    bool_decide (x_pm1a_control_block fadt = Some gas4); bool_decide (x_pm1b_control_block fadt = Some gas5);
    bool_decide (x_pm2_control_block fadt = Some gas6); bool_decide (x_pm_timerblock fadt = Some gas7);
    bool_decide (x_gpe0_block fadt = Some gas8); bool_decide (x_gpe1_block fadt = Some gas9)]).

Definition qemu_fadt_bytes : list Z := hex (
  "464143507400000001e7424f4348532042585043464143500100000042585043" ++
  "010000000000fe3f4000fe3f01000900b2000000f1f000000006000000000000" ++
  "04060000000000000000000008060000e0af0000000000000402000404000000" ++
  "ff0fff0f000000000000000032000000a5800000").

Definition test_fadt_parse_v1 : res unit :=
  fadt_sdt ← sdt_new (buffer qemu_fadt_bytes) 0;
  fadt ← fadt_new (Some true) fadt_sdt;
  assert (forallb id [
    bool_decide (firmware_ctrl fadt = Some 0x3ffe0000); bool_decide (dsdt fadt = Some 0x3ffe0040);
    bool_decide (preferred_power_management_profile fadt = Some 0x0); bool_decide (sci_interrupt fadt = Some 0x9);
    bool_decide (smi_command_port fadt = Some 0xb2); bool_decide (acpi_enable fadt = Some 0xf1);
    bool_decide (acpi_disable fadt = Some 0xf0); bool_decide (s4_bios_req fadt = Some 0x0);
    bool_decide (pstate_control fadt = Some 0x0); bool_decide (pm1a_event_block fadt = Some 0x600);
    bool_decide (pm1b_event_block fadt = Some 0x0); bool_decide (pm1a_control_block fadt = Some 0x604);
    bool_decide (pm1b_control_block fadt = Some 0x0); bool_decide (pm2_control_block fadt = Some 0x0);
    bool_decide (pm_timer_block fadt = Some 0x608); bool_decide (gpe0_block fadt = Some 0xafe0);
    bool_decide (gpe1_block fadt = Some 0x0); bool_decide (pm1_event_length fadt = Some 0x4);
    bool_decide (pm1_control_length fadt = Some 0x2); bool_decide (pm2_control_length fadt = Some 0x0);
    bool_decide (pm_timer_length fadt = Some 0x4); bool_decide (gpe0_length fadt = Some 0x4);
    bool_decide (gpe1_length fadt = Some 0x0); bool_decide (gpe1_base fadt = Some 0x0);
    bool_decide (cstate_control fadt = Some 0x0); bool_decide (worst_c2_latency fadt = Some 0xfff);
    bool_decide (worst_c3_latency fadt = Some 0xfff); bool_decide (flush_size fadt = Some 0x0);
    bool_decide (flush_stride fadt = Some 0x0); bool_decide (duty_offset fadt = Some 0x0);
    bool_decide (duty_width fadt = Some 0x0); bool_decide (day_alarm fadt = Some 0x0);
    bool_decide (month_alarm fadt = Some 0x0); bool_decide (century fadt = Some 0x32);
    bool_decide (boot_architecture_flags fadt = Some 0x0); bool_decide (fadt_flags fadt = Some 0x80a5);
    bool_decide (reset_reg fadt = None); bool_decide (reset_value fadt = None);
    bool_decide (arm_boot_architecture_flags fadt = None); bool_decide (fadt_minor_version fadt = None);
    bool_decide (x_firmware_control fadt = None); bool_decide (x_dsdt fadt = None);
    bool_decide (x_pm1a_event_block fadt = None); bool_decide (x_pm1b_event_block fadt = None);
    bool_decide (x_pm1a_control_block fadt = None); bool_decide (x_pm1b_control_block fadt = None);
    bool_decide (x_pm2_control_block fadt = None); bool_decide (x_pm_timerblock fadt = None);
    bool_decide (x_gpe0_block fadt = None); bool_decide (x_gpe1_block fadt = None)]).

Definition hpet_bytes : list Z := hex (
  "485045543800000001b6414c41534b4141204d204900000009200701414d492e" ++
  "0500000001a78680004000000000d0fe0000000000ee3700").

Definition test_hpet_parse : res unit :=
  hpet_sdt ← sdt_new (buffer hpet_bytes) 0;
  hpet ← hpet_new (Some true) hpet_sdt;
  let addr := hpet_address hpet in
  assert (forallb id [
    bool_decide (hardware_rev_id hpet = 1); bool_decide (comparator_count hpet = 7);
    bool_decide (counter_cap hpet = true); bool_decide (legacy_replacement hpet = true);
    bool_decide (pci_vendor_id hpet = 0x8086);
    bool_decide (address_space addr = SystemMemory); bool_decide (bit_width addr = 64);
    bool_decide (bit_offset addr = 0); bool_decide (access_size addr = Undefined);
    bool_decide (gas_address addr = 0xfed00000); bool_decide (hpet_number hpet = 0);
    bool_decide (minimum_tick hpet = 0x37ee); bool_decide (page_protection hpet = NoProtection)]).

(** ** The I/O APIC *)

(** A buffer in place of the device: the index register selects nothing, the window is
    the word at offset 16. *)
Definition bytebuf := list Z.
#[export] Instance bytebuf_hw : IoApicHw bytebuf := {
  iowin_read h a r := of_le (raw_parts (buffer h) (a + 0x10) 4);
  iowin_write h a r v := take (Z.to_nat a + 16) h ++ le_bytes 4 v ++ drop (Z.to_nat a + 20) h }.

Definition get_ioapic : st bytebuf IoApic := ioapic_try_from (Ics.IoApic 0 0 0).

Definition ioredtblentry_roundtrip : res unit :=
  let all_edge := Z.lxor IOREDTBL_KNOWN_BITS_MASK (Z.shiftl 1 15) in
  e ← unwrap (entry_try_from all_edge);
  _ ← assert_eq all_edge (entry_into e);
  let all_level := Z.lxor IOREDTBL_KNOWN_BITS_MASK 0x700 in
  e ← unwrap (entry_try_from all_level);
  _ ← assert_eq all_level (entry_into e);
  e ← unwrap (entry_try_from 0);
  assert_eq 0 (entry_into e).

Definition ioredtblentry_invalid_trigger_mode : res unit :=
  e ← unwrap_err (entry_try_from 0x0f00000000008700);
  assert_eq e (InvalidValue (Msg "The delivery mode `0b{:b}` is invalid for level trigger mode" [7])).

Definition ioredtblentry_unknown_bit : res unit :=
  e ← unwrap_err (entry_try_from 0xff0000000009ffff);
  assert_eq e NotSupported.

Definition ioredtblentry_invalid_dest : res unit :=
  e ← unwrap_err (entry_try_from 0xff00000000000000);
  assert_eq (InvalidValue (Msg "Invalid Physical APIC ID destination: 0x{:x}" [0xff])) e.

Definition ioapic_buf (version : Z) : bytebuf := replicate 16 0 ++ [version] ++ replicate 7 0.

Definition ioredtblentry_write_ro_bit : res unit :=
  let '(buf, r) := get_ioapic (ioapic_buf IOAPIC_VERSION) in
  ioapic ← unwrap r;
  entry ← unwrap (entry_try_from 0x0f00000000001000);
  e ← unwrap_err (write_ioredtbl ioapic 0 entry buf).2;
  assert_eq (InvalidValue (Msg "Read-only IO Redirect Table Entry bits set: 0x{:x}" [0x1000])) e.

Definition ioapic_unsupported_version : res unit :=
  e ← unwrap_err (get_ioapic (ioapic_buf 0xa5)).2;
  assert_eq NotSupported e.

(** ** The device map and requests *)

Definition test_device_map : res unit :=
  let '(m, r) := register_device 0%nat (uart_services (uart_new 0)) device_map_default in
  _ ← unwrap r;
  _ ← expect (find_device_port 0 m) "called `Option::unwrap()` on a `None` value";
  assert (bool_decide (find_device_port 10 m = None)).

Definition test_write_request_try_from : res unit :=
  _ ← assert (is_ok (PortWriteRequest.try_from [0x12; 0x34; 0x56; 0x78]));
  _ ← assert (is_err (PortWriteRequest.try_from [0x12; 0x34; 0x56]));
  val ← unwrap (PortWriteRequest.try_from [0x12; 0x34; 0x56; 0x78]);
  _ ← assert_eq (PortWriteRequest.as_u32 val) 0x12345678;
  val ← unwrap (PortWriteRequest.try_from [0x12; 0x34]);
  assert_eq (PortWriteRequest.as_u32 val) 0x1234.

Definition test_portio_value_read : res unit :=
  val ← PortReadRequest.copy_from_u32 (PortReadRequest.TwoBytes 0 0) 0x1234;
  _ ← assert_eq [0x12; 0x34] (PortReadRequest.as_slice val);
  assert_eq 0x1234 (of_be (PortReadRequest.as_slice val)).

Definition test_conflicting_portio_device : res unit :=
  let '(m, r) := register_device 0%nat (uart_services (uart_new 0)) device_map_default in
  _ ← unwrap r;
  assert (is_err (register_device 1%nat (uart_services (uart_new 0)) m).2).

(** [DummyDevice] *)
Definition dummy_services (services : list (Z * Z)) : list DeviceRegion := (fun x => PortIo x.1 x.2) <$> services.
Definition register_dummy (services : list (Z * Z)) : res unit :=
  (register_device 0%nat (dummy_services services) device_map_default).2.

Definition test_fully_overlapping_portio_device : res unit := assert (is_err (register_dummy [(0, 10); (2, 8)])).
Definition test_fully_encompassing_portio_device : res unit := assert (is_err (register_dummy [(2, 8); (0, 10)])).
Definition test_partially_overlapping_tail_portio_device : res unit := assert (is_err (register_dummy [(0, 4); (3, 8)])).
Definition test_partially_overlapping_head_portio_device : res unit := assert (is_err (register_dummy [(3, 8); (0, 4)])).
Definition test_non_overlapping_portio_device : res unit := assert (is_ok (register_dummy [(0, 3); (4, 8)])).

(** ** The PCI root complex *)

Definition test_event (k : DeviceEvent) : Event unit :=
  mkEvent k (mkView 0 0) [] (mkHost ∅ ∅) tt.

Definition complex_ready_for_reg_read (reg : Z) : res PciRootComplex :=
  request ← unwrap (PortWriteRequest.try_from (be_bytes 4 (u8 (Z.shiftl reg 2))));
  let '((complex, _), r) := pci_on_event (pci_new, test_event (PortWrite PCI_CONFIG_ADDRESS request)) in
  _ ← unwrap r; Ok complex.

(** One [on_event] of the tests, and what the buffer holds after it. *)
Definition read_port (complex : PciRootComplex) (port : Z) (val : PortReadRequest.t) : res (PciRootComplex * Z) :=
  let '((complex, e), r) := pci_on_event (complex, test_event (PortRead port val)) in
  _ ← unwrap r;
  match kind e with
  | PortRead _ val => Ok (complex, of_be (PortReadRequest.as_slice val))
  | _ => Panic "unreachable"
  end.

Definition test_full_register_read : res unit :=
  complex ← complex_ready_for_reg_read 0;
  '(complex, v) ← read_port complex PCI_CONFIG_DATA (PortReadRequest.FourBytes 0 0 0 0);
  assert_eq v 0x29c08086.

Definition test_half_register_read : res unit :=
  complex ← complex_ready_for_reg_read 0;
  '(complex, v) ← read_port complex PCI_CONFIG_DATA (PortReadRequest.TwoBytes 0 0);
  _ ← assert_eq v 0x8086;
  '(complex, v) ← read_port complex (PCI_CONFIG_DATA + 2) (PortReadRequest.TwoBytes 0x80 0x86);
  assert_eq v 0x29c0.

Definition test_register_byte_read : res unit :=
  complex ← complex_ready_for_reg_read 0;
  '(complex, v) ← read_port complex PCI_CONFIG_DATA (PortReadRequest.OneByte 0);
  _ ← assert_eq v 0x86;
  '(complex, v) ← read_port complex (PCI_CONFIG_DATA + 1) (PortReadRequest.OneByte 0x86);
  _ ← assert_eq v 0x80;
  '(complex, v) ← read_port complex (PCI_CONFIG_DATA + 2) (PortReadRequest.OneByte 0x80);
  _ ← assert_eq v 0xc0;
  '(complex, v) ← read_port complex (PCI_CONFIG_DATA + 3) (PortReadRequest.OneByte 0xc0);
  assert_eq v 0x29.

(** ** The firmware configuration *)

Definition in_file_range (selector : Z) : res unit :=
  _ ← assert (selector >=? FwCfgSelector.FILE_FIRST); assert (selector <=? FwCfgSelector.FILE_LAST).

Definition test_next_file_selector_first : res unit := in_file_range (next_file_selector builder_new).

Definition test_next_file_selector_last : res unit :=
  in_file_range (next_file_selector (add_i32 (FwCfgSelector.FILE_LAST + 1) 0 builder_new)).

(** ** The suite *)

Definition unit_tests : list (res unit) := [
  test_fadt_parse_v5; test_fadt_parse_v1; test_hpet_parse; ioredtblentry_roundtrip;
  ioredtblentry_invalid_trigger_mode; ioredtblentry_unknown_bit; ioredtblentry_invalid_dest;
  ioredtblentry_write_ro_bit; ioapic_unsupported_version; test_device_map; test_write_request_try_from;
  test_portio_value_read; test_conflicting_portio_device; test_fully_overlapping_portio_device;
  test_fully_encompassing_portio_device; test_partially_overlapping_tail_portio_device;
  test_partially_overlapping_head_portio_device; test_non_overlapping_portio_device;
  test_full_register_read; test_half_register_read; test_register_byte_read;
  test_next_file_selector_first; test_next_file_selector_last].

Example unit_tests_pass : Forall (eq (Ok tt)) unit_tests.
Proof. repeat constructor; vm_compute; reflexivity. Qed.
