(* ===== verification/Channels.v ===== *)
(** * Message passing between cores, under every interleaving

    Cores share the queues of the machine set ([mythril/src/vm.rs]).  Every queue is
    behind a lock, so an execution is a sequence of whole operations by arbitrary
    cores.  The step relation runs the operations of [Vm]; the two ghost logs record,
    per core, the messages accepted for it and the messages it has received. *)

From S2P Require Import Prelude Error BTreeMap Memory VirtDev Clock Apic Timers Vm.
From stdpp Require Import relations.

Section channels.
Context {D : Type}.
Implicit Types s : VirtualMachineSet D.

Record Net := mkNet {
  net_set : VirtualMachineSet D;
  net_hw : Z -> CoreHw;                            (** the hardware of each core *)
  accepted : Z -> list VirtualMachineMsg;
  received : Z -> list VirtualMachineMsg
}.

Definition update {A} (f : Z -> A) (k : Z) (v : A) : Z -> A := fun x => if decide (x = k) then v else f x.

(** Log a message as accepted when the send succeeded. *)
Definition log_accepted (r : res unit) (msg : VirtualMachineMsg) (core : Z)
    (f : Z -> list VirtualMachineMsg) : Z -> list VirtualMachineMsg :=
  if is_ok r then update f core (f core ++ [msg]) else f.

Inductive net_step : Net -> Net -> Prop :=
| step_send n sender msg core notify s' hw' r :
    send_msg_core msg core notify (net_set n, net_hw n sender) = ((s', hw'), r) ->
    net_step n (mkNet s' (update (net_hw n) sender hw') (log_accepted r msg core (accepted n)) (received n))
| step_send_vm n sender msg id core notify s' hw' r :
    bsp_core_id (net_set n) id = Ok (Some core) ->
    send_msg msg id notify (net_set n, net_hw n sender) = ((s', hw'), r) ->
    net_step n (mkNet s' (update (net_hw n) sender hw') (log_accepted r msg core (accepted n)) (received n))
| step_recv n core s' o :
    recv_msg core (net_set n) = (s', Ok o) ->
    net_step n (mkNet s' (net_hw n) (accepted n) (update (received n) core (received n core ++ option_list o)))
| step_recv_all n core s' l :
    recv_all_msgs core (net_set n) = (s', Ok l) ->
    net_step n (mkNet s' (net_hw n) (accepted n) (update (received n) core (received n core ++ l))).

(** Every queue is empty and nothing is logged. *)
Definition net_initial (n : Net) : Prop :=
  (forall core q, queue (net_set n) core = Some q -> q = []) /\
  (forall core, accepted n core = [] /\ received n core = []).

(** A queue holds exactly what was accepted and not yet received, in order. *)
Definition lossless (n : Net) : Prop :=
  forall core,
    match queue (net_set n) core with
    | Some q => accepted n core = received n core ++ q /\ (length q <= MAX_PENDING_MSG)%nat
    | None => accepted n core = [] /\ received n core = []
    end.

Lemma initial_lossless n : net_initial n -> lossless n.
Proof.
  intros [Hq Hl] core. destruct (Hl core) as [-> ->].
  destruct (queue (net_set n) core) as [q|] eqn:E; [|done]. rewrite (Hq _ _ E). split; [done|]. cbn. lia.
Qed.

Lemma send_lossless n sender msg core notify s' hw' r :
  lossless n ->
  send_msg_core msg core notify (net_set n, net_hw n sender) = ((s', hw'), r) ->
  lossless (mkNet s' (update (net_hw n) sender hw') (log_accepted r msg core (accepted n)) (received n)).
Proof.
  intros Hn He core'. pose proof (send_msg_core_spec msg core notify (net_set n) (net_hw n sender)) as Hs.
  rewrite He in Hs. destruct Hs as [_ Hs]. pose proof (Hn core') as H'. pose proof (Hn core) as H0. cbn [net_set accepted received].
  destruct (queue (net_set n) core) as [q|]; [|by destruct Hs as (-> & -> & _)].
  case_bool_decide as Hl; [|by destruct Hs as (-> & -> & _)].
  destruct Hs as (-> & _ & -> & _). unfold log_accepted, update. cbn [is_ok]. case_decide as Hd; [|done].
  subst core'. destruct H0 as [-> _]. rewrite length_app. cbn [length].
  split; [by rewrite app_assoc|lia].
Qed.

Lemma send_msg_bsp msg id notify s hw core :
  bsp_core_id s id = Ok (Some core) -> send_msg msg id notify (s, hw) = send_msg_core msg core notify (s, hw).
Proof. intros H. unfold send_msg. by rewrite H. Qed.

Lemma recv_lossless n core s' q l rest :
  lossless n -> queue (net_set n) core = Some q -> q = l ++ rest ->
  (forall core', queue s' core' = if decide (core' = core) then Some rest else queue (net_set n) core') ->
  lossless (mkNet s' (net_hw n) (accepted n) (update (received n) core (received n core ++ l))).
Proof.
  intros Hn Hq -> Hs core'. cbn [net_set accepted received]. rewrite Hs. unfold update.
  specialize (Hn core'). case_decide as Hd; [|done]. subst core'. rewrite Hq in Hn. destruct Hn as [-> Hb].
  rewrite length_app in Hb. split; [by rewrite app_assoc|lia].
Qed.

Lemma recv_queue core s s' : (exists o, recv_msg core s = (s', Ok o)) \/ (exists l, recv_all_msgs core s = (s', Ok l)) ->
  exists q, queue s core = Some q.
Proof.
  unfold recv_msg, recv_all_msgs, queue. destruct (context_by_core_id s core); [by eexists|].
  intros [[? [=]] | [? [=]]].
Qed.

Lemma step_lossless n n' : lossless n -> net_step n n' -> lossless n'.
Proof.
  intros Hn Hs. destruct Hs as [n sender msg core notify s' hw' r He | n sender msg id core notify s' hw' r Hb He
    | n core s' o He | n core s' l He].
  - by eapply send_lossless.
  - rewrite (send_msg_bsp _ _ _ _ _ core) in He by done. by eapply send_lossless.
  - destruct (recv_queue core (net_set n) s') as [q Hq]; [by left; eexists|].
    destruct (recv_spec core (net_set n) q Hq) as [_ (s1 & H1 & _ & H2)]. rewrite He in H1. injection H1 as -> ->.
    apply (recv_lossless n core s1 q _ (tail q)); [done..| |done]. by destruct q.
  - destruct (recv_queue core (net_set n) s') as [q Hq]; [by right; eexists|].
    destruct (recv_spec core (net_set n) q Hq) as [(s1 & H1 & _ & H2) _]. rewrite He in H1. injection H1 as -> ->.
    apply (recv_lossless n core s1 q _ []); [done..| |done]. by rewrite app_nil_r.
Qed.

(** C21: messages between cores are neither lost, duplicated nor reordered.  In every
    state reachable by sends and receives of any cores in any order, what a core has
    received, followed by what is in its queue, is exactly what was accepted for it, in
    the order it was accepted; no queue ever holds more than 100 messages, and nothing
    is accepted for or received by a core without a queue. *)
Theorem messages_lossless n0 n core :
  net_initial n0 -> rtc net_step n0 n ->
  match queue (net_set n) core with
  | Some q => accepted n core = received n core ++ q /\ (length q <= 100)%nat
  | None => accepted n core = [] /\ received n core = []
  end.
Proof.
  intros H0 Hs. assert (lossless n) as Hn; [|exact (Hn core)].
  apply initial_lossless in H0. induction Hs as [|n n1 n2 Hs _ IH]; [done|]. by apply IH, (step_lossless n).
Qed.
End channels.
Arguments Net : clear implicits.

(** Core 1 sends two messages to core 2, which receives the first. *)
Lemma messages_lossless_witness :
  let s := mkSet (D := unit) [mkContext 1 0 []; mkContext 2 0 []] [] in
  let n0 := mkNet s (fun _ => mkHw 0 []) (fun _ => []) (fun _ => []) in
  exists n, rtc net_step n0 n /\ queue (net_set n) 2 = Some [GrantConsole 0x3f8] /\
    accepted n 2 = received n 2 ++ [GrantConsole 0x3f8] /\ received n 2 = [StartVcpu 0x8000].
Proof.
  intros s n0.
  assert (exists n, rtc net_step n0 n /\ queue (net_set n) 2 = Some [GrantConsole 0x3f8] /\
    received n 2 = [StartVcpu 0x8000]) as (n & Hr & Hq & Hc).
  { eexists. split; [|split].
    - eapply rtc_l; [eapply (step_send n0 1 (StartVcpu 0x8000) 2 false); reflexivity|].
      eapply rtc_l; [eapply (step_send _ 1 (GrantConsole 0x3f8) 2 true); reflexivity|].
      eapply rtc_l; [eapply (step_recv _ 2); reflexivity|]. apply rtc_refl.
    - reflexivity.
    - reflexivity. }
  exists n. split; [exact Hr|]. split; [exact Hq|]. split; [|exact Hc].
  pose proof (messages_lossless n0 n 2) as H. rewrite Hq in H. apply H; [|exact Hr].
  split; [|intros; split; reflexivity]. intros core q. unfold queue, context_by_core_id. cbn.
  repeat case_decide; cbn; intros; congruence.
Defined.
