(* ===== verification/Logger.v ===== *)
(** * The text console ([mythril/src/logger.rs])

    Console output is mirrored to the VGA text buffer: 25 rows of 80 cells.  An index
    out of range panics, as the source's array accesses do. *)

From S2P Require Import Prelude Error.

Definition VGA_WIDTH : nat := 80.
Definition VGA_HEIGHT : nat := 25.
Definition VGA_ATTRIB : Z := 0x0f00.

(** [[[u16; VGA_WIDTH]; VGA_HEIGHT]] *)
Notation Screen := (list (list Z)).

Definition read_cell (row col : nat) (m : Screen) : res Z :=
  line ← expect (m !! row) "index out of bounds";
  expect (line !! col) "index out of bounds".

Definition write_cell (row col : nat) (v : Z) (m : Screen) : res Screen :=
  line ← expect (m !! row) "index out of bounds";
  if bool_decide (col < length line)%nat then Ok (<[row := <[col := v]> line]> m)
  else Panic "index out of bounds".

(** [for i in l { body }] on the screen *)
Fixpoint for_each {X} (l : list X) (body : X -> Screen -> res Screen) (m : Screen) : res Screen :=
  match l with
  | [] => Ok m
  | i :: r => m ← body i m; for_each r body m
  end.

Definition clear_line_vga (row : nat) : Screen -> res Screen :=
  for_each (seq 0 VGA_WIDTH) (fun col => write_cell row col (Z.lor VGA_ATTRIB 0x20)).

Definition clear_vga : Screen -> res Screen :=
  for_each (seq 0 VGA_HEIGHT) clear_line_vga.

Definition copy_cell (row col : nat) (m : Screen) : res Screen :=
  v ← read_cell row col m; write_cell (row - 1) col v m.

Definition scroll_vga (m : Screen) : res Screen :=
  m ← for_each (seq 1 (VGA_HEIGHT - 1)) (fun row => for_each (seq 0 VGA_WIDTH) (copy_cell row)) m;
  clear_line_vga (VGA_HEIGHT - 1) m.

Record Cursor := mkCursor { cur_col : nat; cur_row : nat }.

#[export] Instance Cursor_eq_dec : EqDecision Cursor.
Proof. solve_decision. Defined.

(** One byte of [raw_write_vga]'s loop. *)
Definition write_byte (byte : Z) (c : Cursor) (m : Screen) : res (Cursor * Screen) :=
  if byte =? 0x0a then Ok (mkCursor 0 (cur_row c + 1), m)
  else if byte =? 0x0d then Ok (mkCursor 0 (cur_row c), m)
  else
    '(row, m) ←
      (if bool_decide (VGA_HEIGHT <= cur_row c)%nat then m ← scroll_vga m; Ok ((VGA_HEIGHT - 1)%nat, m)
       else Ok (cur_row c, m));
    m ← write_cell row (cur_col c) (Z.lor VGA_ATTRIB byte) m;
    let col := (cur_col c + 1)%nat in
    Ok (if bool_decide (VGA_WIDTH <= col)%nat then mkCursor 0 (row + 1) else mkCursor col row, m).

Fixpoint raw_write_vga (s : list Z) (c : Cursor) (m : Screen) : res (Cursor * Screen) :=
  match s with
  | [] => Ok (c, m)
  | byte :: r => '(c, m) ← write_byte byte c m; raw_write_vga r c m
  end.

(** [VgaWriter::new] and [VgaWriter::write] *)
Definition writer_new : Cursor := mkCursor 0 0.

Definition writer_write (s : list Z) (w : Cursor) (m : Screen) : res (Cursor * Screen) :=
  m ← (if bool_decide (cur_col w = 0%nat) && bool_decide (cur_row w = 0%nat) then clear_vga m else Ok m);
  raw_write_vga s w m.

(** ** The loops *)

Definition screen_wf (m : Screen) : Prop := length m = VGA_HEIGHT /\ Forall (fun l => length l = VGA_WIDTH) m.
Definition blank_line : list Z := replicate VGA_WIDTH (Z.lor VGA_ATTRIB 0x20).

Lemma screen_line m row : screen_wf m -> (row < VGA_HEIGHT)%nat -> exists line, m !! row = Some line /\ length line = VGA_WIDTH.
Proof.
  intros [Hl Hw] Hr. destruct (lookup_lt_is_Some_2 m row) as [line Hline]; [lia|].
  exists line. split; [done|]. rewrite Forall_forall in Hw. by apply Hw, (list_elem_of_lookup_2 m row).
Qed.

Lemma write_cell_Ok m row col v line :
  m !! row = Some line -> (col < length line)%nat -> write_cell row col v m = Ok (<[row := <[col := v]> line]> m).
Proof. intros Hm Hc. unfold write_cell. rewrite Hm. cbn [expect mbind res_bind]. by rewrite bool_decide_true. Qed.

Lemma screen_insert m row line :
  screen_wf m -> length line = VGA_WIDTH -> screen_wf (<[row := line]> m).
Proof. intros [Hl Hw] H. split; [by rewrite length_insert|]. by apply Forall_insert. Qed.

(** A loop that writes the cells of one row from left to right fills the row. *)
Lemma fill_row body f m row w n k line :
  (row < length m)%nat -> (k + n)%nat = w -> length line = w ->
  (forall col line', (col < w)%nat -> length line' = w ->
     body col (<[row := line']> m) = write_cell row col (f col) (<[row := line']> m)) ->
  for_each (seq k n) body (<[row := line]> m) = Ok (<[row := take k line ++ (f <$> seq k n)]> m).
Proof.
  intros Hr Hkn Hl Hb. revert k line Hkn Hl. induction n as [|n IH]; intros k line Hkn Hl; cbn [seq for_each fmap list_fmap].
  - rewrite app_nil_r, take_ge by lia. done.
  - rewrite Hb by (done || lia). rewrite (write_cell_Ok _ _ _ _ line) by (lia || by rewrite list_lookup_insert_eq by done).
    cbn [mbind res_bind]. rewrite list_insert_insert_eq. rewrite IH by (rewrite ?length_insert; lia). do 2 f_equal.
    rewrite (take_S_r _ k (f k)) by (apply list_lookup_insert_eq; lia). rewrite take_insert_ge by lia.
    by rewrite <- app_assoc.
Qed.

Lemma fmap_const_seq {A} (x : A) k n : (fun _ => x) <$> seq k n = replicate n x.
Proof. revert k. induction n as [|n IH]; intros k; cbn; [done|]. by rewrite IH. Qed.

Lemma clear_line_spec m row : screen_wf m -> (row < VGA_HEIGHT)%nat ->
  clear_line_vga row m = Ok (<[row := blank_line]> m).
Proof.
  intros Hm Hr. destruct (screen_line m row Hm Hr) as (line & Hline & Hl).
  unfold clear_line_vga. rewrite <- (list_insert_id m row line Hline) at 1.
  rewrite (fill_row _ (fun _ => Z.lor VGA_ATTRIB 0x20) m row VGA_WIDTH); [|by apply lookup_lt_Some in Hline|done..].
  by rewrite fmap_const_seq.
Qed.

Lemma copy_row_spec m row : screen_wf m -> (0 < row < VGA_HEIGHT)%nat ->
  exists line, m !! row = Some line /\ for_each (seq 0 VGA_WIDTH) (copy_cell row) m = Ok (<[(row - 1)%nat := line]> m).
Proof.
  intros Hm Hr. destruct (screen_line m row Hm) as (src & Hsrc & Hl); [lia|].
  destruct (screen_line m (row - 1) Hm) as (dst & Hdst & Hl'); [lia|].
  exists src. split; [done|]. rewrite <- (list_insert_id m _ dst Hdst) at 1.
  rewrite (fill_row _ (fun col => default 0 (src !! col)) m _ VGA_WIDTH); [|by apply lookup_lt_Some in Hdst|done..|].
  - do 2 f_equal. rewrite take_0, app_nil_l. apply list_eq. intros i. rewrite list_lookup_fmap.
    destruct (decide (i < VGA_WIDTH)%nat) as [Hi|Hi].
    + rewrite lookup_seq_lt by lia. cbn [fmap option_fmap option_map Nat.add].
      by destruct (lookup_lt_is_Some_2 src i) as [x ->]; [lia|].
    + rewrite lookup_seq_ge, lookup_ge_None_2 by lia. done.
  - intros col line' Hc Hline'. unfold copy_cell, read_cell.
    rewrite list_lookup_insert_ne by lia. rewrite Hsrc. cbn [expect mbind res_bind].
    by destruct (lookup_lt_is_Some_2 src col) as [x ->]; [lia|].
Qed.

(** Scrolling, cell by cell, is dropping the top row and appending a blank one. *)
Lemma copy_rows_spec m n k : screen_wf m -> (0 < k)%nat -> (k + n <= VGA_HEIGHT)%nat ->
  exists m', for_each (seq k n) (fun row => for_each (seq 0 VGA_WIDTH) (copy_cell row)) m = Ok m' /\ screen_wf m' /\
    forall i, m' !! i = if decide (k - 1 <= i < k + n - 1)%nat then m !! S i else m !! i.
Proof.
  revert m k. induction n as [|n IH]; intros m k Hm Hk Hn; cbn [seq for_each].
  - exists m. split; [done|]. split; [done|]. intros i. case_decide; [lia|done].
  - destruct (copy_row_spec m k Hm) as (line & Hline & ->); [lia|]. cbn [mbind res_bind].
    assert (length line = VGA_WIDTH) as Hl.
    { destruct (screen_line m k Hm) as (l & Hl & ?); [lia|]. congruence. }
    destruct (IH (<[(k - 1)%nat := line]> m) (S k)) as (m' & -> & Hm' & Hi); [by apply screen_insert|lia..|].
    exists m'. split; [done|]. split; [done|]. intros i. rewrite Hi. destruct Hm as [Hlm _].
    repeat case_decide; try lia.
    + by rewrite list_lookup_insert_ne by lia.
    + assert (i = k - 1)%nat as -> by lia. rewrite list_lookup_insert_eq by lia.
      by replace (S (k - 1)) with k by lia.
    + by rewrite list_lookup_insert_ne by lia.
Qed.

Lemma scroll_vga_spec m : screen_wf m -> scroll_vga m = Ok (drop 1 m ++ [blank_line]).
Proof.
  intros Hm. destruct (copy_rows_spec m (VGA_HEIGHT - 1) 1 Hm) as (m' & He & Hm' & Hi); [unfold VGA_HEIGHT; lia..|].
  unfold scroll_vga. rewrite He. cbn [mbind res_bind].
  rewrite clear_line_spec by (done || unfold VGA_HEIGHT; lia). f_equal. apply list_eq. intros i.
  destruct Hm as [Hl _]. destruct Hm' as [Hl' _]. unfold VGA_HEIGHT in *.
  destruct (decide (i = 24)%nat) as [->|Hne].
  - rewrite list_lookup_insert_eq by lia. rewrite lookup_app_r by (rewrite length_drop; lia).
    rewrite length_drop, Hl. done.
  - rewrite list_lookup_insert_ne by lia. rewrite Hi. case_decide as Hd.
    + rewrite lookup_app_l by (rewrite length_drop; lia). by rewrite lookup_drop.
    + rewrite !lookup_ge_None_2 by (rewrite ?length_app, ?length_drop; cbn; lia). done.
Qed.

(** ** Writing *)

Definition printable (b : Z) : Prop := b <> 0x0a /\ b <> 0x0d.

(** The screen and row a printable byte goes to: past the bottom, one row is scrolled. *)
Definition scrolled (c : Cursor) (m : Screen) : Screen :=
  if bool_decide (VGA_HEIGHT <= cur_row c)%nat then drop 1 m ++ [blank_line] else m.
Definition target_row (c : Cursor) : nat := (cur_row c `min` (VGA_HEIGHT - 1))%nat.

Lemma scrolled_wf c m : screen_wf m -> screen_wf (scrolled c m).
Proof.
  intros [Hl Hw]. unfold scrolled. case_bool_decide; [|done]. split.
  - rewrite length_app, length_drop, Hl. done.
  - apply Forall_app. split; [by apply Forall_drop|]. by repeat constructor.
Qed.

Lemma target_row_lt c : (target_row c < VGA_HEIGHT)%nat.
Proof. unfold target_row, VGA_HEIGHT. lia. Qed.

Lemma write_byte_printable b c m line :
  screen_wf m -> (cur_col c < VGA_WIDTH)%nat -> printable b -> scrolled c m !! target_row c = Some line ->
  write_byte b c m = Ok
    (if bool_decide (VGA_WIDTH <= cur_col c + 1)%nat then mkCursor 0 (target_row c + 1) else mkCursor (cur_col c + 1) (target_row c),
     <[target_row c := <[cur_col c := Z.lor VGA_ATTRIB b]> line]> (scrolled c m)).
Proof.
  intros Hm Hc [Hn Hr] Hline.
  assert (length line = VGA_WIDTH) as Hl.
  { destruct (screen_line _ _ (scrolled_wf c m Hm) (target_row_lt c)) as (l & ? & ?). congruence. }
  unfold write_byte. rewrite (proj2 (Z.eqb_neq b _) Hn), (proj2 (Z.eqb_neq b _) Hr).
  unfold scrolled, target_row in *. case_bool_decide as Hb.
  - rewrite Nat.min_r in * by lia. rewrite scroll_vga_spec by done. cbn [mbind res_bind].
    rewrite (write_cell_Ok _ _ _ _ line) by (done || lia). done.
  - rewrite Nat.min_l in * by (unfold VGA_HEIGHT in *; lia). cbn [mbind res_bind].
    rewrite (write_cell_Ok _ _ _ _ line) by (done || lia). done.
Qed.

Lemma write_byte_wf b c m : screen_wf m -> (cur_col c < VGA_WIDTH)%nat ->
  exists c' m', write_byte b c m = Ok (c', m') /\ screen_wf m' /\ (cur_col c' < VGA_WIDTH)%nat.
Proof.
  intros Hm Hc. destruct (decide (b = 0x0a)) as [->|Hn].
  { eexists _, _. split; [reflexivity|]. split; [done|]. cbn [cur_col]. unfold VGA_WIDTH. lia. }
  destruct (decide (b = 0x0d)) as [->|Hr].
  { eexists _, _. split; [reflexivity|]. split; [done|]. cbn [cur_col]. unfold VGA_WIDTH. lia. }
  destruct (screen_line _ _ (scrolled_wf c m Hm) (target_row_lt c)) as (line & Hline & Hl).
  rewrite (write_byte_printable _ _ _ line) by done. eexists _, _. split; [reflexivity|]. split.
  - apply screen_insert; [by apply scrolled_wf|]. by rewrite length_insert.
  - case_bool_decide; cbn [cur_col]; unfold VGA_WIDTH in *; lia.
Qed.

Lemma raw_write_wf s c m : screen_wf m -> (cur_col c < VGA_WIDTH)%nat ->
  exists c' m', raw_write_vga s c m = Ok (c', m') /\ screen_wf m' /\ (cur_col c' < VGA_WIDTH)%nat.
Proof.
  revert c m. induction s as [|b s IH]; intros c m Hm Hc; cbn [raw_write_vga]; [by eauto 6|].
  destruct (write_byte_wf b c m Hm Hc) as (c1 & m1 & -> & H1 & H2). cbn [mbind res_bind]. by apply IH.
Qed.

Lemma clear_rows_spec n k m : screen_wf m -> (k + n <= VGA_HEIGHT)%nat ->
  exists m', for_each (seq k n) clear_line_vga m = Ok m' /\ screen_wf m' /\
    forall i, m' !! i = if decide (k <= i < k + n)%nat then Some blank_line else m !! i.
Proof.
  revert k m. induction n as [|n IH]; intros k m Hm Hn; cbn [seq for_each].
  - exists m. split; [done|]. split; [done|]. intros i. case_decide; [lia|done].
  - rewrite clear_line_spec by (done || lia). cbn [mbind res_bind].
    destruct (IH (S k) (<[k := blank_line]> m)) as (m' & -> & Hm' & Hi); [by apply screen_insert|lia|].
    exists m'. split; [done|]. split; [done|]. intros i. rewrite Hi. destruct Hm as [Hl _].
    destruct (decide (i = k)) as [->|Hne].
    + rewrite decide_False, decide_True by lia. apply list_lookup_insert_eq. lia.
    + rewrite list_lookup_insert_ne by done. repeat case_decide; done || lia.
Qed.

Lemma clear_vga_spec m : screen_wf m -> clear_vga m = Ok (replicate VGA_HEIGHT blank_line).
Proof.
  intros Hm. destruct (clear_rows_spec VGA_HEIGHT 0 m Hm) as (m' & He & [Hl _] & Hi); [done|].
  unfold clear_vga. rewrite He. f_equal. apply list_eq. intros i. rewrite Hi. destruct Hm as [Hlm _]. case_decide.
  - symmetry. apply lookup_replicate. split; [done|lia].
  - rewrite !lookup_ge_None_2 by (rewrite ?length_replicate; lia). done.
Qed.

Lemma cleared_wf : screen_wf (replicate VGA_HEIGHT blank_line).
Proof. split; [by rewrite length_replicate|]. by apply Forall_replicate. Qed.

(** Text that fits the row is written into it. *)
Lemma raw_write_text text c m line :
  screen_wf m -> (cur_col c + length text < VGA_WIDTH)%nat -> Forall printable text -> (cur_row c < VGA_HEIGHT)%nat ->
  m !! cur_row c = Some line ->
  raw_write_vga text c m = Ok
    (mkCursor (cur_col c + length text) (cur_row c),
     <[cur_row c := take (cur_col c) line ++ (Z.lor VGA_ATTRIB <$> text) ++ drop (cur_col c + length text) line]> m).
Proof.
  intros Hm Hc Hp. revert c m line Hm Hc. induction Hp as [|b text Hb Hp IH]; intros [col row] m line Hm Hc Hr Hline;
    cbn [raw_write_vga length cur_col cur_row] in *.
  - rewrite Nat.add_0_r. cbn [fmap list_fmap app]. rewrite take_drop, list_insert_id by done. done.
  - assert (length line = VGA_WIDTH) as Hl.
    { destruct (screen_line m row Hm Hr) as (l & ? & ?). congruence. }
    assert (scrolled (mkCursor col row) m = m) as Hs.
    { unfold scrolled. cbn [cur_row]. rewrite bool_decide_false by lia. done. }
    assert (target_row (mkCursor col row) = row) as Ht by (unfold target_row; cbn [cur_row]; lia).
    rewrite (write_byte_printable _ _ _ line); rewrite ?Hs, ?Ht; cbn [cur_col]; try done; [|lia].
    rewrite bool_decide_false by lia. cbn [mbind res_bind].
    rewrite (IH (mkCursor (col + 1) row) _ (<[col := Z.lor VGA_ATTRIB b]> line)); cbn [cur_col cur_row].
    + replace (col + 1 + length text)%nat with (col + S (length text))%nat by lia.
      rewrite list_insert_insert_eq. cbn [fmap list_fmap]. rewrite drop_insert_lt by lia.
      rewrite Nat.add_1_r, (take_S_r _ col (Z.lor VGA_ATTRIB b)) by (apply list_lookup_insert_eq; lia).
      rewrite take_insert_ge by lia. by rewrite <- app_assoc.
    + apply screen_insert; [done|]. by rewrite length_insert.
    + lia.
    + done.
    + apply list_lookup_insert_eq. by apply lookup_lt_Some in Hline.
Qed.


