(* ===== verification/Linux.v ===== *)
(** * Loading a Linux guest ([mythril/src/linux.rs])

    The kernel image is patched as the x86 boot protocol asks of a boot loader and
    split into its real-mode set-up part and its protected-mode part; all parts are
    handed to the guest's boot ROM as firmware configuration items. *)

From S2P Require Import Prelude Error BTreeMap Memory GuestMemory VirtDev Vm VmMemory FwCfg Acpi.

Module BootOffsets.
Definition OLD_CMD_LINE_MAGIC : nat := 0x20.
Definition SETUP_SECTS : nat := 0x1f1.
Definition OLD_CMD_LINE_OFFSET : nat := 0x22.
Definition HEADER_MAGIC : nat := 0x202.
Definition BOOTP_VERSION : nat := 0x206.
Definition TYPE_OF_LOADER : nat := 0x210.
Definition LOAD_FLAGS : nat := 0x211.
Definition RAMDISK_IMAGE : nat := 0x218.
Definition RAMDISK_SIZE : nat := 0x21c.
Definition HEAP_END_PTR : nat := 0x224.
Definition CMD_LINE_PTR : nat := 0x228.
Definition INITRD_ADDR_MAX : nat := 0x22c.
Definition XLOAD_FLAGS : nat := 0x236.
End BootOffsets.

Definition HEADER_MAGIC_VALUE : Z := 0x53726448.
Definition OLD_CMD_LINE_MAGIC_VALUE : Z := 0xa33f.
Definition QEMU_LOADER : Z := 0xb0.

Definition LOADED_HIGH : Z := Z.shiftl 1 0.
Definition CAN_USE_HEAP : Z := Z.shiftl 1 7.
Definition CAN_BE_LOADED_ABOVE_4G : Z := Z.shiftl 1 1.

(** [x as i32] *)
Definition i32 (x : Z) : Z := (x + 2 ^ 31) mod 2 ^ 32 - 2 ^ 31.

Definition kernel_u16 (kernel : list Z) (off : nat) : res Z := read_le kernel off (off + 2).
Definition kernel_u32 (kernel : list Z) (off : nat) : res Z := read_le kernel off (off + 4).

(** Where the set-up part, the command line and the protected-mode part go. *)
Definition load_addresses (protocol load_flags cmdline_len : Z) : Z * Z * Z :=
  if (protocol <? 0x200) || (Z.land load_flags LOADED_HIGH =? 0)
  then (0x90000, i32 (0x9a000 - i32 cmdline_len), 0x10000)
  else if protocol <? 0x202 then (0x90000, i32 (0x9a000 - i32 cmdline_len), 0x100000)
  else (0x10000, 0x20000, 0x100000).

(** The highest address of the initial RAM disk. *)
Definition initrd_max_of (protocol xload_flags initrd_addr_max memory : Z) : Z :=
  let initrd_max :=
    if (0x20c <=? protocol) && negb (Z.land xload_flags CAN_BE_LOADED_ABOVE_4G =? 0) then 0xffffffff
    else if 0x203 <=? protocol then initrd_addr_max
    else 0x37ffffff in
  if (memory <? 4 * 1024) && (u64 (Z.shiftl memory 20) <=? initrd_max)
  then u32 (u32 (u64 (Z.shiftl memory 20)) - 1)
  else initrd_max.

(** The header fields for the command line, the loader type and the heap. *)
Definition patch_cmdline (protocol real_addr cmdline_addr : Z) (kernel : list Z) : list Z :=
  if 0x202 <=? protocol then blit kernel BootOffsets.CMD_LINE_PTR (le_bytes 4 cmdline_addr)
  else
    let kernel := blit kernel BootOffsets.OLD_CMD_LINE_MAGIC (le_bytes 2 OLD_CMD_LINE_MAGIC_VALUE) in
    blit kernel BootOffsets.OLD_CMD_LINE_OFFSET (le_bytes 2 (cmdline_addr - real_addr)).

Definition patch_loader (protocol : Z) (kernel : list Z) : list Z :=
  if 0x200 <=? protocol then <[BootOffsets.TYPE_OF_LOADER := QEMU_LOADER]> kernel else kernel.

Definition patch_heap (protocol real_addr cmdline_addr : Z) (kernel : list Z) : list Z :=
  if 0x201 <=? protocol then
    let kernel := alter (fun f => Z.lor f CAN_USE_HEAP) BootOffsets.LOAD_FLAGS kernel in
    blit kernel BootOffsets.HEAP_END_PTR (le_bytes 2 (cmdline_addr - real_addr - 0x200))
  else kernel.

Definition patch_ramdisk (initrd_addr len : Z) (kernel : list Z) : list Z :=
  blit (blit kernel BootOffsets.RAMDISK_IMAGE (le_bytes 4 initrd_addr)) BootOffsets.RAMDISK_SIZE (le_bytes 4 len).

(** The size of the set-up part: the sector count is a [u8], its successor wraps. *)
Definition setup_size_of (setup_sects : Z) : Z :=
  (if setup_sects =? 0 then 4 + 1 else u8 (setup_sects + 1)) * 512.

Definition on_builder (f : QemuFwCfgBuilder -> QemuFwCfgBuilder) : st QemuFwCfgBuilder unit := modify f.

(** The last part of [load_linux]: the protected-mode code and the set-up code. *)
Definition publish_kernel (prot_addr real_addr setup_size : Z) (kernel : list Z) : st QemuFwCfgBuilder unit :=
  let kernel_size := Z.of_nat (length kernel) - setup_size in
  _ ← on_builder (add_i32 FwCfgSelector.KERNEL_ADDR prot_addr);
  _ ← on_builder (add_i32 FwCfgSelector.KERNEL_SIZE kernel_size);
  _ ← on_builder (add_bytes FwCfgSelector.KERNEL_DATA (drop (Z.to_nat setup_size) kernel));
  _ ← on_builder (add_i32 FwCfgSelector.SETUP_ADDR real_addr);
  _ ← on_builder (add_i32 FwCfgSelector.SETUP_SIZE setup_size);
  on_builder (add_bytes FwCfgSelector.SETUP_DATA (take (Z.to_nat setup_size) kernel)).

Definition load_linux (modules : list BootModule) (kernel_name initramfs_name : string) (cmdline : list Z) (memory : Z)
    : st QemuFwCfgBuilder unit :=
  kernel ← lift (ok_or (module_data <$> find_module modules kernel_name) (InvalidValue (str "No such kernel '{}'")));
  initramfs ← lift (ok_or (module_data <$> find_module modules initramfs_name)
    (InvalidValue (str "No such initramfs '{}'")));
  if Z.of_nat (length kernel) <? 8192 then
    err (InvalidValue (Msg "Kernel image is too small ({} < 8192)" [Z.of_nat (length kernel)]))
  else
  magic ← lift (kernel_u32 kernel BootOffsets.HEADER_MAGIC);
  if negb (magic =? HEADER_MAGIC_VALUE) then
    err (InvalidValue (Msg "Invalid kernel image (bad magic = 0x{:x})" [magic]))
  else
  protocol ← lift (kernel_u16 kernel BootOffsets.BOOTP_VERSION);
  load_flags ← lift (read_u8 kernel BootOffsets.LOAD_FLAGS);
  let cmdline_len := Z.of_nat (length cmdline) in
  let '(real_addr, cmdline_addr, prot_addr) := load_addresses protocol load_flags cmdline_len in
  xload_flags ← lift (kernel_u16 kernel BootOffsets.XLOAD_FLAGS);
  initrd_addr_max ← lift (kernel_u32 kernel BootOffsets.INITRD_ADDR_MAX);
  let initrd_max := initrd_max_of protocol xload_flags initrd_addr_max memory in
  _ ← on_builder (add_i32 FwCfgSelector.CMDLINE_ADDR cmdline_addr);
  _ ← on_builder (add_bytes FwCfgSelector.CMDLINE_DATA cmdline);
  _ ← on_builder (add_i32 FwCfgSelector.CMDLINE_SIZE cmdline_len);
  let kernel := patch_cmdline protocol real_addr cmdline_addr kernel in
  let kernel := patch_loader protocol kernel in
  let kernel := patch_heap protocol real_addr cmdline_addr kernel in
  if protocol <? 0x200 then err (InvalidValue (str "Kernel too old for initrd support"))
  else
  let len := u32 (Z.of_nat (length initramfs)) in
  if len >? initrd_max then
    err (InvalidValue (Msg "Initramfs too large (0x{:x} bytes > max of 0x{:x})" [Z.of_nat (length initramfs); initrd_max]))
  else
  let initrd_addr := Z.land (initrd_max - len) (bnot 32 4095) in
  _ ← on_builder (add_i32 FwCfgSelector.INITRD_ADDR initrd_addr);
  _ ← on_builder (add_i32 FwCfgSelector.INITRD_SIZE (Z.of_nat (length initramfs)));
  _ ← on_builder (add_bytes FwCfgSelector.INITRD_DATA initramfs);
  let kernel := patch_ramdisk initrd_addr (Z.of_nat (length initramfs)) kernel in
  setup_sects ← lift (read_u8 kernel BootOffsets.SETUP_SECTS);
  let setup_size := setup_size_of setup_sects in
  if setup_size >? Z.of_nat (length kernel) then
    err (InvalidValue (str "Invalid kernel header (setup size > kernel size)"))
  else
  publish_kernel prot_addr real_addr setup_size kernel.

(** ** The patched image *)

Definition item (b : QemuFwCfgBuilder) (s : Z) : option (list Z) := bt_get Z.compare s (builder_data b).

Lemma item_add_bytes b s s' d : item (add_bytes s d b) s' = if decide (s' = s) then Some d else item b s'.
Proof. apply int_get_insert. Qed.
Lemma item_add_i32 b s s' x : item (add_i32 s x b) s' = if decide (s' = s) then Some (le_bytes 4 x) else item b s'.
Proof. apply int_get_insert. Qed.

(** The header bytes a boot loader writes. *)
Definition loader_field (i : nat) : Prop :=
  (0x20 <= i < 0x24 \/ i = 0x210 \/ i = 0x211 \/ 0x218 <= i < 0x220 \/ 0x224 <= i < 0x226 \/ 0x228 <= i < 0x22c)%nat.

(** [k'] has the length of [k] and differs from it at most in loader fields. *)
Definition patched (k k' : list Z) : Prop :=
  length k' = length k /\ forall i, ~ loader_field i -> k' !! i = k !! i.

Lemma patched_trans k k' k'' : patched k k' -> patched k' k'' -> patched k k''.
Proof. intros [Hl He] [Hl' He']. split; [lia|]. intros i Hi. by rewrite He', He. Qed.

Lemma blit_patched k a bs :
  (a + length bs <= length k)%nat -> (forall i, a <= i < a + length bs -> loader_field i)%nat -> patched k (blit k a bs).
Proof.
  intros Hl Hf. split; [by apply length_blit|]. intros i Hi. apply blit_lookup_ne; [done|].
  destruct (decide (a <= i < a + length bs)%nat) as [Hr|]; [by apply Hf in Hr|lia].
Qed.

Lemma le_blit_patched k a n x :
  (0x238 <= length k)%nat -> (a + n <= 0x238)%nat -> (forall i, a <= i < a + n -> loader_field i)%nat ->
  patched k (blit k a (le_bytes n x)).
Proof. intros H1 H2 H3. apply blit_patched; rewrite length_le_bytes; [lia|done]. Qed.

Ltac offsets :=
  unfold BootOffsets.OLD_CMD_LINE_MAGIC, BootOffsets.OLD_CMD_LINE_OFFSET, BootOffsets.TYPE_OF_LOADER,
    BootOffsets.LOAD_FLAGS, BootOffsets.RAMDISK_IMAGE, BootOffsets.RAMDISK_SIZE, BootOffsets.HEAP_END_PTR,
    BootOffsets.CMD_LINE_PTR in *; lia.
Ltac loader_solve := unfold loader_field; intros; offsets.

Lemma patch_cmdline_patched p r c k : (0x238 <= length k)%nat -> patched k (patch_cmdline p r c k).
Proof.
  intros Hk. unfold patch_cmdline. destruct (0x202 <=? p); [apply le_blit_patched; [done|offsets|loader_solve]|].
  pose proof (le_blit_patched k BootOffsets.OLD_CMD_LINE_MAGIC 2 OLD_CMD_LINE_MAGIC_VALUE) as H.
  eapply patched_trans; [apply H; [done|offsets|loader_solve]|].
  apply le_blit_patched; [destruct H as [-> _]; [done|offsets|loader_solve|done]|offsets|loader_solve].
Qed.

Lemma patch_loader_patched p k : patched k (patch_loader p k).
Proof.
  unfold patch_loader. destruct (0x200 <=? p); [|done]. split; [apply length_insert|].
  intros i Hi. apply list_lookup_insert_ne. intros <-. apply Hi. loader_solve.
Qed.

Lemma patch_heap_patched p r c k : (0x238 <= length k)%nat -> patched k (patch_heap p r c k).
Proof.
  intros Hk. unfold patch_heap. destruct (0x201 <=? p); [|done].
  eapply patched_trans; [split; [apply length_alter|]|apply le_blit_patched; [by rewrite length_alter|offsets|loader_solve]].
  intros i Hi. apply list_lookup_alter_ne. intros <-. apply Hi. loader_solve.
Qed.

Lemma patch_ramdisk_patched a n k : (0x238 <= length k)%nat -> patched k (patch_ramdisk a n k).
Proof.
  intros Hk. unfold patch_ramdisk. apply (patched_trans _ (blit k BootOffsets.RAMDISK_IMAGE (le_bytes 4 a))); [apply le_blit_patched; [done|offsets|loader_solve]|].
  apply le_blit_patched; [|offsets|loader_solve]. rewrite length_blit; [done|]. rewrite length_le_bytes. offsets.
Qed.

Lemma read_le_blit k a n x :
  (a + n <= length k)%nat -> is_u (8 * Z.of_nat n) x -> read_le (blit k a (le_bytes n x)) a (a + n) = Ok x.
Proof.
  intros Ha Hx. unfold read_le. pose proof (slice_blit k a (le_bytes n x)) as Hs. rewrite length_le_bytes in Hs.
  rewrite Hs by done. cbn [fmap option_fmap option_map expect]. by rewrite of_le_bytes, wrap_small.
Qed.

Lemma ramdisk_fields a n k :
  (0x238 <= length k)%nat -> is_u 32 a -> is_u 32 n ->
  kernel_u32 (patch_ramdisk a n k) BootOffsets.RAMDISK_IMAGE = Ok a /\
  kernel_u32 (patch_ramdisk a n k) BootOffsets.RAMDISK_SIZE = Ok n.
Proof.
  intros Hk Ha Hn. unfold kernel_u32, patch_ramdisk.
  assert (length (blit k BootOffsets.RAMDISK_IMAGE (le_bytes 4 a)) = length k) as Hl.
  { apply length_blit. rewrite length_le_bytes. offsets. }
  split; [|apply read_le_blit; [rewrite Hl; offsets|done]].
  unfold read_le. rewrite (slice_ext _ (blit k BootOffsets.RAMDISK_IMAGE (le_bytes 4 a))).
  - apply read_le_blit; [offsets|done].
  - apply length_blit. rewrite length_le_bytes, Hl. offsets.
  - intros i Hi. apply blit_lookup_ne; rewrite length_le_bytes, ?Hl; offsets.
Qed.

(** Reading a field that a later patch does not touch. *)
Lemma read_le_same k k' a b :
  length k' = length k -> (forall i, (a <= i < b)%nat -> k' !! i = k !! i) -> read_le k' a b = read_le k a b.
Proof. intros Hl He. unfold read_le. by rewrite (slice_ext k' k). Qed.

Lemma read_le_wrap k a n x :
  (a + n <= length k)%nat -> read_le (blit k a (le_bytes n x)) a (a + n) = Ok (wrap (8 * Z.of_nat n) x).
Proof.
  intros Ha. unfold read_le. pose proof (slice_blit k a (le_bytes n x)) as Hs. rewrite length_le_bytes in Hs.
  rewrite Hs by done. cbn [fmap option_fmap option_map expect]. by rewrite of_le_bytes.
Qed.

Lemma patch_ramdisk_ne a n k i : (0x238 <= length k)%nat -> ~ (0x218 <= i < 0x220)%nat -> patch_ramdisk a n k !! i = k !! i.
Proof.
  intros Hk Hi. unfold patch_ramdisk.
  rewrite !blit_lookup_ne; rewrite ?length_blit; rewrite ?length_le_bytes; done || offsets.
Qed.

Lemma patch_heap_ne p r c k i :
  (0x238 <= length k)%nat -> i <> 0x211%nat -> ~ (0x224 <= i < 0x226)%nat -> patch_heap p r c k !! i = k !! i.
Proof.
  intros Hk Hi Hj. unfold patch_heap. destruct (0x201 <=? p); [|done].
  rewrite blit_lookup_ne; rewrite ?length_alter, ?length_le_bytes; [|offsets..].
  apply list_lookup_alter_ne. unfold BootOffsets.LOAD_FLAGS. lia.
Qed.

Lemma patch_loader_ne p k i : i <> 0x210%nat -> patch_loader p k !! i = k !! i.
Proof.
  intros Hi. unfold patch_loader. destruct (0x200 <=? p); [|done]. apply list_lookup_insert_ne.
  unfold BootOffsets.TYPE_OF_LOADER. lia.
Qed.

Lemma patch_cmdline_ne p r c k i :
  (0x238 <= length k)%nat -> ~ (0x20 <= i < 0x24)%nat -> ~ (0x228 <= i < 0x22c)%nat -> patch_cmdline p r c k !! i = k !! i.
Proof.
  intros Hk Hi Hj. unfold patch_cmdline. destruct (0x202 <=? p);
    rewrite !blit_lookup_ne; rewrite ?length_blit; rewrite ?length_le_bytes; done || offsets.
Qed.

(** The whole of the loader's changes, and what the header says afterwards. *)
Definition patch_all (protocol real cmd addr len : Z) (k : list Z) : list Z :=
  patch_ramdisk addr len (patch_heap protocol real cmd (patch_loader protocol (patch_cmdline protocol real cmd k))).

Record header_filled (protocol flags real cmd addr len : Z) (k' : list Z) : Prop := {
  hf_loader : k' !! BootOffsets.TYPE_OF_LOADER = Some QEMU_LOADER;
  hf_cmdline : 0x202 <= protocol -> kernel_u32 k' BootOffsets.CMD_LINE_PTR = Ok cmd;
  hf_old_cmdline : protocol < 0x202 ->
    kernel_u16 k' BootOffsets.OLD_CMD_LINE_MAGIC = Ok 0xa33f /\ kernel_u16 k' BootOffsets.OLD_CMD_LINE_OFFSET = Ok (cmd - real);
  hf_heap : 0x201 <= protocol ->
    k' !! BootOffsets.LOAD_FLAGS = Some (Z.lor flags 0x80) /\
    kernel_u16 k' BootOffsets.HEAP_END_PTR = Ok (u16 (cmd - real - 0x200));
  hf_ramdisk : kernel_u32 k' BootOffsets.RAMDISK_IMAGE = Ok addr /\ kernel_u32 k' BootOffsets.RAMDISK_SIZE = Ok len
}.

Lemma patch_all_length protocol real cmd addr len k :
  (0x238 <= length k)%nat ->
  let k0 := patch_cmdline protocol real cmd k in
  let k1 := patch_loader protocol k0 in
  let k2 := patch_heap protocol real cmd k1 in
  length k0 = length k /\ length k1 = length k /\ length k2 = length k /\ length (patch_ramdisk addr len k2) = length k.
Proof.
  intros Hk k0 k1 k2. assert (length k0 = length k) as H0 by by apply patch_cmdline_patched.
  assert (length k1 = length k) as H1 by (rewrite <- H0; apply patch_loader_patched).
  assert (length k2 = length k) as H2 by (rewrite <- H1; apply patch_heap_patched; lia).
  split_and!; try done. rewrite <- H2. apply patch_ramdisk_patched. lia.
Qed.

Lemma patch_all_header protocol flags real cmd addr len k :
  (0x238 <= length k)%nat -> 0x200 <= protocol -> read_u8 k BootOffsets.LOAD_FLAGS = Ok flags ->
  is_u 32 cmd -> (protocol < 0x202 -> is_u 16 (cmd - real)) -> is_u 32 addr -> is_u 32 len ->
  header_filled protocol flags real cmd addr len (patch_all protocol real cmd addr len k).
Proof.
  intros Hk Hp Hf Hc Ho Ha Hn. unfold patch_all. destruct (patch_all_length protocol real cmd addr len k Hk) as (H0 & H1 & H2 & H3).
  set (k0 := patch_cmdline _ _ _ k) in *. set (k1 := patch_loader _ k0) in *. set (k2 := patch_heap _ _ _ k1) in *.
  set (k3 := patch_ramdisk _ _ k2) in *.
  assert (forall a b, (a <= b)%nat -> ~ (a < 0x22c /\ 0x210 < b /\ ~ (0x228 <= a))%nat ->
    read_le k3 a b = read_le k0 a b) as Hcmd.
  { intros a b Hab Hd. apply read_le_same; [lia|]. intros i Hi. unfold k3, k2, k1.
    rewrite patch_ramdisk_ne by (fold k0 k1 k2; lia). rewrite patch_heap_ne by (fold k0 k1; lia). by rewrite patch_loader_ne by lia. }
  split.
  - unfold k3, BootOffsets.TYPE_OF_LOADER. rewrite patch_ramdisk_ne by lia. unfold k2. rewrite patch_heap_ne by lia.
    unfold k1, patch_loader. rewrite (proj2 (Z.leb_le _ _)) by lia. apply list_lookup_insert_eq.
    unfold BootOffsets.TYPE_OF_LOADER. lia.
  - intros Hv. unfold kernel_u32. rewrite Hcmd by offsets. unfold k0, patch_cmdline.
    rewrite (proj2 (Z.leb_le _ _)) by lia. apply read_le_blit; [offsets|done].
  - intros Hv. unfold kernel_u16. rewrite !Hcmd by offsets. unfold k0, patch_cmdline.
    rewrite (proj2 (Z.leb_gt _ _)) by lia.
    split; [|apply read_le_blit; [rewrite length_blit; rewrite ?length_le_bytes; offsets|by apply Ho]].
    rewrite (read_le_same (blit k BootOffsets.OLD_CMD_LINE_MAGIC (le_bytes 2 OLD_CMD_LINE_MAGIC_VALUE))).
    + apply read_le_blit; [offsets|]. unfold OLD_CMD_LINE_MAGIC_VALUE, is_u. lia.
    + apply length_blit. rewrite length_le_bytes, length_blit; rewrite ?length_le_bytes; offsets.
    + intros i Hi. apply blit_lookup_ne; rewrite ?length_blit; rewrite ?length_le_bytes; offsets.
  - intros Hv. split.
    + unfold k3. rewrite patch_ramdisk_ne by offsets. unfold k2, patch_heap. rewrite (proj2 (Z.leb_le _ _)) by lia.
      rewrite blit_lookup_ne; rewrite ?length_alter, ?length_le_bytes; [|offsets..].
      rewrite list_lookup_alter_eq. unfold k1. rewrite patch_loader_ne by offsets. unfold k0. rewrite patch_cmdline_ne by offsets.
      unfold read_u8 in Hf. destruct (k !! _); [|done]. cbn in Hf. injection Hf as ->. done.
    + unfold kernel_u16. rewrite (read_le_same k2); [|lia|intros i Hi; apply patch_ramdisk_ne; offsets].
      unfold k2, patch_heap. rewrite (proj2 (Z.leb_le _ _)) by lia. apply read_le_wrap. rewrite length_alter. offsets.
  - apply ramdisk_fields; [lia|done|done].
Qed.

(** ** The RAM disk's address *)

Lemma initrd_max_u32 p x im memory : is_u 32 im -> is_u 32 (initrd_max_of p x im memory).
Proof.
  intros Him. unfold initrd_max_of. destruct (_ && (u64 _ <=? _)); [apply wrap_is_u; lia|].
  repeat (destruct (_ && _) || destruct (_ <=? _)); done || unfold is_u; lia.
Qed.

Lemma initrd_max_memory p x im memory :
  0 < memory < 4096 -> is_u 32 im -> initrd_max_of p x im memory < memory * 2 ^ 20.
Proof.
  intros Hm Him. unfold initrd_max_of. rewrite Z.shiftl_mul_pow2 by lia.
  replace (u64 (memory * 2 ^ 20)) with (memory * 2 ^ 20) by (symmetry; apply wrap_small; unfold is_u; lia).
  rewrite (proj2 (Z.ltb_lt memory _)) by lia. cbn [andb].
  destruct (Z.leb_spec (memory * 2 ^ 20) (if (524 <=? p) && negb (Z.land x CAN_BE_LOADED_ABOVE_4G =? 0)
    then 0xffffffff else if 515 <=? p then im else 0x37ffffff)) as [H|H]; [|done].
  unfold u32. rewrite (wrap_small 32 (memory * 2 ^ 20)) by (unfold is_u; lia). rewrite wrap_small by (unfold is_u; lia). lia.
Qed.

Lemma initrd_addr_aligned x : is_u 32 x ->
  let a := Z.land x (bnot 32 4095) in is_u 32 a /\ a mod 4096 = 0 /\ a <= x.
Proof.
  intros Hx a. unfold a. change 4095 with (Z.ones 12). rewrite land_clear_low, Z.shiftl_mul_pow2 by (done || lia).
  unfold is_u in *. change (2 ^ 12) with 4096. rewrite Z.mod_mul by lia. pose proof (Z.mul_div_le x 4096).
  assert (0 <= x / 4096) by (apply Z.div_pos; lia). lia.
Qed.

(** ** The items of the guest *)

Lemma lift_Ok_bind {S A B} (a : A) (f : A -> st S B) s : (lift (Ok a) ≫= f) s = f a s.
Proof. reflexivity. Qed.
Lemma on_builder_bind {B} g (f : unit -> st QemuFwCfgBuilder B) b : (on_builder g ≫= f) b = f tt (g b).
Proof. reflexivity. Qed.

(** An image [load_linux] accepts, with the header fields it looks at. *)
Record linux_image (k : list Z) (protocol flags xflags imax sects : Z) : Prop := {
  li_length : 8192 <= Z.of_nat (length k) < 2 ^ 32;
  li_magic : kernel_u32 k BootOffsets.HEADER_MAGIC = Ok HEADER_MAGIC_VALUE;
  li_protocol : kernel_u16 k BootOffsets.BOOTP_VERSION = Ok protocol;
  li_version : 0x200 <= protocol;
  li_flags : read_u8 k BootOffsets.LOAD_FLAGS = Ok flags;
  li_xflags : kernel_u16 k BootOffsets.XLOAD_FLAGS = Ok xflags;
  li_imax : kernel_u32 k BootOffsets.INITRD_ADDR_MAX = Ok imax;
  li_imax_u32 : is_u 32 imax;
  li_sects : read_u8 k BootOffsets.SETUP_SECTS = Ok sects;
  li_sects_u8 : is_u 8 sects;
  li_setup : setup_size_of sects <= Z.of_nat (length k)
}.

Definition linux_selectors : list Z :=
  [FwCfgSelector.CMDLINE_ADDR; FwCfgSelector.CMDLINE_DATA; FwCfgSelector.CMDLINE_SIZE;
   FwCfgSelector.INITRD_ADDR; FwCfgSelector.INITRD_SIZE; FwCfgSelector.INITRD_DATA;
   FwCfgSelector.KERNEL_ADDR; FwCfgSelector.KERNEL_SIZE; FwCfgSelector.KERNEL_DATA;
   FwCfgSelector.SETUP_ADDR; FwCfgSelector.SETUP_SIZE; FwCfgSelector.SETUP_DATA].

(** The items [load_linux] adds, from the values it computes. *)
Definition linux_items (cmdline initrd k' : list Z) (cmdline_addr real_addr prot_addr initrd_addr setup : Z)
    (b : QemuFwCfgBuilder) : QemuFwCfgBuilder :=
  add_bytes FwCfgSelector.SETUP_DATA (take (Z.to_nat setup) k')
  (add_i32 FwCfgSelector.SETUP_SIZE setup
  (add_i32 FwCfgSelector.SETUP_ADDR real_addr
  (add_bytes FwCfgSelector.KERNEL_DATA (drop (Z.to_nat setup) k')
  (add_i32 FwCfgSelector.KERNEL_SIZE (Z.of_nat (length k') - setup)
  (add_i32 FwCfgSelector.KERNEL_ADDR prot_addr
  (add_bytes FwCfgSelector.INITRD_DATA initrd
  (add_i32 FwCfgSelector.INITRD_SIZE (Z.of_nat (length initrd))
  (add_i32 FwCfgSelector.INITRD_ADDR initrd_addr
  (add_i32 FwCfgSelector.CMDLINE_SIZE (Z.of_nat (length cmdline))
  (add_bytes FwCfgSelector.CMDLINE_DATA cmdline
  (add_i32 FwCfgSelector.CMDLINE_ADDR cmdline_addr b))))))))))).

Lemma load_linux_spec modules kn rn km rm cmdline memory protocol flags xflags imax sects b :
  find_module modules kn = Some km -> find_module modules rn = Some rm ->
  linux_image (module_data km) protocol flags xflags imax sects ->
  Z.of_nat (length (module_data rm)) <= initrd_max_of protocol xflags imax memory ->
  let '(real, cmd, prot) := load_addresses protocol flags (Z.of_nat (length cmdline)) in
  let addr := Z.land (initrd_max_of protocol xflags imax memory - Z.of_nat (length (module_data rm))) (bnot 32 4095) in
  let k1 := patch_heap protocol real cmd (patch_loader protocol (patch_cmdline protocol real cmd (module_data km))) in
  let k' := patch_ramdisk addr (Z.of_nat (length (module_data rm))) k1 in
  load_linux modules kn rn cmdline memory b =
    (linux_items cmdline (module_data rm) k' cmd real prot addr (setup_size_of sects) b, Ok tt) /\
  patched (module_data km) k' /\ (0x238 <= length k1)%nat.
Proof.
  intros Hk Hr [Hlen Hmagic Hp Hv Hf Hx Him Himu Hs Hsu Hset] Hfit. set (k := module_data km) in *. set (rd := module_data rm) in *.
  destruct (load_addresses _ _ _) as [[real cmd] prot] eqn:Ha. cbv zeta.
  assert (0x238 <= length k)%nat as Hlk by lia.
  set (k0 := patch_cmdline protocol real cmd k).
  assert (patched k k0) as H0 by by apply patch_cmdline_patched.
  assert (0x238 <= length (patch_loader protocol k0))%nat as Hl1.
  { destruct H0 as [H0 _]. destruct (patch_loader_patched protocol k0) as [-> _]. lia. }
  set (k1 := patch_heap protocol real cmd (patch_loader protocol k0)).
  assert (patched k k1) as H1.
  { eapply patched_trans; [exact H0|]. eapply patched_trans; [apply patch_loader_patched|]. by apply patch_heap_patched. }
  assert (0x238 <= length k1)%nat as Hl2 by (destruct H1 as [-> _]; lia).
  set (addr := Z.land _ _). set (k' := patch_ramdisk _ _ k1).
  assert (patched k k') as H2 by (eapply patched_trans; [exact H1|]; by apply patch_ramdisk_patched).
  split; [|done]. unfold load_linux. rewrite Hk. cbn [fmap option_fmap option_map ok_or]. rewrite lift_Ok_bind.
  rewrite Hr. cbn [fmap option_fmap option_map ok_or]. rewrite lift_Ok_bind. fold k rd.
  rewrite (proj2 (Z.ltb_ge (Z.of_nat (length k)) 8192)) by lia.
  rewrite Hmagic, lift_Ok_bind. change (HEADER_MAGIC_VALUE =? HEADER_MAGIC_VALUE) with true. cbn [negb].
  rewrite Hp, lift_Ok_bind, Hf, lift_Ok_bind. rewrite Ha. rewrite Hx, lift_Ok_bind, Him, lift_Ok_bind.
  rewrite !on_builder_bind. fold k0. fold k1. rewrite (proj2 (Z.ltb_ge protocol 0x200)) by lia.
  assert (u32 (Z.of_nat (length rd)) = Z.of_nat (length rd)) as ->.
  { apply wrap_small. pose proof (initrd_max_u32 protocol xflags imax memory Himu). unfold is_u in *. lia. }
  assert ((Z.of_nat (length rd) >? initrd_max_of protocol xflags imax memory) = false) as ->.
  { rewrite Z.gtb_ltb. apply Z.ltb_ge. lia. }
  fold addr. rewrite !on_builder_bind. fold k'.
  assert (read_u8 k' BootOffsets.SETUP_SECTS = Ok sects) as ->.
  { destruct H2 as [_ H2]. unfold read_u8. rewrite H2; [done|]. unfold loader_field, BootOffsets.SETUP_SECTS. lia. }
  rewrite lift_Ok_bind.
  assert ((setup_size_of sects >? Z.of_nat (length k')) = false) as ->.
  { rewrite Z.gtb_ltb. apply Z.ltb_ge. destruct H2 as [-> _]. lia. }
  reflexivity.
Qed.

Ltac items := repeat (rewrite item_add_bytes || rewrite item_add_i32); repeat (case_decide; [try done|]); try done.

(** The addresses of the boot protocol: the kernel goes to 1 MiB when its header says it can be loaded
    high (bit 0 of its flags) and to 64 KiB otherwise; the set-up part and the command line of
    a high kernel of protocol 2.02 or later have fixed places, those of the others are at 576 KiB and
    right below 616 KiB. *)
Definition boot_addresses (protocol flags cmdline_len : Z) : Z * Z * Z :=
  let high := Z.odd flags in
  let modern := high && (0x202 <=? protocol) in
  (if modern then 0x10000 else 0x90000, if modern then 0x20000 else 0x9a000 - cmdline_len,
   if high then 0x100000 else 0x10000).

Lemma load_addresses_spec protocol flags len :
  0x200 <= protocol -> 0 <= len <= 0xa000 -> load_addresses protocol flags len = boot_addresses protocol flags len.
Proof.
  intros Hp Hl. unfold load_addresses, boot_addresses. rewrite (proj2 (Z.ltb_ge protocol 0x200)) by lia. cbn [orb].
  assert (i32 (0x9a000 - i32 len) = 0x9a000 - len) as -> by (unfold i32; Z.to_euclidean_division_equations; lia).
  assert ((Z.land flags LOADED_HIGH =? 0) = negb (Z.odd flags)) as ->.
  { change LOADED_HIGH with (Z.ones 1). rewrite Z.land_ones by lia. change (2 ^ 1) with 2. rewrite Zmod_odd. by destruct (Z.odd flags). }
  destruct (Z.odd flags); [|done]. cbn [negb andb]. rewrite Z.leb_antisym. by destruct (protocol <? 0x202).
Qed.

(** C32: loading a Linux guest.  Given an image with the boot protocol's header (version 2.00 or
    later), a RAM disk that fits below the limit and a command line of at most 40 KiB, loading succeeds and every item of the
    guest's firmware configuration is determined.  The set-up and the kernel item are the
    image cut at the set-up size, changed only in the fields a boot loader fills in, and published with
    their sizes and the protocol's addresses; so are the command line and the
    RAM disk.  The RAM disk's address is page-aligned and it ends at or below the
    limit and, for less than 4 GiB of memory, below the end of memory.  The header names the loader,
    the command line the way its version asks for, the end of the heap, and the RAM disk's
    address and size; and no other firmware item changes. *)
Theorem load_linux_layout modules kn rn km rm cmdline memory protocol flags xflags imax sects b :
  find_module modules kn = Some km -> find_module modules rn = Some rm ->
  linux_image (module_data km) protocol flags xflags imax sects ->
  Z.of_nat (length (module_data rm)) <= initrd_max_of protocol xflags imax memory ->
  (length cmdline <= Z.to_nat 0xa000)%nat ->
  let '(real, cmd, prot) := boot_addresses protocol flags (Z.of_nat (length cmdline)) in
  let rd_len := Z.of_nat (length (module_data rm)) in
  exists b' setup rest addr,
    load_linux modules kn rn cmdline memory b = (b', Ok tt) /\
    (item b' FwCfgSelector.SETUP_ADDR = Some (le_bytes 4 real) /\
     item b' FwCfgSelector.SETUP_SIZE = Some (le_bytes 4 (Z.of_nat (length setup))) /\
     item b' FwCfgSelector.SETUP_DATA = Some setup) /\
    (item b' FwCfgSelector.KERNEL_ADDR = Some (le_bytes 4 prot) /\
     item b' FwCfgSelector.KERNEL_SIZE = Some (le_bytes 4 (Z.of_nat (length rest))) /\
     item b' FwCfgSelector.KERNEL_DATA = Some rest) /\
    (item b' FwCfgSelector.CMDLINE_ADDR = Some (le_bytes 4 cmd) /\
     item b' FwCfgSelector.CMDLINE_SIZE = Some (le_bytes 4 (Z.of_nat (length cmdline))) /\
     item b' FwCfgSelector.CMDLINE_DATA = Some cmdline) /\
    (item b' FwCfgSelector.INITRD_ADDR = Some (le_bytes 4 addr) /\
     item b' FwCfgSelector.INITRD_SIZE = Some (le_bytes 4 rd_len) /\
     item b' FwCfgSelector.INITRD_DATA = Some (module_data rm)) /\
    Z.of_nat (length setup) = setup_size_of sects /\ patched (module_data km) (setup ++ rest) /\
    header_filled protocol flags real cmd addr rd_len (setup ++ rest) /\
    0 <= addr /\ addr mod 4096 = 0 /\ addr + rd_len <= initrd_max_of protocol xflags imax memory /\
    (0 < memory < 4096 -> addr + rd_len < memory * 2 ^ 20) /\
    (forall s, s ∉ linux_selectors -> item b' s = item b s).
Proof.
  intros Hk Hr Hi Hfit Hcl. pose proof (load_linux_spec modules kn rn km rm cmdline memory protocol flags xflags imax sects b Hk Hr Hi Hfit) as Hs.
  destruct Hi as [Hlen _ _ Hv Hfl _ _ Himu _ Hsu Hset].
  rewrite load_addresses_spec in Hs by lia. destruct (boot_addresses _ _ _) as [[real cmd] prot] eqn:Hb. cbv zeta in *.
  set (addr := Z.land _ _) in Hs. set (k1 := patch_heap _ _ _ _) in Hs. set (k' := patch_ramdisk _ _ k1) in Hs.
  destruct Hs as (He & Hp & Hl).
  pose proof (initrd_max_u32 protocol xflags imax memory Himu) as Hmax. unfold is_u in Hmax.
  destruct (initrd_addr_aligned (initrd_max_of protocol xflags imax memory - Z.of_nat (length (module_data rm)))) as (Ha & Hal & Hle);
    [unfold is_u; lia|]. fold addr in Ha, Hal, Hle. unfold is_u in Ha.
  assert (0 <= setup_size_of sects) as Hss.
  { unfold setup_size_of, u8, wrap. zcase; [lia|]. pose proof (Z.mod_pos_bound (sects + 1) (2 ^ 8)). lia. }
  assert (header_filled protocol flags real cmd addr (Z.of_nat (length (module_data rm))) k') as Hh.
  { unfold boot_addresses in Hb. injection Hb as <- <- _.
    apply patch_all_header; try done; unfold is_u; try lia;
      destruct (Z.odd flags), (Z.leb_spec 0x202 protocol); cbn [andb]; lia. }
  assert (Z.of_nat (length (take (Z.to_nat (setup_size_of sects)) k')) = setup_size_of sects) as Hsl
    by (rewrite length_take; destruct Hp as [-> _]; lia).
  assert (Z.of_nat (length (drop (Z.to_nat (setup_size_of sects)) k')) = Z.of_nat (length k') - setup_size_of sects) as Hdl
    by (rewrite length_drop; destruct Hp as [-> _]; lia).
  exists (linux_items cmdline (module_data rm) k' cmd real prot addr (setup_size_of sects) b),
    (take (Z.to_nat (setup_size_of sects)) k'), (drop (Z.to_nat (setup_size_of sects)) k'), addr.
  rewrite take_drop, Hsl, Hdl. unfold linux_items.
  split; [exact He|]. do 4 (split; [split_and!; items|]). split_and!; try done; try lia.
  - intros Hm. pose proof (initrd_max_memory protocol xflags imax memory Hm Himu). lia.
  - intros s Hns. repeat (rewrite item_add_bytes || rewrite item_add_i32).
    unfold linux_selectors in Hns. rewrite !not_elem_of_cons in Hns. destruct_and! Hns. rewrite !decide_False by assumption. reflexivity.
Qed.

(** A kernel of protocol 2.12 with four set-up sectors, and a RAM disk. *)
Definition demo_kernel : list Z :=
  blit (blit (blit (blit (blit (replicate (Z.to_nat 8192) 0) BootOffsets.SETUP_SECTS [4])
    BootOffsets.HEADER_MAGIC (le_bytes 4 HEADER_MAGIC_VALUE)) BootOffsets.BOOTP_VERSION (le_bytes 2 0x20c))
    BootOffsets.LOAD_FLAGS [1]) BootOffsets.INITRD_ADDR_MAX (le_bytes 4 0x7fffffff).

Lemma load_linux_layout_witness :
  let modules := [mkModule (Some "kernel"%string) demo_kernel; mkModule (Some "initramfs"%string) [1; 2; 3]] in
  exists b' addr, load_linux modules "kernel" "initramfs" [0x71] 256 builder_new = (b', Ok tt) /\
    item b' FwCfgSelector.KERNEL_ADDR = Some (le_bytes 4 0x100000) /\
    item b' FwCfgSelector.CMDLINE_ADDR = Some (le_bytes 4 0x20000) /\
    item b' FwCfgSelector.INITRD_ADDR = Some (le_bytes 4 addr) /\ addr mod 4096 = 0 /\ addr + 3 < 256 * 2 ^ 20.
Proof.
  destruct (load_linux_layout
    [mkModule (Some "kernel"%string) demo_kernel; mkModule (Some "initramfs"%string) [1; 2; 3]] "kernel" "initramfs"
    (mkModule (Some "kernel"%string) demo_kernel) (mkModule (Some "initramfs"%string) [1; 2; 3]) [0x71] 256
    0x20c 1 0 0x7fffffff 4 builder_new)
    as (b' & setup & rest & addr & H1 & _ & (H2 & _) & (H3 & _) & (H4 & _) & _ & _ & _ & _ & H5 & _ & H6 & _).
  - reflexivity.
  - reflexivity.
  - split; try (vm_compute; reflexivity); try (unfold is_u; lia); try (vm_compute; split; congruence); vm_compute; congruence.
  - vm_compute. congruence.
  - simpl. lia.
  - exists b', addr. split; [exact H1|]. split; [exact H2|]. split; [exact H3|]. split; [exact H4|]. split; [exact H5|]. apply H6. lia.
Defined.
