(* ===== verification/AcpiBuild.v ===== *)
(** * Building a guest's ACPI tables ([RSDTBuilder] of [mythril/src/acpi/rsdt.rs],
    [RSDPBuilder] of [mythril/src/acpi/rsdp.rs])

    The guest's firmware places the tables: the hypervisor adds every table as a
    firmware file, with an XSDT and an RSDP whose addresses are still zero, and a
    script that tells the firmware which files to allocate, where to write their
    addresses, and which checksums to correct. *)

From S2P Require Import Prelude Error BTreeMap Memory VirtDev FwCfg Acpi.

(** The bytes of a string literal. *)
Fixpoint bytes_of (s : string) : list Z :=
  match s with
  | EmptyString => []
  | String c r => Z.of_nat (Ascii.nat_of_ascii c) :: bytes_of r
  end.

(** The order of [[u8; 4]]. *)
Fixpoint sig_cmp (a b : list Z) : comparison :=
  match a, b with
  | [], [] => Eq
  | [], _ => Lt
  | _, [] => Gt
  | x :: a, y :: b => match Z.compare x y with Eq => sig_cmp a b | c => c end
  end.

(** [core::str::from_utf8] *)
Definition cont (b : Z) : bool := (0x80 <=? b) && (b <=? 0xbf).
Definition within (lo b hi : Z) : bool := (lo <=? b) && (b <=? hi).
Fixpoint utf8_valid (l : list Z) : bool :=
  match l with
  | [] => true
  | b0 :: r =>
      if b0 <? 0x80 then utf8_valid r
      else
        match r with
        | [] => false
        | b1 :: r =>
            if within 0xc2 b0 0xdf then cont b1 && utf8_valid r
            else
              match r with
              | [] => false
              | b2 :: r =>
                  if within 0xe0 b0 0xef then
                    within (if b0 =? 0xe0 then 0xa0 else 0x80) b1 (if b0 =? 0xed then 0x9f else 0xbf) && cont b2 && utf8_valid r
                  else
                    match r with
                    | [] => false
                    | b3 :: r =>
                        within 0xf0 b0 0xf4 &&
                        within (if b0 =? 0xf0 then 0x90 else 0x80) b1 (if b0 =? 0xf4 then 0x8f else 0xbf) &&
                        cont b2 && cont b3 && utf8_valid r
                    end
              end
        end
  end.

(** [RSDTBuilder]: the encoded tables by signature, with their sizes. *)
Notation RSDTBuilder := (list (list Z * (list Z * nat))).

(** [add_sdt], with encoding buffers of [cap] bytes; the map owns its storage, so an
    insertion does not fail. *)
Definition add_sdt {B} `{SDTBuilder B} (cap : nat) (b : B) (m : RSDTBuilder) : res RSDTBuilder :=
  buffer ← encode_sdt b cap;
  match bt_get sig_cmp SIGNATURE m with
  | None => Ok (bt_insert sig_cmp SIGNATURE (buffer, length buffer) m)
  | Some _ => Err (InvalidValue (str "The key `{}` already exists"))
  end.

Definition XSDT_FILE : list Z := bytes_of "etc/mythril/xsdt".
Definition RSDP_FILE : list Z := bytes_of "etc/mythril/rsdp".
Definition TABLE_LOADER_NAME : list Z := bytes_of "etc/table-loader".
Definition table_name (sig : list Z) : list Z := bytes_of "etc/mythril/" ++ sig.

(** ** The builders' effect on the firmware files and the loader script *)

Definition BuildState : Type := QemuFwCfgBuilder * list Z.

Definition with_files (m : st QemuFwCfgBuilder unit) : st BuildState unit := fun '(b, script) =>
  let '(b, r) := m b in ((b, script), r).
Definition loader_command (cap : nat) (c : TableLoaderCommand) : st BuildState unit := fun '(b, script) =>
  match add_command cap c script with
  | Ok script => ((b, script), Ok tt)
  | Err e => ((b, script), Err e)
  | Panic w => ((b, script), Panic w)
  end.

(** The loop body of [RSDTBuilder::build] for the [i]-th table. *)
Definition build_table (cap i : nat) (name : list Z) (sdt : list Z) (size : nat) : st BuildState unit :=
  if negb (utf8_valid name) then err (InvalidValue (str "{Utf8Error}"))
  else
  let table_name := table_name name in
  _ ← loader_command cap (Allocate table_name 8 Fseg);
  _ ← loader_command cap (AddPointer XSDT_FILE table_name (Z.of_nat (i * 8 + SDT_HEADER)) 8);
  with_files (add_file table_name (take size sdt)).

Fixpoint build_tables (cap i : nat) (m : RSDTBuilder) : st BuildState unit :=
  match m with
  | [] => mret tt
  | (name, (sdt, size)) :: r => _ ← build_table cap i name sdt size; build_tables cap (S i) r
  end.

Definition XSDT_BUFFER : nat := Z.to_nat 4096.

Definition rsdt_build (cap : nat) (m : RSDTBuilder) : st BuildState unit :=
  let xsdt_table_length := (length m * 8)%nat in
  let xsdt_length := (xsdt_table_length + SDT_HEADER)%nat in
  xsdt ← lift (write_sdt_header (bytes_of "XSDT") 0 0 xsdt_length (replicate XSDT_BUFFER 0));
  _ ← with_files (add_file XSDT_FILE (take xsdt_length xsdt));
  _ ← loader_command cap (Allocate XSDT_FILE 8 Fseg);
  _ ← loader_command cap (AddPointer RSDP_FILE XSDT_FILE 24 8);
  _ ← build_tables cap 0 m;
  loader_command cap (AddChecksum XSDT_FILE 9 (Z.of_nat SDT_HEADER) (Z.of_nat xsdt_table_length)).

Definition LOADER_CAPACITY : nat := 2048.

(** [TableLoaderBuilder::load] *)
Definition load_script : st BuildState unit := fun '(b, script) =>
  let '(b, r) := add_file TABLE_LOADER_NAME script b in ((b, script), r).

(** [RSDPBuilder::build] *)
Definition rsdp_steps (m : RSDTBuilder) : st BuildState unit :=
  _ ← with_files (add_file RSDP_FILE rsdp_buffer);
  _ ← loader_command LOADER_CAPACITY (Allocate RSDP_FILE 16 Fseg);
  _ ← rsdt_build LOADER_CAPACITY m;
  _ ← loader_command LOADER_CAPACITY (AddChecksum RSDP_FILE 32 24 8);
  load_script.

Definition rsdp_build (m : RSDTBuilder) : st QemuFwCfgBuilder unit := fun b =>
  let '((b, _), r) := rsdp_steps m (b, []) in (b, r).

(** ** What is built *)

(** The script as a list of commands, and the files in the order they are added. *)
Definition table_commands (i : nat) (sig : list Z) : list TableLoaderCommand :=
  [Allocate (table_name sig) 8 Fseg; AddPointer XSDT_FILE (table_name sig) (Z.of_nat (i * 8 + SDT_HEADER)) 8].
Fixpoint tables_commands (i : nat) (m : RSDTBuilder) : list TableLoaderCommand :=
  match m with [] => [] | (sig, _) :: r => table_commands i sig ++ tables_commands (S i) r end.

Definition loader_script (m : RSDTBuilder) : list TableLoaderCommand :=
  [Allocate RSDP_FILE 16 Fseg; Allocate XSDT_FILE 8 Fseg; AddPointer RSDP_FILE XSDT_FILE 24 8] ++
  tables_commands 0 m ++
  [AddChecksum XSDT_FILE 9 (Z.of_nat SDT_HEADER) (Z.of_nat (length m * 8)); AddChecksum RSDP_FILE 32 24 8].

Definition command_image (c : TableLoaderCommand) : list Z :=
  match command_bytes c with Ok bytes => bytes | _ => [] end.

Definition table_file (e : list Z * (list Z * nat)) : list Z * list Z := (table_name e.1, take e.2.2 e.2.1).

(** An XSDT for [n] tables, all addresses zero. *)
Definition xsdt_bytes (n : nat) : list Z :=
  let image ck := sdt_bytes (bytes_of "XSDT") 0 0 (replicate (n * 8) 0) ck in image (calc_checksum (image 0)).

Definition acpi_files (m : RSDTBuilder) : list (list Z * list Z) :=
  [(RSDP_FILE, rsdp_buffer); (XSDT_FILE, xsdt_bytes (length m))] ++ (table_file <$> m) ++
  [(TABLE_LOADER_NAME, concat (command_image <$> loader_script m))].

Definition add_files : list (list Z * list Z) -> st QemuFwCfgBuilder unit := st_iter (fun f => add_file f.1 f.2).

Lemma add_files_app l l' b :
  add_files (l ++ l') b = match add_files l b with (b', Ok _) => add_files l' b' | x => x end.
Proof.
  revert b. induction l as [|f l IH]; intros b; [done|]. unfold add_files in *. cbn [app st_iter]. rewrite !st_bind_eq.
  destruct (add_file f.1 f.2 b) as [b' [[]|?|?]]; [|done..]. rewrite IH. done.
Qed.

(** [c] is accepted: its file names fit. *)
Definition command_ok (c : TableLoaderCommand) : Prop := exists bytes, command_bytes c = Ok bytes /\ length bytes = 128%nat.

(** A step that adds the files [fs] and the commands [cs], and stops at a file that
    cannot be added. *)
Definition emits (m : st BuildState unit) (fs : list (list Z * list Z)) (cs : list TableLoaderCommand) : Prop :=
  forall b script, (length script + 128 * length cs <= LOADER_CAPACITY)%nat ->
    match add_files fs b with
    | (b', Ok _) => m (b, script) = ((b', script ++ concat (command_image <$> cs)), Ok tt)
    | (b', r) => exists script', m (b, script) = ((b', script'), r)
    end.

Lemma command_image_length cs : Forall command_ok cs -> length (concat (command_image <$> cs)) = (128 * length cs)%nat.
Proof.
  induction 1 as [|c cs (bytes & Hb & Hl) _ IH]; [done|]. cbn [fmap list_fmap concat length]. rewrite length_app, IH.
  unfold command_image. rewrite Hb, Hl. lia.
Qed.

Lemma emits_bind m1 m2 f1 f2 c1 c2 :
  Forall command_ok c1 -> emits m1 f1 c1 -> emits m2 f2 c2 -> emits (m1 ≫= fun _ => m2) (f1 ++ f2) (c1 ++ c2).
Proof.
  intros Hc H1 H2 b script Hl. rewrite length_app in Hl. rewrite add_files_app.
  specialize (H1 b script ltac:(lia)). rewrite st_bind_eq. destruct (add_files f1 b) as [b1 [[]|e|w]].
  - rewrite H1. specialize (H2 b1 (script ++ concat (command_image <$> c1))).
    rewrite length_app, command_image_length in H2 by done. specialize (H2 ltac:(lia)).
    destruct (add_files f2 b1) as [b2 [[]|e|w]]; [rewrite fmap_app, concat_app, app_assoc|..]; exact H2.
  - destruct H1 as [script' ->]. by eexists.
  - destruct H1 as [script' ->]. by eexists.
Qed.

Lemma emits_files n d : emits (with_files (add_file n d)) [(n, d)] [].
Proof.
  intros b script _. unfold add_files. cbn [st_iter fst snd]. rewrite st_bind_eq. unfold with_files.
  destruct (add_file n d b) as [b' [[]|e|w]]; cbn; rewrite ?app_nil_r; [done|by eexists..].
Qed.

Lemma emits_command c : command_ok c -> emits (loader_command LOADER_CAPACITY c) [] [c].
Proof.
  intros (bytes & Hb & Hl) b script Hs. cbn [length] in Hs. unfold add_files. cbn [st_iter]. cbv [mret st_ret].
  unfold loader_command, add_command, try_extend. rewrite Hb. cbn [mbind res_bind].
  rewrite bool_decide_true by lia. unfold command_image. cbn [fmap list_fmap concat]. by rewrite Hb, app_nil_r.
Qed.

Lemma emits_file_then n d m fs cs : emits m fs cs -> emits (with_files (add_file n d) ≫= fun _ => m) ((n, d) :: fs) cs.
Proof. intros H. exact (emits_bind _ _ [_] fs [] cs (Forall_nil_2 _) (emits_files n d) H). Qed.

Lemma emits_command_then c m fs cs :
  command_ok c -> emits m fs cs -> emits (loader_command LOADER_CAPACITY c ≫= fun _ => m) fs (c :: cs).
Proof. intros Hc H. apply (emits_bind _ _ [] fs [c] cs); [by repeat constructor|by apply emits_command|done]. Qed.

Lemma emits_ret : emits (mret tt) [] [].
Proof. intros b script _. unfold add_files. cbn. by rewrite app_nil_r. Qed.

(** Signatures a table can have: four bytes of text. *)
Definition sig_ok (sig : list Z) : Prop := length sig = 4%nat /\ utf8_valid sig = true.

Lemma length_blit_eq {A} (l : list A) a bs n : length l = n -> (a + length bs <= n)%nat -> length (blit l a bs) = n.
Proof. intros <- H. by apply length_blit. Qed.
Lemma length_insert_eq {A} (l : list A) i x n : length l = n -> length (<[i := x]> l) = n.
Proof. intros <-. apply length_insert. Qed.

Ltac buffer_length :=
  repeat first [apply length_insert_eq | apply length_blit_eq; [|rewrite ?length_le_bytes; lia] | apply length_replicate].
Ltac command :=
  intros; eexists; unfold command_bytes, fits, ROMFILE_FILENAME_SIZE; rewrite !bool_decide_true by done; cbn [negb orb];
  split; [reflexivity | buffer_length].

Lemma allocate_ok file align zone : (length file < 56)%nat -> command_ok (Allocate file align zone).
Proof. command. Qed.
Lemma add_pointer_ok dst src offset size :
  (length dst < 56)%nat -> (length src < 56)%nat -> command_ok (AddPointer dst src offset size).
Proof. command. Qed.
Lemma add_checksum_ok file offset start len : (length file < 56)%nat -> command_ok (AddChecksum file offset start len).
Proof. command. Qed.

Lemma table_name_length sig : length sig = 4%nat -> (length (table_name sig) < 56)%nat.
Proof. intros H. unfold table_name. rewrite length_app, H. cbn. lia. Qed.

Lemma file_names_length : (length XSDT_FILE < 56)%nat /\ (length RSDP_FILE < 56)%nat.
Proof. cbn. lia. Qed.

Lemma table_commands_ok i sig : length sig = 4%nat -> Forall command_ok (table_commands i sig).
Proof.
  intros H. pose proof (table_name_length sig H). pose proof file_names_length as [? _].
  repeat constructor; auto using allocate_ok, add_pointer_ok.
Qed.

Lemma tables_commands_ok i m : Forall (fun e => sig_ok e.1) m -> Forall command_ok (tables_commands i m).
Proof.
  intros H. revert i. induction H as [|[sig t] m [Hs _] _ IH]; intros i; cbn [tables_commands]; [constructor|].
  apply Forall_app. split; [by apply table_commands_ok | apply IH].
Qed.

Lemma tables_commands_length i m : length (tables_commands i m) = (2 * length m)%nat.
Proof. revert i. induction m as [|[sig t] m IH]; intros i; [done|]. cbn [tables_commands app length table_commands]. rewrite IH. lia. Qed.

Lemma emits_table i sig sdt size :
  sig_ok sig -> emits (build_table LOADER_CAPACITY i sig sdt size) [table_file (sig, (sdt, size))] (table_commands i sig).
Proof.
  intros [Hl Hu]. pose proof (table_name_length sig Hl) as Hn. pose proof file_names_length as [Hx _].
  unfold build_table. rewrite Hu. cbn [negb].
  apply emits_command_then; [by apply allocate_ok|]. apply emits_command_then; [by apply add_pointer_ok|]. apply emits_files.
Qed.

Lemma emits_tables i m : Forall (fun e => sig_ok e.1) m ->
  emits (build_tables LOADER_CAPACITY i m) (table_file <$> m) (tables_commands i m).
Proof.
  intros H. revert i. induction H as [|[sig [sdt size]] m Hs _ IH]; intros i; cbn [build_tables tables_commands fmap list_fmap]; [apply emits_ret|].
  apply (emits_bind _ _ [_]); [apply table_commands_ok, Hs|by apply emits_table|apply IH].
Qed.

Lemma sum_bytes_zeros n : sum_bytes (replicate n 0) = 0.
Proof. induction n as [|n IH]; [done|]. exact IH. Qed.

(** The XSDT is cut from a larger zeroed buffer, whose checksum is the same. *)
Lemma xsdt_header n : (n * 8 + SDT_HEADER <= XSDT_BUFFER)%nat ->
  exists xsdt, write_sdt_header (bytes_of "XSDT") 0 0 (n * 8 + SDT_HEADER) (replicate XSDT_BUFFER 0) = Ok xsdt /\
    take (n * 8 + SDT_HEADER) xsdt = xsdt_bytes n.
Proof.
  intros Hn. assert (replicate XSDT_BUFFER 0 = replicate SDT_HEADER 0 ++ replicate (XSDT_BUFFER - SDT_HEADER) 0) as ->.
  { by rewrite <- replicate_add. }
  rewrite write_sdt_header_image by (done || rewrite length_replicate; lia). eexists. split; [reflexivity|].
  assert (replicate (XSDT_BUFFER - SDT_HEADER) 0 = replicate (n * 8) 0 ++ replicate (XSDT_BUFFER - SDT_HEADER - n * 8) 0) as ->.
  { rewrite <- replicate_add. f_equal. lia. }
  set (tl := replicate (XSDT_BUFFER - SDT_HEADER - n * 8) 0).
  assert (forall ck, sdt_image (bytes_of "XSDT") (n * 8 + SDT_HEADER) 0 0 (replicate (n * 8) 0 ++ tl) ck =
    sdt_bytes (bytes_of "XSDT") 0 0 (replicate (n * 8) 0) ck ++ tl) as Hi.
  { intros ck. unfold sdt_bytes, sdt_image. rewrite length_replicate, <- !app_assoc. by rewrite (Nat.add_comm SDT_HEADER). }
  rewrite !Hi. unfold xsdt_bytes. rewrite !calc_checksum_sum, !sum_bytes_app.
  assert (sum_bytes tl = 0) as -> by apply sum_bytes_zeros. rewrite Z.add_0_r. rewrite take_app_length'; [done|].
  unfold sdt_bytes, sdt_image. rewrite !length_app, !length_le_bytes, !length_replicate. cbn [length bytes_of]. unfold SDT_HEADER. lia.
Qed.

Lemma emits_rsdt m : Forall (fun e => sig_ok e.1) m -> (length m * 8 + SDT_HEADER <= XSDT_BUFFER)%nat ->
  emits (rsdt_build LOADER_CAPACITY m) ((XSDT_FILE, xsdt_bytes (length m)) :: (table_file <$> m))
    ([Allocate XSDT_FILE 8 Fseg; AddPointer RSDP_FILE XSDT_FILE 24 8] ++ tables_commands 0 m ++
     [AddChecksum XSDT_FILE 9 (Z.of_nat SDT_HEADER) (Z.of_nat (length m * 8))]).
Proof.
  intros Hm Hn. pose proof file_names_length as [Hx Hr].
  destruct (xsdt_header (length m) Hn) as (xsdt & Hh & Ht). unfold rsdt_build. rewrite Hh.
  assert (forall f : list Z -> st BuildState unit, (lift (Ok xsdt) ≫= f) = f xsdt) as -> by reflexivity. rewrite Ht.
  apply emits_file_then. apply emits_command_then; [by apply allocate_ok|]. apply emits_command_then; [by apply add_pointer_ok|].
  rewrite <- (app_nil_r (table_file <$> m)).
  apply (emits_bind _ _ (table_file <$> m) []); [by apply tables_commands_ok|by apply emits_tables|by apply emits_command, add_checksum_ok].
Qed.

(** Everything before the script is loaded. *)
Definition rsdp_prefix (m : RSDTBuilder) : st BuildState unit :=
  _ ← with_files (add_file RSDP_FILE rsdp_buffer);
  _ ← loader_command LOADER_CAPACITY (Allocate RSDP_FILE 16 Fseg);
  _ ← rsdt_build LOADER_CAPACITY m;
  loader_command LOADER_CAPACITY (AddChecksum RSDP_FILE 32 24 8).

Lemma st_assoc {S A B C} (x : st S A) (f : A -> st S B) (g : B -> st S C) s :
  (x ≫= fun a => f a ≫= g) s = ((x ≫= f) ≫= g) s.
Proof. rewrite !st_bind_eq. by destruct (x s) as [s' [a|e|w]]. Qed.

Lemma rsdp_steps_prefix m s : rsdp_steps m s = (rsdp_prefix m ≫= fun _ => load_script) s.
Proof.
  unfold rsdp_steps, rsdp_prefix. rewrite <- st_assoc, !(st_bind_eq (with_files _)).
  destruct (with_files _ s) as [s1 [[]|e|w]]; [|done..]. rewrite <- st_assoc, !(st_bind_eq (loader_command _ (Allocate _ _ _))).
  destruct (loader_command _ _ s1) as [s2 [[]|e|w]]; [|done..]. by rewrite <- st_assoc.
Qed.

Lemma emits_prefix m : Forall (fun e => sig_ok e.1) m -> (length m * 8 + SDT_HEADER <= XSDT_BUFFER)%nat ->
  emits (rsdp_prefix m)
    ([(RSDP_FILE, rsdp_buffer); (XSDT_FILE, xsdt_bytes (length m))] ++ (table_file <$> m)) (loader_script m).
Proof.
  intros Hm Hn. pose proof file_names_length as [Hx Hr]. unfold rsdp_prefix, loader_script.
  set (fs := (XSDT_FILE, xsdt_bytes (length m)) :: (table_file <$> m)).
  set (cs := [Allocate XSDT_FILE 8 Fseg; AddPointer RSDP_FILE XSDT_FILE 24 8] ++ tables_commands 0 m ++
     [AddChecksum XSDT_FILE 9 (Z.of_nat SDT_HEADER) (Z.of_nat (length m * 8))]).
  assert (Forall command_ok cs) as Hcs.
  { unfold cs. apply Forall_app. split; [repeat constructor; auto using allocate_ok, add_pointer_ok|].
    apply Forall_app. split; [by apply tables_commands_ok|repeat constructor; by apply add_checksum_ok]. }
  apply emits_file_then. apply emits_command_then; [by apply allocate_ok|].
  assert (emits (rsdt_build LOADER_CAPACITY m ≫= fun _ => loader_command LOADER_CAPACITY (AddChecksum RSDP_FILE 32 24 8))
    (fs ++ []) (cs ++ [AddChecksum RSDP_FILE 32 24 8])) as He; [|unfold cs in He; by rewrite app_nil_r, <- !app_assoc in He].
  apply (emits_bind _ _ fs []); [done|by apply emits_rsdt|by apply emits_command, add_checksum_ok].
Qed.

(** For a handful of tables the script fits its buffer, so building is adding the files. *)
Lemma rsdp_build_files m b :
  Forall (fun e => sig_ok e.1) m -> (length m <= 5)%nat -> rsdp_build m b = add_files (acpi_files m) b.
Proof.
  intros Hm Hn. unfold rsdp_build. rewrite rsdp_steps_prefix, st_bind_eq.
  pose proof (emits_prefix m Hm) as He. unfold SDT_HEADER, XSDT_BUFFER in He. specialize (He ltac:(lia) b []).
  unfold loader_script at 1 in He. rewrite !length_app, tables_commands_length in He. cbn [length] in He.
  unfold LOADER_CAPACITY in He. specialize (He ltac:(lia)). unfold acpi_files. rewrite app_assoc, add_files_app.
  destruct (add_files _ b) as [b' [[]|e|w]]; [|by destruct He as [? ->]..].
  rewrite He. unfold load_script, add_files. cbn [st_iter app fst snd]. rewrite st_bind_eq.
  by destruct (add_file _ _ b') as [b2 [[]|e|w]].
Qed.

(** C31: building the ACPI tables is adding files.  For at most five tables whose
    signatures are text, [build] behaves exactly as adding, in order, the RSDP, an XSDT
    with zero addresses and a valid checksum, every table, and the loader script: the
    script never overflows its buffer, and the only failure is a file that cannot be
    added, which stops the build there. *)
Theorem acpi_build_files m b :
  Forall (fun e => sig_ok e.1) m -> (length m <= 5)%nat -> rsdp_build m b = add_files (acpi_files m) b.
Proof. apply rsdp_build_files. Qed.

(** One table. *)
Definition demo_tables : RSDTBuilder := [(bytes_of "APIC", ([1; 2; 3], 3%nat))].

Lemma acpi_build_files_witness :
  Forall (fun e => sig_ok e.1) demo_tables /\ rsdp_build demo_tables builder_new = add_files (acpi_files demo_tables) builder_new.
Proof.
  assert (Forall (fun e => sig_ok e.1) demo_tables) as H by (repeat constructor).
  split; [exact H|]. apply (acpi_build_files demo_tables builder_new); [exact H | cbn; lia].
Defined.
