(* ===== verification/AcpiGuest.v ===== *)
(** * What the guest's firmware makes of the ACPI files (protocol of
    [mythril/src/acpi/seabios.rs], files of [RSDPBuilder::build])

    The firmware is not part of this repository: it is a parameter with the protocol
    of the table loader as its law, stated on the bytes of the script.  The tables the hypervisor hands over
    are then found, by the hypervisor's own reader, behind the root pointer. *)

From S2P Require Import Prelude Error BTreeMap Memory VirtDev FwCfg Acpi AcpiBuild.

(** ** The protocol *)

(** A text of at most 56 bytes ends at its first zero byte. *)
Fixpoint c_string (l : list Z) : list Z :=
  match l with [] => [] | b :: r => if b =? 0 then [] else b :: c_string r end.

Definition field (r : list Z) (a n : nat) : list Z := take n (drop a r).
Definition record_name (r : list Z) (a : nat) : list Z := c_string (field r a 56).
Definition record_num (r : list Z) (a n : nat) : Z := of_le (field r a n).

(** What one record of the script does to the contents [x] of [file], with every file at its
    address: "add pointer" (2) adds the address of a file to a field, "add checksum" (3)
    corrects a byte by the sum of a range. *)
Definition apply_record (addr : list Z -> Z) (file x r : list Z) : list Z :=
  match record_num r 0 4 with
  | 2 =>
      if bool_decide (record_name r 4 = file) then
        let off := Z.to_nat (record_num r 116 4) in
        let size := Z.to_nat (record_num r 120 1) in
        list_inserts off (le_bytes size (of_le (field x off size) + addr (record_name r 60))) x
      else x
  | 3 =>
      if bool_decide (record_name r 4 = file) then
        alter (fun ck => u8 (ck - sum_bytes (field x (Z.to_nat (record_num r 64 4)) (Z.to_nat (record_num r 68 4)))))
          (Z.to_nat (record_num r 60 4)) x
      else x
  | _ => x
  end.

(** The records of a script, 128 bytes each. *)
Fixpoint chunks (n : nat) (l : list Z) : list (list Z) :=
  match n with O => [] | S n => take 128 l :: chunks n (drop 128 l) end.
Definition script_records (script : list Z) : list (list Z) := chunks (length script / 128) script.

(** The script allocates [name] with an "allocate" record (1). *)
Definition allocated (name script : list Z) : Prop :=
  exists r, r ∈ script_records script /\ record_num r 0 4 = 1 /\ record_name r 4 = name.

(** The firmware: given the files, where it puts them and what memory holds afterwards, when there is room. *)
Class TableLoader := {
  tl_fits : list (list Z * list Z) -> Prop;
  tl_address : list (list Z * list Z) -> list Z -> Z;
  tl_memory : list (list Z * list Z) -> Z -> Z
}.

Class TableLoaderLaws `{TableLoader} := {
  tl_address_u64 : forall files name, tl_fits files -> is_u 64 (tl_address files name);
  tl_placed : forall files script name content,
    tl_fits files -> NoDup (files.*1) -> (TABLE_LOADER_NAME, script) ∈ files -> (name, content) ∈ files ->
    allocated name script ->
    raw_parts (tl_memory files) (tl_address files name) (length content) =
      foldl (apply_record (tl_address files) name) content (script_records script)
}.

(** ** The records of the builder's commands *)

Definition pad (name : list Z) : list Z := name ++ replicate (56 - length name) 0.

(** A file name the protocol can carry. *)
Definition name_ok (name : list Z) : Prop := (length name < 56)%nat /\ Forall (fun b => b <> 0) name.

Lemma c_string_pad name : name_ok name -> c_string (pad name) = name.
Proof.
  intros [Hl Hz]. unfold pad. assert (exists k, (56 - length name = S k)%nat) as [k ->] by (exists (55 - length name)%nat; lia).
  cbn [replicate]. clear Hl. induction Hz as [|b name Hb _ IH]; [done|]. cbn [app c_string].
  destruct (Z.eqb_spec b 0); [done|]. by rewrite IH.
Qed.

Lemma length_pad name : name_ok name -> length (pad name) = 56%nat.
Proof. intros [Hl _]. unfold pad. rewrite length_app, length_replicate. lia. Qed.

Lemma blit_eq {A} (pre mid post bs l : list A) a :
  l = pre ++ mid ++ post -> a = length pre -> length mid = length bs -> blit l a bs = pre ++ bs ++ post.
Proof.
  intros -> -> Hm. unfold blit. rewrite take_app_length. do 2 f_equal. rewrite <- Hm.
  rewrite app_assoc, drop_app_length'; [done|]. by rewrite length_app.
Qed.

Lemma field_eq l pre mid post a n : l = pre ++ mid ++ post -> a = length pre -> length mid = n -> field l a n = mid.
Proof. intros -> -> <-. unfold field. by rewrite drop_app_length, take_app_length. Qed.

Ltac lengths := try done; rewrite ?length_app, ?length_le_bytes, ?length_replicate, ?length_pad by done; cbn [length]; first [done | lia].

(** Writing into a buffer that is still zero behind [pre]. *)
Lemma name_blit pre name a n k :
  name_ok name -> a = length pre -> n = (56 + k)%nat -> blit (pre ++ replicate n 0) a name = pre ++ pad name ++ replicate k 0.
Proof.
  intros [Hl _] -> ->. rewrite (blit_eq pre (replicate (length name) 0) (replicate (56 - length name) 0 ++ replicate k 0)).
  - unfold pad. by rewrite <- app_assoc.
  - f_equal. rewrite <- !replicate_add. f_equal. lia.
  - done.
  - by rewrite length_replicate.
Qed.

Lemma num_blit pre w x a n k :
  a = length pre -> n = (w + k)%nat -> blit (pre ++ replicate n 0) a (le_bytes w x) = pre ++ le_bytes w x ++ replicate k 0.
Proof.
  intros -> ->. apply (blit_eq pre (replicate w 0)); [by rewrite replicate_add|done|by rewrite length_replicate, length_le_bytes].
Qed.

Lemma byte_insert pre b a n k : a = length pre -> n = S k -> <[a := b]> (pre ++ replicate n 0) = pre ++ [b] ++ replicate k (0 : Z).
Proof. intros -> ->. rewrite insert_app_r_alt by lia. by rewrite Nat.sub_diag. Qed.

(** The layouts of the three commands the builder emits. *)
Lemma command_start k : blit (replicate 128 0) 0 (le_bytes 4 k) = le_bytes 4 k ++ replicate 124 0.
Proof. exact (num_blit [] 4 k 0 128 124 eq_refl eq_refl). Qed.

Lemma allocate_image file align zone : name_ok file ->
  command_image (Allocate file align zone) = ((le_bytes 4 1 ++ pad file) ++ le_bytes 4 align) ++ [zone_code zone] ++ replicate 63 0.
Proof.
  intros Hf. unfold command_image, command_bytes, fits, ROMFILE_FILENAME_SIZE. rewrite bool_decide_true by apply Hf. cbn [negb].
  rewrite command_start, (name_blit _ _ 4 124 68) by done. rewrite app_assoc, (num_blit _ 4 align 60 68 64) by lengths.
  rewrite app_assoc, (byte_insert _ _ 64 64 63) by lengths. done.
Qed.

Lemma pointer_image dst src offset size : name_ok dst -> name_ok src ->
  command_image (AddPointer dst src offset size) =
  (((le_bytes 4 2 ++ pad dst) ++ pad src) ++ le_bytes 4 offset) ++ [size] ++ replicate 7 0.
Proof.
  intros Hd Hs. unfold command_image, command_bytes, fits, ROMFILE_FILENAME_SIZE.
  rewrite !bool_decide_true by (apply Hd || apply Hs). cbn [negb orb].
  rewrite command_start, (name_blit _ _ 4 124 68) by done. rewrite app_assoc, (name_blit _ _ 60 68 12) by lengths.
  rewrite app_assoc, (num_blit _ 4 offset 116 12 8) by lengths. rewrite app_assoc, (byte_insert _ _ 120 8 7) by lengths. done.
Qed.

Lemma checksum_image file offset start len : name_ok file ->
  command_image (AddChecksum file offset start len) =
  (((le_bytes 4 3 ++ pad file) ++ le_bytes 4 offset) ++ le_bytes 4 start) ++ le_bytes 4 len ++ replicate 56 0.
Proof.
  intros Hf. unfold command_image, command_bytes, fits, ROMFILE_FILENAME_SIZE. rewrite bool_decide_true by apply Hf. cbn [negb].
  rewrite command_start, (name_blit _ _ 4 124 68) by done. rewrite app_assoc, (num_blit _ 4 offset 60 68 64) by lengths.
  rewrite app_assoc, (num_blit _ 4 start 64 64 60) by lengths. rewrite app_assoc, (num_blit _ 4 len 68 60 56) by lengths. done.
Qed.

(** Reading a field back. *)
Lemma num_at l pre w x post a n :
  l = pre ++ le_bytes w x ++ post -> a = length pre -> n = w -> is_u (8 * Z.of_nat w) x -> record_num l a n = x.
Proof.
  intros Hl Ha -> Hx. unfold record_num. rewrite (field_eq l pre (le_bytes w x) post) by (done || apply length_le_bytes).
  by rewrite of_le_bytes, wrap_small.
Qed.

Lemma name_at l pre name post a : l = pre ++ pad name ++ post -> a = length pre -> name_ok name -> record_name l a = name.
Proof.
  intros Hl Ha Hn. unfold record_name. rewrite (field_eq l pre (pad name) post) by (done || by apply length_pad). by apply c_string_pad.
Qed.

Ltac side := solve [done | repeat match goal with r := _ |- _ => unfold r end; rewrite <- ?app_assoc; reflexivity | lengths | unfold is_u; lia].

(** What the records of the commands do. *)
Lemma apply_allocate addr file x f align zone : name_ok f -> apply_record addr file x (command_image (Allocate f align zone)) = x.
Proof.
  intros Hf. unfold apply_record. rewrite (allocate_image _ _ _ Hf).
  by rewrite (num_at _ [] 4 1 (pad f ++ le_bytes 4 align ++ [zone_code zone] ++ replicate 63 0)) by side.
Qed.

Lemma apply_pointer addr file x dst src offset size :
  name_ok dst -> name_ok src -> is_u 32 offset -> is_u 8 size ->
  apply_record addr file x (command_image (AddPointer dst src offset size)) =
  if bool_decide (dst = file)
  then list_inserts (Z.to_nat offset) (le_bytes (Z.to_nat size) (of_le (field x (Z.to_nat offset) (Z.to_nat size)) + addr src)) x
  else x.
Proof.
  intros Hd Hs Ho Hz. unfold apply_record. rewrite (pointer_image _ _ _ _ Hd Hs). set (r := _ ++ _ ++ replicate 7 0).
  rewrite (num_at r [] 4 2 (pad dst ++ pad src ++ le_bytes 4 offset ++ [size] ++ replicate 7 0)) by side.
  rewrite (name_at r (le_bytes 4 2) dst (pad src ++ le_bytes 4 offset ++ [size] ++ replicate 7 0)) by side.
  rewrite (name_at r (le_bytes 4 2 ++ pad dst) src (le_bytes 4 offset ++ [size] ++ replicate 7 0)) by side.
  rewrite (num_at r ((le_bytes 4 2 ++ pad dst) ++ pad src) 4 offset ([size] ++ replicate 7 0)) by side.
  rewrite (num_at r (((le_bytes 4 2 ++ pad dst) ++ pad src) ++ le_bytes 4 offset) 1 size (replicate 7 0)); [done| |side..].
  unfold r. cbn [le_bytes]. by replace (size mod 256) with size by (symmetry; apply Z.mod_small; exact Hz).
Qed.

Lemma apply_checksum addr file x f offset start len :
  name_ok f -> is_u 32 offset -> is_u 32 start -> is_u 32 len ->
  apply_record addr file x (command_image (AddChecksum f offset start len)) =
  if bool_decide (f = file)
  then alter (fun ck => u8 (ck - sum_bytes (field x (Z.to_nat start) (Z.to_nat len)))) (Z.to_nat offset) x
  else x.
Proof.
  intros Hf Ho Hs Hl. unfold apply_record. rewrite (checksum_image _ _ _ _ Hf). set (r := _ ++ _ ++ replicate 56 0).
  rewrite (num_at r [] 4 3 (pad f ++ le_bytes 4 offset ++ le_bytes 4 start ++ le_bytes 4 len ++ replicate 56 0)) by side.
  rewrite (name_at r (le_bytes 4 3) f (le_bytes 4 offset ++ le_bytes 4 start ++ le_bytes 4 len ++ replicate 56 0)) by side.
  rewrite (num_at r (le_bytes 4 3 ++ pad f) 4 offset (le_bytes 4 start ++ le_bytes 4 len ++ replicate 56 0) 60 4) by side.
  rewrite (num_at r ((le_bytes 4 3 ++ pad f) ++ le_bytes 4 offset) 4 start (le_bytes 4 len ++ replicate 56 0) 64 4) by side.
  rewrite (num_at r (((le_bytes 4 3 ++ pad f) ++ le_bytes 4 offset) ++ le_bytes 4 start) 4 len (replicate 56 0)) by side.
  done.
Qed.

(** ** Running the builder's script *)

Lemma chunks_concat rs : Forall (fun r => length r = 128%nat) rs -> script_records (concat rs) = rs.
Proof.
  intros Hr. unfold script_records. assert (length (concat rs) = (length rs * 128)%nat) as ->.
  { induction Hr as [|r rs Hl _ IH]; [done|]. cbn [concat length]. rewrite length_app, Hl, IH. lia. }
  rewrite Nat.div_mul by done. induction Hr as [|r rs Hl _ IH]; [done|]. cbn [length concat chunks].
  by rewrite take_app_length', drop_app_length', IH.
Qed.

Lemma image_length c : command_ok c -> length (command_image c) = 128%nat.
Proof. intros (bytes & E & Hl). unfold command_image. by rewrite E. Qed.

Lemma script_commands cs : Forall command_ok cs -> script_records (concat (command_image <$> cs)) = command_image <$> cs.
Proof. intros Hc. apply chunks_concat. apply Forall_fmap. eapply Forall_impl; [exact Hc|]. apply image_length. Qed.

Lemma script_allocates cs file align zone :
  Forall command_ok cs -> name_ok file -> Allocate file align zone ∈ cs -> allocated file (concat (command_image <$> cs)).
Proof.
  intros Hc Hf Hin. exists (command_image (Allocate file align zone)). rewrite script_commands by done.
  split; [by apply list_elem_of_fmap_2|]. rewrite (allocate_image _ _ _ Hf). split.
  - by rewrite (num_at _ [] 4 1 (pad file ++ le_bytes 4 align ++ [zone_code zone] ++ replicate 63 0)) by side.
  - by rewrite (name_at _ (le_bytes 4 1) file (le_bytes 4 align ++ [zone_code zone] ++ replicate 63 0)) by side.
Qed.

Definition run (addr : list Z -> Z) (file x : list Z) (cs : list TableLoaderCommand) : list Z :=
  foldl (apply_record addr file) x (command_image <$> cs).

Lemma run_app addr file x cs cs' : run addr file x (cs ++ cs') = run addr file (run addr file x cs) cs'.
Proof. unfold run. by rewrite fmap_app, foldl_app. Qed.
Lemma run_cons addr file x c cs : run addr file x (c :: cs) = run addr file (apply_record addr file x (command_image c)) cs.
Proof. done. Qed.

(** A signature the builder and the protocol can carry, and that is not the name of another file. *)
Definition signature_ok (sig : list Z) : Prop :=
  sig_ok sig /\ Forall (fun b => b <> 0) sig /\ sig <> bytes_of "xsdt" /\ sig <> bytes_of "rsdp".

Lemma table_name_ok sig : signature_ok sig ->
  name_ok (table_name sig) /\ table_name sig <> XSDT_FILE /\ table_name sig <> RSDP_FILE /\ table_name sig <> TABLE_LOADER_NAME.
Proof.
  intros ([Hl _] & Hz & Hx & Hr). split_and!.
  - split; [by apply table_name_length|]. unfold table_name. apply Forall_app. split; [|done]. repeat (constructor; [done|]). constructor.
  - intros H. apply Hx. change XSDT_FILE with (bytes_of "etc/mythril/" ++ bytes_of "xsdt") in H. by apply app_inv_head in H.
  - intros H. apply Hr. change RSDP_FILE with (bytes_of "etc/mythril/" ++ bytes_of "rsdp") in H. by apply app_inv_head in H.
  - intros H. by apply (f_equal (fun l => l !! 4%nat)) in H.
Qed.

Lemma root_names_ok : name_ok XSDT_FILE /\ name_ok RSDP_FILE.
Proof. split; (split; [cbn; lia|]); repeat (constructor; [done|]); constructor. Qed.

Lemma inserts_at (pre mid post bs : list Z) :
  length mid = length bs -> list_inserts (length pre) bs (pre ++ mid ++ post) = pre ++ bs ++ post.
Proof.
  revert pre mid. induction bs as [|b bs IH]; intros pre mid Hm; destruct mid as [|z mid]; try done.
  cbn [list_inserts length] in *. specialize (IH (pre ++ [z]) mid ltac:(lia)).
  rewrite length_app, Nat.add_1_r in IH. rewrite <- !app_assoc in IH. cbn [app] in *. rewrite IH.
  rewrite insert_app_r_alt by lia. by rewrite Nat.sub_diag.
Qed.

Lemma of_le_zeros n : of_le (replicate n 0) = 0.
Proof. induction n as [|n IH]; [done|]. cbn [replicate of_le]. rewrite IH. done. Qed.

(** Adding an address to a field that is still zero. *)
Lemma pointer_at pre post (addr : list Z -> Z) name :
  list_inserts (length pre) (le_bytes 8 (of_le (field (pre ++ replicate 8 0 ++ post) (length pre) 8) + addr name)) (pre ++ replicate 8 0 ++ post) =
  pre ++ le_bytes 8 (addr name) ++ post.
Proof.
  rewrite (field_eq _ pre (replicate 8 0) post) by done. rewrite of_le_zeros, Z.add_0_l.
  apply inserts_at. by rewrite length_le_bytes.
Qed.

Lemma run_tables addr m i pre :
  Forall (fun e => signature_ok e.1) m -> (i + length m <= 1000)%nat -> length pre = (i * 8 + SDT_HEADER)%nat ->
  run addr XSDT_FILE (pre ++ replicate (length m * 8) 0) (tables_commands i m) =
  pre ++ concat ((fun e => le_bytes 8 (addr (table_name e.1))) <$> m).
Proof.
  intros Hm. revert i pre. induction Hm as [|[sig t] m Hsig _ IH]; intros i pre Hi Hp; [done|].
  destruct (table_name_ok sig Hsig) as (Hn & _). destruct root_names_ok as [Hx _]. cbn [length] in Hi.
  cbn [tables_commands table_commands app length fmap list_fmap concat fst].
  rewrite !run_cons, apply_allocate by done.
  rewrite apply_pointer, bool_decide_true by (done || unfold is_u, SDT_HEADER; lia).
  rewrite Nat2Z.id, <- Hp. change (Z.to_nat 8) with 8%nat.
  replace (S (length m) * 8)%nat with (8 + length m * 8)%nat by lia. rewrite replicate_add, pointer_at, app_assoc.
  rewrite IH by (rewrite ?length_app, ?length_le_bytes; lia). by rewrite <- app_assoc.
Qed.

(** Commands for other files do nothing to [file]. *)
Lemma run_tables_other addr file x m i :
  Forall (fun e => signature_ok e.1) m -> (i + length m <= 1000)%nat -> file <> XSDT_FILE -> run addr file x (tables_commands i m) = x.
Proof.
  intros Hm. revert i. induction Hm as [|[sig t] m Hsig _ IH]; intros i Hi Hf; [done|].
  destruct (table_name_ok sig Hsig) as (Hn & _). destruct root_names_ok as [Hx _]. cbn [length] in Hi.
  cbn [tables_commands table_commands app]. rewrite !run_cons, apply_allocate by done.
  rewrite apply_pointer, bool_decide_false by (done || unfold is_u, SDT_HEADER; lia). apply IH; [lia|done].
Qed.

Lemma concat_le_bytes_length {A} (f : A -> Z) l : length (concat ((fun e => le_bytes 8 (f e)) <$> l)) = (length l * 8)%nat.
Proof. induction l as [|x l IH]; [done|]. cbn [fmap list_fmap concat length]. rewrite length_app, length_le_bytes, IH. lia. Qed.

Definition xsdt_head (len : nat) (ck : Z) : list Z :=
  bytes_of "XSDT" ++ le_bytes 4 (Z.of_nat len) ++ [0; ck] ++ replicate 22 0 ++ le_bytes 4 0.

Lemma xsdt_head_app b ck : sdt_bytes (bytes_of "XSDT") 0 0 b ck = xsdt_head (SDT_HEADER + length b) ck ++ b.
Proof. unfold sdt_bytes, sdt_image, xsdt_head. by rewrite <- !app_assoc. Qed.

Lemma xsdt_head_alter len ck b f : alter f 9%nat (xsdt_head len ck ++ b) = xsdt_head len (f ck) ++ b.
Proof. reflexivity. Qed.

Lemma xsdt_head_sum len ck : sum_bytes (xsdt_head len ck) = sum_bytes (xsdt_head len 0) + ck.
Proof. unfold xsdt_head. rewrite !sum_bytes_app. cbn [sum_bytes foldr]. lia. Qed.

Lemma checksum_correction h z : (h + u8 ((- h) mod 256 - z) + z) mod 256 = 0.
Proof. unfold u8, wrap. change (2 ^ 8) with 256. Z.to_euclidean_division_equations. lia. Qed.

(** The XSDT after the script: its addresses filled in and its bytes still summing to 0. *)
Lemma run_xsdt addr m :
  Forall (fun e => signature_ok e.1) m -> (length m <= 5)%nat ->
  let body := concat ((fun e => le_bytes 8 (addr (table_name e.1))) <$> m) in
  exists ck, run addr XSDT_FILE (xsdt_bytes (length m)) (loader_script m) = sdt_bytes (bytes_of "XSDT") 0 0 body ck /\
    sum_bytes (sdt_bytes (bytes_of "XSDT") 0 0 body ck) mod 256 = 0.
Proof.
  intros Hm Hn5 body. assert (length body = (length m * 8)%nat) as Hb by apply concat_le_bytes_length.
  destruct root_names_ok as [Hx Hr].
  set (n := (SDT_HEADER + length m * 8)%nat). set (h := sum_bytes (xsdt_head n 0)).
  exists (u8 ((- h) mod 256 - sum_bytes body)). split.
  - unfold loader_script. rewrite !run_app, !run_cons, !apply_allocate by done.
    rewrite apply_pointer, bool_decide_false by done. cbn [run fmap list_fmap foldl].
    unfold xsdt_bytes. rewrite !xsdt_head_app, length_replicate, Hb. fold n.
    set (ck := calc_checksum (xsdt_head n 0 ++ replicate (length m * 8) 0)).
    change (foldl (apply_record addr XSDT_FILE) ?x []) with x.
    rewrite (run_tables addr m 0 (xsdt_head n ck)) by (done || lia). fold body.
    rewrite apply_checksum, bool_decide_false by done.
    rewrite apply_checksum, bool_decide_true by (done || unfold is_u, SDT_HEADER; lia).
    assert (forall c, field (xsdt_head n c ++ body) 36 (length m * 8) = body) as Hfield.
    { intros c. apply (field_eq _ (xsdt_head n c) body []); [by rewrite app_nil_r|done|done]. }
    change (Z.to_nat 9) with 9%nat. change (Z.to_nat (Z.of_nat SDT_HEADER)) with 36%nat.
    rewrite Nat2Z.id, xsdt_head_alter, Hfield. unfold ck. by rewrite calc_checksum_sum, sum_bytes_app, sum_bytes_zeros, Z.add_0_r.
  - rewrite xsdt_head_app, Hb, sum_bytes_app, xsdt_head_sum. apply checksum_correction.
Qed.

(** The RSDP after the script. *)
Lemma run_rsdp addr m :
  Forall (fun e => signature_ok e.1) m -> (length m <= 5)%nat -> is_u 64 (addr XSDT_FILE) ->
  rsdp_from_bytes (run addr RSDP_FILE rsdp_buffer (loader_script m)) = Ok (RsdpV2 (replicate 6 0) (addr XSDT_FILE)).
Proof.
  intros Hm Hn Ha. destruct root_names_ok as [Hx Hr].
  unfold loader_script. rewrite !run_app, !run_cons, !apply_allocate by done.
  rewrite apply_pointer, bool_decide_true by done. change (run addr RSDP_FILE ?x []) with x.
  rewrite run_tables_other by (done || lia).
  rewrite apply_checksum, bool_decide_true by done. rewrite apply_checksum, bool_decide_false by (done || unfold is_u, SDT_HEADER; lia).
  change (Z.to_nat 24) with 24%nat. change (Z.to_nat 8) with 8%nat. change (Z.to_nat 32) with 32%nat.
  set (x := addr XSDT_FILE) in *. set (pre := take 24 rsdp_buffer). set (ck := (- sum_bytes pre) mod 256).
  assert (list_inserts 24 (le_bytes 8 (of_le (field rsdp_buffer 24 8) + x)) rsdp_buffer = pre ++ le_bytes 8 x ++ [ck; 0; 0; 0]) as ->
    by exact (pointer_at pre [ck; 0; 0; 0] (fun _ => x) []).
  assert (forall f, alter f 32%nat (pre ++ le_bytes 8 x ++ [ck; 0; 0; 0]) = pre ++ le_bytes 8 x ++ [f ck; 0; 0; 0]) as -> by reflexivity.
  rewrite (field_eq _ pre (le_bytes 8 x) [ck; 0; 0; 0]) by done.
  set (ck' := u8 _). unfold rsdp_from_bytes.
  assert (forall l, slice (pre ++ le_bytes 8 x ++ l) 9 15 = Some (replicate 6 0)) as ->.
  { intros l. unfold slice. rewrite bool_decide_true; [reflexivity|]. rewrite !length_app, length_le_bytes. cbn. lia. }
  assert (forall l, read_le (pre ++ le_bytes 8 x ++ l) 16 20 = Ok 0) as ->.
  { intros l. unfold read_le, slice. rewrite bool_decide_true; [reflexivity|]. rewrite !length_app, length_le_bytes. cbn. lia. }
  assert (forall l, read_u8 (pre ++ l) 15 = Ok 2) as Hrev by reflexivity. rewrite Hrev. cbn [expect mbind res_bind Z.eqb Pos.eqb].
  change 32%nat with (24 + 8)%nat. rewrite (read_le_le_bytes pre 8 x _ 24) by (done || reflexivity). cbn [mbind res_bind].
  unfold verify_rsdp_checksum. rewrite Hrev.
  assert (forall l, slice (pre ++ le_bytes 8 x ++ l) 0 20 = Some (take 20 pre)) as ->.
  { intros l. unfold slice. rewrite bool_decide_true; [reflexivity|]. rewrite !length_app, length_le_bytes. cbn. lia. }
  cbn [expect mbind res_bind]. change (verify_checksum (take 20 pre) 8) with (Ok tt). cbn [mbind res_bind Z.eqb Pos.eqb].
  assert (slice (pre ++ le_bytes 8 x ++ [ck'; 0; 0; 0]) 0 36 = Some (pre ++ le_bytes 8 x ++ [ck'; 0; 0; 0])) as ->.
  { unfold slice. rewrite bool_decide_true; [reflexivity|]. rewrite !length_app, length_le_bytes. cbn. lia. }
  cbn [expect mbind res_bind]. rewrite verify_checksum_Ok; [reflexivity|]. rewrite !sum_bytes_app.
  pose proof (checksum_correction (sum_bytes pre) (sum_bytes (le_bytes 8 x))) as Hc. fold ck in Hc. fold ck' in Hc.
  rewrite <- Hc. f_equal. cbn [sum_bytes foldr]. lia.
Qed.

(** The contents of a table are not touched. *)
Lemma run_table addr file x m :
  Forall (fun e => signature_ok e.1) m -> (length m <= 5)%nat -> file <> XSDT_FILE -> file <> RSDP_FILE ->
  run addr file x (loader_script m) = x.
Proof.
  intros Hm Hn Hfx Hfr. destruct root_names_ok as [Hx Hr].
  unfold loader_script. rewrite !run_app, !run_cons, !apply_allocate by done.
  rewrite apply_pointer, bool_decide_false by done. change (run addr file ?x []) with x.
  rewrite run_tables_other by (done || lia).
  rewrite apply_checksum, bool_decide_false by done. by rewrite apply_checksum, bool_decide_false by (done || unfold is_u, SDT_HEADER; lia).
Qed.

Lemma entry_addresses_concat {A} (f : A -> Z) l : (forall e, is_u 64 (f e)) ->
  entry_addresses (length l) 8 (concat ((fun e => le_bytes 8 (f e)) <$> l)) = f <$> l.
Proof.
  intros Hf. induction l as [|x l IH]; [done|]. cbn [length fmap list_fmap concat entry_addresses].
  rewrite take_app_length', drop_app_length' by (symmetry; apply length_le_bytes). rewrite IH, of_le_bytes, wrap_small by apply Hf. done.
Qed.

(** ** The tables are found *)

(** An entry of the builder that holds the encoded table [t]. *)
Definition table_of (e : list Z * (list Z * nat)) (t : SDT) : Prop :=
  exists creator ck, e.2.1 = sdt_bytes e.1 (revision t) creator (table t) ck /\ sum_bytes e.2.1 mod 256 = 0 /\
    e.2.2 = length e.2.1 /\ Z.of_nat (length e.2.1) < 2 ^ 32 /\
    signature t = e.1 /\ sdt_length t = Z.of_nat (length e.2.1).

(** Every table [add_sdt] takes is one: it holds the builder's signature, revision and body. *)
Lemma add_sdt_table {B} `{SDTBuilder B} (b : B) cap body m m' :
  length (SIGNATURE (B := B)) = 4%nat -> Z.of_nat (SDT_HEADER + length body) < 2 ^ 32 -> (SDT_HEADER <= cap)%nat ->
  encode_table b cap (replicate SDT_HEADER 0) = Ok (replicate SDT_HEADER 0 ++ body) ->
  add_sdt cap b m = Ok m' ->
  exists e, m' = bt_insert sig_cmp SIGNATURE e m /\
    table_of (SIGNATURE (B := B), e) (mkSdt SIGNATURE (Z.of_nat (SDT_HEADER + length body)) (sdt_revision b) body).
Proof.
  intros Hsig Hlen Hcap Henc. unfold add_sdt, encode_sdt, try_extend.
  rewrite bool_decide_true by (rewrite length_replicate; simpl; lia). cbn [app mbind res_bind]. rewrite Henc. cbn [mbind res_bind].
  rewrite length_app, length_replicate, write_sdt_header_spec by done. cbn [mbind res_bind].
  destruct (bt_get _ _ m); [done|]. intros [= <-]. eexists. split; [reflexivity|].
  assert (forall ck, length (sdt_bytes SIGNATURE (sdt_revision b) (sdt_creator_revision b) body ck) = (SDT_HEADER + length body)%nat) as Hl.
  { intros ck. unfold sdt_bytes, sdt_image. rewrite !length_app, !length_le_bytes, length_replicate, Hsig. simpl. lia. }
  eexists _, _. cbn [fst snd]. rewrite Hl. split_and!; try done.
  rewrite sdt_bytes_sum, calc_checksum_sum. generalize (sum_bytes (sdt_bytes SIGNATURE (sdt_revision b) (sdt_creator_revision b) body 0)) as z.
  clear. intros z. Z.to_euclidean_division_equations. lia.
Qed.

Lemma tables_allocate i m sig t : (sig, t) ∈ m -> Allocate (table_name sig) 8 Fseg ∈ tables_commands i m.
Proof.
  revert i. induction m as [|[sig' t'] m IH]; intros i Hin; [by apply not_elem_of_nil in Hin|].
  cbn [tables_commands table_commands]. apply elem_of_app. apply elem_of_cons in Hin as [[= <- <-]|Hin]; [left; left|right; by apply IH].
Qed.

Lemma script_ok m : Forall (fun e => signature_ok e.1) m -> Forall command_ok (loader_script m).
Proof.
  intros Hm. pose proof file_names_length as [Hx Hr]. unfold loader_script. rewrite !Forall_app. split_and!.
  - repeat constructor; auto using allocate_ok, add_pointer_ok.
  - apply tables_commands_ok. eapply Forall_impl; [exact Hm|]. by intros e [? _].
  - repeat constructor; by apply add_checksum_ok.
Qed.

Lemma file_names_distinct m : Forall (fun e => signature_ok e.1) m -> NoDup m.*1 -> NoDup (acpi_files m).*1.
Proof.
  intros Hm Hnd. unfold acpi_files. rewrite !fmap_app. cbn [fmap list_fmap fst].
  assert (forall name, name ∈ (table_file <$> m).*1 -> name <> XSDT_FILE /\ name <> RSDP_FILE /\ name <> TABLE_LOADER_NAME) as Hne.
  { intros name Hin. rewrite <- list_fmap_compose in Hin. apply list_elem_of_fmap in Hin as (e & -> & He).
    rewrite Forall_forall in Hm. destruct (table_name_ok e.1 (Hm e He)) as (_ & ?). done. }
  apply NoDup_app. split; [by apply (bool_decide_unpack _)|]. split.
  - intros name Hin Hin'. apply elem_of_app in Hin' as [Hin'|Hin'].
    + destruct (Hne name Hin') as (? & ? & _). set_solver.
    + apply list_elem_of_singleton in Hin'. subst. revert Hin. apply (bool_decide_unpack _). done.
  - apply NoDup_app. split; [|split; [|apply NoDup_singleton]].
    + rewrite <- list_fmap_compose. change (fst ∘ table_file) with (table_name ∘ fst (A := list Z) (B := list Z * nat)).
      rewrite list_fmap_compose. apply NoDup_fmap_2; [|done]. intros a b. unfold table_name. apply app_inv_head.
    + intros name Hin Hin'. apply list_elem_of_singleton in Hin'. destruct (Hne name Hin) as (_ & _ & ?). done.
Qed.

Lemma find_sdt_elem (ts : list SDT) t :
  NoDup (signature <$> ts) -> t ∈ ts -> find_sdt (signature t) (Ok <$> ts) = Ok t.
Proof.
  induction ts as [|u ts IH]; intros Hnd Hin; [by apply not_elem_of_nil in Hin|]. cbn [fmap list_fmap] in *.
  apply NoDup_cons in Hnd as [Hn Hnd]. cbn [find_sdt]. apply elem_of_cons in Hin as [->|Hin]; [by rewrite bool_decide_true|].
  rewrite bool_decide_false; [by apply IH|]. intros E. apply Hn. rewrite E. by apply list_elem_of_fmap_2.
Qed.

Section found.
Context `{TableLoaderLaws}.
Variable m : list (list Z * (list Z * nat)).
Hypothesis Hm : Forall (fun e => signature_ok e.1) m.
Hypothesis Hnd : NoDup m.*1.
Hypothesis Hn : (length m <= 5)%nat.
Hypothesis Hfits : tl_fits (acpi_files m).
Notation mem := (tl_memory (acpi_files m)).
Notation addr := (tl_address (acpi_files m)).

(** Memory holds every allocated file, after the script. *)
Lemma file_in_memory name content align zone :
  name_ok name -> Allocate name align zone ∈ loader_script m -> (name, content) ∈ acpi_files m ->
  raw_parts mem (addr name) (length content) = run addr name content (loader_script m).
Proof.
  intros Hname Ha Hin. unfold run. rewrite <- (script_commands _ (script_ok m Hm)).
  apply tl_placed; [done|by apply file_names_distinct| |done|].
  - unfold acpi_files. rewrite !elem_of_app. right. right. left.
  - eapply script_allocates; [by apply script_ok|done|exact Ha].
Qed.

Lemma table_in_memory e t : e ∈ m -> table_of e t -> sdt_new mem (addr (table_name e.1)) = Ok t.
Proof.
  intros Hin (creator & ck & Hb & Hsum & Hsize & Hlen & Hsig & Htl). destruct e as [sig [sdt size]]. cbn [fst snd] in *. subst size.
  assert (signature_ok sig) as Hs by (rewrite Forall_forall in Hm; by apply (Hm _ Hin)).
  destruct (table_name_ok sig Hs) as (Hname & Hx & Hr & _).
  assert (length sig = 4%nat) as H4 by apply Hs.
  assert (length sdt = (SDT_HEADER + length (table t))%nat) as Hl.
  { rewrite Hb. unfold sdt_bytes, sdt_image. rewrite !length_app, !length_le_bytes, length_replicate, H4. simpl. lia. }
  pose proof (file_in_memory (table_name sig) sdt 8 Fseg Hname) as Hmem. rewrite run_table in Hmem by done.
  rewrite (sdt_new_bytes sig (revision t) creator (table t) ck); [|done|lia|by rewrite <- Hb|].
  - rewrite <- Hl, <- Htl, <- Hsig. by destruct t.
  - rewrite <- Hl, <- Hb. apply Hmem.
    + unfold loader_script. rewrite !elem_of_app. right. left. by eapply tables_allocate.
    + unfold acpi_files. rewrite !elem_of_app. right. left. apply list_elem_of_fmap. eexists. split; [|exact Hin].
      unfold table_file. cbn [fst snd]. by rewrite firstn_all.
Qed.

Lemma tables_in_memory m' ts : m' ⊆ m -> Forall2 table_of m' ts -> (fun e => sdt_new mem (addr (table_name e.1))) <$> m' = Ok <$> ts.
Proof.
  intros Hsub HF. induction HF as [|e t m' ts He _ IH]; [done|]. cbn [fmap list_fmap]. f_equal.
  - apply table_in_memory; [|done]. apply Hsub. left.
  - apply IH. set_solver.
Qed.

Lemma root_in_memory : exists s,
  rsdp_from_bytes (raw_parts mem (addr RSDP_FILE) RSDP_V2_SIZE) = Ok (RsdpV2 (replicate 6 0) (addr XSDT_FILE)) /\
  sdt_new mem (addr XSDT_FILE) = Ok s /\ signature s = bytes_of "XSDT" /\
  rsdt_entries mem (XsdtTable s) = (fun e => sdt_new mem (addr (table_name e.1))) <$> m.
Proof.
  destruct root_names_ok as [Hx Hr]. destruct (run_xsdt addr m Hm Hn) as (ck & He & Hs). set (body := concat _) in *.
  assert (length body = (length m * 8)%nat) as Hb by apply concat_le_bytes_length.
  exists (mkSdt (bytes_of "XSDT") (Z.of_nat (SDT_HEADER + length body)) 0 body). split_and!; [| |reflexivity|].
  - change RSDP_V2_SIZE with (length rsdp_buffer). rewrite (file_in_memory RSDP_FILE rsdp_buffer 16 Fseg Hr).
    + apply run_rsdp; [done|done|by apply tl_address_u64].
    + unfold loader_script. left.
    + unfold acpi_files. left.
  - rewrite (sdt_new_bytes (bytes_of "XSDT") 0 0 body ck); [reflexivity|reflexivity|rewrite Hb; unfold SDT_HEADER; lia|done|].
    rewrite <- He, Hb. assert (length (xsdt_bytes (length m)) = (SDT_HEADER + length m * 8)%nat) as <-.
    { unfold xsdt_bytes, sdt_bytes, sdt_image. rewrite !length_app, !length_le_bytes, !length_replicate. cbn [length bytes_of]. unfold SDT_HEADER. lia. }
    apply (file_in_memory XSDT_FILE _ 8 Fseg Hx); [unfold loader_script; right; left|unfold acpi_files; right; left].
  - cbn [rsdt_entries table]. rewrite Hb, Nat.div_mul by done. unfold body.
    rewrite (entry_addresses_concat (fun e => addr (table_name e.1))) by (intros; by apply tl_address_u64).
    change (map (sdt_new mem)) with (fmap (M := list) (sdt_new mem)). by rewrite <- list_fmap_compose.
Qed.
End found.

(** C30: the guest finds its tables.  Building hands over the files of [acpi_files].  Once a firmware that
    follows the table loader's protocol has placed them, wherever it puts them, memory holds a
    valid revision 2 RSDP at the address of its file; it leads to an XSDT with a valid
    checksum; and that lists exactly the tables of the builder, in order, each read back with a valid
    checksum and with the signature, revision and body that were encoded, so looking one up by its
    signature finds it.  The builder holds up to five tables with distinct textual signatures
    (other than xsdt and rsdp in lower case, which are names of its own files), and the firmware has room. *)
Theorem acpi_tables_found `{TableLoaderLaws} m ts :
  Forall (fun e => signature_ok e.1) m -> NoDup m.*1 -> (length m <= 5)%nat -> Forall2 table_of m ts ->
  tl_fits (acpi_files m) ->
  let mem := tl_memory (acpi_files m) in
  (forall b, rsdp_build m b = add_files (acpi_files m) b) /\
  exists rsdp s,
    rsdp_from_bytes (raw_parts mem (tl_address (acpi_files m) RSDP_FILE) RSDP_V2_SIZE) = Ok rsdp /\
    rsdp_rsdt mem rsdp = Ok (XsdtTable s) /\ signature s = bytes_of "XSDT" /\
    rsdt_entries mem (XsdtTable s) = Ok <$> ts /\
    forall t, t ∈ ts -> find_entry mem (XsdtTable s) (signature t) = Ok t.
Proof.
  intros Hm Hnd Hn Hts Hfits mem. split.
  { intros b. apply rsdp_build_files; [|done]. eapply Forall_impl; [exact Hm|]. by intros e [? _]. }
  destruct (root_in_memory m Hm Hnd Hn Hfits) as (s & Hrsdp & Hs & Hsig & He). fold mem in Hrsdp, Hs, He.
  assert (rsdt_entries mem (XsdtTable s) = Ok <$> ts) as Hent by (rewrite He; by apply (tables_in_memory m)).
  eexists _, s. split; [exact Hrsdp|]. split; [cbn [rsdp_rsdt]; by rewrite Hs|]. split_and!; [done|done|].
  intros t Hin. unfold find_entry. rewrite Hent. apply find_sdt_elem; [|done].
  replace (signature <$> ts) with m.*1; [done|]. clear -Hts. induction Hts as [|e t m ts (? & ? & _ & _ & _ & _ & Hsig & _) _ IH]; [done|].
  cbn [fmap list_fmap]. by rewrite IH, Hsig.
Qed.

(** A firmware with a megabyte for every file. *)
Definition file_index (files : list (list Z * list Z)) (name : list Z) : nat :=
  match list_find (fun f => f.1 = name) files with Some (i, _) => i | None => 0%nat end.
Definition megabyte_address (files : list (list Z * list Z)) (name : list Z) : Z := 2 ^ 20 * (1 + Z.of_nat (file_index files name)).
Definition loader_file (files : list (list Z * list Z)) : list Z :=
  match list_find (fun f => f.1 = TABLE_LOADER_NAME) files with Some (_, f) => f.2 | None => [] end.
Definition loaded (files : list (list Z * list Z)) (f : list Z * list Z) : list Z :=
  foldl (apply_record (megabyte_address files) f.1) f.2 (script_records (loader_file files)).

Definition megabyte_loader : TableLoader := {|
  tl_fits files := (length files <= 256)%nat /\ Forall (fun f => Z.of_nat (length f.2) <= 2 ^ 16) files;
  tl_address := megabyte_address;
  tl_memory files a :=
    match files !! Z.to_nat (a / 2 ^ 20 - 1) with
    | Some f => default 0 (loaded files f !! Z.to_nat (a mod 2 ^ 20))
    | None => 0
    end |}.

Lemma apply_record_length addr file x r : length (apply_record addr file x r) = length x.
Proof.
  unfold apply_record. repeat (case_match; [..|try done]); try done; [apply length_alter|apply length_inserts].
Qed.

Lemma list_find_file files name content :
  NoDup files.*1 -> (name, content) ∈ files ->
  exists i, list_find (fun f : list Z * list Z => f.1 = name) files = Some (i, (name, content)) /\ files !! i = Some (name, content).
Proof.
  intros Hnd Hin. apply list_elem_of_lookup in Hin as [i Hi]. exists i. split; [|done].
  apply list_find_Some. split; [done|]. split; [done|]. intros j f Hj Hji Hf.
  assert (j = i); [|lia]. apply (NoDup_lookup files.*1 j i name Hnd); rewrite list_lookup_fmap; [rewrite Hj; cbn; by rewrite Hf|by rewrite Hi].
Qed.

#[export] Instance megabyte_loader_laws : @TableLoaderLaws megabyte_loader.
Proof.
  split.
  - intros files name [Hl _]. cbn [tl_address megabyte_loader]. unfold megabyte_address, file_index.
    destruct (list_find _ files) as [[i f]|] eqn:E; [|unfold is_u; lia].
    apply list_find_Some in E as (Hi & _). apply lookup_lt_Some in Hi. unfold is_u. lia.
  - intros files script name content [_ Hsz] Hnd Hscript Hin _. cbn [tl_address tl_memory megabyte_loader].
    destruct (list_find_file files _ _ Hnd Hscript) as (k & Hk & _).
    destruct (list_find_file files _ _ Hnd Hin) as (i & Hi & Hlook).
    assert (loaded files (name, content) = foldl (apply_record (megabyte_address files) name) content (script_records script)) as <-.
    { unfold loaded, loader_file. by rewrite Hk. }
    assert (length (loaded files (name, content)) = length content) as Hlen.
    { unfold loaded. cbn [fst snd]. generalize (script_records (loader_file files)) as rs. intros rs. revert content Hin Hi Hlook.
      induction rs as [|r rs IH] using rev_ind; [done|]. intros. rewrite foldl_app. cbn [foldl].
      rewrite apply_record_length. by apply IH. }
    rewrite Forall_forall in Hsz. pose proof (Hsz _ Hin) as Hb. cbn [snd] in Hb.
    apply list_eq. intros j. unfold raw_parts. rewrite list_lookup_fmap. destruct (decide (j < length content)%nat) as [Hj|Hj].
    + rewrite lookup_seq_lt by done. cbn [fmap option_fmap option_map]. unfold megabyte_address at 1 2, file_index. rewrite Hi.
      replace (2 ^ 20 * (1 + Z.of_nat i) + Z.of_nat (0 + j)) with (Z.of_nat j + (1 + Z.of_nat i) * 2 ^ 20) by lia.
      rewrite Z.div_add, Z.mod_add, Z.div_small, Z.mod_small by lia.
      replace (Z.to_nat (0 + (1 + Z.of_nat i) - 1)) with i by lia. rewrite Hlook, Nat2Z.id.
      destruct (lookup_lt_is_Some_2 (loaded files (name, content)) j) as [x ->]; [lia|done].
    + rewrite lookup_seq_ge by lia. symmetry. apply lookup_ge_None. lia.
Qed.

(** Two tables. *)
Definition guest_tables : list (list Z * (list Z * nat)) :=
  let image sig body := let b := sdt_bytes sig 1 0 body (calc_checksum (sdt_bytes sig 1 0 body 0)) in (sig, (b, length b)) in
  [image (bytes_of "APIC") [1; 2; 3]; image (bytes_of "FACP") [4; 5]].

Lemma acpi_tables_found_witness :
  exists rsdp s,
    rsdp_rsdt (@tl_memory megabyte_loader (acpi_files guest_tables)) rsdp = Ok (XsdtTable s) /\
    find_entry (@tl_memory megabyte_loader (acpi_files guest_tables)) (XsdtTable s) (bytes_of "FACP") =
      Ok (mkSdt (bytes_of "FACP") 38 1 [4; 5]).
Proof.
  destruct (@acpi_tables_found megabyte_loader megabyte_loader_laws guest_tables
    [mkSdt (bytes_of "APIC") 39 1 [1; 2; 3]; mkSdt (bytes_of "FACP") 38 1 [4; 5]]) as (_ & rsdp & s & _ & Hx & _ & _ & Hf).
  - repeat (constructor; [split; [split; [reflexivity|vm_compute; reflexivity]|split; [repeat (constructor; [discriminate|]); constructor|split; discriminate]]|]).
    constructor.
  - apply (bool_decide_unpack _). vm_compute. exact I.
  - cbn. lia.
  - repeat (constructor; [do 2 eexists; split; [reflexivity|]; split; [vm_compute; reflexivity|]; split; [reflexivity|];
      split; [vm_compute; reflexivity|split; reflexivity]|]). constructor.
  - split; [vm_compute; lia|]. apply Forall_forall. intros f Hin. revert f Hin. apply Forall_forall.
    apply (bool_decide_unpack _). vm_compute. exact I.
  - exists rsdp, s. split; [exact Hx|]. apply (Hf (mkSdt (bytes_of "FACP") 38 1 [4; 5])). right. left.
Defined.
