(* ===== verification/Machine.v ===== *)
(** * Building the machines ([StaticVirtualDevices], [VirtualMachineConfig] and
    [VirtualMachine::new] of [mythril/src/vm.rs], [DynamicVirtualDevice] of
    [mythril/src/virtdev/mod.rs], [mythril/src/config.rs], [build_vm] and the set-up of
    the machines in [mythril/src/kmain.rs])

    A machine has the eight devices every guest gets and those its configuration adds;
    all of them answer through one interface.  The machines are built one after the
    other from the user's configuration, each in the host memory the previous ones
    left. *)

From S2P Require Import Prelude Error BTreeMap Memory GuestMemory VirtDev Clock Apic Timers Vm VmMemory Isolation.
From S2P Require Import Platform Uart Pit Devices Pci FwCfg Acpi Madt Linux AcpiBuild.

(** ** The devices of a machine *)

Inductive DynamicVirtualDevice :=
| DynDebugPort (port : DebugPort.t)
| DynUart (uart : Uart8250)
| DynQemu (qemu : QemuFwCfg).

Record StaticVirtualDevices := mkStatic {
  acpi_runtime : AcpiRuntime.t;
  vga_controller : VgaController.t;
  pci_root : PciRootComplex;
  pic : Pic8259.t;
  keyboard : Keyboard8042.t;
  pit : Pit8254;
  cmos_rtc : CmosRtc.t;
  io_apic : VirtIoApic.t
}.

(** [StaticVirtualDevices::new] *)
Definition static_new (memory : Z) : StaticVirtualDevices :=
  mkStatic (AcpiRuntime.new 0x600) VgaController.new pci_new Pic8259.new Keyboard8042.new pit_new
    (CmosRtc.new memory) VirtIoApic.new.

(** [dyn EmulatedDevice] *)
Inductive Device :=
| AcpiRuntimeDevice (d : AcpiRuntime.t)
| VgaDevice (d : VgaController.t)
| PciRootDevice (d : PciRootComplex)
| PicDevice (d : Pic8259.t)
| KeyboardDevice (d : Keyboard8042.t)
| PitDevice (d : Pit8254)
| RtcDevice (d : CmosRtc.t)
| IoApicDevice (d : VirtIoApic.t)
| DynamicDevice (d : DynamicVirtualDevice).

(** [StaticVirtualDevices::devices] *)
Definition static_devices (s : StaticVirtualDevices) : list Device := [
  AcpiRuntimeDevice (acpi_runtime s); VgaDevice (vga_controller s); PciRootDevice (pci_root s);
  PicDevice (pic s); KeyboardDevice (keyboard s); PitDevice (pit s); RtcDevice (cmos_rtc s); IoApicDevice (io_apic s)].

Definition dynamic_services (d : DynamicVirtualDevice) : list DeviceRegion :=
  match d with
  | DynDebugPort port => DebugPort.services port
  | DynUart uart => uart_services uart
  | DynQemu qemu => fw_services qemu
  end.

Definition device_services (d : Device) : list DeviceRegion :=
  match d with
  | AcpiRuntimeDevice d => AcpiRuntime.services d
  | VgaDevice d => VgaController.services d
  | PciRootDevice d => pci_services d
  | PicDevice d => Pic8259.services d
  | KeyboardDevice d => Keyboard8042.services d
  | PitDevice d => pit_services d
  | RtcDevice d => CmosRtc.services d
  | IoApicDevice d => VirtIoApic.services d
  | DynamicDevice d => dynamic_services d
  end.

(** Run the handler of one kind of device. *)
Definition handle {W A D} (wrap : A -> D) (h : handler W A) (a : A) (e : Event W) : (D * Event W) * res unit :=
  let '((a', e'), r) := h (a, e) in ((wrap a', e'), r).

Section device.
Context `{TimeSource} `{GuestPaging}.
(** The local APIC and the number of the executing core; the time the system started. *)
Context (apic : LocalApic) (this_core start : Z).

Definition dynamic_on_event : handler Platform DynamicVirtualDevice := fun '(d, e) =>
  match d with
  | DynDebugPort port => handle DynDebugPort DebugPort.on_event port e
  | DynUart uart => handle DynUart uart_on_event uart e
  | DynQemu qemu => handle DynQemu fw_on_event qemu e
  end.

Definition device_on_event : handler Platform Device := fun '(d, e) =>
  match d with
  | AcpiRuntimeDevice d => handle AcpiRuntimeDevice (AcpiRuntime.on_event start) d e
  | VgaDevice d => handle VgaDevice VgaController.on_event d e
  | PciRootDevice d => handle PciRootDevice pci_on_event d e
  | PicDevice d => handle PicDevice Pic8259.on_event d e
  | KeyboardDevice d => handle KeyboardDevice Keyboard8042.on_event d e
  | PitDevice d => handle PitDevice (pit_on_event apic this_core) d e
  | RtcDevice d => handle RtcDevice CmosRtc.on_event d e
  | IoApicDevice d => handle IoApicDevice VirtIoApic.on_event d e
  | DynamicDevice d => handle DynamicDevice dynamic_on_event d e
  end.

#[export] Instance machine_device : EmulatedDevice Platform Device := {
  services := device_services;
  on_event := device_on_event
}.
End device.

(** ** Configurations *)

Definition MAX_DYNAMIC_VIRTUAL_DEVICES : nat := 32.
Definition MAX_IMAGE_MAPPING_PER_VM : nat := 16.

Record VirtualMachineConfig := mkConfig {
  cfg_cpus : list Z;
  cfg_images : list (string * Z);
  cfg_virtual_devices : list DynamicVirtualDevice;
  cfg_serial : option Z;
  cfg_memory : Z
}.

(** [VirtualMachineConfig::new] *)
Definition config_new (cpus : list Z) (memory : Z) (serial : option Z) : res VirtualMachineConfig :=
  if bool_decide (length cpus <= MAX_PER_VM_CORE_COUNT)%nat then Ok (mkConfig cpus [] [] serial memory)
  else Err capacity_error.

(** [VirtualMachineConfig::map_image] *)
Definition config_map_image (image : string) (addr : Z) (c : VirtualMachineConfig) : res VirtualMachineConfig :=
  if bool_decide (length (cfg_images c) < MAX_IMAGE_MAPPING_PER_VM)%nat
  then Ok (mkConfig (cfg_cpus c) (cfg_images c ++ [(image, addr)]) (cfg_virtual_devices c) (cfg_serial c) (cfg_memory c))
  else Panic "insufficient capacity".

(** [config.virtual_devices.push] *)
Definition config_push_device (d : DynamicVirtualDevice) (c : VirtualMachineConfig) : res VirtualMachineConfig :=
  if bool_decide (length (cfg_virtual_devices c) < MAX_DYNAMIC_VIRTUAL_DEVICES)%nat
  then Ok (mkConfig (cfg_cpus c) (cfg_images c) (cfg_virtual_devices c ++ [d]) (cfg_serial c) (cfg_memory c))
  else Panic "insufficient capacity".

(** [UserVmConfig] *)
Record UserVmConfig := mkUserVm {
  user_memory : Z;
  user_kernel : string;
  user_initramfs : string;
  user_cmdline : list Z;
  user_cpus : list Z
}.

(** ** Machines *)

Definition unwrap_failed : string := "called `Result::unwrap()` on an `Err` value".

Section machine.
Context `{HA : HostAlloc} `{TS : TimeSource} `{GP : GuestPaging}.
Context (apic : LocalApic) (this_core start : Z).
(** The files compiled into the hypervisor, and the boot modules. *)
Context (bios linuxboot_dma_rom : list Z) (modules : list BootModule).
(** Where the APIC access page of the machine at an index of the static set lies. *)
Context (apic_page : nat -> Z).

#[local] Existing Instance machine_device.

(** [VirtualMachine::new], for the machine that will be the [idx]-th of the set *)
Definition vm_new (id : Z) (idx : nat) (config : VirtualMachineConfig) : st Host (VirtualMachine Device) :=
  guest_space ← setup_ept bios modules (cfg_images config) (cfg_memory config);
  let logical_apic_states := foldl (fun m core => bt_insert Z.compare core 0 m) [] (cfg_cpus config) in
  mret (mkVm id (cfg_cpus config) (cfg_memory config) (cfg_serial config)
    (static_devices (static_new (cfg_memory config)) ++ map DynamicDevice (cfg_virtual_devices config))
    device_map_default guest_space (apic_page idx) logical_apic_states 0).

(** The MADT of [build_vm] *)
Fixpoint madt_add_cpus (cpus : list Z) (b : MADTBuilder) : res MADTBuilder :=
  match cpus with
  | [] => Ok b
  | core :: r =>
      b ← res_expect (add_ics 8 (Ics.LocalApic 0 (u8 core) 1) b) "Failed to add APIC to MADT";
      madt_add_cpus r b
  end.

Definition build_madt (cpus : list Z) : res MADTBuilder :=
  let madt := set_ica (u32 GUEST_LOCAL_APIC_ADDR) madt_builder_new in
  madt ← madt_add_cpus cpus madt;
  res_expect (add_ics 8 (Ics.IoApic 0 0xfec00000 0) madt) "Failed to add I/O APIC to MADT".

(** The firmware files of [build_vm] *)
Definition build_fw_cfg (cfg : UserVmConfig) (acpi : RSDTBuilder) : st QemuFwCfgBuilder unit :=
  _ ← st_expect (add_file (bytes_of "genroms/linuxboot_dma.bin") linuxboot_dma_rom) unwrap_failed;
  _ ← st_expect (add_file (bytes_of "bootorder")
        (bytes_of "/rom@genroms/linuxboot_dma.bin" ++ [0x0a] ++ bytes_of "HALT")) unwrap_failed;
  _ ← st_expect (rsdp_build acpi) "Failed to build ACPI tables";
  st_expect (load_linux modules (user_kernel cfg) (user_initramfs cfg) (user_cmdline cfg) (user_memory cfg)) unwrap_failed.

(** The part of [build_vm] that does not touch memory.  Making the physical serial port of the first
    machine programs its registers; that is [Serial.new] of [PhysDev.v] over the port bus, on which
    nothing of the machine depends, so only its port number is kept here. *)
Definition build_config (cfg : UserVmConfig) (add_uart : bool) : res VirtualMachineConfig :=
  let serial := if add_uart then Some 0x3f8 else None in
  config ← res_expect (config_new (user_cpus cfg) (user_memory cfg) serial) "Failed to create VirtualMachineConfig";
  madt ← build_madt (user_cpus cfg);
  acpi ← res_expect (add_sdt 1024 madt []) unwrap_failed;
  config ← config_push_device (DynDebugPort (DebugPort.new 0x402)) config;
  config ← config_push_device (DynUart (uart_new 0x3f8)) config;
  let '(fw_cfg_builder, r) := build_fw_cfg cfg acpi builder_new in
  _ ← r;
  config_push_device (DynQemu (build fw_cfg_builder)) config.

Definition build_vm (idx : nat) (cfg : UserVmConfig) (add_uart : bool) : st Host (VirtualMachine Device) :=
  config ← lift (build_config cfg add_uart);
  st_expect (vm_new (u32 (Z.of_nat idx)) idx config) "Failed to create vm".

(** One machine of the configuration: built, then added to the set *)
Definition add_machine (idx : nat) (cfg : UserVmConfig) : st (VirtualMachineSet Device * Host) unit := fun '(s, h) =>
  let '(h, v) := build_vm idx cfg (Nat.eqb idx 0) h in
  match v with
  | Ok v => @set_insert Platform Device (machine_device apic this_core start) HA v (s, h)
  | Err e => ((s, h), Err e)
  | Panic w => ((s, h), Panic w)
  end.

(** [init_virtual_machines], over the machines [kmain] builds from the configuration *)
Fixpoint init_virtual_machines (idx : nat) (cfgs : list UserVmConfig) : st (VirtualMachineSet Device * Host) unit :=
  match cfgs with
  | [] => mret tt
  | cfg :: r => _ ← add_machine idx cfg; init_virtual_machines (S idx) r
  end.
End machine.

(** ** Isolation of the machines *)

Section isolation.
Context `{HA : HostAlloc} `{!HostAllocLaws} `{TS : TimeSource} `{GP : GuestPaging}.
Context (apic : LocalApic) (this_core start : Z).
Context (bios linuxboot_dma_rom : list Z) (modules : list BootModule) (apic_page : nat -> Z).

Notation build_vm := (build_vm bios linuxboot_dma_rom modules apic_page).
Notation add_machine := (add_machine apic this_core start bios linuxboot_dma_rom modules apic_page).
Notation init := (init_virtual_machines apic this_core start bios linuxboot_dma_rom modules apic_page).

(** Building a machine only builds its own memory. *)
Lemma build_vm_steps idx cfg uart h roots :
  isolated h roots ->
  let '(h', r) := build_vm idx cfg uart h in
  (h' = h /\ is_ok r = false) \/
  exists root, root ∉ roots /\ isolated h' (root :: roots) /\ rtc some_step (h, roots) (h', root :: roots) /\
    (forall f fr, frames h !! f = Some fr -> frames h' !! f = Some fr) /\
    (forall f, is_Some (frames h !! f) -> unmapped h roots f -> unmapped h' (root :: roots) f) /\
    (forall v, r = Ok v -> vm_guest_space v = root /\ vm_apic_access_page v = apic_page idx) /\
    (forall r', r' ∈ roots -> same_view h h' r').
Proof.
  intros I. unfold Machine.build_vm. rewrite st_bind_eq. unfold lift at 1.
  destruct (build_config linuxboot_dma_rom modules cfg uart) as [config|e|w]; [|by left..].
  unfold st_expect, vm_new. rewrite st_bind_eq.
  pose proof (setup_ept_steps bios modules (cfg_images config) (cfg_memory config) h roots I) as Hs.
  destruct (setup_ept bios modules (cfg_images config) (cfg_memory config) h) as [h' r].
  destruct Hs as [[-> ->]|(root & Hn & I' & S & F & U & Hx & V)]; [by left|].
  destruct r as [x|e|w]; right; exists root; (split_and!; [done..| |done]); [|done..].
  intros v [= <-]. split; [by apply Hx|done].
Qed.

(** What holds before the machine [idx] of [n] is built. *)
Record machines_inv (h0 : Host) (n idx : nat) (s : VirtualMachineSet Device) (h : Host) (roots : list Z) : Prop := {
  inv_isolated : isolated h roots;
  inv_steps : rtc some_step (h0, []) (h, roots);
  inv_distinct : NoDup (vm_guest_space <$> vms s);
  inv_roots : Forall (.∈ roots) (vm_guest_space <$> vms s);
  inv_pages : forall j, (idx <= j < n)%nat -> host_page h (apic_page j) /\ unmapped h roots (apic_page j)
}.

Lemma machines_inv_weaken h0 n idx s h roots : machines_inv h0 n idx s h roots -> machines_inv h0 n (S idx) s h roots.
Proof. intros [I S D R P]. split; [done..|]. intros j Hj. apply P. lia. Qed.

Lemma add_machine_inv h0 n idx cfg s h roots s' h' r :
  (forall i j, apic_page i = apic_page j -> i = j) -> (idx < n)%nat ->
  machines_inv h0 n idx s h roots -> add_machine idx cfg (s, h) = ((s', h'), r) ->
  (exists roots', machines_inv h0 n (S idx) s' h' roots') /\
  (forall r', r' ∈ roots -> same_view h h' r') /\ (forall f fr, frames h !! f = Some fr -> frames h' !! f = Some fr).
Proof.
  intros Hinj Hidx Hinv. pose proof Hinv as [I St D R P]. unfold Machine.add_machine.
  pose proof (build_vm_steps idx cfg (Nat.eqb idx 0) h roots I) as Hb.
  destruct (build_vm idx cfg (Nat.eqb idx 0) h) as [h1 v].
  destruct Hb as [[-> Hv]|(root & Hn & I1 & S1 & F1 & U1 & Hv & V1)].
  { destruct v as [v|e|w]; [done|..]; intros [= <- <- _]; (split; [exists roots; by apply machines_inv_weaken|]); by eauto using same_view_refl. }
  assert (machines_inv h0 n idx s h1 (root :: roots)) as Hinv1.
  { split; [done|by etrans|done| |].
    - eapply Forall_impl; [exact R|]. intros ??. by right.
    - intros j Hj. destruct (P j Hj) as [(Hr & Ha & fr & Hf & Hl) Hu]. split; [|apply U1; [by eexists|done]].
      split_and!; [lia..|done|]. exists fr. split; [by apply F1|done]. }
  destruct v as [v|e|w].
  2, 3: intros [= <- <- _]; split; [exists (root :: roots); by apply machines_inv_weaken|done].
  destruct (Hv v eq_refl) as [Hroot Hpage].
  assert (forall cs m h2, machines_inv h0 n (S idx) s h2 (root :: roots) ->
    machines_inv h0 n (S idx) (mkSet cs (vms s ++ [set_vm_device_map m v])) h2 (root :: roots)) as Hpush.
  { intros cs m h2 [I2 S2 D2 R2 P2]. split; [done..| | |done]; cbn [vms]; rewrite fmap_app; cbn.
    - apply NoDup_app. split; [done|]. split; [|apply NoDup_singleton]. intros x Hx Hx'.
      apply list_elem_of_singleton in Hx' as ->. rewrite Hroot in Hx. rewrite Forall_forall in R. by apply Hn, R.
    - apply Forall_app. split; [done|]. constructor; [|constructor]. rewrite Hroot. left. }
  unfold set_insert. case_bool_decide; [|intros [= <- <- _]; split; [exists (root :: roots); by apply machines_inv_weaken|done]].
  destruct (register_devices 0 (vm_devices v) (vm_device_map v)) as [m [[]|e|w]].
  2, 3: intros [= <- <- _]; split; [exists (root :: roots); by apply Hpush, machines_inv_weaken|done].
  assert (forall h2 x, setup_guest_local_apic_page (set_vm_device_map m v) h1 = (h2, x) ->
    machines_inv h0 n (S idx) s h2 (root :: roots) /\ (forall r', r' ∈ roots -> same_view h h2 r') /\ frames h2 = frames h1) as Hap.
  { intros h2 x. unfold setup_guest_local_apic_page. cbn [vm_apic_access_page vm_guest_space set_vm_device_map].
    rewrite Hroot, Hpage, st_bind_eq. unfold lift. destruct (inv_pages _ _ _ _ _ _ Hinv1 idx) as [Hp Hu]; [lia|].
    unfold from_start_address. rewrite (proj2 (aligned_mod _)) by apply Hp. cbn [negb]. intros Hm.
    destruct (isolated_map h1 (root :: roots) root GUEST_LOCAL_APIC_ADDR (apic_page idx) false h2 x) as (I2 & F2 & N2 & V2);
      [done|left|done..|].
    split; [|split; [|done]]; [|intros r' Hr'; eapply same_view_trans; [by apply V1|]; apply V2; [by right|by intros ->]].
    destruct Hinv1 as [_ S1' D1 R1 P1]. split; [done| |done..|].
    - eapply rtc_r; [exact S1'|]. exists root. eapply step_page; [left|done..].
    - intros j Hj. destruct (P1 j) as [(Hr & Ha & fr & Hf & Hl) Hu']; [lia|]. split.
      + split_and!; [lia..|done|]. exists fr. by rewrite F2.
      + intros r' q w Hr' Hq. destruct (N2 r' (apic_page j) Hr') as [(q' & w' & Hq')|E]; [eauto|by apply (Hu' r' q' w')|].
        apply Hinj in E. lia. }
  destruct (setup_guest_local_apic_page (set_vm_device_map m v) h1) as [h2 x]. destruct (Hap h2 x eq_refl) as (Hinv2 & V2 & F2).
  destruct x as [[]|e|w]; [case_bool_decide|..]; intros [= <- <- _];
    (split; [exists (root :: roots); by apply Hpush|split; [done|]]; intros f fr Hf; rewrite F2; by apply F1).
Qed.

Lemma init_inv h0 n : forall cfgs idx s h roots s' h' r,
  (forall i j, apic_page i = apic_page j -> i = j) -> (idx + length cfgs <= n)%nat ->
  machines_inv h0 n idx s h roots -> init idx cfgs (s, h) = ((s', h'), r) ->
  exists idx' roots', machines_inv h0 n idx' s' h' roots'.
Proof.
  induction cfgs as [|cfg cfgs IH]; intros idx s h roots s' h' r Hinj Hn Hinv; cbn [init_virtual_machines length] in *.
  { intros [= <- <- _]. eauto. }
  rewrite st_bind_eq. destruct (add_machine idx cfg (s, h)) as [[s1 h1] x] eqn:E.
  apply (add_machine_inv h0 n idx cfg s h roots) in E as [(roots1 & Hinv1) _]; [|done|lia|done].
  destruct x as [[]|e|w]; [|intros [= <- <- _]; eauto..]. apply (IH (S idx) s1 h1 roots1); [done|lia|done].
Qed.

Lemma init_machines cfgs h0 s h r :
  (forall i j, apic_page i = apic_page j -> i = j) ->
  (forall i, (i < length cfgs)%nat -> host_page h0 (apic_page i)) ->
  init 0%nat cfgs (set_new, h0) = ((s, h), r) ->
  exists idx roots, machines_inv h0 (length cfgs) idx s h roots.
Proof.
  intros Hinj Hpages Hinit. eapply (init_inv h0 (length cfgs) cfgs 0 set_new h0 []); [done..| |exact Hinit].
  split; [apply no_guests_isolated|done|constructor..|]. intros j Hj. split; [apply Hpages; lia|].
  intros ? ? ? Hx. by apply not_elem_of_nil in Hx.
Qed.

(** the machines of a configuration are isolated.  Whatever the configuration, and
    however far building its machines gets before an error, if the APIC access pages of
    the static set are distinct pages no allocation has taken, then the machines in the
    set have page tables of their own, no host frame backs pages of two machines, and
    the memory is one the isolation theorem applies to. *)
Lemma machines_isolated cfgs h0 s h r :
  (forall i j, apic_page i = apic_page j -> i = j) ->
  (forall i, (i < length cfgs)%nat -> host_page h0 (apic_page i)) ->
  init_virtual_machines apic this_core start bios linuxboot_dma_rom modules apic_page 0 cfgs (set_new, h0) = ((s, h), r) ->
  (exists roots, rtc some_step (h0, []) (h, roots) /\ Forall (.∈ roots) (vm_guest_space <$> vms s)) /\
  (forall i j v v' q q' f w w', vms s !! i = Some v -> vms s !! j = Some v' ->
    0 <= q < 2 ^ 36 -> 0 <= q' < 2 ^ 36 ->
    page_map h (vm_guest_space v) q = Some (f, w) -> page_map h (vm_guest_space v') q' = Some (f, w') -> i = j /\ q = q').
Proof.
  intros Hinj Hpages Hinit. destruct (init_machines cfgs h0 s h r Hinj Hpages Hinit) as (idx & roots & [I S D R _]).
  split; [by exists roots|]. intros i j v v' q q' f w w' Hi Hj Hq Hq' H1 H2. rewrite Forall_forall in R.
  assert (forall k x, vms s !! k = Some x -> (vm_guest_space <$> vms s) !! k = Some (vm_guest_space x)) as Hk
    by (intros k x Hx; by rewrite list_lookup_fmap, Hx).
  destruct (iso_pages h roots I (vm_guest_space v) (vm_guest_space v') q q' f w w') as [E ->]; [| |done..|].
  1, 2: apply R; eapply list_elem_of_lookup_2; by apply Hk.
  split; [|done]. eapply NoDup_lookup; [exact D|by apply Hk|rewrite E; by apply Hk].
Qed.
End isolation.

(** ** Routing *)

Lemma register_device_ok {V} (dev : V) regions : forall m m',
  wf m -> Forall region_valid regions -> register_device dev regions m = (m', Ok tt) ->
  wf m' /\ forall x k,
    (find_device_port x m' = Some k <-> find_device_port x m = Some k \/ (k = dev /\ existsb (port_in x) regions = true)) /\
    (find_device_mem x m' = Some k <-> find_device_mem x m = Some k \/ (k = dev /\ existsb (mem_in x) regions = true)).
Proof.
  unfold register_device. induction regions as [|reg regions IH]; intros m m' Hwf Hv.
  { intros [= <-]. split; [done|]. intros x k. cbn. naive_solver. }
  apply Forall_cons in Hv as [Hreg Hv]. cbn [st_iter]. rewrite st_bind_eq.
  pose proof (register_region_spec m dev reg Hwf Hreg) as Hs. destruct (register_region dev reg m) as [m1 r1].
  destruct Hs as [Hwf1 [(-> & Hfree & Hext)|((msg & ->) & _)]]; [|done].
  intros Hr. destruct (IH m1 m' Hwf1 Hv Hr) as [Hwf' Hf]. split; [done|]. intros x k. destruct (Hf x k) as [Hp Hm].
  rewrite Hp, Hm. cbn [existsb]. destruct reg as [s e|s e]; cbn in Hext; destruct Hext as [E1 E2]; cbn [port_in mem_in];
    rewrite E1, E2; rewrite ?orb_false_l; (split; [|try done]); try done.
  all: case_decide as Hd; rewrite ?(bool_decide_true _ Hd), ?(bool_decide_false _ Hd), ?orb_true_l, ?orb_false_l; [|done].
  all: split; [intros [[= ->]|[-> _]]; by right|intros [Hk|[-> _]]; [|by left]].
  all: destruct Hfree; exists x; split; [done|by exists k].
Qed.

Lemma register_devices_ok {W D} `{EmulatedDevice W D} (l : list D) : forall i m m',
  wf m -> Forall (fun d => Forall region_valid (services d)) l -> register_devices i l m = (m', Ok tt) ->
  forall x k,
    (find_device_port x m' = Some k <-> find_device_port x m = Some k \/
       exists d, (i <= k)%nat /\ l !! (k - i)%nat = Some d /\ existsb (port_in x) (services d) = true) /\
    (find_device_mem x m' = Some k <-> find_device_mem x m = Some k \/
       exists d, (i <= k)%nat /\ l !! (k - i)%nat = Some d /\ existsb (mem_in x) (services d) = true).
Proof.
  induction l as [|d l IH]; intros i m m' Hwf Hv; cbn [register_devices].
  { intros [= <-] x k. rewrite lookup_nil. naive_solver. }
  apply Forall_cons in Hv as [Hd Hv]. rewrite st_bind_eq.
  destruct (register_device i (services d) m) as [m1 [[]|e|w]] eqn:E; [|done..].
  apply register_device_ok in E as [Hwf1 Hf]; [|done..]. intros Hr x k. destruct (IH (S i) m1 m' Hwf1 Hv Hr x k) as [Hp Hm].
  destruct (Hf x k) as [Hp1 Hm1]. rewrite Hp, Hm, Hp1, Hm1.
  assert (forall P : D -> Prop, (k = i /\ P d) \/ (exists d', (S i <= k)%nat /\ l !! (k - S i)%nat = Some d' /\ P d') <->
    exists d', (i <= k)%nat /\ (d :: l) !! (k - i)%nat = Some d' /\ P d') as Hi.
  { intros P. split.
    - intros [[-> Hd']|(d' & Hk & Hl & Hd')]; [exists d; rewrite Nat.sub_diag; by split_and!|].
      exists d'. split_and!; [lia| |done]. by replace (k - i)%nat with (S (k - S i)) by lia.
    - intros (d' & Hk & Hl & Hd'). destruct (decide (k = i)) as [->|Hne].
      + rewrite Nat.sub_diag in Hl. injection Hl as ->. by left.
      + right. exists d'. split_and!; [lia| |done]. by replace (k - i)%nat with (S (k - S i)) in Hl by lia. }
  rewrite <- (Hi (fun d => existsb (port_in x) (services d) = true)), <- (Hi (fun d => existsb (mem_in x) (services d) = true)).
  tauto.
Qed.

Section routing.
Context `{HA : HostAlloc} `{TS : TimeSource} `{GP : GuestPaging}.
Context (apic : LocalApic) (this_core start : Z).
Context (bios linuxboot_dma_rom : list Z) (modules : list BootModule) (apic_page : nat -> Z).
#[local] Existing Instance machine_device.

(** The devices of a machine from its configuration. *)
Definition machine_devices (memory : Z) (qemu : QemuFwCfg) : list Device :=
  static_devices (static_new memory) ++
  [DynamicDevice (DynDebugPort 0x402); DynamicDevice (DynUart (uart_new 0x3f8)); DynamicDevice (DynQemu qemu)].

Lemma push_device_Ok d c c' : config_push_device d c = Ok c' ->
  c' = mkConfig (cfg_cpus c) (cfg_images c) (cfg_virtual_devices c ++ [d]) (cfg_serial c) (cfg_memory c).
Proof. unfold config_push_device. case_bool_decide; [|done]. by intros [= <-]. Qed.

Lemma build_config_Ok cfg uart config : build_config linuxboot_dma_rom modules cfg uart = Ok config ->
  (exists qemu, cfg_virtual_devices config = [DynDebugPort 0x402; DynUart (uart_new 0x3f8); DynQemu qemu]) /\
  cfg_memory config = user_memory cfg /\ cfg_cpus config = user_cpus cfg /\ cfg_images config = [].
Proof.
  intros Ec. unfold build_config in Ec. apply bind_Ok in Ec as (c0 & H0 & Ec). unfold config_new in H0.
  case_bool_decide; [|done]. cbn [res_expect] in H0. injection H0 as <-. apply bind_Ok in Ec as (madt & _ & Ec).
  apply bind_Ok in Ec as (acpi & _ & Ec). apply bind_Ok in Ec as (c1 & E1 & Ec). apply bind_Ok in Ec as (c2 & E2 & Ec).
  destruct (build_fw_cfg _ _ _ _ _) as [fw r]. apply bind_Ok in Ec as ([] & _ & Ec).
  apply push_device_Ok in E1 as ->. apply push_device_Ok in E2 as ->. apply push_device_Ok in Ec as ->. cbn. eauto.
Qed.

Lemma build_vm_devices idx cfg uart h h' v :
  build_vm bios linuxboot_dma_rom modules apic_page idx cfg uart h = (h', Ok v) ->
  (exists qemu, vm_devices v = machine_devices (user_memory cfg) qemu) /\ vm_device_map v = device_map_default /\
  vm_cpus v = user_cpus cfg.
Proof.
  unfold build_vm. rewrite st_bind_eq. unfold lift at 1.
  destruct (build_config linuxboot_dma_rom modules cfg uart) as [config|e|w] eqn:Ec; [|done..].
  destruct (build_config_Ok cfg uart config Ec) as ((qemu & Hd) & Hm & Hc & _).
  unfold st_expect, vm_new. rewrite st_bind_eq. destruct (setup_ept _ _ _ _ h) as [h1 [x|e|w]]; [|done..].
  intros [= _ <-]. cbn [vm_devices vm_device_map vm_cpus]. rewrite Hd, Hm, Hc. split_and!; [by exists qemu|done..].
Qed.

Lemma machine_devices_valid memory qemu : Forall (fun d => Forall region_valid (device_services d)) (machine_devices memory qemu).
Proof. repeat constructor; cbn; try lia; vm_compute; discriminate. Qed.

(** C12: every machine answers at the ports and addresses of its devices.  The devices of
    a machine that was built never conflict: registering them succeeds, and afterwards
    a port or an address finds a device exactly when one of that device's regions
    contains it. *)
Theorem machine_devices_routed idx cfg uart h h' v :
  build_vm bios linuxboot_dma_rom modules apic_page idx cfg uart h = (h', Ok v) ->
  let dev := machine_device apic this_core start in
  exists m, register_devices (H := dev) 0 (vm_devices v) (vm_device_map v) = (m, Ok tt) /\
    forall x i,
      (find_device_port x m = Some i <-> exists d, vm_devices v !! i = Some d /\ existsb (port_in x) (device_services d) = true) /\
      (find_device_mem x m = Some i <-> exists d, vm_devices v !! i = Some d /\ existsb (mem_in x) (device_services d) = true).
Proof.
  intros Hb dev. apply build_vm_devices in Hb as ((qemu & ->) & -> & _).
  assert ((register_devices (H := dev) 0 (machine_devices (user_memory cfg) qemu) device_map_default).2 = Ok tt) as Hok
    by (vm_compute; reflexivity).
  destruct (register_devices 0 _ _) as [m r] eqn:Hr. cbn [snd] in Hok. subst r. exists m. split; [done|]. intros x i.
  destruct (register_devices_ok (machine_devices (user_memory cfg) qemu) 0 device_map_default m) with (x := x) (k := i) as [Hp Hm];
    [split; apply bt_wf_nil|apply machine_devices_valid|done|].
  rewrite Hp, Hm, Nat.sub_0_r. split; (split; [intros [?|(d & _ & ? & ?)]; [done|eauto]|intros (d & ? & ?); right; exists d; split_and!; [lia|done..]]).
Qed.
End routing.

(** ** How many cores a machine can have *)

Lemma madt_add_cpus_spec cpus : forall b,
  ((length (structures b) + length cpus <= 8)%nat ->
    madt_add_cpus cpus b = Ok (mkMadtBuilder (builder_ica b) (builder_flags b)
      (structures b ++ map (fun core => Ics.LocalApic 0 (u8 core) 1) cpus))) /\
  ((length (structures b) <= 8)%nat -> (8 < length (structures b) + length cpus)%nat -> exists w, madt_add_cpus cpus b = Panic w).
Proof.
  induction cpus as [|core cpus IH]; intros b; cbn [madt_add_cpus length map].
  { rewrite app_nil_r. split; [intros _; by destruct b|lia]. }
  unfold add_ics. case_bool_decide as Hb; cbn [res_expect mbind res_bind]; [|split; [lia|eauto]].
  destruct (IH (mkMadtBuilder (builder_ica b) (builder_flags b) (structures b ++ [Ics.LocalApic 0 (u8 core) 1]))) as [H1 H2].
  cbn [structures builder_ica builder_flags] in H1, H2. rewrite length_app in H1, H2. cbn [length] in H1, H2. split.
  - intros Hl. rewrite H1 by lia. by rewrite <- app_assoc.
  - intros _ Hl. apply H2; lia.
Qed.

(** Up to seven cores the table has room for the I/O APIC after them. *)
Lemma build_madt_spec cpus :
  ((length cpus <= 7)%nat -> build_madt cpus = Ok (mkMadtBuilder (Some 0xfee00000) None
    (map (fun core => Ics.LocalApic 0 (u8 core) 1) cpus ++ [Ics.IoApic 0 0xfec00000 0]))) /\
  ((7 < length cpus)%nat -> exists w, build_madt cpus = Panic w).
Proof.
  destruct (madt_add_cpus_spec cpus (set_ica (u32 GUEST_LOCAL_APIC_ADDR) madt_builder_new)) as [H1 H2].
  cbn [structures set_ica madt_builder_new length builder_ica builder_flags app] in H1, H2. unfold build_madt. split; intros Hl.
  - rewrite H1 by lia. cbn [mbind res_bind]. unfold add_ics. cbn [structures].
    rewrite bool_decide_true by (rewrite length_map; lia). done.
  - destruct (decide (length cpus = 8%nat)) as [E|E].
    + rewrite H1 by lia. cbn [mbind res_bind]. unfold add_ics. cbn [structures].
      rewrite bool_decide_false by (rewrite length_map; lia). eauto.
    + destruct H2 as [w ->]; [lia..|]. by exists w.
Qed.

Lemma too_many_cores `{HostAlloc} bios rom modules apic_page idx cfg uart h :
  (7 < length (user_cpus cfg))%nat -> exists w, build_vm bios rom modules apic_page idx cfg uart h = (h, Panic w).
Proof.
  intros Hl. destruct (proj2 (build_madt_spec (user_cpus cfg)) Hl) as [w Hw].
  unfold build_vm. rewrite st_bind_eq. unfold lift, build_config, config_new. rewrite Hw. case_bool_decide; cbn; eauto.
Qed.

(** A machine that was built has at most seven cores, of which none has reported. *)
Lemma build_vm_cpus `{HostAlloc} bios rom modules apic_page idx cfg uart h h' v :
  build_vm bios rom modules apic_page idx cfg uart h = (h', Ok v) ->
  vm_cpus_ready v = 0 /\ (length (vm_cpus v) <= 7)%nat.
Proof.
  intros Hb. pose proof (build_vm_devices _ _ _ _ _ _ _ _ _ _ Hb) as (_ & _ & ->).
  split; [|destruct (decide (length (user_cpus cfg) <= 7)%nat) as [|Hn]; [done|]].
  - revert Hb. unfold build_vm. rewrite st_bind_eq. unfold lift at 1. destruct (build_config _ _ _ _) as [config|e|w]; [|done..].
    unfold st_expect, vm_new. rewrite st_bind_eq. destruct (setup_ept _ _ _ _ h) as [h1 [x|e|w]]; [|done..].
    by intros [= _ <-].
  - destruct (too_many_cores bios rom modules apic_page idx cfg uart h) as [w Hw]; [lia|congruence].
Qed.

(** C14: a machine can have at most seven cores.  Up to seven, the interrupt controller
    table lists each core's local APIC, enabled, and the I/O APIC after them; with more
    than seven, although a configuration may hold 32, building the machine panics before
    it allocates anything. *)
Theorem core_limit `{HostAlloc} bios rom modules apic_page idx cfg uart h :
  ((length (user_cpus cfg) <= 7)%nat -> build_madt (user_cpus cfg) = Ok (mkMadtBuilder (Some 0xfee00000) None
    (map (fun core => Ics.LocalApic 0 (u8 core) 1) (user_cpus cfg) ++ [Ics.IoApic 0 0xfec00000 0]))) /\
  ((7 < length (user_cpus cfg))%nat -> exists w, build_vm bios rom modules apic_page idx cfg uart h = (h, Panic w)).
Proof. split; [apply build_madt_spec|apply too_many_cores]. Qed.

(** ** A configuration with two machines *)

Definition demo_modules : list BootModule :=
  [mkModule (Some "kernel"%string) demo_kernel; mkModule (Some "initramfs"%string) [1; 2; 3]].
Definition demo_vm (cpus : list Z) : UserVmConfig := mkUserVm 0 "kernel" "initramfs" [0x71] cpus.
Definition demo_bios : list Z := [0xea; 0x5b; 0xe0; 0x00; 0xf0; 0; 0; 0; 0; 0; 0; 0; 0; 0; 0; 0].
Definition demo_page (i : nat) : Z := 0x300000 + 4096 * Z.of_nat i.
Definition demo_host : Host := mkHost ∅ {[ 0x300000 := replicate 4096 0; 0x301000 := replicate 4096 0 ]}.
Definition demo_init : (VirtualMachineSet Device * Host) * res unit :=
  @init_virtual_machines pool_alloc slow_clock linear_entry_address (mkLocalApic 0 1) 0 0 demo_bios [0x55; 0xaa]
    demo_modules demo_page 0 [demo_vm [0; 1]; demo_vm [2]] (set_new, demo_host).

Lemma machines_isolated_witness :
  demo_init.2 = Ok tt /\ length (vms demo_init.1.1) = 2%nat /\
  forall v v' q q' f w w', vms demo_init.1.1 !! 0%nat = Some v -> vms demo_init.1.1 !! 1%nat = Some v' ->
    0 <= q < 2 ^ 36 -> 0 <= q' < 2 ^ 36 ->
    page_map demo_init.1.2 (vm_guest_space v) q = Some (f, w) ->
    page_map demo_init.1.2 (vm_guest_space v') q' = Some (f, w') -> False.
Proof.
  split; [vm_compute; reflexivity|]. split; [vm_compute; reflexivity|].
  intros v v' q q' f w w' Hv Hv' Hq Hq' H1 H2.
  destruct (@machines_isolated pool_alloc _ slow_clock linear_entry_address (mkLocalApic 0 1) 0 0 demo_bios [0x55; 0xaa]
    demo_modules demo_page [demo_vm [0; 1]; demo_vm [2]] demo_host demo_init.1.1 demo_init.1.2 demo_init.2) as [_ Hi].
  - intros i j. unfold demo_page. lia.
  - intros [|[|i]] Hi; [| |cbn in Hi; lia]; (split; [unfold demo_page; lia|]); (split; [reflexivity|]);
      exists (replicate 4096 0); split; reflexivity.
  - unfold demo_init. by destruct (init_virtual_machines _ _ _ _ _ _ _ _ _ _) as [[s h] r].
  - destruct (Hi 0%nat 1%nat v v' q q' f w w') as [E _]; [done..|discriminate E].
Defined.

Lemma machine_devices_routed_witness :
  let build := @build_vm pool_alloc demo_bios [0x55; 0xaa] demo_modules demo_page 0 (demo_vm [0]) true demo_host in
  exists v m, build.2 = Ok v /\
    register_devices (H := @machine_device slow_clock linear_entry_address (mkLocalApic 0 1) 0 0) 0 (vm_devices v) (vm_device_map v) = (m, Ok tt) /\
    find_device_port 0x3fa m = Some 9%nat /\ find_device_mem 0xfec00010 m = Some 7%nat /\ find_device_port 0x2f8 m = None.
Proof.
  destruct (@build_vm pool_alloc demo_bios [0x55; 0xaa] demo_modules demo_page 0 (demo_vm [0]) true demo_host) as [h r] eqn:E.
  assert (is_ok r = true) as Hr by (transitivity (is_ok (h, r).2); [done|]; rewrite <- E; vm_compute; reflexivity).
  destruct r as [v|e|w]; [|discriminate Hr..].
  destruct (build_vm_devices _ _ _ _ _ _ _ _ _ _ E) as ((qemu & Hd) & _ & _).
  destruct (@machine_devices_routed pool_alloc slow_clock linear_entry_address (mkLocalApic 0 1) 0 0 demo_bios [0x55; 0xaa]
    demo_modules demo_page 0 (demo_vm [0]) true demo_host h v E) as (m & Hm & Hf).
  exists v, m. split; [done|]. split; [exact Hm|]. rewrite Hd in Hf. split_and!.
  - apply (Hf 0x3fa 9%nat). eexists. split; reflexivity.
  - apply (Hf 0xfec00010 7%nat). eexists. split; reflexivity.
  - destruct (find_device_port 0x2f8 m) as [i|] eqn:Hi; [|done]. apply (Hf 0x2f8 i) in Hi as (d & Hd' & He).
    do 11 (destruct i as [|i]; [injection Hd' as <-; discriminate He|]). discriminate Hd'.
Defined.
