(* ===== verification/GuestImage.v ===== *)
(** * The memory a guest starts with ([VirtualMachine::setup_ept] in [mythril/src/vm.rs])

    [setup_ept] loads the BIOS at its two addresses, the configured images, and backs what
    is left below the configured size with zero pages.  [layout] says what byte is where;
    the theorem at the end is that [setup_ept] produces it, and exactly when it fails. *)

From S2P Require Import Prelude Error BTreeMap Memory GuestMemory VirtDev Clock Apic Vm VmMemory Isolation Platform Machine.

(** ** The specification *)

(** An image and its address; it takes whole pages. *)
Notation placement := (list Z * Z)%type.

Definition place_size (p : placement) : Z := 4096 * ((Z.of_nat (length p.1) + 4095) / 4096).
Definition covers (p : placement) (x : Z) : bool := (p.2 <=? x) && (x <? p.2 + place_size p).
Definition overlaps (p q : placement) : bool :=
  Z.max p.2 q.2 <? Z.min (p.2 + place_size p) (q.2 + place_size q).

(** No two of the images overlap. *)
Fixpoint separate (ps : list placement) : bool :=
  match ps with
  | [] => true
  | p :: r => forallb (fun q => negb (overlaps p q)) r && separate r
  end.

(** The byte the images put at an address. *)
Definition placed (ps : list placement) (x : Z) : option Z :=
  foldl (fun b p => if covers p x then Some (default 0 (p.1 !! Z.to_nat (x - p.2))) else b) None ps.

(** The byte at an address of a guest with [memory] megabytes. *)
Definition layout (ps : list placement) (memory x : Z) : option Z :=
  match placed ps x with
  | Some b => Some b
  | None => if x <? 2 ^ 20 * memory then Some 0 else None
  end.

Fixpoint image_placements (modules : list BootModule) (images : list (string * Z)) : option (list placement) :=
  match images with
  | [] => Some []
  | (name, addr) :: r =>
      m ← find_module modules name;
      ps ← image_placements modules r;
      Some ((module_data m, addr) :: ps)
  end.

Definition bios_placements (bios : list Z) : list placement :=
  [(bios, 2 ^ 20 - Z.of_nat (length bios)); (bios, 2 ^ 32 - Z.of_nat (length bios))].

(** An image that starts on a page and lies in the guest's address range. *)
Definition placeable (p : placement) : Prop := p.2 mod 4096 = 0 /\ 0 <= p.2 /\ p.2 + place_size p <= 2 ^ 48.

#[export] Instance placeable_dec p : Decision (placeable p).
Proof. unfold placeable. apply _. Defined.

(** ** Images *)

Lemma placed_snoc ps p x :
  placed (ps ++ [p]) x = if covers p x then Some (default 0 (p.1 !! Z.to_nat (x - p.2))) else placed ps x.
Proof. unfold placed. by rewrite foldl_app. Qed.

Lemma covers_spec p x : covers p x = true <-> p.2 <= x < p.2 + place_size p.
Proof. unfold covers. rewrite andb_true_iff, Z.leb_le, Z.ltb_lt. done. Qed.

(** What the images put somewhere is covered by one of them. *)
Lemma placed_covered ps x : is_Some (placed ps x) <-> exists p, p ∈ ps /\ covers p x = true.
Proof.
  induction ps as [|p ps IH] using rev_ind.
  - split; [by intros [? ?]|]. intros (p & Hp & _). by apply not_elem_of_nil in Hp.
  - rewrite placed_snoc. destruct (covers p x) eqn:E.
    + split; [|by eexists]. intros _. exists p. split; [apply elem_of_app; right; by left|done].
    + rewrite IH. split; intros (q & Hq & Hc); exists q; (split; [|done]); [apply elem_of_app; by left|].
      apply elem_of_app in Hq as [Hq|Hq]; [done|]. apply list_elem_of_singleton in Hq as ->. congruence.
Qed.

Lemma overlaps_spec p q : overlaps p q = true <-> exists x, covers p x = true /\ covers q x = true.
Proof.
  unfold overlaps. rewrite Z.ltb_lt. setoid_rewrite covers_spec. split.
  - intros Hlt. exists (Z.max p.2 q.2). lia.
  - intros (x & H1 & H2). lia.
Qed.

Lemma separate_snoc ps p :
  separate (ps ++ [p]) = separate ps && forallb (fun q => negb (overlaps q p)) ps.
Proof.
  induction ps as [|q ps IH]; [done|]. cbn [app separate forallb]. rewrite IH, forallb_app. cbn [forallb].
  destruct (forallb _ ps), (separate ps), (negb (overlaps q p)), (forallb _ ps); done.
Qed.

Lemma separate_app_false ps qs : separate ps = false -> separate (ps ++ qs) = false.
Proof.
  induction qs as [|q qs IH] using rev_ind; [by rewrite app_nil_r|]. intros H. rewrite app_assoc, separate_snoc, IH; done.
Qed.

Section build.
Context `{HostAlloc} `{!HostAllocLaws}.

Lemma mapped_byte h root x : mem_inv h root -> mapped h root x <-> is_Some (guest_byte h root x).
Proof.
  intros (_ & Hok & _). unfold mapped, guest_byte. split; [|intros [b Hb]; destruct (page_map _ _ _); [by eexists|done]].
  intros [[f w] Hm]. rewrite Hm. destruct (Hok _ _ _ Hm) as (_ & fr & Hfr & Hl). cbn. rewrite Hfr. cbn.
  apply lookup_lt_is_Some_2. rewrite Hl. pose proof (Z.mod_pos_bound x 4096). lia.
Qed.

Lemma chunks_pages fuel image : (length image <= fuel)%nat ->
  Z.of_nat (length (chunks fuel image)) = (Z.of_nat (length image) + 4095) / 4096.
Proof.
  revert image. induction fuel as [|fuel IH]; intros [|b image] Hl; try (simpl in Hl; lia); [done..|].
  change (chunks (S fuel) (b :: image)) with (take 4096 (b :: image) :: chunks fuel (drop 4096 (b :: image))).
  rewrite length_cons, Nat2Z.inj_succ, IH by (rewrite length_drop; simpl in *; lia). rewrite length_drop.
  set (n := length (b :: image)). assert (0 < n)%nat by (unfold n; simpl; lia). clearbody n. clear IH Hl.
  destruct (decide (Z.of_nat n <= 4096)) as [Hn|Hn].
  - replace (n - 4096)%nat with 0%nat by lia. change (Z.succ ((Z.of_nat 0 + 4095) / 4096)) with 1.
    apply (Z.div_unique _ _ _ (Z.of_nat n - 1)); lia.
  - rewrite Nat2Z.inj_sub by lia. rewrite <- Z.add_1_r, <- Z.div_add by done. f_equal. lia.
Qed.

(** The bytes of the guest are the images placed so far. *)
Definition holds (h : Host) (root : Z) (ps : list placement) : Prop :=
  mem_inv h root /\ forall x, 0 <= x < 2 ^ 48 -> guest_byte h root x = placed ps x.

Lemma load_one h root ps p : holds h root ps -> placeable p ->
  let '(h', r) := map_data root p.1 p.2 h in
  match r with
  | Ok _ => holds h' root (ps ++ [p]) /\ forallb (fun q => negb (overlaps q p)) ps = true
  | Err e => (exists m, e = DuplicateMapping m) /\ forallb (fun q => negb (overlaps q p)) ps = false
  | Panic w => w = "allocation error"
  end.
Proof.
  intros [Hinv Hb] (Ha & Ha0 & Hend). unfold map_data.
  pose proof (map_chunks_spec root (length p.1) p.1 p.2 h Hinv (le_n _) Ha Ha0) as Hs.
  rewrite chunks_pages in Hs by done. fold (place_size p) in Hs.
  destruct (map_chunks root p.2 _ h) as [h' r]. destruct Hs as [Hinv' Hr]; [done|]. destruct r as [[]|e|w]; [| |done].
  - split; [split; [done|]|].
    + intros x Hx. destruct (Hr x Hx) as [-> _]. rewrite placed_snoc.
      destruct (covers p x) eqn:E; [by rewrite decide_True by (by apply covers_spec)|].
      rewrite decide_False; [by apply Hb|]. rewrite <- covers_spec. congruence.
    + apply forallb_forall. intros q Hq%list_elem_of_In. apply negb_true_iff, not_true_is_false.
      intros (x & Hqx & Hpx)%overlaps_spec. apply covers_spec in Hpx.
      assert (0 <= x < 2 ^ 48) as Hx by lia. destruct (Hr x Hx) as [_ Hm]. apply Hm; [|done].
      apply mapped_byte; [done|]. rewrite Hb by done. apply placed_covered. eauto.
  - destruct Hr as (He & x & Hx & Hm). split; [done|]. apply not_true_is_false. rewrite forallb_forall. intros Hall.
    assert (0 <= x < 2 ^ 48) as Hxr by lia.
    apply mapped_byte in Hm; [|done]. rewrite Hb in Hm by done. apply placed_covered in Hm as (q & Hq & Hqx).
    specialize (Hall q (proj1 (list_elem_of_In _ _) Hq)). apply negb_true_iff in Hall.
    assert (overlaps q p = true) as Ho by (apply overlaps_spec; exists x; split; [done|by apply covers_spec]). congruence.
Qed.

Lemma load_all root : forall qs h ps, holds h root ps -> separate ps = true -> Forall placeable qs ->
  let '(h', r) := st_iter (fun p => map_data root p.1 p.2) qs h in
  match r with
  | Ok _ => holds h' root (ps ++ qs) /\ separate (ps ++ qs) = true
  | Err e => (exists m, e = DuplicateMapping m) /\ separate (ps ++ qs) = false
  | Panic w => w = "allocation error"
  end.
Proof.
  induction qs as [|p qs IH]; intros h ps Hh Hsep Hqs; cbn [st_iter]; [by rewrite app_nil_r|].
  apply Forall_cons in Hqs as [Hp Hqs]. rewrite st_bind_eq. pose proof (load_one h root ps p Hh Hp) as H1.
  replace (ps ++ p :: qs) with ((ps ++ [p]) ++ qs) by (by rewrite <- app_assoc).
  destruct (map_data root p.1 p.2 h) as [h1 [[]|e|w]]; [| |done].
  - destruct H1 as [Hh1 Hs1]. apply IH; [done| |done]. by rewrite separate_snoc, Hsep, Hs1.
  - destruct H1 as [He Hs1]. split; [done|]. apply separate_app_false. by rewrite separate_snoc, Hsep, Hs1.
Qed.

(** ** The remaining pages *)

(** A page that has no bytes yet gets zeros, one that has keeps them. *)
Lemma zero_page h root ga : mem_inv h root ->
  let '(h', r) := map_new_frame root ga false h in
  mem_inv h' root /\
  match r with
  | Ok _ | Err (DuplicateMapping _) => forall x, guest_byte h' root x =
      match guest_byte h root x with Some b => Some b | None => if decide (guest_pfn x = guest_pfn ga) then Some 0 else None end
  | Err _ => False
  | Panic w => w = "allocation error"
  end.
Proof.
  intros Hinv. unfold map_new_frame. rewrite st_bind_eq. unfold box_new_page.
  destruct (host_alloc h) as [a|] eqn:Ha; [|done]. rewrite st_bind_eq. unfold lift, from_start_address.
  rewrite (proj2 (aligned_mod a) (alloc_aligned h a Ha)). cbn [negb].
  change (Z.to_nat BASE_PAGE_SIZE) with 4096%nat. unfold map_frame.
  destruct (map_guest_memory _ _ _ _ _) as [h' r] eqn:Hm.
  destruct (fresh_page h root ga a (replicate 4096 0) r h' Hinv Ha (length_replicate _ _)) as [Hinv' Hr].
  { by rewrite insert_insert_eq. }
  split; [done|]. destruct r as [[]|e|w]; [| |done].
  - destruct Hr as (Hn & _ & Hb). intros x. rewrite Hb. case_decide as E; [|by destruct (guest_byte h root x)].
    rewrite lookup_replicate_2 by (pose proof (Z.mod_pos_bound x 4096); lia).
    destruct (guest_byte h root x) as [b|] eqn:Eb; [|done]. destruct Hn. unfold mapped. rewrite <- E.
    apply mapped_byte; [done|]. by eexists.
  - destruct Hr as ((m & ->) & Hga & _ & Hb). intros x. rewrite Hb.
    destruct (guest_byte h root x) as [b|] eqn:Eb; [done|]. rewrite decide_False; [done|]. intros E.
    assert (mapped h root x) as [b Hx]%mapped_byte by (unfold mapped; by rewrite E); [congruence|done].
Qed.

Lemma zero_pages root : forall n i h, mem_inv h root -> 0 <= i -> i + Z.of_nat n <= 2 ^ 36 ->
  let '(h', r) := map_pages n i root h in
  match r with
  | Ok _ => mem_inv h' root /\ forall x, 0 <= x < 2 ^ 48 -> guest_byte h' root x =
      match guest_byte h root x with
      | Some b => Some b
      | None => if decide (4096 * i <= x < 4096 * (i + Z.of_nat n)) then Some 0 else None
      end
  | Err _ => False
  | Panic w => w = "allocation error"
  end.
Proof.
  induction n as [|n IH]; intros i h Hinv Hi Hend; cbn [map_pages].
  { split; [done|]. intros x Hx. rewrite decide_False by lia. by destruct (guest_byte h root x). }
  replace (u64 (i * 4096)) with (4096 * i) by (unfold u64; rewrite wrap_small by (unfold is_u; lia); lia).
  pose proof (zero_page h root (4096 * i) Hinv) as Hs.
  destruct (map_new_frame root (4096 * i) false h) as [h1 r1]. destruct Hs as [Hinv1 Hr1].
  assert ((forall x, guest_byte h1 root x = match guest_byte h root x with Some b => Some b
      | None => if decide (guest_pfn x = guest_pfn (4096 * i)) then Some 0 else None end) ->
    let '(h', r) := map_pages n (i + 1) root h1 in
    match r with
    | Ok _ => mem_inv h' root /\ forall x, 0 <= x < 2 ^ 48 -> guest_byte h' root x =
        match guest_byte h root x with
        | Some b => Some b
        | None => if decide (4096 * i <= x < 4096 * (i + Z.of_nat (S n))) then Some 0 else None
        end
    | Err _ => False
    | Panic w => w = "allocation error"
    end) as Hrest.
  { intros Hb. pose proof (IH (i + 1) h1 Hinv1) as Hn. destruct (map_pages n (i + 1) root h1) as [h' r].
    specialize (Hn ltac:(lia) ltac:(lia)). destruct r as [[]|e|w]; [|done..]. destruct Hn as [Hinv' Hn].
    split; [done|]. intros x Hx. rewrite Hn, Hb by done. destruct (guest_byte h root x); [done|].
    pose proof (same_page_iff x (4096 * i) Hx ltac:(lia) ltac:(rewrite Z.mul_comm; by apply Z_mod_mult)) as Hp.
    destruct (decide (guest_pfn x = guest_pfn (4096 * i))) as [E|E].
    - apply Hp in E. by rewrite decide_True by lia.
    - assert (~ (4096 * i <= x < 4096 * i + 4096)) by (rewrite <- Hp; done). repeat case_decide; done || lia. }
  destruct r1 as [[]|e|w]; [by apply Hrest| |done]. destruct e; try done. by apply Hrest.
Qed.

(** ** The whole memory *)

Lemma new_space_holds h h' root : space_new h = (h', Ok root) -> holds h' root [].
Proof.
  intros E. destruct (isolated_new_space h [] h' root) as (I & _ & _ & Hp & _); [|done|].
  { split; intros; by match goal with Hr : _ ∈ [] |- _ => apply not_elem_of_nil in Hr end. }
  assert (root ∈ [root]) as Hr by left. split.
  - split; [by apply (iso_wf _ _ I)|]. split; [by apply (iso_frames _ _ I)|].
    intros q q' f w w' Hq Hq' H1 H2. by destruct (iso_pages _ _ I root root q q' f w w' Hr Hr Hq Hq' H1 H2).
  - intros x _. unfold guest_byte. by rewrite Hp.
Qed.

(** The images are loaded like the BIOS. *)
Lemma images_iter root modules images : forall qs h, image_placements modules images = Some qs ->
  st_iter (fun '(name, addr) => map_image root modules name addr) images h = st_iter (fun p => map_data root p.1 p.2) qs h.
Proof.
  induction images as [|[name addr] images IH]; intros qs h Hq; cbn [image_placements] in Hq; [by injection Hq as <-|].
  unfold map_image at 1. destruct (find_module modules name) as [m|] eqn:Em; [|done]. cbn in Hq.
  destruct (image_placements modules images) as [ps|] eqn:Ep; [|done]. injection Hq as <-. cbn [st_iter fst snd].
  rewrite !st_bind_eq. unfold map_image. rewrite Em. destruct (map_data root (module_data m) addr h) as [h1 [[]|e|w]]; [|done..].
  by apply IH.
Qed.
(** Loading the BIOS and then the images is loading all of them in turn. *)
Lemma images_first {A} root bios modules images imgs (k : st Host A) h :
  image_placements modules images = Some imgs -> Forall placeable (bios_placements bios ++ imgs) ->
  (_ ← map_bios root bios; _ ← st_iter (fun '(name, addr) => map_image root modules name addr) images; k) h =
  (_ ← st_iter (fun p => map_data root p.1 p.2) (bios_placements bios ++ imgs); k) h.
Proof.
  intros Himg Hps. unfold map_bios, bios_placements. cbn [app st_iter fst snd].
  apply Forall_cons in Hps as [(_ & Hlo & _) [(_ & Hhi & _) _]%Forall_cons]. cbn [fst snd] in Hlo, Hhi.
  change (1024 * 1024) with (2 ^ 20). change (4 * 1024 * 1024 * 1024) with (2 ^ 32).
  unfold u64. rewrite !wrap_small by (unfold is_u; lia). rewrite !st_bind_eq.
  destruct (map_data root bios (2 ^ 20 - _) h) as [h2 [[]|e|w]]; [|done..]. rewrite !st_bind_eq.
  destruct (map_data root bios (2 ^ 32 - _) h2) as [h3 [[]|e|w]]; [|done..]. by rewrite !st_bind_eq, (images_iter root modules images imgs).
Qed.
End build.

(** Setting up the memory succeeds unless two images overlap or the host has no memory
    left, and then produces the layout. *)
Lemma setup_ept_layout `{HostAlloc} `{!HostAllocLaws} bios modules images memory imgs h :
  image_placements modules images = Some imgs ->
  let ps := bios_placements bios ++ imgs in
  Forall placeable ps -> 0 <= memory <= 2 ^ 28 ->
  let '(h', r) := setup_ept bios modules images memory h in
  match r with
  | Ok root => separate ps = true /\ mem_inv h' root /\
      forall x, 0 <= x < 2 ^ 48 -> guest_byte h' root x = layout ps memory x
  | Err e => separate ps = false /\ exists m, e = DuplicateMapping m
  | Panic w => w = "allocation error"
  end.
Proof.
  intros Himg ps Hps Hmem. unfold setup_ept. rewrite st_bind_eq.
  destruct (space_new h) as [h1 r1] eqn:E1.
  assert (match r1 with Ok root => holds h1 root [] | Err _ => False | Panic w => w = "allocation error" end) as H1.
  { destruct r1 as [root|e|w]; [by eapply new_space_holds| |]; unfold space_new, box_new_table in E1;
      destruct (host_alloc h); by injection E1. }
  destruct r1 as [root|e|w]; [|done..].
  pose proof (load_all root ps h1 [] H1 eq_refl Hps) as Hl. cbn [app] in Hl.
  cbn beta iota. rewrite (images_first root bios modules images imgs) by (done || by apply Hps).
  fold ps. rewrite st_bind_eq. destruct (st_iter _ ps h1) as [h2 [[]|e|w]]; [|by destruct Hl|done]. destruct Hl as [[Hinv Hb] Hsep].
  rewrite st_bind_eq. replace (u64 (Z.shiftl memory 8)) with (256 * memory)
    by (rewrite Z.shiftl_mul_pow2 by lia; unfold u64; rewrite wrap_small by (unfold is_u; lia); lia).
  pose proof (zero_pages root (Z.to_nat (256 * memory)) 0 h2 Hinv) as Hz.
  destruct (map_pages _ 0 root h2) as [h3 [[]|e|w]]; specialize (Hz ltac:(lia) ltac:(lia)); [|done..].
  destruct Hz as [Hinv3 Hz]. split; [done|]. split; [done|]. intros x Hx. rewrite Hz, Hb by done. unfold layout.
  destruct (placed ps x); [done|]. rewrite Z2Nat.id by lia. destruct (Z.ltb_spec x (2 ^ 20 * memory)).
  - by rewrite decide_True by lia.
  - by rewrite decide_False by lia.
Qed.

(** ** New machines *)

Lemma logical_states cpus core : forall m,
  bt_get Z.compare core (foldl (fun m core => bt_insert Z.compare core 0 m) m cpus) =
  if bool_decide (core ∈ cpus) then Some 0 else bt_get Z.compare core m.
Proof.
  induction cpus as [|c cpus IH]; intros m; cbn [foldl]; [by rewrite bool_decide_false by apply not_elem_of_nil|].
  rewrite IH, int_get_insert. repeat case_bool_decide; repeat case_decide; set_solver.
Qed.

(** C5: a new machine and the memory its guest starts with.  Let every configured image
    exist, start on a page and lie in the guest's address range, as the BIOS does at its
    two addresses.  Creating the machine succeeds unless two of the images overlap, which
    is reported as a duplicate mapping, or the host runs out of memory.  The machine has
    the configured cores, each with a cleared logical destination and none ready yet, and
    every byte of its guest's memory is known: the BIOS ends at one megabyte and again at
    four gigabytes, the images are at their addresses, every other byte below the
    configured size is zero, and nothing else is mapped; no host frame backs two of the
    guest's pages. *)
Theorem new_machine_memory `{HostAlloc} `{!HostAllocLaws} bios modules apic_page id idx config imgs h :
  image_placements modules (cfg_images config) = Some imgs ->
  let ps := bios_placements bios ++ imgs in
  Forall placeable ps -> 0 <= cfg_memory config <= 2 ^ 28 ->
  let '(h', r) := vm_new bios modules apic_page id idx config h in
  match r with
  | Ok v => separate ps = true /\ vm_id v = id /\ vm_cpus v = cfg_cpus config /\ vm_serial v = cfg_serial config /\
      vm_cpus_ready v = 0 /\
      (forall core, bt_get Z.compare core (vm_logical_apic_state v) = if bool_decide (core ∈ cfg_cpus config) then Some 0 else None) /\
      mem_inv h' (vm_guest_space v) /\
      forall x, 0 <= x < 2 ^ 48 -> guest_byte h' (vm_guest_space v) x = layout ps (cfg_memory config) x
  | Err e => separate ps = false /\ exists m, e = DuplicateMapping m
  | Panic w => w = "allocation error"
  end.
Proof.
  intros Himg ps Hps Hmem. unfold vm_new. rewrite st_bind_eq.
  pose proof (setup_ept_layout bios modules (cfg_images config) (cfg_memory config) imgs h Himg Hps Hmem) as Hs.
  destruct (setup_ept _ _ _ _ h) as [h' [root|e|w]]; [|done..]. destruct Hs as (Hsep & Hinv & Hb).
  cbn. split_and!; try done. intros core. apply logical_states.
Qed.

(** ** All machines of a configuration *)

(** The byte a guest finds at an address when it starts: the page of its local APIC is its
    machine's access page, the rest is the layout. *)
Definition start_byte (bios : list Z) (apic_page : option (list Z)) (memory x : Z) : option Z :=
  if (GUEST_LOCAL_APIC_ADDR <=? x) && (x <? GUEST_LOCAL_APIC_ADDR + 4096)
  then page ← apic_page; page !! Z.to_nat (x - GUEST_LOCAL_APIC_ADDR)
  else layout (bios_placements bios) memory x.

Lemma guest_byte_view h h' root x : same_view h h' root -> guest_byte h' root x = guest_byte h root x.
Proof.
  intros [T F]. unfold guest_byte. rewrite (page_map_same h h') by done.
  destruct (page_map h root (guest_pfn x)) as [[f w]|] eqn:E; [|done]. cbn. by rewrite (F _ _ _ E).
Qed.

Section boot.
Context `{HA : HostAlloc} `{!HostAllocLaws} `{TS : TimeSource} `{GP : GuestPaging}.
Context (apic : LocalApic) (this_core start : Z).
Context (bios linuxboot_dma_rom : list Z) (modules : list BootModule) (apic_page : nat -> Z).
Context (bios_fits : Forall placeable (bios_placements bios)).

Notation build_vm := (build_vm bios linuxboot_dma_rom modules apic_page).
Notation add_machine := (add_machine apic this_core start bios linuxboot_dma_rom modules apic_page).
Notation init := (init_virtual_machines apic this_core start bios linuxboot_dma_rom modules apic_page).

Lemma build_vm_memory idx cfg uart h h' v : 0 <= user_memory cfg <= 2 ^ 28 -> build_vm idx cfg uart h = (h', Ok v) ->
  vm_apic_access_page v = apic_page idx /\ mem_inv h' (vm_guest_space v) /\
  forall x, 0 <= x < 2 ^ 48 -> guest_byte h' (vm_guest_space v) x = layout (bios_placements bios) (user_memory cfg) x.
Proof.
  intros Hmem. unfold Machine.build_vm. rewrite st_bind_eq. unfold lift at 1.
  destruct (build_config linuxboot_dma_rom modules cfg uart) as [config|e|w] eqn:Ec; [|done..].
  destruct (build_config_Ok _ _ cfg uart config Ec) as (_ & Hm & Hc & Hi).
  unfold st_expect, vm_new. rewrite st_bind_eq, Hi, Hm.
  pose proof (setup_ept_layout bios modules [] (user_memory cfg) [] h eq_refl) as Hs. cbv zeta in Hs. rewrite app_nil_r in Hs.
  specialize (Hs bios_fits Hmem). destruct (setup_ept _ _ _ _ h) as [h1 [root|e|w]]; [|done..]. destruct Hs as (_ & Hinv & Hb).
  intros [= <- <-]. done.
Qed.

(** Mapping the access page into a guest. *)
Lemma access_page_bytes h root f fr h' : mem_inv h root -> host_page h f -> frames h !! f = Some fr ->
  map_frame root GUEST_LOCAL_APIC_ADDR f false h = (h', Ok tt) ->
  forall x, 0 <= x < 2 ^ 48 -> guest_byte h' root x =
    if (GUEST_LOCAL_APIC_ADDR <=? x) && (x <? GUEST_LOCAL_APIC_ADDR + 4096)
    then fr !! Z.to_nat (x - GUEST_LOCAL_APIC_ADDR) else guest_byte h root x.
Proof.
  intros (Hwf & _ & _) (Hr & Ha & _) Hf Hmap x Hx.
  destruct (map_guest_memory_frame h root GUEST_LOCAL_APIC_ADDR f false h' (Ok tt)) as (_ & Hfr & _ & Hp);
    [done|lia|done|exact Hmap|].
  pose proof (same_page_iff x GUEST_LOCAL_APIC_ADDR Hx ltac:(unfold GUEST_LOCAL_APIC_ADDR; lia) eq_refl) as Hsp.
  unfold guest_byte. rewrite Hp, pfn_of_pfn, Hfr. destruct (_ && _) eqn:E.
  - apply andb_true_iff in E as [E1%Z.leb_le E2%Z.ltb_lt]. rewrite decide_True by (apply Hsp; lia). cbn. rewrite Hf. cbn. f_equal. f_equal.
    unfold GUEST_LOCAL_APIC_ADDR in *. Z.to_euclidean_division_equations. lia.
  - rewrite decide_False; [done|]. rewrite Hsp. apply andb_false_iff in E as [E%Z.leb_gt|E%Z.ltb_ge]; lia.
Qed.

Lemma add_machine_memory n h0 idx cfg s h roots s' h' fr :
  (idx < n)%nat -> machines_inv apic_page h0 n idx s h roots -> frames h !! apic_page idx = Some fr ->
  0 <= user_memory cfg <= 2 ^ 28 -> add_machine idx cfg (s, h) = ((s', h'), Ok tt) ->
  exists v, vms s' = vms s ++ [v] /\ vm_cpus v = user_cpus cfg /\
    forall x, 0 <= x < 2 ^ 48 -> guest_byte h' (vm_guest_space v) x = start_byte bios (Some fr) (user_memory cfg) x.
Proof.
  intros Hidx [I _ _ _ P] Hfr Hmem. unfold Machine.add_machine.
  pose proof (build_vm_steps bios linuxboot_dma_rom modules apic_page idx cfg (Nat.eqb idx 0) h roots I) as Hb.
  destruct (build_vm idx cfg (Nat.eqb idx 0) h) as [h1 [v|e|w]] eqn:E; [|done..].
  destruct (build_vm_memory idx cfg _ h h1 v Hmem E) as (Hpage & Hinv & Hbytes).
  destruct (build_vm_devices bios linuxboot_dma_rom modules apic_page idx cfg _ h h1 v E) as (_ & _ & Hcpus).
  destruct Hb as [[_ ?]|(root & _ & _ & _ & F1 & _)]; [done|].
  destruct (P idx) as [(Hr & Ha & fr' & Hfr' & Hl) _]; [lia|]. rewrite Hfr in Hfr'. injection Hfr' as <-.
  assert (host_page h1 (apic_page idx)) as Hhp by (split_and!; [lia..|done|exists fr; split; [by apply F1|done]]).
  unfold set_insert. case_bool_decide; [|done].
  destruct (register_devices 0 (vm_devices v) (vm_device_map v)) as [m [[]|e|w]]; [|done..].
  destruct (setup_guest_local_apic_page (set_vm_device_map m v) h1) as [h2 [[]|e|w]] eqn:Eap; [|done..].
  case_bool_decide; [|done]. intros [= <- <-]. exists (set_vm_device_map m v). split; [done|]. split; [done|].
  unfold setup_guest_local_apic_page in Eap. cbn [vm_apic_access_page vm_guest_space set_vm_device_map] in *.
  rewrite Hpage, st_bind_eq in Eap. unfold lift, from_start_address in Eap. rewrite (proj2 (aligned_mod _)) in Eap by done. cbn [negb] in Eap.
  intros x Hx. rewrite (access_page_bytes h1 (vm_guest_space v) (apic_page idx) fr h2) by (done || by apply F1).
  unfold start_byte. destruct (_ && _); [done|by apply Hbytes].
Qed.

(** The machines built so far and what is left to build. *)
Record boot_inv (h0 : Host) (n : nat) (built : list UserVmConfig) (s : VirtualMachineSet Device) (h : Host) (roots : list Z) : Prop := {
  boot_machines : machines_inv apic_page h0 n (length built) s h roots;
  boot_count : length (vms s) = length built;
  boot_pages : forall j fr, frames h0 !! apic_page j = Some fr -> frames h !! apic_page j = Some fr;
  boot_memory : forall k v cfg, vms s !! k = Some v -> built !! k = Some cfg -> vm_cpus v = user_cpus cfg /\
    forall x, 0 <= x < 2 ^ 48 -> guest_byte h (vm_guest_space v) x = start_byte bios (frames h0 !! apic_page k) (user_memory cfg) x
}.

Lemma add_machine_boot n h0 built cfg s h roots s' h' :
  (forall i j, apic_page i = apic_page j -> i = j) -> (forall i, (i < n)%nat -> host_page h0 (apic_page i)) ->
  (length built < n)%nat -> boot_inv h0 n built s h roots -> 0 <= user_memory cfg <= 2 ^ 28 ->
  add_machine (length built) cfg (s, h) = ((s', h'), Ok tt) -> exists roots', boot_inv h0 n (built ++ [cfg]) s' h' roots'.
Proof.
  intros Hinj Hpages Hn [Hm Hc Hp Hk] Hmem Hadd. destruct (Hpages _ Hn) as (_ & _ & fr & Hfr & _).
  destruct (add_machine_memory n h0 (length built) cfg s h roots s' h' fr) as (v & Hv & Hcpus & Hb); [done|done|by apply Hp|done|done|].
  destruct (add_machine_inv apic this_core start bios linuxboot_dma_rom modules apic_page h0 n (length built) cfg s h roots s' h' (Ok tt))
    as ((roots' & Hm') & View & Hf); [done..|].
  exists roots'. split.
  - rewrite length_app, Nat.add_1_r. done.
  - rewrite Hv, !length_app. cbn. lia.
  - intros j g Hg. by apply Hf, Hp.
  - intros k u c Hu Hkc. rewrite Hv in Hu. destruct (decide (k = length built)) as [->|Hne].
    + rewrite <- Hc, list_lookup_middle in Hu by done. injection Hu as <-. rewrite list_lookup_middle in Hkc by done.
      injection Hkc as <-. split; [done|]. by rewrite Hfr.
    + pose proof (lookup_lt_Some _ _ _ Hkc) as Hlt. rewrite length_app in Hlt. cbn in Hlt.
      rewrite lookup_app_l in Hu by lia. rewrite lookup_app_l in Hkc by lia. destruct (Hk k u c Hu Hkc) as [Hcu Hbu].
      split; [done|]. intros x Hx. rewrite <- Hbu by done. apply guest_byte_view, View.
      pose proof (inv_roots _ _ _ _ _ _ _ Hm) as HR. rewrite Forall_forall in HR. apply HR.
      apply list_elem_of_fmap. exists u. split; [done|]. by eapply list_elem_of_lookup_2.
Qed.

Lemma init_boot h0 n : (forall i j, apic_page i = apic_page j -> i = j) -> (forall i, (i < n)%nat -> host_page h0 (apic_page i)) ->
  forall cfgs built s h roots s' h', Forall (fun cfg => 0 <= user_memory cfg <= 2 ^ 28) cfgs -> (length built + length cfgs <= n)%nat ->
  boot_inv h0 n built s h roots -> init (length built) cfgs (s, h) = ((s', h'), Ok tt) ->
  exists roots', boot_inv h0 n (built ++ cfgs) s' h' roots'.
Proof.
  intros Hinj Hpages. induction cfgs as [|cfg cfgs IH]; intros built s h roots s' h' Hmem Hn Hb; cbn [init_virtual_machines length] in *.
  { intros [= <- <-]. rewrite app_nil_r. eauto. }
  apply Forall_cons in Hmem as [Hc Hmem]. rewrite st_bind_eq.
  destruct (add_machine (length built) cfg (s, h)) as [[s1 h1] [[]|e|w]] eqn:E; [|done..].
  destruct (add_machine_boot n h0 built cfg s h roots s1 h1) as (roots1 & Hb1); [done|done|lia|done|done|done|]. intros Hinit.
  replace (built ++ cfg :: cfgs) with ((built ++ [cfg]) ++ cfgs) by (by rewrite <- app_assoc).
  apply (IH (built ++ [cfg]) s1 h1 roots1); [done|rewrite length_app; cbn; lia|done|]. by rewrite length_app, Nat.add_1_r.
Qed.
End boot.

(** C6: every guest starts with the memory its configuration asks for.  Let the BIOS
    consist of whole pages and fit below a megabyte, and let the access pages of the static set be
    distinct pages no allocation has taken.  When building all machines of a
    configuration succeeds, there is one per entry, in order, with the entry's cores.
    Every byte of every guest is then known: the BIOS at its two addresses, the
    machine's own access page where the local APIC is, zeros in the rest of the configured
    size, and nothing anywhere else; building the later machines has not changed it. *)
Theorem guests_start_with_memory `{HA : HostAlloc} `{!HostAllocLaws} `{TS : TimeSource} `{GP : GuestPaging}
    apic this_core start bios rom modules apic_page cfgs h0 s h :
  Forall placeable (bios_placements bios) -> (forall i j, apic_page i = apic_page j -> i = j) ->
  (forall i, (i < length cfgs)%nat -> host_page h0 (apic_page i)) ->
  Forall (fun cfg => 0 <= user_memory cfg <= 2 ^ 28) cfgs ->
  init_virtual_machines apic this_core start bios rom modules apic_page 0 cfgs (set_new, h0) = ((s, h), Ok tt) ->
  length (vms s) = length cfgs /\
  forall k v cfg, vms s !! k = Some v -> cfgs !! k = Some cfg -> vm_cpus v = user_cpus cfg /\
    forall x, 0 <= x < 2 ^ 48 -> guest_byte h (vm_guest_space v) x = start_byte bios (frames h0 !! apic_page k) (user_memory cfg) x.
Proof.
  intros Hbios Hinj Hpages Hmem Hinit.
  destruct (init_boot apic this_core start bios rom modules apic_page Hbios h0 (length cfgs) Hinj Hpages cfgs [] set_new h0 [] s h)
    as (roots & [_ Hc _ Hk]); [done|cbn; lia| |exact Hinit|by split].
  split; [|done|done|by intros []].
  split; [apply no_guests_isolated|done|constructor..|]. intros j Hj. split; [apply Hpages; lia|].
  intros ? ? ? Hx. by apply not_elem_of_nil in Hx.
Qed.

(** A BIOS of one page and a kernel of two. *)
Definition small_bios : list Z := replicate 4096 0xea.
Definition small_kernel : list Z := replicate 4100 0x90.

Definition small_config : VirtualMachineConfig := mkConfig [1] [("kernel", 0x100000)] [] None 0.

Lemma new_machine_memory_witness : exists h' v,
  @vm_new pool_alloc small_bios [mkModule (Some "kernel") small_kernel] (fun _ => 0x900000) 0 0 small_config (mkHost ∅ ∅) = (h', Ok v) /\
  let root := vm_guest_space v in
  guest_byte h' root 0xfffff = Some 0xea /\ guest_byte h' root 0x101003 = Some 0x90 /\ guest_byte h' root 0x101004 = Some 0 /\
  guest_byte h' root 0x102000 = None.
Proof.
  pose proof (@new_machine_memory pool_alloc _ small_bios [mkModule (Some "kernel") small_kernel] (fun _ => 0x900000) 0 0 small_config
    [(small_kernel, 0x100000)] (mkHost ∅ ∅) eq_refl) as H. cbv zeta in H.
  assert (is_ok (@vm_new pool_alloc small_bios [mkModule (Some "kernel") small_kernel] (fun _ => 0x900000) 0 0 small_config (mkHost ∅ ∅)).2 = true)
    as Hok by (vm_compute; reflexivity).
  destruct (vm_new _ _ _ _ _ _ _) as [h' [v|e|w]]; [|done..]. exists h', v. split; [done|].
  destruct H as (_ & _ & _ & _ & _ & _ & _ & Hb); [apply (bool_decide_unpack _); vm_compute; exact I|cbn; lia|].
  cbv zeta. rewrite !Hb by lia. vm_compute. done.
Defined.

(** The two machines of [demo_init], with this BIOS. *)
Definition small_boot : (VirtualMachineSet Device * Host) * res unit :=
  @init_virtual_machines pool_alloc slow_clock linear_entry_address (mkLocalApic 0 1) 0 0 small_bios [0x55; 0xaa]
    demo_modules demo_page 0 [demo_vm [0; 1]; demo_vm [2]] (set_new, demo_host).

Lemma small_boot_ok : small_boot.2 = Ok tt /\ length (vms small_boot.1.1) = 2%nat.
Proof. split; vm_compute; reflexivity. Qed.

Lemma guests_start_with_memory_witness : exists s h v,
  small_boot = ((s, h), Ok tt) /\ vms s !! 1%nat = Some v /\ vm_cpus v = [2] /\
  guest_byte h (vm_guest_space v) 0xfffff = Some 0xea /\ guest_byte h (vm_guest_space v) 0xfee00010 = Some 0 /\
  guest_byte h (vm_guest_space v) 0x10000000 = None.
Proof.
  pose proof small_boot_ok as [Hr Hl]. destruct small_boot as [[s h] r] eqn:E. cbn [fst snd] in Hr, Hl. subst r.
  destruct (lookup_lt_is_Some_2 (vms s) 1%nat) as [v Hv]; [lia|]. exists s, h, v.
  destruct (@guests_start_with_memory pool_alloc _ slow_clock linear_entry_address (mkLocalApic 0 1) 0 0 small_bios [0x55; 0xaa] demo_modules
    demo_page [demo_vm [0; 1]; demo_vm [2]] demo_host s h) as [_ Hk].
  - apply (bool_decide_unpack _). vm_compute. exact I.
  - unfold demo_page. lia.
  - intros [|[|i]] Hi; [| |cbn in Hi; lia]; (split; [unfold demo_page; lia|]); (split; [reflexivity|]);
      exists (replicate 4096 0); split; reflexivity.
  - repeat constructor; cbn; lia.
  - unfold small_boot in E. exact E.
  - destruct (Hk 1%nat v (demo_vm [2]) Hv eq_refl) as [Hc Hb]. clear E.
    split; [reflexivity|]. split; [exact Hv|]. split; [exact Hc|]. rewrite !Hb by lia. split_and!; vm_compute; reflexivity.
Defined.

(** ** The unit test of [vm.rs] *)

Definition test_vm_creation `{HostAlloc} (bios : list Z) (apic_page : nat -> Z) : st Host unit :=
  config ← st_expect (lift (config_new [1] 32 None)) unwrap_failed;
  _ ← st_expect (vm_new bios [] apic_page 0 0 config) unwrap_failed;
  mret tt.

(** The test passes for every BIOS of whole pages up to a megabyte, unless the host has
    no memory for the 32 megabytes. *)
Lemma test_vm_creation_passes `{HostAlloc} `{!HostAllocLaws} bios apic_page h :
  Z.of_nat (length bios) mod 4096 = 0 -> Z.of_nat (length bios) <= 2 ^ 20 ->
  (test_vm_creation bios apic_page h).2 = Ok tt \/ (test_vm_creation bios apic_page h).2 = Panic "allocation error".
Proof.
  intros Hm Hl. assert (place_size (bios, 0) = Z.of_nat (length bios)) as Hsize.
  { unfold place_size. cbn [fst]. Z.to_euclidean_division_equations. lia. }
  assert (Forall placeable (bios_placements bios ++ [])) as Hp.
  { assert (forall a, a mod 4096 = 0 -> 0 <= a - Z.of_nat (length bios) -> a <= 2 ^ 48 -> placeable (bios, a - Z.of_nat (length bios))) as Hp.
    { intros a Ha Ha0 Ha1. unfold placeable. change (place_size (bios, _)) with (place_size (bios, 0)). cbn [snd].
      split; [|lia]. by rewrite Zminus_mod, Ha, Hm. }
    apply Forall_cons. split; [apply Hp; [done|lia|lia]|]. apply Forall_cons. split; [apply Hp; [done|lia|lia]|constructor]. }
  assert (separate (bios_placements bios ++ []) = true) as Hs.
  { unfold bios_placements, overlaps. cbn [app separate forallb]. rewrite !andb_true_r. apply negb_true_iff, Z.ltb_ge. cbn [snd].
    change (place_size (bios, _)) with (place_size (bios, 0)). lia. }
  pose proof (setup_ept_layout bios [] [] 32 [] h eq_refl Hp ltac:(lia)) as Hl'.
  unfold test_vm_creation, vm_new. change (config_new [1] 32 None) with (Ok (mkConfig [1] [] [] None 32)).
  rewrite !st_bind_eq. unfold st_expect, lift. cbn [res_expect]. rewrite !st_bind_eq. cbn [cfg_images cfg_memory].
  destruct (setup_ept bios [] [] 32 h) as [h' [root|e|w]]; [by left| |].
  - destruct Hl' as [Hl' _]. congruence.
  - right. by rewrite Hl'.
Qed.
