(* ===== verification/PhysDev.v ===== *)
(** * Drivers of physical devices ([mythril/src/physdev/com.rs],
    [mythril/src/physdev/keyboard.rs])

    Port I/O is a parameter: a state of the machine's devices, and what a read or a
    write of a port does to it.  The drivers poll status registers; every polling
    loop takes fuel, and the theorems say how many polls are enough. *)

From S2P Require Import Prelude Error Uart.

(** [x86::io::inb] and [x86::io::outb] *)
Class PortBus := {
  bus : Type;
  inb : Z -> bus -> bus * Z;
  outb : Z -> Z -> bus -> bus
}.

Section ports.
Context {PB : PortBus}.

Definition in_port (p : Z) : st bus Z := fun s => let '(s', v) := inb p s in (s', Ok v).
Definition out_port (p v : Z) : st bus unit := fun s => (outb p v s, Ok tt).

(** The devices after [k] reads of port [p], and the value of the next read. *)
Fixpoint polled (p : Z) (k : nat) (s : bus) : bus :=
  match k with O => s | S k => polled p k (fst (inb p s)) end.
Definition poll_value (p : Z) (k : nat) (s : bus) : Z := snd (inb p (polled p k s)).

(** [while !stop(inb(port)) {}] *)
Fixpoint poll_until (fuel : nat) (p : Z) (stop : Z -> bool) : st bus unit :=
  match fuel with
  | O => panic "out of fuel"
  | S fuel => v ← in_port p; if stop v then mret tt else poll_until fuel p stop
  end.

(** A polling loop ends with the first answer that stops it. *)
Lemma poll_until_spec fuel p stop k s :
  (k < fuel)%nat -> stop (poll_value p k s) = true ->
  (forall j, (j < k)%nat -> stop (poll_value p j s) = false) ->
  poll_until fuel p stop s = (polled p (S k) s, Ok tt).
Proof.
  revert k s. induction fuel as [|fuel IH]; intros k s Hk Hs Hj; [lia|].
  cbn [poll_until]. rewrite st_bind_eq. unfold in_port. destruct (inb p s) as [s' v] eqn:E.
  destruct k as [|k].
  - unfold poll_value in Hs. cbn [polled] in Hs. rewrite E in Hs. cbn [snd] in Hs. rewrite Hs.
    cbn [polled]. by rewrite E.
  - specialize (Hj O ltac:(lia)) as H0. unfold poll_value in H0. cbn [polled] in H0.
    rewrite E in H0. cbn [snd] in H0. rewrite H0. unfold poll_value in Hs, Hj. cbn [polled] in Hs |- *.
    rewrite E in Hs |- *. cbn [fst] in *. apply IH; [lia|done|].
    intros j Hjk. specialize (Hj (S j) ltac:(lia)). cbn [polled] in Hj. by rewrite E in Hj.
Qed.
End ports.

(** ** The serial port *)

Module Serial.
(** [Uart8250]: the driver's only state is the base port. *)
Record Uart8250 := mkUart8250 { base : Z }.

Section serial.
Context {PB : PortBus}.

Definition write_ier (u : Uart8250) (ier : Z) : st bus unit :=
  out_port (u16 (base u + SerialOffset.IER)) ier.

Definition new (base : Z) : st bus Uart8250 :=
  let uart := mkUart8250 base in
  _ ← write_ier uart IerFlags.RECV_DATA_AVAIL_INTERRUPT;
  mret uart.

Definition base_port (u : Uart8250) : Z := base u.

Definition lsr_port (u : Uart8250) : Z := u16 (base u + SerialOffset.LSR).

Definition read_lsr (u : Uart8250) : st bus Z :=
  v ← in_port (u16 (base u + SerialOffset.LSR));
  mret (from_bits_truncate LsrFlags.all v).

Definition read (u : Uart8250) : st bus Z :=
  in_port (u16 (base u + SerialOffset.DATA)).

(** [write]: waits for the transmitter to be empty. *)
Fixpoint wait_transmit (fuel : nat) (u : Uart8250) : st bus unit :=
  match fuel with
  | O => panic "out of fuel"
  | S fuel =>
      lsr ← read_lsr u;
      if negb (flags_contains lsr LsrFlags.EMPTY_TRANSMIT_HOLDING_REGISTER)
      then wait_transmit fuel u else mret tt
  end.

Definition write (fuel : nat) (u : Uart8250) (data : Z) : st bus unit :=
  _ ← wait_transmit fuel u;
  out_port (u16 (base u + SerialOffset.DATA)) data.

(** The transmitter is empty in a line status [v]. *)
Definition thr_empty (v : Z) : bool :=
  flags_contains (from_bits_truncate LsrFlags.all v) LsrFlags.EMPTY_TRANSMIT_HOLDING_REGISTER.

Lemma wait_transmit_poll fuel u s : wait_transmit fuel u s = poll_until fuel (lsr_port u) thr_empty s.
Proof.
  revert s. induction fuel as [|fuel IH]; intros s; [done|]. cbn [wait_transmit poll_until].
  unfold read_lsr. rewrite !st_bind_eq. unfold in_port, lsr_port, thr_empty, mret, st_ret.
  destruct (inb _ s) as [s' v]. cbv beta iota. destruct (flags_contains _ _); [done|apply IH].
Qed.

(** A byte is written when the line status first shows the transmitter empty: the
    polls before it, then one write of the data register. *)
Lemma serial_write_spec fuel u data k s :
  (k < fuel)%nat -> thr_empty (poll_value (lsr_port u) k s) = true ->
  (forall j, (j < k)%nat -> thr_empty (poll_value (lsr_port u) j s) = false) ->
  write fuel u data s = (outb (u16 (base u + SerialOffset.DATA)) data (polled (lsr_port u) (S k) s), Ok tt).
Proof.
  intros Hk Hs Hj. unfold write. rewrite st_bind_eq. rewrite wait_transmit_poll.
  by rewrite (poll_until_spec fuel _ _ k).
Qed.
End serial.
End Serial.

(** ** The PS/2 controller *)

Module Ps2.
Definition PS2_DATA_PORT : Z := 0x60.
Definition PS2_STATUS_PORT : Z := 0x64.
Definition PS2_COMMAND_PORT : Z := 0x64.

Module Ps2StatusFlags.
Definition OUTPUT_BUFFER_FULL : Z := Z.shiftl 1 0.
Definition INPUT_BUFFER_FULL : Z := Z.shiftl 1 1.
Definition SELF_TEST_PASS : Z := Z.shiftl 1 2.
Definition INPUT_FOR_CONTROLLER : Z := Z.shiftl 1 3.
Definition RESERVED_1 : Z := Z.shiftl 1 4.
Definition RESERVED_2 : Z := Z.shiftl 1 5.
Definition TIMEOUT_ERROR : Z := Z.shiftl 1 6.
Definition PARITY_ERROR : Z := Z.shiftl 1 7.
Definition all : list Z := [
  OUTPUT_BUFFER_FULL; INPUT_BUFFER_FULL; SELF_TEST_PASS; INPUT_FOR_CONTROLLER;
  RESERVED_1; RESERVED_2; TIMEOUT_ERROR; PARITY_ERROR].
End Ps2StatusFlags.

Module Ps2ConfigurationFlags.
Definition FIRST_PORT_INTERRUPT : Z := Z.shiftl 1 0.
Definition SECOND_PORT_INTERRUPT : Z := Z.shiftl 1 1.
Definition SYSTEM_POST : Z := Z.shiftl 1 2.
Definition RESERVED_1 : Z := Z.shiftl 1 3.
Definition FIRST_PORT_CLOCK_DISABLED : Z := Z.shiftl 1 4.
Definition SECOND_PORT_CLOCK_DISABLED : Z := Z.shiftl 1 5.
Definition FIRST_PORT_TRANSLATION : Z := Z.shiftl 1 6.
Definition RESERVED_2 : Z := Z.shiftl 1 7.
Definition all : list Z := [
  FIRST_PORT_INTERRUPT; SECOND_PORT_INTERRUPT; SYSTEM_POST; RESERVED_1;
  FIRST_PORT_CLOCK_DISABLED; SECOND_PORT_CLOCK_DISABLED; FIRST_PORT_TRANSLATION; RESERVED_2].
End Ps2ConfigurationFlags.

Inductive Command :=
| ReadConfig | WriteConfig | DisableSecond | EnableSecond | TestSecond | TestController
| TestFirst | Diagnostic | DisableFirst | EnableFirst | WriteSecond.

Definition command_code (c : Command) : Z :=
  match c with
  | ReadConfig => 0x20 | WriteConfig => 0x60 | DisableSecond => 0xA7 | EnableSecond => 0xA8
  | TestSecond => 0xA9 | TestController => 0xAA | TestFirst => 0xAB | Diagnostic => 0xAC
  | DisableFirst => 0xAD | EnableFirst => 0xAE | WriteSecond => 0xD4
  end.

(** [flags.insert(f)], [flags.remove(f)] *)
Definition insert (flags f : Z) : Z := Z.lor flags f.
Definition remove (flags f : Z) : Z := Z.land flags (bnot 8 f).

Section driver.
Context {PB : PortBus}.
Variable fuel : nat.

Definition read_status_port : st bus Z :=
  v ← in_port PS2_STATUS_PORT; mret (from_bits_truncate Ps2StatusFlags.all v).

Fixpoint wait_read_loop (n : nat) : st bus unit :=
  match n with
  | O => panic "out of fuel"
  | S n =>
      flags ← read_status_port;
      if negb (flags_contains flags Ps2StatusFlags.OUTPUT_BUFFER_FULL)
      then wait_read_loop n else mret tt
  end.
Definition wait_read : st bus unit := wait_read_loop fuel.

Fixpoint wait_write_loop (n : nat) : st bus unit :=
  match n with
  | O => panic "out of fuel"
  | S n =>
      flags ← read_status_port;
      if flags_contains flags Ps2StatusFlags.INPUT_BUFFER_FULL
      then wait_write_loop n else mret tt
  end.
Definition wait_write : st bus unit := wait_write_loop fuel.

Definition read_data_port : st bus Z := _ ← wait_read; in_port PS2_DATA_PORT.
Definition write_data_port (data : Z) : st bus unit := _ ← wait_write; out_port PS2_DATA_PORT data.
Definition write_command_port (cmd : Command) : st bus unit := out_port PS2_COMMAND_PORT (command_code cmd).

(** [flush_read]: the byte is read as the argument of the log message. *)
Fixpoint flush_read_loop (n : nat) : st bus unit :=
  match n with
  | O => panic "out of fuel"
  | S n =>
      flags ← read_status_port;
      if flags_contains flags Ps2StatusFlags.OUTPUT_BUFFER_FULL
      then _ ← read_data_port; flush_read_loop n else mret tt
  end.
Definition flush_read : st bus unit := flush_read_loop fuel.

Definition read_configuration : st bus Z :=
  _ ← write_command_port ReadConfig;
  v ← read_data_port;
  mret (from_bits_truncate Ps2ConfigurationFlags.all v).

Definition write_configuration (config : Z) : st bus unit :=
  _ ← write_command_port WriteConfig;
  write_data_port config.

(** The two edits of the configuration [init] makes. *)
Definition config_quiet (config : Z) : Z :=
  let config := insert config Ps2ConfigurationFlags.FIRST_PORT_CLOCK_DISABLED in
  let config := insert config Ps2ConfigurationFlags.SECOND_PORT_CLOCK_DISABLED in
  let config := remove config Ps2ConfigurationFlags.FIRST_PORT_TRANSLATION in
  let config := remove config Ps2ConfigurationFlags.FIRST_PORT_INTERRUPT in
  remove config Ps2ConfigurationFlags.SECOND_PORT_INTERRUPT.
Definition config_running (config : Z) : Z :=
  let config := remove config Ps2ConfigurationFlags.FIRST_PORT_CLOCK_DISABLED in
  let config := remove config Ps2ConfigurationFlags.SECOND_PORT_CLOCK_DISABLED in
  let config := insert config Ps2ConfigurationFlags.FIRST_PORT_TRANSLATION in
  let config := insert config Ps2ConfigurationFlags.FIRST_PORT_INTERRUPT in
  insert config Ps2ConfigurationFlags.SECOND_PORT_INTERRUPT.

Definition init_failed : Error := DeviceError (str "Failed to init Ps2Controller").

Definition init : st bus unit :=
  _ ← flush_read;
  _ ← write_command_port DisableFirst;
  _ ← write_command_port DisableSecond;
  _ ← flush_read;
  config ← read_configuration;
  _ ← write_configuration (config_quiet config);
  _ ← write_command_port TestController;
  answer ← read_data_port;
  if negb (answer =? 0x55) then err init_failed else
  _ ← write_command_port EnableFirst;
  _ ← write_command_port EnableSecond;
  _ ← flush_read;
  _ ← write_data_port 0xff;
  answer ← read_data_port;
  if negb (answer =? 0xFA) then err init_failed else
  answer ← read_data_port;
  if negb (answer =? 0xAA) then err init_failed else
  _ ← flush_read;
  config ← read_configuration;
  _ ← write_configuration (config_running config);
  flush_read.
End driver.

(** *** The controller the driver talks to

    [Ctl] is what an 8042 keeps: the bytes for the host, each with the number of status
    reads before it shows up, the configuration byte, and whether the next data byte is
    the new configuration. *)
Record Ctl := mkCtl { out_queue : list (nat * Z); cfg : Z; awaits_cfg : bool }.

Definition with_out (q : list (nat * Z)) (c : Ctl) : Ctl := mkCtl q (cfg c) (awaits_cfg c).
Definition with_cfg (v : Z) (c : Ctl) : Ctl := mkCtl (out_queue c) v (awaits_cfg c).
Definition push (q : list (nat * Z)) (c : Ctl) : Ctl := with_out (out_queue c ++ q) c.

(** A status read brings the first byte one step closer. *)
Definition tick (c : Ctl) : Ctl :=
  match out_queue c with (n, b) :: r => with_out ((pred n, b) :: r) c | [] => c end.
Definition shown (c : Ctl) : bool := match out_queue c with (O, _) :: _ => true | _ => false end.

(** The documented effect of the commands and data bytes the driver sends; [n], [m] are
    the delays of the answers. *)
Definition obey (test : Z) (n : nat) (cmd : Command) (c : Ctl) : option Ctl :=
  match cmd with
  | ReadConfig => Some (push [(n, cfg c)] c)
  | WriteConfig => Some (mkCtl (out_queue c) (cfg c) true)
  | TestController => Some (push [(n, test)] c)
  | DisableFirst => Some (with_cfg (Z.lor (cfg c) 0x10) c)
  | DisableSecond => Some (with_cfg (Z.lor (cfg c) 0x20) c)
  | EnableFirst => Some (with_cfg (Z.land (cfg c) 0xEF) c)
  | EnableSecond => Some (with_cfg (Z.land (cfg c) 0xDF) c)
  | _ => None
  end.
Definition accept (ack done : Z) (n m : nat) (v : Z) (c : Ctl) : option Ctl :=
  if awaits_cfg c then Some (mkCtl (out_queue c) v false)
  else if v =? 0xff then Some (push [(n, ack); (m, done)] c) else None.

(** A port bus with such a controller, which answers within [ps2_lag] status reads.  Nothing is
    known of a command or a data byte written while the input buffer is full ([in_busy] counts the status
    reads until it is empty), and no key is pressed. *)
Class Ps2Hw {PB : PortBus} := {
  ctl : bus -> Ctl;
  in_busy : bus -> nat;
  ps2_lag : nat;
  self_test : Z;
  reset_ack : Z;
  reset_done : Z;
  ps2_status : forall s, exists s' v, inb PS2_STATUS_PORT s = (s', v) /\
    ctl s' = tick (ctl s) /\ in_busy s' = pred (in_busy s) /\
    bit v 0 = shown (ctl s) /\ bit v 1 = negb (in_busy s =? 0)%nat;
  ps2_data : forall s b r, out_queue (ctl s) = (O, b) :: r ->
    exists s', inb PS2_DATA_PORT s = (s', b) /\ ctl s' = with_out r (ctl s) /\ in_busy s' = in_busy s;
  ps2_command : forall s cmd, in_busy s = O -> exists n, (n <= ps2_lag)%nat /\
    forall c, obey self_test n cmd (ctl s) = Some c -> ctl (outb PS2_COMMAND_PORT (command_code cmd) s) = c;
  ps2_write : forall s v, in_busy s = O -> exists n m, (n <= ps2_lag)%nat /\ (m <= ps2_lag)%nat /\
    forall c, accept reset_ack reset_done n m v (ctl s) = Some c -> ctl (outb PS2_DATA_PORT v s) = c
}.

Lemma flags_contains_bit x i : 0 <= i -> flags_contains x (Z.shiftl 1 i) = bit x i.
Proof.
  intros Hi. unfold flags_contains. rewrite bit_testbit by done. destruct (Z.testbit x i) eqn:E.
  - apply Z.eqb_eq, Z.bits_inj'. intros j Hj. rewrite Z.land_spec, testbit_single by done.
    destruct (Z.eqb_spec j i); [subst; by rewrite E | by rewrite andb_false_r].
  - apply Z.eqb_neq. intros He. apply (f_equal (fun z => Z.testbit z i)) in He.
    rewrite Z.land_spec, testbit_single, E, Z.eqb_refl in He by done. done.
Qed.

Lemma status_bit v i : 0 <= i < 8 ->
  flags_contains (from_bits_truncate Ps2StatusFlags.all v) (Z.shiftl 1 i) = bit v i.
Proof.
  intros Hi. rewrite flags_contains_bit, !bit_testbit by lia. unfold from_bits_truncate.
  rewrite Z.land_spec. change (flags_union Ps2StatusFlags.all) with (Z.ones 8).
  by rewrite Z.ones_spec_low, andb_true_r by lia.
Qed.

(** One status read. *)
Lemma status_read {PB : PortBus} {HW : Ps2Hw} s : exists s' v, read_status_port s = (s', Ok v) /\ ctl s' = tick (ctl s) /\
  in_busy s' = pred (in_busy s) /\
  flags_contains v Ps2StatusFlags.OUTPUT_BUFFER_FULL = shown (ctl s) /\
  flags_contains v Ps2StatusFlags.INPUT_BUFFER_FULL = negb (in_busy s =? 0)%nat.
Proof.
  destruct (ps2_status s) as (s' & v & E & Hc & Hb & H0 & H1).
  exists s', (from_bits_truncate Ps2StatusFlags.all v).
  unfold read_status_port. rewrite st_bind_eq. unfold in_port. rewrite E.
  rewrite <- H0, <- H1. unfold Ps2StatusFlags.OUTPUT_BUFFER_FULL, Ps2StatusFlags.INPUT_BUFFER_FULL.
  by rewrite !status_bit by lia.
Qed.

(** A controller that empties its input buffer before the next port access. *)
Definition keeps_up {PB : PortBus} {HW : Ps2Hw} : Prop :=
  forall s p v, in_busy s = O -> in_busy (outb p v s) = O.

Section init.
Context {PB : PortBus} {HW : Ps2Hw} (Hfast : keeps_up) (fuel : nat) (Hfuel : (ps2_lag < fuel)%nat).

Lemma wait_read_loop_spec n k b r s :
  (k < n)%nat -> out_queue (ctl s) = (k, b) :: r ->
  exists s', wait_read_loop n s = (s', Ok tt) /\ ctl s' = with_out ((O, b) :: r) (ctl s) /\ (in_busy s = O -> in_busy s' = O).
Proof.
  revert k s. induction n as [|n IH]; intros k s Hk Hq; [lia|]. cbn [wait_read_loop]. rewrite st_bind_eq.
  destruct (status_read s) as (s1 & v & -> & Hc & Hb & H0 & _). rewrite H0. unfold shown, tick in *.
  rewrite Hq in *. destruct k as [|k]; cbn [negb pred] in *.
  - exists s1. rewrite Hc, Hb. split_and!; [done..|]. by intros ->.
  - destruct (IH k s1 ltac:(lia)) as (s2 & E & Hc2 & Hb2); [by rewrite Hc|].
    exists s2. split; [done|]. rewrite Hc2, Hc. split; [done|]. intros H1. apply Hb2. by rewrite Hb, H1.
Qed.

Lemma read_data_spec k b r s :
  (k <= ps2_lag)%nat -> out_queue (ctl s) = (k, b) :: r ->
  exists s', read_data_port fuel s = (s', Ok b) /\ ctl s' = with_out r (ctl s) /\ (in_busy s = O -> in_busy s' = O).
Proof.
  intros Hk Hq. unfold read_data_port. rewrite st_bind_eq.
  destruct (wait_read_loop_spec fuel k b r s ltac:(lia) Hq) as (s1 & E & Hc & Hb). unfold wait_read. rewrite E.
  destruct (ps2_data s1 b r) as (s2 & E2 & Hc2 & Hb2); [by rewrite Hc|].
  exists s2. unfold in_port. rewrite E2. split; [done|]. by rewrite Hc2, Hc, Hb2.
Qed.

(** Flushing reads every byte that shows. *)
Lemma flush_loop_spec n s :
  Forall (fun e => e.1 = O) (out_queue (ctl s)) -> (length (out_queue (ctl s)) < n)%nat ->
  exists s', flush_read_loop fuel n s = (s', Ok tt) /\ ctl s' = with_out [] (ctl s) /\ (in_busy s = O -> in_busy s' = O).
Proof.
  revert s. induction n as [|n IH]; intros s Hz Hn; [lia|]. cbn [flush_read_loop]. rewrite st_bind_eq.
  destruct (status_read s) as (s1 & v & -> & Hc & Hb & H0 & _). rewrite H0. unfold shown, tick in *.
  destruct (out_queue (ctl s)) as [|[k b] r] eqn:Hq.
  - exists s1. split; [done|]. rewrite Hc. split; [destruct (ctl s); cbn in Hq; by subst|]. rewrite Hb. by intros ->.
  - apply Forall_cons in Hz as [Hk Hz]. cbn in Hk. subst k. rewrite st_bind_eq. cbn [pred length] in *.
    destruct (read_data_spec O b r s1) as (s2 & -> & Hc2 & Hb2); [lia|by rewrite Hc|].
    destruct (IH s2) as (s3 & E & Hc3 & Hb3); [by rewrite Hc2|rewrite Hc2; cbn; lia|].
    exists s3. split; [done|]. rewrite Hc3, Hc2, Hc. split; [done|]. intros H1. apply Hb3, Hb2. by rewrite Hb, H1.
Qed.

Lemma flush_empty s : out_queue (ctl s) = [] -> in_busy s = O ->
  exists s', flush_read fuel s = (s', Ok tt) /\ ctl s' = ctl s /\ in_busy s' = O.
Proof.
  intros Hq Hi. destruct (flush_loop_spec fuel s) as (s' & E & Hc & Hb); [by rewrite Hq|rewrite Hq; cbn; lia|].
  exists s'. split; [done|]. split; [|by apply Hb]. rewrite Hc. destruct (ctl s). cbn in Hq. by subst.
Qed.

Lemma wait_write_spec n s :
  (in_busy s < n)%nat -> out_queue (ctl s) = [] ->
  exists s', wait_write_loop n s = (s', Ok tt) /\ ctl s' = ctl s /\ in_busy s' = O.
Proof.
  revert s. induction n as [|n IH]; intros s Hk Hq; [lia|]. cbn [wait_write_loop]. rewrite st_bind_eq.
  destruct (status_read s) as (s1 & v & -> & Hc & Hb & _ & H1). rewrite H1. unfold tick in Hc.
  rewrite Hq in Hc. destruct (Nat.eqb_spec (in_busy s) 0) as [E0|E0]; cbn [negb].
  - exists s1. rewrite Hc, Hb, E0. done.
  - destruct (IH s1) as (s2 & E & Hc2 & Hb2); [lia|by rewrite Hc|]. exists s2. by rewrite Hc2, Hc.
Qed.

Lemma write_data_spec v s :
  out_queue (ctl s) = [] -> in_busy s = O ->
  exists s' n m, write_data_port fuel v s = (s', Ok tt) /\ (n <= ps2_lag)%nat /\ (m <= ps2_lag)%nat /\
    (forall c, accept reset_ack reset_done n m v (ctl s) = Some c -> ctl s' = c) /\ in_busy s' = O.
Proof.
  intros Hq Hi. destruct (wait_write_spec fuel s ltac:(lia) Hq) as (s1 & E & Hc & Hb).
  destruct (ps2_write s1 v Hb) as (n & m & Hn & Hm & Ha). rewrite Hc in Ha.
  exists (outb PS2_DATA_PORT v s1), n, m. unfold write_data_port, wait_write. rewrite st_bind_eq, E.
  split_and!; try done. by apply Hfast.
Qed.

Lemma command_spec cmd s :
  in_busy s = O ->
  exists s' n, write_command_port cmd s = (s', Ok tt) /\ (n <= ps2_lag)%nat /\
    (forall c, obey self_test n cmd (ctl s) = Some c -> ctl s' = c) /\ in_busy s' = O.
Proof.
  intros Hi. destruct (ps2_command s cmd Hi) as (n & Hn & Ha).
  exists (outb PS2_COMMAND_PORT (command_code cmd) s), n. split_and!; try done. by apply Hfast.
Qed.

(** Reading and writing the configuration byte. *)
Lemma read_configuration_spec s :
  out_queue (ctl s) = [] -> in_busy s = O -> is_u 8 (cfg (ctl s)) ->
  exists s', read_configuration fuel s = (s', Ok (cfg (ctl s))) /\ ctl s' = ctl s /\ in_busy s' = O.
Proof.
  intros Hq Hi Hu. unfold read_configuration. rewrite st_bind_eq.
  destruct (command_spec ReadConfig s Hi) as (s1 & n & -> & Hn & Ha & Hi1). specialize (Ha _ eq_refl).
  rewrite st_bind_eq. destruct (read_data_spec n (cfg (ctl s)) [] s1 Hn) as (s2 & -> & Hc & Hb).
  { rewrite Ha. cbn. by rewrite Hq. }
  exists s2. split; [|split; [|by apply Hb]].
  - unfold mret, st_ret, from_bits_truncate. change (flags_union _) with (Z.ones 8).
    rewrite Z.land_ones by lia. do 2 f_equal. by apply Z.mod_small.
  - rewrite Hc, Ha. destruct (ctl s). cbn in *. by subst.
Qed.

Lemma write_configuration_spec v s :
  out_queue (ctl s) = [] -> in_busy s = O ->
  exists s', write_configuration fuel v s = (s', Ok tt) /\ ctl s' = mkCtl [] v false /\ in_busy s' = O.
Proof.
  intros Hq Hi. unfold write_configuration. rewrite st_bind_eq.
  destruct (command_spec WriteConfig s Hi) as (s1 & n & -> & Hn & Ha & Hi1). specialize (Ha _ eq_refl).
  destruct (write_data_spec v s1) as (s2 & k & m & -> & _ & _ & Hw & Hi2); [by rewrite Ha|done|].
  exists s2. split; [done|]. split; [|done]. apply Hw. rewrite Ha. unfold accept. cbn. by rewrite Hq.
Qed.

(** Two commands without an answer. *)
Lemma commands_spec cmd1 cmd2 c1 c2 s {A} (k : st bus A) :
  in_busy s = O ->
  (forall n, obey self_test n cmd1 (ctl s) = Some c1) -> (forall n, obey self_test n cmd2 c1 = Some c2) ->
  exists s', (_ ← write_command_port cmd1; _ ← write_command_port cmd2; k) s = k s' /\ ctl s' = c2 /\ in_busy s' = O.
Proof.
  intros Hi H1 H2. rewrite st_bind_eq.
  destruct (command_spec cmd1 s Hi) as (s1 & n1 & -> & _ & E1 & Hi1). rewrite st_bind_eq.
  destruct (command_spec cmd2 s1 Hi1) as (s2 & n2 & -> & _ & E2 & Hi2).
  exists s2. split; [done|]. split; [|done]. apply E2. rewrite (E1 c1) by apply H1. apply H2.
Qed.

(** A test of the controller answers its result. *)
Lemma test_controller_spec s {A} (k : Z -> st bus A) :
  out_queue (ctl s) = [] -> in_busy s = O ->
  exists s', (_ ← write_command_port TestController; answer ← read_data_port fuel; k answer) s = k self_test s' /\
    ctl s' = ctl s /\ in_busy s' = O.
Proof.
  intros Hq Hi. rewrite st_bind_eq. destruct (command_spec TestController s Hi) as (s1 & n & -> & Hn & Ha & Hi1).
  specialize (Ha _ eq_refl). rewrite st_bind_eq.
  destruct (read_data_spec n self_test [] s1 Hn) as (s2 & -> & Hc & Hb); [rewrite Ha; cbn; by rewrite Hq|].
  exists s2. split; [done|]. split; [|by apply Hb]. rewrite Hc, Ha. destruct (ctl s). cbn in *. by subst.
Qed.

(** A reset of the keyboard queues its two answers. *)
Lemma reset_spec s :
  out_queue (ctl s) = [] -> in_busy s = O -> awaits_cfg (ctl s) = false ->
  exists s' n m, write_data_port fuel 0xff s = (s', Ok tt) /\ (n <= ps2_lag)%nat /\ (m <= ps2_lag)%nat /\
    ctl s' = with_out [(n, reset_ack); (m, reset_done)] (ctl s) /\ in_busy s' = O.
Proof.
  intros Hq Hi Ha. destruct (write_data_spec 0xff s Hq Hi) as (s' & n & m & E & Hn & Hm & Hw & Hi').
  exists s', n, m. split_and!; try done. apply Hw. unfold accept, push. by rewrite Ha, Hq.
Qed.
End init.

(** While no byte comes, waiting for one does not end. *)
Lemma wait_read_never {PB : PortBus} {HW : Ps2Hw} n s :
  out_queue (ctl s) = [] -> exists s', wait_read_loop n s = (s', Panic "out of fuel").
Proof.
  revert s. induction n as [|n IH]; intros s Hq; [by exists s|]. cbn [wait_read_loop]. rewrite st_bind_eq.
  destruct (status_read s) as (s1 & v & -> & Hc & _ & H0 & _). rewrite H0. unfold shown, tick in *. rewrite Hq in *.
  apply IH. by rewrite Hc.
Qed.

(** The configuration bytes [init] writes, by enumeration of the byte. *)
Definition quiet_cfg (c : Z) : Z := Z.lor (Z.land c 0x8C) 0x30.
Definition enabled_cfg (c : Z) : Z := Z.land c 0x8C.
Definition running_cfg (c : Z) : Z := Z.lor (Z.land c 0x8C) 0x43.

Lemma configs_closed c : is_u 8 c ->
  let disabled := Z.lor (Z.lor c 0x10) 0x20 in
  is_u 8 disabled /\ config_quiet disabled = quiet_cfg c /\
  Z.land (Z.land (quiet_cfg c) 0xEF) 0xDF = enabled_cfg c /\ is_u 8 (enabled_cfg c) /\
  config_running (enabled_cfg c) = running_cfg c.
Proof.
  intros Hc. cbv zeta.
  assert (forallb (fun c =>
    let d := Z.lor (Z.lor c 0x10) 0x20 in
    bool_decide (is_u 8 d) && (config_quiet d =? quiet_cfg c) &&
    (Z.land (Z.land (quiet_cfg c) 0xEF) 0xDF =? enabled_cfg c) && bool_decide (is_u 8 (enabled_cfg c)) &&
    (config_running (enabled_cfg c) =? running_cfg c)) (seqZ 0 256) = true) as Hall by (vm_compute; reflexivity).
  rewrite forallb_True in Hall || apply forallb_forall with (x := c) in Hall.
  - rewrite !andb_true_iff, !Z.eqb_eq, !bool_decide_eq_true in Hall. tauto.
  - apply list_elem_of_In, elem_of_seqZ. unfold is_u in Hc. lia.
Qed.

(** C38: initialising the keyboard controller ends, on every controller that answers within
    [ps2_lag] status reads and empties its input buffer before the next port access, whatever stale bytes
    it holds, when no key is pressed meanwhile.  It succeeds exactly
    when the self test answers 0x55 and the reset answers 0xFA, 0xAA, and then
    clocks, translation and interrupts of both ports are on; a failed self test leaves
    both ports stopped and silent, a failed reset leaves them without interrupts.  The condition
    on the input buffer is needed: the driver does not wait for it before a command (lemma
    [ps2_slow_controller_hangs]). *)
Theorem ps2_init_correct {PB : PortBus} {HW : Ps2Hw} fuel s :
  keeps_up -> in_busy s = O ->
  (ps2_lag < fuel)%nat -> (length (out_queue (ctl s)) < fuel)%nat ->
  Forall (fun e => e.1 = O) (out_queue (ctl s)) -> is_u 8 (cfg (ctl s)) ->
  let tested := self_test =? 0x55 in
  let restarted := (reset_ack =? 0xFA) && (reset_done =? 0xAA) in
  exists s', init fuel s = (s', if tested && restarted then Ok tt else Err init_failed) /\
    cfg (ctl s') = (if tested then if restarted then running_cfg (cfg (ctl s)) else enabled_cfg (cfg (ctl s))
                    else quiet_cfg (cfg (ctl s))) /\
    (tested && restarted = true -> out_queue (ctl s') = []).
Proof.
  intros Hfast Hi Hf Hl Hz Hu tested restarted.
  destruct (configs_closed (cfg (ctl s)) Hu) as (Hud & Hq & He & Hue & Hr).
  unfold init. rewrite st_bind_eq. destruct (flush_loop_spec fuel Hf fuel s Hz Hl) as (s1 & E & C1 & I1). specialize (I1 Hi).
  unfold flush_read at 1. rewrite E. clear E.
  edestruct (commands_spec Hfast DisableFirst DisableSecond) as (s2 & -> & C2 & I2); [exact I1|reflexivity..|].
  rewrite C1 in C2. cbn in C2. rewrite st_bind_eq.
  destruct (flush_empty fuel Hf s2) as (s3 & -> & C3 & I3); [by rewrite C2|done|]. rewrite C2 in C3. rewrite st_bind_eq.
  destruct (read_configuration_spec Hfast fuel Hf s3) as (s4 & -> & C4 & I4); [by rewrite C3|done|by rewrite C3|].
  rewrite C3 in *. cbn [cfg with_cfg] in *. rewrite st_bind_eq, Hq.
  destruct (write_configuration_spec Hfast fuel Hf (quiet_cfg (cfg (ctl s))) s4) as (s5 & -> & C5 & I5); [by rewrite C4|done|].
  edestruct (test_controller_spec Hfast fuel Hf s5 (A := unit)) as (s6 & -> & C6 & I6); [by rewrite C5|done|]. rewrite C5 in C6.
  subst tested. destruct (Z.eqb_spec self_test 0x55) as [_|_]; cbn [negb andb].
  2:{ exists s6. rewrite C6. done. }
  edestruct (commands_spec Hfast EnableFirst EnableSecond) as (s7 & -> & C7 & I7); [exact I6|reflexivity..|].
  rewrite C6 in C7. cbn in C7. rewrite He in C7. rewrite st_bind_eq.
  destruct (flush_empty fuel Hf s7) as (s8 & -> & C8 & I8); [by rewrite C7|done|]. rewrite C7 in C8. rewrite st_bind_eq.
  destruct (reset_spec Hfast fuel Hf s8) as (s9 & n & m & -> & Hn & Hm & C9 & I9); [by rewrite C8|done|by rewrite C8|].
  rewrite C8 in C9. rewrite st_bind_eq.
  destruct (read_data_spec fuel Hf n reset_ack [(m, reset_done)] s9 Hn) as (s10 & -> & C10 & I10); [by rewrite C9|].
  rewrite C9 in C10. subst restarted. destruct (Z.eqb_spec reset_ack 0xFA) as [_|_]; cbn [negb andb].
  2:{ exists s10. by rewrite C10. }
  rewrite st_bind_eq.
  destruct (read_data_spec fuel Hf m reset_done [] s10 Hm) as (s11 & -> & C11 & I11); [by rewrite C10|].
  rewrite C10 in C11. destruct (Z.eqb_spec reset_done 0xAA) as [_|_]; cbn [negb].
  2:{ exists s11. by rewrite C11. }
  specialize (I11 (I10 I9)).
  rewrite st_bind_eq. destruct (flush_empty fuel Hf s11) as (s12 & -> & C12 & I12); [by rewrite C11|done|].
  rewrite C11 in C12. rewrite st_bind_eq.
  destruct (read_configuration_spec Hfast fuel Hf s12) as (s13 & -> & C13 & I13); [by rewrite C12|done|by rewrite C12|].
  rewrite C12 in *. cbn [cfg with_out with_cfg] in *. rewrite st_bind_eq, Hr.
  destruct (write_configuration_spec Hfast fuel Hf (running_cfg (cfg (ctl s))) s13) as (s14 & -> & C14 & I14); [by rewrite C13|done|].
  destruct (flush_empty fuel Hf s14) as (s15 & -> & C15 & _); [by rewrite C14|done|].
  exists s15. by rewrite C15, C14.
Qed.
End Ps2.

(** A controller on a bus of its own, that answers after three status reads.  A slow one keeps what
    it is sent in its input buffer until the next status read and loses what is written on top of it. *)
Definition sample_bus (slow : bool) : PortBus := {|
  bus := Ps2.Ctl * bool;
  inb p s :=
    if p =? Ps2.PS2_STATUS_PORT
    then ((Ps2.tick (fst s), false), Z.lor (b2z (Ps2.shown (fst s))) (if snd s then 2 else 0))
    else match Ps2.out_queue (fst s) with
         | (O, b) :: r => ((Ps2.with_out r (fst s), snd s), b)
         | _ => (s, 0)
         end;
  outb p v s :=
    if snd s then s
    else if p =? Ps2.PS2_COMMAND_PORT
    then (default (fst s)
            (cmd ← find (fun c => Ps2.command_code c =? v)
               [Ps2.ReadConfig; Ps2.WriteConfig; Ps2.TestController; Ps2.DisableFirst; Ps2.DisableSecond;
                Ps2.EnableFirst; Ps2.EnableSecond];
             Ps2.obey 0x55 3 cmd (fst s)), slow)
    else (default (fst s) (Ps2.accept 0xFA 0xAA 1 2 v (fst s)), slow)
|}.

#[refine] Instance sample_ps2 slow : @Ps2.Ps2Hw (sample_bus slow) := {|
  Ps2.ctl := fun s : @bus (sample_bus slow) => fst (s : Ps2.Ctl * bool);
  Ps2.in_busy := fun s : @bus (sample_bus slow) => if snd (s : Ps2.Ctl * bool) then 1%nat else 0%nat; Ps2.ps2_lag := 3;
  Ps2.self_test := 0x55; Ps2.reset_ack := 0xFA; Ps2.reset_done := 0xAA
|}.
Proof.
  - intros [c b]. do 2 eexists. split; [reflexivity|]. cbn. by destruct (Ps2.shown c), b.
  - intros [c n] b r Hq. eexists. cbn in *. by rewrite Hq.
  - intros [c []] cmd; [done|]. intros _. exists 3%nat. split; [lia|]. intros c' Hc. destruct cmd; try discriminate Hc; by injection Hc.
  - intros [c []] v; [done|]. intros _. exists 1%nat, 2%nat. split; [lia|]. split; [lia|]. intros c' Hc. cbn in *. by rewrite Hc.
Defined.

Definition stale_controller : Ps2.Ctl * bool := (Ps2.mkCtl [(O, 0x1c); (O, 0x9c)] 0x47 false, false).

Lemma ps2_init_correct_witness : exists s', Ps2.init (PB := sample_bus false) 10 stale_controller = (s', Ok tt) /\ Ps2.cfg (fst s') = 0x47.
Proof.
  destruct (@Ps2.ps2_init_correct (sample_bus false) (sample_ps2 false) 10 stale_controller) as (s' & E & C & _).
  - intros [c b] p v Hb. cbn in *. destruct b; [exact Hb|]. by destruct (p =? _).
  - reflexivity.
  - cbn. lia.
  - cbn. lia.
  - repeat constructor.
  - cbn. done.
  - exists s'. split; [exact E | exact C].
Defined.

(** On the slow controller the driver never gets past its self test: the command to stop the second
    port is lost, and so is the one that asks for the test, whose answer is waited for. *)
Lemma ps2_slow_controller_hangs fuel :
  exists s', Ps2.init (PB := sample_bus true) (5 + fuel) (Ps2.mkCtl [] 0x47 false, false) = (s', Panic "out of fuel").
Proof.
  set (n := (5 + fuel)%nat).
  set (s1 := (Ps2.mkCtl [] (Ps2.config_quiet 0x57) false, true) : @bus (sample_bus true)).
  assert (exists s', Ps2.wait_read_loop (PB := sample_bus true) n s1 = (s', Panic "out of fuel")) as [s' Hs'].
  { by apply (Ps2.wait_read_never (HW := sample_ps2 true)). }
  set (at_cfg c b := (Ps2.mkCtl [] c false, b) : @bus (sample_bus true)).
  exists s'. unfold Ps2.init. fold (at_cfg 0x47 false).
  rewrite st_bind_eq. change (Ps2.flush_read n (at_cfg 0x47 false)) with (at_cfg 0x47 false, @Ok unit tt); cbv beta iota.
  rewrite st_bind_eq. change (Ps2.write_command_port Ps2.DisableFirst (at_cfg 0x47 false)) with (at_cfg 0x57 true, @Ok unit tt); cbv beta iota.
  rewrite st_bind_eq. change (Ps2.write_command_port Ps2.DisableSecond (at_cfg 0x57 true)) with (at_cfg 0x57 true, @Ok unit tt); cbv beta iota.
  rewrite st_bind_eq. change (Ps2.flush_read n (at_cfg 0x57 true)) with (at_cfg 0x57 false, @Ok unit tt); cbv beta iota.
  rewrite st_bind_eq. change (Ps2.read_configuration n (at_cfg 0x57 false)) with (at_cfg 0x57 false, @Ok Z 0x57); cbv beta iota.
  rewrite st_bind_eq. change (Ps2.write_configuration n (Ps2.config_quiet 0x57) (at_cfg 0x57 false)) with (s1, @Ok unit tt); cbv beta iota.
  rewrite st_bind_eq. change (Ps2.write_command_port Ps2.TestController s1) with (s1, @Ok unit tt); cbv beta iota.
  rewrite st_bind_eq. unfold Ps2.read_data_port, Ps2.wait_read. rewrite st_bind_eq. by rewrite Hs'.
Qed.
