(* ===== verification/PerCore.v ===== *)
(** * Per-core variables ([mythril/src/percore.rs], [mythril/src/lock/ro_after_init.rs],
    [mythril/src/ap.rs])

    The variables declared with [declare_per_core!] live in one linker section.  The
    boot processor uses the section itself; [init_sections] copies it once for every
    other core, and a core finds its copy through the FS base.  The theorem is a
    refinement: the one memory implements an independent section per core. *)

From S2P Require Import Prelude Error.

(** ** [RoAfterInit<T>]: a cell that is written once. *)

Module RoAfterInit.
Definition t (T : Type) : Type := option T.
Definition uninitialized {T} : t T := None.
Definition init {T} (this : t T) (val : T) : t T := Some val.
Definition is_initialized {T} (this : t T) : bool := bool_decide (is_Some this).
Definition deref {T} (this : t T) : res T := expect this "Attempt to use BspOnce before init".
End RoAfterInit.

(** ** Bytes of memory *)

Fixpoint store (a : Z) (bs : list Z) (m : gmap Z Z) : gmap Z Z :=
  match bs with [] => m | b :: r => store (a + 1) r (<[a := b]> m) end.
Fixpoint load (a : Z) (n : nat) (m : gmap Z Z) : list Z :=
  match n with O => [] | S n => default 0 (m !! a) :: load (a + 1) n m end.

Lemma length_load a n m : length (load a n m) = n.
Proof. revert a. induction n; intros; simpl; [done|by rewrite IHn]. Qed.

Lemma lookup_load a n m (k : nat) :
  (k < n)%nat -> load a n m !! k = Some (default 0 (m !! (a + Z.of_nat k))).
Proof.
  revert a k. induction n as [|n IH]; intros a k Hk; [lia|]. destruct k as [|k]; simpl.
  - by rewrite Z.add_0_r.
  - rewrite IH by lia. by replace (a + 1 + Z.of_nat k) with (a + Z.of_nat (S k)) by lia.
Qed.

Lemma lookup_store a bs m x :
  store a bs m !! x =
  if decide (a <= x < a + Z.of_nat (length bs)) then bs !! Z.to_nat (x - a) else m !! x.
Proof.
  revert a m. induction bs as [|b r IH]; intros a m; simpl.
  - destruct (decide _); [lia|done].
  - rewrite IH. destruct (decide (x = a)) as [->|Hne].
    + rewrite lookup_insert_eq, Z.sub_diag. destruct (decide (a + 1 <= a < _)); [lia|].
      by destruct (decide (a <= a < _)); [|lia].
    + rewrite lookup_insert_ne by done.
      destruct (decide (a + 1 <= x < _)), (decide (a <= x < _)); try lia; [|done].
      replace (Z.to_nat (x - a)) with (S (Z.to_nat (x - (a + 1)))) by lia. done.
Qed.

(** Two ranges without a common address. *)
Definition apart (a : Z) (n : nat) (b : Z) (k : nat) : Prop :=
  a + Z.of_nat n <= b \/ b + Z.of_nat k <= a.

Lemma load_store_apart a n b bs m :
  apart a n b (length bs) -> load a n (store b bs m) = load a n m.
Proof.
  intros Hd. apply list_eq. intros k. destruct (decide (k < n)%nat).
  - rewrite !lookup_load, lookup_store by done. destruct (decide _); [|done]. unfold apart in Hd. lia.
  - rewrite !lookup_ge_None_2; [done|rewrite length_load; lia..].
Qed.

(** A store inside a range replaces that part of it. *)
Lemma load_store_in a n off bs m :
  (off + length bs <= n)%nat ->
  load a n (store (a + Z.of_nat off) bs m) = list_inserts off bs (load a n m).
Proof.
  intros Hb. apply list_eq. intros k. destruct (decide (k < n)%nat).
  2:{ rewrite !lookup_ge_None_2; [done|rewrite ?length_inserts, length_load; lia..]. }
  rewrite lookup_load, lookup_store by done.
  destruct (decide _) as [Hin|Hout].
  - rewrite list_lookup_inserts by (rewrite ?length_load; lia).
    replace (Z.to_nat (a + Z.of_nat k - (a + Z.of_nat off))) with (k - off)%nat by lia.
    destruct (lookup_lt_is_Some_2 bs (k - off)) as [y Hy]; [lia|]. by rewrite Hy.
  - destruct (decide (k < off)%nat).
    + rewrite list_lookup_inserts_lt by lia. by rewrite lookup_load.
    + rewrite list_lookup_inserts_ge by lia. by rewrite lookup_load.
Qed.

Lemma load_store_same a bs m : load a (length bs) (store a bs m) = bs.
Proof.
  apply list_eq. intros k. destruct (decide (k < length bs)%nat).
  - rewrite lookup_load, lookup_store by done. destruct (decide _); [|lia].
    replace (Z.to_nat (a + Z.of_nat k - a)) with k by lia.
    destruct (lookup_lt_is_Some_2 bs k) as [y Hy]; [lia|]. by rewrite Hy.
  - rewrite !lookup_ge_None_2; [done|lia|rewrite length_load; lia].
Qed.

Lemma load_app a n k m : load a (n + k) m = load a n m ++ load (a + Z.of_nat n) k m.
Proof.
  revert a. induction n as [|n IH]; intros a; simpl; [by rewrite Z.add_0_r|].
  rewrite IH. by replace (a + 1 + Z.of_nat n) with (a + Z.of_nat (S n)) by lia.
Qed.

(** ** Sections *)

(** The linker section, where [CORE_ID] lies in it, and how its type is laid out in
    memory (the compiler chooses the layout). *)
Class PerCoreLayout := {
  PER_CORE_START : Z;
  PER_CORE_END : Z;
  CORE_ID : Z;
  core_id_size : nat;
  core_id_encode : RoAfterInit.t Z -> list Z;
  core_id_decode : list Z -> RoAfterInit.t Z
}.

Class PerCoreLayoutLaws {LY : PerCoreLayout} := {
  section_range : 0 <= PER_CORE_START /\ PER_CORE_START <= PER_CORE_END < 2 ^ 64;
  core_id_inside : PER_CORE_START <= CORE_ID /\ CORE_ID + Z.of_nat core_id_size <= PER_CORE_END;
  core_id_nonempty : (0 < core_id_size)%nat;
  core_id_encode_length : forall v, length (core_id_encode v) = core_id_size;
  core_id_roundtrip : forall x, is_u 32 x -> core_id_decode (core_id_encode (Some x)) = Some x
}.

(** Memory, the vector of the other cores' sections (address and length), and each
    processor's FS base. *)
Record PerCore := mkPerCore {
  ram : gmap Z Z;
  ap_per_core_sections : RoAfterInit.t (Z * Z);
  fs_base : gmap nat Z
}.

(** [ApData]: what an application processor is told at its start. *)
Record ApData := mkApData { ap_idx : Z }.

Section percore.
Context {LY : PerCoreLayout}.

Definition per_core_section_len : Z := u64 (PER_CORE_END - PER_CORE_START).

Definition get_fs (cpu : nat) : st PerCore Z := fun s => (s, Ok (default 0 (fs_base s !! cpu))).
Definition set_fs (cpu : nat) (v : Z) : st PerCore unit :=
  modify (fun s => mkPerCore (ram s) (ap_per_core_sections s) (<[cpu := v]> (fs_base s))).
Definition set_ram (m : gmap Z Z) : st PerCore unit :=
  modify (fun s => mkPerCore m (ap_per_core_sections s) (fs_base s)).

(** [per_core_address], on processor [cpu] *)
Definition per_core_address (cpu : nat) (symbol_addr : Z) : st PerCore Z :=
  let offset := u64 (symbol_addr - PER_CORE_START) in
  section_start ← get_fs cpu;
  mret (u64 (section_start + offset)).

(** [get_per_core!], [get_per_core_mut!]: the variable of [n] bytes declared at [symbol]. *)
Definition get_per_core (cpu : nat) (symbol : Z) (n : nat) : st PerCore (list Z) :=
  a ← per_core_address cpu symbol;
  s ← get;
  mret (load a n (ram s)).
Definition set_per_core (cpu : nat) (symbol : Z) (bytes : list Z) : st PerCore unit :=
  a ← per_core_address cpu symbol;
  s ← get;
  set_ram (store a bytes (ram s)).

(** [percore_section_start]: indexing the vector checks the bound. *)
Definition percore_section_start (core_idx : Z) : st PerCore Z :=
  if core_idx =? 0 then mret PER_CORE_START
  else
    let section_len := per_core_section_len in
    s ← get;
    v ← lift (RoAfterInit.deref (ap_per_core_sections s));
    let i := u64 (section_len * u64 (core_idx - 1)) in
    if i <? snd v then mret (fst v + i) else panic "index out of bounds".

Definition init_segment_for_core (cpu : nat) (core_idx : Z) : st PerCore unit :=
  a ← percore_section_start core_idx;
  _ ← set_fs cpu a;
  old ← get_per_core cpu CORE_ID core_id_size;
  set_per_core cpu CORE_ID (core_id_encode (RoAfterInit.init (core_id_decode old) (u32 core_idx))).

(** [init_sections]; [vec] is where the allocator puts the copies. *)
Definition isize_max : Z := 2 ^ 63 - 1.
Definition init_sections (cpu : nat) (vec ncores : Z) : st PerCore unit :=
  let section_start := PER_CORE_START in
  let section_len := per_core_section_len in
  let capacity := u64 (section_len * u64 (ncores - 1)) in
  if isize_max <? capacity then panic "capacity overflow" else
  s ← get;
  let per_core_section := load section_start (Z.to_nat section_len) (ram s) in
  let ap_sections := concat (replicate (Z.to_nat (u64 (ncores - 1))) per_core_section) in
  _ ← set_ram (store vec ap_sections (ram s));
  _ ← modify (fun s => mkPerCore (ram s)
        (RoAfterInit.init (ap_per_core_sections s) (vec, Z.of_nat (length ap_sections))) (fs_base s));
  init_segment_for_core cpu 0.

Definition read_core_id (cpu : nat) : st PerCore Z :=
  bytes ← get_per_core cpu CORE_ID core_id_size;
  lift (RoAfterInit.deref (core_id_decode bytes)).
End percore.

(** ** An independent section per core *)

(** What cores do with their variables. *)
Inductive PcOp := InitSegment | SetVar (symbol : Z) (bytes : list Z).

#[export] Instance PcOp_eq_dec : EqDecision PcOp.
Proof. solve_decision. Defined.

Section refinement.
Context {LY : PerCoreLayout} {LL : PerCoreLayoutLaws}.

(** The processor numbered [i] is the one that takes core index [i]: the boot processor takes 0
    and the others their position in the MADT, so this is the case where the boot processor is listed first.  When
    it is not, two processors take index 0 and share a section. *)
Definition pc_run (c : nat * PcOp) : st PerCore unit :=
  match c with
  | (cpu, InitSegment) => init_segment_for_core cpu (Z.of_nat cpu)
  | (cpu, SetVar symbol bytes) => set_per_core cpu symbol bytes
  end.

Definition offset_of (symbol : Z) : nat := Z.to_nat (symbol - PER_CORE_START).
Definition section_size : nat := Z.to_nat (PER_CORE_END - PER_CORE_START).
Definition in_section (symbol : Z) (n : nat) : Prop :=
  PER_CORE_START <= symbol /\ symbol + Z.of_nat n <= PER_CORE_END.

(** The specification: core [i] alone on a section of its own. *)
Definition pc_apply (i : nat) (view : list Z) (op : PcOp) : list Z :=
  match op with
  | InitSegment => list_inserts (offset_of CORE_ID) (core_id_encode (Some (Z.of_nat i))) view
  | SetVar symbol bytes => list_inserts (offset_of symbol) bytes view
  end.
Definition own (i : nat) (ops : list (nat * PcOp)) : list PcOp := (filter (fun c => fst c = i) ops).*2.

(** Cores set up their segment before they use variables. *)
Fixpoint ops_ok (n : nat) (ready : list nat) (ops : list (nat * PcOp)) : Prop :=
  match ops with
  | [] => True
  | (cpu, op) :: r =>
      (cpu < n)%nat /\
      match op with
      | InitSegment => ops_ok n (cpu :: ready) r
      | SetVar symbol bytes => cpu ∈ ready /\ in_section symbol (length bytes) /\ ops_ok n ready r
      end
  end.

(** Where the allocator puts the copies: apart from the section, in the address space. *)
Definition placed (vec : Z) (n : nat) : Prop :=
  (0 < n)%nat /\ 0 <= vec /\ vec + Z.of_nat (section_size * (n - 1)) < 2 ^ 64 /\
  Z.of_nat (section_size * (n - 1)) <= isize_max /\ Z.of_nat n < 2 ^ 32 /\
  apart PER_CORE_START section_size vec (section_size * (n - 1)).

Definition section_addr (vec : Z) (i : nat) : Z :=
  match i with O => PER_CORE_START | S k => vec + Z.of_nat (section_size * k) end.

Record Rep (vec : Z) (n : nat) (ready : list nat) (s : PerCore) (views : nat -> list Z) : Prop := {
  rep_sections : ap_per_core_sections s = Some (vec, Z.of_nat (section_size * (n - 1)));
  rep_view : forall i, (i < n)%nat -> load (section_addr vec i) section_size (ram s) = views i;
  rep_fs : forall i, i ∈ ready -> (i < n)%nat /\ fs_base s !! i = Some (section_addr vec i)
}.

Lemma section_len_eq : per_core_section_len = Z.of_nat section_size.
Proof.
  pose proof section_range. unfold per_core_section_len, section_size, u64.
  rewrite wrap_small by (unfold is_u; lia). lia.
Qed.

Lemma section_size_pos : (0 < section_size)%nat.
Proof. pose proof core_id_inside. pose proof core_id_nonempty. unfold section_size. lia. Qed.

Lemma placed_size vec n : placed vec n -> is_u 64 (Z.of_nat (section_size * (n - 1))).
Proof. intros (_ & Hv & Hb & _). revert Hb. generalize (section_size * (n - 1))%nat. unfold is_u. lia. Qed.

Lemma section_bounds vec n i : placed vec n -> (i < n)%nat ->
  0 <= section_addr vec i /\ section_addr vec i + Z.of_nat section_size < 2 ^ 64.
Proof.
  intros (Hn & Hv & Hb & _) Hi. pose proof section_range. unfold section_addr.
  destruct i as [|k]; [unfold section_size; lia|].
  assert (section_size * k + section_size <= section_size * (n - 1))%nat by nia. lia.
Qed.

(** Sections of different cores do not overlap. *)
Lemma sections_apart vec n i j : placed vec n -> (i < n)%nat -> (j < n)%nat -> i <> j ->
  apart (section_addr vec i) section_size (section_addr vec j) section_size.
Proof.
  intros (Hn & Hv & Hb & _ & _ & Ha) Hi Hj Hne. unfold apart, section_addr in *.
  destruct i as [|i], j as [|j]; [done| | |].
  - assert (section_size * j + section_size <= section_size * (n - 1))%nat by nia. lia.
  - assert (section_size * i + section_size <= section_size * (n - 1))%nat by nia. lia.
  - destruct (decide (i < j)%nat).
    + assert (section_size * i + section_size <= section_size * j)%nat by nia. lia.
    + assert (section_size * j + section_size <= section_size * i)%nat by nia. lia.
Qed.

(** The address of a variable on a core whose FS base is set. *)
Lemma per_core_address_eq vec n i symbol k s :
  placed vec n -> (i < n)%nat -> fs_base s !! i = Some (section_addr vec i) -> in_section symbol k ->
  per_core_address i symbol s = (s, Ok (section_addr vec i + Z.of_nat (offset_of symbol))).
Proof.
  intros Hp Hi Hfs [H1 H2]. pose proof section_range. pose proof (section_bounds vec n i Hp Hi).
  unfold per_core_address. rewrite st_bind_eq. unfold get_fs. rewrite Hfs.
  unfold mret, st_ret, offset_of, u64. simpl. rewrite (wrap_small _ (symbol - _)) by (unfold is_u; lia).
  unfold section_size in *. rewrite wrap_small by (unfold is_u; lia). do 2 f_equal. lia.
Qed.

Lemma in_section_offset symbol k : in_section symbol k -> (offset_of symbol + k <= section_size)%nat.
Proof. unfold in_section, offset_of, section_size. lia. Qed.

(** A store by one core changes its own view only. *)
Lemma set_per_core_rep vec n ready s views i symbol bytes :
  placed vec n -> Rep vec n ready s views -> i ∈ ready -> in_section symbol (length bytes) ->
  exists s', set_per_core i symbol bytes s = (s', Ok tt) /\ fs_base s' = fs_base s /\
    Rep vec n ready s' (fun j => if decide (j = i) then list_inserts (offset_of symbol) bytes (views i) else views j).
Proof.
  intros Hp [Hs Hv Hf] Hi Hin. destruct (Hf i Hi) as [Hn Hfs].
  eexists. unfold set_per_core. rewrite st_bind_eq, (per_core_address_eq vec n i symbol (length bytes)) by done.
  split; [reflexivity|]. split; [done|]. split; [done| |done].
  intros j Hj. simpl. pose proof (in_section_offset _ _ Hin).
  destruct (decide (j = i)) as [->|Hne].
  - rewrite load_store_in by done. by rewrite Hv.
  - rewrite load_store_apart; [by apply Hv|].
    destruct (sections_apart vec n j i Hp Hj Hn Hne); unfold apart in *; lia.
Qed.

Lemma percore_section_start_eq vec n i s :
  placed vec n -> (i < n)%nat -> ap_per_core_sections s = Some (vec, Z.of_nat (section_size * (n - 1))) ->
  percore_section_start (Z.of_nat i) s = (s, Ok (section_addr vec i)).
Proof.
  intros Hp Hi Hs. pose proof Hp as (Hn & Hv & Hb & Hm & Hn32 & _). unfold percore_section_start.
  destruct i as [|k]; [done|]. destruct (Z.eqb_spec (Z.of_nat (S k)) 0); [lia|].
  rewrite st_bind_eq. unfold get. rewrite st_bind_eq. unfold lift. rewrite Hs. simpl RoAfterInit.deref. cbv beta iota.
  rewrite section_len_eq. unfold u64. replace (Z.of_nat (S k) - 1) with (Z.of_nat k) by lia.
  rewrite (wrap_small _ (Z.of_nat k)) by (unfold is_u; lia).
  assert (section_size * k < section_size * (n - 1))%nat by (pose proof section_size_pos; nia).
  rewrite <- Nat2Z.inj_mul. rewrite wrap_small by (unfold is_u; lia). cbn [fst snd].
  destruct (Z.ltb_spec (Z.of_nat (section_size * k)) (Z.of_nat (section_size * (n - 1)))); [done|lia].
Qed.

Lemma core_id_in_section v : in_section CORE_ID (length (core_id_encode v)).
Proof. rewrite core_id_encode_length. exact core_id_inside. Qed.

Lemma init_segment_rep vec n ready s views i :
  placed vec n -> Rep vec n ready s views -> (i < n)%nat ->
  exists s', init_segment_for_core i (Z.of_nat i) s = (s', Ok tt) /\
    Rep vec n (i :: ready) s' (fun j => if decide (j = i) then pc_apply i (views i) InitSegment else views j).
Proof.
  intros Hp HR Hi. pose proof HR as [Hs Hv Hf]. pose proof Hp as (_ & _ & _ & _ & Hn32 & _).
  unfold init_segment_for_core. rewrite st_bind_eq, (percore_section_start_eq vec n) by done.
  rewrite st_bind_eq. unfold set_fs, modify at 1.
  set (s1 := mkPerCore _ _ _). assert (Rep vec n (i :: ready) s1 views) as HR1.
  { split; [done|exact Hv|]. intros j Hj. cbn. destruct (decide (j = i)) as [->|Hne].
    - by rewrite lookup_insert_eq.
    - rewrite lookup_insert_ne by done. apply elem_of_cons in Hj as [->|Hj]; [done|by apply Hf]. }
  rewrite st_bind_eq. unfold get_per_core. rewrite st_bind_eq.
  rewrite (per_core_address_eq vec n i CORE_ID core_id_size);
    [|done|done|apply (rep_fs _ _ _ _ _ HR1); left|exact core_id_inside].
  unfold RoAfterInit.init, u32. rewrite (wrap_small 32) by (unfold is_u; lia).
  destruct (set_per_core_rep vec n (i :: ready) s1 views i CORE_ID (core_id_encode (Some (Z.of_nat i))))
    as (s2 & E & _ & HR2); [done|done|left|apply core_id_in_section|].
  exists s2. split; [exact E|exact HR2].
Qed.

(** The copies [init_sections] makes. *)
Lemma length_copies (img : list Z) j : length (concat (replicate j img)) = (length img * j)%nat.
Proof. induction j as [|j IH]; simpl; [lia|]. rewrite length_app, IH. lia. Qed.

Lemma load_replicate vec img k j m :
  (k < j)%nat -> load (vec + Z.of_nat (length img * k)) (length img) (store vec (concat (replicate j img)) m) = img.
Proof.
  intros Hk. apply list_eq. intros x. destruct (decide (x < length img)%nat) as [Hx|Hx].
  2:{ rewrite !lookup_ge_None_2; [done|lia|rewrite length_load; lia]. }
  pose proof (length_copies img j) as Hl.
  assert (length img * k + length img <= length img * j)%nat by nia.
  rewrite lookup_load, lookup_store by done. destruct (decide _); [|lia].
  replace (Z.to_nat _) with (length img * k + x)%nat by lia. clear -Hk Hx.
  assert (concat (replicate j img) !! (length img * k + x)%nat = img !! x) as ->.
  { revert k Hk. induction j as [|j IH]; intros k Hk; [lia|]. simpl. destruct k as [|k].
    - rewrite Nat.mul_0_r, Nat.add_0_l. by apply lookup_app_l.
    - rewrite lookup_app_r by lia. replace (length img * S k + x - length img)%nat with (length img * k + x)%nat by lia.
      apply IH. lia. }
  destruct (lookup_lt_is_Some_2 img x Hx) as [y ->]. done.
Qed.

Lemma init_sections_rep vec n s :
  placed vec n ->
  let image := load PER_CORE_START section_size (ram s) in
  exists s', init_sections 0 vec (Z.of_nat n) s = (s', Ok tt) /\
    Rep vec n [O] s' (fun j => if decide (j = 0%nat) then pc_apply 0 image InitSegment else image).
Proof.
  intros Hp image. pose proof Hp as (Hn & Hv & Hb & Hm & Hn32 & Ha). unfold init_sections, u64.
  rewrite section_len_eq, (wrap_small 64 (Z.of_nat n - 1)) by (unfold is_u; lia).
  replace (Z.of_nat n - 1) with (Z.of_nat (n - 1)) by lia. rewrite <- Nat2Z.inj_mul.
  rewrite wrap_small by (by apply (placed_size vec)). destruct (Z.ltb_spec isize_max (Z.of_nat (section_size * (n - 1)))); [lia|].
  rewrite st_bind_eq. unfold get at 1. rewrite !Nat2Z.id. fold image.
  assert (length image = section_size) as Hil by apply length_load.
  pose proof (length_copies image (n - 1)) as Hl. rewrite Hil in Hl.
  rewrite st_bind_eq. unfold set_ram, modify at 1. rewrite st_bind_eq. unfold modify at 1. rewrite Hl.
  set (s1 := mkPerCore _ _ _). assert (Rep vec n [] s1 (fun _ => image)) as HR.
  { split; [done| |by intros i Hi%not_elem_of_nil]. intros [|k] Hk; cbn [section_addr ram s1].
    - rewrite load_store_apart; [done|]. by rewrite Hl.
    - rewrite <- Hil. apply load_replicate. lia. }
  exact (init_segment_rep vec n [] s1 _ 0 Hp HR Hn).
Qed.

(** Any sequence of operations of the cores. *)
Lemma ops_rep vec n ops ready s views :
  placed vec n -> Rep vec n ready s views -> ops_ok n ready ops ->
  exists s', st_iter pc_run ops s = (s', Ok tt) /\
    Rep vec n ((filter (fun c => snd c = InitSegment) ops).*1 ++ ready) s'
      (fun j => foldl (pc_apply j) (views j) (own j ops)).
Proof.
  intros Hp. revert ready s views. induction ops as [|[i op] r IH]; intros ready s views HR Hok.
  { exists s. done. }
  destruct Hok as [Hi Hok]. cbn [st_iter]. rewrite st_bind_eq.
  assert (exists s1, pc_run (i, op) s = (s1, Ok tt) /\
    Rep vec n ((if decide (op = InitSegment) then [i] else []) ++ ready) s1
      (fun j => if decide (j = i) then pc_apply i (views i) op else views j) /\
    ops_ok n ((if decide (op = InitSegment) then [i] else []) ++ ready) r) as (s1 & -> & HR1 & Hok1).
  { destruct op as [|symbol bytes]; cbn [pc_run].
    - destruct (init_segment_rep vec n ready s views i Hp HR Hi) as (s1 & E & HR1).
      exists s1. rewrite decide_True by done. done.
    - destruct Hok as (Hready & Hin & Hok).
      destruct (set_per_core_rep vec n ready s views i symbol bytes Hp HR Hready Hin) as (s1 & E & _ & HR1).
      exists s1. rewrite decide_False by done. done. }
  destruct (IH _ s1 _ HR1 Hok1) as (s2 & E2 & HR2). exists s2. split; [done|].
  assert (forall j, foldl (pc_apply j) (if decide (j = i) then pc_apply i (views i) op else views j) (own j r) =
                    foldl (pc_apply j) (views j) (own j ((i, op) :: r))) as Hv.
  { intros j. unfold own. destruct (decide (j = i)) as [->|Hne].
    - by rewrite filter_cons_True.
    - by rewrite filter_cons_False by (cbn; congruence). }
  destruct HR2 as [Hs2 Hv2 Hf2]. split; [done|intros j Hj; rewrite Hv2, Hv by done; done|].
  intros j Hj. apply Hf2. revert Hj. destruct (decide (op = InitSegment)) as [->|Hne].
  - rewrite filter_cons_True by done. cbn. set_solver.
  - by rewrite filter_cons_False by done.
Qed.

(** Reading a variable through the FS base. *)
Lemma get_per_core_rep vec n ready s views i symbol k :
  placed vec n -> Rep vec n ready s views -> i ∈ ready -> in_section symbol k ->
  get_per_core i symbol k s = (s, Ok (take k (drop (offset_of symbol) (views i)))).
Proof.
  intros Hp [Hs Hv Hf] Hi Hin. destruct (Hf i Hi) as [Hn Hfs]. pose proof (in_section_offset _ _ Hin) as Ho.
  unfold get_per_core. rewrite st_bind_eq, (per_core_address_eq vec n i symbol k) by done.
  rewrite st_bind_eq. unfold get, mret, st_ret. do 2 f_equal. rewrite <- (Hv i Hn).
  replace section_size with (offset_of symbol + (k + (section_size - offset_of symbol - k)))%nat by lia.
  rewrite load_app, drop_app_length' by (by rewrite length_load).
  by rewrite load_app, take_app_length' by (by rewrite length_load).
Qed.

(** Nothing but the set-up of a segment writes [CORE_ID]. *)
Definition spares_core_id (op : PcOp) : Prop :=
  match op with
  | InitSegment => True
  | SetVar symbol bytes => in_section symbol (length bytes) /\ apart CORE_ID core_id_size symbol (length bytes)
  end.

Definition core_id_of (view : list Z) : RoAfterInit.t Z :=
  core_id_decode (take core_id_size (drop (offset_of CORE_ID) view)).

Lemma slice_inserts_same off (bs l : list Z) :
  (off + length bs <= length l)%nat -> take (length bs) (drop off (list_inserts off bs l)) = bs.
Proof.
  intros Hl. apply list_eq. intros k. destruct (decide (k < length bs)%nat).
  - rewrite lookup_take_lt, lookup_drop, list_lookup_inserts by lia. f_equal. lia.
  - rewrite !lookup_ge_None_2; [done|lia|rewrite length_take; lia].
Qed.
Lemma slice_inserts_apart off n off' (bs l : list Z) :
  (off + n <= off' \/ off' + length bs <= off)%nat ->
  take n (drop off (list_inserts off' bs l)) = take n (drop off l).
Proof.
  intros Hl. apply list_eq. intros k. destruct (decide (k < n)%nat).
  - rewrite !lookup_take_lt, !lookup_drop by lia.
    destruct Hl; [rewrite list_lookup_inserts_lt by lia|rewrite list_lookup_inserts_ge by lia]; done.
  - rewrite !lookup_ge_None_2; [done|rewrite length_take; lia..].
Qed.

Lemma core_id_of_apply i view op :
  is_u 32 (Z.of_nat i) -> length view = section_size -> spares_core_id op -> core_id_of view = Some (Z.of_nat i) \/ op = InitSegment ->
  core_id_of (pc_apply i view op) = Some (Z.of_nat i).
Proof.
  intros Hu Hl Hs Hor. unfold core_id_of. destruct op as [|symbol bytes]; cbn [pc_apply].
  - rewrite <- (core_id_encode_length (Some (Z.of_nat i))) at 1.
    rewrite slice_inserts_same; [by apply core_id_roundtrip|].
    rewrite Hl. apply in_section_offset, core_id_in_section.
  - destruct Hor as [Hid|]; [|done]. destruct Hs as [[H1 H2] Ha]. rewrite slice_inserts_apart; [exact Hid|].
    pose proof core_id_inside. unfold apart, offset_of in *. lia.
Qed.

Lemma core_id_of_ops i view ops :
  is_u 32 (Z.of_nat i) -> length view = section_size -> Forall spares_core_id ops ->
  core_id_of view = Some (Z.of_nat i) \/ InitSegment ∈ ops ->
  core_id_of (foldl (pc_apply i) view ops) = Some (Z.of_nat i).
Proof.
  intros Hu. revert view. induction ops as [|op r IH]; intros view Hl Hs Hor; cbn.
  { destruct Hor as [|[]%not_elem_of_nil]; done. }
  apply Forall_cons in Hs as [Hop Hs]. apply IH; [destruct op; cbn; by rewrite length_inserts|done|].
  destruct Hor as [Hid|[Hop'|Hin]%elem_of_cons]; [left..|by right].
  - by apply core_id_of_apply; [..|left].
  - by apply core_id_of_apply; [..|right].
Qed.
End refinement.

(** C17: per-core variables are private.  After [init_sections] and any interleaving of
    the cores' operations, each core's section is what its own operations alone make
    of the initial image: variables read through [get_per_core!] come from it, and every
    started core reads its own index, however the others ran.  Processor [i] is the one that
    takes index [i] ([pc_run]), so no two processors take the same index. *)
Theorem percore_private {LY : PerCoreLayout} {LL : PerCoreLayoutLaws} vec n ops s :
  placed vec n -> ops_ok n [O] ops ->
  let image := load PER_CORE_START section_size (ram s) in
  let view i := foldl (pc_apply i) image (own i ((O, InitSegment) :: ops)) in
  exists s', (_ ← init_sections 0 vec (Z.of_nat n); st_iter pc_run ops) s = (s', Ok tt) /\
    (forall i symbol k, i = O \/ (i, InitSegment) ∈ ops -> in_section symbol k ->
       get_per_core i symbol k s' = (s', Ok (take k (drop (offset_of symbol) (view i))))) /\
    (forall i, i = O \/ (i, InitSegment) ∈ ops -> Forall spares_core_id (own i ops) ->
       read_core_id i s' = (s', Ok (Z.of_nat i))).
Proof.
  intros Hp Hok image view. rewrite st_bind_eq.
  destruct (init_sections_rep vec n s Hp) as (s1 & -> & HR1). fold image in HR1.
  destruct (ops_rep vec n ops [O] s1 _ Hp HR1 Hok) as (s2 & E & HR2). exists s2. split; [done|].
  set (views := fun j => foldl _ _ _) in HR2.
  assert (forall i, views i = view i) as Hview.
  { intros i. subst views view. cbv beta. unfold own. destruct (decide (i = O)) as [->|Hne].
    - by rewrite filter_cons_True.
    - by rewrite filter_cons_False by (cbn; congruence). }
  assert (forall i, i = O \/ (i, InitSegment) ∈ ops ->
    i ∈ (filter (fun c => snd c = InitSegment) ops).*1 ++ [O]) as Hready.
  { intros i [->|Hin]; apply elem_of_app; [right; left|left].
    apply list_elem_of_fmap. exists (i, InitSegment). split; [done|]. by apply list_elem_of_filter. }
  split.
  - intros i symbol k Hi Hin. rewrite <- Hview. by eapply get_per_core_rep; [..|apply Hready|].
  - intros i Hi Hs. unfold read_core_id. rewrite st_bind_eq.
    rewrite (get_per_core_rep vec n _ s2 views i) by (done || by apply Hready || exact core_id_inside).
    fold (core_id_of (views i)). rewrite Hview. unfold view.
    rewrite (core_id_of_ops i); [done| |apply length_load| |right].
    + destruct (rep_fs _ _ _ _ _ HR2 i (Hready i Hi)). unfold is_u.
      destruct Hp as (_ & _ & _ & _ & Hn32 & _). lia.
    + unfold own. rewrite filter_cons. by case_decide; [constructor|].
    + unfold own. apply list_elem_of_fmap. exists (i, InitSegment). split; [done|].
      apply list_elem_of_filter. split; [done|]. destruct Hi as [->|Hi]; [left|by right].
Qed.

(** A section of eight bytes with [CORE_ID] in bytes 2 and 3. *)
#[export] Instance small_layout : PerCoreLayout := {
  PER_CORE_START := 0x1000; PER_CORE_END := 0x1008; CORE_ID := 0x1002; core_id_size := 5;
  core_id_encode v := match v with Some x => 1 :: le_bytes 4 x | None => replicate 5 0 end;
  core_id_decode l := match l with 1 :: r => Some (of_le r) | _ => None end
}.

#[export] Instance small_layout_laws : PerCoreLayoutLaws.
Proof.
  split; cbn [PER_CORE_START PER_CORE_END CORE_ID core_id_size core_id_encode core_id_decode small_layout];
    [lia|lia|lia| |].
  - intros [x|]; [cbn [length]; by rewrite length_le_bytes|by rewrite length_replicate].
  - intros x Hx. rewrite of_le_bytes. f_equal. by apply wrap_small.
Qed.

(** Three cores: the third sets a variable before the second starts. *)
Definition sample_ops : list (nat * PcOp) :=
  [(2%nat, InitSegment); (2%nat, SetVar 0x1000 [7; 9]); (1%nat, InitSegment); (O, SetVar 0x1007 [5])].

Lemma percore_private_witness :
  exists s', (_ ← init_sections 0 0x2000 3; st_iter pc_run sample_ops) (mkPerCore ∅ None ∅) = (s', Ok tt) /\
    read_core_id 1 s' = (s', Ok 1) /\ get_per_core 1 0x1000 2 s' = (s', Ok [0; 0]) /\
    get_per_core 2 0x1000 2 s' = (s', Ok [7; 9]).
Proof.
  destruct (percore_private 0x2000 3 sample_ops (mkPerCore ∅ None ∅)) as (s' & E & Hg & Hr).
  - unfold placed, apart, isize_max. change section_size with 8%nat. cbn [PER_CORE_START small_layout]. lia.
  - cbn. unfold in_section. cbn. repeat split; first [lia | set_solver].
  - exists s'. split; [exact E|]. split; [|split].
    + apply (Hr 1%nat); [right; by right; right; left|]. vm_compute. repeat constructor.
    + apply (Hg 1%nat 0x1000 2%nat); [right; by right; right; left|]. vm_compute. by split.
    + apply (Hg 2%nat 0x1000 2%nat); [right; left|]. vm_compute. by split.
Defined.
