(* ===== verification/Calibrate.v ===== *)
(** * Calibration of the clocks ([mythril/src/tsc.rs], [mythril/src/time.rs],
    [mythril/src/apic.rs], [mythril/src/physdev/pit.rs])

    [calibrate_tsc] counts the ticks of the time stamp counter while channel 2 of the
    interval timer counts down; [LocalApic::init] counts those of the local APIC
    timer during a millisecond of the calibrated clock. *)

From S2P Require Import Prelude Error Clock Apic Pit PerCore PhysDev Timers.

(** ** The interval timer's modes *)

Module PhysPit.
Inductive Channel := Channel0 | Channel1 | Channel2 | ReadBack.
Inductive AccessMode := LatchCount | LoByte | HiByte | Word.
Inductive OperatingMode := Mode0 | Mode1 | Mode2 | Mode3 | Mode4 | Mode5.
Inductive BinaryMode := Binary | Bcd.

#[export] Instance Channel_enum : NumEnum Channel := {
  ne_all := [Channel0; Channel1; Channel2; ReadBack];
  ne_code c := match c with Channel0 => 0 | Channel1 => 1 | Channel2 => 2 | ReadBack => 3 end }.
#[export] Instance AccessMode_enum : NumEnum AccessMode := {
  ne_all := [LatchCount; LoByte; HiByte; Word];
  ne_code c := match c with LatchCount => 0 | LoByte => 1 | HiByte => 2 | Word => 3 end }.
Definition mode_code (m : OperatingMode) : Z :=
  match m with Mode0 => 0 | Mode1 => 1 | Mode2 => 2 | Mode3 => 3 | Mode4 => 4 | Mode5 => 5 end.
Definition binary_code (b : BinaryMode) : Z := match b with Binary => 0 | Bcd => 1 end.

(** [OperatingMode::try_from]: two encodings of modes 2 and 3. *)
Definition operating_mode_try_from (val : Z) : res OperatingMode :=
  match val with
  | 0 => Ok Mode0 | 1 => Ok Mode1 | 2 => Ok Mode2 | 3 => Ok Mode3 | 4 => Ok Mode4 | 5 => Ok Mode5
  | 6 => Ok Mode2 | 7 => Ok Mode3
  | _ => Err (InvalidValue (Msg "Invalid PIT operating mode: {}" [val]))
  end.

(** The command byte of a mode. *)
Definition control_word (c : Channel) (a : AccessMode) (m : OperatingMode) (b : BinaryMode) : Z :=
  Z.lor (Z.lor (Z.lor (u8 (Z.shiftl (ne_code c) 6)) (u8 (Z.shiftl (ne_code a) 4))) (u8 (Z.shiftl (mode_code m) 1)))
    (binary_code b).
End PhysPit.

(** ** The time stamp counter *)

Definition PPCB_T2GATE : Z := Z.shiftl 1 0.
Definition PPCB_SPKR : Z := Z.shiftl 1 1.
Definition PPCB_T2OUT : Z := Z.shiftl 1 5.

(** [x86::time::rdtsc] *)
Class HostTsc {PB : PortBus} := rdtsc : bus -> bus * Z.

(** The devices and the cells [TSC], [TIME_SRC] and [START_TIME]; a time source is its
    frequency. *)
Record HostTime {PB : PortBus} := mkHostTime {
  h_bus : bus;
  TSC : RoAfterInit.t Z;
  TIME_SRC : RoAfterInit.t Z;
  START_TIME : RoAfterInit.t Z
}.

Section tsc.
Context {PB : PortBus} {HT : HostTsc}.

Definition on_bus {A} (m : st bus A) : st HostTime A := fun h =>
  let '(b, r) := m (h_bus h) in (mkHostTime PB b (TSC h) (TIME_SRC h) (START_TIME h), r).

Definition read_tsc : st bus Z := fun s => let '(s', v) := rdtsc s in (s', Ok v).

(** [while (inb(PIT_PS2_CTRL_B) & PPCB_T2OUT) == 0 {}] *)
Definition t2_out (v : Z) : bool := negb (Z.land v PPCB_T2OUT =? 0).

Definition calibrate_tsc (fuel : nat) : st HostTime Z :=
  h ← get;
  if RoAfterInit.is_initialized (TSC h) then err (InvalidValue (str "TSC is already calibrated")) else
  orig ← on_bus (in_port PIT_PS2_CTRL_B);
  _ ← on_bus (out_port PIT_PS2_CTRL_B (Z.lor (Z.land orig (bnot 8 PPCB_SPKR)) PPCB_T2GATE));
  _ ← on_bus (out_port PIT_MODE_CONTROL
        (PhysPit.control_word PhysPit.Channel2 PhysPit.Word PhysPit.Mode0 PhysPit.Binary));
  _ ← on_bus (out_port PIT_COUNTER_2 (u8 (Z.land CALIBRATE_COUNT 0xFF)));
  _ ← on_bus (out_port PIT_COUNTER_2 (u8 (Z.shiftr CALIBRATE_COUNT 8)));
  tsc_start ← on_bus read_tsc;
  _ ← on_bus (poll_until fuel PIT_PS2_CTRL_B t2_out);
  tsc_end ← on_bus read_tsc;
  _ ← on_bus (out_port PIT_PS2_CTRL_B orig);
  let frequency := tsc_frequency tsc_start tsc_end in
  _ ← modify (fun h => mkHostTime PB (h_bus h) (RoAfterInit.init (TSC h) frequency) (TIME_SRC h) (START_TIME h));
  mret frequency.

(** [TIME_SRC.now()]: only the time stamp counter is a time source. *)
Definition host_now : st HostTime Z :=
  h ← get;
  _ ← lift (RoAfterInit.deref (TIME_SRC h));
  on_bus read_tsc.

Definition init_global_time (fuel : nat) : st HostTime unit :=
  source ← calibrate_tsc fuel;
  _ ← modify (fun h => mkHostTime PB (h_bus h) (TSC h) (RoAfterInit.init (TIME_SRC h) source) (START_TIME h));
  t ← host_now;
  modify (fun h => mkHostTime PB (h_bus h) (TSC h) (TIME_SRC h) (RoAfterInit.init (START_TIME h) t)).

Definition system_start_time (h : HostTime) : res Z := RoAfterInit.deref (START_TIME h).
Definition is_global_time_ready (h : HostTime) : bool := RoAfterInit.is_initialized (TIME_SRC h).
Definition frequency (h : HostTime) : res Z := RoAfterInit.deref (TIME_SRC h).
End tsc.

(** *** The counters *)

(** What is known of channel 2: nothing, it was told to expect a word in mode 0, it was told the low byte, or its
    count [count] was completed at the instant [t0] while its gate was on. *)
Inductive T2State := T2Unknown | T2Set | T2Low (lo : Z) | T2Run (t0 count : Z).

(** A counter of [tsc_hz] ticks a second next to an interval timer.  Every access takes at
    least one tick for a port read, at most [access_ticks], and happens at an instant [x] in between.  As the
    data sheet of the 8254 says, a count [N] written in mode 0 is loaded with the next clock
    pulse, which does not decrement it, and the output rises with the pulse [N + 1] after
    the write: between [N] and [N + 1] clock periods after it, depending on the phase of
    the clock at the write.  Counting needs the gate. *)
Class TscPit {PB : PortBus} {HT : HostTsc} := {
  tsc_now : bus -> Z;
  tsc_hz : Z;
  access_ticks : Z;
  ctrl_b : bus -> Z;
  t2 : bus -> T2State;
  tsc_hz_positive : 0 < tsc_hz;
  tp_rdtsc : forall s, exists s' x, rdtsc s = (s', u64 x) /\ tsc_now s <= x <= tsc_now s' /\
    tsc_now s' <= tsc_now s + access_ticks /\ t2 s' = t2 s /\ ctrl_b s' = ctrl_b s;
  tp_in : forall s, exists s' x v, inb PIT_PS2_CTRL_B s = (s', v) /\ tsc_now s <= x < tsc_now s' /\
    tsc_now s' <= tsc_now s + access_ticks /\ t2 s' = t2 s /\ ctrl_b s' = ctrl_b s /\
    Z.land v 3 = ctrl_b s /\
    forall t0 count, t2 s = T2Run t0 count ->
      ((x - t0) * PIT_HZ < count * tsc_hz -> t2_out v = false) /\
      ((count + 1) * tsc_hz <= (x - t0) * PIT_HZ -> t2_out v = true);
  tp_out : forall s p v, exists x, tsc_now s <= x <= tsc_now (outb p v s) /\
    tsc_now (outb p v s) <= tsc_now s + access_ticks /\
    ctrl_b (outb p v s) = (if p =? PIT_PS2_CTRL_B then Z.land v 3 else ctrl_b s) /\
    t2 (outb p v s) =
      (if p =? PIT_MODE_CONTROL then if v =? 0xB0 then T2Set else T2Unknown
       else if p =? PIT_COUNTER_2 then
         match t2 s with
         | T2Set => T2Low v
         | T2Low lo => if bit (ctrl_b s) 0 then T2Run x (lo + 256 * v) else T2Unknown
         | _ => T2Unknown
         end
       else if p =? PIT_PS2_CTRL_B then
         match t2 s with T2Run _ _ => if bit v 0 then t2 s else T2Unknown | t => t end
       else t2 s)
}.

Section accuracy.
Context {PB : PortBus} {HT : HostTsc} {TP : TscPit}.

(** A step of the calibration on the devices. *)
Lemma on_bus_eq {A} (m : st bus A) h b r : m (h_bus h) = (b, r) ->
  on_bus m h = (mkHostTime PB b (TSC h) (TIME_SRC h) (START_TIME h), r).
Proof. unfold on_bus. by intros ->. Qed.

(** Waiting for the output: it ends at a sample with the output high, and at most two
    accesses after an instant at which it may have been low. *)
Lemma wait_output fuel s t0 count :
  t2 s = T2Run t0 count -> (count + 1) * tsc_hz <= (tsc_now s - t0 + Z.of_nat fuel - 1) * PIT_HZ -> (0 < fuel)%nat ->
  exists s' x, poll_until fuel PIT_PS2_CTRL_B t2_out s = (s', Ok tt) /\
    tsc_now s <= x <= tsc_now s' /\ count * tsc_hz <= (x - t0) * PIT_HZ /\
    (tsc_now s' <= tsc_now s + access_ticks \/ (tsc_now s' - 2 * access_ticks - t0) * PIT_HZ < (count + 1) * tsc_hz).
Proof.
  unfold PIT_HZ. revert s. induction fuel as [|fuel IH]; intros s Ht Hf Hpos; [lia|].
  cbn [poll_until]. rewrite st_bind_eq. unfold in_port.
  destruct (tp_in s) as (s1 & x & v & -> & Hx & Hd & H2 & Hc & _ & Ho). destruct (Ho _ _ Ht) as [Hlow Hhigh].
  unfold PIT_HZ in *. destruct (t2_out v) eqn:Ev.
  - exists s1, x. split; [done|]. split; [lia|].
    split; [|by left]. destruct (Z.le_gt_cases (count * tsc_hz) ((x - t0) * 1193182)) as [|Hl]; [done|]. by apply Hlow in Hl.
  - assert ((x - t0) * 1193182 < (count + 1) * tsc_hz) as Hlt.
    { destruct (Z.lt_ge_cases ((x - t0) * 1193182) ((count + 1) * tsc_hz)) as [|Hge]; [done|]. by apply Hhigh in Hge. }
    destruct fuel as [|fuel]; [exfalso; lia|].
    destruct (IH s1) as (s' & x' & E & Hx' & Hdone & Hor); [by rewrite H2|lia|lia|].
    exists s', x'. split; [exact E|]. split; [lia|]. split; [lia|]. right. destruct Hor as [Hor|Hor]; lia.
Qed.

(** The arithmetic of the measured frequency; the counter may wrap around. *)
Lemma tsc_frequency_error x y D :
  x <= y -> 0 <= D -> (y - x) * PIT_HZ < 2 ^ 64 ->
  CALIBRATE_COUNT * tsc_hz - 2 * D * PIT_HZ <= (y - x) * PIT_HZ ->
  (y - x) * PIT_HZ <= (CALIBRATE_COUNT + 1) * tsc_hz + 3 * D * PIT_HZ ->
  let f := tsc_frequency (u64 x) (u64 y) in
  CALIBRATE_COUNT * (tsc_hz - 1000) - 2 * D * PIT_HZ < CALIBRATE_COUNT * f
    <= (CALIBRATE_COUNT + 1) * tsc_hz + 3 * D * PIT_HZ.
Proof.
  intros Hle HD Hov Hlo Hhi. cbv zeta. unfold tsc_frequency, u64, PIT_HZ, CALIBRATE_COUNT in *.
  assert (wrap 64 (wrap 64 y - wrap 64 x) = y - x) as ->.
  { unfold wrap. rewrite <- Zminus_mod. apply Z.mod_small. lia. }
  rewrite (wrap_small 64 ((y - x) * _)) by (unfold is_u; lia).
  set (k := (y - x) * 1193182) in *.
  assert (0 <= k / (0x800 * 1000) * 1000 <= k) by (Z.to_euclidean_division_equations; lia).
  rewrite wrap_small by (unfold is_u; lia). Z.to_euclidean_division_equations. lia.
Qed.

Lemma in_ctrl s : exists s' v, in_port PIT_PS2_CTRL_B s = (s', Ok v) /\ Z.land v 3 = ctrl_b s /\
  tsc_now s <= tsc_now s' <= tsc_now s + access_ticks.
Proof.
  destruct (tp_in s) as (s' & x & v & E & Hx & Hd & _ & _ & Hv & _). exists s', v.
  unfold in_port. rewrite E. split; [done|]. split; [done|]. lia.
Qed.

Lemma read_tsc_step s : exists s' x, read_tsc s = (s', Ok (u64 x)) /\ tsc_now s <= x <= tsc_now s' /\
  tsc_now s' <= tsc_now s + access_ticks /\ t2 s' = t2 s.
Proof.
  destruct (tp_rdtsc s) as (s' & x & E & Hx & Hd & H2 & _). exists s', x. unfold read_tsc. by rewrite E.
Qed.

(** Loading channel 2 with the word [CALIBRATE_COUNT] while its gate is on starts it. *)
Lemma start_channel2 s v :
  bit v 0 = true ->
  let s1 := outb PIT_PS2_CTRL_B v s in
  let s2 := outb PIT_MODE_CONTROL 0xB0 s1 in
  let s3 := outb PIT_COUNTER_2 0 s2 in
  let s4 := outb PIT_COUNTER_2 8 s3 in
  exists t0, t2 s4 = T2Run t0 CALIBRATE_COUNT /\ tsc_now s <= t0 <= tsc_now s4 /\
    tsc_now s4 <= t0 + access_ticks /\ tsc_now s4 <= tsc_now s + 4 * access_ticks.
Proof.
  intros Hb s1 s2 s3 s4.
  destruct (tp_out s PIT_PS2_CTRL_B v) as (x1 & Hx1 & Hd1 & Hc1 & _). fold s1 in Hx1, Hd1, Hc1.
  destruct (tp_out s1 PIT_MODE_CONTROL 0xB0) as (x2 & Hx2 & Hd2 & Hc2 & Ht2). fold s2 in Hx2, Hd2, Hc2, Ht2.
  destruct (tp_out s2 PIT_COUNTER_2 0) as (x3 & Hx3 & Hd3 & Hc3 & Ht3). fold s3 in Hx3, Hd3, Hc3, Ht3.
  destruct (tp_out s3 PIT_COUNTER_2 8) as (x4 & Hx4 & Hd4 & Hc4 & Ht4). fold s4 in Hx4, Hd4, Hc4, Ht4.
  cbn in Hc1, Hc2, Hc3, Ht2, Ht3, Ht4. rewrite Ht2 in Ht3. rewrite Ht3, Hc3, Hc2, Hc1 in Ht4.
  assert (bit (Z.land v 3) 0 = true) as Hb3.
  { rewrite bit_testbit in * by lia. by rewrite Z.land_spec, Hb. }
  rewrite Hb3 in Ht4. exists x4. split; [exact Ht4|]. lia.
Qed.
End accuracy.

(** C35: the calibrated frequency is right up to the resolution of the method.  Whatever the
    counter's true frequency [tsc_hz] (below some eight petahertz, so that the product fits its 64 bits) and its
    present reading, calibration ends once the loop may poll as often as ticks fit in
    the timer's count.  The result is at most one part in 2048 above the truth, for the one clock
    period by which the timer's output may be late, plus the time of three accesses, and
    less than 1000 Hz of rounding plus the time of two accesses below it.  The
    speaker port is left as found, and the counter becomes the time source. *)
Theorem calibrate_tsc_accurate {PB : PortBus} {HT : HostTsc} {TP : TscPit} fuel h :
  TSC h = RoAfterInit.uninitialized ->
  (CALIBRATE_COUNT + 1) * tsc_hz < (Z.of_nat fuel - 1) * PIT_HZ -> 0 <= access_ticks ->
  (CALIBRATE_COUNT + 1) * tsc_hz + 4 * access_ticks * PIT_HZ < 2 ^ 64 ->
  exists b f, calibrate_tsc fuel h = (mkHostTime PB b (Some f) (TIME_SRC h) (START_TIME h), Ok f) /\
    CALIBRATE_COUNT * (tsc_hz - 1000) - 2 * access_ticks * PIT_HZ < CALIBRATE_COUNT * f
      <= (CALIBRATE_COUNT + 1) * tsc_hz + 3 * access_ticks * PIT_HZ /\
    ctrl_b b = ctrl_b (h_bus h).
Proof.
  intros Htsc Hfuel HD Hov. unfold calibrate_tsc. rewrite st_bind_eq. unfold get. rewrite Htsc.
  change (RoAfterInit.is_initialized RoAfterInit.uninitialized) with false. cbv beta iota.
  destruct (in_ctrl (h_bus h)) as (b1 & orig & E1 & Ho & Hd1).
  rewrite st_bind_eq, (on_bus_eq _ _ _ _ E1). set (v := Z.lor _ _).
  assert (bit v 0 = true) as Hv.
  { subst v. rewrite bit_testbit by lia. rewrite Z.lor_spec. apply orb_true_r. }
  destruct (start_channel2 b1 v Hv) as (t0 & Ht2 & Ht0 & Hd4 & Hd4'). set (b5 := outb PIT_COUNTER_2 8 _) in *.
  do 4 (rewrite st_bind_eq; unfold on_bus at 1; cbn [out_port h_bus TSC TIME_SRC START_TIME]).
  change (outb _ _ _) with b5 at 1.
  destruct (read_tsc_step b5) as (b6 & x6 & E6 & Hx6 & Hd6 & H26).
  rewrite st_bind_eq. erewrite on_bus_eq by exact E6. cbn [h_bus TSC TIME_SRC START_TIME].
  destruct (wait_output fuel b6 t0 CALIBRATE_COUNT) as (b7 & x7 & E7 & Hx7 & Hdone & Hor);
    [by rewrite H26|unfold PIT_HZ in *; lia|unfold PIT_HZ, CALIBRATE_COUNT in *; pose proof tsc_hz_positive; lia|].
  rewrite st_bind_eq. erewrite on_bus_eq by exact E7. cbn [h_bus TSC TIME_SRC START_TIME].
  destruct (read_tsc_step b7) as (b8 & x8 & E8 & Hx8 & Hd8 & _).
  rewrite st_bind_eq. erewrite on_bus_eq by exact E8. cbn [h_bus TSC TIME_SRC START_TIME].
  destruct (tp_out b8 PIT_PS2_CTRL_B orig) as (_ & _ & _ & Hc & _). cbn in Hc.
  exists (outb PIT_PS2_CTRL_B orig b8), (tsc_frequency (u64 x6) (u64 x8)).
  split; [reflexivity|]. split; [|by rewrite Hc].
  pose proof tsc_hz_positive. unfold PIT_HZ, CALIBRATE_COUNT in *.
  apply tsc_frequency_error; unfold PIT_HZ, CALIBRATE_COUNT; try done; destruct Hor; lia.
Qed.

(** A machine whose accesses take one tick each of a counter as fast as the timer. *)
Record ToyBus := mkToy { toy_now : Z; toy_ctrl : Z; toy_t2 : T2State }.

Definition toy_time (s : ToyBus) : Z := Z.max 0 (toy_now s).
Definition toy_advance (s : ToyBus) : ToyBus := mkToy (toy_time s + 1) (toy_ctrl s) (toy_t2 s).
Definition toy_output (s : ToyBus) : bool :=
  match toy_t2 s with
  | T2Run t0 count => (count + 1) * PIT_HZ <=? (toy_time s - t0) * PIT_HZ
  | _ => false
  end.
Definition toy_write (p v : Z) (s : ToyBus) : ToyBus :=
  mkToy (toy_time s + 1) (if p =? PIT_PS2_CTRL_B then v else toy_ctrl s)
    (if p =? PIT_MODE_CONTROL then if v =? 0xB0 then T2Set else T2Unknown
     else if p =? PIT_COUNTER_2 then
       match toy_t2 s with
       | T2Set => T2Low v
       | T2Low lo => if bit (Z.land (toy_ctrl s) 3) 0 then T2Run (toy_time s) (lo + 256 * v) else T2Unknown
       | _ => T2Unknown
       end
     else if p =? PIT_PS2_CTRL_B then
       match toy_t2 s with T2Run _ _ => if bit v 0 then toy_t2 s else T2Unknown | t => t end
     else toy_t2 s).

Definition toy_bus : PortBus := {|
  bus := ToyBus;
  inb p s := (toy_advance s, Z.lor (Z.land (toy_ctrl s) 3) (if toy_output s then 32 else 0));
  outb := toy_write |}.
Definition toy_tsc : @HostTsc toy_bus := fun s : ToyBus => (toy_advance s, u64 (toy_time s)).

#[refine] Instance toy_pit : @TscPit toy_bus toy_tsc := {|
  tsc_now := fun s : @bus toy_bus => toy_time s; tsc_hz := PIT_HZ; access_ticks := 1;
  ctrl_b := fun s : @bus toy_bus => Z.land (toy_ctrl s) 3;
  t2 := fun s : @bus toy_bus => toy_t2 s |}.
Proof.
  all: unfold toy_time.
  - reflexivity.
  - intros s. exists (toy_advance s), (toy_time s). unfold toy_advance, toy_time. cbn. split; [done|]. split; [lia|]. split; [lia|done].
  - intros s. eexists (toy_advance s), (toy_time s), _. split; [reflexivity|].
    unfold toy_advance, toy_time; cbn [toy_now toy_ctrl toy_t2]. split; [lia|]. split; [lia|]. split; [done|]. split; [done|]. split.
    + rewrite Z.land_lor_distr_l, <- Z.land_assoc. change (Z.land 3 3) with 3. by destruct (toy_output s); rewrite Z.lor_0_r.
    + intros t0 count Ht. unfold t2_out, toy_output. rewrite Ht. unfold toy_time, PPCB_T2OUT.
      change (Z.shiftl 1 5) with 32. rewrite Z.land_lor_distr_l, <- Z.land_assoc. change (Z.land 3 32) with 0.
      rewrite Z.land_0_r. unfold PIT_HZ. destruct (Z.leb_spec ((count + 1) * 1193182) ((Z.max 0 (toy_now s) - t0) * 1193182)).
      * split; [lia|done].
      * split; [done|lia].
  - intros s p v. exists (toy_time s). cbn. unfold toy_write, toy_time. cbn. split; [lia|]. split; [lia|].
    split; [by destruct (p =? _)|]. done.
Defined.

Lemma calibrate_tsc_accurate_witness :
  exists b f, @calibrate_tsc toy_bus toy_tsc 2060 (mkHostTime toy_bus (mkToy 100 1 T2Unknown) None None None) =
    (mkHostTime toy_bus b (Some f) None None, Ok f) /\ PIT_HZ - 4000 < f < PIT_HZ + 3000.
Proof.
  destruct (@calibrate_tsc_accurate toy_bus toy_tsc toy_pit 2060 (mkHostTime toy_bus (mkToy 100 1 T2Unknown) None None None))
    as (b & f & E & Hf & _).
  - reflexivity.
  - vm_compute. reflexivity.
  - vm_compute. discriminate.
  - vm_compute. reflexivity.
  - exists b, f. split; [exact E|]. cbn [tsc_hz access_ticks toy_pit] in Hf. unfold CALIBRATE_COUNT, PIT_HZ in *. lia.
Defined.

(** ** The local APIC *)

Definition IA32_X2APIC_APICID : Z := 0x802.
Definition IA32_X2APIC_VERSION : Z := 0x803.
Definition IA32_X2APIC_CUR_COUNT : Z := 0x839.

(** The hardware of a core with its MSR writes in time: each comes with the number of clock
    readings taken before it. *)
Record ApicHw := mkApicHw { ah_core : CoreHw; ah_log : list (nat * (Z * Z)) }.

(** [CpuId::get_feature_info] with [has_x2apic], and the MSRs read, as a function of the
    core's hardware. *)
Class ApicCpu := {
  feature_x2apic : option bool;
  apic_rdmsr : Z -> ApicHw -> Z
}.

Record ApicCore := mkApicCore { ac_hw : ApicHw; LOCAL_APIC : option LocalApic }.

Section local_apic.
Context {TS : TimeSource} {AC : ApicCpu}.

Definition on_hw {A} (m : st ApicHw A) : st ApicCore A := fun s =>
  let '(hw, r) := m (ac_hw s) in (mkApicCore hw (LOCAL_APIC s), r).

(** A step of the core, its writes stamped with the time. *)
Definition timed {A} (m : st CoreHw A) : st ApicHw A := fun h =>
  let '(hw, r) := m (ah_core h) in
  (mkApicHw hw (ah_log h ++ (pair (hw_pos (ah_core h)) <$> drop (length (msr_writes (ah_core h))) (msr_writes hw))), r).

Definition rdmsr (m : Z) : st ApicHw Z := fun h => (h, Ok (apic_rdmsr m h)).

Definition get_local_apic (s : ApicCore) : res LocalApic :=
  expect (LOCAL_APIC s) "Attempt to get local APIC before initialization".

Definition apic_id : st ApicHw Z := v ← rdmsr IA32_X2APIC_APICID; mret (u32 v).
Definition apic_logical_id : st ApicHw Z := v ← rdmsr IA32_X2APIC_APICID; mret (logical_id v).
Definition esr : st ApicHw Z := rdmsr IA32_X2APIC_ESR.
Definition icr : st ApicHw Z := rdmsr IA32_X2APIC_ICR.
Definition apic_version : st ApicHw Z := v ← rdmsr IA32_X2APIC_VERSION; mret (u32 v).
Definition raw_base (a : LocalApic) : Z := base_reg a.

Definition calibrate_timer (fuel : nat) (a : LocalApic) : st ApicHw LocalApic :=
  let start_tick := 0xFFFFFFFF in
  _ ← timed (wrmsr IA32_X2APIC_DIV_CONF 0x3);
  _ ← timed (wrmsr IA32_X2APIC_INIT_COUNT start_tick);
  _ ← timed (busy_wait fuel 1000000);
  _ ← timed (wrmsr IA32_X2APIC_LVT_TIMER (Z.shiftl 1 16));
  curr_tick ← rdmsr IA32_X2APIC_CUR_COUNT;
  mret (mkLocalApic (base_reg a) (u64 (start_tick - curr_tick))).

Definition local_apic_init (fuel : nat) : st ApicCore LocalApic :=
  _ ← match feature_x2apic with
      | Some has => if negb has then err NotSupported else mret tt
      | None => err NotSupported
      end;
  raw ← on_hw (rdmsr IA32_APIC_BASE);
  _ ← (if Z.land raw IA32_APIC_BASE_EXD =? 0
       then on_hw (timed (wrmsr IA32_APIC_BASE (Z.lor (Z.lor raw IA32_APIC_BASE_EN) IA32_APIC_BASE_EXD)))
       else mret tt);
  base ← on_hw (rdmsr IA32_APIC_BASE);
  _ ← on_hw (timed (wrmsr IA32_X2APIC_SIVR (Z.shiftl 1 8)));
  _ ← on_hw (timed clear_esr);
  apic ← on_hw (calibrate_timer fuel (mkLocalApic base 0));
  _ ← modify (fun s => mkApicCore (ac_hw s) (Some apic));
  mret apic.
End local_apic.

(** When and with what the timer was last loaded, with a divisor of 16 set before. *)
Definition timer_step (t : bool * option (nat * Z)) (w : nat * (Z * Z)) : bool * option (nat * Z) :=
  let '(pos, (m, v)) := w in
  if m =? IA32_X2APIC_DIV_CONF then (v =? 3, None)
  else if m =? IA32_X2APIC_INIT_COUNT then (t.1, if t.1 then Some (pos, v) else None)
  else t.
Definition timer_loaded (log : list (nat * (Z * Z))) : option (nat * Z) := (foldl timer_step (false, None) log).2.

(** The APIC base register keeps what is written.  The timer, once loaded, counts down at
    its own rate: [apic_ticks (S n)] is the number of its ticks (divided by 16) at the
    clock's reading [n], so that what happens after [n] readings happens between
    [apic_ticks n] and [apic_ticks (S n)]; until it may have reached zero the current count is the count loaded
    less the ticks since. *)
Class ApicCpuLaws {AC : ApicCpu} := {
  apic_base_kept : forall hw log pos v, apic_rdmsr IA32_APIC_BASE (mkApicHw hw (log ++ [(pos, (IA32_APIC_BASE, v))])) = v;
  apic_ticks : nat -> Z;
  apic_ticks_monotone : forall n m, (n <= m)%nat -> apic_ticks n <= apic_ticks m;
  cur_count : forall h p v,
    let q := hw_pos (ah_core h) in
    timer_loaded (ah_log h) = Some (p, v) -> is_u 32 v -> (p <= q)%nat -> apic_ticks (S q) - apic_ticks p <= v ->
    v - (apic_ticks (S q) - apic_ticks p) <= apic_rdmsr IA32_X2APIC_CUR_COUNT h <= v - (apic_ticks q - apic_ticks (S p))
}.

Section local_apic_init.
Context {TS : TimeSource} {TL : TimeSourceLaws} {AC : ApicCpu} {AL : ApicCpuLaws}.

(** The MSRs a successful initialisation writes, [p] and [q] clock readings after the start. *)
Definition init_writes (raw : Z) (p q : nat) : list (nat * (Z * Z)) :=
  (if Z.land raw IA32_APIC_BASE_EXD =? 0
   then [(p, (IA32_APIC_BASE, Z.lor (Z.lor raw IA32_APIC_BASE_EN) IA32_APIC_BASE_EXD))] else []) ++
  [(p, (IA32_X2APIC_SIVR, 0x100)); (p, (IA32_X2APIC_ESR, 0)); (p, (IA32_X2APIC_DIV_CONF, 3));
   (p, (IA32_X2APIC_INIT_COUNT, 0xFFFFFFFF)); (q, (IA32_X2APIC_LVT_TIMER, 0x10000))].

Lemma timed_wrmsr m v h :
  timed (wrmsr m v) h =
  (mkApicHw (mkHw (hw_pos (ah_core h)) (msr_writes (ah_core h) ++ [(m, v)])) (ah_log h ++ [(hw_pos (ah_core h), (m, v))]), Ok tt).
Proof. unfold timed, wrmsr. cbn [hw_pos msr_writes]. by rewrite drop_app_length. Qed.

(** What one millisecond of the clock after reading [p] is, in clock and in timer ticks. *)
Definition measured (p n : nat) (ticks : Z) : Prop :=
  let ms := ts_frequency * 1000000 / 1000000000 in
  ms <= ts_reading (S p + n) - ts_reading p /\
  (forall j, (j < n)%nat -> ts_reading (S p + j) - ts_reading p < ms) /\
  apic_ticks (S (S p + n)) - apic_ticks (S p) <= ticks <= apic_ticks (S (S (S p + n))) - apic_ticks p.

Lemma timer_calibration fuel k a h :
  let p := hw_pos (ah_core h) in
  let deadline := ts_reading p + ts_frequency * 1000000 / 1000000000 in
  deadline < 2 ^ 64 -> deadline <= ts_reading (S p + k) -> (k < fuel)%nat ->
  apic_ticks (S (S (S p + k))) - apic_ticks p <= 0xFFFFFFFF ->
  exists n ws ticks, calibrate_timer fuel a h =
    (mkApicHw (mkHw (S p + S n) ws) (ah_log h ++ [(p, (IA32_X2APIC_DIV_CONF, 3));
       (p, (IA32_X2APIC_INIT_COUNT, 0xFFFFFFFF)); ((S p + S n)%nat, (IA32_X2APIC_LVT_TIMER, 0x10000))]),
     Ok (mkLocalApic (base_reg a) ticks)) /\
    (n <= k)%nat /\ measured p n ticks.
Proof.
  cbv zeta. intros Hov Hk Hf Hticks. set (p := hw_pos (ah_core h)) in *.
  set (ws := (msr_writes (ah_core h) ++ [(IA32_X2APIC_DIV_CONF, 3)]) ++ [(IA32_X2APIC_INIT_COUNT, 0xFFFFFFFF)]).
  destruct (busy_wait_spec fuel 1000000 k (mkHw p ws)) as (n & Hn & Hb & Hr & Hall);
    [unfold is_duration; lia|exact Hov|exact Hk|exact Hf|].
  cbn [hw_pos msr_writes] in Hb, Hr, Hall.
  set (h' := mkApicHw (mkHw (S p + S n) (ws ++ [(IA32_X2APIC_LVT_TIMER, 0x10000)])) (ah_log h ++
    [(p, (IA32_X2APIC_DIV_CONF, 3)); (p, (IA32_X2APIC_INIT_COUNT, 0xFFFFFFFF)); ((S p + S n)%nat, (IA32_X2APIC_LVT_TIMER, 0x10000))])).
  assert (timer_loaded (ah_log h') = Some (p, 0xFFFFFFFF)) as Hl by (unfold timer_loaded; cbn [h' ah_log]; by rewrite foldl_app).
  pose proof (apic_ticks_monotone (S (S (S p + n))) (S (S (S p + k)))) as Hm.
  pose proof (apic_ticks_monotone (S p) (S (S p + n))) as Hm'.
  pose proof (cur_count h' p 0xFFFFFFFF) as Hc. cbn [h' ah_core hw_pos] in Hc. fold h' in Hc. cbv zeta in Hc.
  rewrite !Nat.add_succ_r in *.
  destruct Hc as [Hc1 Hc2]; [exact Hl|unfold is_u; lia|lia|lia|].
  exists n, (ws ++ [(IA32_X2APIC_LVT_TIMER, 0x10000)]), (u64 (0xFFFFFFFF - apic_rdmsr IA32_X2APIC_CUR_COUNT h')).
  split; [|split; [exact Hn|split; [exact Hr|split; [exact Hall|]]]].
  - unfold calibrate_timer. do 2 (rewrite st_bind_eq, timed_wrmsr; cbn [ah_core ah_log hw_pos msr_writes]).
    rewrite st_bind_eq. unfold timed at 1. cbn [ah_core ah_log]. fold p ws. rewrite Hb. cbn [msr_writes].
    rewrite drop_all, fmap_nil, app_nil_r, st_bind_eq, timed_wrmsr. cbn [ah_core ah_log hw_pos msr_writes].
    rewrite st_bind_eq. unfold rdmsr at 1. rewrite <- !app_assoc. cbn [app]. change (Z.shiftl 1 16) with 0x10000.
    unfold h', ws. rewrite <- !app_assoc, !Nat.add_succ_r. done.
  - unfold u64. rewrite wrap_small by (unfold is_u; lia). lia.
Qed.

(** The x2APIC is enabled in the base register [init] ends up with. *)
Definition x2apic_enabled (base : Z) : Prop :=
  Z.land base IA32_APIC_BASE_EXD <> 0 /\ Z.land base IA32_APIC_BASE_EN <> 0.

Lemma enable_bits raw : x2apic_enabled (Z.lor (Z.lor raw IA32_APIC_BASE_EN) IA32_APIC_BASE_EXD).
Proof.
  split; intros H; [apply (f_equal (fun z => Z.testbit z 10)) in H|apply (f_equal (fun z => Z.testbit z 11)) in H];
    revert H; unfold IA32_APIC_BASE_EXD, IA32_APIC_BASE_EN;
    rewrite Z.land_spec, !Z.lor_spec, !testbit_single by lia; cbn; rewrite ?orb_true_r; done.
Qed.

(** The first step: x2APIC mode is on afterwards. *)
Lemma enable_x2apic raw h l :
  raw = apic_rdmsr IA32_APIC_BASE h ->
  (Z.land raw IA32_APIC_BASE_EXD <> 0 -> Z.land raw IA32_APIC_BASE_EN <> 0) ->
  exists ws log, (if Z.land raw IA32_APIC_BASE_EXD =? 0
     then on_hw (timed (wrmsr IA32_APIC_BASE (Z.lor (Z.lor raw IA32_APIC_BASE_EN) IA32_APIC_BASE_EXD)))
     else mret tt) (mkApicCore h l) = (mkApicCore (mkApicHw (mkHw (hw_pos (ah_core h)) ws) (ah_log h ++ log)) l, Ok tt) /\
    log = (if Z.land raw IA32_APIC_BASE_EXD =? 0
      then [(hw_pos (ah_core h), (IA32_APIC_BASE, Z.lor (Z.lor raw IA32_APIC_BASE_EN) IA32_APIC_BASE_EXD))] else []) /\
    x2apic_enabled (apic_rdmsr IA32_APIC_BASE (mkApicHw (mkHw (hw_pos (ah_core h)) ws) (ah_log h ++ log))).
Proof.
  intros Hraw Hvalid. destruct (Z.eqb_spec (Z.land raw IA32_APIC_BASE_EXD) 0) as [Hz|Hne].
  - eexists _, _. split; [|split; [reflexivity|]].
    + unfold on_hw. cbn [ac_hw LOCAL_APIC]. by rewrite timed_wrmsr.
    + rewrite apic_base_kept. apply enable_bits.
  - destruct h as [[pos ws] lg]. exists ws, []. rewrite app_nil_r. cbn [ah_core ah_log hw_pos] in *. split; [done|]. split; [done|].
    rewrite <- Hraw. split; [exact Hne|]. exact (Hvalid Hne).
Qed.
End local_apic_init.

(** C36: the local APIC ends up enabled and calibrated.  Without x2APIC support nothing
    is touched.  With it, on a core whose base register is in a valid state, the registers are
    written in the order the manual requires, the base register the core keeps has x2APIC mode
    enabled, and the timer is measured: it is started before the first and read after the last reading of a
    clock that is polled until a millisecond has passed and no longer, and the result is
    the number of its ticks in between, at least those between these two readings and
    at most those up to the clock readings around them.  The clock must get to the deadline
    ([k] further readings), which must fit 64 bits, before the timer's 32-bit counter runs out. *)
Theorem local_apic_init_correct {TS : TimeSource} {TL : TimeSourceLaws} {AC : ApicCpu} {AL : ApicCpuLaws} fuel k s :
  let h := ac_hw s in
  let p := hw_pos (ah_core h) in
  let raw := apic_rdmsr IA32_APIC_BASE h in
  let deadline := ts_reading p + ts_frequency * 1000000 / 1000000000 in
  (Z.land raw IA32_APIC_BASE_EXD <> 0 -> Z.land raw IA32_APIC_BASE_EN <> 0) ->
  deadline < 2 ^ 64 -> deadline <= ts_reading (S p + k) -> (k < fuel)%nat ->
  apic_ticks (S (S (S p + k))) - apic_ticks p <= 0xFFFFFFFF ->
  match feature_x2apic with
  | Some true => exists n ws a, local_apic_init fuel s =
      (mkApicCore (mkApicHw (mkHw (S p + S n) ws) (ah_log h ++ init_writes raw p (S p + S n))) (Some a), Ok a) /\
      x2apic_enabled (base_reg a) /\ measured p n (ticks_per_ms a)
  | _ => local_apic_init fuel s = (s, Err NotSupported)
  end.
Proof.
  cbv zeta. intros Hvalid Hov Hk Hf Ht. unfold local_apic_init. destruct feature_x2apic as [[]|]; [|done..].
  rewrite st_bind_eq. cbn [negb]. unfold mret at 1, st_ret at 1. rewrite st_bind_eq. unfold on_hw at 1, rdmsr at 1.
  set (raw := apic_rdmsr IA32_APIC_BASE (ac_hw s)) in *. set (p := hw_pos (ah_core (ac_hw s))) in *.
  destruct (enable_x2apic raw (ac_hw s) (LOCAL_APIC s) eq_refl Hvalid) as (ws & log & Ew & Hlog & Hen).
  rewrite st_bind_eq, Ew. clear Ew. rewrite st_bind_eq. unfold on_hw at 1, rdmsr at 1. cbn [ac_hw LOCAL_APIC].
  fold p in Hlog, Hen. fold p. set (base := apic_rdmsr IA32_APIC_BASE (mkApicHw _ _)) in *.
  do 2 (rewrite st_bind_eq; unfold on_hw at 1; cbn [ac_hw LOCAL_APIC]; unfold clear_esr; rewrite timed_wrmsr;
    cbn [ah_core ah_log hw_pos msr_writes]).
  rewrite st_bind_eq. unfold on_hw at 1. cbn [ac_hw LOCAL_APIC].
  match goal with |- context [calibrate_timer fuel ?a ?h] =>
    destruct (timer_calibration fuel k a h Hov Hk Hf Ht) as (n & ws' & ticks & E & Hn & Hm); rewrite E end.
  cbn [ah_core ah_log hw_pos base_reg] in *.
  exists n, ws', (mkLocalApic base ticks). split; [|split; [exact Hen|exact Hm]].
  cbn. unfold mret, st_ret, init_writes. rewrite Hlog, <- !app_assoc. done.
Qed.

(** A processor with x2APIC whose timer makes ten thousand ticks per clock reading. *)
Definition toy_apic : ApicCpu := {|
  feature_x2apic := Some true;
  apic_rdmsr m h :=
    if m =? IA32_APIC_BASE then
      match list_find (fun w => fst (snd w) = IA32_APIC_BASE) (reverse (ah_log h)) with
      | Some (_, (_, (_, v))) => v
      | None => 0xfee00900
      end
    else match timer_loaded (ah_log h) with
         | Some (p, v) => v - 10000 * (Z.of_nat (hw_pos (ah_core h)) - Z.of_nat p)
         | None => 0
         end |}.

#[export, refine] Instance toy_apic_laws : @ApicCpuLaws toy_apic := {| apic_ticks n := 10000 * Z.of_nat n |}.
Proof.
  - intros hw log pos v. cbn [apic_rdmsr toy_apic]. rewrite Z.eqb_refl. cbn [ah_log]. by rewrite reverse_snoc.
  - intros n m Hnm. lia.
  - intros h p v q Hl Hv Hpq Ht. cbn [apic_rdmsr toy_apic]. destruct (_ =? _) eqn:E; [discriminate E|].
    rewrite Hl. fold q. lia.
Defined.

Lemma local_apic_init_correct_witness :
  exists n ws a, @local_apic_init slow_clock toy_apic 5 (mkApicCore (mkApicHw (mkHw 0 []) []) None) =
    (mkApicCore (mkApicHw (mkHw (1 + S n) ws) (init_writes 0xfee00900 0 (1 + S n))) (Some a), Ok a) /\
    x2apic_enabled (base_reg a) /\ 10000 <= ticks_per_ms a.
Proof.
  destruct (@local_apic_init_correct slow_clock _ toy_apic toy_apic_laws 5 2 (mkApicCore (mkApicHw (mkHw 0 []) []) None))
    as (n & ws & a & E & Hx & Hm).
  - vm_compute. intros []. reflexivity.
  - vm_compute. reflexivity.
  - vm_compute. discriminate.
  - lia.
  - vm_compute. discriminate.
  - exists n, ws, a. split; [exact E|]. split; [exact Hx|]. destruct Hm as (_ & _ & Ht & _).
    cbn [apic_ticks toy_apic_laws ac_hw ah_core hw_pos] in Ht. lia.
Defined.
