(* ===== verification/Boot.v ===== *)
(** * Boot information and the heap ([mythril/src/multiboot.rs], [mythril/src/multiboot2.rs],
    [mythril/src/boot_info.rs], [mythril/src/global_alloc.rs])

    The crates that parse what the boot loader left are parameters: [Multiboot] and
    [Multiboot2] are what they report.  From it the code chooses the region of its heap,
    and collects the boot modules and the ACPI root pointer. *)

From S2P Require Import Prelude Error Memory VmMemory Acpi.

(** ** What the boot loaders report *)

(** Memory regions with [MemoryType::Available] or not, and modules of multiboot 1. *)
Record MbRegion := mkRegion { region_base : Z; region_length : Z; region_available : bool }.
Record MbModule := mkMbModule { mb_start : Z; mb_end : Z; mb_string : option string }.
Record Multiboot := mkMultiboot {
  memory_regions : option (list MbRegion);
  mb_modules : option (list MbModule)
}.

(** The tags of multiboot 2; [memory_areas] are the available areas. *)
Record RsdpTag := mkRsdpTag { tag_checksum_is_valid : bool; tag_address : Z; tag_oem_id : option (list Z) }.
Record Multiboot2 := mkMultiboot2 {
  memory_areas : option (list (Z * Z));
  module_tags : list (Z * Z * string);
  elf_sections : option (list (Z * Z));
  info_start : Z;
  info_end : Z;
  rsdp_v2_tag : option RsdpTag;
  rsdp_v1_tag : option RsdpTag
}.

(** ** The region of the heap *)

(** [Iterator::max_by] on a key: the last of several maxima. *)
Definition max_by {A} (key : A -> Z) (l : list A) : option A :=
  match l with
  | [] => None
  | x :: r => Some (foldl (fun acc y => if key acc >? key y then acc else y) x r)
  end.

(** The common end of both [setup_global_alloc_region]s. *)
Definition choose_alloc_region (excluded available : list (Z * Z)) : res (Z * Z) :=
  max_excluded ← expect (max_by snd excluded) "No max excluded region";
  largest_region ← expect (max_by (fun r => u64 (snd r - fst r)) available) "No largest region";
  if fst largest_region >? snd max_excluded then Ok largest_region
  else if (snd max_excluded >? fst largest_region) && (snd max_excluded <? snd largest_region)
  then Ok (snd max_excluded, snd largest_region)
  else Panic "Unable to find suitable global alloc region".

Definition region_bounds (r : MbRegion) : option (Z * Z) :=
  if region_available r then Some (region_base r, u64 (region_base r + region_length r)) else None.

(** multiboot 1; [END_OF_BINARY] is the address of the last byte of the binary. *)
Definition setup_global_alloc_region1 (END_OF_BINARY : Z) (info : Multiboot) : res (Z * Z) :=
  regions ← expect (memory_regions info) "Missing multiboot memory regions";
  mods ← expect (mb_modules info) "No multiboot modules found";
  let available := omap region_bounds regions in
  let excluded := map (fun m => (mb_start m, mb_end m)) mods ++ [(0, END_OF_BINARY)] in
  choose_alloc_region excluded available.

Definition setup_global_alloc_region2 (info : Multiboot2) : res (Z * Z) :=
  available ← expect (memory_areas info) "Missing multiboot memory map tag";
  sections ← expect (elf_sections info) "Missing multiboot elf sections tag";
  let excluded := map fst (module_tags info) ++ sections ++ [(info_start info, info_end info)] in
  choose_alloc_region excluded available.

(** ** The global allocator *)

(** [linked_list_allocator::LockedHeap]: [LockedHeap::new(heap_bottom, heap_size)], and the
    bounds of the memory a heap hands out. *)
Class LockedHeap := {
  heap : Type;
  heap_new : Z -> Z -> heap;
  heap_alloc : heap -> Z -> Z -> heap * Z;
  heap_dealloc : heap -> Z -> Z -> Z -> heap;
  heap_bounds : heap -> Z * Z;
  heap_new_bounds : forall bottom size, heap_bounds (heap_new bottom size) = (bottom, bottom + size)
}.

Inductive Allocator {LH : LockedHeap} := Unavailable | Available (h : heap).

Section boot.
Context {LH : LockedHeap}.

Definition allocate_from (start end_ : Z) : st Allocator unit := fun a =>
  match a with
  | Unavailable => (Available (heap_new start end_), Ok tt)
  | Available _ => (a, Panic "Allocator has already been initialized")
  end.

(** [GlobalAlloc::alloc], [GlobalAlloc::dealloc] for a layout of [size] and [align]. *)
Definition global_alloc (size align : Z) : st Allocator Z := fun a =>
  match a with
  | Unavailable => (a, Ok 0)
  | Available h => let '(h', p) := heap_alloc h size align in (Available h', Ok p)
  end.
Definition global_dealloc (ptr size align : Z) : st Allocator unit := fun a =>
  match a with
  | Unavailable => (a, Ok tt)
  | Available h => (Available (heap_dealloc h ptr size align), Ok tt)
  end.

(** ** [BootInfo] *)

Record RawModule := mkRawModule { raw_identifier : option string; raw_address : Z; raw_size : Z }.
Record BootInfo := mkBootInfo { boot_modules : list RawModule; boot_rsdp : option RSDP }.
Definition boot_info_default : BootInfo := mkBootInfo [] None.

(** [BootModule::data] in the memory [mem]. *)
Definition raw_module_data (mem : Z -> Z) (m : RawModule) : list Z :=
  raw_parts mem (raw_address m) (Z.to_nat (raw_size m)).

(** The modules as the rest of the hypervisor reads them. *)
Definition boot_module (mem : Z -> Z) (m : RawModule) : BootModule :=
  mkModule (raw_identifier m) (raw_module_data mem m).

Definition early_init_multiboot (END_OF_BINARY : Z) (info : res Multiboot) : st Allocator BootInfo :=
  info ← lift info;
  alloc_region ← lift (setup_global_alloc_region1 END_OF_BINARY info);
  _ ← allocate_from (fst alloc_region) (snd alloc_region);
  mods ← lift (expect (mb_modules info) "No multiboot modules found");
  mret (mkBootInfo
    (map (fun m => mkRawModule (mb_string m) (mb_start m) (u64 (mb_end m - mb_start m))) mods) None).

(** [oemid.copy_from_slice(id.as_bytes())] into six bytes. *)
Definition copy_oemid (id : option (list Z)) : res (list Z) :=
  match id with
  | None => Ok (replicate 6 0)
  | Some id => if bool_decide (length id = 6%nat) then Ok id
               else Panic "source slice length does not match destination slice length"
  end.

Definition valid_tag (tag : option RsdpTag) : option RsdpTag :=
  t ← tag; if tag_checksum_is_valid t then Some t else None.

Definition choose_rsdp (info : Multiboot2) : res (option RSDP) :=
  match valid_tag (rsdp_v2_tag info) with
  | Some t => oemid ← copy_oemid (tag_oem_id t); Ok (Some (RsdpV2 oemid (tag_address t)))
  | None =>
      match valid_tag (rsdp_v1_tag info) with
      | Some t => oemid ← copy_oemid (tag_oem_id t); Ok (Some (RsdpV1 oemid (u32 (tag_address t))))
      | None => Ok None
      end
  end.

Definition early_init_multiboot2 (info : Multiboot2) : st Allocator BootInfo :=
  alloc_region ← lift (setup_global_alloc_region2 info);
  _ ← allocate_from (fst alloc_region) (snd alloc_region);
  let mods := map (fun t => mkRawModule (Some (snd t)) (fst (fst t)) (u32 (snd (fst t) - fst (fst t)))) (module_tags info) in
  rsdp ← lift (choose_rsdp info);
  mret (mkBootInfo mods rsdp).

(** [kmain_early]: the flags the start-up code sets say which loader ran; each
    loader's information is at the address it passed. *)
Definition kmain_early (IS_MULTIBOOT_BOOT IS_MULTIBOOT2_BOOT END_OF_BINARY : Z)
    (info1 : res Multiboot) (info2 : Multiboot2) : st Allocator BootInfo :=
  if IS_MULTIBOOT_BOOT =? 1 then early_init_multiboot END_OF_BINARY info1
  else if IS_MULTIBOOT2_BOOT =? 1 then early_init_multiboot2 info2
  else panic "Unknown boot method".
End boot.

(** ** The chosen region *)

Lemma max_by_spec {A} (key : A -> Z) l m :
  max_by key l = Some m -> m ∈ l /\ forall x, x ∈ l -> key x <= key m.
Proof.
  destruct l as [|x r]; [done|]. cbn. intros [= <-]. revert x. induction r as [|y r IH]; intros x; cbn.
  - split; [left|]. intros z [->|[]%not_elem_of_nil]%elem_of_cons. lia.
  - destruct (IH (if key x >? key y then x else y)) as [Hin Hle]. set (m := foldl _ _ r) in *.
    rewrite Z.gtb_ltb in *. destruct (Z.ltb_spec (key y) (key x)); split.
    + apply elem_of_cons in Hin as [->|?]; [left|by right; right].
    + intros z [->|[->|Hz]%elem_of_cons]%elem_of_cons; [apply Hle; left| |by apply Hle; right].
      specialize (Hle x ltac:(left)). lia.
    + by right.
    + intros z [->|[->|Hz]%elem_of_cons]%elem_of_cons; [|apply Hle; left|by apply Hle; right].
      specialize (Hle y ltac:(left)). lia.
Qed.

Lemma max_by_nonempty {A} (key : A -> Z) l : l <> [] -> exists m, max_by key l = Some m.
Proof. destruct l; [done|]. intros _. cbn. eauto. Qed.

(** Regions as the firmware reports them: they do not wrap around. *)
Definition wf_region (r : Z * Z) : Prop := 0 <= fst r /\ fst r <= snd r < 2 ^ 64.

#[export] Instance wf_region_dec r : Decision (wf_region r).
Proof. unfold wf_region. apply _. Defined.

(** A chosen region is inside the largest available one, and above everything excluded. *)
Definition good_region (excluded available : list (Z * Z)) (r : Z * Z) : Prop :=
  (exists big, big ∈ available /\ fst big <= fst r /\ fst r <= snd r /\ snd r = snd big /\
     forall other, other ∈ available -> snd other - fst other <= snd big - fst big) /\
  forall e, e ∈ excluded -> snd e <= fst r.

Lemma choose_alloc_region_good excluded available r :
  Forall wf_region available -> choose_alloc_region excluded available = Ok r -> good_region excluded available r.
Proof.
  intros Hwf. unfold choose_alloc_region.
  destruct (max_by snd excluded) as [mx|] eqn:Em; [|done].
  destruct (max_by (fun r => u64 (snd r - fst r)) available) as [big|] eqn:Eb; [|done]. cbn.
  apply max_by_spec in Em as [_ Hmax]. apply max_by_spec in Eb as [Hbig Hlen].
  rewrite Forall_forall in Hwf.
  assert (forall o, o ∈ available -> snd o - fst o <= snd big - fst big) as Hl.
  { intros o Ho. specialize (Hlen o Ho). pose proof (Hwf o Ho) as Hw. pose proof (Hwf big Hbig) as Hw'.
    unfold wf_region in *. unfold u64 in Hlen. rewrite !wrap_small in Hlen by (unfold is_u; lia). lia. }
  pose proof (Hwf big Hbig) as Hw. unfold wf_region in Hw. rewrite !Z.gtb_ltb.
  destruct (Z.ltb_spec (snd mx) (fst big)) as [H1|H1].
  - intros [= <-]. split; [exists big; split_and!; done || lia|]. intros e He. specialize (Hmax e He). lia.
  - destruct (Z.ltb_spec (fst big) (snd mx)), (Z.ltb_spec (snd mx) (snd big)); cbn; try done.
    intros [= <-]. split; [exists big; cbn; split_and!; done || lia|exact Hmax].
Qed.

(** Everything in the region is outside everything excluded. *)
Lemma good_region_disjoint excluded available r :
  good_region excluded available r ->
  forall x, fst r <= x < snd r -> (exists a, a ∈ available /\ fst a <= x < snd a) /\
    forall e, e ∈ excluded -> ~ (fst e <= x < snd e).
Proof.
  intros [(big & Hin & H1 & H2 & H3 & _) He] x Hx. split; [exists big; split; [done|lia]|].
  intros e Hin'. specialize (He e Hin'). lia.
Qed.

(** The choice fails for a largest region that ends below, or starts exactly at, the end
    of what is excluded. *)
Lemma choose_alloc_region_panics mx big :
  choose_alloc_region [mx] [big] = Panic "Unable to find suitable global alloc region" <->
  fst big = snd mx \/ (fst big < snd mx /\ snd big <= snd mx).
Proof.
  unfold choose_alloc_region. cbn. rewrite !Z.gtb_ltb.
  destruct (Z.ltb_spec (snd mx) (fst big)), (Z.ltb_spec (fst big) (snd mx)), (Z.ltb_spec (snd mx) (snd big));
    cbn; split; intros; try done; lia.
Qed.

(** The memory a loader reports available, and what it reports in use. *)
Definition available1 (mb : Multiboot) : list (Z * Z) := omap region_bounds (default [] (memory_regions mb)).
Definition in_use1 (eob : Z) (mb : Multiboot) : list (Z * Z) :=
  map (fun m => (mb_start m, mb_end m)) (default [] (mb_modules mb)) ++ [(0, eob)].
Definition available2 (mb : Multiboot2) : list (Z * Z) := default [] (memory_areas mb).
Definition in_use2 (mb : Multiboot2) : list (Z * Z) :=
  map fst (module_tags mb) ++ default [] (elf_sections mb) ++ [(info_start mb, info_end mb)].

Lemma early_init1_spec {LH : LockedHeap} eob mb a r :
  early_init_multiboot eob (Ok mb) Unavailable = (a, Ok r) -> Forall wf_region (available1 mb) ->
  exists lo hi, a = Available (heap_new lo hi) /\ good_region (in_use1 eob mb) (available1 mb) (lo, hi).
Proof.
  intros E Hwf. revert E. unfold early_init_multiboot. rewrite st_bind_eq. unfold lift at 1. rewrite st_bind_eq.
  unfold lift at 1, setup_global_alloc_region1. unfold available1, in_use1 in *.
  destruct (memory_regions mb) as [rs|], (mb_modules mb) as [ms|]; cbn [default expect mbind res_bind]; try done.
  destruct (choose_alloc_region _ _) as [[lo hi]|e|w] eqn:Ec; try done. intros [= <- <-].
  exists lo, hi. split; [done|]. by apply choose_alloc_region_good.
Qed.

Lemma early_init2_spec {LH : LockedHeap} mb a r :
  early_init_multiboot2 mb Unavailable = (a, Ok r) -> Forall wf_region (available2 mb) ->
  exists lo hi, a = Available (heap_new lo hi) /\ good_region (in_use2 mb) (available2 mb) (lo, hi).
Proof.
  intros E Hwf. revert E. unfold early_init_multiboot2. rewrite st_bind_eq. unfold lift at 1, setup_global_alloc_region2.
  unfold available2, in_use2 in *.
  destruct (memory_areas mb) as [rs|], (elf_sections mb) as [ss|]; cbn [default expect mbind res_bind]; try done.
  destruct (choose_alloc_region _ _) as [[lo hi]|e|w] eqn:Ec; try done. cbn.
  destruct (choose_rsdp mb) as [p|e|w]; try done. intros [= <- <-].
  exists lo, hi. split; [done|]. by apply choose_alloc_region_good.
Qed.

(** C19: the region chosen for the heap overlaps nothing that is in use.  With either
    boot protocol, a start that succeeds has passed the allocator two bounds between
    which every address is in memory reported available, and in no boot module and no
    part of the binary (with multiboot 2, nor in the boot information). *)
Theorem heap_region_free {LH : LockedHeap} m1 m2 eob mb mb2 a r :
  Forall wf_region (available1 mb) -> Forall wf_region (available2 mb2) ->
  kmain_early m1 m2 eob (Ok mb) mb2 Unavailable = (a, Ok r) ->
  exists lo hi, a = Available (heap_new lo hi) /\
    forall x, lo <= x < hi ->
      let available := if m1 =? 1 then available1 mb else available2 mb2 in
      let in_use := if m1 =? 1 then in_use1 eob mb else in_use2 mb2 in
      (exists area, area ∈ available /\ fst area <= x < snd area) /\
      forall e, e ∈ in_use -> ~ (fst e <= x < snd e).
Proof.
  intros H1 H2. unfold kmain_early. destruct (m1 =? 1).
  - intros E. destruct (early_init1_spec eob mb a r E H1) as (lo & hi & -> & Hg).
    exists lo, hi. split; [done|]. intros x Hx. by apply (good_region_disjoint _ _ _ Hg).
  - destruct (m2 =? 1); [|done]. intros E. destruct (early_init2_spec mb2 a r E H2) as (lo & hi & -> & Hg).
    exists lo, hi. split; [done|]. intros x Hx. by apply (good_region_disjoint _ _ _ Hg).
Qed.

(** A heap that only remembers its bounds. *)
#[refine] Instance bounds_heap : LockedHeap := {|
  heap := Z * Z; heap_new bottom size := (bottom, bottom + size); heap_alloc h _ _ := (h, 0);
  heap_dealloc h _ _ _ := h; heap_bounds h := h |}.
Proof. done. Defined.

Definition sample_mb : Multiboot :=
  mkMultiboot (Some [mkRegion 0 0x9fc00 true; mkRegion 0xf0000 0x10000 false; mkRegion 0x100000 0x7ee0000 true])
    (Some [mkMbModule 0x400000 0x4a0000 (Some "mythril.cfg"%string)]).
Definition no_mb2 : Multiboot2 := mkMultiboot2 None [] None 0 0 None None.

Lemma heap_region_free_witness :
  exists lo hi, kmain_early 1 0 0x300000 (Ok sample_mb) no_mb2 Unavailable =
      (Available (heap_new lo hi), Ok (mkBootInfo [mkRawModule (Some "mythril.cfg"%string) 0x400000 0xa0000] None)) /\
    forall x, lo <= x < hi -> ~ (0x400000 <= x < 0x4a0000).
Proof.
  destruct (heap_region_free 1 0 0x300000 sample_mb no_mb2
    (Available (heap_new 0x4a0000 0x7fe0000)) (mkBootInfo [mkRawModule (Some "mythril.cfg"%string) 0x400000 0xa0000] None))
    as (lo & hi & E & Hd).
  - apply (bool_decide_unpack _). vm_compute. exact I.
  - apply (bool_decide_unpack _). vm_compute. exact I.
  - vm_compute. reflexivity.
  - exists lo, hi. split; [rewrite <- E; vm_compute; reflexivity|].
    intros x Hx. destruct (Hd x Hx) as [_ He]. apply (He (0x400000, 0x4a0000)). left.
Defined.

(** The second bound is the end of the region, but the heap takes it for its size: what it
    may hand out goes beyond the region by the region's start. *)
Lemma heap_exceeds_region {LH : LockedHeap} start end_ h :
  0 < start -> start <= end_ -> allocate_from start end_ Unavailable = (Available h, Ok tt) ->
  heap_bounds h = (start, start + end_) /\ end_ < snd (heap_bounds h).
Proof. intros H1 H2 [= <-]. rewrite heap_new_bounds. cbn. split; [done|lia]. Qed.

(** The pointer of revision 2 is preferred when its checksum is right, then that of
    revision 1; with neither, the BIOS areas are searched later. *)
Lemma choose_rsdp_order mb :
  (forall t, valid_tag (rsdp_v2_tag mb) = Some t -> tag_oem_id t = None ->
     choose_rsdp mb = Ok (Some (RsdpV2 (replicate 6 0) (tag_address t)))) /\
  (forall t, valid_tag (rsdp_v2_tag mb) = None -> valid_tag (rsdp_v1_tag mb) = Some t -> tag_oem_id t = None ->
     choose_rsdp mb = Ok (Some (RsdpV1 (replicate 6 0) (u32 (tag_address t))))) /\
  (valid_tag (rsdp_v2_tag mb) = None -> valid_tag (rsdp_v1_tag mb) = None -> choose_rsdp mb = Ok None).
Proof.
  unfold choose_rsdp. split; [|split].
  - intros t -> Ho. by rewrite Ho.
  - intros t -> -> Ho. by rewrite Ho.
  - by intros -> ->.
Qed.
