(* ===== verification/Start.v ===== *)
(** * Starting the processors ([kmain] and [ap_entry] of [mythril/src/kmain.rs],
    [mythril/src/ap_startup.S], [mp_entry_point] of [mythril/src/vcpu.rs])

    The boot processor starts the others one after another: it leaves a stack and an
    index in two words every processor reads, sends INIT and SIPI, and waits until the
    new processor acknowledges.  Then all cores of a machine wait for each other.  Both
    protocols are step relations over the interleavings of the processors. *)

From S2P Require Import Prelude Error VirtDev Clock Apic Vm VmMemory Acpi Madt PerCore PhysDev Calibrate Boot.

(** ** Which processors are started *)

(** The APIC ids of the MADT, in its order; other structures and errors are skipped. *)
Definition apic_ids_of (structures : list (res Ics.t)) : list Z :=
  omap (fun r => match r with Ok (Ics.LocalApic _ apic_id _) => Some apic_id | _ => None end) structures.

(** [kmain]: the root pointer of the boot loader or the one the BIOS left, the MADT it
    leads to. *)
Definition kmain_rsdp (mem : Z -> Z) (info : BootInfo) : res RSDP :=
  match boot_rsdp info with
  | Some r => Ok r
  | None => res_expect (rsdp_find mem) "Failed to find the RSDP"
  end.
Definition kmain_madt (mem : Z -> Z) (info : BootInfo) : res MADT :=
  rsdp ← kmain_rsdp mem info;
  rsdt ← res_expect (rsdp_rsdt mem rsdp) "Failed to read RSDT";
  madt_sdt ← res_expect (find_entry mem rsdt [0x41; 0x50; 0x49; 0x43]) "No MADT found";
  madt_new madt_sdt.

(** The configuration file among the boot modules. *)
Definition kmain_config (mem : Z -> Z) (info : BootInfo) : res (list Z) :=
  m ← expect (find_module (boot_module mem <$> boot_modules info) "mythril.cfg")
        "Failed to find 'mythril.cfg' in boot information";
  Ok (module_data m).

(** [ap_entry]: the processor [cpu] takes its index and sets up its local APIC. *)
Definition ap_entry {LY : PerCoreLayout} {TS : TimeSource} {AC : ApicCpu} (fuel cpu : nat) (ap_data : ApData)
    : st (PerCore * ApicCore) LocalApic := fun '(p, a) =>
  match init_segment_for_core cpu (ap_idx ap_data) p with
  | (p, Ok _) =>
      let '(a, r) := local_apic_init fuel a in
      ((p, a), res_expect r "Failed to initialize local APIC")
  | (p, Err e) => ((p, a), Err e)
  | (p, Panic w) => ((p, a), Panic w)
  end.

(** The loop over [apic_ids.into_iter().enumerate()]: the boot processor and cores of no
    guest are skipped. *)
Fixpoint ap_targets_from (idx : Z) (local_id : Z) (assigned : Z -> bool) (apic_ids : list Z) : list (Z * Z) :=
  match apic_ids with
  | [] => []
  | apic_id :: r =>
      let rest := ap_targets_from (idx + 1) local_id assigned r in
      if apic_id =? local_id then rest
      else if negb (assigned (u32 idx)) then rest
      else (u32 idx, apic_id) :: rest
  end.
Definition ap_targets (local_id : Z) (assigned : Z -> bool) (apic_ids : list Z) : list (Z * Z) :=
  ap_targets_from 0 local_id assigned apic_ids.

(** The stack of 100 KiB allocated at [ptr], from its aligned end down. *)
Definition AP_STACK_SIZE : Z := 100 * 1024.
Definition stack_bottom (ptr : Z) : Z := Z.land (u64 (ptr + AP_STACK_SIZE)) 0xFFFFFFFFFFFFFFF0.

(** The two commands sent to each processor, and where SIPI makes it start. *)
Definition start_ipis (AP_STARTUP_ADDR apic_id : Z) : st CoreHw unit :=
  _ ← send_ipi apic_id NoShorthand Edge Assert Physical Init 0;
  send_ipi apic_id NoShorthand Edge Assert Physical StartUp (u8 (Z.shiftr AP_STARTUP_ADDR 12)).

(** ** The start-up protocol *)

(** A processor: waiting for INIT, for SIPI, then at the instructions of [ap_startup_64]
    that load the stack, push the index and set the flag, then in [ap_entry]. *)
Inductive ApState :=
| ApHalted
| ApInitialized
| ApLoadStack
| ApPushIdx (rsp : Z)
| ApAck (rsp idx : Z)
| ApEntered (rsp idx : Z).

(** The boot processor, before the next target or at a statement of the loop's body
    for the target [(idx, apic_id)]. *)
Inductive BspPc :=
| BspNext (rest : list (Z * Z))
| BspWriteIdx (t : Z * Z) (rest : list (Z * Z))
| BspInit (t : Z * Z) (rest : list (Z * Z))
| BspSipi (t : Z * Z) (rest : list (Z * Z))
| BspSpin (t : Z * Z) (rest : list (Z * Z))
| BspClear (t : Z * Z) (rest : list (Z * Z)).

Record BootState := mkBoot {
  bsp_pc : BspPc;
  AP_STACK_ADDR : Z;
  AP_IDX : Z;
  AP_READY : Z;
  aps : gmap Z ApState
}.

Section protocol.
(** Where the allocator puts the stack of the core with an index. *)
Variable stack_ptr : Z -> Z.

Definition set_ap (a : Z) (x : ApState) (s : BootState) : BootState :=
  mkBoot (bsp_pc s) (AP_STACK_ADDR s) (AP_IDX s) (AP_READY s) (<[a := x]> (aps s)).

(** A statement of the boot processor. *)
Definition bsp_step (s : BootState) : BootState :=
  match bsp_pc s with
  | BspNext [] => s
  | BspNext (t :: r) => mkBoot (BspWriteIdx t r) (stack_bottom (stack_ptr (fst t))) (AP_IDX s) (AP_READY s) (aps s)
  | BspWriteIdx t r => mkBoot (BspInit t r) (AP_STACK_ADDR s) (fst t) (AP_READY s) (aps s)
  | BspInit t r => mkBoot (BspSipi t r) (AP_STACK_ADDR s) (AP_IDX s) (AP_READY s) (<[snd t := ApInitialized]> (aps s))
  | BspSipi t r =>
      mkBoot (BspSpin t r) (AP_STACK_ADDR s) (AP_IDX s) (AP_READY s)
        (match aps s !! snd t with
         | Some ApInitialized => <[snd t := ApLoadStack]> (aps s)
         | _ => aps s
         end)
  | BspSpin t r => if AP_READY s =? 1 then mkBoot (BspClear t r) (AP_STACK_ADDR s) (AP_IDX s) (AP_READY s) (aps s) else s
  | BspClear t r => mkBoot (BspNext r) (AP_STACK_ADDR s) (AP_IDX s) 0 (aps s)
  end.

(** An instruction of the processor with APIC id [a]. *)
Definition ap_step (a : Z) (s : BootState) : BootState :=
  match aps s !! a with
  | Some ApLoadStack => set_ap a (ApPushIdx (AP_STACK_ADDR s)) s
  | Some (ApPushIdx rsp) => set_ap a (ApAck (u64 (rsp - 8)) (AP_IDX s)) s
  | Some (ApAck rsp idx) => mkBoot (bsp_pc s) (AP_STACK_ADDR s) (AP_IDX s) 1 (<[a := ApEntered rsp idx]> (aps s))
  | _ => s
  end.

(** [ap_data.idx] and the processor's stack pointer when [ap_entry] starts. *)
Definition ap_data (x : ApState) : option ApData :=
  match x with ApEntered _ idx => Some (mkApData idx) | _ => None end.

Inductive boot_step : BootState -> BootState -> Prop :=
| step_bsp s : boot_step s (bsp_step s)
| step_ap a s : boot_step s (ap_step a s).

Inductive boot_reach (s0 : BootState) : BootState -> Prop :=
| reach_refl : boot_reach s0 s0
| reach_step s s' : boot_reach s0 s -> boot_step s s' -> boot_reach s0 s'.

Definition boot_start (targets : list (Z * Z)) : BootState :=
  mkBoot (BspNext targets) 0 0 0 (list_to_map (map (fun t => (snd t, ApHalted)) targets)).

(** *** Invariant *)

Definition entered (t : Z * Z) : ApState := ApEntered (u64 (stack_bottom (stack_ptr (fst t)) - 8)) (fst t).
Definition all_in (s : BootState) (l : list (Z * Z)) (x : Z * Z -> ApState) : Prop :=
  Forall (fun t => aps s !! snd t = Some (x t)) l.
Definition halted (s : BootState) (l : list (Z * Z)) : Prop := all_in s l (fun _ => ApHalted).

(** What holds while [t] is being started. *)
Definition starting (s : BootState) : Prop :=
  match bsp_pc s with
  | BspNext rest => AP_READY s = 0 /\ halted s rest
  | BspWriteIdx t rest => AP_READY s = 0 /\ AP_STACK_ADDR s = stack_bottom (stack_ptr (fst t)) /\ halted s (t :: rest)
  | BspInit t rest =>
      AP_READY s = 0 /\ AP_STACK_ADDR s = stack_bottom (stack_ptr (fst t)) /\ AP_IDX s = fst t /\ halted s (t :: rest)
  | BspSipi t rest =>
      AP_READY s = 0 /\ AP_STACK_ADDR s = stack_bottom (stack_ptr (fst t)) /\ AP_IDX s = fst t /\
      aps s !! snd t = Some ApInitialized /\ halted s rest
  | BspSpin t rest =>
      AP_STACK_ADDR s = stack_bottom (stack_ptr (fst t)) /\ AP_IDX s = fst t /\ halted s rest /\
      match aps s !! snd t with
      | Some ApLoadStack => AP_READY s = 0
      | Some (ApPushIdx rsp) => AP_READY s = 0 /\ rsp = stack_bottom (stack_ptr (fst t))
      | Some (ApAck rsp idx) => AP_READY s = 0 /\ ApEntered rsp idx = entered t
      | Some x => AP_READY s = 1 /\ x = entered t
      | None => False
      end
  | BspClear t rest => aps s !! snd t = Some (entered t) /\ halted s rest
  end.

Definition pending (pc : BspPc) : list (Z * Z) :=
  match pc with
  | BspNext rest => rest
  | BspWriteIdx t rest | BspInit t rest | BspSipi t rest | BspSpin t rest | BspClear t rest => t :: rest
  end.

Definition boot_inv (targets : list (Z * Z)) (s : BootState) : Prop :=
  NoDup (map snd targets) /\ starting s /\
  (forall a, a ∉ map snd targets -> aps s !! a = None) /\
  exists started, targets = started ++ pending (bsp_pc s) /\ all_in s started entered.

(** Steps left for a target and its processor. *)
Definition boot_work (s : BootState) : Z :=
  let left := 10 * Z.of_nat (length (pending (bsp_pc s))) in
  match bsp_pc s with
  | BspNext _ => left
  | BspWriteIdx _ _ => left - 1
  | BspInit _ _ => left - 2
  | BspSipi _ _ => left - 3
  | BspSpin t _ =>
      match aps s !! snd t with
      | Some ApLoadStack => left - 4
      | Some (ApPushIdx _) => left - 5
      | Some (ApAck _ _) => left - 6
      | _ => left - 7
      end
  | BspClear _ _ => left - 8
  end.

(** The processors' states only matter where they are looked up. *)
Lemma all_in_insert s l x a y pc st ix rd :
  a ∉ map snd l -> all_in s l x -> all_in (mkBoot pc st ix rd (<[a := y]> (aps s))) l x.
Proof.
  intros Ha. unfold all_in. rewrite !Forall_forall. intros Hl t Ht. cbn. rewrite lookup_insert_ne; [by apply Hl|].
  intros ->. apply Ha. apply list_elem_of_fmap. by exists t.
Qed.

Lemma start_keys (targets : list (Z * Z)) :
  (map (fun t => (snd t, ApHalted)) targets).*1 = map snd targets.
Proof. induction targets as [|t r IH]; cbn; [done|]. by f_equal. Qed.

Lemma boot_inv_start targets : NoDup (map snd targets) -> boot_inv targets (boot_start targets).
Proof.
  intros Hnd. split; [done|]. unfold boot_start, starting. cbn. split.
  - split; [done|]. unfold halted, all_in. rewrite Forall_forall. intros t Ht. cbn.
    apply elem_of_list_to_map; [by rewrite start_keys|]. apply list_elem_of_fmap. by exists t.
  - split; [|exists []; split; [done|constructor]]. intros a Ha. apply not_elem_of_list_to_map.
    by rewrite start_keys.
Qed.

(** No processor is between its start and its acknowledgement except the current one. *)
Lemma ap_step_idle s a :
  match aps s !! a with Some ApLoadStack | Some (ApPushIdx _) | Some (ApAck _ _) => False | _ => True end ->
  ap_step a s = s.
Proof. unfold ap_step. destruct (aps s !! a) as [[]|]; done. Qed.

Lemma targets_split (targets started : list (Z * Z)) t rest :
  NoDup (map snd targets) -> targets = started ++ t :: rest ->
  snd t ∉ map snd started /\ snd t ∉ map snd rest.
Proof.
  intros Hnd ->. rewrite map_app in Hnd. cbn in Hnd. apply NoDup_app in Hnd as (_ & Hd & Hnd).
  apply NoDup_cons in Hnd as [Hr _]. split; [|done]. intros Hin. apply (Hd _ Hin). left.
Qed.

Lemma other_processors targets s a :
  boot_inv targets s ->
  match bsp_pc s with BspSpin t _ => a <> snd t | _ => True end ->
  match aps s !! a with Some ApLoadStack | Some (ApPushIdx _) | Some (ApAck _ _) => False | _ => True end.
Proof.
  intros (Hnd & Hs & Hout & started & Ht & Hstarted) Hne. unfold starting, halted, all_in in *.
  destruct (decide (a ∈ map snd targets)) as [Hin|Hin]; [|by rewrite Hout].
  apply list_elem_of_fmap in Hin as (t & -> & Hin). rewrite Forall_forall in Hstarted.
  assert (forall l x, Forall (fun t => aps s !! snd t = Some (x t)) l -> t ∈ l -> aps s !! snd t = Some (x t)) as Hall.
  { intros l x Hl. rewrite Forall_forall in Hl. apply Hl. }
  rewrite Ht in Hin. apply elem_of_app in Hin as [Hin|Hin]; [by rewrite (Hstarted t Hin)|].
  destruct (bsp_pc s) as [rest|t' rest|t' rest|t' rest|t' rest|t' rest]; cbn in Hin.
  - destruct Hs as [_ Hh]. by rewrite (Hall _ _ Hh Hin).
  - destruct Hs as (_ & _ & Hh). by rewrite (Hall _ _ Hh Hin).
  - destruct Hs as (_ & _ & _ & Hh). by rewrite (Hall _ _ Hh Hin).
  - destruct Hs as (_ & _ & _ & Hi & Hh). apply elem_of_cons in Hin as [->|Hin]; [by rewrite Hi|by rewrite (Hall _ _ Hh Hin)].
  - destruct Hs as (_ & _ & Hh & _). apply elem_of_cons in Hin as [->|Hin]; [done|by rewrite (Hall _ _ Hh Hin)].
  - destruct Hs as (Hi & Hh). apply elem_of_cons in Hin as [->|Hin]; [by rewrite Hi|by rewrite (Hall _ _ Hh Hin)].
Qed.

(** A step of the processor being started. *)
Lemma current_step targets s t rest :
  boot_inv targets s -> bsp_pc s = BspSpin t rest ->
  boot_inv targets (ap_step (snd t) s) /\ (ap_step (snd t) s = s \/ boot_work (ap_step (snd t) s) < boot_work s).
Proof.
  intros HI Hpc. pose proof HI as (Hnd & Hs & Hout & started & Ht & Hstarted). rewrite Hpc in Ht. cbn in Ht.
  destruct (targets_split _ _ _ _ Hnd Ht) as [Hn1 Hn2]. unfold starting in Hs. rewrite Hpc in Hs.
  destruct Hs as (Hst & Hix & Hh & Hap).
  assert (forall x rd, boot_inv targets (mkBoot (bsp_pc s) (AP_STACK_ADDR s) (AP_IDX s) rd (<[snd t := x]> (aps s))) <->
    match x with
    | ApLoadStack => rd = 0
    | ApPushIdx rsp => rd = 0 /\ rsp = stack_bottom (stack_ptr (fst t))
    | ApAck rsp idx => rd = 0 /\ ApEntered rsp idx = entered t
    | x => rd = 1 /\ x = entered t
    end) as Hinv.
  { intros x rd. unfold boot_inv, starting. cbn. rewrite Hpc, lookup_insert_eq. cbn. split; [naive_solver|].
    intros Hx. split; [done|]. split; [split_and!; [done..|by apply all_in_insert|by destruct x]|].
    split; [|exists started; split; [done|by apply all_in_insert]].
    intros a Ha. rewrite lookup_insert_ne; [by apply Hout|]. intros <-. apply Ha. rewrite Ht, map_app. cbn. set_solver. }
  unfold ap_step, boot_work, set_ap. destruct (aps s !! snd t) as [[| | |rsp|rsp idx|rsp idx]|] eqn:Ea; try done.
  - split; [done|by left].
  - split; [done|by left].
  - split; [by apply Hinv; rewrite Hst|]. right. cbn. rewrite !Hpc, lookup_insert_eq, Ea. lia.
  - destruct Hap as [Hrd ->]. split; [apply Hinv; by rewrite Hix|]. right. cbn. rewrite !Hpc, lookup_insert_eq, Ea. lia.
  - destruct Hap as [Hrd Hx]. split; [by apply Hinv|]. right. cbn. rewrite !Hpc, lookup_insert_eq, Ea. lia.
  - split; [done|by left].
Qed.

Lemma bsp_step_inv targets s :
  boot_inv targets s ->
  boot_inv targets (bsp_step s) /\ (bsp_step s = s \/ boot_work (bsp_step s) < boot_work s).
Proof.
  intros HI. pose proof HI as (Hnd & Hs & Hout & started & Ht & Hstarted).
  assert (forall t rest, bsp_pc s <> BspNext [] -> pending (bsp_pc s) = t :: rest ->
    snd t ∉ map snd started /\ snd t ∉ map snd rest /\
    forall (a : Z) (x : ApState), a ∉ map snd targets -> <[snd t := x]> (aps s) !! a = None) as Hcur.
  { intros t rest _ Hp. rewrite Hp in Ht. destruct (targets_split _ _ _ _ Hnd Ht) as [H1 H2]. split_and!; [done..|].
    intros a x Ha. rewrite lookup_insert_ne; [by apply Hout|]. intros <-. apply Ha. rewrite Ht, map_app. cbn. set_solver. }
  unfold bsp_step, boot_work, starting in *. destruct (bsp_pc s) as [[|t r]|t r|t r|t r|t r|t r] eqn:Hpc; cbn in Ht, Hcur.
  - split; [done|by left].
  - destruct Hs as [Hr Hh]. split; [|right; cbn; lia]. split; [done|]. split; [done|]. split; [done|]. by exists started.
  - destruct Hs as (Hr & Hst & Hh). split; [|right; cbn; lia]. split; [done|]. split; [done|]. split; [done|]. by exists started.
  - destruct Hs as (Hr & Hst & Hix & Hh). destruct (Hcur t r) as (Hn1 & Hn2 & Hx); [done..|]. apply Forall_cons in Hh as [_ Hh].
    split; [|right; cbn; lia]. split; [done|]. unfold starting. cbn. rewrite lookup_insert_eq.
    split; [split_and!; try done; by apply all_in_insert|]. split; [intros a' Ha'; by apply Hx|].
    exists started. split; [done|by apply all_in_insert].
  - destruct Hs as (Hr & Hst & Hix & Ha & Hh). destruct (Hcur t r) as (Hn1 & Hn2 & Hx); [done..|]. rewrite Ha.
    split; [|right; cbn; rewrite lookup_insert_eq; cbn; lia]. split; [done|]. unfold starting. cbn. rewrite lookup_insert_eq.
    split; [split_and!; try done; by apply all_in_insert|]. split; [intros a' Ha'; by apply Hx|].
    exists started. split; [done|by apply all_in_insert].
  - destruct Hs as (Hst & Hix & Hh & Hap). destruct (Z.eqb_spec (AP_READY s) 1) as [Hr|Hr]; [|split; [done|by left]].
    assert (aps s !! snd t = Some (entered t)) as He.
    { destruct (aps s !! snd t) as [[]|]; intuition (congruence || lia). }
    split; [|right; cbn; rewrite He; cbn; lia]. split; [done|]. split; [done|]. split; [done|]. by exists started.
  - destruct Hs as (He & Hh). split; [|right; cbn; lia]. split; [done|]. split; [done|]. split; [done|].
    exists (started ++ [t]). split; [by rewrite <- app_assoc|]. unfold all_in. apply Forall_app. split; [done|]. by constructor.
Qed.

Lemma boot_step_inv targets s s' :
  boot_inv targets s -> boot_step s s' -> boot_inv targets s' /\ (s' = s \/ boot_work s' < boot_work s).
Proof.
  intros HI Hst. destruct Hst as [s|a s]; [by apply bsp_step_inv|].
  assert ((exists t r, bsp_pc s = BspSpin t r /\ a = snd t) \/
          match bsp_pc s with BspSpin t _ => a <> snd t | _ => True end) as [(t & r & Hpc & ->)|Hno].
  { destruct (bsp_pc s) as [| | | |t r|]; try by right. destruct (decide (a = snd t)); [left|by right]. by exists t, r. }
  - by apply (current_step targets s t r).
  - rewrite ap_step_idle by (by apply (other_processors targets)). split; [done|by left].
Qed.

Lemma boot_reach_inv targets s :
  NoDup (map snd targets) -> boot_reach (boot_start targets) s -> boot_inv targets s.
Proof.
  intros Hnd Hr. induction Hr as [|s s' _ IH Hs]; [by apply boot_inv_start|]. by apply (boot_step_inv targets s s').
Qed.

(** Until the boot processor is done, somebody can make a step that counts. *)
Lemma boot_progress targets s :
  boot_inv targets s -> bsp_pc s <> BspNext [] -> exists s', boot_step s s' /\ boot_work s' < boot_work s.
Proof.
  intros HI Hpc.
  assert (bsp_step s <> s -> exists s', boot_step s s' /\ boot_work s' < boot_work s) as Hb.
  { intros Hne. exists (bsp_step s). split; [constructor|]. by destruct (bsp_step_inv targets s HI) as [_ [?|?]]. }
  destruct (bsp_pc s) as [[|t r]|t r|t r|t r|t r|t r] eqn:E; [done| | | | | |].
  1-4, 6: apply Hb; unfold bsp_step; rewrite E; intros He; apply (f_equal bsp_pc) in He; rewrite E in He; done.
  pose proof HI as (_ & Hs & _). unfold starting in Hs. rewrite E in Hs. destruct Hs as (_ & _ & _ & Hap).
  destruct (decide (AP_READY s = 1)) as [Hr|Hr].
  - apply Hb. unfold bsp_step. rewrite E, Hr. cbn. intros He. apply (f_equal bsp_pc) in He. cbn in He. congruence.
  - exists (ap_step (snd t) s). split; [constructor|].
    destruct (current_step targets s t r HI E) as [_ [He|]]; [|done]. exfalso. revert He. unfold ap_step, set_ap.
    destruct (aps s !! snd t) as [[]|] eqn:Ea; try (by destruct Hap); intros He;
      apply (f_equal (fun x => aps x !! snd t)) in He; cbn in He; rewrite lookup_insert_eq in He; congruence.
Qed.

Lemma boot_reach_trans s1 s2 s3 : boot_reach s1 s2 -> boot_reach s2 s3 -> boot_reach s1 s3.
Proof. intros H12 H23. induction H23 as [|s s' _ IH Hs]; [done|]. by eapply reach_step. Qed.

Lemma boot_work_nonneg s : 0 <= boot_work s.
Proof.
  unfold boot_work. destruct (bsp_pc s) as [l|t r|t r|t r|t r|t r]; cbn [pending length]; try lia.
  destruct (aps s !! snd t) as [[]|]; lia.
Qed.

Lemma boot_finishes targets s : boot_inv targets s -> exists s', boot_reach s s' /\ bsp_pc s' = BspNext [].
Proof.
  remember (Z.to_nat (boot_work s)) as n eqn:Hn. revert s Hn. induction (lt_wf n) as [n _ IH]. intros s Hn HI.
  assert (bsp_pc s = BspNext [] \/ bsp_pc s <> BspNext []) as [Hd|Hd]
    by (destruct (bsp_pc s) as [[]|t r|t r|t r|t r|t r]; auto).
  - exists s. split; [constructor|done].
  - destruct (boot_progress targets s HI Hd) as (s1 & Hs1 & Hw). pose proof (boot_work_nonneg s1).
    destruct (boot_step_inv targets s s1 HI Hs1) as [HI1 _].
    destruct (IH (Z.to_nat (boot_work s1)) ltac:(lia) s1 eq_refl HI1) as (s2 & Hr & Hpc).
    exists s2. split; [|done]. eapply boot_reach_trans; [|exact Hr]. eapply reach_step; [constructor|exact Hs1].
Qed.

(** A processor that entered did so with what was left for it. *)
Lemma entered_as targets s t rsp idx :
  boot_inv targets s -> t ∈ targets -> aps s !! snd t = Some (ApEntered rsp idx) -> ApEntered rsp idx = entered t.
Proof.
  intros (Hnd & Hs & _ & started & Ht & Hstarted) Hin He. unfold starting, halted, all_in in *.
  rewrite Forall_forall in Hstarted. rewrite Ht in Hin.
  apply elem_of_app in Hin as [Hin|Hin]; [rewrite (Hstarted t Hin) in He; congruence|].
  assert (forall l, Forall (fun t => aps s !! snd t = Some ApHalted) l -> t ∉ l) as Hno.
  { intros l Hl Hi. rewrite Forall_forall in Hl. specialize (Hl t Hi). congruence. }
  destruct (bsp_pc s) as [rest|t' rest|t' rest|t' rest|t' rest|t' rest]; cbn in Hin.
  1-3: exfalso; eapply Hno; [|exact Hin]; tauto.
  all: apply elem_of_cons in Hin as [->|Hin]; [|exfalso; eapply Hno; [|exact Hin]; tauto].
  - destruct Hs as (_ & _ & _ & Hi & _). congruence.
  - destruct Hs as (_ & _ & _ & Hi). rewrite He in Hi. tauto.
  - destruct Hs as [Hi _]. congruence.
Qed.
End protocol.

Lemma ap_targets_snd idx local_id assigned ids a :
  a ∈ map snd (ap_targets_from idx local_id assigned ids) -> a ∈ ids /\ a <> local_id.
Proof.
  revert idx. induction ids as [|x r IH]; intros idx; cbn; [intros []%not_elem_of_nil|].
  destruct (Z.eqb_spec x local_id) as [->|Hne]; [intros [? ?]%IH; split; [by right|done]|].
  destruct (negb _); [intros [? ?]%IH; split; [by right|done]|]. cbn.
  intros [->|[? ?]%IH]%elem_of_cons; (split; [|done]); [left|by right].
Qed.

Lemma ap_targets_NoDup idx local_id assigned ids :
  NoDup ids -> NoDup (map snd (ap_targets_from idx local_id assigned ids)).
Proof.
  revert idx. induction ids as [|x r IH]; intros idx; cbn; [constructor|]. intros [Hx Hr]%NoDup_cons.
  destruct (x =? local_id); [by apply IH|]. destruct (negb _); [by apply IH|]. cbn. apply NoDup_cons.
  split; [|by apply IH]. intros [Hi _]%ap_targets_snd. done.
Qed.

(** C16: every processor that is started gets its own stack and index.  In every
    interleaving of the boot processor with the ones it starts, a processor that has
    reached [ap_entry] has the index of its place in the MADT and runs on the stack
    allocated for it; the boot processor only leaves the loop when all have; it always can,
    and every step but a spin brings it closer. *)
Theorem ap_startup_correct stack_ptr local_id assigned apic_ids s :
  NoDup apic_ids ->
  let targets := ap_targets local_id assigned apic_ids in
  boot_reach stack_ptr (boot_start targets) s ->
  (forall idx a x d, (idx, a) ∈ targets -> aps s !! a = Some x -> ap_data x = Some d ->
     ap_idx d = idx /\ x = entered stack_ptr (idx, a)) /\
  (bsp_pc s = BspNext [] -> forall t, t ∈ targets -> aps s !! snd t = Some (entered stack_ptr t)) /\
  (exists s', boot_reach stack_ptr s s' /\ bsp_pc s' = BspNext []) /\
  (forall s', boot_step stack_ptr s s' -> s' = s \/ boot_work s' < boot_work s).
Proof.
  intros Hnd targets Hr.
  assert (boot_inv stack_ptr targets s) as HI by (apply boot_reach_inv; [by apply ap_targets_NoDup|done]).
  split; [|split; [|split; [by apply (boot_finishes stack_ptr targets)|]]].
  - intros idx a x d Hin Hx Hd. destruct x as [| | | | |rsp i]; try done. cbn in Hd. injection Hd as <-.
    pose proof (entered_as stack_ptr targets s (idx, a) rsp i HI Hin Hx) as He. split; [by injection He|done].
  - intros Hpc t Ht. destruct HI as (_ & _ & _ & started & Hs & Hall). rewrite Hpc in Hs. cbn in Hs. rewrite app_nil_r in Hs.
    unfold all_in in Hall. rewrite Forall_forall in Hall. apply Hall. by rewrite <- Hs.
  - intros s' Hs'. by apply (boot_step_inv stack_ptr targets s s').
Qed.

(** Two processors, the second not yet past the load of its stack. *)
Definition two_targets : list (Z * Z) := ap_targets 0 (fun _ => true) [0; 4; 6].

Lemma ap_startup_correct_witness :
  let s := bsp_step (fun i => 0x100000 * i) (bsp_step (fun i => 0x100000 * i) (boot_start two_targets)) in
  exists s', boot_reach (fun i => 0x100000 * i) s s' /\ bsp_pc s' = BspNext [].
Proof.
  intros s. destruct (ap_startup_correct (fun i => 0x100000 * i) 0 (fun _ => true) [0; 4; 6] s) as (_ & _ & He & _).
  - apply (bool_decide_unpack _). vm_compute. exact I.
  - do 2 (eapply reach_step; [|apply step_bsp]). apply reach_refl.
  - exact He.
Defined.

(** ** Indices and stacks *)

(** The indices in use: the boot processor has index 0 ([init_sections]). *)
Definition core_indices (local_id : Z) (assigned : Z -> bool) (apic_ids : list Z) : list Z :=
  0 :: map fst (ap_targets local_id assigned apic_ids).

Lemma ap_targets_range idx local_id assigned ids i :
  0 <= idx -> idx + Z.of_nat (length ids) < 2 ^ 32 ->
  i ∈ map fst (ap_targets_from idx local_id assigned ids) -> idx <= i < idx + Z.of_nat (length ids).
Proof.
  revert idx. induction ids as [|x r IH]; intros idx H0 Hb; cbn; [intros []%not_elem_of_nil|]. cbn [length] in Hb.
  unfold u32. rewrite wrap_small by (unfold is_u; lia).
  destruct (x =? local_id); [intros Hi%IH; lia|]. destruct (negb _); [intros Hi%IH; lia|]. cbn.
  intros [->|Hi%IH]%elem_of_cons; lia.
Qed.

Lemma ap_targets_fst_NoDup idx local_id assigned ids :
  0 <= idx -> idx + Z.of_nat (length ids) < 2 ^ 32 -> NoDup (map fst (ap_targets_from idx local_id assigned ids)).
Proof.
  revert idx. induction ids as [|x r IH]; intros idx H0 Hb; cbn; [constructor|]. cbn [length] in Hb.
  destruct (x =? local_id); [apply IH; lia|]. destruct (negb _); [apply IH; lia|]. cbn.
  apply NoDup_cons. split; [|apply IH; lia]. intros Hi%ap_targets_range; [|lia|lia].
  revert Hi. unfold u32. rewrite wrap_small by (unfold is_u; lia). lia.
Qed.

(** When the boot processor is the first of the MADT all indices differ, so the per-core
    sections do. *)
Lemma core_indices_distinct local_id assigned ids :
  Z.of_nat (length (local_id :: ids)) < 2 ^ 32 -> NoDup (core_indices local_id assigned (local_id :: ids)).
Proof.
  cbn [length]. intros Hb. unfold core_indices, ap_targets. cbn [ap_targets_from]. rewrite Z.eqb_refl. apply NoDup_cons.
  split; [|apply ap_targets_fst_NoDup; lia]. intros Hi%ap_targets_range; lia.
Qed.

(** Where the boot processor is listed second, the first processor is started with the
    index the boot processor already uses. *)
Lemma core_indices_clash : core_indices 0 (fun _ => true) [1; 0] = [0; 0].
Proof. reflexivity. Qed.

(** The pushed index lies in the stack's own block, and the stack is aligned. *)
Lemma stack_bottom_inside ptr :
  0 <= ptr -> ptr + AP_STACK_SIZE < 2 ^ 64 ->
  stack_bottom ptr mod 16 = 0 /\ ptr + AP_STACK_SIZE - 16 < stack_bottom ptr <= ptr + AP_STACK_SIZE.
Proof.
  intros H0 Hb. unfold stack_bottom, AP_STACK_SIZE, u64 in *. rewrite wrap_small by (unfold is_u; lia).
  change 0xFFFFFFFFFFFFFFF0 with (bnot 64 (Z.ones 4)). rewrite land_clear_low by (unfold is_u; lia).
  rewrite Z.shiftl_mul_pow2 by lia. change (2 ^ 4) with 16. Z.to_euclidean_division_equations. lia.
Qed.

(** SIPI starts a processor at the page of [AP_STARTUP_ADDR]. *)
Lemma start_vector addr : 0 <= addr < 2 ^ 16 -> addr mod 4096 = 0 -> u8 (Z.shiftr addr 12) * 4096 = addr.
Proof. intros Ha Hm. revert Hm. words. Qed.

(** ** The cores of a machine wait for each other *)

(** The machine a core belongs to: that of the first context with its id. *)
Definition core_machine {D} (s : VirtualMachineSet D) (core : Z) : option nat := ctx_vm <$> context_by_core_id s core.

Section gate.
Context {D : Type}.

(** The cores that are started, each of which runs [mp_entry_point]. *)
Context (started : list Z).

(** The machines, the cores that have called [notify_ready], and those past the wait. *)
Record Gate := mkGate { g_set : VirtualMachineSet D; arrived : list Z; running : list Z }.

(** A step of a core in [mp_entry_point]: [vm.notify_ready()] of its machine, then the end of
    [while !vm.all_cores_ready()].  A core that is not started makes none. *)
Inductive gate_step (c : Z) : Gate -> Gate -> Prop :=
| gate_notify i v g : c ∈ started -> c ∉ arrived g ->
    core_machine (g_set g) c = Some i -> vms (g_set g) !! i = Some v ->
    gate_step c g (mkGate (mkSet (contexts (g_set g)) (<[i := notify_ready v]> (vms (g_set g)))) (c :: arrived g) (running g))
| gate_pass i v g : c ∈ arrived g -> c ∉ running g ->
    core_machine (g_set g) c = Some i -> vms (g_set g) !! i = Some v -> all_cores_ready v = true ->
    gate_step c g (mkGate (g_set g) (arrived g) (c :: running g)).

Inductive gate_reach (g0 : Gate) : Gate -> Prop :=
| gate_refl : gate_reach g0 g0
| gate_trans c g g' : gate_reach g0 g -> gate_step c g g' -> gate_reach g0 g'.

(** The set as it is built: no core has reported, and contexts are for cores their machine lists. *)
Record fresh_set (s : VirtualMachineSet D) : Prop := {
  fs_listed : forall c i v, core_machine s c = Some i -> vms s !! i = Some v -> c ∈ vm_cpus v;
  fs_ready : forall i v, vms s !! i = Some v -> vm_cpus_ready v = 0 /\ Z.of_nat (length (vm_cpus v)) < 2 ^ 32
}.

Variable s : VirtualMachineSet D.
Hypothesis Hs : fresh_set s.

(** The cores of machine [i] that have arrived. *)
Definition arrived_at (i : nat) (g : Gate) : list Z := filter (fun c => core_machine s c = Some i) (arrived g).

(** Every core the machine lists is listed once, belongs to it and is in [l]. *)
Definition all_present (l : list Z) (i : nat) (v : VirtualMachine D) : Prop :=
  NoDup (vm_cpus v) /\ forall c, c ∈ vm_cpus v -> c ∈ l /\ core_machine s c = Some i.

Record gate_inv (g : Gate) : Prop := {
  gi_contexts : contexts (g_set g) = contexts s;
  gi_arrived : NoDup (arrived g) /\ arrived g ⊆ started;
  gi_count : forall i v, vms s !! i = Some v -> exists v', vms (g_set g) !! i = Some v' /\
    vm_cpus v' = vm_cpus v /\ vm_cpus_ready v' = Z.of_nat (length (arrived_at i g));
  gi_closed : forall c i v, c ∈ running g -> core_machine s c = Some i -> vms s !! i = Some v -> all_present (arrived g) i v
}.

Lemma machine_same g c : gate_inv g -> core_machine (g_set g) c = core_machine s c.
Proof. intros HI. unfold core_machine, context_by_core_id. by rewrite (gi_contexts _ HI). Qed.

Lemma arrived_listed g i v : gate_inv g -> vms s !! i = Some v ->
  NoDup (arrived_at i g) /\ arrived_at i g ⊆ vm_cpus v /\ (length (arrived_at i g) <= length (vm_cpus v))%nat.
Proof.
  intros HI Hv. destruct (gi_arrived _ HI) as [Hn _]. assert (NoDup (arrived_at i g)) as Hn' by by apply NoDup_filter.
  assert (arrived_at i g ⊆ vm_cpus v) as Hsub.
  { intros c [Hc _]%list_elem_of_filter. by eapply (fs_listed _ Hs). }
  split_and!; try done. by apply submseteq_length, NoDup_submseteq.
Qed.

(** The barrier of a machine opens when all the cores it lists have arrived, which takes that each
    is listed once and is its own. *)
Lemma gate_open g i v v' : gate_inv g -> vms s !! i = Some v -> vms (g_set g) !! i = Some v' ->
  all_cores_ready v' = true <-> all_present (arrived g) i v.
Proof.
  intros HI Hv Hv'. destruct (arrived_listed g i v HI Hv) as (Hn & Hsub & Hle).
  destruct (gi_count _ HI i v Hv) as (v1 & Hv1 & Hcpus & Hready). assert (v1 = v') as -> by congruence.
  destruct (fs_ready _ Hs i v Hv) as [_ Hb].
  unfold all_cores_ready, u32. rewrite Hcpus, Hready, wrap_small by (unfold is_u; lia). rewrite Z.eqb_eq. split.
  - intros He. assert (arrived_at i g ≡ₚ vm_cpus v) as Hp
      by (apply submseteq_length_Permutation; [by apply NoDup_submseteq|lia]).
    split; [by rewrite <- Hp|]. intros c. rewrite <- Hp. intros [? ?]%list_elem_of_filter. done.
  - intros [Hnd Hall]. f_equal. assert (length (vm_cpus v) <= length (arrived_at i g))%nat; [|lia].
    apply submseteq_length, NoDup_submseteq; [done|]. intros c Hc. apply list_elem_of_filter. by destruct (Hall c Hc).
Qed.

Lemma all_present_mono l l' i v : l ⊆ l' -> all_present l i v -> all_present l' i v.
Proof. intros Hl [Hn Ha]. split; [done|]. intros c Hc. destruct (Ha c Hc). split; [by apply Hl|done]. Qed.

Lemma gate_step_inv c g g' : gate_inv g -> gate_step c g g' -> gate_inv g'.
Proof.
  intros HI Hstep. destruct Hstep as [i v g Hc Hn Hm Hv|i v g Hc Hn Hm Hv Hr]; rewrite machine_same in Hm by done.
  - pose proof (fun j w => arrived_listed g j w HI) as Hlist.
    destruct HI as [Hctx [Ha Hsub] Hcount Hclosed]. split; cbn [g_set arrived running contexts vms].
    + done.
    + split; [by constructor|]. set_solver.
    + intros j w Hw. destruct (Hcount j w Hw) as (w' & Hw' & Hcp & Hr). unfold arrived_at in *. cbn [arrived].
      destruct (decide (j = i)) as [->|Hne].
      * assert (w' = v) as -> by congruence. rewrite list_lookup_insert_eq by (by eapply lookup_lt_Some).
        eexists. split; [done|]. split; [done|]. rewrite filter_cons_True by done. cbn [length].
        destruct (Hlist i w Hw) as (Hnd & Hsub' & _). destruct (fs_ready _ Hs i w Hw) as [_ Hb].
        assert (length (c :: arrived_at i g) <= length (vm_cpus w))%nat as Hl.
        { apply submseteq_length, NoDup_submseteq.
          - constructor; [|done]. by intros [_ ?]%list_elem_of_filter.
          - intros d [->|Hd]%elem_of_cons; [by eapply (fs_listed _ Hs)|by apply Hsub']. }
        unfold arrived_at in Hl. cbn [length] in Hl. cbn [notify_ready set_vm_ready vm_cpus_ready]. rewrite Hr. unfold u32. rewrite wrap_small by (unfold is_u; lia). lia.
      * rewrite list_lookup_insert_ne by done. exists w'. rewrite filter_cons_False by congruence. done.
    + intros d j w Hd Hj Hw. eapply all_present_mono; [|by eapply Hclosed]. set_solver.
  - split; cbn [g_set arrived running]; [apply HI|apply HI|apply HI|].
    intros d j w Hd Hj Hw. apply elem_of_cons in Hd as [->|Hd]; [|by eapply (gi_closed _ HI)].
    assert (j = i) as -> by congruence. by eapply (proj1 (gate_open g i w v HI Hw Hv)).
Qed.
End gate.

(** C18: the cores of a machine start together or not at all.  [started] are the cores that
    run [mp_entry_point], each once.  In every interleaving of their [notify_ready] and [all_cores_ready]:
    once a core is past the wait every core its machine lists has arrived, and is a core
    of that machine.  If all cores a machine lists are started, listed once and its own, then while one
    of them is not past the wait, one of them can make a step.  Otherwise - a core listed twice,
    listed by an earlier machine too, or never started - no core of the machine ever gets past the wait.
    [fresh_set] describes the set as [init_virtual_machines] leaves it. *)
Theorem cores_start_together {D} (s : VirtualMachineSet D) started i v g :
  fresh_set s -> vms s !! i = Some v -> gate_reach started (mkGate s [] []) g ->
  (forall c d, c ∈ running g -> core_machine s c = Some i -> d ∈ vm_cpus v -> d ∈ arrived g /\ core_machine s d = Some i) /\
  (all_present s started i v -> forall c, c ∈ vm_cpus v -> c ∉ running g ->
     exists d g', d ∈ vm_cpus v /\ gate_step started d g g') /\
  (~ all_present s started i v -> forall c, core_machine s c = Some i -> c ∉ running g).
Proof.
  intros Hs Hv Hr. assert (gate_inv started s g) as HI.
  { induction Hr as [|c g g' _ IH Hstep]; [|by eapply gate_step_inv]. split; cbn; [done| | |].
    - split; [constructor|set_solver].
    - intros j w Hw. exists w. destruct (fs_ready _ Hs j w Hw). done.
    - intros c j w Hc. by apply not_elem_of_nil in Hc. }
  split_and!.
  - intros c d Hc Hm Hd. destruct (gi_closed _ _ _ HI c i v Hc Hm Hv) as [_ Hall]. by apply Hall.
  - intros [Hnd Hall] c Hc Hno. destruct (gi_count _ _ _ HI i v Hv) as (v' & Hv' & _ & _).
    destruct (decide (Forall (fun d => d ∈ arrived g) (vm_cpus v))) as [Hin|Hnot].
    + rewrite Forall_forall in Hin. destruct (Hall c Hc) as [_ Hm]. exists c. eexists. split; [done|].
      apply (gate_pass _ _ i v'); [by apply Hin|done|by erewrite machine_same|done|].
      apply (gate_open started s Hs g i v v'); try done. split; [done|]. intros d Hd. split; [by apply Hin|by apply Hall].
    + apply not_Forall_Exists in Hnot; [|apply _]. apply Exists_exists in Hnot as (d & Hd & Hnd').
      destruct (Hall d Hd) as [Hst Hm]. exists d. eexists. split; [done|].
      apply (gate_notify _ _ i v'); [done|done|by erewrite machine_same|done].
  - intros Hnot c Hm Hc. apply Hnot. eapply all_present_mono; [apply (gi_arrived _ _ _ HI)|].
    by eapply (gi_closed _ _ _ HI).
Qed.

(** Cores 3 and 5 of one machine; another machine lists core 5 too and never starts. *)
Definition pair_vm (cpus : list Z) : VirtualMachine unit := mkVm 0 cpus 1 None [] device_map_default 0 0 [] 0.
Definition pair_set : VirtualMachineSet unit :=
  mkSet [mkContext 3 0 []; mkContext 5 0 []; mkContext 5 1 []; mkContext 6 1 []] [pair_vm [3; 5]; pair_vm [5; 6]].

Lemma pair_set_fresh : fresh_set pair_set.
Proof.
  split.
  - intros c i v Hc Hv. unfold core_machine in Hc. destruct (context_by_core_id pair_set c) as [x|] eqn:E; [|done].
    injection Hc as <-. unfold context_by_core_id in E. apply head_Some_elem_of, list_elem_of_filter in E as [<- E].
    cbn in E. repeat (apply elem_of_cons in E as [->|E]; [injection Hv as <-; cbn; set_solver|]). by apply not_elem_of_nil in E.
  - intros [|[|i]] v; [intros [= <-]; done..|done].
Qed.

Lemma cores_start_together_witness :
  exists g, gate_reach [3; 5; 6] (mkGate pair_set [] []) g /\ running g = [5] /\ 3 ∈ arrived g.
Proof.
  set (s2 := mkSet (contexts pair_set) [notify_ready (notify_ready (pair_vm [3; 5])); pair_vm [5; 6]]).
  assert (gate_reach [3; 5; 6] (mkGate pair_set [] []) (mkGate s2 [5; 3] [5])) as Hr.
  { apply (gate_trans _ _ 5 (mkGate s2 [5; 3] [])).
    - apply (gate_trans _ _ 5 (mkGate (mkSet (contexts pair_set) [notify_ready (pair_vm [3; 5]); pair_vm [5; 6]]) [3] [])).
      + apply (gate_trans _ _ 3 (mkGate pair_set [] [])); [apply gate_refl|].
        apply (gate_notify [3; 5; 6] 3 0 (pair_vm [3; 5]) (mkGate pair_set [] [])); [left|apply not_elem_of_nil|reflexivity|reflexivity].
      + apply (gate_notify [3; 5; 6] 5 0 (notify_ready (pair_vm [3; 5]))
          (mkGate (mkSet (contexts pair_set) [notify_ready (pair_vm [3; 5]); pair_vm [5; 6]]) [3] []));
          [right; left|intros [?|?%not_elem_of_nil]%elem_of_cons; done|reflexivity|reflexivity].
    - apply (gate_pass [3; 5; 6] 5 0 (notify_ready (notify_ready (pair_vm [3; 5]))) (mkGate s2 [5; 3] []));
        [left|apply not_elem_of_nil|reflexivity|reflexivity|vm_compute; reflexivity]. }
  exists (mkGate s2 [5; 3] [5]). split; [exact Hr|]. split; [reflexivity|].
  destruct (cores_start_together pair_set [3; 5; 6] 0 (pair_vm [3; 5]) (mkGate s2 [5; 3] [5])) as [Hall _].
  - exact pair_set_fresh.
  - reflexivity.
  - exact Hr.
  - destruct (Hall 5 3) as [Hd _]; [left|reflexivity|left|exact Hd].
Defined.
