(* ===== verification/Idt.v ===== *)
(** * Interrupt descriptors ([mythril/src/interrupt/idt.rs], [mythril/src/interrupt/mod.rs])

    The table the processor reads is 256 entries of sixteen bytes; [gate_of] is the
    processor's view of one.  Fault handlers find the interrupted state on their stack. *)

From stdpp Require Import functions.
From S2P Require Import Prelude Error.

Module IdtFlags.
Definition PRESENT : Z := Z.shiftl 1 7.
Definition RING_0 : Z := Z.shiftl 0 5.
Definition RING_1 : Z := Z.shiftl 1 5.
Definition RING_2 : Z := Z.shiftl 2 5.
Definition RING_3 : Z := Z.shiftl 3 5.
Definition SS : Z := Z.shiftl 1 4.
Definition INTERRUPT : Z := 0xE.
Definition TRAP : Z := 0xF.
End IdtFlags.

Record IdtEntry := mkIdtEntry {
  offsetl : Z; selector : Z; zero : Z; attribute : Z; offsetm : Z; offseth : Z; zero2 : Z
}.

Definition idt_entry_new : IdtEntry := mkIdtEntry 0 0 0 0 0 0 0.

Definition idt_set_flags (flags : Z) (e : IdtEntry) : IdtEntry :=
  mkIdtEntry (offsetl e) (selector e) (zero e) flags (offsetm e) (offseth e) (zero2 e).

Definition idt_set_offset (sel base : Z) (e : IdtEntry) : IdtEntry :=
  mkIdtEntry (u16 base) sel (zero e) (attribute e) (u16 (Z.shiftr base 16)) (u32 (Z.shiftr base 32)) (zero2 e).

Definition idt_set_func (func : Z) (e : IdtEntry) : IdtEntry :=
  let e := idt_set_flags (Z.lor (Z.lor IdtFlags.PRESENT IdtFlags.RING_0) IdtFlags.INTERRUPT) e in
  idt_set_offset 8 func e.

(** The packed layout. *)
Definition idt_entry_bytes (e : IdtEntry) : list Z :=
  le_bytes 2 (offsetl e) ++ le_bytes 2 (selector e) ++ [zero e; attribute e] ++
  le_bytes 2 (offsetm e) ++ le_bytes 4 (offseth e) ++ le_bytes 4 (zero2 e).

(** Addresses of the handlers. *)
Class FaultHandlers := {
  zero_division_handler : Z;
  nmi_handler : Z;
  protection_fault_handler : Z;
  page_fault_handler : Z
}.

Definition IDT : list IdtEntry := replicate 256 idt_entry_new.

(** [init]; [ap_init] makes the table the processor's. *)
Definition idt_init {FH : FaultHandlers} (t : list IdtEntry) : list IdtEntry :=
  let t := alter (idt_set_func zero_division_handler) 0%nat t in
  let t := alter (idt_set_func nmi_handler) 2%nat t in
  let t := alter (idt_set_func protection_fault_handler) 13%nat t in
  alter (idt_set_func page_fault_handler) 14%nat t.
Definition idt_memory (t : list IdtEntry) : list Z := concat (idt_entry_bytes <$> t).

(** ** What the processor does *)

(** A gate as the processor decodes it: selector, offset, type, and privilege level. *)
Record IdtGate := mkIdtGate { gate_selector : Z; gate_offset : Z; gate_type : Z; gate_dpl : Z }.

Definition gate_of (bytes : list Z) : option IdtGate :=
  let at_ i n := of_le (take n (drop i bytes)) in
  let attr := at_ 5%nat 1%nat in
  if bit attr 7 then
    Some (mkIdtGate (at_ 2%nat 2%nat)
      (at_ 0%nat 2%nat + 2 ^ 16 * at_ 6%nat 2%nat + 2 ^ 32 * at_ 8%nat 4%nat)
      (attr mod 16) (attr / 32 mod 4))
  else None.

Definition idt_gate (mem : list Z) (vector : nat) : option IdtGate := gate_of (take 16 (drop (16 * vector) mem)).

Lemma idt_entry_length e : length (idt_entry_bytes e) = 16%nat.
Proof. reflexivity. Qed.

Lemma idt_gate_entry t v e : t !! v = Some e -> idt_gate (idt_memory t) v = gate_of (idt_entry_bytes e).
Proof.
  unfold idt_gate, idt_memory. revert v. induction t as [|x r IH]; intros v Hv; [done|]. cbn [fmap list_fmap concat].
  destruct v as [|v]; cbn in Hv.
  - injection Hv as ->. by rewrite Nat.mul_0_r, drop_0, take_app_length'.
  - rewrite drop_app_ge by (rewrite idt_entry_length; lia). rewrite idt_entry_length.
    replace (16 * S v - 16)%nat with (16 * v)%nat by lia. by apply IH.
Qed.

(** The offset is split over three fields and read back whole. *)
Lemma gate_of_func func : is_u 64 func ->
  gate_of (idt_entry_bytes (idt_set_func func idt_entry_new)) = Some (mkIdtGate 8 func 0xE 0).
Proof.
  intros Hf. change (idt_set_func func idt_entry_new) with
    (mkIdtEntry (u16 func) 8 0 0x8E (u16 (Z.shiftr func 16)) (u32 (Z.shiftr func 32)) 0). unfold gate_of.
  assert (forall a b c d, is_u 16 a -> is_u 16 b -> is_u 16 c -> is_u 32 d -> forall attr z z2,
    let bytes := idt_entry_bytes (mkIdtEntry a b z attr c d z2) in
    of_le (take 2 (drop 0 bytes)) = a /\ of_le (take 2 (drop 2 bytes)) = b /\ of_le (take 1 (drop 5 bytes)) = attr /\
    of_le (take 2 (drop 6 bytes)) = c /\ of_le (take 4 (drop 8 bytes)) = d) as Hfields.
  { unfold is_u. intros a b c d Ha Hb Hc Hd attr z z2. cbn. split_and!; Z.to_euclidean_division_equations; lia. }
  destruct (Hfields (u16 func) 8 (u16 (Z.shiftr func 16)) (u32 (Z.shiftr func 32))) with (attr := 0x8E) (z := 0) (z2 := 0)
    as (-> & -> & -> & -> & ->); [apply wrap_is_u; lia|unfold is_u; lia|apply wrap_is_u; lia..|].
  cbn [bit]. do 2 f_equal. revert Hf. words.
Qed.

(** ** Fault handlers *)

Record FaultState := mkFaultState { fs_error : Z; fs_rip : Z; fs_cs : Z; fs_rflags : Z }.
Record InterruptState := mkInterruptState { is_rip : Z; is_cs : Z; is_rflags : Z }.

(** The words at the stack pointer as the handlers' macros read them. *)
Definition read_fault_state (stack : list Z) : option FaultState :=
  match stack with e :: ip :: cs :: fl :: _ => Some (mkFaultState e ip cs fl) | _ => None end.
Definition read_interrupt_state (stack : list Z) : option InterruptState :=
  match stack with ip :: cs :: fl :: _ => Some (mkInterruptState ip cs fl) | _ => None end.

(** The message each handler panics with. *)
Definition fault_report (vector : Z) (s : FaultState) : option msg :=
  if vector =? 0 then Some (Msg "Divide by zero handler (rip=0x{:x})" [fs_rip s])
  else if vector =? 2 then Some (Msg "Non-maskable interrupt (rip=0x{:x})" [fs_rip s])
  else if vector =? 13 then Some (Msg "General protection fault handler (rip=0x{:x} error={:x})" [fs_rip s; fs_error s])
  else if vector =? 14 then Some (Msg "Page fault handler (rip=0x{:x})" [fs_rip s])
  else None.

(** What the processor pushes: an error code only for some exceptions. *)
Definition pushes_error (vector : Z) : bool :=
  (vector =? 8) || ((10 <=? vector) && (vector <=? 14)) || (vector =? 17) || (vector =? 21).
Definition exception_frame (vector error rip cs rflags rsp ss : Z) : list Z :=
  (if pushes_error vector then [error] else []) ++ [rip; cs; rflags; rsp; ss].

(** The address reported for faults with an error code is the faulting one; for a division
    by zero and an NMI, which have none, it is the code segment. *)
Lemma fault_report_address vector error rip cs rflags rsp ss m :
  (s ← read_fault_state (exception_frame vector error rip cs rflags rsp ss); fault_report vector s) = Some m ->
  head (m_args m) = Some (if pushes_error vector then rip else cs).
Proof.
  unfold exception_frame, fault_report. destruct (pushes_error vector); cbn;
    repeat destruct (_ =? _); (intros [= <-]; done) || done.
Qed.

(** ** Handler frames *)

(** The general registers, and the stack from its top. *)
Inductive Reg := RAX | RBX | RCX | RDX | RDI | RSI | R8 | R9 | R10 | R11 | R12 | R13 | R14 | R15 | RBP.

#[export] Instance Reg_eq_dec : EqDecision Reg.
Proof. solve_decision. Defined.

Record CpuFrame := mkCpuFrame { reg : Reg -> Z; stk : list Z }.

Definition push (r : Reg) (c : CpuFrame) : CpuFrame := mkCpuFrame (reg c) (reg c r :: stk c).
Definition pop (r : Reg) (c : CpuFrame) : option CpuFrame :=
  match stk c with v :: s => Some (mkCpuFrame (<[r := v]> (reg c)) s) | [] => None end.

Definition push_regs (c : CpuFrame) : CpuFrame :=
  foldl (flip push) c [RAX; RBX; RCX; RDX; RDI; RSI; R8; R9; R10; R11; R12; R13; R14; R15].
Definition pop_regs (c : CpuFrame) : option CpuFrame :=
  foldl (fun c r => c ← c; pop r c) (Some c) [R15; R14; R13; R12; R11; R10; R9; R8; RSI; RDI; RDX; RCX; RBX; RAX].

(** [interrupt_fn_impl!] up to its [iretq]: the compiler's preamble saves RBP, which
    from then on marks the frame, so what was pushed by the processor is right above
    it.  [inner] sees that part of the stack and may change every register. *)
Definition interrupt_fn (inner : list Z -> (Reg -> Z) -> Reg -> Z) (c : CpuFrame) : option CpuFrame :=
  let c1 := push RBP c in
  let frame := stk c1 in
  let c2 := push_regs c1 in
  c3 ← pop_regs (mkCpuFrame (inner (drop 1 frame) (reg c2)) (stk c2));
  pop RBP (mkCpuFrame (reg c3) frame).

(** Pushing registers and popping them in the opposite order restores them. *)
Lemma pop_push_regs c f : exists c', pop_regs (mkCpuFrame f (stk (push_regs c))) = Some c' /\ stk c' = stk c /\
  forall r, r <> RBP -> reg c' r = reg c r.
Proof. eexists. split; [reflexivity|]. split; [reflexivity|]. by intros []. Qed.

(** A handler is transparent to the interrupted code: it returns with the registers and
    the stack it was entered with, whatever its body does to the registers, and the body
    is given the processor's frame. *)
Lemma interrupt_transparent inner c : exists c', interrupt_fn inner c = Some c' /\ stk c' = stk c /\
  forall r, reg c' r = reg c r.
Proof.
  unfold interrupt_fn. destruct (pop_push_regs (push RBP c) (inner (drop 1 (stk (push RBP c))) (reg (push_regs (push RBP c)))))
    as (c' & -> & _ & Hr). eexists. split; [reflexivity|]. split; [reflexivity|]. intros r. cbn [reg].
  destruct (decide (r = RBP)) as [->|Hne]; [by rewrite fn_lookup_insert|]. rewrite fn_lookup_insert_ne by done. by apply Hr.
Qed.

(** C37: exactly the four fault vectors are armed, and each leads to its handler.  In
    the bytes of the table after [init], the processor decodes vectors 0, 2, 13 and 14
    as present ring-0 interrupt gates in segment 8 with the full 64-bit address of the
    handler; every other vector is not present. *)
Theorem idt_gates_decoded {FH : FaultHandlers} vector :
  is_u 64 zero_division_handler -> is_u 64 nmi_handler -> is_u 64 protection_fault_handler ->
  is_u 64 page_fault_handler -> (vector < 256)%nat ->
  idt_gate (idt_memory (idt_init IDT)) vector =
  match vector with
  | 0 => Some (mkIdtGate 8 zero_division_handler 0xE 0)
  | 2 => Some (mkIdtGate 8 nmi_handler 0xE 0)
  | 13 => Some (mkIdtGate 8 protection_fault_handler 0xE 0)
  | 14 => Some (mkIdtGate 8 page_fault_handler 0xE 0)
  | _ => None
  end%nat.
Proof.
  intros H0 H2 H13 H14 Hv. unfold idt_init.
  destruct (decide (vector = 0 \/ vector = 2 \/ vector = 13 \/ vector = 14)%nat) as [[-> | [-> | [-> | ->]]]|Hno].
  1-4: erewrite idt_gate_entry by reflexivity; by apply gate_of_func.
  rewrite (idt_gate_entry _ _ idt_entry_new).
  - do 15 (destruct vector as [|vector]; [tauto||reflexivity|]). reflexivity.
  - rewrite !list_lookup_alter_ne by lia. by apply lookup_replicate_2.
Qed.

Definition some_handlers : FaultHandlers :=
  {| zero_division_handler := 0x101000; nmi_handler := 0x101100;
     protection_fault_handler := 0xffffffff80101200; page_fault_handler := 0x101300 |}.

Lemma idt_gates_decoded_witness :
  idt_gate (idt_memory (@idt_init some_handlers IDT)) 13 = Some (mkIdtGate 8 0xffffffff80101200 0xE 0).
Proof.
  apply (@idt_gates_decoded some_handlers 13); try (vm_compute; split; [discriminate|reflexivity]). lia.
Defined.
