(* ===== verification/Registers.v ===== *)
(** * Descriptor-table registers ([mythril/src/registers.rs], [mythril/src/interrupt/idt.rs])

    [lidt] loads the interrupt table register from a limit and a base; [sidt] and [sgdt]
    store a register to memory as ten packed bytes, from which the code takes the base
    that goes into the host state of a VMCS. *)

From S2P Require Import Prelude Error Memory Vmcs VCpu Idt.

(** The registers of a core: limit and base of each table. *)
Record TableRegs := mkTableRegs { idtr : Z * Z; gdtr : Z * Z }.

Record IdtInfo := mkIdtInfo { limit : Z; base_addr : Z }.
Record GdtInfo := mkGdtInfo { size : Z; offset : Z }.

(** The packed layouts of the two structures, as the processor fills them. *)
Definition table_bytes (r : Z * Z) : list Z := le_bytes 2 r.1 ++ le_bytes 8 r.2.
Definition sidt (t : TableRegs) : list Z := table_bytes (idtr t).
Definition sgdt (t : TableRegs) : list Z := table_bytes (gdtr t).
Definition idt_info_of (bytes : list Z) : IdtInfo := mkIdtInfo (of_le (take 2 bytes)) (of_le (take 8 (drop 2 bytes))).
Definition gdt_info_of (bytes : list Z) : GdtInfo := mkGdtInfo (of_le (take 2 bytes)) (of_le (take 8 (drop 2 bytes))).

(** [IdtrBase::read] and [GdtrBase::read] *)
Definition idtr_base_read (t : TableRegs) : Z := let info := idt_info_of (sidt t) in base_addr info.
Definition gdtr_base_read (t : TableRegs) : Z := let info := gdt_info_of (sgdt t) in offset info.

(** [DescriptorTablePointer::new_from_slice]: the limit is the last byte of the slice;
    [idt_addr] is where the linker put the table. *)
Definition new_from_slice (idt_addr : Z) (t : list IdtEntry) : Z * Z :=
  (u16 (Z.of_nat (length t) * 16 - 1), idt_addr).
Definition lidt (p : Z * Z) (r : TableRegs) : TableRegs := mkTableRegs p (gdtr r).

Definition ap_init (idt_addr : Z) (t : list IdtEntry) (r : TableRegs) : TableRegs :=
  let idt := new_from_slice idt_addr t in
  lidt idt r.

(** [idt::init]: the gates are set, then the table is loaded. *)
Definition idt_load {FH : FaultHandlers} (idt_addr : Z) (s : list IdtEntry * TableRegs) : list IdtEntry * TableRegs :=
  let t := idt_init s.1 in
  (t, ap_init idt_addr t s.2).

(** What [initialize_host_vmcs] reads of a core with these registers. *)
Definition host_regs_of (r : TableRegs) (cr0 cr3 cr4 code data wrapper : Z) : HostRegs :=
  mkHostRegs cr0 cr3 cr4 code data (idtr_base_read r) (gdtr_base_read r) wrapper.

Lemma table_bytes_base r : is_u 64 r.2 -> of_le (take 8 (drop 2 (table_bytes r))) = r.2.
Proof.
  intros Hr. unfold table_bytes. change (drop 2 _) with (le_bytes 8 r.2). change (take 8 _) with (le_bytes 8 r.2).
  rewrite of_le_bytes. by apply wrap_small.
Qed.

(** The host state of a core that has loaded the interrupt table: on an exit the
    processor gets back the base of that table and of the segment table the core runs
    with, and the loaded limit covers exactly the 256 gates. *)
Lemma host_tables_restored `{VmxCpu} {FH : FaultHandlers} idt_addr regs t regs' cr0 cr3 cr4 code data wrapper stack v :
  is_u 64 idt_addr -> is_u 64 (gdtr regs).2 -> idt_load idt_addr (IDT, regs) = (t, regs') ->
  let h := host_regs_of regs' cr0 cr3 cr4 code data wrapper in
  accepted (host_fields h stack) ->
  exists v', initialize_host_vmcs h stack v = (v', Ok tt) /\ vmcs_peek v' HostIdtrBase = idt_addr /\
    vmcs_peek v' HostGdtrBase = (gdtr regs).2 /\ limit (idt_info_of (sidt regs')) + 1 = Z.of_nat (length (idt_memory t)).
Proof.
  intros Hi Hg [= <- <-] h Ha. exists (store_all (host_fields h stack) v).
  split; [by apply write_fields_ok|].
  rewrite (store_all_at _ 13 HostIdtrBase (idtr_base_read (ap_init idt_addr (idt_init IDT) regs))) by reflexivity.
  rewrite (store_all_at _ 14 HostGdtrBase (gdtr_base_read (ap_init idt_addr (idt_init IDT) regs))) by reflexivity.
  unfold idtr_base_read, gdtr_base_read, idt_info_of, gdt_info_of, sidt, sgdt. cbn [base_addr offset ap_init lidt idtr gdtr].
  rewrite !table_bytes_base by done. unfold new_from_slice. cbn [snd].
  split; [by apply wrap_small|]. split; [by apply wrap_small|]. vm_compute. reflexivity.
Qed.
