(* ===== verification/Vmx.v ===== *)
(** * VMX operation and control structures ([mythril/src/vmx.rs], [mythril/src/vmcs.rs],
    the entry points of [mythril/src/vmexit.rs] and [mythril/src/vcpu.rs])

    The processor is a parameter: its VMX state, and what the VMX instructions do to it
    and leave in the flags.  The laws are the manual's conditions for success. *)

From S2P Require Import Prelude Error Memory VirtDev IoApic Vmcs VmExit Clock Apic Timers Vm Lapic Platform MemIo Core VCpu.

(** ** The processor *)

Class VmxHw := {
  vx : Type;
  vx_has_vmx : option bool;
  vx_basic : Z;
  vx_errno : Z;
  vx_phys_bits : Z;
  vx_feature_control : Z;
  vx_cr0_fixed : Z * Z;
  vx_cr4_fixed : Z * Z;
  get_cr0 : vx -> Z;
  get_cr4 : vx -> Z;
  set_cr0 : Z -> vx -> vx;
  set_cr4 : Z -> vx -> vx;
  read_u32_at : Z -> vx -> Z;
  write_u32_at : Z -> Z -> vx -> vx;
  vmxon : Z -> vx -> vx * Z;
  vmxoff : vx -> vx * Z;
  vmptrld : Z -> vx -> vx * Z;
  vmclear : Z -> vx -> vx * Z;
  vmlaunch : vx -> vx * Z;
  invept_insn : Z -> Z -> vx -> vx * Z
}.

Section vmx.
Context {VH : VmxHw}.

(** An instruction and the interpretation of its flags. *)
Definition checked (insn : vx -> vx * Z) (m : msg) : st vx unit := fun s =>
  let '(s', rflags) := insn s in (s', check_vm_insruction vx_errno rflags m).

Definition VMX_ENABLE_FLAG : Z := Z.shiftl 1 13.

(** [Vmx::revision] *)
Definition vmx_revision : Z := u32 vx_basic.

(** [Vmx::enable]; the page allocated for the region is at [vmxon_region]. *)
Definition vmx_enable (vmxon_region : Z) : st vx Z :=
  _ ← match vx_has_vmx with Some true => mret tt | _ => err NotSupported end;
  _ ← modify (fun s => set_cr0 (Z.lor (get_cr0 s) 0x20) s);
  _ ← modify (fun s => set_cr4 (Z.lor (get_cr4 s) VMX_ENABLE_FLAG) s);
  let revision_id := vmx_revision in
  _ ← modify (write_u32_at vmxon_region revision_id);
  _ ← checked (vmxon vmxon_region) (str "Failed to enable vmx");
  mret vmxon_region.

Definition vmx_disable : st vx unit := checked vmxoff (str "Failed to disable vmx").

Inductive InvEptMode := EptSingleContext (eptp : Z) | EptGlobalContext.

Definition invept_operand (mode : InvEptMode) : Z * Z :=
  match mode with EptSingleContext eptp => (1, eptp) | EptGlobalContext => (2, 0) end.
Definition invept (mode : InvEptMode) : st vx unit :=
  let '(t, val) := invept_operand mode in
  checked (invept_insn t val) (str "Failed to execute invept").

(** ** [vmcs.rs]: a [Vmcs] is the address of its frame *)

Definition vmcs_activate (frame : Z) : st vx unit :=
  let revision_id := vmx_revision in
  _ ← modify (write_u32_at frame revision_id);
  checked (vmptrld frame) (str "Failed to activate VMCS").

Definition vmcs_clear (frame : Z) : st vx unit := checked (vmclear frame) (str "Failed to clear VMCS").

(** [Vmcs::activate] ([ActiveVmcs::new]) and [ActiveVmcs::deactivate] keep frame and region. *)
Definition active_new (frame vmx : Z) : st vx (Z * Z) :=
  _ ← vmcs_activate frame;
  mret (frame, vmx).
Definition active_deactivate (active : Z * Z) : st vx (Z * Z) :=
  _ ← vmcs_clear (fst active);
  mret active.

(** [TemporaryActiveVmcs::new], and its drop. *)
Definition temporary_new (frame : Z) : st vx Z :=
  _ ← vmcs_activate frame;
  mret frame.
Definition temporary_drop (frame : Z) : st vx unit := fun s =>
  let '(s', r) := vmcs_clear frame s in (s', res_expect r "Failed to clear TemporaryActiveVmcs").

(** [Vmcs::with_active_vmcs]: the callback owns the temporary, which is dropped when it
    returns, with a result or an error. *)
Definition use_temporary {T} (frame : Z) (callback : st vx T) : st vx T := fun s =>
  match callback s with
  | (s1, Panic w) => (s1, Panic w)
  | (s1, r) => let '(s2, d) := temporary_drop frame s1 in (s2, match d with Ok _ => r | Err e => Err e | Panic w => Panic w end)
  end.
Definition with_active_vmcs {T} (frame : Z) (callback : st vx T) : st vx T :=
  t ← temporary_new frame;
  use_temporary t callback.

(** ** [vcpu.rs]: the start of [VCpu::new], and [launch] *)

Definition vcpu_vmcs (vmxon_region frame : Z) : st vx (Z * Z) :=
  vmx ← vmx_enable vmxon_region;
  active_new frame vmx.

(** [launch]: [vmlaunch_wrapper] only returns when the entry failed. *)
Definition launch : st vx Empty_set :=
  _ ← checked vmlaunch (str "Failed to launch vm");
  panic "internal error: entered unreachable code".

(** [vmresume_failure_handler] *)
Definition vmresume_failure_handler (rflags : Z) : res unit :=
  res_expect (check_vm_insruction vx_errno rflags (str "Failed to vmresume")) "vmresume failed".
End vmx.

(** ** A core from its start to its exits *)

Section core_loop.
Context {D H : Type} `{EmulatedDevice Platform D} `{IoApicHw H} `{VmxCpu} `{CoreCpu} `{GuestPaging} `{Decoder} `{TimeSource}.
Context `{HA : HostAlloc}.
Context (apic : LocalApic) (ioapics : list IoApic) (this_core : Z) (this_vm : nat).
Notation M := (st (Core D H)).

Definition on_vmcs_host {A} (m : st (VmcsState * Host) A) : M A := fun c =>
  let '((v, h), r) := m (c_vmcs c, c_host c) in
  (mkCore v (c_lapic c) (c_pending c) (c_cpu c) (c_wheel c) (c_hw c) (c_set c) h (c_ioapics c)
     (c_flushed c) (c_console c) (c_responses c), r).

(** [time::init_timer_wheel] *)
Definition init_timer_wheel : M unit := fun c =>
  (mkCore (c_vmcs c) (c_lapic c) (c_pending c) (c_cpu c) wheel_new (c_hw c) (c_set c) (c_host c) (c_ioapics c)
     (c_flushed c) (c_console c) (c_responses c), Ok tt).

(** [while !vm.all_cores_ready()]; [env] is what the other cores do between polls. *)
Fixpoint wait_all_ready (fuel : nat) (env : nat -> VirtualMachineSet D -> VirtualMachineSet D) : M unit :=
  match fuel with
  | O => panic "out of fuel"
  | S fuel =>
      _ ← on_set (fun '(s, hw) => ((env fuel s, hw), Ok tt));
      v ← this_machine this_vm;
      if all_cores_ready v then mret tt else wait_all_ready fuel env
  end.

(** [mp_entry_point] up to the launch of the guest. *)
Definition mp_entry_point (h : HostRegs) (stack : Z) (fuel fuel' : nat)
    (env env' : nat -> VirtualMachineSet D -> VirtualMachineSet D) : M unit :=
  _ ← init_timer_wheel;
  c ← get;
  vm ← lift (expect (get_by_core_id (c_set c) this_core) "Failed to find VM associated with {}");
  _ ← st_expect (on_vmcs_host (vcpu_new h stack this_core vm)) "Failed to create vcpu";
  bsp ← lift (bsp_id vm);
  let is_vm_bsp := bsp =? this_core in
  v ← this_machine this_vm;
  _ ← put_machine this_vm (notify_ready v);
  _ ← wait_all_ready fuel env;
  if negb is_vm_bsp then st_expect (wait_for_init this_core fuel' env') "Error while waiting for AP init"
  else mret tt.

(** [vmexit_handler]: an error of the handler is a panic of the hypervisor. *)
Definition vmexit_handler : M unit := fun c =>
  match res_expect (exit_reason_from_vmcs (c_vmcs c)) "Failed to get vm reason" with
  | Ok reason =>
      match handle_vmexit apic ioapics this_core this_vm reason c with
      | (c', Err e) =>
          (c', _ ← res_expect (exit_reason_from_vmcs (c_vmcs c')) "Failed to get vm reason";
               Panic "Failed to handle vmexit: {:?}")
      | r => r
      end
  | Err e => (c, Err e)
  | Panic w => (c, Panic w)
  end.

(** The handler returns to the guest or stops the hypervisor: no error is dropped. *)
Lemma vmexit_handler_no_err c c' e : vmexit_handler c <> (c', Err e).
Proof.
  unfold vmexit_handler. destruct (exit_reason_from_vmcs (c_vmcs c)) as [reason|e1|w]; cbn; [|done..].
  destruct (handle_vmexit _ _ _ _ reason c) as [c1 [[]|e2|w]]; [done| |done].
  destruct (exit_reason_from_vmcs (c_vmcs c1)); done.
Qed.

(** The wait ends only in a state where all cores of the machine are ready. *)
Lemma wait_all_ready_done fuel env c c' :
  wait_all_ready fuel env c = (c', Ok tt) ->
  exists v, vms (c_set c') !! this_vm = Some v /\ all_cores_ready v = true.
Proof.
  revert c. induction fuel as [|fuel IH]; intros c; cbn [wait_all_ready]; [done|].
  rewrite st_bind_eq. unfold on_set at 1. cbn. set (c1 := mkCore _ _ _ _ _ _ _ _ _ _ _ _).
  rewrite st_bind_eq. unfold this_machine. destruct (vms (c_set c1) !! this_vm) as [v|] eqn:Hv; cbn; [|done].
  destruct (all_cores_ready v) eqn:Hr; [|apply IH]. intros [= <-]. by exists v.
Qed.
End core_loop.

(** ** Conditions for success *)

(** The flags of success and failure. *)
Definition vm_succeeds (rflags : Z) : Prop := has_bits rflags FLAGS_CF = false /\ has_bits rflags FLAGS_ZF = false.

(** A page within the processor's physical addresses. *)
Definition page_aligned {VH : VmxHw} (a : Z) : Prop := 0 <= a < 2 ^ vx_phys_bits /\ a mod 4096 = 0.

(** The bits a control register must have set and may have set in VMX operation
    (IA32_VMX_CR0_FIXED0 and FIXED1, and their counterparts for CR4). *)
Definition obeys_fixed (fixed : Z * Z) (v : Z) : Prop := forall i, 0 <= i ->
  (Z.testbit fixed.1 i = true -> Z.testbit v i = true) /\ (Z.testbit v i = true -> Z.testbit fixed.2 i = true).

(** The firmware has locked IA32_FEATURE_CONTROL with VMX outside SMX operation enabled. *)
Definition firmware_allows_vmx {VH : VmxHw} : Prop := bit vx_feature_control 0 = true /\ bit vx_feature_control 2 = true.

(** The manual's rules, in ring 0 outside system management mode: VMXON needs VMX allowed by the firmware, CR4.VMXE, control registers that
    obey the fixed bits, and a page with the processor's revision; VMPTRLD makes such a page
    current; VMCLEAR of the current one leaves none current.  Where a rule is broken nothing is said
    (VMXON then faults). *)
Class VmxLaws {VH : VmxHw} := {
  vmx_region : vx -> option Z;
  current_vmcs : vx -> option Z;
  cr0_kept : forall v s, get_cr0 (set_cr0 v s) = v /\ get_cr4 (set_cr0 v s) = get_cr4 s /\
    vmx_region (set_cr0 v s) = vmx_region s /\ current_vmcs (set_cr0 v s) = current_vmcs s;
  cr4_kept : forall v s, get_cr4 (set_cr4 v s) = v /\ get_cr0 (set_cr4 v s) = get_cr0 s /\
    vmx_region (set_cr4 v s) = vmx_region s /\ current_vmcs (set_cr4 v s) = current_vmcs s;
  u32_kept : forall a v s, let s' := write_u32_at a v s in
    read_u32_at a s' = v /\ get_cr0 s' = get_cr0 s /\ get_cr4 s' = get_cr4 s /\
    vmx_region s' = vmx_region s /\ current_vmcs s' = current_vmcs s;
  vmxon_law : forall a s, vmx_region s = None -> firmware_allows_vmx -> bit (get_cr4 s) 13 = true ->
    obeys_fixed vx_cr0_fixed (get_cr0 s) -> obeys_fixed vx_cr4_fixed (get_cr4 s) -> page_aligned a -> read_u32_at a s = vmx_revision ->
    exists s' rflags, vmxon a s = (s', rflags) /\ vm_succeeds rflags /\
      vmx_region s' = Some a /\ current_vmcs s' = None;
  vmptrld_law : forall a s r, vmx_region s = Some r -> a <> r -> page_aligned a -> read_u32_at a s = vmx_revision ->
    exists s' rflags, vmptrld a s = (s', rflags) /\ vm_succeeds rflags /\
      vmx_region s' = Some r /\ current_vmcs s' = Some a;
  vmclear_law : forall a s r, vmx_region s = Some r -> a <> r -> page_aligned a ->
    exists s' rflags, vmclear a s = (s', rflags) /\ vm_succeeds rflags /\
      vmx_region s' = Some r /\ current_vmcs s' = if decide (current_vmcs s = Some a) then None else current_vmcs s
}.

Section vmx_theorems.
Context {VH : VmxHw} {VL : VmxLaws}.

Lemma checked_ok insn m s s' rflags :
  insn s = (s', rflags) -> vm_succeeds rflags -> checked insn m s = (s', Ok tt).
Proof. intros E Hf. unfold checked. rewrite E. by rewrite (proj2 (check_vm_insruction_Ok _ _ _) Hf). Qed.

Lemma enabled_bits x k : 0 <= k -> bit (Z.lor x (Z.shiftl 1 k)) k = true.
Proof. intros Hk. rewrite bit_testbit, Z.lor_spec, testbit_single, Z.eqb_refl by done. apply orb_true_r. Qed.

(** What [Vmx::enable] relies on without checking it: the firmware's permission, and control registers that obey
    the fixed bits once NE and VMXE are set. *)
Definition vmx_permitted (s : vx) : Prop :=
  firmware_allows_vmx /\ obeys_fixed vx_cr0_fixed (Z.lor (get_cr0 s) 0x20) /\
  obeys_fixed vx_cr4_fixed (Z.lor (get_cr4 s) VMX_ENABLE_FLAG).

(** VMX can then be enabled once, on any page. *)
Lemma vmx_enable_ok region s :
  vx_has_vmx = Some true -> vmx_permitted s -> vmx_region s = None -> page_aligned region ->
  exists s', vmx_enable region s = (s', Ok region) /\ vmx_region s' = Some region /\ current_vmcs s' = None.
Proof.
  intros Hv (Hfw & Hc0 & Hc4) Hoff Hp. unfold vmx_enable. rewrite Hv. rewrite st_bind_eq. unfold mret at 1, st_ret at 1.
  do 3 (rewrite st_bind_eq; unfold modify at 1).
  set (s1 := set_cr0 _ s). set (s2 := set_cr4 _ s1). set (s3 := write_u32_at _ _ s2).
  destruct (cr0_kept (Z.lor (get_cr0 s) 0x20) s) as (H1 & H2 & H3 & H4). fold s1 in H1, H2, H3, H4.
  destruct (cr4_kept (Z.lor (get_cr4 s1) VMX_ENABLE_FLAG) s1) as (H5 & H6 & H7 & H8). fold s2 in H5, H6, H7, H8.
  destruct (u32_kept region vmx_revision s2) as (H9 & H10 & H11 & H12 & H13). fold s3 in H9, H10, H11, H12, H13.
  destruct (vmxon_law region s3) as (s4 & rflags & E & Hf & Hr & Hc).
  - congruence.
  - done.
  - rewrite H11, H5. by apply (enabled_bits _ 13).
  - by rewrite H10, H6, H1.
  - by rewrite H11, H5, H2.
  - done.
  - done.
  - exists s4. rewrite st_bind_eq, (checked_ok _ _ _ _ _ E Hf). done.
Qed.

Lemma vmcs_activate_ok frame region s :
  vmx_region s = Some region -> frame <> region -> page_aligned frame ->
  exists s', vmcs_activate frame s = (s', Ok tt) /\ vmx_region s' = Some region /\ current_vmcs s' = Some frame.
Proof.
  intros Hr Hne Hp. unfold vmcs_activate. rewrite st_bind_eq. unfold modify at 1.
  destruct (u32_kept frame vmx_revision s) as (H1 & _ & _ & H2 & _).
  destruct (vmptrld_law frame (write_u32_at frame vmx_revision s) region) as (s' & rflags & E & Hf & Hr' & Hc);
    [congruence|done..|]. exists s'. by rewrite (checked_ok _ _ _ _ _ E Hf).
Qed.

Lemma vmcs_clear_ok frame region s :
  vmx_region s = Some region -> frame <> region -> page_aligned frame ->
  exists s', vmcs_clear frame s = (s', Ok tt) /\ vmx_region s' = Some region /\
    current_vmcs s' = if decide (current_vmcs s = Some frame) then None else current_vmcs s.
Proof.
  intros Hr Hne Hp. destruct (vmclear_law frame s region Hr Hne Hp) as (s' & rflags & E & Hf & Hr' & Hc).
  exists s'. unfold vmcs_clear. by rewrite (checked_ok _ _ _ _ _ E Hf).
Qed.
End vmx_theorems.

(** C25: which control structure is current.  On a processor with VMX that is off, where the
    firmware allows VMX and the control registers obey the fixed bits once [Vmx::enable] has set its two (neither is checked
    by the code), [VCpu::new] switches VMX on and makes its own structure the current
    one.  [with_active_vmcs] of another structure runs its callback with that one current and, whether
    the callback returns a result or an error, leaves VMX on and no structure current, so the one that
    was current before, the core's own too, is not until it is activated again; giving that one
    back with [deactivate] leaves it not current.  The callback must keep VMX on and its structure current, and not panic. *)
Theorem vmcs_current_while_used {VH : VmxHw} {VL : VmxLaws} {T} region frame temp (callback : st vx T) s :
  vx_has_vmx = Some true -> vmx_permitted s -> vmx_region s = None ->
  page_aligned region -> page_aligned frame -> page_aligned temp -> frame <> region -> temp <> region ->
  (forall s1 r s2, vmx_region s1 = Some region -> current_vmcs s1 = Some temp -> callback s1 = (s2, r) ->
     vmx_region s2 = Some region /\ current_vmcs s2 = Some temp /\ forall w, r <> Panic w) ->
  exists s', vcpu_vmcs region frame s = (s', Ok (frame, region)) /\
    vmx_region s' = Some region /\ current_vmcs s' = Some frame /\
    (exists s1 s2 s3 r, vmcs_activate temp s' = (s1, Ok tt) /\ current_vmcs s1 = Some temp /\
      callback s1 = (s2, r) /\ with_active_vmcs temp callback s' = (s3, r) /\
      vmx_region s3 = Some region /\ current_vmcs s3 = None /\
      exists s4, vmcs_activate frame s3 = (s4, Ok tt) /\ current_vmcs s4 = Some frame) /\
    exists s5, active_deactivate (frame, region) s' = (s5, Ok (frame, region)) /\
      vmx_region s5 = Some region /\ current_vmcs s5 = None.
Proof.
  intros Hv Hper Hoff Hpr Hpf Hpt Hne Hnt Hcb.
  destruct (vmx_enable_ok region s Hv Hper Hoff Hpr) as (s0 & E0 & Hr0 & _).
  destruct (vmcs_activate_ok frame region s0 Hr0 Hne Hpf) as (s' & E1 & Hr' & Hc').
  exists s'. split; [unfold vcpu_vmcs, active_new; rewrite st_bind_eq, E0, st_bind_eq, E1; done|].
  split; [done|]. split; [done|]. split.
  - destruct (vmcs_activate_ok temp region s' Hr' Hnt Hpt) as (s1 & Ea & Hr1 & Hc1).
    destruct (callback s1) as [s2 r] eqn:Ec. destruct (Hcb s1 r s2 Hr1 Hc1 Ec) as (Hr2 & Hc2 & Hnp).
    destruct (vmcs_clear_ok temp region s2 Hr2 Hnt Hpt) as (s3 & Ed & Hr3 & Hc3).
    rewrite decide_True in Hc3 by done.
    destruct (vmcs_activate_ok frame region s3 Hr3 Hne Hpf) as (s4 & E4 & _ & Hc4).
    exists s1, s2, s3, r. split_and!; try done; [|by exists s4].
    unfold with_active_vmcs, temporary_new. rewrite !st_bind_eq, Ea. unfold mret at 1, st_ret at 1. cbv beta iota. unfold use_temporary, temporary_drop. rewrite Ec, Ed.
    destruct r as [x|e|w]; [done|done|by destruct (Hnp w)].
  - destruct (vmcs_clear_ok frame region s' Hr' Hne Hpf) as (s5 & E5 & Hr5 & Hc5). rewrite decide_True in Hc5 by done.
    exists s5. split; [|done]. unfold active_deactivate. cbn [fst]. by rewrite st_bind_eq, E5.
Qed.

(** A processor that follows the rules literally. *)
Record ToyVmx := mkToyVmx { tv_cr0 : Z; tv_cr4 : Z; tv_mem : gmap Z Z; tv_region : option Z; tv_current : option Z }.

Definition toy_flags (b : bool) : Z := if b then 0 else FLAGS_CF.
Definition toy_vmx : VmxHw := {|
  vx := ToyVmx; vx_has_vmx := Some true; vx_basic := 0x80000000000012; vx_errno := 0; vx_phys_bits := 36;
  vx_feature_control := 5; vx_cr0_fixed := (0x80000021, 0xffffffff); vx_cr4_fixed := (0x2000, 0x3767ff);
  get_cr0 := tv_cr0; get_cr4 := tv_cr4;
  set_cr0 v s := mkToyVmx v (tv_cr4 s) (tv_mem s) (tv_region s) (tv_current s);
  set_cr4 v s := mkToyVmx (tv_cr0 s) v (tv_mem s) (tv_region s) (tv_current s);
  read_u32_at a s := default 0 (tv_mem s !! a);
  write_u32_at a v s := mkToyVmx (tv_cr0 s) (tv_cr4 s) (<[a := v]> (tv_mem s)) (tv_region s) (tv_current s);
  vmxon a s :=
    let ok := bool_decide (tv_region s = None) && (default 0 (tv_mem s !! a) =? 0x12) in
    (if ok then mkToyVmx (tv_cr0 s) (tv_cr4 s) (tv_mem s) (Some a) None else s, toy_flags ok);
  vmxoff s := (mkToyVmx (tv_cr0 s) (tv_cr4 s) (tv_mem s) None None, 0);
  vmptrld a s :=
    let ok := default 0 (tv_mem s !! a) =? 0x12 in
    (if ok then mkToyVmx (tv_cr0 s) (tv_cr4 s) (tv_mem s) (tv_region s) (Some a) else s, toy_flags ok);
  vmclear a s :=
    (mkToyVmx (tv_cr0 s) (tv_cr4 s) (tv_mem s) (tv_region s)
       (if decide (tv_current s = Some a) then None else tv_current s), 0);
  vmlaunch s := (s, FLAGS_CF);
  invept_insn _ _ s := (s, 0)
|}.

#[refine] Instance toy_vmx_laws : @VmxLaws toy_vmx := {|
  vmx_region := fun s : @vx toy_vmx => tv_region s; current_vmcs := fun s : @vx toy_vmx => tv_current s |}.
Proof.
  - done.
  - done.
  - intros a v s. cbn. by rewrite lookup_insert_eq.
  - intros a s Hr _ _ _ _ _ Hm. cbn in *. rewrite Hr, Hm. cbn. by do 2 eexists.
  - intros a s r Hr _ _ Hm. cbn in *. rewrite Hm. cbn. by do 2 eexists.
  - intros a s r Hr _ _. cbn in *. by do 2 eexists.
Defined.

Lemma obeys_fixed_land (fixed0 fixed1 v : Z) :
  0 <= v -> Z.land fixed0 v = fixed0 -> Z.land v fixed1 = v -> obeys_fixed (fixed0, fixed1) v.
Proof.
  intros Hv H0 H1 i Hi. cbn [fst snd]. split; intros H.
  - rewrite <- H0, Z.land_spec in H. by apply andb_true_iff in H as [_ H].
  - rewrite <- H1, Z.land_spec in H. by apply andb_true_iff in H as [_ H].
Qed.

Lemma vmcs_current_while_used_witness :
  exists s' : ToyVmx, @vcpu_vmcs toy_vmx 0x1000 0x2000 (mkToyVmx 0x80000011 0x20 ∅ None None) = (s', Ok (0x2000, 0x1000)) /\
    tv_current s' = Some 0x2000.
Proof.
  destruct (@vmcs_current_while_used toy_vmx toy_vmx_laws unit 0x1000 0x2000 0x3000 (mret tt) (mkToyVmx 0x80000011 0x20 ∅ None None))
    as (s' & E & _ & Hc & _).
  - reflexivity.
  - split; [split; reflexivity|]. split; [apply (obeys_fixed_land 0x80000021 0xffffffff)|apply (obeys_fixed_land 0x2000 0x3767ff)];
      try reflexivity; vm_compute; discriminate.
  - reflexivity.
  - vm_compute. done.
  - vm_compute. done.
  - vm_compute. done.
  - discriminate.
  - discriminate.
  - intros s1 r s2 Hr Hc1 [= <- <-]. split; [exact Hr|]. split; [exact Hc1|discriminate].
  - exists s'. split; [exact E|exact Hc].
Defined.
