(* ===== verification/Typing.v ===== *)
(** * Values keep their Rust types: devices

    Machine integers are modelled as [Z], so that every value stays in the range of its
    Rust type is itself a theorem.  This file has the predicate and its rules, and
    proves it for guest memory and for every virtual device; [CoreTyping] lifts it to
    the exit handler.  [TypedDevice] is what the handler relies on of a device. *)

From S2P Require Import Prelude Error BTreeMap Memory VirtDev Clock Apic Timers Vm Platform Uart Pit Devices Pci FwCfg Machine.

(** ** Code that keeps an invariant *)

(** [m] keeps [I], and its results satisfy [Q]. *)
Definition keeps {S A} (I : S -> Prop) (m : st S A) (Q : A -> Prop) : Prop :=
  forall s, I s -> I (fst (m s)) /\ forall a, snd (m s) = Ok a -> Q a.

Section keeps.
Context {S : Type} (I : S -> Prop).

Lemma keeps_ret {A} (a : A) (Q : A -> Prop) : Q a -> keeps I (mret a) Q.
Proof. intros Hq s Hs. split; [done|]. by intros b [= <-]. Qed.
Lemma keeps_bind {A B} (m : st S A) (f : A -> st S B) Q R :
  keeps I m Q -> (forall a, Q a -> keeps I (f a) R) -> keeps I (m ≫= f) R.
Proof.
  intros Hm Hf s Hs. destruct (Hm s Hs) as [H1 H2]. rewrite st_bind_eq.
  destruct (m s) as [s' [a|e|w]]; cbn in *; [|by split..]. apply Hf; auto.
Qed.
Lemma keeps_err {A} e (Q : A -> Prop) : keeps I (err e) Q.
Proof. by intros s Hs. Qed.
Lemma keeps_panic {A} w (Q : A -> Prop) : keeps I (panic w) Q.
Proof. by intros s Hs. Qed.
Lemma keeps_lift {A} (r : res A) (Q : A -> Prop) : (forall a, r = Ok a -> Q a) -> keeps I (lift r) Q.
Proof. intros Hr s Hs. by split. Qed.
Lemma keeps_weaken {A} (m : st S A) (Q R : A -> Prop) : keeps I m Q -> (forall a, Q a -> R a) -> keeps I m R.
Proof. intros Hm Hq s Hs. destruct (Hm s Hs). split; [done|]. auto. Qed.
Lemma keeps_iter {X} (f : X -> st S unit) (P : X -> Prop) l :
  (forall x, P x -> keeps I (f x) (fun _ => True)) -> Forall P l -> keeps I (st_iter f l) (fun _ => True).
Proof.
  intros Hf Hl. induction Hl as [|x r Hx Hr IH]; cbn; [by apply keeps_ret|].
  eapply keeps_bind; [by apply Hf|]. by intros _ _.
Qed.
Lemma keeps_get (Q : S -> Prop) : (forall s, I s -> Q s) -> keeps I get Q.
Proof. intros Hq s Hs. split; [done|]. intros a [= <-]. auto. Qed.
Lemma keeps_modify f (Q : unit -> Prop) : (forall s, I s -> I (f s)) -> Q tt -> keeps I (modify f) Q.
Proof. intros Hf Hq s Hs. split; [by apply Hf|]. by intros [] _. Qed.
Lemma keeps_if {A} (b : bool) (m n : st S A) Q : keeps I m Q -> keeps I n Q -> keeps I (if b then m else n) Q.
Proof. by destruct b. Qed.
End keeps.

(** ** Words built from words *)

Lemma is_u_0 w : 0 <= w -> is_u w 0.
Proof. intros. unfold is_u. split; [done|]. by apply Z.pow_pos_nonneg. Qed.

Lemma u8_is_u x : is_u 8 (u8 x).
Proof. by apply wrap_is_u. Qed.
Lemma u16_is_u x : is_u 16 (u16 x).
Proof. by apply wrap_is_u. Qed.
Lemma u32_is_u x : is_u 32 (u32 x).
Proof. by apply wrap_is_u. Qed.
Lemma u64_is_u x : is_u 64 (u64 x).
Proof. by apply wrap_is_u. Qed.

Lemma of_be_bounded l n : Forall is_byte l -> (length l <= n)%nat -> is_u (8 * Z.of_nat n) (of_be l).
Proof.
  intros Hb Hl. unfold of_be. apply (is_u_weaken (8 * Z.of_nat (length (reverse l)))).
  - rewrite length_reverse. lia.
  - apply of_le_is_u. by apply Forall_reverse.
Qed.
Lemma of_le_bounded l n : Forall is_byte l -> (length l <= n)%nat -> is_u (8 * Z.of_nat n) (of_le l).
Proof. intros Hb Hl. apply (is_u_weaken (8 * Z.of_nat (length l))); [lia|]. by apply of_le_is_u. Qed.

Lemma shiftl_is_u w k x : 0 <= k -> is_u w x -> 0 <= w -> is_u (w + k) (Z.shiftl x k).
Proof.
  intros Hk Hx Hw. unfold is_u in *. rewrite Z.shiftl_mul_pow2, Z.pow_add_r by done.
  assert (0 < 2 ^ k) by (by apply Z.pow_pos_nonneg). nia.
Qed.

(** ** Memory holds bytes *)

Definition host_typed (h : Host) : Prop := map_Forall (fun _ fr => Forall is_byte fr) (frames h).

Section memory.
Context `{GuestPaging}.

Lemma keeps_read_entry t i : keeps host_typed (read_entry t i) (fun _ => True).
Proof. intros h Hh. unfold read_entry. by destruct (tables h !! t). Qed.
Lemma keeps_as_array f : keeps host_typed (as_array f) (Forall is_byte).
Proof.
  intros h Hh. unfold as_array. destruct (f =? 0); [done|]. split; [done|]. cbn. intros fr.
  destruct (frames h !! f) eqn:Hf; [|done]. intros [= <-]. by apply (Hh f).
Qed.
Lemma keeps_find_host_frame root a : keeps host_typed (find_host_frame root a) (fun _ => True).
Proof.
  unfold find_host_frame. do 4 (eapply keeps_bind; [apply keeps_read_entry|intros ? _]; apply keeps_if; [apply keeps_err|]).
  by apply keeps_lift.
Qed.
Lemma keeps_guest_table_entry f i : keeps host_typed (guest_table_entry f i) (fun _ => True).
Proof. eapply keeps_bind; [apply keeps_as_array|]. intros bytes _. by apply keeps_lift. Qed.
Lemma keeps_next_frame root cr3 access a : keeps host_typed (snd (frame_iter_next root cr3 access a)) (fun _ => True).
Proof.
  cbn. eapply (keeps_bind _ _ _ (fun _ => True)); [|intros ? _; apply keeps_find_host_frame].
  destruct a as [a|a]; cbn; [by apply keeps_ret|]. unfold translate_pl4_address.
  do 3 (eapply keeps_bind; [apply keeps_find_host_frame|intros ? _]; eapply keeps_bind; [apply keeps_guest_table_entry|intros ? _]).
  by apply keeps_ret.
Qed.

Lemma slice_bytes (l s : list Z) a b : Forall is_byte l -> slice l a b = Some s -> Forall is_byte s.
Proof.
  intros Hl Hs. unfold slice in Hs. case_bool_decide; [|done]. injection Hs as <-. by apply Forall_take, Forall_drop.
Qed.
Lemma blit_bytes (l bs : list Z) a : Forall is_byte l -> Forall is_byte bs -> Forall is_byte (blit l a bs).
Proof. intros Hl Hb. unfold blit. apply Forall_app. split; [by apply Forall_take|]. apply Forall_app. split; [done|by apply Forall_drop]. Qed.

Lemma keeps_read_bytes root cr3 a n access : keeps host_typed (read_bytes root cr3 a n access) (Forall is_byte).
Proof.
  unfold read_bytes. generalize (S n) as fuel. intros fuel.
  assert (Forall is_byte []) as Hout by constructor. revert Hout. generalize (@nil Z) as out.
  generalize (Z.to_nat (gva_as_u64 a mod BASE_PAGE_SIZE)) as off. revert a n.
  induction fuel as [|fuel IH]; intros a n off out Hout; cbn [read_bytes_loop]; [apply keeps_panic|].
  pose proof (keeps_next_frame root cr3 access a) as Hn. destruct (frame_iter_next root cr3 access a) as [a' next]. cbn in Hn.
  eapply keeps_bind; [exact Hn|]. intros f _. eapply keeps_bind; [apply keeps_as_array|]. intros arr Harr.
  eapply (keeps_bind _ _ _ (Forall is_byte)).
  - apply keeps_lift. intros s Hs. case_bool_decide.
    + destruct (slice arr _ _) eqn:E; [|done]. injection Hs as <-. by apply (slice_bytes arr _ _ _ Harr E).
    + destruct (slice arr _ _) eqn:E; [|done]. injection Hs as <-. by apply (slice_bytes arr _ _ _ Harr E).
  - intros s Hs. cbn. case_bool_decide; [apply keeps_ret|apply IH]; by apply Forall_app.
Qed.

Lemma keeps_as_mut_array f bs : Forall is_byte bs -> keeps host_typed (as_mut_array f bs) (fun _ => True).
Proof. intros Hb h Hh. split; [|done]. cbn. by apply map_Forall_insert_2. Qed.

Lemma keeps_write_bytes root cr3 a bs access :
  Forall is_byte bs -> keeps host_typed (write_bytes root cr3 a bs access) (fun _ => True).
Proof.
  unfold write_bytes. generalize (S (length bs)) as fuel. intros fuel.
  generalize (Z.to_nat (gva_as_u64 a mod BASE_PAGE_SIZE)) as off. revert a bs.
  induction fuel as [|fuel IH]; intros a bs off Hb; cbn [write_bytes_loop]; [apply keeps_panic|].
  pose proof (keeps_next_frame root cr3 access a) as Hn. destruct (frame_iter_next root cr3 access a) as [a' next]. cbn in Hn.
  eapply keeps_bind; [exact Hn|]. intros f _. eapply keeps_bind; [apply keeps_as_array|]. intros arr Harr.
  case_bool_decide; [by apply keeps_as_mut_array, blit_bytes|].
  eapply keeps_bind; [apply keeps_as_mut_array, blit_bytes; [done|by apply Forall_take]|].
  intros _ _. apply IH. by apply Forall_drop.
Qed.
End memory.

(** ** Events *)

(** The buffer of a memory access has at most eight bytes. *)
Definition event_typed (k : DeviceEvent) : Prop :=
  match k with
  | HostUartReceived b => is_byte b
  | MemRead _ d => Forall is_byte d /\ (length d <= 8)%nat
  | MemWrite _ d => Forall is_byte d
  | PortRead _ r => Forall is_byte (PortReadRequest.as_slice r)
  | PortWrite _ r => Forall is_byte (PortWriteRequest.as_slice r)
  end.

Lemma copy_from_slice_typed r bs r' :
  PortReadRequest.copy_from_slice r bs = Ok r' -> PortReadRequest.as_slice r' = bs.
Proof.
  unfold PortReadRequest.copy_from_slice. destruct r, bs as [|? [|? [|? [|? [|]]]]]; intros [= <-]; done.
Qed.
Lemma copy_from_u32_typed r x r' :
  PortReadRequest.copy_from_u32 r x = Ok r' -> Forall is_byte (PortReadRequest.as_slice r').
Proof. intros Hc. apply copy_from_slice_typed in Hc. rewrite Hc. apply Forall_drop, be_bytes_byte. Qed.
Lemma write_to_u8_typed r x : Forall is_byte (PortWriteRequest.as_slice r) -> PortWriteRequest.to_u8 r = Ok x -> is_u 8 x.
Proof. destruct r; cbn; intros Hb; try done. intros [= <-]. by apply Forall_cons in Hb as [? _]. Qed.
Lemma write_to_u16_typed r x : Forall is_byte (PortWriteRequest.as_slice r) -> PortWriteRequest.to_u16 r = Ok x -> is_u 16 x.
Proof. destruct r; cbn -[of_be]; intros Hb; try done. intros [= <-]. by apply (of_be_bounded _ 2). Qed.
Lemma write_to_u32_typed r x : Forall is_byte (PortWriteRequest.as_slice r) -> PortWriteRequest.to_u32 r = Ok x -> is_u 32 x.
Proof. destruct r; cbn -[of_be]; intros Hb; try done. intros [= <-]. by apply (of_be_bounded _ 4). Qed.

Definition response_typed (r : DeviceEventResponse) : Prop :=
  match r with GSI g => is_u 32 g | GuestUartTransmitted b => is_byte b | NextConsole => True end.

(** ** The rest of the core a device reaches *)

Definition msg_typed (m : VirtualMachineMsg) : Prop :=
  match m with
  | GrantConsole port => is_u 16 port
  | GuestInterrupt _ vector => is_u 8 vector
  | StartVcpu addr => is_u 64 addr
  | CancelTimer _ => True
  end.
Definition interrupt_typed (t : TimerInterruptType) : Prop :=
  match t with Direct vector _ => is_u 8 vector | TimerGSI g => is_u 32 g end.

Definition contexts_typed (l : list VmContext) : Prop := Forall (fun c => Forall msg_typed (ctx_msgqueue c)) l.
Definition timers_typed (l : list (TimerId * RunningTimer)) : Prop := Forall (fun e => interrupt_typed (timer_kind e.2)) l.
Definition platform_typed (p : Platform) : Prop := contexts_typed (pl_contexts p) /\ timers_typed (timers (pl_wheel p)).

Lemma set_queue_typed core q l : Forall msg_typed q -> contexts_typed l -> contexts_typed (set_queue core q l).
Proof. intros Hq. induction 1; cbn; [constructor|]. case_decide; constructor; done. Qed.
Lemma queue_typed {D} (s : VirtualMachineSet D) core c :
  contexts_typed (contexts s) -> context_by_core_id s core = Some c -> Forall msg_typed (ctx_msgqueue c).
Proof.
  intros Hs Hc. apply head_Some_elem_of, list_elem_of_filter in Hc as [_ Hc]. revert c Hc. by apply Forall_forall.
Qed.

Definition set_inv {D} (s : VirtualMachineSet D * CoreHw) : Prop := contexts_typed (contexts s.1).

Lemma keeps_send_msg_core {D} m core notify :
  msg_typed m -> keeps (S := VirtualMachineSet D * CoreHw) set_inv (send_msg_core m core notify) (fun _ => True).
Proof.
  intros Hm [s hw] Hs. unfold send_msg_core. destruct (context_by_core_id s core) as [c|] eqn:Hc; [|done].
  case_bool_decide; [|done].
  assert (contexts_typed (set_queue core (ctx_msgqueue c ++ [m]) (contexts s))) as Hq.
  { apply set_queue_typed; [|done]. apply Forall_app. split; [by apply (queue_typed s core)|by constructor]. }
  by destruct notify.
Qed.

Section platform.
Context `{TimeSource} (apic : LocalApic) (this_core : Z).

Lemma keeps_now : keeps platform_typed (on_hw now) (fun _ => True).
Proof. intros p Hp. by split. Qed.
Lemma on_hw_keeps {A} (m : st CoreHw A) (Q : A -> Prop) :
  (forall hw a, snd (m hw) = Ok a -> Q a) -> keeps platform_typed (on_hw m) Q.
Proof. intros Hm p Hp. unfold on_hw. specialize (Hm (pl_hw p)). by destruct (m (pl_hw p)). Qed.
Lemma keeps_get_wheel : keeps platform_typed get_wheel (fun w => timers_typed (timers w)).
Proof. intros p Hp. split; [done|]. intros w [= <-]. by destruct Hp. Qed.
Lemma keeps_put_wheel w : timers_typed (timers w) -> keeps platform_typed (put_wheel w) (fun _ => True).
Proof. intros Hw p [Hp _]. by split. Qed.

Lemma bt_insert_typed {K V} (cmp : K -> K -> comparison) (P : V -> Prop) k v m :
  P v -> Forall (fun e => P e.2) m -> Forall (fun e => P e.2) (bt_insert cmp k v m).
Proof.
  intros Hv. induction 1 as [|[k1 v1] m H1 Hm IH]; cbn; [by repeat constructor|].
  destruct (cmp k k1); repeat constructor; done.
Qed.
Lemma bt_remove_typed {K V} (cmp : K -> K -> comparison) (P : V -> Prop) k m :
  Forall (fun e => P e.2) m -> Forall (fun e => P e.2) (bt_remove cmp k m).
Proof. induction 1 as [|[k1 v1] m H1 Hm IH]; cbn; [constructor|]. destruct (cmp k k1); try constructor; done. Qed.
Lemma bt_get_typed {K V} (cmp : K -> K -> comparison) (P : V -> Prop) k m v :
  Forall (fun e => P e.2) m -> bt_get cmp k m = Some v -> P v.
Proof.
  intros Hm Hg. unfold bt_get in Hg. destruct (bt_get_key_value cmp k m) as [[k' v']|] eqn:E; [|done].
  injection Hg as <-. apply bt_get_key_value_Some in E as [E _]. rewrite Forall_forall in Hm. by apply (Hm (k', v')).
Qed.

Lemma keeps_register_core_timer t :
  interrupt_typed (ready_kind t) -> keeps platform_typed (register_core_timer apic this_core t) (fun _ => True).
Proof.
  intros Ht. unfold register_core_timer. eapply keeps_bind; [apply keeps_get_wheel|]. intros w Hw. cbv beta in Hw.
  eapply (keeps_bind _ _ _ (fun r => timers_typed (timers r.1))).
  - apply on_hw_keeps. intros hw [w' id]. unfold register_timer. rewrite st_bind_eq.
    destruct (start t hw) as [hw1 [t'|e|x]] eqn:Es; [|done..]. cbv zeta. rewrite st_bind_eq.
    destruct (update_interrupt_timer _ _ hw1) as [hw2 [[]|e|x]]; [|done..].
    intros [= <- _]. apply (bt_insert_typed _ (fun t => interrupt_typed (timer_kind t))); [|done].
    unfold start in Es. rewrite st_bind_eq in Es. cbn in Es. by injection Es as _ <-.
  - intros [w' id] Hw'. eapply keeps_bind; [by apply keeps_put_wheel|]. intros _ _. by apply keeps_ret.
Qed.

Lemma keeps_cancel_timer id : keeps platform_typed (cancel_timer apic this_core id) (fun _ => True).
Proof.
  unfold cancel_timer. destruct (is_local_timer this_core id).
  - eapply keeps_bind; [apply keeps_get_wheel|]. intros w Hw. cbv beta in Hw.
    eapply (keeps_bind _ _ _ (fun w => timers_typed (timers w))); [|intros w'; by apply keeps_put_wheel].
    apply on_hw_keeps. intros hw w'. unfold remove_timer. rewrite st_bind_eq.
    destruct (update_interrupt_timer _ _ hw) as [hw2 [[]|e|x]]; [|done..].
    intros [= <-]. by apply (bt_remove_typed _ (fun t => interrupt_typed (timer_kind t))).
  - intros p [Hc Hw]. unfold platform_send.
    destruct (keeps_send_msg_core (D := Empty_set) (CancelTimer id) (core_id id) true I (mkSet (pl_contexts p) [], pl_hw p) Hc) as [Hk _].
    destruct (send_msg_core _ _ _ _) as [[s hw] r]. by split.
Qed.

Lemma reset_kind t hw hw' t' : reset t hw = (hw', Ok t') -> timer_kind t' = timer_kind t.
Proof. unfold reset. rewrite st_bind_eq. destruct (is_periodic t); cbn; by intros [= _ <-]. Qed.

Lemma remove_oneshots_typed ids acc m l ints :
  remove_oneshots ids acc m = Ok (l, ints) -> timers_typed m -> Forall interrupt_typed acc ->
  timers_typed l /\ Forall interrupt_typed ints.
Proof.
  revert acc m. induction ids as [|id ids IH]; cbn; intros acc m; [by intros [= <- <-]|].
  intros (t & Ht & Hr)%bind_Ok Hm Ha. unfold expect in Ht. destruct (bt_get _ id m) as [t1|] eqn:Eg; [|done].
  injection Ht as ->. eapply IH; [exact Hr|by apply (bt_remove_typed _ (fun t => interrupt_typed (timer_kind t)))|].
  apply Forall_app. split; [done|]. constructor; [|constructor].
  by apply (bt_get_typed timer_id_cmp (fun t => interrupt_typed (timer_kind t)) id m t Hm).
Qed.

Lemma reset_periodics_typed l hw :
  timers_typed l ->
  match snd (reset_periodics l hw) with Ok (l', ints) => timers_typed l' /\ Forall interrupt_typed ints | _ => True end.
Proof.
  intros Hl. revert hw. induction Hl as [|[id t] l Ht Hl IH]; intros hw; cbn [reset_periodics]; [by split; constructor|].
  rewrite st_bind_eq. destruct (elapsed t hw) as [hw1 [e|?|?]]; [|done..]. destruct (e && is_periodic t).
  - rewrite st_bind_eq. destruct (reset t hw1) as [hw2 [t'|?|?]] eqn:Et; [|done..]. rewrite st_bind_eq.
    specialize (IH hw2). destruct (reset_periodics l hw2) as [hw3 [[l' is2]|?|?]]; [|done..]. destruct IH.
    apply reset_kind in Et. split; constructor; try done. cbn in *. by rewrite Et.
  - rewrite st_bind_eq. specialize (IH hw1). destruct (reset_periodics l hw1) as [hw3 [[l' is2]|?|?]]; [|done..].
    destruct IH. split; [by constructor|done].
Qed.

(** Expired timers deliver interrupts of timers. *)
Lemma expire_typed w hw w' ints :
  timers_typed (timers w) -> snd (expire_elapsed_timers apic w hw) = Ok (w', ints) ->
  timers_typed (timers w') /\ Forall interrupt_typed ints.
Proof.
  intros Hw. unfold expire_elapsed_timers. rewrite st_bind_eq.
  destruct (elapsed_oneshots (timers w) hw) as [hw1 [ids|e|x]]; [|done..]. rewrite st_bind_eq. unfold lift at 1.
  destruct (remove_oneshots ids [] (timers w)) as [[l is1]|e|x] eqn:Er; [|done..].
  apply remove_oneshots_typed in Er as [Hl H1]; [|done|constructor]. rewrite st_bind_eq.
  pose proof (reset_periodics_typed l hw1 Hl) as Hp.
  destruct (reset_periodics l hw1) as [hw2 [[l' is2]|e|x]]; [|done..]. destruct Hp as [Hl' H2].
  cbv zeta. rewrite st_bind_eq. destruct (update_interrupt_timer _ _ hw2) as [hw3 [[]|e|x]]; [|done..].
  intros [= <- <-]. split; [done|]. by apply Forall_app.
Qed.
End platform.

(** ** Devices *)

Section devices.
Context {W D : Type} (WT : W -> Prop) (T : D -> Prop).

(** The state of a handler: the device, the buffers, the guest's memory, what it asks
    for and the rest of the core. *)
Definition dev_inv (s : D * Event W) : Prop :=
  T s.1 /\ event_typed (kind s.2) /\ host_typed (host s.2) /\ Forall response_typed (responses s.2) /\ WT (world s.2).

Lemma keeps_get_dev : keeps dev_inv get_dev T.
Proof. intros s Hs. split; [done|]. intros d [= <-]. by destruct Hs. Qed.
Lemma keeps_set_dev d : T d -> keeps dev_inv (set_dev d) (fun _ => True).
Proof. intros Hd s (_ & He & Hh). by split. Qed.
Lemma keeps_get_event : keeps dev_inv get_event (fun e => event_typed (kind e)).
Proof. intros s Hs. split; [done|]. intros e [= <-]. by destruct Hs as (_ & ? & _). Qed.
Lemma keeps_push_response r : response_typed r -> keeps dev_inv (push_response r) (fun _ => True).
Proof.
  intros Hr s (Hd & He & Hh & Hs & Hw). unfold push_response. case_bool_decide; [|by split_and!].
  split; [|done]. split_and!; cbn; try done. apply Forall_app. by repeat constructor.
Qed.
Lemma keeps_put_kind k : event_typed k -> keeps dev_inv (put_kind k) (fun _ => True).
Proof. intros Hk s (Hd & _ & Hh). by split. Qed.
Lemma keeps_on_host {A} (m : st Host A) Q : keeps host_typed m Q -> keeps dev_inv (on_host m) Q.
Proof.
  intros Hm s (Hd & He & Hh & Hr & Hw). unfold on_host. destruct (Hm _ Hh) as [H1 H2]. destruct (m (host s.2)) as [h r]. by split.
Qed.
Lemma keeps_on_world {A} (m : st W A) Q : keeps WT m Q -> keeps dev_inv (on_world m) Q.
Proof.
  intros Hm s (Hd & He & Hh & Hr & Hw). unfold on_world. destruct (Hm _ Hw) as [H1 H2]. destruct (m (world s.2)) as [h r]. by split.
Qed.
Lemma keeps_reply port req x : keeps dev_inv (reply_u32 port req x) (fun _ => True).
Proof.
  eapply keeps_bind; [apply keeps_lift; intros r Hr; exact (copy_from_u32_typed _ _ _ Hr)|].
  intros r Hr. by apply keeps_put_kind.
Qed.
End devices.

(** What the exit handler relies on of a device. *)
Class TypedDevice (D : Type) `{EmulatedDevice Platform D} := {
  device_typed : D -> Prop;
  typed_on_event : keeps (dev_inv platform_typed device_typed) on_event (fun _ => True)
}.

(** Take a handler apart: binds, conditionals and the operations above. *)
Ltac keep_lift :=
  first
  [ apply keeps_lift; intros ? ?Hl; refine (write_to_u8_typed _ _ _ Hl); by cbn in *
  | apply keeps_lift; intros ? ?Hl; refine (write_to_u16_typed _ _ _ Hl); by cbn in *
  | apply keeps_lift; intros ? ?Hl; refine (write_to_u32_typed _ _ _ Hl); by cbn in * ].

Ltac keep1 :=
  cbv zeta;
  lazymatch goal with
  | |- keeps _ (@mbind _ _ unit _ _ _) _ => eapply (keeps_bind _ _ _ (fun _ => True)); [|intros _ _]
  | |- keeps _ (get_dev ≫= _) _ => eapply keeps_bind; [apply keeps_get_dev|cbv beta; intros ? ?Hd]
  | |- keeps _ (get_event ≫= _) _ => eapply keeps_bind; [apply keeps_get_event|cbv beta; intros ? ?He]
  | |- keeps _ (on_world (on_hw now) ≫= _) _ => eapply keeps_bind; [apply keeps_on_world, keeps_now|intros ? _]
  | |- keeps _ (lift _ ≫= _) _ => eapply keeps_bind; [keep_lift|cbv beta; intros ? ?Hv]
  | |- keeps _ (set_dev _) _ => apply keeps_set_dev
  | |- keeps _ (reply_u32 _ _ _) _ => apply keeps_reply
  | |- keeps _ (push_response _) _ => apply keeps_push_response
  | |- keeps _ (mret _) _ => apply keeps_ret
  | |- keeps _ (err _) _ => apply keeps_err
  | |- keeps _ (panic _) _ => apply keeps_panic
  | |- keeps _ (if ?b then _ else _) _ => destruct b eqn:?
  | |- keeps _ (match kind ?e with _ => _ end) _ =>
      let Hk := fresh "Hk" in destruct (kind e) eqn:Hk; cbn in *
  end.
Ltac keep := repeat keep1; try exact I.

(** The fields of a device one by one. *)
Ltac byte_range := unfold is_byte, is_u, gsi_UART, gsi_PIT; lia.

Definition option_byte (o : option Z) : Prop := match o with Some b => is_byte b | None => True end.

Definition uart_typed (u : Uart8250) : Prop :=
  is_u 16 (base_port u) /\ is_u 16 (divisor u) /\ option_byte (receive_buffer u) /\
  is_u 8 (interrupt_enable_register u) /\ is_u 8 (interrupt_identification_register u) /\
  is_u 8 (line_control_register u) /\ is_u 8 (ctrl_a_count u).

Section uart.
Context {W : Type} (WT : W -> Prop).
Notation inv := (dev_inv WT uart_typed).

Lemma set_iir_typed x u : is_u 8 x -> uart_typed u -> uart_typed (set_iir x u).
Proof. destruct u. unfold uart_typed. cbn. tauto. Qed.
Lemma set_ier_typed x u : is_u 8 x -> uart_typed u -> uart_typed (set_ier x u).
Proof. destruct u. unfold uart_typed. cbn. tauto. Qed.
Lemma set_receive_typed b u : option_byte b -> uart_typed u -> uart_typed (set_receive_buffer b u).
Proof. destruct u. unfold uart_typed. cbn. tauto. Qed.
Lemma set_count_typed x u : is_u 8 x -> uart_typed u -> uart_typed (set_ctrl_a_count x u).
Proof. destruct u. unfold uart_typed. cbn. tauto. Qed.
Lemma set_divisor_typed x u : is_u 16 x -> uart_typed u -> uart_typed (set_divisor x u).
Proof. destruct u. unfold uart_typed. cbn. tauto. Qed.
Hint Resolve set_iir_typed set_ier_typed set_receive_typed set_count_typed set_divisor_typed u8_is_u : uart.
Hint Extern 2 (is_u _ _) => byte_range : uart.
Hint Extern 2 (option_byte _) => done : uart.

Lemma uart_receive_keeps key : is_byte key -> keeps inv (uart_receive key) (fun _ => True).
Proof.
  intros Hk. unfold uart_receive. keep; try (unfold uart_write; auto with uart).
  all: try (destruct (key =? 1); by auto with uart).
Qed.

Lemma uart_read_typed port val u u' val' :
  uart_typed u -> Forall is_byte (PortReadRequest.as_slice val) -> uart_read port val u = Ok (u', val') ->
  uart_typed u' /\ Forall is_byte (PortReadRequest.as_slice val').
Proof.
  intros Hu Hv. unfold uart_read. intros Hr.
  apply bind_Ok in Hr as ([u1 v1] & H1 & Hr).
  assert (uart_typed u1 /\ Forall is_byte (PortReadRequest.as_slice v1)) as [Hu1 Hv1].
  { repeat (case_match; try (injection H1 as <- <-; done)); apply bind_Ok in H1 as (v & Hc & Hx);
      apply copy_from_u32_typed in Hc; injection Hx as <- <-; split; auto with uart. }
  apply bind_Ok in Hr as ([u2 v2] & H2 & Hr).
  assert (uart_typed u2 /\ Forall is_byte (PortReadRequest.as_slice v2)) as [Hu2 Hv2].
  { repeat (case_match; try (injection H2 as <- <-; done)); apply bind_Ok in H2 as (v & Hc & Hx);
      apply copy_from_u32_typed in Hc; injection Hx as <- <-; split; auto with uart. }
  case_match; [|by injection Hr as <- <-]. apply bind_Ok in Hr as (v & Hc & Hx).
  apply copy_from_u32_typed in Hc. by injection Hx as <- <-.
Qed.

Lemma uart_keeps : keeps inv uart_on_event (fun _ => True).
Proof.
  unfold uart_on_event. keep1. keep1; try by keep.
  - by apply uart_receive_keeps.
  - keep1. eapply (keeps_bind _ _ _ (fun r => uart_typed r.1 /\ Forall is_byte (PortReadRequest.as_slice r.2))).
    + apply keeps_lift. intros [u' val'] Hr. by apply (uart_read_typed _ _ _ _ _ Hd He Hr).
    + intros [u' val'] [Hu Hval]. keep1; [by apply keeps_set_dev|]. by apply keeps_put_kind.
  - unfold uart_port_write. keep; auto with uart; try (cbn; byte_range).
    + apply set_divisor_typed; [|done]. apply land_is_u_l; [lia|]. apply Hd.
    + apply set_divisor_typed; [|done]. apply lor_is_u; [lia|apply land_is_u_l; [lia|apply Hd]|by apply (shiftl_is_u 8 8)].
    + apply set_ier_typed; [|done]. by apply land_is_u_l.
Qed.
End uart.

(** *** The small devices *)

Definition pic_typed (d : Pic8259.t) : Prop := is_u 8 (Pic8259.master_imr d) /\ is_u 8 (Pic8259.slave_imr d).
(** The index is one of the sixteen registers, and indexing them cannot fail. *)
Definition vga_typed (d : VgaController.t) : Prop :=
  is_u 4 (VgaController.index d) /\ length (VgaController.registers d) = 16%nat /\
  Forall is_byte (VgaController.registers d).
Definition rtc_typed (d : CmosRtc.t) : Prop :=
  is_u 8 (CmosRtc.addr d) /\ length (CmosRtc.data d) = 256%nat /\ Forall is_byte (CmosRtc.data d).
Definition pci_typed (d : PciRootComplex) : Prop := is_u 32 (current_address d).

Section small.
Context {W : Type} (WT : W -> Prop).

Lemma debug_keeps : keeps (dev_inv WT (is_u 16)) DebugPort.on_event (fun _ => True).
Proof. unfold DebugPort.on_event. by keep. Qed.
Lemma keyboard_keeps : keeps (dev_inv WT (fun _ => True)) Keyboard8042.on_event (fun _ => True).
Proof. unfold Keyboard8042.on_event. by keep. Qed.
Lemma ioapic_keeps : keeps (dev_inv WT (fun _ => True)) VirtIoApic.on_event (fun _ => True).
Proof. by intros s Hs. Qed.
Lemma pic_keeps : keeps (dev_inv WT pic_typed) Pic8259.on_event (fun _ => True).
Proof. unfold Pic8259.on_event. keep; split; try done; apply Hd. Qed.

Lemma register_try_from_typed b i : VgaController.register_try_from b = Ok i -> i = b /\ is_u 4 b.
Proof. unfold VgaController.register_try_from. destruct (_ && _) eqn:E; [|done]. intros [= <-]. unfold is_u. lia. Qed.
Lemma insert_bytes i x (l : list Z) : is_byte x -> Forall is_byte l -> Forall is_byte (<[i:=x]> l).
Proof. intros. by apply Forall_insert. Qed.

Lemma vga_keeps : keeps (dev_inv WT vga_typed) VgaController.on_event (fun _ => True).
Proof.
  unfold VgaController.on_event. keep1. keep1; try by keep.
  - unfold VgaController.on_port_read. keep1; [|by keep]. keep1.
    eapply keeps_bind; [apply keeps_lift; intros x Hx; exact I|]. intros x _. by keep.
  - unfold VgaController.on_port_write. keep1. keep1; [|keep1].
    + destruct req as [b|data i|q1 q2 q3 q4]; [| |by keep];
        (eapply keeps_bind; [apply keeps_lift; intros x Hx; exact (register_try_from_typed _ _ Hx)|]);
        intros ? [-> Hi]; keep1; destruct Hd as (? & ? & ?); split_and!; cbn; try done.
      * by rewrite length_insert.
      * apply insert_bytes; [|done]. by apply Forall_cons in He as [? _].
    + keep. destruct Hd as (? & ? & ?). split_and!; cbn; try done; [by rewrite length_insert|by apply insert_bytes].
    + by keep.
Qed.

Lemma rtc_keeps : keeps (dev_inv WT rtc_typed) CmosRtc.on_event (fun _ => True).
Proof.
  unfold CmosRtc.on_event. keep1. keep1; try by keep.
  - unfold CmosRtc.on_port_read. keep1. keep1; [by keep|]. keep1; [|by keep].
    eapply keeps_bind; [apply keeps_lift; intros x Hx; exact I|]. intros x _. by keep.
  - unfold CmosRtc.on_port_write. keep; destruct Hd as (Ha & Hl & Hb).
    all: assert (is_u 8 (Z.land a0 127)) by (by apply land_is_u_l).
    + split_and!; cbn; try done. unfold CmosRtc.Unknown. case_bool_decide; [done|byte_range].
    + split_and!; cbn; try done; [by rewrite length_insert|by apply insert_bytes].
Qed.

Lemma pci_keeps : keeps (dev_inv WT pci_typed) pci_on_event (fun _ => True).
Proof.
  unfold pci_on_event. keep1. keep1. keep1; try by keep.
  - keep1; [by keep|]. keep1; [|by keep].
    eapply keeps_bind; [apply keeps_lift; intros x Hx; exact I|]. intros x _. by keep.
  - keep. by apply land_is_u_l.
Qed.
End small.

Lemma acpi_keeps `{TimeSource} start :
  keeps (dev_inv platform_typed (is_u 16)) (AcpiRuntime.on_event start) (fun _ => True).
Proof. unfold AcpiRuntime.on_event. by keep. Qed.

(** *** The interval timer *)

Definition option_u (w : Z) (o : option Z) : Prop := match o with Some x => is_u w x | None => True end.

Definition channel_typed (s : ChannelState) : Prop :=
  match ch_mode s with Mode0 c _ t | Mode2 c _ t => option_u 16 c /\ option_u 64 t end /\
  match ch_access s with Word lo => option_u 8 lo | _ => True end.
Definition pit_typed (d : Pit8254) : Prop := channel_typed (channel0 d) /\ channel_typed (channel2 d).

Section pit.
Context `{TimeSource} `{!TimeSourceLaws} (apic : LocalApic) (this_core : Z).
Notation inv := (dev_inv platform_typed pit_typed).

Lemma channel_of_typed c d : pit_typed d -> channel_typed (channel c d).
Proof. intros [? ?]. by destruct c. Qed.
Lemma set_channel_typed c s d : channel_typed s -> pit_typed d -> pit_typed (set_channel c s d).
Proof. intros ? [? ?]. by destruct c; split. Qed.

Lemma decode_mode_typed val c s : decode_mode val = Ok (c, s) -> channel_typed s.
Proof.
  unfold decode_mode. destruct (has_bits val 1); [done|].
  intros (m & Hm & (a & Ha & (c' & _ & [= _ <-])%bind_Ok)%bind_Ok)%bind_Ok. split; cbn.
  - repeat (case_match; try done); by simplify_eq.
  - repeat (case_match; try done); by simplify_eq.
Qed.

Lemma keeps_cancel_channel m : keeps platform_typed (cancel_channel_timer apic this_core m) (fun _ => True).
Proof.
  intros p Hp. unfold cancel_channel_timer. destruct (mode_timer m) as [id|]; [|done].
  destruct (keeps_cancel_timer apic this_core id p Hp) as [Hc _].
  by destruct (cancel_timer apic this_core id p) as [p' [[]|e|w]].
Qed.

Lemma write_counter_byte_typed val s w :
  is_u 8 val -> channel_typed s -> write_counter_byte val s = Ok w ->
  match w with HalfWritten s' => channel_typed s' | CounterLoaded n => is_u 16 n end.
Proof.
  intros Hv [Hm Ha]. unfold write_counter_byte. destruct (ch_access s) as [| | |[lo|]]; intros [= <-].
  - by apply (is_u_weaken 8).
  - apply u16_is_u.
  - apply lor_is_u; [lia|apply u16_is_u|]. by apply (is_u_weaken 8).
  - by split.
Qed.

Lemma keeps_now_u64 : keeps platform_typed (on_hw now) (is_u 64).
Proof. intros p Hp. split; [done|]. intros t [= <-]. apply ts_reading_u64. Qed.

Lemma keeps_core_timer c (duration : Z) (k : Z -> TimerInterruptType -> ReadyTimer) timer :
  interrupt_typed (ready_kind (k duration (TimerGSI gsi_PIT))) ->
  keeps inv (match c with
             | Ch0 => id ← on_world (register_core_timer apic this_core (k duration (TimerGSI gsi_PIT))); mret (Some id)
             | Ch2 => mret timer
             end) (fun _ => True).
Proof.
  intros Hk. destruct c; [|by apply keeps_ret].
  eapply keeps_bind; [by apply keeps_on_world, keeps_register_core_timer|]. intros id _. by apply keeps_ret.
Qed.

Lemma write_counter_keeps c val : is_u 8 val -> keeps inv (write_counter apic this_core c val) (fun _ => True).
Proof.
  intros Hv. unfold write_counter. keep1. pose proof (channel_of_typed c a Hd) as Hc. cbv zeta.
  eapply keeps_bind; [apply keeps_lift; intros w Hw; exact (write_counter_byte_typed _ _ _ Hv Hc Hw)|].
  intros [s|n] Hw; cbv beta iota in Hw; [apply keeps_set_dev; by apply set_channel_typed|].
  destruct (n =? 0); [by keep|]. eapply keeps_bind; [apply keeps_on_world, keeps_now_u64|]. intros t Ht.
  assert (interrupt_typed (TimerGSI gsi_PIT)) as Hi by (cbn; byte_range). destruct Hc as [_ Ha].
  destruct (ch_mode (channel c a)).
  - eapply keeps_bind; [by apply (keeps_core_timer c _ one_shot)|]. intros timer' _.
    by apply keeps_set_dev, set_channel_typed.
  - eapply keeps_bind; [by apply (keeps_core_timer c _ periodic)|]. intros timer' _.
    by apply keeps_set_dev, set_channel_typed.
Qed.

Lemma pit_keeps : keeps inv (pit_on_event apic this_core) (fun _ => True).
Proof.
  unfold pit_on_event. keep1. keep1; try by keep.
  - unfold pit_on_port_read. keep1; [|by keep]. keep1.
    destruct (ch_mode (channel2 a0)) as [[n|] ? [t|]|]; by keep.
  - unfold pit_on_port_write. keep1; [|keep1; [|by keep]].
    + keep1. unfold write_mode.
      eapply (keeps_bind _ _ _ (fun r => channel_typed r.2));
        [apply keeps_lift; intros [c s] Hs; exact (decode_mode_typed _ _ _ Hs)|]. intros [c s] Hs. keep1.
      keep1; [apply keeps_on_world, keeps_cancel_channel|]. by apply keeps_set_dev, set_channel_typed.
    + keep1. keep1; [by apply write_counter_keeps|]. keep1; [by keep|]. by apply write_counter_keeps.
Qed.
End pit.

(** *** Firmware configuration *)

Definition fw_typed (d : QemuFwCfg) : Prop :=
  is_u 16 (selector d) /\ is_u 64 (data_idx d) /\ is_u 64 (dma_addr d) /\
  Forall (fun e => Forall is_byte e.2 /\ is_u 63 (Z.of_nat (length e.2))) (fw_data d).

Definition dma_typed (r : FWCfgDmaAccess) : Prop := is_u 16 (dma_select r) /\ is_u 32 (dma_length r).

Section fw_cfg.
Context `{GuestPaging} {W : Type} (WT : W -> Prop).
Notation inv := (dev_inv WT fw_typed).

Lemma fw_set_typed s i a d :
  is_u 16 s -> is_u 64 i -> is_u 64 a -> fw_typed d -> fw_typed (mkFwCfg s (fw_data d) i a).
Proof. intros ? ? ? (? & ? & ? & ?). by split_and!. Qed.

Lemma keeps_space_read a n : keeps inv (space_read a n) (Forall is_byte).
Proof. unfold space_read. keep1. apply keeps_on_host, keeps_read_bytes. Qed.
Lemma keeps_space_write a bs : Forall is_byte bs -> keeps inv (space_write a bs) (fun _ => True).
Proof. intros Hb. unfold space_write. keep1. by apply keeps_on_host, keeps_write_bytes. Qed.

Lemma dma_from_raw_typed bytes : Forall is_byte bytes -> dma_typed (dma_from_raw bytes).
Proof.
  intros Hb. split; cbn [dma_select dma_length dma_from_raw]; [apply u16_is_u|].
  apply (of_be_bounded _ 4); [by apply Forall_take, Forall_drop|]. rewrite length_take. lia.
Qed.
Lemma dma_into_raw_typed r : Forall is_byte (dma_into_raw r).
Proof. unfold dma_into_raw. rewrite !Forall_app. split_and!; apply be_bytes_byte. Qed.
Lemma swap32_typed x : is_u 32 (swap32 x).
Proof. apply (of_le_bounded _ 4); [apply be_bytes_byte|]. by rewrite length_be_bytes. Qed.

Lemma read_selector_typed n d d' data :
  fw_typed d -> 0 <= n -> read_selector n d = Ok (d', data) ->
  fw_typed d' /\ match data with Some bs => Forall is_byte bs | None => True end.
Proof.
  intros (Hs & Hi & Ha & Hf) Hn. unfold read_selector. destruct (bt_get Z.compare (selector d) (fw_data d)) as [item|] eqn:Eg.
  - apply (bt_get_typed _ (fun b => Forall is_byte b /\ is_u 63 (Z.of_nat (length b)))) in Eg as [Hb Hl]; [|done].
    destruct (_ >? _) eqn:E; [done|]. intros [= <- <-]. split; [|by apply Forall_take, Forall_drop].
    split_and!; cbn; try done. unfold is_u in *. lia.
  - intros [= <- <-]. by split.
Qed.

Lemma keeps_read_selector n d : fw_typed d -> 0 <= n ->
  keeps inv (lift (read_selector n d)) (fun r => fw_typed r.1 /\ match r.2 with Some bs => Forall is_byte bs | None => True end).
Proof. intros Hd Hn. apply keeps_lift. intros [d' data] Hr. by apply (read_selector_typed n d). Qed.

Lemma perform_dma_keeps : keeps inv perform_dma_transfer (fun _ => True).
Proof.
  unfold perform_dma_transfer. keep1. eapply keeps_bind; [apply keeps_space_read|]. intros bytes Hb. cbv zeta.
  pose proof (dma_from_raw_typed bytes Hb) as Hreq. revert Hreq. generalize (dma_from_raw bytes) as request. intros request Hreq.
  eapply (keeps_bind _ _ _ dma_typed).
  { keep1; [|by apply keeps_ret]. keep1. keep1; [apply keeps_set_dev|by apply keeps_ret].
    apply fw_set_typed; try done; [by destruct Hreq|apply Hd0]. }
  clear request Hreq. intros request Hreq. eapply (keeps_bind _ _ _ dma_typed).
  { keep1; [|by apply keeps_ret]. keep1. keep1; [apply keeps_set_dev|by apply keeps_ret].
    destruct Hreq as [_ ?]. apply fw_set_typed; try done; [apply Hd0|by apply (is_u_weaken 32)|apply Hd0]. }
  clear request Hreq. intros request Hreq. eapply (keeps_bind _ _ _ (fun _ => True)).
  { keep1; [|by apply keeps_ret]. keep1. eapply keeps_bind; [apply keeps_read_selector; [done|]|].
    { by destruct Hreq as [_ []]. }
    intros [d' data] [Hd' Hdata]. cbn in Hdata. keep1; [by apply keeps_set_dev|].
    eapply (keeps_bind _ _ _ (fun _ => True)); [|intros ? _; by apply keeps_ret].
    destruct data as [bs|]; [|by apply keeps_ret].
    eapply keeps_bind; [by apply keeps_space_write|]. intros _ _. by apply keeps_ret. }
  intros request' _. keep1. apply keeps_space_write, dma_into_raw_typed.
Qed.

Lemma fw_keeps : keeps inv fw_on_event (fun _ => True).
Proof.
  unfold fw_on_event. keep1. keep1; try by keep.
  - unfold fw_on_port_read. keep1. keep1; [by keep|]. keep1; [|by keep].
    eapply keeps_bind; [by apply keeps_read_selector; [|lia]|]. intros [d' data] [Hd' Hdata]. cbn in Hdata.
    keep1; [by apply keeps_set_dev|]. destruct data as [bs|]; [|by keep].
    eapply keeps_bind; [apply keeps_lift; intros r Hr; exact (copy_from_slice_typed _ _ _ Hr)|].
    intros r Hr. apply keeps_put_kind. cbn. by rewrite Hr.
  - unfold fw_on_port_write. keep;
      lazymatch goal with |- fw_typed _ => apply fw_set_typed | _ => apply perform_dma_keeps end;
      try done; try apply Hd; try apply Hd0.
    + apply lor_is_u; [lia|apply Hd|]. apply (is_u_weaken 32); [lia|]. apply swap32_typed.
    + apply (shiftl_is_u 32 32); [lia|apply swap32_typed|lia].
Qed.
End fw_cfg.

(** *** The devices of a machine *)

Definition dynamic_typed (d : DynamicVirtualDevice) : Prop :=
  match d with
  | DynDebugPort port => is_u 16 port
  | DynUart uart => uart_typed uart
  | DynQemu qemu => fw_typed qemu
  end.

Definition machine_typed (d : Device) : Prop :=
  match d with
  | AcpiRuntimeDevice d => is_u 16 d
  | VgaDevice d => vga_typed d
  | PciRootDevice d => pci_typed d
  | PicDevice d => pic_typed d
  | PitDevice d => pit_typed d
  | RtcDevice d => rtc_typed d
  | KeyboardDevice _ | IoApicDevice _ => True
  | DynamicDevice d => dynamic_typed d
  end.

Lemma handle_keeps {A D} (wrap : A -> D) (T : A -> Prop) (U : D -> Prop) (h : handler Platform A) a e :
  (forall a, T a <-> U (wrap a)) -> keeps (dev_inv platform_typed T) h (fun _ => True) ->
  dev_inv platform_typed U (wrap a, e) -> dev_inv platform_typed U (fst (handle wrap h a e)).
Proof.
  intros Hw Hh (Hd & Hr). destruct (Hh (a, e)) as [Hk _]; [by split; [apply Hw|]|].
  unfold handle. destruct (h (a, e)) as [[a' e'] r]. destruct Hk as [Ha He]. by split; [apply Hw|].
Qed.

Lemma dynamic_keeps `{GuestPaging} : keeps (dev_inv platform_typed dynamic_typed) dynamic_on_event (fun _ => True).
Proof.
  intros [d e] Hs. split; [|done]. destruct d as [d|d|d]; cbn [dynamic_on_event].
  - by apply (handle_keeps DynDebugPort (is_u 16)); [|apply debug_keeps|].
  - by apply (handle_keeps DynUart uart_typed); [|apply uart_keeps|].
  - by apply (handle_keeps DynQemu fw_typed); [|apply fw_keeps|].
Qed.

Lemma machine_keeps `{TimeSource} `{!TimeSourceLaws} `{GuestPaging} apic this_core start :
  keeps (dev_inv platform_typed machine_typed) (device_on_event apic this_core start) (fun _ => True).
Proof.
  intros [d e] Hs. split; [|done]. destruct d as [d|d|d|d|d|d|d|d|d]; cbn [device_on_event].
  - by apply (handle_keeps AcpiRuntimeDevice (is_u 16)); [|apply acpi_keeps|].
  - by apply (handle_keeps VgaDevice vga_typed); [|apply vga_keeps|].
  - by apply (handle_keeps PciRootDevice pci_typed); [|apply pci_keeps|].
  - by apply (handle_keeps PicDevice pic_typed); [|apply pic_keeps|].
  - by apply (handle_keeps KeyboardDevice (fun _ => True)); [|apply keyboard_keeps|].
  - by apply (handle_keeps PitDevice pit_typed); [|apply pit_keeps|].
  - by apply (handle_keeps RtcDevice rtc_typed); [|apply rtc_keeps|].
  - by apply (handle_keeps IoApicDevice (fun _ => True)); [|apply ioapic_keeps|].
  - by apply (handle_keeps DynamicDevice dynamic_typed); [|apply dynamic_keeps|].
Qed.

#[export] Instance machine_device_typed `{TimeSource} `{!TimeSourceLaws} `{GuestPaging} apic this_core start :
  @TypedDevice Device (machine_device apic this_core start) :=
  @Build_TypedDevice Device (machine_device apic this_core start) machine_typed (machine_keeps apic this_core start).
