(* ===== verification/Secure.v ===== *)
(** * Code that neither reads nor changes what belongs to other machines

    A judgement on two runs of the same code, from states that agree on what one machine
    may see: the results are the same, the states agree again, and the first run changed
    only what the machine may change.  This file has its rules, and proves it for guest
    memory, for the operations devices reach and for every virtual device;
    [SecureDevice] is what the exit handler relies on of a device. *)

From S2P Require Import Prelude Error BTreeMap Memory GuestMemory VirtDev Clock Apic Timers Vm VmMemory Isolation Platform Uart Pit Devices Pci FwCfg Machine.

(** ** The judgement *)

(** Two outcomes with related results, or the same failure. *)
Definition same_outcome {A} (P : A -> A -> Prop) (r1 r2 : res A) : Prop :=
  match r1, r2 with
  | Ok a, Ok b => P a b
  | Err e, Err e' => e = e'
  | Panic w, Panic w' => w = w'
  | _, _ => False
  end.

Lemma same_outcome_refl {A} (r : res A) : same_outcome eq r r.
Proof. by destruct r. Qed.
Lemma same_outcome_eq {A} (r1 r2 : res A) : same_outcome eq r1 r2 -> r1 = r2.
Proof. destruct r1, r2; cbn; intros; by subst. Qed.

(** From states related by [R], [m1] and [m2] have results related by [P] and end in states
    related by [R]; what [m1] does to its state is allowed by [W]. *)
Definition secure {S A} (R W : S -> S -> Prop) (m1 m2 : st S A) (P : A -> A -> Prop) : Prop :=
  forall s1 s2, R s1 s2 ->
    same_outcome P (snd (m1 s1)) (snd (m2 s2)) /\ R (fst (m1 s1)) (fst (m2 s2)) /\ W s1 (fst (m1 s1)).

Notation safe R W m := (secure R W m m eq).

Section secure.
Context {S : Type} (R W : S -> S -> Prop) `{!PreOrder W}.

Lemma secure_ret {A} (a b : A) (P : A -> A -> Prop) : P a b -> secure R W (mret a) (mret b) P.
Proof. intros Hp s1 s2 Hs. split_and!; done. Qed.
Lemma secure_err {A} e (P : A -> A -> Prop) : secure R W (err e) (err e) P.
Proof. intros s1 s2 Hs. by split_and!. Qed.
Lemma secure_panic {A} w (P : A -> A -> Prop) : secure R W (panic w) (panic w) P.
Proof. intros s1 s2 Hs. by split_and!. Qed.
Lemma safe_lift {A} (r : res A) : safe R W (lift r).
Proof. intros s1 s2 Hs. split_and!; [apply same_outcome_refl|done..]. Qed.
Lemma secure_lift {A} (r : res A) (Q : A -> Prop) :
  (forall a, r = Ok a -> Q a) -> secure R W (lift r) (lift r) (fun a b => a = b /\ Q a).
Proof. intros Hq s1 s2 Hs. split_and!; [|done..]. destruct r; cbn; auto. Qed.

Lemma secure_bind {A B} (m1 m2 : st S A) (k1 k2 : A -> st S B) P Q :
  secure R W m1 m2 P -> (forall a b, P a b -> secure R W (k1 a) (k2 b) Q) -> secure R W (m1 ≫= k1) (m2 ≫= k2) Q.
Proof.
  intros Hm Hk s1 s2 Hs. destruct (Hm s1 s2 Hs) as (Ho & Hr & Hw). rewrite !st_bind_eq.
  destruct (m1 s1) as [t1 [a|e|x]], (m2 s2) as [t2 [b|e'|x']]; cbn in *; try done.
  destruct (Hk a b Ho t1 t2 Hr) as (Ho' & Hr' & Hw'). split_and!; [done..|by etrans].
Qed.
Lemma safe_bind {A B} (m : st S A) (k1 k2 : A -> st S B) Q :
  safe R W m -> (forall a, secure R W (k1 a) (k2 a) Q) -> secure R W (m ≫= k1) (m ≫= k2) Q.
Proof. intros Hm Hk. eapply secure_bind; [exact Hm|]. intros a b <-. apply Hk. Qed.

Lemma safe_iter {X} (f : X -> st S unit) (P : X -> Prop) l :
  (forall x, P x -> safe R W (f x)) -> Forall P l -> safe R W (st_iter f l).
Proof.
  intros Hf Hl. induction Hl as [|x r Hx Hr IH]; cbn; [by apply secure_ret|].
  apply safe_bind; [by apply Hf|]. by intros _.
Qed.
Lemma secure_if {A} (b : bool) (m1 m2 n1 n2 : st S A) P :
  secure R W m1 m2 P -> secure R W n1 n2 P -> secure R W (if b then m1 else n1) (if b then m2 else n2) P.
Proof. by destruct b. Qed.

(** Code on a state that is the same in both runs. *)
Lemma safe_det {A} (m : st S A) :
  (forall s1 s2, R s1 s2 -> s1 = s2) -> (forall s, R s s -> R (fst (m s)) (fst (m s)) /\ W s (fst (m s))) -> safe R W m.
Proof.
  intros He Hm s1 s2 Hs. pose proof (He _ _ Hs) as <-. destruct (Hm s1 Hs). split_and!; [apply same_outcome_refl|done..].
Qed.
End secure.

(** ** Guest memory *)

(** Two host memories a guest cannot tell apart. *)
Record host_agree (root : Z) (h1 h2 : Host) : Prop := {
  ha_wf : ept_wf (tables h1) root;
  ha_frames : frames_ok h1 root;
  ha_view : same_view h1 h2 root
}.

Definition host_within (root : Z) (h h' : Host) : Prop := writes_own h h' root.

#[export] Instance host_within_preorder root : PreOrder (host_within root).
Proof. split; [intros h; apply writes_own_refl|intros h1 h2 h3; apply writes_own_trans]. Qed.

Lemma same_view_write h1 h2 root q f w fr :
  page_map h1 root q = Some (f, w) -> same_view h1 h2 root ->
  same_view (mkHost (tables h1) (<[f := fr]> (frames h1))) (mkHost (tables h2) (<[f := fr]> (frames h2))) root.
Proof.
  intros Hq [T F]. split; [done|]. intros q' g w' Hg. cbn [frames]. destruct (decide (f = g)) as [->|Hne].
  - by rewrite !lookup_insert_eq.
  - rewrite !lookup_insert_ne by done. by apply (F q' g w').
Qed.

Section memory.
Context `{GuestPaging} (root : Z).
Notation safe_host m := (safe (host_agree root) (host_within root) m).

Lemma safe_read_bytes cr3 a n access : safe_host (read_bytes root cr3 a n access).
Proof.
  intros h1 h2 Hh. destruct Hh as [Hwf Hf Hv].
  destruct (read_bytes_same h1 h2 root Hwf Hv cr3 a n access) as (x & -> & ->). cbn.
  split_and!; [apply same_outcome_refl|done|done].
Qed.

Lemma write_bytes_loop_agree cr3 access fuel : forall h1 h2 a off bytes,
  host_agree root h1 h2 -> (off < 4096)%nat ->
  let m := write_bytes_loop fuel root cr3 access a off bytes in
  same_outcome eq (snd (m h1)) (snd (m h2)) /\ host_agree root (fst (m h1)) (fst (m h2)).
Proof.
  induction fuel as [|fuel IH]; intros h1 h2 a off bytes Hh Hoff m; subst m; cbn [write_bytes_loop]; [done|].
  pose proof Hh as [Hwf Hok Hv]. destruct (frame_iter_next root cr3 access a) as [a' next] eqn:E.
  assert (next = (frame_iter_next root cr3 access a).2) as -> by (by rewrite E). clear E.
  destruct (frame_iter_same h1 h2 root Hwf Hv cr3 access a) as (x & E1 & E2). rewrite !st_bind_eq, E1, E2.
  destruct x as [f|e|w]; [|done..].
  apply (frame_iter_maps h1 h1 root Hwf (same_view_refl h1 root)) in E1 as (q & w & Hm). clear E2.
  destruct (Hok _ _ _ Hm) as (Hf0 & fr & Hfr & Hl). pose proof (view_frames _ _ _ Hv _ _ _ Hm) as Hfr2.
  rewrite !st_bind_eq. unfold as_array. rewrite (proj2 (Z.eqb_neq f 0)), Hfr2, Hfr by done. cbn [expect].
  assert (forall fr', length fr' = length fr ->
    host_agree root (mkHost (tables h1) (<[f := fr']> (frames h1))) (mkHost (tables h2) (<[f := fr']> (frames h2)))) as Hstep.
  { intros fr' Hl'. split; [done| |by eapply same_view_write]. by apply (own_sizes _ _ _ (write_own h1 root q f w fr fr' Hm Hfr Hl')). }
  case_bool_decide as Hb.
  - cbn. split; [done|]. apply Hstep. apply length_blit. lia.
  - rewrite !st_bind_eq. unfold as_mut_array. apply IH; [|lia]. apply Hstep. apply length_blit. rewrite length_take. lia.
Qed.

Lemma safe_write_bytes cr3 a bytes access : safe_host (write_bytes root cr3 a bytes access).
Proof.
  intros h1 h2 Hh. pose proof Hh as [Hwf Hok Hv].
  destruct (write_bytes_loop_agree cr3 access (S (length bytes)) h1 h2 a (Z.to_nat (gva_as_u64 a mod BASE_PAGE_SIZE)) bytes) as [Ho Ha].
  - done.
  - unfold BASE_PAGE_SIZE. pose proof (Z.mod_pos_bound (gva_as_u64 a) 4096). lia.
  - split_and!; [done..|]. by apply (write_bytes_own root cr3 access h1 a bytes _ _ Hwf Hok (surjective_pairing _)).
Qed.
End memory.

(** ** Messages *)

Definition is_interrupt (m : VirtualMachineMsg) : Prop := match m with GuestInterrupt _ _ => True | _ => False end.

Definition queue_of (l : list VmContext) (core : Z) : option (list VirtualMachineMsg) :=
  queue (mkSet (D := Empty_set) l []) core.

Lemma queue_of_eq {D} (s : VirtualMachineSet D) core : queue s core = queue_of (contexts s) core.
Proof. done. Qed.

(** From [l] to [l'] the queues of cores outside [cpus] only gained messages at their ends,
    no interrupts among them. *)
Record posts (cpus : list Z) (l l' : list VmContext) : Prop := {
  posts_ids : map (fun c => (ctx_core_id c, ctx_vm c)) l' = map (fun c => (ctx_core_id c, ctx_vm c)) l;
  posts_queue : forall core, core ∉ cpus -> exists ms,
    queue_of l' core = (fun q => q ++ ms) <$> queue_of l core /\ Forall (fun m => ~ is_interrupt m) ms
}.

#[export] Instance posts_preorder cpus : PreOrder (posts cpus).
Proof.
  split.
  - intros l. split; [done|]. intros core _. exists []. split; [|constructor].
    destruct (queue_of l core); cbn; [by rewrite app_nil_r|done].
  - intros l1 l2 l3 [I1 Q1] [I2 Q2]. split; [congruence|]. intros core Hc.
    destruct (Q1 core Hc) as (m1 & E1 & F1), (Q2 core Hc) as (m2 & E2 & F2). exists (m1 ++ m2).
    rewrite E2, E1. split; [|by apply Forall_app]. destruct (queue_of l1 core); cbn; [by rewrite app_assoc|done].
Qed.

Lemma set_queue_ids core q l :
  map (fun c => (ctx_core_id c, ctx_vm c)) (set_queue core q l) = map (fun c => (ctx_core_id c, ctx_vm c)) l.
Proof. induction l as [|c l IH]; cbn; [done|]. case_decide; cbn; by f_equal. Qed.

Lemma set_queue_posts cpus core q l : core ∈ cpus -> posts cpus l (set_queue core q l).
Proof.
  intros Hc. split; [apply set_queue_ids|]. intros core' Hc'. exists []. split; [|constructor].
  unfold queue_of. rewrite set_queue_lookup, decide_False by (intros ->; done).
  destruct (queue _ core'); cbn; [by rewrite app_nil_r|done].
Qed.

Lemma send_posts {D} cpus msg core notify (s : VirtualMachineSet D) hw :
  core ∈ cpus \/ ~ is_interrupt msg ->
  posts cpus (contexts s) (contexts (fst (fst (send_msg_core msg core notify (s, hw))))).
Proof.
  intros Hm. pose proof (send_msg_core_spec msg core notify s hw) as Hs.
  destruct (send_msg_core msg core notify (s, hw)) as [[s' hw'] r]. cbn [fst]. destruct Hs as [_ Hs].
  destruct (queue s core) as [q|] eqn:Hq; [|by destruct Hs as (_ & -> & _)].
  case_bool_decide; [|by destruct Hs as (_ & -> & _)]. destruct Hs as (_ & Hc & Hqs & _).
  split; [by rewrite Hc, set_queue_ids|]. intros core' Hc'. rewrite <- !queue_of_eq, Hqs. case_decide as Hd.
  - subst. exists [msg]. rewrite Hq. split; [done|]. constructor; [|constructor]. by destruct Hm.
  - exists []. split; [|constructor]. destruct (queue s core'); cbn; [by rewrite app_nil_r|done].
Qed.

(** ** What devices reach *)

Definition platform_within (cpus : list Z) (p p' : Platform) : Prop := posts cpus (pl_contexts p) (pl_contexts p').

#[export] Instance platform_within_preorder cpus : PreOrder (platform_within cpus).
Proof. split; [intros p; apply (reflexivity (R := posts cpus))|intros p1 p2 p3; apply (transitivity (R := posts cpus))]. Qed.

Section platform.
Context `{TimeSource} (apic : LocalApic) (this_core : Z) (cpus : list Z).
Notation safe_platform m := (safe eq (platform_within cpus) m).

Lemma safe_platform_det {A} (m : st Platform A) : (forall p, platform_within cpus p (fst (m p))) -> safe_platform m.
Proof. intros Hm. by apply safe_det. Qed.

Lemma safe_on_hw {A} (m : st CoreHw A) : safe_platform (on_hw m).
Proof. apply safe_platform_det. intros p. unfold on_hw. destruct (m (pl_hw p)). apply (reflexivity (R := posts cpus)). Qed.
Lemma safe_get_wheel : safe_platform get_wheel.
Proof. by apply safe_platform_det. Qed.
Lemma safe_put_wheel w : safe_platform (put_wheel w).
Proof. apply safe_platform_det. intros p. apply (reflexivity (R := posts cpus)). Qed.

Lemma safe_register_core_timer t : safe_platform (register_core_timer apic this_core t).
Proof.
  unfold register_core_timer. apply safe_bind; [apply _|apply safe_get_wheel|]. intros w.
  apply safe_bind; [apply _|apply safe_on_hw|]. intros [w' id].
  apply safe_bind; [apply _|apply safe_put_wheel|]. intros _. by apply secure_ret; [apply _|].
Qed.

Lemma safe_platform_send msg core notify : core ∈ cpus \/ ~ is_interrupt msg -> safe_platform (platform_send msg core notify).
Proof.
  intros Hm. apply safe_platform_det. intros p. unfold platform_send, platform_within.
  pose proof (send_posts (D := Empty_set) cpus msg core notify (mkSet (pl_contexts p) []) (pl_hw p) Hm) as Hp.
  by destruct (send_msg_core msg core notify _) as [[s hw] r].
Qed.

Lemma safe_cancel_timer id : safe_platform (cancel_timer apic this_core id).
Proof.
  unfold cancel_timer. destruct (is_local_timer this_core id).
  - apply safe_bind; [apply _|apply safe_get_wheel|]. intros w.
    apply safe_bind; [apply _|apply safe_on_hw|]. intros w'. apply safe_put_wheel.
  - apply safe_platform_send. right. cbn. tauto.
Qed.
End platform.

(** ** Devices *)

(** Two events that differ only in memory the guest [root] cannot see. *)
Record event_agree (root : Z) (e1 e2 : Event Platform) : Prop := {
  ea_kind : kind e2 = kind e1;
  ea_space : space e2 = space e1;
  ea_responses : responses e2 = responses e1;
  ea_world : world e2 = world e1;
  ea_root : view_space (space e1) = root;
  ea_host : host_agree root (host e1) (host e2)
}.

Section devices.
Context (root : Z) (cpus : list Z) {D : Type}.

Definition dev_agree (s1 s2 : D * Event Platform) : Prop := s2.1 = s1.1 /\ event_agree root s1.2 s2.2.
Definition dev_within (s s' : D * Event Platform) : Prop :=
  host_within root (host s.2) (host s'.2) /\ platform_within cpus (world s.2) (world s'.2).

#[export] Instance dev_within_preorder : PreOrder dev_within.
Proof.
  split; [intros s; by split|]. intros s1 s2 s3 [H1 P1] [H2 P2].
  split; [exact (transitivity H1 H2)|exact (transitivity P1 P2)].
Qed.

Notation safe_dev m := (safe dev_agree dev_within m).

Lemma safe_get_dev : safe_dev get_dev.
Proof. intros s1 s2 Hs. pose proof Hs as [Hd _]. by split_and!. Qed.
Lemma safe_set_dev d : safe_dev (set_dev d).
Proof. intros s1 s2 [_ He]. split_and!; done. Qed.
Lemma secure_get_event : secure dev_agree dev_within get_event get_event (event_agree root).
Proof. intros s1 s2 Hs. pose proof Hs as [_ He]. by split_and!. Qed.
Lemma safe_push_response r : safe_dev (push_response r).
Proof.
  intros s1 s2 [Hd [K Sp Rs Wd Rt Hh]]. unfold push_response. rewrite Rs. case_bool_decide; cbn.
  - split_and!; [done..|]. by split.
  - split_and!; done.
Qed.
Lemma safe_put_kind k : safe_dev (put_kind k).
Proof. intros s1 s2 [Hd [K Sp Rs Wd Rt Hh]]. split_and!; [done| |done]. by split. Qed.
Lemma safe_on_host {A} (m : st Host A) : safe (host_agree root) (host_within root) m -> safe_dev (on_host m).
Proof.
  intros Hm s1 s2 [Hd [K Sp Rs Wd Rt Hh]]. unfold on_host. destruct (Hm _ _ Hh) as (Ho & Ha & Hw).
  destruct (m (host s1.2)) as [h1 r1], (m (host s2.2)) as [h2 r2]. cbn in *. split_and!; [done| |done]. by split.
Qed.
Lemma safe_on_world {A} (m : st Platform A) : safe eq (platform_within cpus) m -> safe_dev (on_world m).
Proof.
  intros Hm s1 s2 [Hd [K Sp Rs Wd Rt Hh]]. unfold on_world. rewrite Wd. destruct (Hm _ _ (eq_refl (world s1.2))) as (Ho & Ha & Hw).
  destruct (m (world s1.2)) as [w r]. cbn in *. split_and!; [done| |done]. by split.
Qed.
Lemma safe_reply port req x : safe_dev (reply_u32 port req x).
Proof. apply safe_bind; [apply _|apply safe_lift, _|]. intros r. apply safe_put_kind. Qed.
End devices.

(** What the exit handler relies on of a device. *)
Class SecureDevice (cpus : list Z) (D : Type) `{EmulatedDevice Platform D} :=
  secure_on_event : forall root, safe (dev_agree root) (dev_within root cpus) (on_event (D := D)).

(** Take a handler apart: binds, conditionals and the operations above. *)
Ltac secure1 :=
  cbv zeta;
  lazymatch goal with
  | |- secure _ _ (get_event ≫= _) _ _ =>
      eapply secure_bind; [apply _|apply secure_get_event|]; intros ? ? [?Ek ?Es _ _ ?Er _]; rewrite ?Ek, ?Es
  | |- secure _ _ (_ ≫= _) _ _ => apply safe_bind; [apply _| |intros ?]
  | |- secure _ _ get_dev _ _ => apply safe_get_dev
  | |- secure _ _ (set_dev _) _ _ => apply safe_set_dev
  | |- secure _ _ (put_kind _) _ _ => apply safe_put_kind
  | |- secure _ _ (reply_u32 _ _ _) _ _ => apply safe_reply
  | |- secure _ _ (push_response _) _ _ => apply safe_push_response
  | |- secure _ _ (lift _) _ _ => apply safe_lift, _
  | |- secure _ _ (mret _) _ _ => apply secure_ret; [apply _|done]
  | |- secure _ _ (err _) _ _ => apply secure_err, _
  | |- secure _ _ (panic _) _ _ => apply secure_panic, _
  | |- secure _ _ (on_world (on_hw _)) _ _ => apply safe_on_world, safe_on_hw
  | |- secure _ _ (if ?b then _ else _) _ _ => destruct b eqn:?
  | |- secure _ _ (match ?x with _ => _ end) _ _ => destruct x eqn:?
  end.
Ltac secured := repeat secure1.

Section device_proofs.
Context (root : Z) (cpus : list Z).
Notation safe_dev m := (safe (dev_agree root) (dev_within root cpus) m).

Lemma debug_secure : safe_dev DebugPort.on_event.
Proof. unfold DebugPort.on_event. secured. Qed.
Lemma keyboard_secure : safe_dev Keyboard8042.on_event.
Proof. unfold Keyboard8042.on_event. secured. Qed.
Lemma ioapic_secure : safe_dev VirtIoApic.on_event.
Proof. apply (secure_ret (dev_agree root) (dev_within root cpus) tt tt eq eq_refl). Qed.
Lemma pic_secure : safe_dev Pic8259.on_event.
Proof. unfold Pic8259.on_event. secured. Qed.
Lemma vga_secure : safe_dev VgaController.on_event.
Proof. unfold VgaController.on_event, VgaController.on_port_read, VgaController.on_port_write. secured. Qed.
Lemma rtc_secure : safe_dev CmosRtc.on_event.
Proof. unfold CmosRtc.on_event, CmosRtc.on_port_read, CmosRtc.on_port_write. secured. Qed.
Lemma pci_secure : safe_dev pci_on_event.
Proof. unfold pci_on_event. secured. Qed.
Lemma uart_secure : safe_dev uart_on_event.
Proof. unfold uart_on_event, uart_receive, uart_port_write. secured. Qed.
Lemma acpi_secure `{TimeSource} start : safe_dev (AcpiRuntime.on_event start).
Proof. unfold AcpiRuntime.on_event. secured. Qed.

Lemma safe_cancel_channel `{TimeSource} apic this_core m : safe eq (platform_within cpus) (cancel_channel_timer apic this_core m).
Proof.
  apply safe_platform_det. intros p. unfold cancel_channel_timer. destruct (mode_timer m) as [id|]; [|done].
  destruct (safe_cancel_timer apic this_core cpus id p p eq_refl) as (_ & _ & Hw).
  by destruct (cancel_timer apic this_core id p) as [p' [[]|e|w]].
Qed.

Lemma pit_secure `{TimeSource} apic this_core : safe_dev (pit_on_event apic this_core).
Proof.
  unfold pit_on_event, pit_on_port_read, pit_on_port_write, write_mode, write_counter. secured.
  all: apply safe_on_world; first [apply safe_cancel_channel|apply safe_register_core_timer].
Qed.

Lemma safe_space_read `{GuestPaging} a n : safe_dev (space_read a n).
Proof. unfold space_read. secure1. apply safe_on_host. unfold view_read_bytes. rewrite Er. apply safe_read_bytes. Qed.
Lemma safe_space_write `{GuestPaging} a bs : safe_dev (space_write a bs).
Proof. unfold space_write. secure1. apply safe_on_host. unfold view_write_bytes. rewrite Er. apply safe_write_bytes. Qed.

Lemma fw_secure `{GuestPaging} : safe_dev fw_on_event.
Proof.
  unfold fw_on_event, fw_on_port_read, fw_on_port_write, perform_dma_transfer. secured.
  all: first [apply safe_space_read|apply safe_space_write].
Qed.

Lemma handle_secure {A D} (wrap : A -> D) (h : handler Platform A) a e1 e2 :
  safe_dev h -> event_agree root e1 e2 ->
  same_outcome eq (snd (handle wrap h a e1)) (snd (handle wrap h a e2)) /\
  dev_agree root (fst (handle wrap h a e1)) (fst (handle wrap h a e2)) /\
  dev_within root cpus (wrap a, e1) (fst (handle wrap h a e1)).
Proof.
  intros Hh He. destruct (Hh (a, e1) (a, e2) (conj eq_refl He)) as (Ho & [Hd He'] & Hw). unfold handle.
  destruct (h (a, e1)) as [[a1 f1] r1], (h (a, e2)) as [[a2 f2] r2]. cbn in *. subst. by split_and!.
Qed.

Lemma dynamic_secure `{GuestPaging} : safe_dev dynamic_on_event.
Proof.
  intros [d e1] [d' e2] [Hd He]. cbn in Hd, He. subst d'. destruct d; cbn [dynamic_on_event].
  all: apply handle_secure; [|done]. - apply debug_secure. - apply uart_secure. - apply fw_secure.
Qed.

Lemma machine_secure `{TimeSource} `{GuestPaging} apic this_core start : safe_dev (device_on_event apic this_core start).
Proof.
  intros [d e1] [d' e2] [Hd He]. cbn in Hd, He. subst d'. destruct d; cbn [device_on_event].
  all: apply handle_secure; [|done].
  - apply acpi_secure.
  - apply vga_secure.
  - apply pci_secure.
  - apply pic_secure.
  - apply keyboard_secure.
  - apply pit_secure.
  - apply rtc_secure.
  - apply ioapic_secure.
  - apply dynamic_secure.
Qed.
End device_proofs.

#[export] Instance machine_device_secure `{TimeSource} `{GuestPaging} cpus apic this_core start :
  @SecureDevice cpus Device (machine_device apic this_core start) :=
  fun root => machine_secure root cpus apic this_core start.
