(* ===== verification/NonInterference.v ===== *)
(** * No exit crosses the border of its machine

    [Secure] lifted to the exit handler ([vcpu.rs], [vmexit.rs], [emulate/*.rs],
    [virtdev/lapic.rs], [vm.rs]) and from there to a system of machines that run, exit and
    wait in any order. *)

From S2P Require Import Prelude Error BTreeMap Memory GuestMemory VirtDev IoApic Vmcs VmExit Clock Apic Timers Vm VmMemory Isolation Lapic Platform Core Emulate MemIo VCpu Machine Vmx Typing Secure.

(** ** What a core sees and changes *)

Section core.
Context {D H : Type} (this_vm : nat) (me : VirtualMachine D).
Notation cpus := (vm_cpus me).
Notation root := (vm_guest_space me).
Implicit Types (c : Core D H) (s : VirtualMachineSet D) (v : VirtualMachine D).

(** What others learn of a machine, and what stays as it was built. *)
Definition public v : Z * list Z := (vm_id v, vm_cpus v).
Definition fixed v := (vm_id v, vm_cpus v, vm_memory v, vm_device_map v, vm_guest_space v, vm_apic_access_page v).

(** Two sets that differ only inside other machines. *)
Record set_agree s1 s2 : Prop := {
  sa_contexts : contexts s2 = contexts s1;
  sa_own : exists v, vms s1 !! this_vm = Some v /\ vms s2 !! this_vm = Some v /\ fixed v = fixed me;
  sa_public : public <$> vms s2 = public <$> vms s1
}.
(** A change of the set that only sends messages and changes the own machine. *)
Record set_within s s' : Prop := {
  sw_posts : posts cpus (contexts s) (contexts s');
  sw_others : forall j, j <> this_vm -> vms s' !! j = vms s !! j
}.

#[export] Instance set_within_preorder : PreOrder set_within.
Proof.
  split; [by intros s; split|]. intros s1 s2 s3 [P1 O1] [P2 O2]. split; [exact (transitivity P1 P2)|].
  intros j Hj. by rewrite O2, O1.
Qed.

(** Two states of a core that its guest cannot tell apart. *)
Record core_agree c1 c2 : Prop := {
  ca_vmcs : c_vmcs c2 = c_vmcs c1;
  ca_lapic : c_lapic c2 = c_lapic c1;
  ca_pending : c_pending c2 = c_pending c1;
  ca_cpu : c_cpu c2 = c_cpu c1;
  ca_wheel : c_wheel c2 = c_wheel c1;
  ca_hw : c_hw c2 = c_hw c1;
  ca_set : set_agree (c_set c1) (c_set c2);
  ca_host : host_agree root (c_host c1) (c_host c2);
  ca_ioapics : c_ioapics c2 = c_ioapics c1;
  ca_flushed : c_flushed c2 = c_flushed c1;
  ca_console : c_console c2 = c_console c1;
  ca_responses : c_responses c2 = c_responses c1
}.
Definition core_within c c' : Prop :=
  set_within (c_set c) (c_set c') /\ host_within root (c_host c) (c_host c').

#[export] Instance core_within_preorder : PreOrder core_within.
Proof.
  split; [by intros c; split|]. intros c1 c2 c3 [S1 H1] [S2 H2].
  split; [exact (transitivity S1 S2)|exact (transitivity H1 H2)].
Qed.

Notation safe_core m := (safe core_agree core_within m).

(** ** Code that works on one part *)

Lemma safe_on_vmcs {A} (m : st VmcsState A) : safe_core (on_vmcs m).
Proof.
  intros c1 c2 []. unfold on_vmcs. rewrite ca_vmcs0. destruct (m (c_vmcs c1)).
  split_and!; [apply same_outcome_refl|by split|by split].
Qed.
Lemma safe_on_cpu {A} (m : st GuestCpuState A) : safe_core (on_cpu m).
Proof.
  intros c1 c2 []. unfold on_cpu. rewrite ca_cpu0. destruct (m (c_cpu c1)).
  split_and!; [apply same_outcome_refl|by split|by split].
Qed.
Lemma safe_on_pending {A} (m : st (list (Z * InjectedInterruptType)) A) : safe_core (on_pending m).
Proof.
  intros c1 c2 []. unfold on_pending. rewrite ca_pending0. destruct (m (c_pending c1)).
  split_and!; [apply same_outcome_refl|by split|by split].
Qed.
Lemma safe_on_core_hw {A} (m : st CoreHw A) : safe_core (on_core_hw m).
Proof.
  intros c1 c2 []. unfold on_core_hw. rewrite ca_hw0. destruct (m (c_hw c1)).
  split_and!; [apply same_outcome_refl|by split|by split].
Qed.
Lemma safe_on_ioapics {A} (m : st H A) : safe_core (on_ioapics m).
Proof.
  intros c1 c2 []. unfold on_ioapics. rewrite ca_ioapics0. destruct (m (c_ioapics c1)).
  split_and!; [apply same_outcome_refl|by split|by split].
Qed.
Lemma safe_log_flush t x : safe_core (log_flush t x).
Proof. intros c1 c2 []. split_and!; [done| |by split]. split; try done. cbn. by rewrite ca_flushed0. Qed.
Lemma safe_write_console b : safe_core (write_console b).
Proof. intros c1 c2 []. split_and!; [done| |by split]. split; try done. cbn. by rewrite ca_console0. Qed.
Lemma safe_take_responses : safe_core take_responses.
Proof. intros c1 c2 []. split_and!; [done|by split|by split]. Qed.

Lemma safe_on_core_host {A} (m : st Host A) : safe (host_agree root) (host_within root) m -> safe_core (on_core_host m).
Proof.
  intros Hm c1 c2 []. unfold on_core_host. destruct (Hm _ _ ca_host0) as (Ho & Ha & Hw).
  destruct (m (c_host c1)) as [h1 r1], (m (c_host c2)) as [h2 r2]. split_and!; [done|by split|by split].
Qed.
Lemma safe_on_platform {A} (m : st Platform A) : safe eq (platform_within cpus) m -> safe_core (on_platform m).
Proof.
  intros Hm c1 c2 []. unfold on_platform. rewrite ca_hw0, ca_wheel0, (sa_contexts _ _ ca_set0).
  destruct (Hm _ _ (eq_refl (mkPlatform (c_hw c1) (c_wheel c1) (contexts (c_set c1))))) as (Ho & _ & Hw).
  destruct (m _) as [p r]. destruct ca_set0 as [_ So Sp]. split_and!; [done| |]; [by split|by split; split].
Qed.

(** The set and the core's hardware. *)
Definition shared_agree (w1 w2 : VirtualMachineSet D * CoreHw) : Prop := set_agree w1.1 w2.1 /\ w2.2 = w1.2.
Definition shared_within (w w' : VirtualMachineSet D * CoreHw) : Prop := set_within w.1 w'.1.
#[export] Instance shared_within_preorder : PreOrder shared_within.
Proof. split; [intros w; apply (reflexivity (R := set_within))|intros w1 w2 w3; apply (transitivity (R := set_within))]. Qed.

Lemma secure_on_set {A} (m1 m2 : st (VirtualMachineSet D * CoreHw) A) P :
  secure shared_agree shared_within m1 m2 P -> secure core_agree core_within (on_set m1) (on_set m2) P.
Proof.
  intros Hm c1 c2 []. unfold on_set. destruct (Hm (c_set c1, c_hw c1) (c_set c2, c_hw c2) (conj ca_set0 ca_hw0)) as (Ho & [Ha Hh] & Hw).
  destruct (m1 _) as [[s1 h1] r1], (m2 _) as [[s2 h2] r2]. cbn in *. split_and!; [done|by split|by split].
Qed.

Definition lapic_agree (w1 w2 : @LapicState D) : Prop := w2.1 = w1.1 /\ shared_agree w1.2 w2.2.
Definition lapic_within (w w' : @LapicState D) : Prop := shared_within w.2 w'.2.
#[export] Instance lapic_within_preorder : PreOrder lapic_within.
Proof. split; [intros w; apply (reflexivity (R := set_within))|intros w1 w2 w3; apply (transitivity (R := set_within))]. Qed.

Lemma safe_on_lapic {A} (m : st (@LapicState D) A) : safe lapic_agree lapic_within m -> safe_core (on_lapic m).
Proof.
  intros Hm c1 c2 []. unfold on_lapic.
  destruct (Hm (c_lapic c1, (c_set c1, c_hw c1)) (c_lapic c2, (c_set c2, c_hw c2))) as (Ho & (Hl & Ha & Hh) & Hw); [by split|].
  destruct (m (c_lapic c1, _)) as [[l1 [s1 h1]] r1], (m (c_lapic c2, _)) as [[l2 [s2 h2]] r2]. cbn in *.
  split_and!; [done|by split|by split].
Qed.

(** ** Messages *)

Lemma set_agree_send s1 s2 l : set_agree s1 s2 -> set_agree (mkSet l (vms s1)) (mkSet l (vms s2)).
Proof. by intros [_ So Sp]. Qed.

Lemma safe_send msg core notify :
  core ∈ cpus \/ ~ is_interrupt msg -> safe shared_agree shared_within (send_msg_core msg core notify).
Proof.
  intros Hm [s1 hw] [s2 hw'] [Hs Hh]. cbn in Hs, Hh. subst hw'. split_and!.
  - unfold send_msg_core, context_by_core_id. rewrite (sa_contexts _ _ Hs).
    destruct (head _); [|done]. case_bool_decide; [|done]. by destruct notify.
  - unfold send_msg_core, context_by_core_id. rewrite (sa_contexts _ _ Hs).
    destruct (head _); [|by split]. case_bool_decide; [|by split].
    destruct notify; cbn; (split; [by apply set_agree_send|done]).
  - split; [by apply send_posts|]. intros j _. pose proof (send_msg_core_spec msg core notify s1 hw) as Hv.
    destruct (send_msg_core msg core notify (s1, hw)) as [[s' hw'] r]. destruct Hv as [Hv _]. cbn. by rewrite Hv.
Qed.

Lemma public_lookup s1 s2 j : set_agree s1 s2 -> public <$> vms s2 !! j = public <$> vms s1 !! j.
Proof. intros [_ _ Sp]. by rewrite <- !list_lookup_fmap, Sp. Qed.

Lemma bsp_core_id_agree s1 s2 id : set_agree s1 s2 -> bsp_core_id s2 id = bsp_core_id s1 id.
Proof.
  intros Hs. unfold bsp_core_id, get_by_vm_id, context_by_vm_id. rewrite (sa_contexts _ _ Hs).
  assert (forall j, vm_id <$> vms s2 !! j = vm_id <$> vms s1 !! j) as Hid.
  { intros j. pose proof (public_lookup s1 s2 j Hs) as Hp. destruct (vms s2 !! j), (vms s1 !! j); cbn in *; try done. by injection Hp as -> _. }
  rewrite (list_filter_iff _ (fun x => (vm_id <$> vms s1 !! ctx_vm x) = Some id)) by (intros x; by rewrite Hid).
  destruct (head _) as [x|]; [|done]. cbn. pose proof (public_lookup s1 s2 (ctx_vm x) Hs) as Hp.
  destruct (vms s2 !! ctx_vm x), (vms s1 !! ctx_vm x); cbn in *; try done. unfold bsp_id. by injection Hp as _ ->.
Qed.

Lemma vm_count_agree s1 s2 : set_agree s1 s2 -> vm_count s2 = vm_count s1.
Proof. intros [_ _ Sp]. unfold vm_count. by rewrite <- (length_fmap public), Sp, length_fmap. Qed.

Lemma safe_send_msg msg id notify : ~ is_interrupt msg -> safe shared_agree shared_within (send_msg msg id notify).
Proof.
  intros Hm [s1 hw] [s2 hw'] [Hs Hh]. cbn in Hs, Hh. subst hw'. unfold send_msg. rewrite (bsp_core_id_agree s1 s2) by done.
  destruct (bsp_core_id s1 id) as [[b|]|e|w]; [|by split_and!..]. by apply safe_send; [right|].
Qed.

Lemma safe_recv_all core : core ∈ cpus ->
  safe shared_agree shared_within (fun '(s, hw) => let '(s, r) := recv_all_msgs (D := D) core s in ((s, hw), r)).
Proof.
  intros Hc [s1 hw] [s2 hw'] [Hs Hh]. cbn in Hs, Hh. subst hw'. unfold recv_all_msgs, context_by_core_id.
  rewrite (sa_contexts _ _ Hs). destruct (head _) as [x|]; cbn; [|by split_and!].
  split_and!; [done|split; [by apply set_agree_send|done]|]. split; [by apply set_queue_posts|done].
Qed.
Lemma safe_recv core : core ∈ cpus ->
  safe shared_agree shared_within (fun '(s, hw) => let '(s, r) := recv_msg (D := D) core s in ((s, hw), r)).
Proof.
  intros Hc [s1 hw] [s2 hw'] [Hs Hh]. cbn in Hs, Hh. subst hw'. unfold recv_msg, context_by_core_id.
  rewrite (sa_contexts _ _ Hs). destruct (head _) as [x|]; cbn; [|by split_and!].
  destruct (ctx_msgqueue x); cbn; [by split_and!|].
  split_and!; [done|split; [by apply set_agree_send|done]|]. split; [by apply set_queue_posts|done].
Qed.

(** ** The own machine *)

Definition is_own v v' : Prop := v = v' /\ fixed v = fixed me.

Lemma fixed_cpus v : fixed v = fixed me -> vm_cpus v = cpus.
Proof. by intros [=]. Qed.
Lemma fixed_root v : fixed v = fixed me -> vm_guest_space v = root.
Proof. by intros [=]. Qed.

Lemma set_agree_put s1 s2 v : set_agree s1 s2 -> fixed v = fixed me ->
  set_agree (mkSet (contexts s1) (<[this_vm := v]> (vms s1))) (mkSet (contexts s2) (<[this_vm := v]> (vms s2))).
Proof.
  intros [Sc (u & U1 & U2 & _) Sp] Hv. split; cbn; [done| |].
  - exists v. rewrite !list_lookup_insert_eq by (by eapply lookup_lt_Some). done.
  - by rewrite !list_fmap_insert, Sp.
Qed.
Lemma set_within_put s v l : posts cpus (contexts s) l -> set_within s (mkSet l (<[this_vm := v]> (vms s))).
Proof. intros Hp. split; [done|]. intros j Hj. cbn. by rewrite list_lookup_insert_ne. Qed.

Lemma secure_machine : secure core_agree core_within (this_machine this_vm) (this_machine this_vm) is_own.
Proof.
  intros c1 c2 Hc. split_and!; [|done|done]. destruct (sa_own _ _ (ca_set _ _ Hc)) as (v & V1 & V2 & Hv).
  unfold this_machine. cbn. by rewrite V1, V2.
Qed.
Lemma safe_put_machine v : fixed v = fixed me -> safe_core (put_machine this_vm v).
Proof.
  intros Hv c1 c2 []. split_and!; [done| |].
  - split; try done. by apply set_agree_put.
  - split; [by apply set_within_put|done].
Qed.

Lemma safe_dispatch `{SecureDevice cpus D} ident k : safe_core (dispatch this_vm ident k).
Proof.
  intros c1 c2 Hc. destruct (sa_own _ _ (ca_set _ _ Hc)) as (v & V1 & V2 & Hv). pose proof Hc as [].
  unfold dispatch. rewrite V1, V2, ca_vmcs0, ca_hw0, ca_wheel0, ca_responses0, (sa_contexts _ _ ca_set0).
  unfold dispatch_event. cbn [ds_vm ds_kind ds_responses ds_host ds_world].
  assert (forall (k' : DeviceEvent) (r : res unit), let c' c h := mkCore (c_vmcs c1) (c_lapic c) (c_pending c) (c_cpu c) (c_wheel c1) (c_hw c1)
      (mkSet (contexts (c_set c1)) (<[this_vm := v]> (vms (c_set c)))) h (c_ioapics c) (c_flushed c) (c_console c) (c_responses c1) in
    same_outcome eq ((fun _ : unit => k') <$> r) ((fun _ : unit => k') <$> r) /\
    core_agree (c' c1 (c_host c1)) (c' c2 (c_host c2)) /\ core_within c1 (c' c1 (c_host c1))) as Hdone.
  { intros k' r. split_and!; [apply same_outcome_refl| |].
    - split; try done. cbn. rewrite <- (sa_contexts _ _ ca_set0) at 2. by apply set_agree_put.
    - split; [by apply set_within_put|done]. }
  destruct (find_device ident v) as [i|].
  - destruct (vm_devices v !! i) as [d|]; [|exact (Hdone k (Panic _))].
    set (e1 := mkEvent k _ _ (c_host c1) _). set (e2 := mkEvent k _ _ (c_host c2) _).
    assert (event_agree root e1 e2) as He by (by split; [..|apply fixed_root|]).
    destruct (secure_on_event root (d, e1) (d, e2) (conj eq_refl He)) as (Ho & [Hd Ha] & Hw).
    destruct (on_event (d, e1)) as [[d1 f1] r1], (on_event (d, e2)) as [[d2 f2] r2]. cbn in Hd, Ha, Hw, Ho.
    subst d2. destruct Ha as [K Sp Rs Wd Rt Hh], Hw as [Hw1 Hw2]. cbn [fst snd]. rewrite K, Rs, Wd. split_and!.
    + destruct r1, r2; cbn in *; by subst.
    + split; try done. cbn [c_set c_host]. destruct (set_agree_put (c_set c1) (c_set c2)
        (set_vm_devices (<[i := d1]> (vm_devices v)) v) ca_set0 Hv) as [_ So Sp']. by split.
    + split; [|done]. by apply set_within_put.
  - destruct k as [?|? ?|? ?|p q|? ?]; cbn [fst snd]; try exact (Hdone _ (Err _)); try exact (Hdone _ (Ok tt)).
    destruct (PortReadRequest.copy_from_u32 q 0) as [q'|e|w].
    + exact (Hdone (PortRead p q') (Ok tt)).
    + exact (Hdone (PortRead p q) (Err e)).
    + exact (Hdone (PortRead p q) (Panic w)).
Qed.
End core.

(** ** The exit handler *)

Section handlers.
Context {D H : Type} `{IoApicHw H} `{VmxCpu} `{CoreCpu} `{GuestPaging} `{Decoder} `{TimeSource}.
Context (apic : LocalApic) (ioapics : list IoApic) (this_core : Z) (this_vm : nat) (me : VirtualMachine D).
Context `{SecureDevice (vm_cpus me) D}.
Hypothesis this_core_own : this_core ∈ vm_cpus me.
Notation agree := (core_agree (D := D) (H := H) this_vm me).
Notation within := (core_within (D := D) (H := H) this_vm me).
Notation safe_core m := (safe agree within m).

(** Take a handler of the core apart. *)
Ltac step :=
  cbv zeta;
  lazymatch goal with
  | |- secure _ _ (this_machine _ ≫= _) _ _ =>
      eapply secure_bind; [apply _|apply secure_machine|]; intros ? ? [<- ?Hv]
  | |- secure _ _ (_ ≫= _) _ _ => apply safe_bind; [apply _| |intros ?]
  | |- secure _ _ (read_field _) _ _ => apply safe_on_vmcs
  | |- secure _ _ (write_field _ _) _ _ => apply safe_on_vmcs
  | |- secure _ _ get_cpu _ _ => apply safe_on_cpu
  | |- secure _ _ (put_cpu _) _ _ => apply safe_on_cpu
  | |- secure _ _ (on_pending _) _ _ => apply safe_on_pending
  | |- secure _ _ (on_core_hw _) _ _ => apply safe_on_core_hw
  | |- secure _ _ (on_ioapics _) _ _ => apply safe_on_ioapics
  | |- secure _ _ (write_console _) _ _ => apply safe_write_console
  | |- secure _ _ take_responses _ _ => apply safe_take_responses
  | |- secure _ _ (dispatch _ _ _) _ _ => apply safe_dispatch, _
  | |- secure _ _ (lift _) _ _ => apply safe_lift, _
  | |- secure _ _ (mret _) _ _ => apply secure_ret; [apply _|done]
  | |- secure _ _ (err _) _ _ => apply secure_err, _
  | |- secure _ _ (panic _) _ _ => apply secure_panic, _
  | |- secure _ _ (if ?b then _ else _) _ _ => destruct b eqn:?
  | |- secure _ _ (match ?x with _ => _ end) _ _ => destruct x eqn:?
  end.
Ltac steps := repeat step.

(** Code that only looks at the fields and registers of the core. *)
Lemma safe_reads {A} (f : VmcsState -> GuestCpuState -> res A) : safe_core (fun c => (c, f (c_vmcs c) (c_cpu c))).
Proof. intros c1 c2 Hc. cbn. rewrite (ca_vmcs _ _ _ _ Hc), (ca_cpu _ _ _ _ Hc). split_and!; [apply same_outcome_refl|done..]. Qed.

Lemma safe_virt_addr a : safe_core (guest_virt_addr a).
Proof. unfold guest_virt_addr. steps. Qed.
Lemma safe_read_space a n : safe_core (space_read_bytes this_vm a n).
Proof.
  unfold space_read_bytes. step; [steps|]. step. apply safe_on_core_host. unfold view_read_bytes. cbn.
  rewrite (fixed_root me _ Hv). apply safe_read_bytes.
Qed.
Lemma safe_write_space a bs : safe_core (space_write_bytes this_vm a bs).
Proof.
  unfold space_write_bytes. step; [steps|]. step. apply safe_on_core_host. unfold view_write_bytes. cbn.
  rewrite (fixed_root me _ Hv). apply safe_write_bytes.
Qed.

(** *** Port I/O, control registers and CPUID *)

Lemma safe_dispatch_write port bs : safe_core (dispatch_write this_vm port bs).
Proof. unfold dispatch_write. steps. Qed.
Lemma safe_dispatch_read port bs : safe_core (dispatch_read this_vm port bs).
Proof. unfold dispatch_read. steps. Qed.
Lemma safe_read_chunks port n size : safe_core (read_chunks this_vm port n size).
Proof. induction n as [|n IH]; cbn [read_chunks]; [steps|]. step; [apply safe_dispatch_read|]. step; [exact IH|]. steps. Qed.

Lemma safe_portio i : safe_core (emulate_portio this_vm i).
Proof.
  unfold emulate_portio, emulate_outs, emulate_ins. steps.
  all: first [apply safe_dispatch_write|apply safe_dispatch_read|apply safe_virt_addr|apply safe_read_space
             |apply safe_read_chunks|apply safe_write_space|idtac].
  apply (safe_iter _ _ _ (fun _ => True)); [intros bs _; apply safe_dispatch_write|by apply Forall_forall].
Qed.

Lemma safe_mov_cr_write r x : safe_core (mov_cr_write_core r x).
Proof.
  intros c1 c2 Hc. unfold mov_cr_write_core. rewrite (ca_vmcs _ _ _ _ Hc), (ca_cpu _ _ _ _ Hc). destruct Hc. destruct (mov_cr_write _ _ _) as [[v g] res].
  split_and!; [apply same_outcome_refl|by split|by split].
Qed.
Lemma safe_invvpid mode : safe_core (invvpid mode).
Proof. unfold invvpid. steps. apply safe_log_flush. Qed.
Lemma safe_access i : safe_core (emulate_access i).
Proof.
  unfold emulate_access, unwrap_register, mov_cr_read_core. steps.
  all: first [apply (safe_reads (fun v g => mov_cr_read _ v g))|apply safe_invvpid|apply safe_mov_cr_write].
Qed.
Lemma safe_cpuid : safe_core (emulate_cpuid this_core).
Proof. unfold emulate_cpuid. steps. Qed.

(** *** The virtual local APIC *)

Notation safe_lapic m := (safe (lapic_agree this_vm me) (lapic_within this_vm me) m).

Lemma safe_get_icr : safe_lapic get_icr.
Proof. intros w1 w2 Hw. pose proof Hw as [Hi _]. by split_and!. Qed.
Lemma safe_set_icr d : safe_lapic (set_icr d).
Proof. intros w1 w2 [_ Hw]. by split_and!. Qed.
Lemma secure_get_vm : secure (lapic_agree this_vm me) (lapic_within this_vm me) (get_vm this_vm) (get_vm this_vm) (is_own me).
Proof.
  intros w1 w2 Hw. split_and!; [|done|done]. destruct Hw as (_ & Hs & _). destruct (sa_own _ _ _ _ Hs) as (v & V1 & V2 & Hv).
  unfold get_vm. cbn. by rewrite V1, V2.
Qed.
Lemma safe_put_vm v : fixed v = fixed me -> safe_lapic (put_vm this_vm v).
Proof.
  intros Hv w1 w2 (Hi & Hs & Hh). split_and!; [done| |].
  - split; [done|]. split; [by apply set_agree_put|done].
  - by apply set_within_put.
Qed.
Lemma safe_lapic_send msg core notify : core ∈ vm_cpus me \/ ~ is_interrupt msg -> safe_lapic (send msg core notify).
Proof.
  intros Hm w1 w2 [Hi Hs]. unfold send. destruct (safe_send this_vm me msg core notify Hm _ _ Hs) as (Ho & Ha & Hw).
  destruct (send_msg_core msg core notify w1.2) as [x1 r1], (send_msg_core msg core notify w2.2) as [x2 r2]. by split_and!.
Qed.

Lemma safe_unless_self vector core : core ∈ vm_cpus me -> safe_lapic (send_unless_self this_core vector core).
Proof. intros Hc. unfold send_unless_self. steps. apply safe_lapic_send. by left. Qed.

Lemma safe_send_logical v vector dest l : Forall (.∈ vm_cpus me) l -> safe_lapic (send_logical this_core v vector dest l).
Proof.
  induction 1 as [|core l Hc Hl IH]; cbn [send_logical]; steps; [by apply safe_unless_self|exact IH].
Qed.

Lemma own_cores (v : VirtualMachine D) : fixed v = fixed me -> Forall (.∈ vm_cpus me) (vm_cpus v).
Proof. intros Hv. rewrite (fixed_cpus me v Hv). by apply Forall_forall. Qed.

Lemma logical_fixed core dest (v v' : VirtualMachine D) :
  fixed v = fixed me -> update_core_logical_destination core dest v = Ok v' -> fixed v' = fixed me.
Proof. intros Hv. unfold update_core_logical_destination. by intros (? & _ & [= <-])%bind_Ok. Qed.

Ltac lapic_step :=
  lazymatch goal with
  | |- secure _ _ (lift (update_core_logical_destination _ _ _) ≫= _) _ _ =>
      eapply secure_bind; [apply _|apply secure_lift; [apply _|intros ?; by apply logical_fixed]|]; intros ? ? [<- ?Hv']
  | |- secure _ _ (get_vm _ ≫= _) _ _ => eapply secure_bind; [apply _|apply secure_get_vm|]; intros ? ? [<- ?Hv]
  | |- secure _ _ get_icr _ _ => apply safe_get_icr
  | |- secure _ _ (set_icr _) _ _ => apply safe_set_icr
  | |- secure _ _ (send (StartVcpu _) _ _) _ _ => apply safe_lapic_send; right; cbn; tauto
  | _ => step
  end.

Lemma safe_register_write offset value : safe_lapic (register_write this_core this_vm offset value).
Proof.
  unfold register_write, process_interrupt_command, process_sipi_request. repeat lapic_step.
  all: first
    [ apply safe_send_logical, own_cores; assumption
    | eapply safe_iter; [apply _|apply safe_unless_self|by apply own_cores]
    | by apply safe_put_vm ].
Qed.
Lemma safe_register_read offset : safe_lapic (register_read this_core offset).
Proof. unfold register_read. steps. Qed.

(** *** Memory-mapped I/O *)

Lemma safe_memio addr (on_read on_write : callback (D := D) (H := H)) :
  (forall a k, safe_core (on_read a k)) -> (forall a k, safe_core (on_write a k)) ->
  safe_core (process_memio_op this_vm addr on_read on_write).
Proof.
  intros Hr Hw. unfold process_memio_op, do_mmio_write, do_mmio_read. steps.
  all: first [apply Hr|apply Hw|apply safe_virt_addr|apply safe_read_space
             |apply (safe_reads (fun v g => read_register_value _ v g))].
Qed.

Lemma safe_ept_violation i : safe_core (handle_ept_violation this_vm i).
Proof. unfold handle_ept_violation. step; [steps|]. apply safe_memio; intros b k; steps. Qed.

Lemma safe_apic_access i : safe_core (handle_apic_access this_core this_vm i).
Proof.
  unfold handle_apic_access. step; [steps|]. apply safe_memio; intros b k; unfold on_apic_read, on_apic_write; steps.
  all: apply safe_on_lapic; first [apply safe_register_read|apply safe_register_write].
Qed.

(** *** Messages, interrupts and responses *)

Lemma safe_on_set_send msg core notify : core ∈ vm_cpus me \/ ~ is_interrupt msg -> safe_core (on_set (send_msg_core msg core notify)).
Proof. intros Hm. by apply secure_on_set, safe_send. Qed.

Lemma gsi_destination_own gsi (v : VirtualMachine D) r :
  fixed v = fixed me -> gsi_destination this_core gsi v = Ok r -> r.1.1 ∈ vm_cpus me.
Proof.
  intros Hv. unfold gsi_destination, bsp_id. rewrite (fixed_cpus me v Hv). destruct (gsi =? gsi_UART); [|by intros [= <-]].
  intros (b & Hb & [= <-])%bind_Ok. cbn. destruct (vm_cpus me) as [|x l]; [done|]. injection Hb as ->. by left.
Qed.

Lemma safe_route gsi : safe_core (route_interrupt this_core this_vm gsi).
Proof.
  unfold route_interrupt, inject_interrupt. step.
  eapply secure_bind; [apply _|apply secure_lift; [apply _|intros r; by apply (gsi_destination_own gsi)]|].
  intros [[dst vec] k] ? [<- Hd]. steps. apply safe_on_set_send. by left.
Qed.

Lemma safe_handle_msg m : safe_core (handle_msg apic this_core this_vm m).
Proof.
  destruct m; cbn [handle_msg]; unfold inject_interrupt; steps.
  - by apply safe_put_machine.
  - apply safe_on_platform, safe_cancel_timer.
Qed.

Lemma safe_ipc : safe_core (handle_ipc apic this_core this_vm).
Proof.
  unfold handle_ipc. step; [by apply secure_on_set, safe_recv_all|].
  apply (safe_iter _ _ _ (fun _ => True)); [intros m _; apply safe_handle_msg|by apply Forall_forall].
Qed.

Lemma safe_keypress : safe_core (handle_uart_keypress this_vm).
Proof. unfold handle_uart_keypress. steps. Qed.

(** The next machine's identifier and boot core are the same whatever is inside other
    machines. *)
Lemma secure_get_set : secure agree within (on_set (fun w => (w, Ok w.1))) (on_set (fun w => (w, Ok w.1))) (set_agree this_vm me).
Proof. apply secure_on_set. intros w1 w2 Hw. pose proof Hw as [Hs _]. by split_and!. Qed.

Lemma safe_next_console : safe_core (handle_response ioapics this_core this_vm NextConsole).
Proof.
  cbn [handle_response]. step. step; [by apply safe_put_machine|]. step; [steps|].
  eapply secure_bind; [apply _|apply secure_get_set|]. intros s1 s2 Hs. rewrite (vm_count_agree _ _ s1 s2 Hs).
  step; [steps|]. step; [apply secure_on_set, safe_send_msg; cbn; tauto|].
  eapply secure_bind; [apply _|apply secure_get_set|]. intros s1' s2' Hs'. rewrite (bsp_core_id_agree _ _ s1' s2' _ Hs').
  steps.
Qed.

Lemma safe_response r : safe_core (handle_response ioapics this_core this_vm r).
Proof.
  destruct r; [|apply safe_next_console|apply safe_route]. cbn [handle_response]. steps.
Qed.

(** *** Exits *)

Lemma safe_exit exit : safe_core (handle_exit apic this_core this_vm exit).
Proof.
  unfold handle_exit, handle_rdmsr, handle_external_interrupt, skip_emulated_instruction. steps.
  all: lazymatch goal with
    | |- secure _ _ (handle_apic_access _ _ _) _ _ => apply safe_apic_access
    | |- secure _ _ (emulate_access _) _ _ => apply safe_access
    | |- secure _ _ (emulate_cpuid _) _ _ => apply safe_cpuid
    | |- secure _ _ (emulate_portio _ _) _ _ => apply safe_portio
    | |- secure _ _ (handle_ept_violation _ _) _ _ => apply safe_ept_violation
    | |- secure _ _ (handle_uart_keypress _) _ _ => apply safe_keypress
    | |- secure _ _ (handle_ipc _ _ _) _ _ => apply safe_ipc
    end.
Qed.

Lemma safe_expire : safe_core (expire_timers apic).
Proof.
  unfold expire_timers. apply safe_on_platform. apply safe_bind; [apply _|apply safe_get_wheel|]. intros w.
  apply safe_bind; [apply _|apply safe_on_hw|]. intros [w' ints].
  apply safe_bind; [apply _|apply safe_put_wheel|]. intros _. by apply secure_ret; [apply _|].
Qed.

Lemma safe_timer_event t : safe_core (handle_timer_event this_core this_vm t).
Proof. destruct t; cbn [handle_timer_event]; [apply safe_on_pending|apply safe_route]. Qed.

Lemma safe_handle_vmexit exit : safe_core (handle_vmexit apic ioapics this_core this_vm exit).
Proof.
  unfold handle_vmexit, handle_vmexit_impl, inject_pending. steps.
  - apply safe_exit.
  - apply (safe_iter _ _ _ (fun _ => True)); [intros r _; apply safe_response|by apply Forall_forall].
  - apply safe_expire.
  - apply (safe_iter _ _ _ (fun _ => True)); [intros t _; apply safe_timer_event|by apply Forall_forall].
Qed.

Lemma safe_vmexit : safe_core (vmexit_handler apic ioapics this_core this_vm).
Proof.
  intros c1 c2 Hc. unfold vmexit_handler. rewrite (ca_vmcs _ _ _ _ Hc).
  destruct (res_expect (exit_reason_from_vmcs (c_vmcs c1)) _) as [reason|e|w]; [|by split_and!..].
  destruct (safe_handle_vmexit reason c1 c2 Hc) as (Ho & Ha & Hw).
  destruct (handle_vmexit _ _ _ _ reason c1) as [d1 [[]|e1|w1]], (handle_vmexit _ _ _ _ reason c2) as [d2 [[]|e2|w2]];
    cbn [fst snd same_outcome] in *; try done.
  rewrite (ca_vmcs _ _ _ _ Ha). split_and!; [apply same_outcome_refl|done..].
Qed.

Lemma safe_wait_step : safe_core (wait_for_init_step this_core).
Proof. unfold wait_for_init_step. step; [by apply secure_on_set, safe_recv|]. steps. Qed.
End handlers.

(** ** Machines at work *)

(** What all cores share. *)
Record System := mkSystem { sys_set : VirtualMachineSet Device; sys_host : Host }.

Section system.
Context {H : Type} `{IoApicHw H} `{VmxCpu} `{CoreCpu} `{GP : GuestPaging} `{Decoder} `{TS : TimeSource} `{HA : HostAlloc} `{!HostAllocLaws}.
Context (ioapics : list IoApic) (start : Z).
Implicit Types (y : System) (c : Core Device H).

(** [c] is the state of the core [core] of the machine [k], the rest of it arbitrary. *)
Definition core_of (k : nat) (core : Z) (y : System) c : Prop :=
  c_set c = sys_set y /\ c_host c = sys_host y /\ exists v, vms (sys_set y) !! k = Some v /\ core ∈ vm_cpus v.

(** One step on behalf of the machine [k], whatever its outcome: [VCpu::new] on one of its
    cores, a core reporting that it is ready, a poll of a core that waits to be started,
    an exit, or a store of the guest itself, which the processor allows on writable
    pages of the guest's map. *)
Inductive machine_step (k : nat) (y : System) : System -> Prop :=
| step_vcpu core v regs stack vmcs s r :
    vms (sys_set y) !! k = Some v -> vcpu_new regs stack core v (vmcs, sys_host y) = (s, r) ->
    machine_step k y (mkSystem (sys_set y) s.2)
| step_ready v :
    vms (sys_set y) !! k = Some v ->
    machine_step k y (mkSystem (mkSet (contexts (sys_set y)) (<[k := notify_ready v]> (vms (sys_set y)))) (sys_host y))
| step_wait core c c' r :
    core_of k core y c -> wait_for_init_step core c = (c', r) -> machine_step k y (mkSystem (c_set c') (c_host c'))
| step_exit apic core c c' r :
    core_of k core y c ->
    @vmexit_handler Device H (machine_device apic core start) _ _ _ _ _ _ apic ioapics core k c = (c', r) ->
    machine_step k y (mkSystem (c_set c') (c_host c'))
| step_store v q f fr off b :
    vms (sys_set y) !! k = Some v -> page_map (sys_host y) (vm_guest_space v) q = Some (f, true) ->
    frames (sys_host y) !! f = Some fr -> (off < length fr)%nat ->
    machine_step k y (mkSystem (sys_set y) (mkHost (tables (sys_host y)) (<[f := <[off := b]> fr]> (frames (sys_host y))))).

Definition some_machine y y' : Prop := exists k, machine_step k y y'.
Definition other_machine (k : nat) y y' : Prop := exists j, j <> k /\ machine_step j y y'.

(** ** The invariant *)

Record system_inv (roots : list Z) y : Prop := {
  si_isolated : isolated (sys_host y) roots;
  si_distinct : NoDup (vm_guest_space <$> vms (sys_set y));
  si_roots : Forall (.∈ roots) (vm_guest_space <$> vms (sys_set y))
}.

Lemma si_root roots y k v : system_inv roots y -> vms (sys_set y) !! k = Some v -> vm_guest_space v ∈ roots.
Proof.
  intros [_ _ R] Hk. rewrite Forall_forall in R. apply R. eapply list_elem_of_lookup_2. by rewrite list_lookup_fmap, Hk.
Qed.
Lemma si_other roots y k j v u : system_inv roots y -> vms (sys_set y) !! k = Some v -> vms (sys_set y) !! j = Some u ->
  j <> k -> vm_guest_space v <> vm_guest_space u.
Proof.
  intros [_ N _] Hk Hj Hne E. apply Hne. eapply NoDup_lookup; [exact N|by rewrite list_lookup_fmap, Hj|].
  rewrite list_lookup_fmap, Hk. cbn. by rewrite E.
Qed.

(** What a step of machine [k] leaves to the others. *)
Record step_effect (roots : list Z) (k : nat) y y' : Prop := {
  se_inv : system_inv roots y';
  se_fixed : fixed <$> vms (sys_set y') = fixed <$> vms (sys_set y);
  se_others : forall j, j <> k -> vms (sys_set y') !! j = vms (sys_set y) !! j;
  se_view : forall j u, j <> k -> vms (sys_set y) !! j = Some u -> same_view (sys_host y) (sys_host y') (vm_guest_space u);
  se_posts : forall v, vms (sys_set y) !! k = Some v -> posts (vm_cpus v) (contexts (sys_set y)) (contexts (sys_set y'))
}.

Lemma fixed_spaces (l l' : list (VirtualMachine Device)) : fixed <$> l' = fixed <$> l -> vm_guest_space <$> l' = vm_guest_space <$> l.
Proof.
  intros E. assert (forall l : list (VirtualMachine Device), vm_guest_space <$> l = (fun x => x.1.2) <$> (fixed <$> l)) as Hf by (intros x; by rewrite <- list_fmap_compose).
  by rewrite !Hf, E.
Qed.

(** A change of the machine itself and of its own memory. *)
Lemma step_effect_intro roots k y y' v :
  system_inv roots y -> vms (sys_set y) !! k = Some v ->
  isolated (sys_host y') roots ->
  (forall r, r ∈ roots -> r <> vm_guest_space v -> same_view (sys_host y) (sys_host y') r) ->
  (forall j, j <> k -> vms (sys_set y') !! j = vms (sys_set y) !! j) ->
  (exists v', vms (sys_set y') !! k = Some v' /\ fixed v' = fixed v) ->
  posts (vm_cpus v) (contexts (sys_set y)) (contexts (sys_set y')) ->
  step_effect roots k y y'.
Proof.
  intros Hy Hv I View Ho (v' & Hv' & Hf) Hp.
  assert (fixed <$> vms (sys_set y') = fixed <$> vms (sys_set y)) as Hfx.
  { apply list_eq. intros j. rewrite !list_lookup_fmap. destruct (decide (j = k)) as [->|Hne]; [|by rewrite Ho].
    rewrite Hv, Hv'. cbn. by rewrite Hf. }
  pose proof (fixed_spaces _ _ Hfx) as Hs. split; [|done|done| |].
  - destruct Hy as [_ N R]. split; [done|by rewrite Hs..].
  - intros j u Hne Hu. apply View; [by eapply si_root|]. intros E. by apply (si_other roots y k j v u Hy).
  - intros u Hu. rewrite Hv in Hu. by injection Hu as <-.
Qed.

(** Allocating on behalf of nobody. *)
Definition spares (h h' : Host) : Prop :=
  forall roots, isolated h roots -> isolated h' roots /\ forall r, r ∈ roots -> same_view h h' r.

Lemma spares_refl h : spares h h.
Proof. intros roots I. split; [done|]. intros. apply same_view_refl. Qed.

Lemma vcpu_new_spares {D} regs stack core (v : VirtualMachine D) vmcs h s r :
  vcpu_new regs stack core v (vmcs, h) = (s, r) -> spares h s.2.
Proof.
  intros E. change (spares h (s, r).1.2). rewrite <- E. clear E s r.
  assert (forall A (m : st VmcsState A), keeps (fun s => spares h s.2) (on_v m) (fun _ => True)) as Hv.
  { intros A m s Hs. unfold on_v. by destruct (m s.1). }
  assert (keeps (fun s => spares h s.2) (vcpu_new regs stack core v) (fun _ => True)) as Hk;
    [|exact (proj1 (Hk (vmcs, h) (spares_refl h)))].
  unfold vcpu_new, initialize_ctrl_vmcs. cbv zeta.
  repeat (first [apply Hv|eapply keeps_bind; [apply Hv|intros ? _]]).
  eapply (keeps_bind _ _ _ (fun _ => True)); [|intros ? _; repeat (first [apply Hv|eapply keeps_bind; [apply Hv|intros ? _]])].
  intros s Hs. destruct (host_alloc s.2) as [p|] eqn:Ha; [|done]. split; [|done]. intros roots I.
  destruct (Hs roots I) as [I1 V1]. destruct (alloc_fresh s.2 p Ha) as [_ Hf].
  destruct (isolated_spare s.2 roots p msr_page I1 (unallocated_unmapped _ _ _ I1 Hf)) as [I2 V2].
  split; [exact I2|]. intros r Hr. apply (same_view_trans h s.2); auto.
Qed.

Lemma core_agree_refl roots k core y c v :
  system_inv roots y -> core_of k core y c -> vms (sys_set y) !! k = Some v -> core_agree k v c c.
Proof.
  intros Hy (Hs & Hh & _) Hv. pose proof (si_root roots y k v Hy Hv) as Hr. destruct Hy as [I _ _]. split; try done.
  - split; [done| |done]. exists v. by rewrite Hs.
  - rewrite Hh. split; [by apply (iso_wf _ _ I)|by apply (iso_frames _ _ I)|apply same_view_refl].
Qed.

Lemma safe_step {A} roots k core y c v (m : st (Core Device H) A) c' r :
  system_inv roots y -> core_of k core y c -> vms (sys_set y) !! k = Some v ->
  safe (core_agree k v) (core_within k v) m -> m c = (c', r) -> step_effect roots k y (mkSystem (c_set c') (c_host c')).
Proof.
  intros Hy Hc Hv Hm E. destruct (Hm c c (core_agree_refl roots k core y c v Hy Hc Hv)) as (_ & Ha & [Hws Hwh]).
  rewrite E in Ha, Hws, Hwh. cbn [fst] in *. destruct Hc as (Hs & Hh & _). rewrite Hs in Hws. rewrite Hh in Hwh.
  destruct (isolated_own _ roots _ _ (si_isolated _ _ Hy) (si_root _ _ _ _ Hy Hv) Hwh) as [I V].
  destruct Hws as [Hp Ho]. apply (step_effect_intro roots k y _ v); try done.
  destruct (sa_own _ _ _ _ (ca_set _ _ _ _ Ha)) as (v' & Hv' & _ & Hf). by exists v'.
Qed.

Lemma machine_step_effect roots k y y' : system_inv roots y -> machine_step k y y' -> step_effect roots k y y'.
Proof.
  intros Hy Hs. pose proof (si_isolated _ _ Hy) as I.
  assert (forall r, r ∈ roots -> same_view (sys_host y) (sys_host y) r) as Vr by (intros; apply same_view_refl).
  destruct Hs as [core v regs stack vmcs s r Hv Hn|v Hv|core c c' r Hc Hw|apic core c c' r Hc He|v q f fr off b Hv Hq Hf Hl].
  - destruct (vcpu_new_spares _ _ _ _ _ _ _ _ Hn roots I) as [I' V].
    apply (step_effect_intro roots k y _ v); try done; [auto|by exists v].
  - apply (step_effect_intro roots k y _ v); try done; [auto|..]; cbn.
    + intros j Hj. by rewrite list_lookup_insert_ne.
    + exists (notify_ready v). rewrite list_lookup_insert_eq by (by eapply lookup_lt_Some). done.
  - pose proof Hc as (_ & _ & v & Hv & Hcore). eapply safe_step; [done..| |exact Hw]. by apply safe_wait_step.
  - pose proof Hc as (_ & _ & v & Hv & Hcore). eapply safe_step; [done..| |exact He]. apply safe_vmexit; [apply _|done].
  - pose proof (si_root _ _ _ _ Hy Hv) as Hr.
    destruct (isolated_own (sys_host y) roots (vm_guest_space v) (mkHost (tables (sys_host y)) (<[f := <[off := b]> fr]> (frames (sys_host y)))))
      as [I' V]; [done..|by eapply write_own; [done..|apply length_insert]|].
    apply (step_effect_intro roots k y _ v); try done. by exists v.
Qed.

Lemma run_inv roots y y' : system_inv roots y -> rtc some_machine y y' -> system_inv roots y'.
Proof. intros Hy Hr. induction Hr as [|y1 y2 y3 [k Hs] _ IH]; [done|]. by apply IH, (machine_step_effect roots k y1). Qed.

(** Whatever other machines do. *)
Lemma others_run roots k v y y' :
  system_inv roots y -> vms (sys_set y) !! k = Some v -> rtc (other_machine k) y y' ->
  vms (sys_set y') !! k = Some v /\ same_view (sys_host y) (sys_host y') (vm_guest_space v) /\
  forall core, (forall j u, j <> k -> vms (sys_set y) !! j = Some u -> core ∉ vm_cpus u) ->
    exists ms, queue (sys_set y') core = (fun q => q ++ ms) <$> queue (sys_set y) core /\ Forall (fun m => ~ is_interrupt m) ms.
Proof.
  intros Hy Hv Hr. revert Hy Hv. induction Hr as [y|y1 y2 y3 (j & Hj & Hs) _ IH]; intros Hy Hv.
  { split; [done|]. split; [apply same_view_refl|]. intros core _. exists []. split; [|constructor].
    destruct (queue _ core); cbn; [by rewrite app_nil_r|done]. }
  destruct (machine_step_effect roots j y1 y2 Hy Hs) as [Hy2 Hfx Ho Hview Hp].
  destruct IH as (Hv3 & View & Hq); [done|by rewrite Ho|]. split; [done|].
  split; [eapply same_view_trans; [|exact View]; by apply (Hview k v)|]. intros core Hcore.
  assert (exists u, vms (sys_set y1) !! j = Some u) as [u Hu] by (inversion Hs; subst; unfold core_of in *; naive_solver).
  destruct (posts_queue _ _ _ (Hp u Hu) core (Hcore j u Hj Hu)) as (m1 & E1 & F1).
  destruct (Hq core) as (m2 & E2 & F2).
  { intros i u' Hi Hu'. assert (fixed <$> vms (sys_set y2) !! i = fixed <$> vms (sys_set y1) !! i) as Hfi
      by (by rewrite <- !list_lookup_fmap, Hfx).
    rewrite Hu' in Hfi. destruct (vms (sys_set y1) !! i) as [u1|] eqn:E; [|done]. cbn in Hfi. injection Hfi as _ Hcp _ _ _ _.
    rewrite Hcp. by apply (Hcore i). }
  exists (m1 ++ m2). split; [|by apply Forall_app]. rewrite E2, (queue_of_eq (sys_set y2)), (queue_of_eq (sys_set y1)), E1.
  destruct (queue_of (contexts (sys_set y1)) core); cbn; [by rewrite app_assoc|done].
Qed.
End system.

(** C3: no exit reads or changes what is inside other machines.  Take two states of a core
    that agree on everything but the memory, the devices and the logical destinations of
    other machines.  Handling an exit from either has the same outcome and ends in
    states that again agree: the guest's registers, control structure, devices, memory,
    pending interrupts, timers, messages and console output do not depend on the other
    machines.  The exit changes no page table, no frame but the guest's own, no record of
    another machine, and the queues of cores that are not its machine's only gain
    messages, none of them an interrupt. *)
Theorem exit_noninterference {H : Type} `{IoApicHw H} `{VmxCpu} `{CoreCpu} `{GuestPaging} `{Decoder} `{TimeSource}
    apic ioapics this_core this_vm start me (c1 c2 c1' c2' : Core Device H) r1 r2 :
  let handler := @vmexit_handler Device H (machine_device apic this_core start) _ _ _ _ _ _ apic ioapics this_core this_vm in
  this_core ∈ vm_cpus me -> core_agree this_vm me c1 c2 -> handler c1 = (c1', r1) -> handler c2 = (c2', r2) ->
  r2 = r1 /\ core_agree this_vm me c1' c2' /\ core_within this_vm me c1 c1'.
Proof.
  intros handler Hcore Ha E1 E2.
  destruct (@safe_vmexit Device H _ _ _ _ _ _ apic ioapics this_core this_vm me (machine_device apic this_core start) _ Hcore
    c1 c2 Ha) as (Ho & Ha' & Hw).
  fold handler in Ho, Ha', Hw. rewrite E1, E2 in Ho, Ha'. rewrite E1 in Hw. cbn [fst snd] in *.
  by apply same_outcome_eq in Ho.
Qed.

(** C4: the machines stay isolated as they run.  Build the machines of any configuration,
    and let all of them create their cores, wait, exit and store to memory in any order.
    In every state reached, no host frame backs pages of two machines.  From there,
    whatever the other machines do, a machine's record does not change, its guest reads
    at every address exactly what it read before, and the queue of a core no other
    machine has only gains messages, none of them an interrupt. *)
Theorem machines_stay_isolated {H : Type} `{IoApicHw H} `{VmxCpu} `{CoreCpu} `{GuestPaging} `{Decoder} `{TimeSource}
    `{HostAlloc} `{!HostAllocLaws} apic this_core start ioapics bios rom modules apic_page cfgs h0 s h r y :
  (forall i j, apic_page i = apic_page j -> i = j) ->
  (forall i, (i < length cfgs)%nat -> host_page h0 (apic_page i)) ->
  init_virtual_machines apic this_core start bios rom modules apic_page 0 cfgs (set_new, h0) = ((s, h), r) ->
  rtc (some_machine (H := H) ioapics start) (mkSystem s h) y ->
  (forall i j v v' q q' f w w', vms (sys_set y) !! i = Some v -> vms (sys_set y) !! j = Some v' ->
    0 <= q < 2 ^ 36 -> 0 <= q' < 2 ^ 36 -> page_map (sys_host y) (vm_guest_space v) q = Some (f, w) ->
    page_map (sys_host y) (vm_guest_space v') q' = Some (f, w') -> i = j /\ q = q') /\
  forall k v y', vms (sys_set y) !! k = Some v -> rtc (other_machine (H := H) ioapics start k) y y' ->
    vms (sys_set y') !! k = Some v /\
    (forall cr3 a len access, exists x,
      read_bytes (vm_guest_space v) cr3 a len access (sys_host y) = (sys_host y, x) /\
      read_bytes (vm_guest_space v) cr3 a len access (sys_host y') = (sys_host y', x)) /\
    forall core, (forall j u, j <> k -> vms (sys_set y) !! j = Some u -> core ∉ vm_cpus u) ->
      exists ms, queue (sys_set y') core = (fun q => q ++ ms) <$> queue (sys_set y) core /\
        Forall (fun m => ~ is_interrupt m) ms.
Proof.
  intros Hinj Hpages Hinit Hrun.
  destruct (init_machines apic this_core start bios rom modules apic_page cfgs h0 s h r Hinj Hpages Hinit)
    as (idx & roots & [I _ N R _]).
  assert (system_inv roots y) as Hy by (eapply run_inv; [|exact Hrun]; done). split.
  - intros i j v v' q q' f w w' Hi Hj Hq Hq' M1 M2.
    destruct (iso_pages _ _ (si_isolated _ _ Hy) (vm_guest_space v) (vm_guest_space v') q q' f w w') as [E ->];
      [by eapply si_root|by eapply si_root|done..|].
    split; [|done]. destruct (decide (i = j)) as [|Hne]; [done|]. by destruct (si_other roots y j i v' v Hy).
  - intros k v y' Hv Hr. destruct (others_run ioapics start roots k v y y' Hy Hv Hr) as (Hv' & View & Hq).
    split_and!; [done| |done]. intros cr3 a len access.
    apply read_bytes_same; [|done]. apply (iso_wf _ _ (si_isolated _ _ Hy)). by eapply si_root.
Qed.

(** ** Two machines *)

(** The machines of [demo_init]; core 2 of the second one executes an output to its
    serial port. *)
Definition demo_start : System := mkSystem demo_init.1.1 demo_init.1.2.
Definition demo_core (s : VirtualMachineSet Device) (h : Host) : Core Device reg_file :=
  mkCore (<[field_code VmExitReason := 30]> (<[field_code ExitQualification := 0x03f80000]> ∅)) None
    [] (set_rax 0x41 cpu_zero) wheel_new (mkHw 0 []) s h ∅ [] [] [].
Definition demo_exit (this_core : Z) (k : nat) : st (Core Device reg_file) unit :=
  @vmexit_handler Device reg_file (@machine_device slow_clock linear_entry_address (mkLocalApic 0 1) this_core 0) reg_file_hw
    lenient_cpu plain_cpu linear_entry_address (fun _ _ _ => store_ebx) slow_clock (mkLocalApic 0 1) [] this_core k.

Definition demo_next (core : Z) (k : nat) (y : System) : System :=
  let c' := fst (demo_exit core k (demo_core (sys_set y) (sys_host y))) in mkSystem (c_set c') (c_host c').

Lemma demo_core_agree s h1 h2 k v :
  vms s !! k = Some v -> host_agree (vm_guest_space v) h1 h2 -> core_agree k v (demo_core s h1) (demo_core s h2).
Proof. intros Hv Hh. split; try done. split; [done| |done]. by exists v. Qed.

Lemma demo_step y k core u : vms (sys_set y) !! k = Some u -> core ∈ vm_cpus u ->
  @machine_step reg_file reg_file_hw lenient_cpu plain_cpu linear_entry_address (fun _ _ _ => store_ebx) slow_clock pool_alloc [] 0
    k y (demo_next core k y).
Proof.
  intros Hu Hc. unfold demo_next. destruct (demo_exit core k _) as [c2 r] eqn:E.
  apply (step_exit [] 0 k y (mkLocalApic 0 1) core (demo_core (sys_set y) (sys_host y)) c2 r); [|exact E].
  split; [done|]. split; [done|]. by exists u.
Qed.

Lemma stores_agree s h h2 roots (u v : VirtualMachine Device) r : isolated h roots -> vm_guest_space u ∈ roots -> vm_guest_space v ∈ roots ->
  vm_guest_space v <> vm_guest_space u -> vms s !! 0%nat = Some v ->
  @write_bytes linear_entry_address (vm_guest_space u) 0 (NoPaging 0xfee00010) [1; 2; 3] (Write 0) h = (h2, r) ->
  core_agree 0 v (demo_core s h) (demo_core s h2).
Proof.
  intros I Hu Hr Hne Hv Hw. destruct (isolated_write h roots _ _ _ _ _ _ _ I Hu Hw) as [_ View].
  apply demo_core_agree; [done|]. split; [by apply (iso_wf _ _ I)|by apply (iso_frames _ _ I)|by apply View].
Qed.

Lemma demo_pages : forall i, (i < 2)%nat -> host_page demo_host (demo_page i).
Proof.
  intros [|[|i]] Hi; [| |lia]; (split; [unfold demo_page; lia|]); (split; [reflexivity|]);
    exists (replicate 4096 0); split; reflexivity.
Qed.
Lemma demo_init_eq : @init_virtual_machines pool_alloc slow_clock linear_entry_address (mkLocalApic 0 1) 0 0 demo_bios [0x55; 0xaa]
    demo_modules demo_page 0 [demo_vm [0; 1]; demo_vm [2]] (set_new, demo_host) = ((demo_init.1.1, demo_init.1.2), demo_init.2).
Proof. unfold demo_init. by destruct (init_virtual_machines _ _ _ _ _ _ _ _ _ _) as [[s h] r]. Qed.
Lemma demo_inv : exists roots, system_inv roots demo_start.
Proof.
  destruct (@init_machines pool_alloc _ slow_clock linear_entry_address (mkLocalApic 0 1) 0 0 demo_bios [0x55; 0xaa] demo_modules
    demo_page [demo_vm [0; 1]; demo_vm [2]] _ _ _ _ ltac:(unfold demo_page; lia) demo_pages demo_init_eq) as (idx & roots & [I _ N R _]).
  by exists roots.
Qed.

Lemma demo_machines : exists v u,
  vms (sys_set demo_start) !! 0%nat = Some v /\ vm_cpus v = [0; 1] /\ vm_guest_space v = 4096 /\
  vms (sys_set demo_start) !! 1%nat = Some u /\ vm_cpus u = [2] /\ vm_guest_space u = 40960.
Proof. eexists _, _. vm_compute. done. Qed.

(** A store of the second machine does not change what an exit of the first one does. *)
Lemma exit_noninterference_witness : exists v u,
  vms (sys_set demo_start) !! 0%nat = Some v /\ vms (sys_set demo_start) !! 1%nat = Some u /\
  let h2 := fst (@write_bytes linear_entry_address (vm_guest_space u) 0 (NoPaging 0xfee00010) [1; 2; 3] (Write 0) (sys_host demo_start)) in
  let before := fst (demo_exit 0 0 (demo_core (sys_set demo_start) (sys_host demo_start))) in
  let after := fst (demo_exit 0 0 (demo_core (sys_set demo_start) h2)) in
  c_console before = [0x41] /\ c_console after = c_console before /\ c_cpu after = c_cpu before.
Proof.
  destruct demo_inv as (roots & Hy). destruct demo_machines as (v & u & Hv & Hc & Hg & Hu & _ & Hgu).
  exists v, u. split; [exact Hv|]. split; [exact Hu|]. cbv zeta.
  pose proof (stores_agree (sys_set demo_start) (sys_host demo_start) _ roots u v _ (si_isolated _ _ Hy) (si_root _ _ _ _ Hy Hu)
    (si_root _ _ _ _ Hy Hv) ltac:(rewrite Hg, Hgu; discriminate) Hv (surjective_pairing _)) as Ha.
  destruct (@exit_noninterference reg_file reg_file_hw lenient_cpu plain_cpu linear_entry_address (fun _ _ _ => store_ebx) slow_clock
    (mkLocalApic 0 1) [] 0 0 0 v _ _ _ _ _ _ ltac:(rewrite Hc; left) Ha (surjective_pairing _) (surjective_pairing _)) as (_ & Ha' & _).
  split; [vm_compute; reflexivity|]. split; [exact (ca_console _ _ _ _ Ha')|exact (ca_cpu _ _ _ _ Ha')].
Defined.

(** Whatever the second machine does to its serial port, the first one stays as it was. *)
Lemma machines_stay_isolated_witness : exists v,
  let y' := demo_next 2 1 demo_start in
  vms (sys_set demo_start) !! 0%nat = Some v /\ vms (sys_set y') !! 0%nat = Some v /\
  (exists x, @read_bytes linear_entry_address (vm_guest_space v) 0 (NoPaging 0xfee00010) 4 (Read 0) (sys_host demo_start) = (sys_host demo_start, x) /\
    @read_bytes linear_entry_address (vm_guest_space v) 0 (NoPaging 0xfee00010) 4 (Read 0) (sys_host y') = (sys_host y', x)) /\
  exists ms, queue (sys_set y') 1 = (fun q => q ++ ms) <$> queue (sys_set demo_start) 1.
Proof.
  destruct demo_machines as (v & u & Hv & _ & _ & Hu & Hcu & _). exists v.
  pose proof (demo_step demo_start 1 2 u Hu ltac:(rewrite Hcu; left)) as Hstep. cbv zeta.
  destruct (@machines_stay_isolated reg_file reg_file_hw lenient_cpu plain_cpu linear_entry_address (fun _ _ _ => store_ebx) slow_clock
    pool_alloc _ (mkLocalApic 0 1) 0 0 [] demo_bios [0x55; 0xaa] demo_modules demo_page [demo_vm [0; 1]; demo_vm [2]] demo_host
    _ _ _ demo_start ltac:(unfold demo_page; lia) demo_pages demo_init_eq (rtc_refl _ _)) as [_ Hi].
  destruct (Hi 0%nat v (demo_next 2 1 demo_start) Hv) as (Hv' & Hread & Hq).
  - apply rtc_once. exists 1%nat. split; [discriminate|exact Hstep].
  - split; [exact Hv|]. split; [exact Hv'|]. split; [exact (Hread 0 (NoPaging 0xfee00010) 4%nat (Read 0))|].
    destruct (Hq 1) as (ms & E & _); [|exists ms; exact E].
    intros j x Hj Hx. destruct j as [|[|j]]; [by destruct (Hj eq_refl)| |].
    + rewrite Hu in Hx. injection Hx as <-. rewrite Hcu. apply not_elem_of_cons. split; [discriminate|apply not_elem_of_nil].
    + apply lookup_lt_Some in Hx. assert (length (vms (sys_set demo_start)) = 2%nat) as Hl by (vm_compute; reflexivity).
      rewrite Hl in Hx. lia.
Defined.

(** What the messages allow.  The start-up request of a guest goes to whatever core it
    names: core 0 of the first machine starts core 2 of the second one, which waits, at an
    address of its choice. *)
Lemma startup_crosses_machines :
  let '(w, r) := (_ ← register_write (D := Device) 0 0 0x310 (2 ^ 24 * 2);
     register_write 0 0 0x300 (0x9a + 2 ^ 8 * ne_code StartUp)) (None, (demo_init.1.1, mkHw 0 [])) in
  r = Ok tt /\ (vm_cpus <$> vms demo_init.1.1 !! 0%nat) = Some [0; 1] /\
  let c := mkCore (H := reg_file) ∅ None [] cpu_zero wheel_new (mkHw 0 []) w.2.1 demo_init.1.2 ∅ [] [] [] in
  let '(c', started) := @wait_for_init_step Device reg_file lenient_cpu 2 c in
  started = Ok true /\ vmcs_peek (c_vmcs c') GuestCsSelector = 0x9a00 /\ vmcs_peek (c_vmcs c') GuestRip = 0.
Proof. vm_compute. done. Qed.
