(* ===== verification/CoreTyping.v ===== *)
(** * Values keep their Rust types: the exit handler

    On top of [Typing]: every exit leaves every register, VMCS field, message, pending
    vector, device register and memory byte of a core in the range of its type. *)

From S2P Require Import Prelude Error BTreeMap Memory GuestMemory VirtDev IoApic Vmcs VmExit Clock Apic Timers Vm Lapic Platform Uart Pit Devices Pci FwCfg Core Emulate MemIo VCpu Machine Vmx Typing.

(** ** The parts of a core *)

(** The width of a field, from bits 14:13 of its encoding. *)
Definition code_width (code : Z) : Z :=
  match Z.land (Z.shiftr code 13) 3 with 0 => 16 | 1 => 64 | 2 => 32 | _ => 64 end.
Definition vmcs_typed (v : VmcsState) : Prop := map_Forall (fun code x => is_u (code_width code) x) v.

Lemma code_width_bound code : 0 <= code_width code <= 64.
Proof. unfold code_width. repeat case_match; lia. Qed.
Lemma high_width f : is_high f = true -> code_width (full_code f) = 64.
Proof. by destruct f. Qed.
Lemma low_width f : is_high f = false -> field_width f = code_width (full_code f).
Proof. intros E. unfold field_width, full_code. by rewrite E. Qed.

Lemma vmcs_full_typed v f : vmcs_typed v -> is_u (code_width (full_code f)) (vmcs_full v f).
Proof.
  intros Hv. unfold vmcs_full. destruct (v !! full_code f) as [x|] eqn:E; cbn; [by apply (Hv (full_code f))|].
  apply is_u_0, code_width_bound.
Qed.
Lemma vmcs_peek_typed v f : vmcs_typed v -> is_u 64 (vmcs_peek v f).
Proof.
  intros Hv. pose proof (vmcs_full_typed v f Hv) as Hf. pose proof (code_width_bound (full_code f)).
  apply (is_u_weaken _ 64) in Hf; [|done]. unfold vmcs_peek. destruct (is_high f); [|done].
  unfold is_u in *. split; [apply Z.div_pos; lia|]. apply Z.div_lt_upper_bound; lia.
Qed.
Lemma vmcs_store_typed f x v : vmcs_typed v -> vmcs_typed (vmcs_store f x v).
Proof.
  intros Hv. apply map_Forall_insert_2; [|done]. destruct (is_high f) eqn:E.
  - rewrite high_width by done. unfold is_u. pose proof (wrap_is_u 32 x ltac:(lia)) as Hw. unfold is_u in Hw.
    pose proof (Z.mod_pos_bound (vmcs_full v f) (2 ^ 32) ltac:(lia)). lia.
  - rewrite low_width by done. apply wrap_is_u, code_width_bound.
Qed.

Definition cpu_typed (g : GuestCpuState) : Prop :=
  Forall (is_u 64) [cr2 g; r15 g; r14 g; r13 g; r12 g; r11 g; r10 g; r9 g; r8 g; rbp g; rdi g; rsi g; rdx g; rcx g; rbx g; rax g].

Lemma get_gpr_typed r g : cpu_typed g -> is_u 64 (get_gpr r g).
Proof. unfold cpu_typed. rewrite !Forall_cons. intros Hg. destruct r; cbn; try apply Hg. byte_range. Qed.
Lemma set_gpr_typed r x g : is_u 64 x -> cpu_typed g -> cpu_typed (set_gpr r x g).
Proof. unfold cpu_typed. rewrite !Forall_cons. intros Hx Hg. destruct r; cbn; try exact Hg; tauto. Qed.

Section core.
Context {D H : Type} `{TypedDevice D}.

Definition vm_typed (v : VirtualMachine D) : Prop :=
  Forall device_typed (vm_devices v) /\ option_u 16 (vm_serial v) /\
  Forall (fun e => is_u 32 e.2) (vm_logical_apic_state v).

Record core_typed (c : Core D H) : Prop := {
  ct_vmcs : vmcs_typed (c_vmcs c);
  ct_lapic : option_u 32 (c_lapic c);
  ct_pending : Forall (fun e => is_u 8 e.1) (c_pending c);
  ct_cpu : cpu_typed (c_cpu c);
  ct_timers : timers_typed (timers (c_wheel c));
  ct_contexts : contexts_typed (contexts (c_set c));
  ct_vms : Forall vm_typed (vms (c_set c));
  ct_host : host_typed (c_host c);
  ct_console : Forall is_byte (c_console c);
  ct_responses : Forall response_typed (c_responses c)
}.

Implicit Types c : Core D H.

(** ** Code that works on one part *)

Lemma keeps_on_vmcs {A} (m : st VmcsState A) Q : keeps vmcs_typed m Q -> keeps core_typed (on_vmcs m) Q.
Proof. intros Hm c []. unfold on_vmcs. destruct (Hm (c_vmcs c)) as [? ?]; [done|]. by destruct (m (c_vmcs c)). Qed.
Lemma keeps_on_cpu {A} (m : st GuestCpuState A) Q : keeps cpu_typed m Q -> keeps core_typed (on_cpu m) Q.
Proof. intros Hm c []. unfold on_cpu. destruct (Hm (c_cpu c)) as [? ?]; [done|]. by destruct (m (c_cpu c)). Qed.
Lemma keeps_on_pending {A} (m : st (list (Z * InjectedInterruptType)) A) Q :
  keeps (Forall (fun e => is_u 8 e.1)) m Q -> keeps core_typed (on_pending m) Q.
Proof. intros Hm c []. unfold on_pending. destruct (Hm (c_pending c)) as [? ?]; [done|]. by destruct (m (c_pending c)). Qed.
Lemma keeps_on_core_host {A} (m : st Host A) Q : keeps host_typed m Q -> keeps core_typed (on_core_host m) Q.
Proof. intros Hm c []. unfold on_core_host. destruct (Hm (c_host c)) as [? ?]; [done|]. by destruct (m (c_host c)). Qed.
Lemma keeps_on_core_hw {A} (m : st CoreHw A) : keeps core_typed (on_core_hw m) (fun _ => True).
Proof. intros c []. unfold on_core_hw. by destruct (m (c_hw c)). Qed.
Lemma keeps_on_ioapics {A} (m : st H A) : keeps core_typed (on_ioapics m) (fun _ => True).
Proof. intros c []. unfold on_ioapics. by destruct (m (c_ioapics c)). Qed.
Lemma keeps_on_platform {A} (m : st Platform A) Q : keeps platform_typed m Q -> keeps core_typed (on_platform m) Q.
Proof.
  intros Hm c []. unfold on_platform.
  destruct (Hm (mkPlatform (c_hw c) (c_wheel c) (contexts (c_set c)))) as [[? ?] ?]; [by split|].
  by destruct (m _).
Qed.

Definition set_typed (s : VirtualMachineSet D * CoreHw) : Prop :=
  contexts_typed (contexts s.1) /\ Forall vm_typed (vms s.1).
Lemma keeps_on_set {A} (m : st (VirtualMachineSet D * CoreHw) A) Q : keeps set_typed m Q -> keeps core_typed (on_set m) Q.
Proof.
  intros Hm c []. unfold on_set. destruct (Hm (c_set c, c_hw c)) as [[? ?] ?]; [by split|]. by destruct (m _) as [[? ?] ?].
Qed.

Definition lapic_typed (w : @LapicState D) : Prop := option_u 32 w.1 /\ set_typed w.2.
Lemma keeps_on_lapic {A} (m : st (@LapicState D) A) Q : keeps lapic_typed m Q -> keeps core_typed (on_lapic m) Q.
Proof.
  intros Hm c []. unfold on_lapic. destruct (Hm (c_lapic c, (c_set c, c_hw c))) as [(? & ? & ?) ?]; [by split|].
  by destruct (m _) as [[? [? ?]] ?].
Qed.

Lemma keeps_log_flush t x : keeps core_typed (log_flush t x) (fun _ => True).
Proof. by intros c []. Qed.
Lemma keeps_write_console b : Forall is_byte b -> keeps core_typed (write_console b) (fun _ => True).
Proof. intros Hb c []. split; [|done]. split; try done. by apply Forall_app. Qed.
Lemma keeps_take_responses : keeps core_typed take_responses (Forall response_typed).
Proof. intros c []. split; [by split|]. by intros r [= <-]. Qed.

Lemma keeps_send m core notify : msg_typed m -> keeps set_typed (send_msg_core m core notify) (fun _ => True).
Proof.
  intros Hm [s hw] [Hc Hv]. destruct (keeps_send_msg_core m core notify Hm (s, hw) Hc) as [Hk _].
  pose proof (send_msg_core_spec m core notify s hw) as Hs.
  destruct (send_msg_core m core notify (s, hw)) as [[s' hw'] r]. destruct Hs as [Hs _]. split; [|done].
  split; [exact Hk|]. cbn. by rewrite Hs.
Qed.
Lemma keeps_send_msg m id notify : msg_typed m -> keeps set_typed (send_msg m id notify) (fun _ => True).
Proof.
  intros Hm [s hw] Hs. unfold send_msg. destruct (bsp_core_id s id) as [[b|]|e|w]; try done. by apply keeps_send.
Qed.
End core.

(** ** Exits *)

Definition exit_typed (exit : ExitReason) : Prop :=
  match info exit with ExitInformation.IoInstruction i => 1 <= io_size i <= 8 | _ => True end.

Lemma io_size_typed v i : io_instruction_from_vmcs v = Ok i -> 1 <= io_size i <= 8.
Proof.
  unfold io_instruction_from_vmcs. intros [= <-]. cbn [io_size]. words.
Qed.
Lemma exit_information_io v r i : exit_information v r = Ok (ExitInformation.IoInstruction i) -> io_instruction_from_vmcs v = Ok i.
Proof.
  unfold exit_information.
  repeat (case_match; try (intros (? & _ & ?)%bind_Ok; discriminate); try done).
  by intros (? & ? & [= <-])%bind_Ok.
Qed.
Lemma exit_reason_typed v exit : exit_reason_from_vmcs v = Ok exit -> exit_typed exit.
Proof.
  unfold exit_reason_from_vmcs. intros (i & Hi & [= <-])%bind_Ok. unfold exit_typed. cbn.
  destruct i; try done. by apply exit_information_io, io_size_typed in Hi.
Qed.

(** ** What the processor answers *)

Class CpuLaws `{VmxCpu} `{CoreCpu} := {
  rdmsr_u64 : forall m, is_u 64 (rdmsr m);
  cpuid_u32 : forall leaf sub a b c d, cpuid_count leaf sub = (a, b, c, d) -> is_u 32 a /\ is_u 32 b /\ is_u 32 c /\ is_u 32 d;
  serial_byte : forall port, is_byte (serial_input port)
}.

Section handlers.
Context {D H : Type} `{TypedDevice D} `{IoApicHw H} `{CpuLaws} `{GuestPaging} `{Decoder} `{TimeSource}.
Context (apic : LocalApic) (ioapics : list IoApic) (this_core : Z) (this_vm : nat).
Hypothesis this_core_u32 : is_u 32 this_core.
Notation inv := (core_typed (D := D) (H := H)).
Notation M := (st (Core D H)).

Lemma keeps_machine : keeps inv (this_machine this_vm) vm_typed.
Proof.
  intros c Hc. split; [done|]. cbn. intros v. destruct (vms (c_set c) !! this_vm) as [v'|] eqn:E; [|done].
  intros [= <-]. destruct Hc as [_ _ _ _ _ _ Hv _ _ _]. by apply (Forall_lookup_1 _ _ _ _ Hv E).
Qed.
Lemma keeps_put_machine v : vm_typed v -> keeps inv (put_machine this_vm v) (fun _ => True).
Proof. intros Hv c []. split; [|done]. split; try done. by apply Forall_insert. Qed.

Lemma keeps_dispatch ident k : event_typed k -> keeps inv (dispatch this_vm ident k) event_typed.
Proof.
  intros Hk c Hc. unfold dispatch. destruct (vms (c_set c) !! this_vm) as [v|] eqn:Hv; [|done].
  pose proof Hc as [C1 C2 C3 C4 C5 C6 C7 C8 C9 C10]. pose proof (Forall_lookup_1 _ _ _ _ C7 Hv) as Hvt.
  unfold dispatch_event. cbn [ds_vm ds_kind ds_responses ds_host ds_world].
  destruct (find_device ident v) as [i|] eqn:Hf.
  - destruct (vm_devices v !! i) as [d|] eqn:Hd.
    2: { split; [|done]. split; try done. by apply Forall_insert. }
    set (e := mkEvent _ _ _ _ _). destruct Hvt as (Hds & Hser & Hlog).
    destruct (typed_on_event (d, e)) as [(T1 & T2 & T3 & T4 & T5) _].
    { split_and!; try done. by apply (Forall_lookup_1 _ _ _ _ Hds Hd). }
    destruct (on_event (d, e)) as [[d' e'] r]. cbn in *. split.
    + destruct T5. split; try done. cbn. apply Forall_insert; [done|]. split_and!; cbn; try done. by apply Forall_insert.
    + destruct r as [[]|?|?]; intros k' [= <-]. done.
  - assert (forall k' r, event_typed k' -> let c' := mkCore (c_vmcs c) (c_lapic c) (c_pending c) (c_cpu c) (c_wheel c) (c_hw c)
         (mkSet (contexts (c_set c)) (<[this_vm := v]> (vms (c_set c)))) (c_host c) (c_ioapics c)
         (c_flushed c) (c_console c) (c_responses c) in
       inv c' /\ forall a, (fun _ : unit => k') <$> r = Ok a -> event_typed a) as Hdone.
    { intros k' r Hk'. split; [split; try done; by apply Forall_insert|].
      intros k2 Hr. destruct r; by simplify_eq/=. }
    destruct k as [?|? ?|? ?|p q|? ?]; cbn; try exact (Hdone _ (Err _) Hk); try exact (Hdone _ (Ok tt) Hk).
    destruct (PortReadRequest.copy_from_u32 q 0) as [q'|e|w] eqn:Eq; cbn.
    + apply (Hdone (PortRead p q') (Ok tt)). by apply (copy_from_u32_typed q 0).
    + by apply (Hdone (PortRead p q) (Err e)).
    + by apply (Hdone (PortRead p q) (Panic w)).
Qed.

(** ** Fields, registers and guest memory *)

Lemma keeps_read_field f : keeps inv (read_field f) (is_u 64).
Proof. apply keeps_on_vmcs. intros v Hv. split; [done|]. intros x [= <-]. by apply vmcs_peek_typed. Qed.
Lemma keeps_vmcs_write f x : keeps vmcs_typed (vmcs_write f x) (fun _ => True).
Proof.
  intros v Hv. unfold vmcs_write. destruct (check_vm_insruction _ _ _); [|by split..].
  split; [by apply vmcs_store_typed|done].
Qed.
Lemma keeps_write_field f x : keeps inv (write_field f x) (fun _ => True).
Proof. apply keeps_on_vmcs, keeps_vmcs_write. Qed.
Lemma keeps_get_cpu : keeps inv get_cpu cpu_typed.
Proof. by apply keeps_on_cpu, keeps_get. Qed.
Lemma keeps_put_cpu g : cpu_typed g -> keeps inv (put_cpu g) (fun _ => True).
Proof. intros Hg. apply keeps_on_cpu. by intros x _. Qed.
Lemma keeps_guest_virt_addr a : keeps inv (guest_virt_addr a) (fun _ => True).
Proof. eapply keeps_bind; [apply keeps_read_field|]. intros ? _. by apply keeps_ret. Qed.
Lemma keeps_space_read_bytes a n : keeps inv (space_read_bytes this_vm a n) (Forall is_byte).
Proof.
  eapply keeps_bind; [apply keeps_read_field|]. intros cr3 _. eapply keeps_bind; [apply keeps_machine|]. intros v _.
  apply keeps_on_core_host, keeps_read_bytes.
Qed.
Lemma keeps_space_write_bytes a bs : Forall is_byte bs -> keeps inv (space_write_bytes this_vm a bs) (fun _ => True).
Proof.
  intros Hb. eapply keeps_bind; [apply keeps_read_field|]. intros cr3 _. eapply keeps_bind; [apply keeps_machine|]. intros v _.
  by apply keeps_on_core_host, keeps_write_bytes.
Qed.

(** Take a handler of the core apart. *)
Ltac step :=
  cbv zeta;
  lazymatch goal with
  | |- keeps _ (@mbind _ _ unit _ _ _) _ => eapply (keeps_bind _ _ _ (fun _ => True)); [|intros _ _]
  | |- keeps _ (read_field _ ≫= _) _ => eapply keeps_bind; [apply keeps_read_field|cbv beta; intros ? ?Hf]
  | |- keeps _ (get_cpu ≫= _) _ => eapply keeps_bind; [apply keeps_get_cpu|cbv beta; intros ? ?Hg]
  | |- keeps _ (guest_virt_addr _ ≫= _) _ => eapply keeps_bind; [apply keeps_guest_virt_addr|intros ? _]
  | |- keeps _ (this_machine _ ≫= _) _ => eapply keeps_bind; [apply keeps_machine|cbv beta; intros ? ?Hm]
  | |- keeps _ (space_read_bytes _ _ _ ≫= _) _ => eapply keeps_bind; [apply keeps_space_read_bytes|cbv beta; intros ? ?Hb]
  | |- keeps _ (write_field _ _) _ => apply keeps_write_field
  | |- keeps _ (put_cpu _) _ => apply keeps_put_cpu
  | |- keeps _ (mret _) _ => apply keeps_ret
  | |- keeps _ (err _) _ => apply keeps_err
  | |- keeps _ (panic _) _ => apply keeps_panic
  | |- keeps _ (if ?b then _ else _) _ => apply keeps_if
  end.

(** ** Port I/O *)

Lemma write_request_typed bs r : Forall is_byte bs -> PortWriteRequest.try_from bs = Ok r -> Forall is_byte (PortWriteRequest.as_slice r).
Proof. intros Hb. unfold PortWriteRequest.try_from. destruct bs as [|? [|? [|? [|? [|]]]]]; try done; by intros [= <-]. Qed.
Lemma read_request_typed bs r : Forall is_byte bs -> PortReadRequest.try_from bs = Ok r -> Forall is_byte (PortReadRequest.as_slice r).
Proof. intros Hb. unfold PortReadRequest.try_from. destruct bs as [|? [|? [|? [|? [|]]]]]; try done; by intros [= <-]. Qed.

Lemma keeps_dispatch_write port bs : Forall is_byte bs -> keeps inv (dispatch_write this_vm port bs) (fun _ => True).
Proof.
  intros Hb. unfold dispatch_write.
  eapply keeps_bind; [apply keeps_lift; intros r Hr; exact (write_request_typed _ _ Hb Hr)|]. intros r Hr.
  eapply keeps_bind; [by apply keeps_dispatch|]. intros _ _. by step.
Qed.
Lemma keeps_dispatch_read port bs :
  Forall is_byte bs -> keeps inv (dispatch_read this_vm port bs) (fun bs => Forall is_byte bs /\ (length bs <= 4)%nat).
Proof.
  intros Hb. unfold dispatch_read.
  eapply (keeps_bind _ _ _ (fun r => Forall is_byte (PortReadRequest.as_slice r) /\ (length bs <= 4)%nat)).
  { apply keeps_lift. intros r Hr. split; [by apply (read_request_typed bs)|].
    revert Hr. unfold PortReadRequest.try_from. destruct bs as [|? [|? [|? [|? [|]]]]]; cbn; try done; intros _; lia. }
  intros r [Hr Hl]. eapply keeps_bind; [by apply keeps_dispatch|]. intros k Hk. apply keeps_ret.
  destruct k as [?|? ?|? ?|p q|? ?]; try done. split; [done|]. destruct q; cbn; lia.
Qed.

Lemma zeros_bytes n : Forall is_byte (replicate n 0).
Proof. apply Forall_replicate. byte_range. Qed.
Hint Resolve zeros_bytes : core.

Lemma keeps_read_chunks port n size : keeps inv (read_chunks this_vm port n size) (Forall is_byte).
Proof.
  induction n as [|n IH]; cbn [read_chunks]; [by step|].
  eapply keeps_bind; [by apply keeps_dispatch_read|]. intros b [Hb _]. eapply keeps_bind; [exact IH|]. intros r Hr.
  step. by apply Forall_app.
Qed.
Lemma chunks_exact_bytes n size l : Forall is_byte l -> Forall (Forall is_byte) (chunks_exact n size l).
Proof.
  revert l. induction n as [|n IH]; intros l Hl; cbn; constructor; [by apply Forall_take|]. by apply IH, Forall_drop.
Qed.

Lemma input_rax_typed x size arr :
  is_u 64 x -> Forall is_byte arr -> (length arr <= 8)%nat -> is_u 64 (input_rax x size arr).
Proof.
  intros Hx Ha Hl. apply lor_is_u; [lia|by apply land_is_u_l|]. by apply (of_be_bounded _ 8).
Qed.

Lemma keeps_portio exit : 0 <= io_size exit -> keeps inv (emulate_portio this_vm exit) (fun _ => True).
Proof.
  intros Hsz. unfold emulate_portio. step; [|step]; [step; [by step|step]| |].
  - step. apply keeps_dispatch_write, Forall_drop, be_bytes_byte.
  - eapply keeps_bind; [by apply keeps_dispatch_read|]. intros b [Hb Hl]. step. step.
    apply (set_gpr_typed Rax); [|done]. apply input_rax_typed; [by apply (get_gpr_typed Rax)|by apply Forall_app|].
    rewrite length_app, length_replicate. lia.
  - unfold emulate_outs. do 4 step. step; [by apply (keeps_iter _ _ (Forall is_byte)), chunks_exact_bytes; [apply keeps_dispatch_write|]|].
    step. step. apply (set_gpr_typed Rcx), (set_gpr_typed Rsi); [byte_range|apply u64_is_u|done].
  - unfold emulate_ins. do 3 step. eapply keeps_bind; [apply keeps_read_chunks|]. intros bs Hbs. step.
    { apply keeps_space_write_bytes. by apply Forall_app. }
    step. step. apply (set_gpr_typed Rcx), (set_gpr_typed Rdi); [byte_range|apply u64_is_u|done].
Qed.

(** ** Control registers and CPUID *)

Lemma keeps_mov_cr_read r : keeps inv (mov_cr_read_core r) (is_u 64).
Proof.
  intros c Hc. split; [done|]. unfold mov_cr_read_core, mov_cr_read. cbn. intros x [= <-].
  destruct Hc as [Hv _ _ Hg _ _ _ _ _ _]. pose proof (get_gpr_typed r _ Hg) as Hr.
  destruct r; try exact Hr. by apply (vmcs_peek_typed _ GuestRsp).
Qed.
Lemma keeps_mov_cr_write r x : is_u 64 x -> keeps inv (mov_cr_write_core r x) (fun _ => True).
Proof.
  intros Hx c Hc. split; [|done]. pose proof Hc as [Hv ? ? Hg ? ? ? ? ? ?].
  pose proof (set_gpr_typed r x _ Hx Hg) as Hs. unfold mov_cr_write_core, mov_cr_write. destruct r; try (by split).
  destruct (keeps_vmcs_write GuestRsp x (c_vmcs c) Hv) as [Hw _]. by destruct (vmcs_write GuestRsp x (c_vmcs c)).
Qed.
Lemma keeps_invvpid mode : keeps inv (invvpid mode) (fun _ => True).
Proof.
  unfold invvpid. destruct (invvpid_operand mode) as [t x]. destruct (check_vm_insruction _ _ _);
    [apply keeps_log_flush|apply keeps_err|apply keeps_panic].
Qed.
Lemma keeps_unwrap r : keeps inv (unwrap_register r) (fun _ => True).
Proof. by apply keeps_lift. Qed.

Lemma keeps_access i : keeps inv (emulate_access i) (fun _ => True).
Proof.
  unfold emulate_access. step; [|step; [|by step]].
  - destruct (cr_access_type i); try by step.
    + eapply keeps_bind; [apply keeps_unwrap|]. intros reg _. eapply keeps_bind; [apply keeps_mov_cr_read|]. intros x _. by step.
    + step. step.
  - destruct (cr_access_type i); try by step.
    + eapply keeps_bind; [apply keeps_unwrap|]. intros reg _. eapply keeps_bind; [apply keeps_mov_cr_read|]. intros x _.
      eapply (keeps_bind _ _ _ (fun _ => True)); [|intros y _; by step].
      step; [|by step]. step. step; [apply keeps_invvpid|by step].
    + eapply keeps_bind; [apply keeps_unwrap|]. intros reg _. step. by apply keeps_mov_cr_write.
Qed.

Lemma merge_low_typed x old : is_u 32 x -> is_u 64 old -> is_u 64 (merge_low x old).
Proof. intros Hx Ho. apply lor_is_u; [lia|by apply (is_u_weaken 32)|by apply land_is_u_l]. Qed.

Lemma keeps_cpuid : keeps inv (emulate_cpuid this_core) (fun _ => True).
Proof.
  unfold emulate_cpuid. step. cbv zeta. destruct (cpuid_count _ _) as [[[eax ebx] ecx] edx] eqn:E.
  apply cpuid_u32 in E as (Ha & Hb & Hc & Hd).
  set (r := if _ =? 1 then _ else _). assert (is_u 32 r.1 /\ is_u 32 r.2) as [? ?].
  { subst r. destruct (_ =? 1); [split; cbn; by repeat apply land_is_u_l|]. by destruct (_ =? 11). }
  destruct r as [ecx' edx']. step.
  apply (set_gpr_typed Rdx), (set_gpr_typed Rcx), (set_gpr_typed Rbx), (set_gpr_typed Rax); try done; apply merge_low_typed; try done.
  - by apply (get_gpr_typed Rdx).
  - by apply (get_gpr_typed Rcx).
  - by apply (get_gpr_typed Rbx).
  - by apply (get_gpr_typed Rax).
Qed.

(** ** The virtual local APIC *)

Notation linv := (lapic_typed (D := D)).

Lemma keeps_lapic_send m core notify : msg_typed m -> keeps linv (send m core notify) (fun _ => True).
Proof.
  intros Hm w [Hl Hs]. unfold send. destruct (keeps_send m core notify Hm w.2 Hs) as [Hk _].
  by destruct (send_msg_core m core notify w.2).
Qed.
Lemma keeps_get_icr : keeps linv get_icr (option_u 32).
Proof. intros w Hw. split; [done|]. intros x [= <-]. apply Hw. Qed.
Lemma keeps_set_icr x : option_u 32 x -> keeps linv (set_icr x) (fun _ => True).
Proof. intros Hx w [_ Hs]. by split. Qed.
Lemma keeps_get_vm : keeps linv (get_vm this_vm) vm_typed.
Proof.
  intros w Hw. split; [done|]. unfold get_vm. cbn. intros v. destruct (vms w.2.1 !! this_vm) as [v'|] eqn:E; [|done].
  intros [= <-]. destruct Hw as (_ & _ & Hv). by apply (Forall_lookup_1 _ _ _ _ Hv E).
Qed.
Lemma keeps_put_vm v : vm_typed v -> keeps linv (put_vm this_vm v) (fun _ => True).
Proof. intros Hv w (? & ? & ?). split; [|done]. split; [done|split; [done|by apply Forall_insert]]. Qed.

Lemma vector_is_u x : is_u 8 (Z.land x 0xff).
Proof. apply land_is_u_r; byte_range. Qed.

Lemma keeps_send_unless_self vector core : is_u 8 vector -> keeps linv (send_unless_self this_core vector core) (fun _ => True).
Proof. intros Hv. unfold send_unless_self. apply keeps_if; [by apply keeps_ret|by apply keeps_lapic_send]. Qed.
Lemma keeps_send_logical v vector dest cores :
  is_u 8 vector -> keeps linv (send_logical this_core v vector dest cores) (fun _ => True).
Proof.
  intros Hv. induction cores as [|core r IH]; cbn [send_logical]; [by apply keeps_ret|].
  eapply (keeps_bind _ _ _ (fun _ => True)); [by apply keeps_lift|]. intros b _.
  eapply (keeps_bind _ _ _ (fun _ => True)); [|by intros _ _].
  destruct b; [by apply keeps_send_unless_self|by apply keeps_ret].
Qed.

Lemma keeps_sipi value : keeps linv (process_sipi_request value) (fun _ => True).
Proof.
  unfold process_sipi_request. eapply keeps_bind; [apply keeps_get_icr|]. intros [dest|] _; [|by apply keeps_ret].
  apply keeps_lapic_send. apply u64_is_u.
Qed.

Lemma keeps_interrupt_command value : keeps linv (process_interrupt_command this_core this_vm value) (fun _ => True).
Proof.
  unfold process_interrupt_command. eapply (keeps_bind _ _ _ (fun _ => True)); [by apply keeps_lift|]. intros delivery _.
  assert (keeps linv
    (let vector := Z.land value 0xff in
      dst_mode ← lift (try_from_primitive_err (Z.land (Z.shiftr value 11) 1));
      shorthand ← lift (try_from_primitive_err (Z.land (Z.shiftr value 18) 3));
      match shorthand with
      | AllIncludingSelf => mret tt
      | AllExcludingSelf => v ← get_vm this_vm; st_iter (send_unless_self this_core vector) (vm_cpus v)
      | MySelf => mret tt
      | NoShorthand =>
          icr ← get_icr;
          match icr with
          | Some dest =>
              match dst_mode with
              | Logical => v ← get_vm this_vm; send_logical this_core v vector dest (vm_cpus v)
              | Physical => mret tt
              end
          | None => mret tt
          end
      end) (fun _ => True)) as Hfixed; [|destruct delivery; try exact Hfixed; [by apply keeps_ret|apply keeps_sipi]].
  cbv zeta. eapply (keeps_bind _ _ _ (fun _ => True)); [by apply keeps_lift|]. intros dst_mode _.
  eapply (keeps_bind _ _ _ (fun _ => True)); [by apply keeps_lift|]. intros shorthand _.
  destruct shorthand; try (by apply keeps_ret).
  - eapply keeps_bind; [apply keeps_get_icr|]. intros [dest|] _; [|by apply keeps_ret].
    destruct dst_mode; [by apply keeps_ret|]. eapply keeps_bind; [apply keeps_get_vm|]. intros v _.
    apply keeps_send_logical, vector_is_u.
  - eapply keeps_bind; [apply keeps_get_vm|]. intros v _.
    apply (keeps_iter _ _ (fun _ => True)); [intros core _; apply keeps_send_unless_self, vector_is_u|by apply Forall_true].
Qed.

Lemma bt_alter_typed {K V} (cmp : K -> K -> comparison) (P : V -> Prop) f k m :
  (forall v, P v -> P (f v)) -> Forall (fun e => P e.2) m -> Forall (fun e => P e.2) (bt_alter cmp f k m).
Proof. intros Hf. induction 1 as [|[k1 v1] m H1' Hm IH]; cbn; [constructor|]. destruct (cmp k k1); constructor; cbn in *; auto. Qed.

Lemma update_logical_typed core dest v v' :
  is_u 32 dest -> vm_typed v -> update_core_logical_destination core dest v = Ok v' -> vm_typed v'.
Proof.
  intros Hd (Hv & Hs & Hl). unfold update_core_logical_destination. intros (x & _ & [= <-])%bind_Ok.
  split_and!; cbn; try done. by apply (bt_alter_typed _ (is_u 32)).
Qed.

Lemma keeps_register_write offset value :
  is_u 32 value -> keeps linv (register_write this_core this_vm offset value) (fun _ => True).
Proof.
  intros Hv. unfold register_write. eapply (keeps_bind _ _ _ (fun _ => True)); [by apply keeps_lift|]. intros o _.
  destruct o as [r|n|n|n|n]; try (by apply keeps_ret).
  - destruct r; try (by apply keeps_ret). eapply keeps_bind; [apply keeps_get_vm|]. intros v Hvm.
    eapply keeps_bind; [apply keeps_lift; intros v' Hv'; exact (update_logical_typed _ _ _ _ Hv Hvm Hv')|].
    apply keeps_put_vm.
  - assert (forall n, keeps linv (panic (A := unit) n) (fun _ => True)) by (intros; apply keeps_panic).
    destruct n as [|[| |]|]; try done.
    + eapply keeps_bind; [apply keeps_interrupt_command|]. intros _ _. by apply keeps_set_icr.
    + by apply keeps_set_icr.
Qed.
Lemma keeps_register_read offset : keeps linv (register_read this_core offset) (fun _ => True).
Proof.
  unfold register_read. eapply (keeps_bind _ _ _ (fun _ => True)); [by apply keeps_lift|]. intros o _.
  destruct o as [r|n|n|n|n]; try (by apply keeps_ret). by destruct r; apply keeps_ret.
Qed.

(** ** Memory-mapped I/O *)

Definition callback_typed (cb : callback (D := D) (H := H)) : Prop :=
  forall a k, event_typed k -> keeps inv (cb a k) event_typed.

Lemma mmio_write_keeps addr instr cb : callback_typed cb -> keeps inv (do_mmio_write addr instr cb) (fun _ => True).
Proof.
  intros Hcb. unfold do_mmio_write. eapply (keeps_bind _ _ _ (Forall is_byte)).
  - destruct (op1_kind instr); try apply keeps_err; try (apply keeps_ret, be_bytes_byte).
    intros c Hc. split; [done|]. unfold read_register_value. cbn. intros bs.
    destruct (Register.parts _) as [[r n]|]; [|done]. destruct r; intros [= <-]; apply be_bytes_byte.
  - intros data Hd. eapply keeps_bind; [by apply Hcb|]. intros _ _. by apply keeps_ret.
Qed.

Lemma loadable_size r q n : loadable r = Some (q, n) -> (n <= 8)%nat.
Proof. destruct r; cbn; intros [= _ <-]; lia. Qed.

Lemma merge_loaded_typed old size arr :
  is_u 64 old -> Forall is_byte arr -> (length arr <= 8)%nat -> is_u 64 (merge_loaded old size arr).
Proof. intros Ho Ha Hl. apply lor_is_u; [lia|by apply land_is_u_l|by apply (of_le_bounded _ 8)]. Qed.

Lemma mmio_read_keeps addr instr cb : callback_typed cb -> keeps inv (do_mmio_read addr instr cb) (fun _ => True).
Proof.
  intros Hcb. unfold do_mmio_read. eapply (keeps_bind _ _ _ (fun p => (p.2 <= 8)%nat)).
  - destruct (op0_kind instr); try apply keeps_err. destruct (loadable _) as [[q n]|] eqn:El; [|apply keeps_err].
    apply keeps_ret. by apply loadable_size in El.
  - intros [reg size] Hsz. cbn in Hsz.
    assert (event_typed (MemRead addr (replicate size 0))) as Hev by (split; [done|by rewrite length_replicate]).
    eapply keeps_bind; [by apply Hcb|]. intros k Hk. step. step.
    apply set_gpr_typed; [|done]. apply merge_loaded_typed; [by apply get_gpr_typed| |]; destruct k; try done; apply Hk || apply Hev.
Qed.

Lemma memio_keeps addr on_read on_write :
  callback_typed on_read -> callback_typed on_write -> keeps inv (process_memio_op this_vm addr on_read on_write) (fun _ => True).
Proof.
  intros Hr Hw. unfold process_memio_op. do 5 step. step; [by apply mmio_write_keeps|]. step; [by apply mmio_read_keeps|by step].
Qed.

Lemma ept_violation_keeps i : keeps inv (handle_ept_violation this_vm i) (fun _ => True).
Proof. unfold handle_ept_violation. step. apply memio_keeps; intros addr k Hk; by apply keeps_dispatch. Qed.

Lemma apic_access_keeps i : keeps inv (handle_apic_access this_core this_vm i) (fun _ => True).
Proof.
  unfold handle_apic_access. eapply (keeps_bind _ _ _ (fun _ => True)); [by apply keeps_lift|]. intros o _.
  apply memio_keeps; intros a k Hk.
  - unfold on_apic_read. eapply (keeps_bind _ _ _ (fun _ => True)); [by apply keeps_lift|]. intros offset _.
    eapply keeps_bind; [apply keeps_on_lapic, keeps_register_read|]. intros x _.
    destruct k; try apply keeps_err. case_bool_decide; [|apply keeps_panic]. apply keeps_ret.
    split; [apply be_bytes_byte|]. rewrite length_be_bytes. lia.
  - unfold on_apic_write. eapply (keeps_bind _ _ _ (fun _ => True)); [by apply keeps_lift|]. intros offset _.
    destruct k as [?|? ?|b req|? ?|? ?]; try apply keeps_err. case_bool_decide as Hl; [|apply keeps_panic].
    eapply keeps_bind; [apply keeps_on_lapic, keeps_register_write|intros _ _; by apply keeps_ret].
    apply (of_be_bounded _ 4); [apply Hk|lia].
Qed.

(** ** Messages, interrupts and responses *)

Lemma keeps_inject vector kind : is_u 8 vector -> keeps inv (inject_interrupt vector kind) (fun _ => True).
Proof.
  intros Hv. apply keeps_on_pending, keeps_modify; [|done]. intros p Hp. induction Hp as [|[v k] p Hx Hp IH]; cbn.
  - by constructor.
  - destruct (vector ?= v); constructor; try done. by constructor.
Qed.

Lemma keeps_route gsi : keeps inv (route_interrupt this_core this_vm gsi) (fun _ => True).
Proof.
  unfold route_interrupt. step. eapply (keeps_bind _ _ _ (fun r => is_u 8 r.1.2)).
  - apply keeps_lift. intros [[dst vec] k]. unfold gsi_destination. destruct (gsi =? gsi_UART).
    + intros (b & _ & [= <- <- <-])%bind_Ok. apply u8_is_u.
    + intros [= <- <- <-]. apply u8_is_u.
  - intros [[dst vec] k] Hvec. cbn in Hvec. apply keeps_if; [by apply keeps_inject|]. by apply keeps_on_set, keeps_send.
Qed.

Lemma set_serial_typed s (v : VirtualMachine D) : option_u 16 s -> vm_typed v -> vm_typed (set_vm_serial s v).
Proof. intros Hs (? & ? & ?). by split_and!. Qed.

Lemma keeps_handle_msg m : msg_typed m -> keeps inv (handle_msg apic this_core this_vm m) (fun _ => True).
Proof.
  intros Hm. destruct m; cbn [handle_msg].
  - step. by apply keeps_put_machine, set_serial_typed.
  - apply keeps_on_platform, keeps_cancel_timer.
  - by apply keeps_ret.
  - by apply keeps_inject.
Qed.

Lemma keeps_recv_all :
  keeps set_typed (fun '(s, hw) => let '(s, r) := recv_all_msgs (D := D) this_core s in ((s, hw), r)) (Forall msg_typed).
Proof.
  intros [s hw] [Hc Hv]. unfold recv_all_msgs. destruct (context_by_core_id s this_core) as [c|] eqn:E; [|done].
  split; [|intros l [= <-]; by apply (queue_typed s this_core)]. split; [|done]. by apply set_queue_typed.
Qed.

Lemma keeps_ipc : keeps inv (handle_ipc apic this_core this_vm) (fun _ => True).
Proof.
  eapply keeps_bind; [apply keeps_on_set, keeps_recv_all|]. intros msgs Hm.
  by apply (keeps_iter _ _ msg_typed); [apply keeps_handle_msg|].
Qed.

Lemma keeps_keypress : keeps inv (handle_uart_keypress this_vm) (fun _ => True).
Proof.
  unfold handle_uart_keypress. step. destruct (vm_serial _) as [port|]; [|by step].
  eapply keeps_bind; [apply keeps_dispatch, serial_byte|]. intros _ _. by step.
Qed.

Lemma utf8_lossy_bytes b : is_byte b -> Forall is_byte (utf8_lossy b).
Proof. intros Hb. unfold utf8_lossy. destruct (b <? 128); [by constructor|]. do 3 (constructor; [byte_range|]). constructor. Qed.

Lemma keeps_response r : response_typed r -> keeps inv (handle_response ioapics this_core this_vm r) (fun _ => True).
Proof.
  intros Hr. destruct r as [b| |gsi]; cbn [handle_response].
  - step. case_bool_decide; [|by step]. by apply keeps_write_console, utf8_lossy_bytes.
  - step. step; [by apply keeps_put_machine, set_serial_typed|].
    eapply (keeps_bind _ _ _ (is_u 16)).
    { apply keeps_lift. intros x. destruct Hm as (_ & Hs & _). destruct (vm_serial _); [|done]. by intros [= <-]. }
    intros serial Hs. eapply (keeps_bind _ _ _ (fun _ => True)); [by apply keeps_on_set; intros w Hw|]. intros w _.
    step; [by step|]. step; [by apply keeps_on_set, keeps_send_msg|].
    eapply (keeps_bind _ _ _ (fun _ => True)); [by apply keeps_on_set; intros w' Hw|]. intros w' _.
    eapply (keeps_bind _ _ _ (fun _ => True)); [by apply keeps_lift|]. intros b _.
    eapply (keeps_bind _ _ _ (fun _ => True)); [by apply keeps_lift|]. intros b' _. apply keeps_on_ioapics.
  - apply keeps_route.
Qed.

(** ** The exit handler *)

Lemma keeps_rdmsr : keeps inv handle_rdmsr (fun _ => True).
Proof.
  unfold handle_rdmsr. step. step; [|by step]. step. pose proof (rdmsr_u64 IA32_APIC_BASE) as Hr.
  apply (set_gpr_typed Rax), (set_gpr_typed Rdx); [..|done].
  - by apply land_is_u_l, land_is_u_l.
  - by apply shiftr_is_u, land_is_u_l.
Qed.

Lemma keeps_skip : keeps inv skip_emulated_instruction (fun _ => True).
Proof. unfold skip_emulated_instruction. step. step. step. Qed.

Lemma keeps_exit exit : exit_typed exit -> keeps inv (handle_exit apic this_core this_vm exit) (fun _ => True).
Proof.
  unfold exit_typed, handle_exit. intros He. destruct (info exit); try by step.
  { unfold handle_external_interrupt. step; [|apply keeps_on_core_hw].
    step; [apply keeps_keypress|]. step; [apply keeps_ipc|by step]. }
  all: eapply (keeps_bind _ _ _ (fun _ => True)); [|intros _ _; apply keeps_skip].
  all: lazymatch goal with
    | |- keeps _ (emulate_cpuid _) _ => apply keeps_cpuid
    | |- keeps _ (emulate_access _) _ => apply keeps_access
    | |- keeps _ (emulate_portio _ _) _ => apply keeps_portio; lia
    | |- keeps _ handle_rdmsr _ => apply keeps_rdmsr
    | |- keeps _ (handle_apic_access _ _ _) _ => apply apic_access_keeps
    | _ => apply ept_violation_keeps
    end.
Qed.

Lemma keeps_expire : keeps inv (expire_timers apic) (Forall interrupt_typed).
Proof.
  unfold expire_timers. apply keeps_on_platform. eapply keeps_bind; [apply keeps_get_wheel|]. intros w Hw. cbv beta in Hw.
  eapply (keeps_bind _ _ _ (fun r => timers_typed (timers r.1) /\ Forall interrupt_typed r.2)).
  - apply on_hw_keeps. intros hw [w' ints] He. by apply (expire_typed apic w hw).
  - intros [w' ints] [Hw' Hi]. eapply keeps_bind; [by apply keeps_put_wheel|]. intros _ _. by apply keeps_ret.
Qed.

Lemma keeps_timer_event t : interrupt_typed t -> keeps inv (handle_timer_event this_core this_vm t) (fun _ => True).
Proof. intros Ht. destruct t; [by apply keeps_inject|apply keeps_route]. Qed.

Lemma keeps_inject_pending : keeps inv inject_pending (fun _ => True).
Proof.
  unfold inject_pending. eapply (keeps_bind _ _ _ (fun _ => True)); [by apply keeps_on_pending, keeps_get|].
  intros [|x p] _; [by step|]. step. eapply (keeps_bind _ _ _ (fun _ => True)); [by apply keeps_lift|]. intros ib _.
  step. step. step; [by step|]. step; [by step|].
  eapply (keeps_bind _ _ _ (fun _ => True)).
  { apply keeps_on_pending. intros [|e r] Hp; [done|]. split; [|done]. by apply Forall_cons in Hp as [_ Hp]. }
  intros first _. step; [destruct first as [[v k]|]; by step|].
  eapply (keeps_bind _ _ _ (fun _ => True)); [by apply keeps_on_pending, keeps_get|]. intros [|y q] _; by step.
Qed.

Lemma keeps_handle_vmexit exit :
  exit_typed exit -> keeps inv (handle_vmexit apic ioapics this_core this_vm exit) (fun _ => True).
Proof.
  intros He. unfold handle_vmexit, handle_vmexit_impl. step.
  - eapply (keeps_bind _ _ _ (fun _ => True)); [eapply keeps_weaken; [apply keeps_take_responses|done]|]. intros _ _.
    step; [by apply keeps_exit|]. eapply keeps_bind; [apply keeps_take_responses|]. intros rs Hrs.
    by apply (keeps_iter _ _ response_typed); [apply keeps_response|].
  - eapply keeps_bind; [apply keeps_expire|]. intros es Hes.
    step; [by apply (keeps_iter _ _ interrupt_typed); [apply keeps_timer_event|]|]. apply keeps_inject_pending.
Qed.

Lemma vmexit_keeps c : inv c -> inv (fst (vmexit_handler apic ioapics this_core this_vm c)).
Proof.
  intros Hc. unfold vmexit_handler. destruct (exit_reason_from_vmcs (c_vmcs c)) as [exit|e|w] eqn:He; cbn; [|done..].
  apply exit_reason_typed in He. destruct (keeps_handle_vmexit exit He c Hc) as [Hk _].
  by destruct (handle_vmexit _ _ _ _ exit c) as [c' [[]|e|w]].
Qed.
End handlers.

(** ** New machines *)

Lemma static_devices_typed memory : Forall machine_typed (static_devices (static_new memory)).
Proof.
  unfold static_devices, static_new. cbn [acpi_runtime vga_controller pci_root pic keyboard pit cmos_rtc io_apic].
  repeat (apply Forall_cons; split); cbn [machine_typed]; try done; try by split.
  - split_and!; [cbn; byte_range|done|]. apply (bool_decide_unpack _). vm_compute. exact I.
  - unfold CmosRtc.new, CmosRtc.default_register_values.
    split_and!; cbn [CmosRtc.addr CmosRtc.data]; [byte_range|by rewrite !length_insert, length_replicate|].
    repeat apply insert_bytes; try apply u8_is_u; [byte_range|apply zeros_bytes].
Qed.

(** Every device of a new machine starts typed, if its firmware items are bytes. *)
Lemma machine_devices_typed memory qemu : fw_typed qemu -> Forall machine_typed (machine_devices memory qemu).
Proof.
  intros Hq. apply Forall_app. split; [apply static_devices_typed|].
  repeat (apply Forall_cons; split); cbn [machine_typed dynamic_typed]; done.
Qed.

(** A check of the encoding: every value keeps its Rust type.  Integers are modelled as [Z];
    handling an exit, whatever its reason and outcome, leaves each VMCS field, guest register, pending vector,
    message, timer, device register and byte of memory and console in the range of its type, so that no
    value the model computes is one the code could not hold. *)
Lemma exits_keep_types {H : Type} `{IoApicHw H} `{CpuLaws} `{GuestPaging} `{Decoder} `{TimeSourceLaws}
    apic ioapics this_core this_vm start (c c' : Core Device H) r :
  let typed := @core_typed Device H _ (machine_device_typed apic this_core start) in
  is_u 32 this_core -> typed c ->
  @vmexit_handler Device H (machine_device apic this_core start) _ _ _ _ _ _ apic ioapics this_core this_vm c = (c', r) ->
  typed c'.
Proof.
  intros typed Hcore Hc Hr. subst typed.
  pose proof (@vmexit_keeps Device H _ (machine_device_typed apic this_core start) _ _ _ _ _ _ _ apic ioapics this_core this_vm Hcore c Hc) as Hk.
  by rewrite Hr in Hk.
Qed.

(** An exit for an OUT to the serial port of a machine of 64 MB. *)
Definition plain_laws : @CpuLaws lenient_cpu plain_cpu.
Proof.
  split.
  - intros m. cbn. byte_range.
  - intros leaf sub a b c d [= <- <- <- <-]. split_and!; byte_range.
  - intros port. cbn. byte_range.
Defined.

Definition out_core : Core Device reg_file :=
  mkCore (<[field_code VmExitReason := 30]> (<[field_code ExitQualification := 0x03f80000]> ∅)) None
    [(0x30, ExternalInterrupt)] (set_rax 0x41 cpu_zero) wheel_new (mkHw 0 [])
    (mkSet [mkContext 0 0 []] [mkVm 0 [0] 64 (Some 0x3f8) (machine_devices 64 (build builder_new)) device_map_default 4096 0 [(0, 0)] 0])
    (mkHost ∅ ∅) ∅ [] [] [].

Lemma out_core_typed : @core_typed Device reg_file (@machine_device slow_clock linear_entry_address (mkLocalApic 0 1) 0 0)
  (@machine_device_typed slow_clock slow_clock_laws linear_entry_address (mkLocalApic 0 1) 0 0) out_core.
Proof.
  split.
  - apply map_Forall_insert_2; [by split|]. apply map_Forall_insert_2; [by split|]. apply map_Forall_empty.
  - exact I.
  - by constructor.
  - unfold cpu_typed. cbn. repeat (constructor; [byte_range|]). constructor.
  - constructor.
  - constructor; [constructor|constructor].
  - constructor; [|constructor]. split_and!.
    + apply machine_devices_typed. split; [by split|]. split; [by split|]. split; [by split|]. apply (bool_decide_unpack _). vm_compute. exact I.
    + cbn. byte_range.
    + by constructor.
  - apply map_Forall_empty.
  - constructor.
  - constructor.
Qed.

Lemma exits_keep_types_witness :
  let '(c', r) := @vmexit_handler Device reg_file (@machine_device slow_clock linear_entry_address (mkLocalApic 0 1) 0 0) reg_file_hw
    lenient_cpu plain_cpu linear_entry_address (fun _ _ _ => store_ebx) slow_clock (mkLocalApic 0 1) [] 0 0 out_core in
  cpu_typed (c_cpu c').
Proof.
  destruct (vmexit_handler _ _ _ _ _) as [c' r] eqn:E.
  refine (ct_cpu _ (@exits_keep_types reg_file reg_file_hw lenient_cpu plain_cpu plain_laws linear_entry_address (fun _ _ _ => store_ebx)
    slow_clock slow_clock_laws (mkLocalApic 0 1) [] 0 0 0 out_core c' r _ out_core_typed E)).
  byte_range.
Defined.
