(* ===== verification/GuestConsole.v ===== *)
(** * From the guest's output instruction to the host console

    A composition of the components: a string output to the serial port is decoded,
    its bytes are read through the page tables ([emulate/portio.rs], [memory.rs]), each
    is dispatched to the virtual UART ([vm.rs], [virtdev/com.rs]), and the responses are
    printed ([vcpu.rs]). *)

From S2P Require Import Prelude Error BTreeMap Memory GuestMemory VirtDev IoApic Vmcs VmExit Clock Apic Timers Vm Lapic Platform Uart FwCfg Core Emulate MemIo VCpu Machine.

Section output.
Context {H : Type} `{HW : IoApicHw H} `{VC : VmxCpu} `{CC : CoreCpu} `{GP : GuestPaging} `{DE : Decoder} `{TS : TimeSource}.
Context (apic : LocalApic) (ioapics : list IoApic) (this_core start : Z) (this_vm : nat).
#[local] Instance dev : EmulatedDevice Platform Device := machine_device apic this_core start.
Implicit Types c : Core Device H.

(** The machine of the core, [v], has the UART [u] as its device number [i] at port [p]; it
    is set to transmit (divisor latch off) without interrupts. *)
Record uart_at (p : Z) (v : VirtualMachine Device) (i : nat) (u : Uart8250) (c : Core Device H) : Prop := {
  ua_vm : vms (c_set c) !! this_vm = Some v;
  ua_port : find_device_port p (vm_device_map v) = Some i;
  ua_dev : vm_devices v !! i = Some (DynamicDevice (DynUart u));
  ua_base : base_port u = p;
  ua_dlab : divisor_latch_bit_set u = false;
  ua_quiet : flags_contains (interrupt_enable_register u) IerFlags.THR_EMPTY_INTERRUPT = false
}.

(** What an output leaves alone: everything but the devices and the responses. *)
Definition output_frame (c c' : Core Device H) : Prop :=
  c_vmcs c' = c_vmcs c /\ c_lapic c' = c_lapic c /\ c_pending c' = c_pending c /\ c_cpu c' = c_cpu c /\
  c_wheel c' = c_wheel c /\ c_hw c' = c_hw c /\ c_host c' = c_host c /\ c_ioapics c' = c_ioapics c /\
  c_flushed c' = c_flushed c /\ c_console c' = c_console c /\ contexts (c_set c') = contexts (c_set c).

Lemma output_frame_trans c1 c2 c3 : output_frame c1 c2 -> output_frame c2 c3 -> output_frame c1 c3.
Proof. unfold output_frame. intros. destruct_and!. split_and!; congruence. Qed.

(** The UART's own step. *)
Lemma uart_transmit {W} u (e : Event W) b p :
  kind e = PortWrite p (PortWriteRequest.OneByte b) -> base_port u = p -> divisor_latch_bit_set u = false ->
  flags_contains (interrupt_enable_register u) IerFlags.THR_EMPTY_INTERRUPT = false ->
  uart_on_event (u, e) =
  if bool_decide (length (responses e) < MAX_EVENT_RESPONSES)%nat
  then ((set_iir 2 u, set_responses (responses e ++ [GuestUartTransmitted b]) e), Ok tt)
  else ((u, e), Panic "insufficient capacity").
Proof.
  intros Hk Hp Hd Hi. unfold uart_on_event. rewrite st_bind_eq. cbn [get_event snd]. rewrite Hk.
  unfold uart_port_write. rewrite st_bind_eq. cbn [lift PortWriteRequest.to_u8]. rewrite st_bind_eq.
  cbn [get_dev fst]. rewrite Hp, Z.sub_diag. change (u16 0) with 0. cbn [Z.eqb SerialOffset.DATA SerialOffset.IER].
  rewrite st_bind_eq, Hd, st_bind_eq. unfold push_response at 1. cbn [fst snd]. case_bool_decide; [|done].
  rewrite st_bind_eq, Hi. done.
Qed.

(** One byte through the dispatch. *)
Lemma output_byte p v i u b c :
  uart_at p v i u c ->
  if bool_decide (length (c_responses c) < MAX_EVENT_RESPONSES)%nat then
    exists c' v', dispatch_write this_vm p [b] c = (c', Ok tt) /\ output_frame c c' /\
      c_responses c' = c_responses c ++ [GuestUartTransmitted b] /\ uart_at p v' i (set_iir 2 u) c' /\
      vm_serial v' = vm_serial v /\ vm_guest_space v' = vm_guest_space v
  else exists c', dispatch_write this_vm p [b] c = (c', Panic "insufficient capacity").
Proof.
  intros [Hv Hp Hd Hb Hl Hq]. unfold dispatch_write. rewrite st_bind_eq. cbn [lift PortWriteRequest.try_from].
  rewrite st_bind_eq. unfold dispatch. rewrite Hv. unfold dispatch_event. cbn [find_device ds_vm ds_kind ds_responses ds_host ds_world].
  rewrite Hp, Hd. cbn [on_event dev machine_device device_on_event]. unfold handle, dynamic_on_event, handle.
  rewrite (uart_transmit u _ b p) by done. cbn [responses]. case_bool_decide; [|by eexists].
  eexists _, (set_vm_devices (<[i := DynamicDevice (DynUart (set_iir 2 u))]> (vm_devices v)) v).
  split; [reflexivity|]. cbn. split; [by destruct c|]. split; [done|]. split; [|done]. constructor; try done; cbn.
  - apply list_lookup_insert_eq. by eapply lookup_lt_Some.
  - apply list_lookup_insert_eq. by eapply lookup_lt_Some.
Qed.

Lemma chunks_of_bytes bs : chunks_exact (length bs / 1) 1 bs = (fun b => [b]) <$> bs.
Proof. rewrite Nat.div_1_r. induction bs as [|b bs IH]; [done|]. cbn. by rewrite drop_0, IH. Qed.

Lemma set_iir_iir x y u : set_iir x (set_iir y u) = set_iir x u.
Proof. done. Qed.

(** A whole string: transmitted while the responses have room, a panic otherwise. *)
Lemma output_bytes p v i u bs : forall c,
  uart_at p v i u c -> (length (c_responses c) <= MAX_EVENT_RESPONSES)%nat ->
  if bool_decide (length (c_responses c) + length bs <= MAX_EVENT_RESPONSES)%nat then
    exists c' v', st_iter (dispatch_write this_vm p) ((fun b => [b]) <$> bs) c = (c', Ok tt) /\ output_frame c c' /\
      c_responses c' = c_responses c ++ (GuestUartTransmitted <$> bs) /\ vms (c_set c') !! this_vm = Some v' /\
      vm_serial v' = vm_serial v /\ vm_guest_space v' = vm_guest_space v
  else exists c', st_iter (dispatch_write this_vm p) ((fun b => [b]) <$> bs) c = (c', Panic "insufficient capacity").
Proof.
  revert v u. induction bs as [|b bs IH]; intros v u c Hu Hr; cbn [fmap list_fmap st_iter length].
  { rewrite bool_decide_true by lia. exists c, v. rewrite app_nil_r. by destruct Hu. }
  pose proof (output_byte p v i u b c Hu) as Hb. case_bool_decide as Hroom.
  - destruct Hb as (c1 & v1 & He & Hf & Hr1 & Hu1 & Hs1 & Hg1). rewrite st_bind_eq, He.
    pose proof (IH v1 _ c1 Hu1) as IHb. rewrite Hr1, length_app in IHb. cbn [length] in IHb.
    replace (length (c_responses c) + 1 + length bs)%nat with (length (c_responses c) + S (length bs))%nat in IHb by lia.
    specialize (IHb ltac:(lia)). case_bool_decide.
    + destruct IHb as (c2 & v2 & -> & Hf2 & Hr2 & Hv2 & Hs2 & Hg2). exists c2, v2. split_and!; try congruence.
      * by eapply output_frame_trans.
      * by rewrite Hr2, <- app_assoc.
    + exact IHb.
  - destruct Hb as (c1 & He). rewrite bool_decide_false by lia. exists c1. by rewrite st_bind_eq, He.
Qed.

(** The responses of a transmission are printed if the machine has the console. *)
Definition printed (v : VirtualMachine Device) (bs : list Z) : list Z :=
  if bool_decide (is_Some (vm_serial v)) then concat (utf8_lossy <$> bs) else [].

Definition set_console (s : list Z) (c : Core Device H) : Core Device H :=
  mkCore (c_vmcs c) (c_lapic c) (c_pending c) (c_cpu c) (c_wheel c) (c_hw c) (c_set c) (c_host c) (c_ioapics c)
    (c_flushed c) s (c_responses c).

Lemma print_responses v bs : forall c, vms (c_set c) !! this_vm = Some v ->
  st_iter (handle_response ioapics this_core this_vm) (GuestUartTransmitted <$> bs) c =
  (set_console (c_console c ++ printed v bs) c, Ok tt).
Proof.
  unfold printed. induction bs as [|b bs IH]; intros c Hv; rewrite ?fmap_cons; cbn [st_iter].
  { destruct c. case_bool_decide; unfold set_console; cbn; by rewrite app_nil_r. }
  rewrite st_bind_eq. cbn [handle_response]. rewrite st_bind_eq. unfold this_machine. rewrite Hv. cbn [expect].
  case_bool_decide.
  - unfold write_console. rewrite IH by done. cbn [concat]. unfold set_console. cbn. by rewrite app_assoc.
  - cbv [mret st_ret]. by rewrite IH.
Qed.

(** The guest's registers after a string output of [n] bytes. *)
Definition after_outs (n : nat) (g : GuestCpuState) : GuestCpuState := set_rcx 0 (set_rsi (u64 (rsi g + Z.of_nat n)) g).

(** The bytes at the instruction's address, whose page tables are switched off. *)
Definition source_bytes (v : VirtualMachine Device) (c : Core Device H) (bs : list Z) : Prop :=
  has_bits (vmcs_peek (c_vmcs c) GuestCr0) CR0_ENABLE_PAGING = false /\
  read_bytes (vm_guest_space v) (vmcs_peek (c_vmcs c) GuestCr3) (NoPaging (vmcs_peek (c_vmcs c) GuestLinearAddress))
    (Z.to_nat (u64 (rcx (c_cpu c)))) (Read 0) (c_host c) = (c_host c, Ok bs).

Lemma get_cpu_eq c : get_cpu c = (c, Ok (c_cpu c)).
Proof. by destruct c. Qed.

Lemma emulate_outs_uart info v k u bs c :
  io_size info = 1 -> uart_at (io_port info) v k u c -> c_responses c = [] -> source_bytes v c bs ->
  if bool_decide (length bs <= MAX_EVENT_RESPONSES)%nat then
    exists c' v', emulate_outs this_vm (io_port info) info c = (c', Ok tt) /\
      output_frame c (mkCore (c_vmcs c') (c_lapic c') (c_pending c') (c_cpu c) (c_wheel c') (c_hw c') (c_set c')
        (c_host c') (c_ioapics c') (c_flushed c') (c_console c') (c_responses c')) /\
      c_cpu c' = after_outs (length bs) (c_cpu c) /\
      c_responses c' = GuestUartTransmitted <$> bs /\ vms (c_set c') !! this_vm = Some v' /\ vm_serial v' = vm_serial v
  else exists c', emulate_outs this_vm (io_port info) info c = (c', Panic "insufficient capacity").
Proof.
  intros Hsz Hu Hr [Hpg Hbs].
  assert (emulate_outs this_vm (io_port info) info c =
    (_ ← st_iter (dispatch_write this_vm (io_port info)) ((fun b => [b]) <$> bs);
     g ← get_cpu; put_cpu (after_outs (length bs) g)) c) as ->.
  { unfold emulate_outs, guest_virt_addr. rewrite st_bind_eq, read_field_eq. cbv beta iota.
    rewrite !st_bind_eq, read_field_eq. cbv beta iota. cbv [mret st_ret]. unfold guest_virt_addr_new. rewrite Hpg.
    rewrite st_bind_eq, get_cpu_eq. cbv beta iota. rewrite Hsz, Z.mul_1_r. change (Z.to_nat 1) with 1%nat.
    rewrite st_bind_eq, (space_read_bytes_eq this_vm _ _ c v bs) by (done || by destruct Hu). cbv beta iota.
    by rewrite chunks_of_bytes. }
  rewrite st_bind_eq. pose proof (output_bytes (io_port info) v k u bs c Hu) as Ho. rewrite Hr in Ho. cbn [length] in Ho.
  specialize (Ho ltac:(lia)). rewrite Nat.add_0_l in Ho. case_bool_decide; [|destruct Ho as [c1 ->]; by eauto].
  destruct Ho as (c1 & v1 & -> & Hf & Hr1 & Hv1 & Hs1 & _). eexists _, v1. split; [reflexivity|].
  unfold output_frame in *. cbn. destruct_and!. split_and!; try done. by f_equal.
Qed.

(** C13: what a guest prints appears on the console, up to eight bytes at a time.  When a
    guest without paging executes a repeated string output to the port of its UART, in
    transmit mode, the bytes at the instruction's address are read through the page
    tables and pass the device; if they are at most eight they are appended, in order, to
    the console (when the machine has it), the guest continues behind the instruction
    with its count at zero and its pointer advanced, and nothing else of it changes.
    More than eight overflow the response array: the hypervisor panics. *)
Theorem guest_output_reaches_console exit info v k u n c :
  VmExit.info exit = ExitInformation.IoInstruction info ->
  io_string info = true -> io_input info = false -> io_size info = 1 ->
  uart_at (io_port info) v k u c -> rcx (c_cpu c) = Z.of_nat n -> is_u 64 (Z.of_nat n) ->
  let a := vmcs_peek (c_vmcs c) GuestLinearAddress in
  let rip := u64 (vmcs_peek (c_vmcs c) GuestRip + vmcs_peek (c_vmcs c) VmExitInstructionLen) in
  has_bits (vmcs_peek (c_vmcs c) GuestCr0) CR0_ENABLE_PAGING = false -> is_u 64 a ->
  ept_wf (tables (c_host c)) (vm_guest_space v) -> frames_ok (c_host c) (vm_guest_space v) ->
  mapped (c_host c) (vm_guest_space v) a ->
  (forall j, 0 <= j < Z.of_nat n -> mapped (c_host c) (vm_guest_space v) (a + j)) -> writable GuestRip rip ->
  exists bs c' r, handle_vmexit_impl apic ioapics this_core this_vm exit c = (c', r) /\
    length bs = n /\ (forall j, (j < n)%nat -> bs !! j = guest_byte (c_host c) (vm_guest_space v) (a + Z.of_nat j)) /\
    if bool_decide (n <= MAX_EVENT_RESPONSES)%nat then
      r = Ok tt /\ c_console c' = c_console c ++ printed v bs /\ c_vmcs c' = vmcs_store GuestRip rip (c_vmcs c) /\
      c_cpu c' = after_outs n (c_cpu c) /\ c_pending c' = c_pending c /\ c_host c' = c_host c /\
      contexts (c_set c') = contexts (c_set c)
    else r = Panic "insufficient capacity".
Proof.
  intros Hi Hst Hin Hsz Hu Hn Hnu a rip Hpg Ha Hwf Hok Hm0 Hm Hw.
  destruct (read_bytes_spec (c_host c) (vm_guest_space v) (vmcs_peek (c_vmcs c) GuestCr3) (Read 0) a n Ha Hwf Hok Hm0 Hm)
    as (bs & Hr & Hl & Hbs).
  set (c0 := (take_responses c).1).
  assert (uart_at (io_port info) v k u c0) as Hu0 by (by destruct Hu).
  assert (source_bytes v c0 bs) as Hsrc.
  { split; [done|]. cbn. rewrite Hn. unfold u64. rewrite wrap_small, Nat2Z.id by done. exact Hr. }
  pose proof (emulate_outs_uart info v k u bs c0 Hsz Hu0 eq_refl Hsrc) as Ho.
  assert (handle_vmexit_impl apic ioapics this_core this_vm exit c =
    (_ ← emulate_outs this_vm (io_port info) info; _ ← skip_emulated_instruction;
     responses ← take_responses; st_iter (handle_response ioapics this_core this_vm) responses) c0) as ->.
  { unfold handle_vmexit_impl. rewrite st_bind_eq. cbn [take_responses]. rewrite st_bind_eq. unfold handle_exit. rewrite Hi.
    rewrite st_bind_eq. unfold emulate_portio. rewrite Hst, Hin. cbn [negb]. rewrite st_bind_eq.
    change (mkCore _ _ _ _ _ _ _ _ _ _ _ _) with c0. destruct (emulate_outs _ _ _ c0) as [c1 [[]| |]]. all: reflexivity. }
  exists bs. rewrite st_bind_eq. rewrite Hl in Ho. case_bool_decide.
  - destruct Ho as (c1 & v1 & -> & Hf & Hg & Hr1 & Hv1 & Hs1). unfold output_frame in Hf. cbn in Hf. destruct_and!.
    rewrite st_bind_eq. unfold skip_emulated_instruction. rewrite st_bind_eq, read_field_eq. cbv beta iota.
    rewrite st_bind_eq, read_field_eq. cbv beta iota.
    assert (c_vmcs c1 = c_vmcs c) as Hvm by done. rewrite Hvm, write_field_ok by done.
    rewrite st_bind_eq. cbn [take_responses set_vmcs c_responses c_set]. rewrite Hr1.
    erewrite print_responses by exact Hv1. eexists _, _. split; [reflexivity|].
    unfold printed. rewrite Hs1. cbn [set_vmcs set_console c_console c_vmcs c_cpu c_pending c_host c_set].
    rewrite Hvm. split_and!; try done; congruence.
  - destruct Ho as [c1 ->]. eexists _, _. by split.
Qed.
End output.

(** A guest that prints the four bytes across its page boundary at 0x6000. *)
Definition print_devices : list Device := machine_devices 64 (build builder_new).
Definition print_vm : VirtualMachine Device :=
  mkVm 0 [0] 64 (Some 0x3f8) print_devices
    (register_devices (H := @machine_device second_clock linear_entry_address (mkLocalApic 0 1) 0 0)
       0 print_devices device_map_default).1 4096 0 [(0, 0)] 0.
Definition print_core : Core Device reg_file :=
  mkCore (<[field_code VmExitInstructionLen := 2]> (<[field_code GuestLinearAddress := 0x5ffe]> ∅)) None []
    (set_rcx 4 cpu_zero) wheel_new (mkHw 0 []) (mkSet [mkContext 0 0 []] [print_vm]) two_pages ∅ [] [] [].

Lemma guest_output_reaches_console_witness : exists bs c',
  @handle_vmexit_impl Device reg_file (@machine_device second_clock linear_entry_address (mkLocalApic 0 1) 0 0) reg_file_hw
    lenient_cpu plain_cpu linear_entry_address (fun _ _ _ => store_ebx) second_clock (mkLocalApic 0 1) [] 0 0
    (mkExitReason 0 (ExitInformation.IoInstruction (mkIoInstr 1 false true true false 0x3f8))) print_core = (c', Ok tt) /\
  length bs = 4%nat /\ c_console c' = concat (utf8_lossy <$> bs).
Proof.
  destruct two_pages_ok as (Hwf & Hok & Hun & H0 & H1 & H2 & H3).
  destruct (@guest_output_reaches_console reg_file reg_file_hw lenient_cpu plain_cpu linear_entry_address (fun _ _ _ => store_ebx)
    second_clock (mkLocalApic 0 1) [] 0 0 0 (mkExitReason 0 (ExitInformation.IoInstruction (mkIoInstr 1 false true true false 0x3f8)))
    (mkIoInstr 1 false true true false 0x3f8) print_vm 9 (uart_new 0x3f8) 4 print_core)
    as (bs & c' & r & He & Hl & _ & Hr).
  - reflexivity.
  - reflexivity.
  - reflexivity.
  - reflexivity.
  - split; vm_compute; reflexivity.
  - reflexivity.
  - split; [lia|reflexivity].
  - reflexivity.
  - split; [vm_compute; discriminate|vm_compute; reflexivity].
  - exact Hwf.
  - exact Hok.
  - exact H0.
  - intros j Hj. assert (j = 0 \/ j = 1 \/ j = 2 \/ j = 3) as [-> | [-> | [-> | ->]]] by lia;
      [exact H0|exact H1|exact H2|exact H3].
  - split; reflexivity.
  - rewrite bool_decide_true in Hr by (unfold MAX_EVENT_RESPONSES; lia). destruct Hr as (-> & Hc & _).
    exists bs, c'. split; [exact He|]. split; [exact Hl|exact Hc].
Defined.
