(* ===== verification/Console.v ===== *)
(** * The console shared by all cores ([mythril/src/logger.rs])

    Guest output and log records reach the console from every core.  [write_console] and
    the log writer take [LOG_LOCK], mirror each string to the screen and send it byte by
    byte to the serial port.  An execution interleaves the cores at every byte; [core_step]
    is one step of one core. *)

From stdpp Require Import functions pretty relations.
From S2P Require Import Prelude Error BTreeMap Memory VirtDev Clock Apic PhysDev PerCore Calibrate AcpiBuild Logger.

(** ** Log records *)

Section stamp.
Context {PB : PortBus} {HT : HostTsc}.

(** The time since the start, in nanoseconds, once the clock is ready. *)
Definition log_elapsed : st HostTime (option Z) :=
  h ← get;
  if is_global_time_ready h then
    t ← host_now;
    start ← lift (system_start_time h);
    f ← lift (frequency h);
    mret (Some (@instant_diff (Build_TimeSource (fun _ => t) f) t start))
  else mret None.
End stamp.

(** [as_secs] and [subsec_micros] *)
Definition log_stamp (elapsed : option Z) : Z * Z :=
  match elapsed with
  | Some diff => (diff / 1000000000, diff mod 1000000000 / 1000)
  | None => (0, 0)
  end.

Definition decimal (n : Z) : list Z := bytes_of (pretty (Z.to_N n)).
(** [{:>w}] and [{:0w}] *)
Definition pad (fill : Z) (w : nat) (s : list Z) : list Z := replicate (w - length s) fill ++ s.

(** [writeln!(.., "[{:>4}.{:06}] MYTHRIL-{}: {}", ..)] *)
Definition log_line (elapsed : option Z) (level args : list Z) : list Z :=
  let '(stamp_sec, stamp_subsec) := log_stamp elapsed in
  bytes_of "[" ++ pad 0x20 4 (decimal stamp_sec) ++ bytes_of "." ++ pad 0x30 6 (decimal stamp_subsec) ++
  bytes_of "] MYTHRIL-" ++ level ++ bytes_of ": " ++ args ++ [0x0a].

(** ** The console and its users *)

Inductive ConsoleCall :=
| WriteConsole (s : list Z)
| LogRecord (elapsed : option Z) (level args : list Z).

Definition call_bytes (c : ConsoleCall) : list Z :=
  match c with WriteConsole s => s | LogRecord e level args => log_line e level args end.

(** The strings a call hands to [raw_write_console]: [write_console] its argument, a
    formatted record whatever pieces [fmt::write] cuts it into. *)
Definition chunks_of (c : ConsoleCall) (ps : list (list Z)) : Prop :=
  match c with WriteConsole s => ps = [s] | LogRecord _ _ _ => concat ps = call_bytes c end.

(** Where a core is: outside, waiting for the lock, between two strings, or sending. *)
Inductive Task :=
| Idle
| Waiting (c : ConsoleCall) (ps : list (list Z))
| Holding (ps : list (list Z))
| Sending (rest : list Z) (ps : list (list Z)).

(** The shared state, and in what order calls were made and got the lock, and which
    strings were begun. *)
Record Console := mkConsole {
  LOG_LOCK : bool;
  VGA_WRITER : Cursor;
  vga_mem : Screen;
  serial : list Z;                           (** the bytes written to port 0x3f8 *)
  tasks : nat -> Task;
  called : list (nat * ConsoleCall);
  locked : list (nat * ConsoleCall);
  begun : list (list Z)
}.

Definition set_task (i : nat) (t : Task) (s : Console) : Console :=
  mkConsole (LOG_LOCK s) (VGA_WRITER s) (vga_mem s) (serial s) (<[i := t]> (tasks s)) (called s) (locked s) (begun s).

(** A call of [write_console] or [DirectLogger::log] *)
Definition enter (i : nat) (c : ConsoleCall) (ps : list (list Z)) (s : Console) : Console :=
  mkConsole (LOG_LOCK s) (VGA_WRITER s) (vga_mem s) (serial s) (<[i := Waiting c ps]> (tasks s))
    (called s ++ [(i, c)]) (locked s) (begun s).

(** [LOG_LOCK.lock()], when it is free *)
Definition take_lock (i : nat) (c : ConsoleCall) (ps : list (list Z)) (s : Console) : Console :=
  mkConsole true (VGA_WRITER s) (vga_mem s) (serial s) (<[i := Holding ps]> (tasks s)) (called s)
    (locked s ++ [(i, c)]) (begun s).

(** [drop(lock)] *)
Definition drop_lock (i : nat) (s : Console) : Console :=
  mkConsole false (VGA_WRITER s) (vga_mem s) (serial s) (<[i := Idle]> (tasks s)) (called s) (locked s) (begun s).

(** [raw_write_console]: first the mirror, then [rep outsb] *)
Definition mirror (i : nat) (piece : list Z) (ps : list (list Z)) (s : Console) : res Console :=
  '(w, m) ← writer_write piece (VGA_WRITER s) (vga_mem s);
  Ok (mkConsole (LOG_LOCK s) w m (serial s) (<[i := Sending piece ps]> (tasks s)) (called s) (locked s) (begun s ++ [piece])).

Definition outsb (i : nat) (b : Z) (rest : list Z) (ps : list (list Z)) (s : Console) : Console :=
  mkConsole (LOG_LOCK s) (VGA_WRITER s) (vga_mem s) (serial s ++ [b]) (<[i := Sending rest ps]> (tasks s))
    (called s) (locked s) (begun s).

(** The next step of core [i] inside a call; a core that finds the lock taken spins. *)
Definition core_step (i : nat) (s : Console) : res Console :=
  match tasks s i with
  | Idle => Ok s
  | Waiting c ps => Ok (if LOG_LOCK s then s else take_lock i c ps s)
  | Holding [] => Ok (drop_lock i s)
  | Holding (piece :: ps) => mirror i piece ps s
  | Sending [] ps => Ok (set_task i (Holding ps) s)
  | Sending (b :: rest) ps => Ok (outsb i b rest ps s)
  end.

Inductive console_step : Console -> Console -> Prop :=
| step_call i c ps s : tasks s i = Idle -> chunks_of c ps -> console_step s (enter i c ps s)
| step_core i s s' : core_step i s = Ok s' -> console_step s s'.

Definition console_start (m : Screen) : Console := mkConsole false writer_new m [] (fun _ => Idle) [] [] [].

(** ** The invariant *)

Definition bytes_called (l : list (nat * ConsoleCall)) : list Z := concat ((fun x => call_bytes x.2) <$> l).

(** What a core still has to send of the string it is in, and the strings after it; [None]
    while it does not hold the lock. *)
Definition holds (t : Task) : option (list Z * list (list Z)) :=
  match t with Holding ps => Some ([], ps) | Sending rest ps => Some (rest, ps) | _ => None end.

(** The strings shown on the screen so far. *)
Fixpoint mirrored (l : list (list Z)) (w : Cursor) (m : Screen) : res (Cursor * Screen) :=
  match l with
  | [] => Ok (w, m)
  | piece :: r => '(w, m) ← writer_write piece w m; mirrored r w m
  end.

(** The calls of core [i], in order. *)
Definition calls_of (i : nat) (l : list (nat * ConsoleCall)) : list ConsoleCall :=
  snd <$> filter (fun x => x.1 = i) l.

Definition awaited (t : Task) : list ConsoleCall := match t with Waiting c _ => [c] | _ => [] end.

Record console_inv (m0 : Screen) (s : Console) : Prop := {
  ci_screen : mirrored (begun s) writer_new m0 = Ok (VGA_WRITER s, vga_mem s);
  ci_wf : screen_wf (vga_mem s) /\ (cur_col (VGA_WRITER s) < VGA_WIDTH)%nat;
  ci_waiting : forall i c ps, tasks s i = Waiting c ps -> concat ps = call_bytes c;
  ci_order : forall i, calls_of i (called s) = calls_of i (locked s) ++ awaited (tasks s i);
  ci_free : LOG_LOCK s = false ->
    (forall i, holds (tasks s i) = None) /\ concat (begun s) = serial s /\ serial s = bytes_called (locked s);
  ci_held : LOG_LOCK s = true -> exists i c earlier done rest ps,
    holds (tasks s i) = Some (rest, ps) /\ (forall j, j <> i -> holds (tasks s j) = None) /\
    locked s = earlier ++ [(i, c)] /\ serial s = bytes_called earlier ++ done /\
    concat (begun s) = serial s ++ rest /\ done ++ rest ++ concat ps = call_bytes c
}.

Lemma mirrored_snoc l piece w m : mirrored (l ++ [piece]) w m = '(w, m) ← mirrored l w m; writer_write piece w m.
Proof.
  revert w m. induction l as [|p l IH]; intros w m; cbn [mirrored app].
  - cbn. by destruct (writer_write piece w m) as [[]| |].
  - destruct (writer_write p w m) as [[w' m']| |]; cbn [mbind res_bind]; [apply IH|done..].
Qed.

Lemma bytes_called_snoc l x : bytes_called (l ++ [x]) = bytes_called l ++ call_bytes x.2.
Proof. unfold bytes_called. rewrite fmap_app, concat_app. cbn. by rewrite app_nil_r. Qed.

Lemma calls_of_snoc i l j c : calls_of i (l ++ [(j, c)]) = calls_of i l ++ (if decide (j = i) then [c] else []).
Proof.
  unfold calls_of. rewrite filter_app, fmap_app. f_equal.
  destruct (decide (j = i)) as [->|Hne]; [by rewrite filter_cons_True|by rewrite filter_cons_False].
Qed.

Lemma writer_write_wf s w m : screen_wf m -> (cur_col w < VGA_WIDTH)%nat ->
  exists w' m', writer_write s w m = Ok (w', m') /\ screen_wf m' /\ (cur_col w' < VGA_WIDTH)%nat.
Proof.
  intros Hm Hw. unfold writer_write. destruct (_ && _).
  - rewrite clear_vga_spec by done. cbn [mbind res_bind]. apply raw_write_wf; [apply cleared_wf|done].
  - by apply raw_write_wf.
Qed.

(** Updating the task of one core. *)
Lemma task_update (f : nat -> Task) {A} (g : Task -> A) i t : g t = g (f i) -> forall j, g (<[i := t]> f j) = g (f j).
Proof.
  intros Hg j. destruct (decide (i = j)) as [<-|Hne]; [by rewrite fn_lookup_insert|by rewrite fn_lookup_insert_ne].
Qed.

Lemma task_update_ne (f : nat -> Task) i t j : j <> i -> <[i := t]> f j = f j.
Proof. intros Hne. by rewrite fn_lookup_insert_ne. Qed.

Lemma waiting_update (f : nat -> Task) (P : ConsoleCall -> list (list Z) -> Prop) i t :
  (forall j c ps, f j = Waiting c ps -> P c ps) -> (forall c ps, t = Waiting c ps -> P c ps) ->
  forall j c ps, <[i := t]> f j = Waiting c ps -> P c ps.
Proof.
  intros Hf Ht j c ps. destruct (decide (i = j)) as [<-|Hne].
  - rewrite fn_lookup_insert. apply Ht.
  - rewrite fn_lookup_insert_ne by done. apply Hf.
Qed.

Lemma enter_inv m0 i c ps s : console_inv m0 s -> tasks s i = Idle -> chunks_of c ps -> console_inv m0 (enter i c ps s).
Proof.
  intros [Hs Hwf Hw Ho Hf Hh] Hi Hc. unfold enter.
  assert (forall j, holds (<[i := Waiting c ps]> (tasks s) j) = holds (tasks s j)) as Hsame by (apply task_update; by rewrite Hi).
  constructor; cbn [LOG_LOCK VGA_WRITER vga_mem serial tasks called locked begun]; [done..| | | |].
  - apply waiting_update; [done|]. intros c' ps' [= <- <-]. destruct c; cbn in Hc |- *; [|done].
    subst ps. cbn. by rewrite app_nil_r.
  - intros j. rewrite calls_of_snoc, Ho. destruct (decide (i = j)) as [<-|Hne].
    + by rewrite fn_lookup_insert, Hi, app_nil_r.
    + by rewrite fn_lookup_insert_ne, app_nil_r.
  - intros Hl. destruct (Hf Hl) as (Hn & Hrest). split; [|done]. intros j. by rewrite Hsame.
  - intros Hl. destruct (Hh Hl) as (k & c' & e & d & r & ps' & H1 & H2 & Hrest). exists k, c', e, d, r, ps'.
    rewrite Hsame. split; [done|]. split; [|done]. intros j Hj. rewrite Hsame. by apply H2.
Qed.

Lemma take_lock_inv m0 i c ps s :
  console_inv m0 s -> tasks s i = Waiting c ps -> LOG_LOCK s = false -> console_inv m0 (take_lock i c ps s).
Proof.
  intros [Hs Hwf Hw Ho Hf Hh] Hi Hl. destruct (Hf Hl) as (Hn & Hb & Hser). unfold take_lock.
  constructor; cbn [LOG_LOCK VGA_WRITER vga_mem serial tasks called locked begun]; [done..| | |done|].
  - by apply waiting_update.
  - intros j. rewrite calls_of_snoc, Ho. destruct (decide (i = j)) as [<-|Hne].
    + by rewrite fn_lookup_insert, Hi, app_nil_r.
    + by rewrite fn_lookup_insert_ne, app_nil_r.
  - intros _. exists i, c, (locked s), [], [], ps. rewrite fn_lookup_insert, !app_nil_r. split_and!; try done.
    + intros j Hj. by rewrite task_update_ne.
    + by apply (Hw i).
Qed.

(** A step of the holder. *)
Lemma holder_unique m0 s i x : console_inv m0 s -> holds (tasks s i) = Some x ->
  LOG_LOCK s = true /\ exists c earlier done, (forall j, j <> i -> holds (tasks s j) = None) /\
    locked s = earlier ++ [(i, c)] /\ serial s = bytes_called earlier ++ done /\
    concat (begun s) = serial s ++ x.1 /\ done ++ x.1 ++ concat x.2 = call_bytes c.
Proof.
  intros [Hs Hwf Hw Ho Hf Hh] Hi. destruct (LOG_LOCK s) eqn:Hl.
  - split; [done|]. destruct Hh as (k & c & e & d & r & ps & H1 & H2 & H3 & H4 & H5 & H6); [done|].
    destruct (decide (i = k)) as [->|Hne]; [|by rewrite H2 in Hi]. rewrite H1 in Hi. injection Hi as <-.
    by exists c, e, d.
  - destruct Hf as [Hn _]; [done|]. by rewrite Hn in Hi.
Qed.

(** What every step of a holder that stays one keeps. *)
Lemma holder_step_inv m0 s s' i x rest ps sent :
  console_inv m0 s -> holds (tasks s i) = Some x -> LOG_LOCK s' = LOG_LOCK s ->
  called s' = called s -> locked s' = locked s -> (exists t, tasks s' = <[i := t]> (tasks s) /\ holds t = Some (rest, ps)) ->
  mirrored (begun s') writer_new m0 = Ok (VGA_WRITER s', vga_mem s') ->
  screen_wf (vga_mem s') /\ (cur_col (VGA_WRITER s') < VGA_WIDTH)%nat ->
  serial s' = serial s ++ sent -> concat (begun s') = serial s' ++ rest ->
  x.1 ++ concat x.2 = sent ++ rest ++ concat ps -> console_inv m0 s'.
Proof.
  intros Hinv Hi El Ec Ek (t & Et & Ht) Hm Hwf Eser Hb Hx.
  destruct (holder_unique _ _ _ _ Hinv Hi) as (Hl & c & e & d & Hothers & H3 & H4 & H5 & H6).
  destruct Hinv as [_ _ Hw Ho _ _]. constructor; rewrite ?Et, ?Ec, ?Ek, ?El; [done..| | | |].
  - apply waiting_update; [done|]. by intros c' ps' ->.
  - intros j. rewrite Ho. f_equal. symmetry. apply (task_update _ awaited).
    destruct t, (tasks s i); done.
  - by rewrite Hl.
  - intros _. exists i, c, e, (d ++ sent), rest, ps. rewrite fn_lookup_insert. split_and!; try done.
    + intros j Hj. rewrite task_update_ne by done. by apply Hothers.
    + by rewrite Eser, H4, app_assoc.
    + rewrite <- app_assoc, <- Hx. done.
Qed.

Lemma drop_lock_inv m0 i s : console_inv m0 s -> tasks s i = Holding [] -> console_inv m0 (drop_lock i s).
Proof.
  intros Hinv Hi. destruct (holder_unique m0 s i ([], []) Hinv) as (Hl & c & e & d & Hothers & H3 & H4 & H5 & H6);
    [by rewrite Hi|]. cbn in H5, H6. rewrite !app_nil_r in *. subst d.
  destruct Hinv as [Hs Hwf Hw Ho _ _]. unfold drop_lock.
  constructor; cbn [LOG_LOCK VGA_WRITER vga_mem serial tasks called locked begun]; [done..| | | |done].
  - by apply waiting_update.
  - intros j. rewrite Ho. f_equal. symmetry. apply (task_update _ awaited). by rewrite Hi.
  - intros _. split_and!.
    + intros j. destruct (decide (i = j)) as [<-|Hne]; [by rewrite fn_lookup_insert|].
      rewrite task_update_ne by done. by apply Hothers.
    + done.
    + by rewrite H4, H3, bytes_called_snoc.
Qed.

Lemma mirror_inv m0 i piece ps s : console_inv m0 s -> tasks s i = Holding (piece :: ps) ->
  exists s', mirror i piece ps s = Ok s' /\ console_inv m0 s'.
Proof.
  intros Hinv Hi. pose proof Hinv as [Hs [Hm Hc] _ _ _ _].
  destruct (writer_write_wf piece _ _ Hm Hc) as (w & m & He & Hm' & Hc'). unfold mirror. rewrite He.
  cbn [mbind res_bind]. eexists. split; [reflexivity|].
  destruct (holder_unique m0 s i ([], piece :: ps) Hinv) as (_ & c & e & d & _ & _ & _ & H5 & _); [by rewrite Hi|].
  cbn in H5. rewrite app_nil_r in H5.
  eapply (holder_step_inv m0 s _ i ([], piece :: ps) piece ps []); eauto; cbn; rewrite ?app_nil_r; try done.
  - by rewrite Hi.
  - rewrite mirrored_snoc, Hs. done.
  - rewrite concat_app, H5. cbn. by rewrite app_nil_r.
Qed.

(** No step of a core fails, and every one keeps the invariant. *)
Lemma core_step_inv m0 i s : console_inv m0 s -> exists s', core_step i s = Ok s' /\ console_inv m0 s'.
Proof.
  intros Hinv. unfold core_step. pose proof Hinv as [Hs Hwf _ _ _ _].
  destruct (tasks s i) as [|c ps|[|piece ps]|[|b rest] ps] eqn:Hi; [by eauto| | | | |].
  - destruct (LOG_LOCK s) eqn:Hl; [by eauto|]. eauto using take_lock_inv.
  - eauto using drop_lock_inv.
  - by apply mirror_inv.
  - eexists. split; [done|].
    destruct (holder_unique m0 s i ([], ps) Hinv) as (_ & c & e & d & _ & _ & _ & H5 & _); [by rewrite Hi|].
    eapply (holder_step_inv m0 s _ i ([], ps) [] ps []); eauto; cbn; rewrite ?app_nil_r; try done.
    by rewrite Hi.
  - eexists. split; [done|].
    destruct (holder_unique m0 s i (b :: rest, ps) Hinv) as (_ & c & e & d & _ & _ & _ & H5 & _); [by rewrite Hi|].
    eapply (holder_step_inv m0 s _ i (b :: rest, ps) rest ps [b]); eauto; cbn; try done.
    + by rewrite Hi.
    + by rewrite H5, <- app_assoc.
Qed.

Lemma console_step_inv m0 s s' : console_inv m0 s -> console_step s s' -> console_inv m0 s'.
Proof.
  intros Hinv Hstep. destruct Hstep as [i c ps s Hi Hc|i s s' Hs]; [by apply enter_inv|].
  destruct (core_step_inv m0 i s Hinv) as (s'' & Hs'' & ?). congruence.
Qed.

Lemma console_reach_inv m0 s s' : console_inv m0 s -> rtc console_step s s' -> console_inv m0 s'.
Proof. intros Hinv Hr. induction Hr; eauto using console_step_inv. Qed.

Lemma start_inv m : screen_wf m -> console_inv m (console_start m).
Proof.
  intros Hm. constructor; cbn; try done.
  - split; [done|]. unfold VGA_WIDTH. cbn. lia.
Qed.

(** ** Progress *)

(** How many steps a holder needs to release the lock. *)
Definition work (t : Task) : nat :=
  match t with
  | Holding ps => 1 + sum_list_with (fun p => length p + 2) ps
  | Sending rest ps => length rest + 2 + sum_list_with (fun p => length p + 2) ps
  | _ => 0
  end%nat.

Fixpoint run_core (n : nat) (i : nat) (s : Console) : res Console :=
  match n with O => Ok s | S n => s ← core_step i s; run_core n i s end.

Lemma holder_releases m0 i n s : console_inv m0 s -> is_Some (holds (tasks s i)) -> work (tasks s i) = n ->
  exists s', run_core n i s = Ok s' /\ LOG_LOCK s' = false /\ tasks s' i = Idle /\ locked s' = locked s.
Proof.
  revert s. induction n as [|n IH]; intros s Hinv Hh Hn.
  { destruct (tasks s i); cbn in *; [by destruct Hh..|lia|lia]. }
  cbn [run_core]. destruct (core_step_inv m0 i s Hinv) as (s' & Hs & Hinv'). rewrite Hs. cbn [mbind res_bind].
  unfold core_step in Hs.
  destruct (tasks s i) as [|c ps|[|piece ps]|[|b rest] ps] eqn:Hi; cbn in Hh, Hn; try (by destruct Hh).
  - injection Hs as <-. assert (n = 0)%nat as -> by lia. eexists. split; [reflexivity|].
    cbn. by rewrite fn_lookup_insert.
  - unfold mirror in Hs. apply bind_Ok in Hs as ([w m] & _ & [= <-]).
    destruct (IH _ Hinv') as (s'' & ? & ? & ? & ?); cbn; rewrite ?fn_lookup_insert; [by eauto|cbn; lia|by eauto].
  - injection Hs as <-.
    destruct (IH _ Hinv') as (s'' & ? & ? & ? & ?); cbn; rewrite ?fn_lookup_insert; [by eauto|cbn; lia|by eauto].
  - injection Hs as <-.
    destruct (IH _ Hinv') as (s'' & ? & ? & ? & ?); cbn; rewrite ?fn_lookup_insert; [by eauto|cbn; lia|by eauto].
Qed.

(** The cores of [l], one step each. *)
Fixpoint run_cores (l : list nat) (s : Console) : res Console :=
  match l with [] => Ok s | i :: l => s ← core_step i s; run_cores l s end.

Lemma run_cores_reach l s s' : run_cores l s = Ok s' -> rtc console_step s s'.
Proof.
  revert s. induction l as [|i l IH]; intros s Hr; cbn [run_cores] in Hr; [injection Hr as ->; apply rtc_refl|].
  apply bind_Ok in Hr as (s1 & H1 & Hr). eapply rtc_l; [by eapply step_core|by apply IH].
Qed.

(** C39: console messages are whole.  Under every interleaving of cores that log and of
    guests that print, byte by byte, what the serial port has received is the messages
    in the order their writers took the lock, each complete, followed by a beginning of
    the message of the one core that holds the lock.  Every core's messages appear in
    the order it issued them and none is lost; the screen shows the same strings; no
    step fails, and a holder always comes to release the lock. *)
Theorem console_messages_whole m s :
  screen_wf m -> rtc console_step (console_start m) s ->
  (LOG_LOCK s = false -> serial s = bytes_called (locked s)) /\
  (LOG_LOCK s = true -> exists i c earlier done rest,
     locked s = earlier ++ [(i, c)] /\ serial s = bytes_called earlier ++ done /\ call_bytes c = done ++ rest /\
     forall j, j <> i -> holds (tasks s j) = None) /\
  (forall i, calls_of i (called s) = calls_of i (locked s) ++ awaited (tasks s i)) /\
  (mirrored (begun s) writer_new m = Ok (VGA_WRITER s, vga_mem s) /\ serial s `prefix_of` concat (begun s)) /\
  (forall i, exists s', core_step i s = Ok s') /\
  (forall i, is_Some (holds (tasks s i)) ->
     exists s', run_core (work (tasks s i)) i s = Ok s' /\ LOG_LOCK s' = false /\ locked s' = locked s).
Proof.
  intros Hm Hr. pose proof (console_reach_inv m _ _ (start_inv m Hm) Hr) as Hinv.
  pose proof Hinv as [Hs Hwf Hw Ho Hf Hh]. split_and!; [by apply Hf| |done|done| | |].
  - intros Hl. destruct (Hh Hl) as (i & c & e & d & r & ps & _ & H2 & H3 & H4 & _ & H6).
    exists i, c, e, d, (r ++ concat ps). by rewrite H6.
  - destruct (LOG_LOCK s).
    + destruct Hh as (i & c & e & d & r & ps & _ & _ & _ & _ & -> & _); [done|]. by exists r.
    + destruct Hf as (_ & -> & _); done.
  - intros i. destruct (core_step_inv m i s Hinv) as (s' & ? & _). by exists s'.
  - intros i Hi. destruct (holder_releases m i _ s Hinv Hi eq_refl) as (s' & ? & ? & _ & ?). by exists s'.
Qed.

(** Core 0 prints a guest's bytes while core 1 logs: the log record waits. *)
Definition two_writers : Console :=
  enter 1 (LogRecord (Some 1500000) (bytes_of "INFO") (bytes_of "up"))
    [bytes_of "[   0.001500] MYTHRIL-"; bytes_of "INFO"; bytes_of ": up"; [0x0a]]
    (enter 0 (WriteConsole (bytes_of "hi")) [bytes_of "hi"] (console_start (replicate VGA_HEIGHT blank_line))).

Lemma two_writers_reach : rtc console_step (console_start (replicate VGA_HEIGHT blank_line)) two_writers.
Proof.
  eapply rtc_l; [apply (step_call 0 (WriteConsole (bytes_of "hi")) [bytes_of "hi"]); [reflexivity|exact eq_refl]|].
  eapply rtc_once, step_call; [reflexivity|]. vm_compute. reflexivity.
Qed.

Lemma console_messages_whole_witness : exists s,
  run_cores ([0; 1; 0; 1; 0; 1; 0; 0; 0; 0] ++ replicate 9 1)%nat two_writers = Ok s /\
  serial s = bytes_of "hi" ++ bytes_of "[   0.0" /\
  exists i c earlier done rest, locked s = earlier ++ [(i, c)] /\ serial s = bytes_called earlier ++ done /\
    call_bytes c = done ++ rest.
Proof.
  set (r := run_cores _ _).
  assert (match r with Ok s => serial s = bytes_of "hi" ++ bytes_of "[   0.0" /\ LOG_LOCK s = true | _ => False end) as Hr
    by (vm_compute; split; reflexivity).
  destruct r as [s| |] eqn:E; [|destruct Hr..]. destruct Hr as [Hser Hlock]. exists s. split; [exact eq_refl|]. split; [exact Hser|].
  destruct (console_messages_whole (replicate VGA_HEIGHT blank_line) s) as (_ & Hl & _).
  - apply cleared_wf.
  - etrans; [apply two_writers_reach|]. eapply run_cores_reach. exact E.
  - destruct (Hl Hlock) as (i & c & e & d & rest & H1 & H2 & H3 & _). exists i, c, e, d, rest.
    split; [exact H1|]. split; [exact H2|exact H3].
Defined.
