(* ===== verification/Format.v ===== *)
(** * Text the hypervisor prints

    The hand-written [Display] and [Debug] implementations ([virtdev/mod.rs], [vmcs.rs],
    [acpi/*.rs], [ioapic.rs]) and the panic handler ([error.rs]).  [fill] interprets a
    format string as [format_args!] does for the specifications the code uses. *)

From S2P Require Import Prelude Error BTreeMap Memory VirtDev IoApic Vmcs Acpi Madt Fadt AcpiBuild Logger Console.

(** ** Format strings *)

Definition hex_digit (d : Z) : Z := if d <? 10 then 0x30 + d else 0x61 + (d - 10).

Fixpoint hex_digits (fuel : nat) (n : Z) (acc : list Z) : list Z :=
  match fuel with
  | O => acc
  | S fuel =>
      let acc := hex_digit (n mod 16) :: acc in
      if n <? 16 then acc else hex_digits fuel (n / 16) acc
  end.

(** [{:x}] of an unsigned number; 16 digits are enough for a [u64]. *)
Definition hex (n : Z) : list Z := hex_digits 16 n [].

Inductive arg :=
| Int (n : Z)
| Text (s : list Z)
| Slice (l : list Z).

(** The items of a slice in the debug format. *)
Fixpoint comma_separated (l : list (list Z)) : list Z :=
  match l with
  | [] => []
  | [x] => x
  | x :: r => x ++ bytes_of ", " ++ comma_separated r
  end.

Definition format_arg (spec : list Z) (a : arg) : list Z :=
  match a with
  | Int n =>
      if bool_decide (spec = bytes_of ":x") then hex n
      else if bool_decide (spec = bytes_of ":p") then bytes_of "0x" ++ hex n
      else decimal n
  | Text s => s
  | Slice l =>
      bytes_of "[" ++ comma_separated ((if bool_decide (spec = bytes_of ":02x?") then fun n => pad 0x30 2 (hex n) else decimal) <$> l) ++
      bytes_of "]"
  end.

(** The text of a format string; [spec] is the specification read so far inside braces. *)
Fixpoint fill (spec : option (list Z)) (t : list Z) (args : list arg) : list Z :=
  match t, spec with
  | [], _ => []
  | c :: t, None => if c =? 0x7b then fill (Some []) t args else c :: fill None t args
  | c :: t, Some s =>
      if c =? 0x7d then
        match args with
        | a :: args => format_arg s a ++ fill None t args
        | [] => []
        end
      else fill (Some (s ++ [c])) t args
  end.

Definition format (t : string) (args : list arg) : list Z := fill None (bytes_of t) args.

(** ** Device requests *)

Definition display_port_read (r : PortReadRequest.t) : list Z :=
  match r with
  | PortReadRequest.OneByte a => format "PortReadRequest([0x{:x}])" [Int a]
  | PortReadRequest.TwoBytes a b => format "PortReadRequest([0x{:x}, 0x{:x}])" [Int a; Int b]
  | PortReadRequest.FourBytes a b c d =>
      format "PortReadRequest([0x{:x}, 0x{:x}, 0x{:x}, 0x{:x}])" [Int a; Int b; Int c; Int d]
  end.

Definition display_port_write (r : PortWriteRequest.t) : list Z :=
  match r with
  | PortWriteRequest.OneByte a => format "PortWriteRequest([0x{:x}])" [Int a]
  | PortWriteRequest.TwoBytes a b => format "PortWriteRequest([0x{:x}, 0x{:x}])" [Int a; Int b]
  | PortWriteRequest.FourBytes a b c d =>
      format "PortWriteRequest([0x{:x}, 0x{:x}, 0x{:x}, 0x{:x}])" [Int a; Int b; Int c; Int d]
  end.

Definition display_mem_write (data : list Z) : list Z := format "MemWriteRequest({:?})" [Slice data].
Definition display_mem_read (data : list Z) : list Z := format "MemReadRequest({:?})" [Slice data].
(** [debug_struct] with one field *)
Definition debug_mem_write (data : list Z) : list Z :=
  bytes_of "MemWriteRequest { data: " ++ format "{:02x?}" [Slice data] ++ bytes_of " }".

(** ** The current VMCS *)

(** The text goes to a formatter beside the fields it is read from. *)
Notation Dump := (st (VmcsState * list Z)).

Definition on_dump {A} (m : st VmcsState A) : Dump A := fun s =>
  let '(v, r) := m s.1 in ((v, s.2), r).

Fixpoint read_all (fields : list VmcsField) : Dump (list arg) :=
  match fields with
  | [] => mret []
  | f :: r => x ← on_dump (vmcs_read f); xs ← read_all r; mret (Int x :: xs)
  end.

(** [write!(f, t, read_field(..)?, ..)?]: the arguments are read before anything is
    written. *)
Definition write (t : string) (fields : list VmcsField) : Dump unit :=
  args ← read_all fields;
  modify (fun s => (s.1, s.2 ++ format t args)).

Definition display_vmcs : Dump unit :=
  _ ← write "VMCS:
" [];
  _ ← write " Guest State:
" [];
  _ ← write "  CR0=0x{:x}(shadow=0x{:x}) " [GuestCr0; Cr0ReadShadow];
  _ ← write "CR3=0x{:x} " [GuestCr3];
  _ ← write "CR4=0x{:x}(shadow=0x{:x})
" [GuestCr4; Cr4ReadShadow];
  _ ← write "  EFER=0x{:x}
" [GuestIa32Efer];
  _ ← write "  RSP=0x{:x} " [GuestRsp];
  _ ← write "RIP=0x{:x}
" [GuestRip];
  _ ← write "  RFLAGS=0x{:x} " [GuestRflags];
  _ ← write "DR7=0x{:x}
" [GuestDr7];
  _ ← write "  CS: " [];
  _ ← write "selector=0x{:x} base=0x{:x} limit=0x{:x} ar=0x{:x}
" [GuestCsSelector; GuestCsBase; GuestCsLimit; GuestCsArBytes];
  _ ← write "  DS: " [];
  _ ← write "selector=0x{:x} base=0x{:x} limit=0x{:x} ar=0x{:x}
" [GuestDsSelector; GuestDsBase; GuestDsLimit; GuestDsArBytes];
  _ ← write "  SS: " [];
  _ ← write "selector=0x{:x} base=0x{:x} limit=0x{:x} ar=0x{:x}
" [GuestSsSelector; GuestSsBase; GuestSsLimit; GuestSsArBytes];
  _ ← write "  ES: " [];
  _ ← write "selector=0x{:x} base=0x{:x} limit=0x{:x} ar=0x{:x}
" [GuestEsSelector; GuestEsBase; GuestEsLimit; GuestEsArBytes];
  _ ← write "  FS: " [];
  _ ← write "selector=0x{:x} base=0x{:x} limit=0x{:x} ar=0x{:x}
" [GuestFsSelector; GuestFsBase; GuestFsLimit; GuestFsArBytes];
  _ ← write "  GS: " [];
  _ ← write "selector=0x{:x} base=0x{:x} limit=0x{:x} ar=0x{:x}
" [GuestGsSelector; GuestGsBase; GuestGsLimit; GuestGsArBytes];
  _ ← write "  LDTR: " [];
  _ ← write "selector=0x{:x} base=0x{:x} limit=0x{:x} ar=0x{:x}
" [GuestLdtrSelector; GuestLdtrBase; GuestLdtrLimit; GuestLdtrArBytes];
  _ ← write "  GDTR: " [];
  _ ← write "base=0x{:x} limit=0x{:x}
" [GuestGdtrBase; GuestGdtrLimit];
  _ ← write "  IDTR: " [];
  write "base=0x{:x} limit=0x{:x}
" [GuestIdtrBase; GuestIdtrLimit].

(** ** Tables and controllers *)

(** [ptr] is where the slice of the table lies. *)
Definition debug_sdt (ptr : Z) (s : SDT) : res (list Z) :=
  if utf8_valid (signature s) then
    Ok (format "{}: rev={} length={} table={:p}" [Text (signature s); Int (revision s); Int (sdt_length s); Int ptr])
  else Panic "called `Result::unwrap()` on an `Err` value".

Definition debug_rsdt (ptr : Z) (r : RSDT) : res (list Z) :=
  match r with RsdtTable s | XsdtTable s => debug_sdt ptr s end.

Definition debug_rsdp (r : RSDP) : list Z :=
  match r with
  | RsdpV1 _ rsdt_addr => format "RSDP: revision=1.0 rsdt=0x{:x}" [Int rsdt_addr]
  | RsdpV2 _ xsdt_addr => format "RSDP: revision=2.0 xsdt_addr=0x{:x}" [Int xsdt_addr]
  end.

Definition debug_hpet (ptr : Z) (s : SDT) (h : HPET) : res (list Z) :=
  t ← debug_sdt ptr s;
  Ok (t ++ format " HPET address=0x{:x}" [Int (gas_address (hpet_address h))]).

Definition debug_madt (ptr : Z) (s : SDT) (m : MADT) : res (list Z) :=
  t ← debug_sdt ptr s;
  Ok (t ++ format " ICA={:p} flags=0x{:x}" [Int (ica m); Int (madt_flags m)]).

Definition debug_ioapic {H} `{IoApicHw H} (a : IoApic) : st H (list Z) :=
  id ← ioapic_id a;
  v ← version a;
  mret (format "IOAPIC: id: {} version: 0x{:x} address: {:p} GSI: {}" [Int id; Int v; Int (ioapic_addr a); Int (gsi_base a)]).

(** ** Panics *)

(** What [panic_handler] logs before it halts the core: where, and the message. *)
Definition panic_handler (elapsed : option Z) (location : option (list Z * Z * Z)) (message : option (list Z)) : list ConsoleCall :=
  match location with
  | Some (file, line, column) =>
      LogRecord elapsed (bytes_of "ERROR") (format "Panic in {} at ({}, {}):" [Text file; Int line; Int column]) ::
      match message with Some m => [LogRecord elapsed (bytes_of "ERROR") (format "{}" [Text m])] | None => [] end
  | None => []
  end.

(** ** Reading the text back *)

(** The value of a digit. *)
Definition digit_of (c : Z) : option Z :=
  if (0x30 <=? c) && (c <=? 0x39) then Some (c - 0x30)
  else if (0x61 <=? c) && (c <=? 0x66) then Some (c - 0x61 + 10)
  else None.

(** The numbers written with [0x] in a text; [n] is the number read so far. *)
Fixpoint numbers (n : option Z) (t : list Z) : list Z :=
  match n, t with
  | None, [] => []
  | None, c :: r =>
      match r with
      | 0x78 :: r' => if c =? 0x30 then numbers (Some 0) r' else numbers None r
      | _ => numbers None r
      end
  | Some n, [] => [n]
  | Some n, c :: r =>
      match digit_of c with
      | Some d => numbers (Some (16 * n + d)) r
      | None => n :: numbers None r
      end
  end.

Lemma digit_of_hex d : 0 <= d < 16 -> digit_of (hex_digit d) = Some d.
Proof.
  intros Hd. assert (d ∈ seqZ 0 16) as Hin by (apply elem_of_seqZ; lia).
  repeat (apply elem_of_cons in Hin as [->|Hin]; [reflexivity|]). by apply not_elem_of_nil in Hin.
Qed.

Lemma hex_digits_app fuel n acc rest : hex_digits fuel n acc ++ rest = hex_digits fuel n (acc ++ rest).
Proof. revert n acc. induction fuel as [|fuel IH]; intros n acc; [done|]. cbn. destruct (_ <? _); [done|]. apply IH. Qed.

Lemma numbers_digits fuel n acc : 0 <= n < 16 ^ Z.of_nat fuel -> (0 < fuel)%nat ->
  numbers (Some 0) (hex_digits fuel n acc) = numbers (Some n) acc.
Proof.
  revert n acc. induction fuel as [|fuel IH]; intros n acc Hn Hf; [lia|]. cbn [hex_digits].
  assert (0 <= n mod 16 < 16) by (by apply Z.mod_pos_bound). destruct (n <? 16) eqn:E.
  - cbn [numbers]. rewrite digit_of_hex by done. rewrite Z.mod_small by lia. done.
  - rewrite Nat2Z.inj_succ, Z.pow_succ_r in Hn by lia. destruct fuel as [|fuel]; [cbn in Hn; lia|]. rewrite IH.
    + cbn [numbers]. rewrite digit_of_hex by done. by rewrite <- Z.div_mod.
    + split; [apply Z.div_pos; lia|]. apply Z.div_lt_upper_bound; lia.
    + lia.
Qed.

(** A number printed in hexadecimal is read back. *)
Lemma numbers_hex n c rest : is_u 64 n -> digit_of c = None -> numbers (Some 0) (hex n ++ c :: rest) = n :: numbers None rest.
Proof.
  intros Hn Hc. unfold hex. rewrite hex_digits_app. rewrite numbers_digits; [cbn; by rewrite Hc|exact Hn|lia].
Qed.

(** Read the numbers of a text whose literal parts are known. *)
Ltac read_numbers :=
  cbv -[hex app numbers];
  repeat (cbn [numbers app Z.eqb Pos.eqb]; rewrite <- ?app_assoc; cbn [app]; rewrite numbers_hex; [f_equal|by auto|done]); cbn [numbers app Z.eqb Pos.eqb]; try done.

(** The bytes of a request can be read off its text. *)
Lemma port_write_text r : Forall is_byte (PortWriteRequest.as_slice r) ->
  numbers None (display_port_write r) = PortWriteRequest.as_slice r.
Proof.
  assert (forall b, is_byte b -> is_u 64 b) as Hb by (unfold is_byte, is_u; intros; lia).
  destruct r; cbn [PortWriteRequest.as_slice]; intros Hr; repeat (apply Forall_cons in Hr as [? Hr]); read_numbers.
Qed.

Lemma read_all_eq fields v t : read_all fields (v, t) = ((v, t), Ok ((fun f => Int (vmcs_peek v f)) <$> fields)).
Proof. induction fields as [|f r IH]; [done|]. cbn [read_all]. rewrite !st_bind_eq. unfold on_dump, vmcs_read. cbn [fst snd]. by rewrite st_bind_eq, IH. Qed.

Lemma write_eq t fields v s : write t fields (v, s) = ((v, s ++ format t ((fun f => Int (vmcs_peek v f)) <$> fields)), Ok tt).
Proof. unfold write. by rewrite st_bind_eq, read_all_eq. Qed.

(** The fields of the dump, in its order. *)
Definition dump_fields : list VmcsField := [
  GuestCr0; Cr0ReadShadow; GuestCr3; GuestCr4; Cr4ReadShadow; GuestIa32Efer; GuestRsp; GuestRip; GuestRflags; GuestDr7;
  GuestCsSelector; GuestCsBase; GuestCsLimit; GuestCsArBytes; GuestDsSelector; GuestDsBase; GuestDsLimit; GuestDsArBytes;
  GuestSsSelector; GuestSsBase; GuestSsLimit; GuestSsArBytes; GuestEsSelector; GuestEsBase; GuestEsLimit; GuestEsArBytes;
  GuestFsSelector; GuestFsBase; GuestFsLimit; GuestFsArBytes; GuestGsSelector; GuestGsBase; GuestGsLimit; GuestGsArBytes;
  GuestLdtrSelector; GuestLdtrBase; GuestLdtrLimit; GuestLdtrArBytes; GuestGdtrBase; GuestGdtrLimit; GuestIdtrBase; GuestIdtrLimit].

(** The dump of a VMCS is complete and readable: it is printed without an error, changes
    no field, and the value of each of the 42 fields can be read off it. *)
Lemma vmcs_dump_roundtrip v t : (forall f, is_u 64 (vmcs_peek v f)) ->
  exists dump, display_vmcs (v, t) = ((v, t ++ dump), Ok tt) /\ numbers None dump = vmcs_peek v <$> dump_fields.
Proof.
  intros Hv. eexists. split.
  - unfold display_vmcs. do 27 (rewrite st_bind_eq, write_eq). rewrite write_eq, <- !app_assoc. reflexivity.
  - revert Hv. generalize (vmcs_peek v) as p. intros p Hp. read_numbers.
Qed.
