(* ===== verification/Kmain.v ===== *)
(** * The boot processor's way from the boot information to the machines
    ([kmain] of [mythril/src/kmain.rs])

    [kmain] composes the initialisation of all components.  Its state is the part of the
    hardware and of the globals each of them works on; the parser of the configuration
    is a parameter. *)

From S2P Require Import Prelude Error BTreeMap Memory GuestMemory VirtDev IoApic Clock Apic Timers Vm VmMemory Acpi Madt Linux PhysDev PerCore Calibrate Boot Machine Start Idt.

(** [UserConfig] *)
Record UserConfig := mkUserConfig { user_version : Z; user_vms : list UserVmConfig }.

(** [CoreIdVisitor::visit_u64] *)
Definition visit_core_id (value : Z) : Z := u32 value.

Record Kernel {PB : PortBus} {H : Type} := mkKernel {
  k_idt : list IdtEntry;
  k_time : HostTime;
  k_percore : PerCore;
  k_apic : ApicCore;
  k_io : H;
  k_ioapics : list IoApic;
  k_set : VirtualMachineSet Device;
  k_host : Host
}.
Arguments Kernel {PB} H.
Arguments mkKernel {PB H} _ _ _ _ _ _ _ _.

Section kmain.
Context {PB : PortBus} {HT : HostTsc} {LY : PerCoreLayout} {AC : ApicCpu} {FH : FaultHandlers}.
Context {H : Type} `{HW : IoApicHw H} `{HA : HostAlloc} `{GP : GuestPaging}.
(** The readings of the calibrated clock, the configuration parser, the firmware blobs,
    the pages of the static APIC page array, the memory the boot loader left, and where
    the allocator puts the per-core sections. *)
Context (readings : nat -> Z) (parse_config : list Z -> option UserConfig).
Context (bios linuxboot_dma_rom : list Z) (apic_page : nat -> Z) (mem : Z -> Z) (vec : Z).
Notation Kernel := (Kernel H).
Notation M := (st Kernel).

Definition on_time {A} (m : st HostTime A) : M A := fun k =>
  let '(x, r) := m (k_time k) in
  (mkKernel (k_idt k) x (k_percore k) (k_apic k) (k_io k) (k_ioapics k) (k_set k) (k_host k), r).
Definition on_percore {A} (m : st PerCore A) : M A := fun k =>
  let '(x, r) := m (k_percore k) in
  (mkKernel (k_idt k) (k_time k) x (k_apic k) (k_io k) (k_ioapics k) (k_set k) (k_host k), r).
Definition on_apic {A} (m : st ApicCore A) : M A := fun k =>
  let '(x, r) := m (k_apic k) in
  (mkKernel (k_idt k) (k_time k) (k_percore k) x (k_io k) (k_ioapics k) (k_set k) (k_host k), r).
Definition on_io {A} (m : st H A) : M A := fun k =>
  let '(x, r) := m (k_io k) in
  (mkKernel (k_idt k) (k_time k) (k_percore k) (k_apic k) x (k_ioapics k) (k_set k) (k_host k), r).
Definition on_machines {A} (m : st (VirtualMachineSet Device * Host) A) : M A := fun k =>
  let '((s, h), r) := m (k_set k, k_host k) in
  (mkKernel (k_idt k) (k_time k) (k_percore k) (k_apic k) (k_io k) (k_ioapics k) s h, r).

(** The global time source after its calibration. *)
Definition time_source (k : Kernel) : res TimeSource :=
  f ← frequency (k_time k); Ok (Build_TimeSource readings f).

(** [kmain] up to its loop over the processors: the processors it is going to start.  The
    structures of the MADT are collected to their end: when they do not end within [fuel] items there is
    no result, as there is none in the code for a table at which the iterator stays. *)
Definition kmain_setup (fuel : nat) (info : BootInfo) : M (list (Z * Z)) :=
  _ ← modify (fun k => mkKernel (idt_init (k_idt k)) (k_time k) (k_percore k) (k_apic k) (k_io k) (k_ioapics k)
        (k_set k) (k_host k));
  _ ← on_time (st_expect (init_global_time fuel) "Failed to init global timesource");
  madt ← lift (kmain_madt mem info);
  structures ← lift (expect (ics_collect fuel (ics madt)) "out of fuel");
  let apic_ids := apic_ids_of structures in
  _ ← on_percore (st_expect (init_sections 0 vec (Z.of_nat (length apic_ids)))
        "Failed to initialize per-core sections");
  k ← get;
  ts ← lift (time_source k);
  local_apic ← on_apic (st_expect (@local_apic_init ts AC fuel) "Failed to initialize local APIC");
  ioapics ← on_io (st_expect (init_ioapics structures []) "Failed to initialize IOAPICs");
  _ ← modify (fun k => mkKernel (k_idt k) (k_time k) (k_percore k) (k_apic k) (k_io k) ioapics (k_set k) (k_host k));
  _ ← on_io (st_expect (map_gsi_vector ioapics gsi_UART vector_UART 0) "Failed to map com0 gsi");
  raw_cfg ← lift (kmain_config mem info);
  cfg ← lift (expect (parse_config raw_cfg) "Failed to parse 'mythril.cfg'");
  k ← get;
  start ← lift (system_start_time (k_time k));
  _ ← on_machines (st_expect (@init_virtual_machines HA ts GP local_apic 0 start bios linuxboot_dma_rom
        (boot_module mem <$> boot_modules info) apic_page 0 (user_vms cfg))
        "Failed to initialize early virtual machine state");
  local_id ← on_apic (on_hw apic_id);
  k ← get;
  mret (ap_targets local_id (is_assigned_core_id (k_set k)) apic_ids).

(** The end of [kmain]: whether the boot processor runs a guest itself *)
Definition kmain_bsp : M bool :=
  bsp_core_id ← on_percore (read_core_id 0);
  k ← get;
  mret (is_assigned_core_id (k_set k) bsp_core_id).
End kmain.

(** ** The machines in the set *)

(** The contexts of machines numbered from [n]. *)
Fixpoint machine_contexts (n : nat) (cfgs : list UserVmConfig) : list VmContext :=
  match cfgs with
  | [] => []
  | cfg :: r => map (fun cpu => mkContext cpu n []) (user_cpus cfg) ++ machine_contexts (S n) r
  end.

Section machines.
Context `{HA : HostAlloc} `{TS : TimeSource} `{GP : GuestPaging}.
Context (apic : LocalApic) (this_core start : Z).
Context (bios linuxboot_dma_rom : list Z) (modules : list BootModule) (apic_page : nat -> Z).
Notation add_machine := (add_machine apic this_core start bios linuxboot_dma_rom modules apic_page).
Notation init := (init_virtual_machines apic this_core start bios linuxboot_dma_rom modules apic_page).

Lemma add_machine_Ok idx cfg s h s' h' : add_machine idx cfg (s, h) = ((s', h'), Ok tt) ->
  contexts s' = contexts s ++ map (fun cpu => mkContext cpu (length (vms s)) []) (user_cpus cfg) /\
  vm_cpus <$> vms s' = (vm_cpus <$> vms s) ++ [user_cpus cfg].
Proof.
  unfold Machine.add_machine. destruct (build_vm bios linuxboot_dma_rom modules apic_page idx cfg (Nat.eqb idx 0) h) as [h1 [v|e|w]] eqn:Eb; [|done..].
  apply build_vm_devices in Eb as (_ & _ & Hc). unfold set_insert. case_bool_decide; [|done].
  destruct (register_devices _ _ _) as [m [[]|e|w]]; [|done..].
  destruct (setup_guest_local_apic_page _ _) as [h2 [[]|e|w]]; [|done..].
  case_bool_decide; [|done]. intros [= <- <-]. cbn. rewrite fmap_app. cbn. by rewrite Hc.
Qed.

Lemma init_Ok cfgs : forall idx s h s' h', init idx cfgs (s, h) = ((s', h'), Ok tt) ->
  contexts s' = contexts s ++ machine_contexts (length (vms s)) cfgs /\
  vm_cpus <$> vms s' = (vm_cpus <$> vms s) ++ (user_cpus <$> cfgs).
Proof.
  induction cfgs as [|cfg cfgs IH]; intros idx s h s' h'; cbn [init_virtual_machines machine_contexts].
  { intros [= <- <-]. by rewrite !app_nil_r. }
  rewrite st_bind_eq. destruct (add_machine idx cfg (s, h)) as [[s1 h1] [[]|e|w]] eqn:Ea; [|done..].
  apply add_machine_Ok in Ea as [Hc Hv]. intros Hi. destruct (IH _ _ _ _ _ Hi) as [Hc' Hv'].
  assert (length (vms s1) = S (length (vms s))) as Hl.
  { rewrite <- (length_fmap vm_cpus (vms s1)), Hv, length_app, length_fmap. cbn. lia. }
  rewrite Hc', Hv', Hc, Hv, Hl, <- !app_assoc. done.
Qed.

(** No core of a machine that was just built has reported, and it has few cores. *)
Definition unreported (v : VirtualMachine Device) : Prop := vm_cpus_ready v = 0 /\ (length (vm_cpus v) <= 7)%nat.

Lemma add_machine_unreported idx cfg s h s' h' : add_machine idx cfg (s, h) = ((s', h'), Ok tt) ->
  Forall unreported (vms s) -> Forall unreported (vms s').
Proof.
  unfold Machine.add_machine. destruct (build_vm bios linuxboot_dma_rom modules apic_page idx cfg (Nat.eqb idx 0) h) as [h1 [v|e|w]] eqn:Eb; [|done..].
  apply build_vm_cpus in Eb. unfold set_insert. case_bool_decide; [|done].
  destruct (register_devices _ _ _) as [m [[]|e|w]]; [|done..].
  destruct (setup_guest_local_apic_page _ _) as [h2 [[]|e|w]]; [|done..].
  case_bool_decide; [|done]. intros [= <- <-] Hv. cbn. apply Forall_app. split; [done|]. by constructor.
Qed.

Lemma init_unreported cfgs : forall idx s h s' h', init idx cfgs (s, h) = ((s', h'), Ok tt) ->
  Forall unreported (vms s) -> Forall unreported (vms s').
Proof.
  induction cfgs as [|cfg cfgs IH]; intros idx s h s' h'; cbn [init_virtual_machines]; [by intros [= <- <-]|].
  rewrite st_bind_eq. destruct (add_machine idx cfg (s, h)) as [[s1 h1] [[]|e|w]] eqn:Ea; [|done..].
  intros Hi Hv. eapply IH; [exact Hi|]. by eapply add_machine_unreported.
Qed.
End machines.

Lemma own_context_head core n cpus :
  head (filter (fun c => ctx_core_id c = core) (map (fun cpu => mkContext cpu n []) cpus)) =
  if decide (core ∈ cpus) then Some (mkContext core n []) else None.
Proof.
  induction cpus as [|cpu cpus IH]; cbn [map]; [by rewrite decide_False by apply not_elem_of_nil|].
  destruct (decide (cpu = core)) as [->|Hne].
  - rewrite filter_cons_True, decide_True by (done || left). done.
  - rewrite filter_cons_False, IH by done. destruct (decide (core ∈ cpus)) as [Hin|Hin].
    + by rewrite decide_True by (by right).
    + rewrite decide_False; [done|]. by intros [?|?]%elem_of_cons.
Qed.

(** A core belongs to the first machine that lists it. *)
Definition machine_of (core : Z) (cfgs : list UserVmConfig) : option nat :=
  fst <$> list_find (fun cfg => core ∈ user_cpus cfg) cfgs.

Lemma machine_contexts_head core cfgs : forall n,
  ctx_vm <$> head (filter (fun c => ctx_core_id c = core) (machine_contexts n cfgs)) =
  Nat.add n <$> machine_of core cfgs.
Proof.
  unfold machine_of. induction cfgs as [|cfg cfgs IH]; intros n; cbn [machine_contexts list_find]; [done|].
  rewrite filter_app, head_app, own_context_head. case_decide.
  - cbn. by rewrite Nat.add_0_r.
  - rewrite IH. destruct (list_find _ cfgs) as [[i c]|]; [|done]. cbn. f_equal. lia.
Qed.

Lemma machine_of_Some core cfgs : is_Some (machine_of core cfgs) <-> exists cfg, cfg ∈ cfgs /\ core ∈ user_cpus cfg.
Proof.
  unfold machine_of. rewrite fmap_is_Some. split.
  - intros [[i cfg] (Hi & Hc & _)%list_find_Some]. exists cfg. split; [by eapply list_elem_of_lookup_2|done].
  - intros (cfg & Hi & Hc). by eapply list_find_elem_of.
Qed.

(** The set the machines were built into, as the cores that are to run them find it. *)
Lemma listed_fresh (s : VirtualMachineSet Device) cfgs : Forall unreported (vms s) ->
  vm_cpus <$> vms s = user_cpus <$> cfgs -> (forall core, core_machine s core = machine_of core cfgs) -> fresh_set s.
Proof.
  intros Hu Hc Hof. split.
  - intros c i v Hi Hv. rewrite Hof in Hi. unfold machine_of in Hi. apply fmap_Some in Hi as ([j cfg] & (Hj & Hin & _)%list_find_Some & ->). cbn [fst] in Hv.
    assert ((vm_cpus <$> vms s) !! j = (user_cpus <$> cfgs) !! j) as He by (by rewrite Hc).
    rewrite !list_lookup_fmap, Hv, Hj in He. injection He as ->. exact Hin.
  - intros i v Hv. rewrite Forall_lookup in Hu. destruct (Hu i v Hv). split; [done|lia].
Qed.

(** ** Which processors are started *)

Lemma ap_targets_spec idx local_id assigned ids i a :
  0 <= idx -> idx + Z.of_nat (length ids) < 2 ^ 32 ->
  (i, a) ∈ ap_targets_from idx local_id assigned ids <->
  idx <= i /\ ids !! Z.to_nat (i - idx) = Some a /\ a <> local_id /\ assigned i = true.
Proof.
  revert idx. induction ids as [|x ids IH]; intros idx H0 Hl; cbn [ap_targets_from].
  { split; [intros []%not_elem_of_nil|]. by intros (_ & ? & _). }
  cbn [length] in Hl. unfold u32. rewrite wrap_small by (unfold is_u; lia).
  assert (forall P : Prop, P <-> (i = idx /\ a = x /\ a <> local_id /\ assigned i = true) \/ (i, a) ∈ ap_targets_from (idx + 1) local_id assigned ids ->
    P <-> idx <= i /\ (x :: ids) !! Z.to_nat (i - idx) = Some a /\ a <> local_id /\ assigned i = true) as Hcons.
  { intros P ->. rewrite IH by lia. split.
    - intros [(-> & -> & ? & ?)|(? & Hi & ? & ?)]; [rewrite Z.sub_diag; by split_and!|]. split_and!; [lia| |done..].
      by replace (Z.to_nat (i - idx)) with (S (Z.to_nat (i - (idx + 1)))) by lia.
    - intros (Hle & Hi & ? & ?). destruct (decide (i = idx)) as [->|Hne].
      + rewrite Z.sub_diag in Hi. injection Hi as ->. by left.
      + right. split_and!; [lia| |done..]. by replace (Z.to_nat (i - idx)) with (S (Z.to_nat (i - (idx + 1)))) in Hi by lia. }
  apply Hcons. destruct (Z.eqb_spec x local_id) as [->|Hne]; [naive_solver|].
  destruct (assigned idx) eqn:Ha; cbn [negb].
  - rewrite elem_of_cons. naive_solver.
  - split; [by right|]. intros [(-> & -> & _ & ?)|?]; [congruence|done].
Qed.

Lemma st_bind_Ok {S A B} (m : st S A) (f : A -> st S B) s s' b :
  (m ≫= f) s = (s', Ok b) -> exists s1 a, m s = (s1, Ok a) /\ f a s1 = (s', Ok b).
Proof. rewrite st_bind_eq. destruct (m s) as [s1 [a|e|w]]; [eauto|done..]. Qed.

Lemma st_expect_Ok {S A} (m : st S A) w s s' a : st_expect m w s = (s', Ok a) -> m s = (s', Ok a).
Proof. unfold st_expect. destruct (m s) as [s1 [x|e|p]]; cbn; [by intros [= -> ->]|done..]. Qed.

(** Invert one step of a chain of stateful binds. *)
Ltac inv_step H k a E := apply st_bind_Ok in H; destruct H as (k & a & E & H).

Lemma local_apic_init_sets {AC : ApicCpu} {TS : TimeSource} fuel s s' a :
  local_apic_init fuel s = (s', Ok a) -> LOCAL_APIC s' = Some a.
Proof.
  unfold local_apic_init. intros Hi. do 6 (let k := fresh in let x := fresh in let E := fresh in inv_step Hi k x E).
  inv_step Hi s1 x E. inv_step Hi s2 y E'. injection E' as <- <-. by injection Hi as <- <-.
Qed.

Section theorem.
Context {PB : PortBus} {HT : HostTsc} {LY : PerCoreLayout} {LL : PerCoreLayoutLaws} {AC : ApicCpu} {FH : FaultHandlers}.
Context {H : Type} `{HW : IoApicHw H} `{HL : !IoApicHwLaws H} `{HA : HostAlloc} `{GP : GuestPaging}.
Context (readings : nat -> Z) (parse_config : list Z -> option UserConfig).
Context (bios linuxboot_dma_rom : list Z) (apic_page : nat -> Z) (mem : Z -> Z) (vec : Z).
Notation setup := (kmain_setup readings parse_config bios linuxboot_dma_rom apic_page mem vec).
Implicit Types k : Kernel H.

(** A step on one component leaves the others alone. *)
Lemma on_time_Ok {A} (m : st HostTime A) k k' a : on_time m k = (k', Ok a) ->
  exists x, m (k_time k) = (x, Ok a) /\
  k' = mkKernel (k_idt k) x (k_percore k) (k_apic k) (k_io k) (k_ioapics k) (k_set k) (k_host k).
Proof. unfold on_time. destruct (m (k_time k)) as [x r]. intros [= <- ->]. by exists x. Qed.
Lemma on_percore_Ok {A} (m : st PerCore A) k k' a : on_percore m k = (k', Ok a) ->
  exists x, m (k_percore k) = (x, Ok a) /\
  k' = mkKernel (k_idt k) (k_time k) x (k_apic k) (k_io k) (k_ioapics k) (k_set k) (k_host k).
Proof. unfold on_percore. destruct (m (k_percore k)) as [x r]. intros [= <- ->]. by exists x. Qed.
Lemma on_apic_Ok {A} (m : st ApicCore A) k k' a : on_apic m k = (k', Ok a) ->
  exists x, m (k_apic k) = (x, Ok a) /\
  k' = mkKernel (k_idt k) (k_time k) (k_percore k) x (k_io k) (k_ioapics k) (k_set k) (k_host k).
Proof. unfold on_apic. destruct (m (k_apic k)) as [x r]. intros [= <- ->]. by exists x. Qed.
Lemma on_io_Ok {A} (m : st H A) k k' a : on_io m k = (k', Ok a) ->
  exists x, m (k_io k) = (x, Ok a) /\
  k' = mkKernel (k_idt k) (k_time k) (k_percore k) (k_apic k) x (k_ioapics k) (k_set k) (k_host k).
Proof. unfold on_io. destruct (m (k_io k)) as [x r]. intros [= <- ->]. by exists x. Qed.
Lemma on_machines_Ok {A} (m : st (VirtualMachineSet Device * Host) A) k k' a : on_machines m k = (k', Ok a) ->
  exists x y, m (k_set k, k_host k) = ((x, y), Ok a) /\
  k' = mkKernel (k_idt k) (k_time k) (k_percore k) (k_apic k) (k_io k) (k_ioapics k) x y.
Proof. unfold on_machines. destruct (m (k_set k, k_host k)) as [[x y] r]. intros [= <- ->]. by exists x, y. Qed.
Lemma lift_Ok {S A} (r : res A) (s s' : S) a : lift r s = (s', Ok a) -> s' = s /\ r = Ok a.
Proof. by intros [= -> ->]. Qed.

(** What the steps of [kmain_setup] do, each on its component and in their order. *)
Record set_up (fuel : nat) (info : BootInfo) k k' (madt : MADT) (strs : list (res Ics.t)) (cfg : UserConfig)
    (apic : LocalApic) (freq : Z) : Prop := {
  su_madt : kmain_madt mem info = Ok madt;
  su_structures : ics_list (ics madt) strs;
  su_config : exists raw, kmain_config mem info = Ok raw /\ parse_config raw = Some cfg;
  su_idt : k_idt k' = idt_init (k_idt k);
  su_time : init_global_time fuel (k_time k) = (k_time k', Ok tt);
  su_freq : frequency (k_time k') = Ok freq;
  su_percore : init_sections 0 vec (Z.of_nat (length (apic_ids_of strs))) (k_percore k) = (k_percore k', Ok tt);
  su_apic : @local_apic_init (Build_TimeSource readings freq) AC fuel (k_apic k) = (k_apic k', Ok apic);
  su_ioapics : k_ioapics k' = ioapics_of (k_io k) strs;
  su_gsi : map_gsi_vector (k_ioapics k') gsi_UART vector_UART 0 (k_io k) = (k_io k', Ok tt);
  su_machines : exists start, system_start_time (k_time k') = Ok start /\
    @init_virtual_machines HA (Build_TimeSource readings freq) GP apic 0 start bios linuxboot_dma_rom
      (boot_module mem <$> boot_modules info) apic_page 0 (user_vms cfg) (k_set k, k_host k) = ((k_set k', k_host k'), Ok tt)
}.

Lemma on_hw_apic_id (s : ApicCore) : exists id, on_hw apic_id s = (s, Ok id).
Proof. destruct s. eexists. reflexivity. Qed.

Lemma kmain_setup_Ok fuel info k k' targets : setup fuel info k = (k', Ok targets) ->
  exists madt strs cfg apic freq local_id, set_up fuel info k k' madt strs cfg apic freq /\
    (on_hw apic_id (k_apic k')).2 = Ok local_id /\
    targets = ap_targets local_id (is_assigned_core_id (k_set k')) (apic_ids_of strs).
Proof.
  intros Hs. unfold kmain_setup in Hs. inv_step Hs k0 x E. injection E as <- <-.
  inv_step Hs k1 x E. apply on_time_Ok in E as (tm & Ht & ->). apply st_expect_Ok in Ht. destruct x as [].
  inv_step Hs k2 madt E. apply lift_Ok in E as [-> Hmadt]. inv_step Hs k2 strs E. apply lift_Ok in E as [-> Hl].
  cbv zeta in Hs. inv_step Hs k3 x E. apply on_percore_Ok in E as (pc & Hp & ->). apply st_expect_Ok in Hp. destruct x as [].
  inv_step Hs k4 y E. injection E as <- <-. inv_step Hs k5 ts E. apply lift_Ok in E as [-> Hts].
  apply bind_Ok in Hts as (freq & Hf & Hts). injection Hts as <-.
  inv_step Hs k6 apic E. apply on_apic_Ok in E as (ap & Ha & ->). apply st_expect_Ok in Ha.
  inv_step Hs k7 ioapics E. apply on_io_Ok in E as (io & Hio & ->). apply st_expect_Ok, init_ioapics_Ok in Hio as [-> ->].
  inv_step Hs k8 z E. injection E as <- <-. inv_step Hs k9 z E. apply on_io_Ok in E as (io & Hg & ->).
  apply st_expect_Ok in Hg. destruct z as []. inv_step Hs k10 raw E. apply lift_Ok in E as [-> Hraw].
  inv_step Hs k10 cfg E. apply lift_Ok in E as [-> Hcfg]. inv_step Hs k12 z E. injection E as <- <-.
  inv_step Hs k13 t0 E. apply lift_Ok in E as [-> Hstart]. inv_step Hs k14 u E. apply on_machines_Ok in E as (s' & h' & Hm & ->).
  apply st_expect_Ok in Hm. destruct u as []. inv_step Hs k15 local_id E. apply on_apic_Ok in E as (ap' & Hid & ->).
  inv_step Hs k16 z E. injection E as <- <-. injection Hs as <- <-.
  cbn [k_idt k_time k_percore k_apic k_io k_ioapics k_set k_host] in *.
  destruct (on_hw_apic_id ap) as [id Eid]. rewrite Eid in Hid. injection Hid as <- <-.
  exists madt, strs, cfg, apic, freq, id. split; [|by rewrite Eid]. split; cbn; try done.
  - destruct (ics_collect fuel (ics madt)) eqn:E; [|done]. injection Hl as <-. by eapply ics_collect_list.
  - exists raw. split; [done|]. destruct (parse_config raw); [by injection Hcfg as <-|done].
  - by exists t0.
Qed.

Lemma find_entry_new rsdt sig sdt : find_entry mem rsdt sig = Ok sdt -> exists a, sdt_new mem a = Ok sdt.
Proof.
  unfold find_entry, rsdt_entries. destruct (match rsdt with RsdtTable _ => _ | _ => _ end) as [w t].
  induction (entry_addresses (length t / w) w t) as [|a l IH]; cbn [map find_sdt]; [done|].
  destruct (sdt_new mem a) as [x|e|p] eqn:E; [|done..]. case_bool_decide; [|done]. intros [= <-]. by exists a.
Qed.

(** Memory of bytes gives tables of bytes, hence unsigned interrupt bases. *)
Lemma kmain_madt_bytes info madt : (forall a, is_byte (mem a)) -> kmain_madt mem info = Ok madt -> Forall is_byte (ics madt).
Proof.
  intros Hb. unfold kmain_madt. intros (rsdp & _ & Hm)%bind_Ok. apply bind_Ok in Hm as (rsdt & _ & Hm).
  apply bind_Ok in Hm as (sdt & Hf & Hm). assert (exists a, sdt_new mem a = Ok sdt) as [a Hs].
  { destruct (find_entry mem rsdt _) as [x|e|w] eqn:E; [|done..]. injection Hf as ->. by eapply find_entry_new. }
  assert (Forall is_byte (table sdt)) as Ht.
  { unfold sdt_new in Hs. inv_res. cbn [table].
    match goal with Hx : slice _ _ _ = Some _ |- _ => apply slice_Some in Hx as [_ ->] end.
    apply Forall_take, Forall_drop. unfold raw_parts. apply Forall_map, Forall_forall. intros i _. apply Hb. }
  unfold madt_new in Hm. inv_res. cbn [ics].
  match goal with Hx : slice _ _ _ = Some _ |- _ => apply slice_Some in Hx as [_ ->] end. by apply Forall_take, Forall_drop.
Qed.

Lemma ioapics_unsigned (h : H) bytes strs : Forall is_byte bytes -> ics_list bytes strs ->
  Forall (fun a => 0 <= gsi_base a) (ioapics_of h strs).
Proof.
  intros Hb Hl. apply Forall_forall. intros a (r & Hr & Ha)%list_elem_of_omap.
  destruct r as [[]| |]; try done. destruct (_ =? _); [|done]. injection Ha as <-. by eapply ics_list_gsi.
Qed.

(** The sections of the processors after [init_sections], and the index the boot processor finds in its own. *)
Lemma boot_sections n s s' : placed vec n -> init_sections 0 vec (Z.of_nat n) s = (s', Ok tt) ->
  let image := load PER_CORE_START section_size (ram s) in
  Rep vec n [O] s' (fun j => if decide (j = 0%nat) then pc_apply 0 image InitSegment else image) /\
  read_core_id 0 s' = (s', Ok 0).
Proof.
  intros Hp Hi image. destruct (init_sections_rep vec n s Hp) as (s1 & E & HR). rewrite E in Hi. injection Hi as ->.
  fold image in HR. split; [exact HR|]. unfold read_core_id.
  rewrite st_bind_eq, (get_per_core_rep vec n [O] s' _ 0 CORE_ID core_id_size Hp HR); [|left|exact core_id_inside].
  rewrite decide_True by done. unfold lift.
  pose proof (core_id_of_apply 0 image InitSegment) as Hc. unfold core_id_of in Hc.
  rewrite Hc; [done|unfold is_u; lia|apply length_load|done|by right].
Qed.

(** C15: the configured cores, and no others, are started, on a machine that is set up.  When
    [kmain] reaches its start-up loop: the set holds the machines of the configuration file in its
    order with the cores it lists, none of which has reported; every core belongs to the first
    machine that lists it; and the processors about to be started are exactly those that
    the MADT, read to its end, lists, other than the boot processor, whose index some machine of the
    configuration lists.  So a core that is listed twice runs only the first machine, and one the MADT does
    not have is never started.  The interrupt table is installed, the clock calibrated and started, the local APIC
    initialised by that clock.  Every processor the MADT lists has a per-core section of its own, a copy of the linker's,
    and the boot processor reads index 0 in it, where the allocator's memory for them lies apart from
    the linker section ([placed]).  The I/O APICs are those of the MADT that have the
    supported version, and the first of them that claims the serial port's interrupt holds an
    unmasked entry that sends its vector to APIC 0.  Memory holds bytes, and which processors are started
    is stated for fewer than [2 ^ 32] of them, the range of a core index. *)
Theorem configured_cores_start fuel info k k' targets :
  (forall a, is_byte (mem a)) -> k_set k = set_new -> setup fuel info k = (k', Ok targets) ->
  exists madt strs raw cfg local_id apic freq,
    let ids := apic_ids_of strs in
    let image := load PER_CORE_START section_size (ram (k_percore k)) in
    kmain_madt mem info = Ok madt /\ ics_list (ics madt) strs /\
    kmain_config mem info = Ok raw /\ parse_config raw = Some cfg /\ (on_hw apic_id (k_apic k')).2 = Ok local_id /\
    vm_cpus <$> vms (k_set k') = user_cpus <$> user_vms cfg /\ fresh_set (k_set k') /\
    (forall core, ctx_vm <$> context_by_core_id (k_set k') core = machine_of core (user_vms cfg)) /\
    (Z.of_nat (length ids) < 2 ^ 32 -> forall core id, (core, id) ∈ targets <->
       0 <= core /\ ids !! Z.to_nat core = Some id /\ id <> local_id /\
       exists vm, vm ∈ user_vms cfg /\ core ∈ user_cpus vm) /\
    k_idt k' = idt_init (k_idt k) /\
    init_global_time fuel (k_time k) = (k_time k', Ok tt) /\ frequency (k_time k') = Ok freq /\
    @local_apic_init (Build_TimeSource readings freq) AC fuel (k_apic k) = (k_apic k', Ok apic) /\
    LOCAL_APIC (k_apic k') = Some apic /\
    (placed vec (length ids) ->
       Rep vec (length ids) [O] (k_percore k') (fun j => if decide (j = 0%nat) then pc_apply 0 image InitSegment else image) /\
       read_core_id 0 (k_percore k') = (k_percore k', Ok 0)) /\
    k_ioapics k' = ioapics_of (k_io k) strs /\
    (exists a, head (filter (fun a => claims_gsi (k_io k) a gsi_UART) (k_ioapics k')) = Some a /\
       read_ioredtbl a (gsi_UART - gsi_base a) (k_io k') =
         (k_io k', Ok (mkEntry vector_UART IoApic.Fixed IoApic.Physical IoApic.Idle IoApic.ActiveHigh false IoApic.Edge false 0))).
Proof.
  intros Hb Hk Hs. apply kmain_setup_Ok in Hs as (madt & strs & cfg & apic & freq & local_id & HS & Hid & ->).
  destruct HS as [Hmadt Hl (raw & Hraw & Hcfg) Hidt Ht Hf Hp Ha Hio Hg (start & _ & Hm)]. rewrite Hk in Hm.
  pose proof (init_unreported _ _ _ _ _ _ _ _ _ _ _ _ _ Hm (Forall_nil_2 _)) as Hun. apply init_Ok in Hm as [Hctx Hvms].
  assert (forall core, ctx_vm <$> context_by_core_id (k_set k') core = machine_of core (user_vms cfg)) as Hof.
  { intros core. unfold context_by_core_id. rewrite Hctx. cbn [contexts set_new app vms length].
    rewrite machine_contexts_head. by destruct (machine_of core (user_vms cfg)). }
  exists madt, strs, raw, cfg, local_id, apic, freq. cbv zeta. split_and!; try done.
  - by apply (listed_fresh _ (user_vms cfg)).
  - intros Hlen core id. unfold ap_targets. rewrite ap_targets_spec by (done || lia). rewrite Z.sub_0_r.
    unfold is_assigned_core_id. rewrite bool_decide_eq_true, <- (fmap_is_Some ctx_vm), Hof, machine_of_Some. done.
  - by eapply local_apic_init_sets.
  - intros Hpl. by apply boot_sections.
  - pose proof (map_gsi_vector_correct (k_ioapics k') gsi_UART vector_UART 0 (k_io k)) as Hc. rewrite Hg in Hc.
    assert (Forall (fun a => 0 <= gsi_base a) (k_ioapics k')) as Hu
      by (rewrite Hio; eapply ioapics_unsigned; [|exact Hl]; by eapply kmain_madt_bytes).
    specialize (Hc ltac:(done) ltac:(done) Hu). destruct (head _) as [a|]; [|by destruct Hc]. exists a. split; [done|].
    case_bool_decide; [apply Hc|]. by destruct Hc as (_ & m & ?).
Qed.
End theorem.

(** ** A machine that boots *)

(** The boot processor has APIC id 0. *)
Definition boot_apic : ApicCpu := {|
  feature_x2apic := Some true;
  apic_rdmsr m hw := if m =? IA32_X2APIC_APICID then 0 else @apic_rdmsr toy_apic m hw |}.

Definition boot_madt : list Z :=
  match encode_sdt (mkMadtBuilder (Some 0xfee00000) None
    [Ics.LocalApic 0 0 1; Ics.LocalApic 1 2 1; Ics.LocalApic 2 4 1; Ics.IoApic 0 0xfec00000 0]) 128 with
  | Ok bytes => bytes | _ => [] end.
Definition boot_xsdt : list Z :=
  match write_sdt_header [0x58; 0x53; 0x44; 0x54] 1 0 44 (replicate 36 0 ++ le_bytes 8 0x8000) with
  | Ok bytes => bytes | _ => [] end.
Definition boot_ram : gmap Z Z :=
  store 0x7000 boot_xsdt (store 0x8000 boot_madt (store 0x100000 demo_kernel (store 0x200000 [1; 2; 3] ∅))).
Definition boot_mem (a : Z) : Z := default 0 (boot_ram !! a).

Definition boot_info : BootInfo := mkBootInfo
  [mkRawModule (Some "kernel"%string) 0x100000 8192; mkRawModule (Some "initramfs"%string) 0x200000 3;
   mkRawModule (Some "mythril.cfg"%string) 0x210000 2] (Some (RsdpV2 [] 0x7000)).

(** The second machine lists core 1 again and core 7, which does not exist. *)
Definition boot_config : UserConfig := mkUserConfig 1 [demo_vm [0; 1]; demo_vm [1; 7]].

Definition boot_kernel : @Kernel toy_bus reg_file :=
  mkKernel IDT (mkHostTime toy_bus (mkToy 100 1 T2Unknown) None None None) (mkPerCore ∅ None ∅)
    (mkApicCore (mkApicHw (mkHw 0 []) []) None) ∅ [] set_new demo_host.

Notation booted :=
  (@kmain_setup toy_bus toy_tsc small_layout boot_apic some_handlers reg_file reg_file_hw pool_alloc linear_entry_address
    (fun n => Z.of_nat n * 1000) (fun _ => Some boot_config) demo_bios [0x55; 0xaa] demo_page boot_mem 0x2000
    2060 boot_info boot_kernel).

Lemma bytes_dec l : forallb (fun b => (0 <=? b) && (b <? 256)) l = true -> Forall is_byte l.
Proof.
  intros Hl. apply Forall_forall. intros x Hx. rewrite forallb_forall in Hl.
  specialize (Hl x ltac:(by apply list_elem_of_In)). unfold is_byte, is_u. lia.
Qed.

Lemma store_bytes a bs m : Forall is_byte bs -> (forall x, is_byte (default 0 (m !! x))) ->
  forall x, is_byte (default 0 (store a bs m !! x)).
Proof.
  intros Hb Hm x. rewrite lookup_store. case_decide; [|done].
  destruct (bs !! Z.to_nat (x - a)) as [y|] eqn:E; cbn; [by eapply (Forall_lookup_1 _ _ _ _ Hb)|unfold is_byte, is_u; lia].
Qed.

Lemma boot_mem_bytes a : is_byte (boot_mem a).
Proof.
  unfold boot_mem, boot_ram. revert a. repeat (apply store_bytes; [apply bytes_dec; vm_compute; reflexivity|]).
  intros x. rewrite lookup_empty. unfold is_byte, is_u. cbn. lia.
Qed.

Lemma boot_processors madt strs : kmain_madt boot_mem boot_info = Ok madt -> ics_list (ics madt) strs ->
  length (apic_ids_of strs) = 3%nat.
Proof.
  intros Hm Hl.
  assert (match kmain_madt boot_mem boot_info with Ok m => (fun l => length (apic_ids_of l)) <$> ics_collect 10 (ics m) | _ => None end
    = Some 3%nat) as Hc by (vm_compute; reflexivity).
  rewrite Hm in Hc. destruct (ics_collect 10 (ics madt)) as [l|] eqn:E; [|discriminate Hc]. injection Hc as <-.
  apply ics_collect_list in E. by rewrite (ics_list_unique _ _ _ Hl E).
Qed.

Lemma configured_cores_start_witness :
  exists k' targets a, booted = (k', Ok targets) /\ targets = [(1, 2)] /\
    ctx_vm <$> context_by_core_id (k_set k') 1 = Some 0%nat /\
    head (filter (fun a => claims_gsi (∅ : reg_file) a gsi_UART) (k_ioapics k')) = Some a /\
    read_core_id 0 (k_percore k') = (k_percore k', Ok 0).
Proof.
  destruct booted as [k' r] eqn:E.
  assert (r = Ok [(1, 2)]) as -> by (change r with (k', r).2; rewrite <- E; vm_compute; reflexivity).
  destruct (@configured_cores_start toy_bus toy_tsc small_layout small_layout_laws boot_apic some_handlers reg_file reg_file_hw
    reg_file_laws pool_alloc linear_entry_address
    (fun n => Z.of_nat n * 1000) (fun _ => Some boot_config) demo_bios [0x55; 0xaa] demo_page boot_mem 0x2000
    2060 boot_info boot_kernel k' [(1, 2)])
    as (madt & strs & raw & cfg & id & apic & freq & Hmadt & Hl & _ & Hcfg & _ & _ & _ & Hof & _ & _ & _ & _ & _ & _ & Hp & _ & a & Ha & _).
  - exact boot_mem_bytes.
  - reflexivity.
  - exact E.
  - exists k', [(1, 2)], a. split; [reflexivity|]. split; [reflexivity|]. split; [|split; [exact Ha|]].
    + rewrite Hof. injection Hcfg as <-. reflexivity.
    + apply Hp. rewrite (boot_processors madt strs Hmadt Hl). unfold placed, apart, isize_max.
      change section_size with 8%nat. cbn [PER_CORE_START small_layout]. lia.
Defined.
